(* ===== verification/_CoqProject ===== *)
-Q . S2P
Prelude.v
Memory.v
Machine.v
Pm.v
Vm.v
Heap.v
Queue.v
Desc.v
Proc.v
Load.v
Window.v
Syscall.v
Ram.v
Element.v
Reply.v
Receive.v
Enqueue.v
Send.v
Mailbox.v
System.v
Sar.v
SarTool.v
Text.v
Console.v
Lock.v
Panic.v
User.v
Devices.v
Programs.v
Smp.v
Kernel.v
Kmain.v
