(* ===== verification/Prelude.v ===== *)
(** * Leoman: the kernel, its servers and its tools, and what they keep

    Leoman is a small i386 kernel with message passing, a screen driver, a
    keyboard server, a shell, a C library and a tool for its archive format.
    This library embeds its C code as functions on explicit states and proves
    what the parts promise, down to the bytes of page tables, block headers
    and packets.  File names below are under src/.

    ** How the code is read

    A C integer is a [Z] in the range of its type, with the wrap-around written
    out ([u32], [u16], [u8], [s32], [+w]).  A routine is a function in the
    monad [M S] of this file: it returns with a new state, stops the machine
    ([Halted]), touches an address without a mapping ([Faulted]), does
    something C leaves undefined ([Undef]: a NULL followed, an array left), or
    runs out of the bound of an unguarded loop ([NoFuel]).  A part runs on its
    share of a larger state through [zoom].  Pointers to functions and data
    fixed by the linker are addresses, given as parameters.  C memory is
    reached through the class [MemOps] of Memory.v, and theorems about it ask
    for [MemRegion]: the addresses behave as RAM.  Machine.v discharges this
    for memory behind the page tables, [flat_ops] for a plain map.

    ** The parts, and where they are

    - Memory.v: byte and word accesses; memset, memcpy, strlen, strcmp and
      streq of kernel/kernel.c.  Machine.v: physical memory, the two-level
      page walk, cr3 and port output.
    - Pm.v: kernel/pm.c, the bitmap of page frames.  Vm.v: kernel/vm.c, page
      tables edited through the recursive window.  Heap.v: kernel/heap.c, the
      block list in memory.  Queue.v: the STAILQ macros of include/queue.h.
    - Desc.v: kernel/gdt.c, tss.c and idt.c, segments, gates, handler tables
      and the dispatchers.  Panic.v: screen_of_death of idt.c.
    - Proc.v: kernel/proc.c and elf.c, the process table, the scheduler,
      creating, loading and entering processes; its [kst] is the kernel's
      state.  Load.v: what loading does to the address space.
    - Syscall.v: kernel/syscall.c, msg_dispatcher.c and the packets of
      lib/libipc/ipc.c.  Window.v: the copy into another address space, and
      [changes], what a step leaves alone.  Ram.v: the kernel's data behind the
      page tables, where the queue and the heap are.  Element.v: an element of
      a queue while it is filled in.  The branches of the system calls, whole:
      Send.v (to a process that waits), Receive.v (a message is there),
      Enqueue.v (a receive that waits, a send that is queued), Reply.v.
      Mailbox.v: a specification they refine.
      System.v: all of it as a transition system over the process table.
    - Text.v, Console.v: the text screen, kernel/vga.c, print.c and com.c.
      Lock.v: the print lock of include/kernel/smp.h, with the steps of prints
      in any order.
      User.v: drivers/screen.c and the library's messages.  Devices.v:
      kernel/timer.c, kbd.c, pci.c and servers/kbd.c.  Programs.v: exec/shell.c
      over lib/libc and lib/libipc, with the servers answering and keyboard
      interrupts between any two of their steps.
    - Sar.v: the archive format of tools/sar.c and kernel/sar.c.  SarTool.v:
      the tool's main over a host with files.
    - Smp.v: kernel/smp.c, mmio.c and kmain_secondary_cores.  Kernel.v:
      adjust_the_memory_map.  Kmain.v: kmain, all the parts in order.

    Interfaces: [MemOps] and [MemRegion] between memory and the heap, the
    queues, the archive and the formatter; [Ipc] and [Services] (Programs.v)
    between programs and the system; [Stable] (System.v) between the
    operations on the process table and what is to be kept of it.

    ** What is shown

    - Frames: pm_alloc and pm_alloc_cont are first-fit allocation on the set of
      free pages, hand no page out twice and are safe for all arguments of
      their types; pm_init takes the last of the longest areas.
    - Address spaces: map_page sets address and rights of one page, map_pages
      maps a range, and nothing else; vm_get_phys_mapping agrees with the
      processor; vm_alloc_pages_at gives each page a frame of its own, with the
      bytes it had; elf_load and proc_load put a program where it asks to be,
      its pages being the physical ones with the image's addresses.
    - Queues: insertions and removals anywhere in a tail queue act as on a
      list; so do joining, swapping and walking queues.
    - Heap: kalloc refines first fit on the list of blocks; with requests of
      one size all payloads are disjoint and kfree gives them back; the size
      test admits blocks that are too small.
    - Processes: the search is round robin and fair, switching saves and
      restores what it must, a new process takes a free slot.  In every state
      reached while the kernel's own memory is left alone the table keeps its
      invariant, and processes last.
    - Messages: what send, receive and reply do to the processes involved;
      for each branch of the three, on any kernel that keeps its data apart
      from the two processes' memory, what arrives where, what the element in
      the queue then says, what becomes of queue, heap and process table, and
      that nothing else changed; so that each branch does to a mailbox, a list
      of packets, what it is for; the case where a copy faults.
    - Interrupts: the dispatcher runs a handler in its address space and
      acknowledges; forwarding installs one; every vector leads to its stub
      when kmain enters the first process.
    - Output and programs: numbers read back as printed, the screens stay in
      bounds, puts sends stale bytes along, and the shell shows, through the
      kernel's table, the servers and the library together, for each turn of
      its loop the last key pressed before the keyboard server read it.
    - The print lock: texts never mix, every print can be finished, and how a
      print of idle's blocks all others for ever.
    - Archive: what the tool packs it lists and unpacks, and the kernel finds.
    - Start: how the memory map is split and where it is overrun, the walk
      over the firmware's table, and what kmain leaves: tables, processes,
      images, and how the first process is entered.

    ** What is assumed of memory

    Two things the code relies on and does not see to are hypotheses.
    - The kernel's own data is apart from what processes and system calls
      write.  The process table ([ptable] of Proc.v), the descriptor and
      handler tables and the flags are values beside memory; of the table only
      the queue heads are in memory, where the queue macros point to them.  In
      the program all of it is memory: syscall.c copies to the addresses its
      caller gives, unchecked (lines 81, 150, 181), and MSG_MAP_MEMORY
      (msg_dispatcher.c:62) maps any physical page into a process.  What the
      model cannot show is a write that reaches the table; [kstep] (System.v)
      alone would let it happen without effect.  So reachability, the lasting
      of processes and the print lock's end are stated for steps that leave
      the kernel's own addresses as they were ([keeps_own]), and the theorems
      on single system calls ask that the data lies apart.
    - Frames that are free hold zeroes ([inv_zero] of Vm.v).  Neither pm.c nor
      vm.c clears a page; a new page table needs a clear frame.  What a process
      gets as stack is stated as what its frames held.

    ** Bounds

    Loops guarded by a counter recurse on it.  The others take fuel.  The heap
    walk needs one step per block: at most 1366 headers of 12 bytes fit 16
    KiB.  elf_load takes 65537, one more than the 16-bit number of program
    headers; the configuration table 65536 entries.  Walks over strings and
    archives ask for fuel above the lengths ([enough]); waits for a device ask
    that it gets ready within the fuel ([ready], [awaited]).  No theorem takes
    [NoFuel] for success; those of the form "if it returns" are about runs
    through arbitrary memory, and their witnesses run.

    ** Not modelled

    Assembly (boot/, the stubs and the start-up code of the other processors),
    the TLB and the accessed and dirty bits, the diagnostics the kernel's
    parts print on their way, and writes that reach the kernel's own data
    through a system call or a mapping.  The endless loops of
    the servers, the dispatcher and idle are taken one turn at a time, the
    shell's for any number of turns.  drivers/angle.c only burns time.
    include/queue.h is FreeBSD's header: only its tail queues are here.
    What is outside the code is a parameter: port reads, the PCI space, the
    APIC, the other processors, the host's permissions and basename. *)

From Stdlib Require Strings.Byte.
From coqutil Require Export Byte.
From coqutil Require Export Word.LittleEndianList.
From stdpp Require Export base tactics list gmap numbers option.

#[export] Set Default Goal Selector "!".
#[export] Set Warnings "-clear-no-such-hyp".
#[export] Set Warnings "-notation-for-abbreviation".
Global Open Scope Z_scope.

(** ** Machine integers

    Every C integer of width [w] is a [Z] in [0 .. 2^w), with the wrap-around
    written out at each arithmetic operation that can overflow. *)

Definition u32 (z : Z) : Z := z mod 4294967296.
Definition u16 (z : Z) : Z := z mod 65536.
Definition u8 (z : Z) : Z := z mod 256.

(** [(int)x] for a 32-bit pattern. *)
Definition s32 (z : Z) : Z := (z + 2147483648) mod 4294967296 - 2147483648.

Declare Scope word_scope.
Delimit Scope word_scope with word.
Notation "a +w b" := (u32 (a + b)) (at level 50, left associativity) : word_scope.
Notation "a -w b" := (u32 (a - b)) (at level 50, left associativity) : word_scope.
Notation "a *w b" := (u32 (a * b)) (at level 40, left associativity) : word_scope.
Global Open Scope word_scope.

(** [x & mask] is non-zero: the truth value of [if (x & mask)]. *)
Definition has (x mask : Z) : bool := negb (Z.land x mask =? 0).

(** include/kernel/common.h: the size macros. *)
Definition KiB (n : Z) : Z := u32 (1024 * n).
Definition MiB (n : Z) : Z := u32 (1048576 * n).

(** ** Outcomes of kernel code

    A kernel routine either returns with a new state or stops the machine:
    [Halted] is [halt()] (cli; hlt), [Faulted va] an access to an address
    with no mapping (the handler of vector 14 hangs), [Undef] a C undefined
    behaviour such as using the NULL a lookup returned, and [NoFuel] the
    exhaustion of the iteration bound given to an unguarded loop. *)

Inductive outcome (S A : Type) : Type :=
| Ret (a : A) (s : S)
| Halted
| Faulted (va : Z)
| Undef
| NoFuel.
Arguments Ret {S A} a s.
Arguments Halted {S A}.
Arguments Faulted {S A} va.
Arguments Undef {S A}.
Arguments NoFuel {S A}.

Definition M (S A : Type) : Type := S -> outcome S A.

#[export] Instance M_ret S : MRet (M S) := fun A a s => Ret a s.
#[export] Instance M_bind S : MBind (M S) := fun A B k m s =>
  match m s with
  | Ret a s' => k a s'
  | Halted => Halted
  | Faulted va => Faulted va
  | Undef => Undef
  | NoFuel => NoFuel
  end.

Definition get {S} : M S S := fun s => Ret s s.
Definition put {S} (s : S) : M S unit := fun _ => Ret tt s.
Definition modify {S} (f : S -> S) : M S unit := fun s => Ret tt (f s).
Definition halt {S A} : M S A := fun _ => Halted.
Definition undef {S A} : M S A := fun _ => Undef.
Definition nofuel {S A} : M S A := fun _ => NoFuel.

(** Running code of a component on a part of a larger state. *)
Definition zoom {S T A} (pr : S -> T) (up : T -> S -> S) (m : M T A) : M S A := fun s =>
  match m (pr s) with
  | Ret a t => Ret a (up t s)
  | Halted => Halted
  | Faulted va => Faulted va
  | Undef => Undef
  | NoFuel => NoFuel
  end.

(** [for (i = 0; i < n; i++) body(i)], with the index counted up from [i]. *)
Fixpoint for_up {S} (n : nat) (i : Z) (body : Z -> M S unit) : M S unit :=
  match n with
  | O => mret tt
  | Datatypes.S n' => body i ≫= fun _ => for_up n' (i + 1) body
  end.

(** A loop of steps that never stop the machine keeps its invariant. *)
Lemma for_up_inv {S} (I : Z -> S -> Prop) n i body s :
  I i s -> (forall j t, i <= j < i + Z.of_nat n -> I j t -> exists t', body j t = Ret tt t' /\ I (j + 1) t') ->
  exists s', for_up n i body s = Ret tt s' /\ I (i + Z.of_nat n) s'.
Proof.
  revert i s. induction n as [|n IH]; intros i s Hi Hb; cbn [for_up].
  - exists s. split; [done|]. by rewrite Z.add_0_r.
  - destruct (Hb i s) as (s1 & H1 & Hi1); [lia|done|].
    destruct (IH (i + 1) s1 Hi1) as (s2 & H2 & Hi2); [intros j t Hj; apply Hb; lia|].
    exists s2. split.
    + unfold mbind, M_bind. by rewrite H1.
    + by replace (i + Z.of_nat (Datatypes.S n)) with (i + 1 + Z.of_nat n) by lia.
Qed.

(** A loop on a part of the state, when the part is a proper field. *)
Lemma for_up_zoom {S T} (pr : S -> T) (up : T -> S -> S) n i (f : Z -> M T unit) s :
  (forall s, up (pr s) s = s) -> (forall t s, pr (up t s) = t) -> (forall t t' s, up t (up t' s) = up t s) ->
  for_up n i (fun x => zoom pr up (f x)) s = zoom pr up (for_up n i f) s.
Proof.
  intros Hid Hget Hput. revert i s. induction n as [|n IH]; intros i s; cbn [for_up].
  - unfold zoom, mret, M_ret. by rewrite Hid.
  - unfold mbind, M_bind, zoom. destruct (f i (pr s)) as [[] t | | | |]; try reflexivity.
    unfold zoom in IH. rewrite IH, Hget. destruct (for_up n (i + 1) f t); [by rewrite Hput|reflexivity..].
Qed.

Lemma for_up_ext {S} n i (f g : Z -> M S unit) s :
  (forall j t, i <= j < i + Z.of_nat n -> f j t = g j t) -> for_up n i f s = for_up n i g s.
Proof.
  revert i s. induction n as [|n IH]; intros i s H; cbn [for_up]; [done|].
  unfold mbind, M_bind. rewrite H by lia. destruct (g i s); try reflexivity. apply IH. intros j t Hj. apply H. lia.
Qed.

Lemma bind_Ret {S A B} (m : M S A) (k : A -> M S B) s a s' :
  m s = Ret a s' -> (m ≫= k) s = k a s'.
Proof. intros H. unfold mbind, M_bind. by rewrite H. Qed.

Lemma bind_Undef {S A B} (m : M S A) (k : A -> M S B) s : m s = Undef -> (m ≫= k) s = Undef.
Proof. intros H. unfold mbind, M_bind. by rewrite H. Qed.

(** Whether a run returns, as a boolean to be evaluated. *)
Definition returns {S A} (m : M S A) (s : S) : bool := match m s with Ret _ _ => true | _ => false end.
Lemma returns_Ret {S A} (m : M S A) s : returns m s = true -> exists a s', m s = Ret a s'.
Proof. unfold returns. destruct (m s) as [a s'| | | |]; try discriminate. eauto. Qed.

(** What can be evaluated of a run, without writing its last state down. *)
Lemma run_result {S A B} (f : A -> S -> B) (o : outcome S A) b :
  match o with Ret a s => Some (f a s) | _ => None end = Some b -> exists a s, o = Ret a s /\ f a s = b.
Proof. destruct o as [a s| | | |]; try discriminate. intros [= <-]. by exists a, s. Qed.

Lemma bind_inv {S A B} (m : M S A) (k : A -> M S B) s b s'' :
  (m ≫= k) s = Ret b s'' -> exists a s', m s = Ret a s' /\ k a s' = Ret b s''.
Proof. unfold mbind, M_bind. destruct (m s) eqn:E; try discriminate. eauto. Qed.

Lemma ret_inv {S A} (a b : A) (s s' : S) : (mret a : M S A) s = Ret b s' -> a = b /\ s = s'.
Proof. unfold mret, M_ret. by intros [= -> ->]. Qed.

Lemma ret_inj {S A} (a b : A) (s s' : S) : Ret a s = Ret b s' -> a = b /\ s = s'.
Proof. by intros [= -> ->]. Qed.

(** ** Arithmetic automation *)

Ltac zdm := Z.div_mod_to_equations; lia.
Ltac zmods := repeat (rewrite Z.mod_small by lia).

Create HintDb leoman.

Lemma u32_range z : 0 <= u32 z < 4294967296.
Proof. apply Z.mod_pos_bound. lia. Qed.
Lemma u32_small z : 0 <= z < 4294967296 -> u32 z = z.
Proof. apply Z.mod_small. Qed.
Lemma u32_idem z : u32 (u32 z) = u32 z.
Proof. apply Zmod_mod. Qed.
Lemma u8_idem a : u8 (u8 a) = u8 a.
Proof. apply Zmod_mod. Qed.
Lemma u32_add_l a b : u32 (u32 a + b) = u32 (a + b).
Proof. unfold u32. apply Zplus_mod_idemp_l. Qed.
Lemma u32_add_r a b : u32 (a + u32 b) = u32 (a + b).
Proof. unfold u32. apply Zplus_mod_idemp_r. Qed.
Lemma u32_sub_l a b : u32 (u32 a - b) = u32 (a - b).
Proof. unfold u32. apply Zminus_mod_idemp_l. Qed.
Lemma u32_sub_r a b : u32 (a - u32 b) = u32 (a - b).
Proof. unfold u32. apply Zminus_mod_idemp_r. Qed.

Create Rewrite HintDb leo.
#[export] Hint Rewrite u32_idem u32_add_l u32_add_r u32_sub_l u32_sub_r : leo.
#[export] Hint Resolve u32_range : leoman.

(** ** Bits and page alignment *)

Lemma land_ones_mod z n : 0 <= n -> Z.land z (Z.ones n) = z mod 2 ^ n.
Proof. apply Z.land_ones. Qed.

Lemma land_fff z : Z.land z 4095 = z mod 4096.
Proof. change 4095 with (Z.ones 12). by rewrite Z.land_ones by lia. Qed.

(** Clearing the low [n] bits of a 32-bit word. *)
Lemma land_clear_low n z :
  0 <= n <= 32 -> 0 <= z < 2 ^ 32 ->
  Z.land z (2 ^ 32 - 2 ^ n) = z - z mod 2 ^ n.
Proof.
  intros Hn Hz.
  assert (Hd : z - z mod 2 ^ n = Z.ldiff z (Z.ones n)).
  { rewrite Z.ldiff_ones_r, Z.shiftl_mul_pow2, Z.shiftr_div_pow2 by lia.
    assert (2 ^ n <> 0) by (apply Z.pow_nonzero; lia).
    rewrite Z.mod_eq by done. rewrite (Z.mul_comm (2 ^ n)). lia. }
  rewrite Hd. apply Z.bits_inj'. intros i Hi.
  rewrite Z.land_spec, Z.ldiff_spec.
  replace (2 ^ 32 - 2 ^ n) with (Z.shiftl (Z.ones (32 - n)) n).
  2:{ rewrite Z.shiftl_mul_pow2, Z.ones_equiv by lia. unfold Z.pred.
      rewrite Z.mul_add_distr_r, <- Z.pow_add_r by lia.
      replace (32 - n + n) with 32 by lia. lia. }
  rewrite Z.shiftl_spec by lia.
  destruct (decide (i < n)).
  - rewrite (Z.testbit_neg_r _ (i - n)) by lia. rewrite Z.ones_spec_low by lia. by rewrite !andb_false_r.
  - destruct (decide (i < 32)).
    + rewrite Z.ones_spec_low by lia. rewrite Z.ones_spec_high by lia. done.
    + replace (Z.testbit z i) with false; [done|]. symmetry.
      destruct (decide (z = 0)) as [->|]; [apply Z.bits_0|].
      apply Z.bits_above_log2; [lia|].
      apply Z.log2_lt_pow2; [lia|].
      apply Z.lt_le_trans with (2 ^ 32); [lia|]. apply Z.pow_le_mono_r; lia.
Qed.

Lemma land_page z : 0 <= z < 4294967296 -> Z.land z 4294963200 = z - z mod 4096.
Proof. intros H. by apply (land_clear_low 12). Qed.

(** An aligned frame or-ed with low flag bits is their sum. *)
Lemma lor_add_low n a b :
  0 <= n -> a mod 2 ^ n = 0 -> 0 <= b < 2 ^ n -> Z.lor a b = a + b.
Proof.
  intros Hn Ha Hb. rewrite <- Z.add_lor_land.
  replace (Z.land a b) with 0; [lia|].
  symmetry. apply Z.bits_inj'. intros i Hi. rewrite Z.land_spec, Z.bits_0.
  destruct (decide (i < n)).
  - rewrite <- (Z.mod_pow2_bits_low a n) by lia. by rewrite Ha, Z.bits_0.
  - replace (Z.testbit b i) with false; [apply andb_false_r|].
    rewrite <- (Z.mod_small b (2 ^ n)) by lia. by rewrite Z.mod_pow2_bits_high by lia.
Qed.

Lemma lor_page a b : a mod 4096 = 0 -> 0 <= b < 4096 -> Z.lor a b = a + b.
Proof. intros. by apply (lor_add_low 12). Qed.

Lemma lor_lt_pow2 n a b : 0 <= n -> 0 <= a < 2 ^ n -> 0 <= b < 2 ^ n -> 0 <= Z.lor a b < 2 ^ n.
Proof.
  intros Hn Ha Hb. split; [apply Z.lor_nonneg; lia|].
  destruct (decide (Z.lor a b = 0)) as [->|]; [lia|].
  assert (0 <= Z.lor a b) by (apply Z.lor_nonneg; lia).
  apply Z.log2_lt_pow2; [lia|]. rewrite Z.log2_lor by lia.
  destruct (decide (n = 0)) as [->|].
  { exfalso. assert (a = 0) by lia. assert (b = 0) by lia. subst. done. }
  apply Z.max_lub_lt.
  - destruct (decide (a = 0)) as [->|]; [simpl; lia|]. apply Z.log2_lt_pow2; lia.
  - destruct (decide (b = 0)) as [->|]; [simpl; lia|]. apply Z.log2_lt_pow2; lia.
Qed.

Lemma land_lt_pow2 n a b : 0 <= n -> 0 <= a < 2 ^ n -> 0 <= Z.land a b < 2 ^ n.
Proof.
  intros Hn Ha. replace (Z.land a b) with (Z.land a b mod 2 ^ n).
  { apply Z.mod_pos_bound, Z.pow_pos_nonneg; lia. }
  rewrite <- Z.land_ones by lia. rewrite <- Z.land_assoc, (Z.land_comm b), Z.land_assoc.
  rewrite (Z.land_ones a) by lia. by rewrite Z.mod_small by lia.
Qed.

(** [w & (1 << b)] tests bit [b]. *)
Lemma has_shiftl w b : 0 <= b -> has w (Z.shiftl 1 b) = Z.testbit w b.
Proof.
  intros Hb. unfold has. destruct (Z.testbit w b) eqn:E.
  - apply negb_true_iff, Z.eqb_neq. intros H0.
    assert (Z.testbit (Z.land w (Z.shiftl 1 b)) b = true) as Ht; [|by rewrite H0, Z.bits_0 in Ht].
    rewrite Z.land_spec, E, Z.shiftl_spec by lia. by rewrite Z.sub_diag.
  - apply negb_false_iff, Z.eqb_eq. apply Z.bits_inj'. intros i Hi.
    rewrite Z.land_spec, Z.bits_0, Z.shiftl_spec by lia.
    destruct (decide (i = b)) as [->|]; [by rewrite E|].
    change 1 with (Z.ones 1).
    destruct (decide (i < b)); [rewrite (Z.testbit_neg_r _ (i - b)) by lia; apply andb_false_r|].
    rewrite Z.ones_spec_high by lia. apply andb_false_r.
Qed.

(** A mask of [n] ones shifted to [i] misses [w] when those bits are clear. *)
Lemma land_run_zero w n i : 0 <= n -> 0 <= i ->
  Z.land w (Z.shiftl (Z.ones n) i) = 0 <-> (forall k, i <= k < i + n -> Z.testbit w k = false).
Proof.
  intros Hn Hi. split.
  - intros H k Hk. assert (Hb : Z.testbit (Z.land w (Z.shiftl (Z.ones n) i)) k = false) by (by rewrite H, Z.bits_0).
    rewrite Z.land_spec, Z.shiftl_spec, Z.ones_spec_low, andb_true_r in Hb by lia. done.
  - intros H. apply Z.bits_inj'. intros k Hk. rewrite Z.land_spec, Z.bits_0, Z.shiftl_spec by lia.
    destruct (decide (k < i)); [rewrite (Z.testbit_neg_r _ (k - i)) by lia; apply andb_false_r|].
    destruct (decide (k < i + n)); [by rewrite H by lia|].
    rewrite Z.ones_spec_high by lia. apply andb_false_r.
Qed.

Lemma ones_run_u32 n i : 0 <= n -> 0 <= i -> n + i <= 32 ->
  0 <= Z.shiftl (Z.ones n) i < 4294967296.
Proof.
  intros Hn Hi Hs. rewrite Z.shiftl_mul_pow2, Z.ones_equiv by lia. unfold Z.pred.
  assert (2 ^ n * 2 ^ i = 2 ^ (n + i)) by (symmetry; apply Z.pow_add_r; lia).
  assert (2 ^ (n + i) <= 2 ^ 32) by (apply Z.pow_le_mono_r; lia).
  assert (0 < 2 ^ i) by (apply Z.pow_pos_nonneg; lia).
  assert (0 < 2 ^ n) by (apply Z.pow_pos_nonneg; lia). nia.
Qed.

Lemma testbit_lor_run w n i k : 0 <= n -> 0 <= i -> 0 <= k ->
  Z.testbit (Z.lor w (Z.shiftl (Z.ones n) i)) k = Z.testbit w k || ((i <=? k) && (k <? i + n)).
Proof.
  intros Hn Hi Hk. rewrite Z.lor_spec, Z.shiftl_spec by lia. f_equal.
  destruct (Z.leb_spec i k); simpl; [|by rewrite (Z.testbit_neg_r _ (k - i)) by lia].
  destruct (Z.ltb_spec k (i + n)); [apply Z.ones_spec_low|apply Z.ones_spec_high]; lia.
Qed.

(** A 32-bit word differs from ~0 when one of its bits is clear. *)
Lemma all_ones_bits w : 0 <= w < 4294967296 ->
  w = 4294967295 <-> (forall k, 0 <= k < 32 -> Z.testbit w k = true).
Proof.
  intros Hw. change 4294967295 with (Z.ones 32). split.
  - intros -> k Hk. apply Z.ones_spec_low. lia.
  - intros H. apply Z.bits_inj'. intros k Hk. destruct (decide (k < 32)).
    + rewrite H, Z.ones_spec_low by lia. done.
    + rewrite Z.ones_spec_high by lia. rewrite <- (Z.mod_small w (2 ^ 32)) by lia.
      by rewrite Z.mod_pow2_bits_high by lia.
Qed.

#[export] Instance byte_eq_decision : EqDecision byte := Byte.byte_eq_dec.
#[export] Instance byte_inhabited : Inhabited byte := populate Byte.x00.

(** ** Lists indexed by Z *)

(** [l[i]]: [None] out of range (also for a negative index). *)
Definition zlookup {A} (l : list A) (i : Z) : option A :=
  if i <? 0 then None else l !! Z.to_nat i.

(** [l[i] = x]; meaningful only in range, which callers check with [zlookup]. *)
Definition zupdate {A} (i : Z) (x : A) (l : list A) : list A :=
  if i <? 0 then l else <[Z.to_nat i := x]> l.

Lemma zlookup_nat {A} (l : list A) (i : nat) : zlookup l (Z.of_nat i) = l !! i.
Proof. unfold zlookup. case_bool_decide || destruct (Z.ltb_spec (Z.of_nat i) 0); [lia|]. by rewrite Nat2Z.id. Qed.

Lemma zlookup_Some_range {A} (l : list A) i x :
  zlookup l i = Some x -> 0 <= i < Z.of_nat (length l).
Proof.
  unfold zlookup. destruct (Z.ltb_spec i 0); [done|].
  intros Hx%lookup_lt_Some. lia.
Qed.

Lemma zlookup_in_range {A} (l : list A) i :
  0 <= i < Z.of_nat (length l) -> exists x, zlookup l i = Some x.
Proof.
  intros H. unfold zlookup. destruct (Z.ltb_spec i 0); [lia|].
  destruct (lookup_lt_is_Some_2 l (Z.to_nat i)) as [x Hx]; [lia|]. eauto.
Qed.

Lemma zupdate_length {A} i (x : A) l : length (zupdate i x l) = length l.
Proof. unfold zupdate. destruct (i <? 0); [done|]. apply length_insert. Qed.

Lemma zlookup_zupdate_eq {A} (l : list A) i x :
  0 <= i < Z.of_nat (length l) -> zlookup (zupdate i x l) i = Some x.
Proof.
  intros H. unfold zlookup, zupdate. destruct (Z.ltb_spec i 0); [lia|].
  apply list_lookup_insert_eq. lia.
Qed.

Lemma zlookup_zupdate_ne {A} (l : list A) i j x :
  i <> j -> zlookup (zupdate i x l) j = zlookup l j.
Proof.
  intros H. unfold zlookup, zupdate.
  destruct (Z.ltb_spec j 0); [done|]. destruct (Z.ltb_spec i 0); [done|].
  apply list_lookup_insert_ne. lia.
Qed.
#[export] Hint Rewrite @zupdate_length : leo.
