(* ===== verification/Memory.v ===== *)
(** * Memory.v: byte-addressed memory and the C library routines of the kernel

    [MemOps] is what the kernel's C code asks of memory: reading and writing
    one byte at a 32-bit address, either of which may fault.  Wider accesses
    and the routines of kernel/kernel.c ([memset], [memcpy], [strlen],
    [strcmp], [streq]) are written over it.  [MemRegion] is the promise a
    memory makes to its clients: on the addresses of a region it behaves as
    RAM.  Clients (the heap, the message queues) are proved against
    [MemRegion]; Machine.v discharges it for memory reached through the
    page tables of the running process. *)

From S2P Require Import Prelude.

Class MemOps (S : Type) := {
  rd8 : Z -> S -> option byte;
  wr8 : Z -> byte -> S -> option S;
}.

Section Access.
Context {S : Type} `{MemOps S}.

Fixpoint rdn (n : nat) (a : Z) (s : S) : option (list byte) :=
  match n with
  | O => Some []
  | Datatypes.S n' =>
      b ← rd8 a s; bs ← rdn n' (a +w 1) s; Some (b :: bs)
  end.

Fixpoint wrn (a : Z) (bs : list byte) (s : S) : option S :=
  match bs with
  | [] => Some s
  | b :: bs' => s' ← wr8 a b s; wrn (a +w 1) bs' s'
  end.

(** [*( uintN_t * )a] for N = 8, 16, 32 *)
Definition loadn (n : nat) (a : Z) : M S Z := fun s =>
  match rdn n a s with Some bs => Ret (le_combine bs) s | None => Faulted a end.
Definition storen (n : nat) (a v : Z) : M S unit := fun s =>
  match wrn a (le_split n v) s with Some s' => Ret tt s' | None => Faulted a end.

Definition load8 : Z -> M S Z := loadn 1.
Definition load16 : Z -> M S Z := loadn 2.
Definition load32 : Z -> M S Z := loadn 4.
Definition store8 : Z -> Z -> M S unit := storen 1.
Definition store16 : Z -> Z -> M S unit := storen 2.
Definition store32 : Z -> Z -> M S unit := storen 4.

(** kernel/kernel.c: [memset].  The loop advances [dst] itself, so the
    value returned is the address one past the last byte written. *)
Fixpoint memset_loop (len : nat) (dst ch : Z) : M S Z :=
  match len with
  | O => mret dst
  | Datatypes.S len' => store8 dst ch ≫= fun _ => memset_loop len' (dst +w 1) ch
  end.
Definition memset (dst ch len : Z) : M S Z := memset_loop (Z.to_nat len) dst ch.

(** kernel/kernel.c: [memcpy], byte by byte from the lowest address. *)
Fixpoint memcpy_loop (len : nat) (dst src : Z) : M S unit :=
  match len with
  | O => mret tt
  | Datatypes.S len' =>
      v ← load8 src; store8 dst v ≫= fun _ => memcpy_loop len' (dst +w 1) (src +w 1)
  end.
Definition memcpy (dst src len : Z) : M S Z :=
  memcpy_loop (Z.to_nat len) dst src ≫= fun _ => mret dst.
End Access.

(** ** Strings

    A C string is read through a reader giving the byte at an address, so the
    same definitions serve strings in memory, in a process's [name] array and
    in the bytes of an archive.  [fuel] bounds the number of iterations. *)

Section Strings.
Context {S : Type}.

(** kernel/kernel.c: [strlen]; [ret++] happens before the test, so the
    terminating NUL is counted. *)
Fixpoint strlen_loop (fuel : nat) (rd : Z -> option byte) (s ret : Z) : M S Z :=
  match fuel with
  | O => nofuel
  | Datatypes.S fuel' =>
      match rd (s +w ret) with
      | None => fun _ => Faulted (s +w ret)
      | Some c =>
          if byte.unsigned c =? 0 then mret (ret + 1) else strlen_loop fuel' rd s (ret + 1)
      end
  end.
Definition strlen (fuel : nat) (rd : Z -> option byte) (s : Z) : M S Z :=
  strlen_loop fuel rd s 0.

(** kernel/kernel.c: [strcmp] *)
Fixpoint strcmp (fuel : nat) (rd1 rd2 : Z -> option byte) (s1 s2 : Z) : M S Z :=
  match fuel with
  | O => nofuel
  | Datatypes.S fuel' =>
      match rd1 s1, rd2 s2 with
      | Some c1, Some c2 =>
          if byte.unsigned c1 =? byte.unsigned c2 then
            if byte.unsigned c1 =? 0 then mret 0
            else strcmp fuel' rd1 rd2 (s1 +w 1) (s2 +w 1)
          else mret (byte.unsigned c1 - byte.unsigned c2)
      | None, _ => fun _ => Faulted s1
      | _, None => fun _ => Faulted s2
      end
  end.

(** kernel/kernel.c: [streq] *)
Definition streq (fuel : nat) (rd1 rd2 : Z -> option byte) (s1 s2 : Z) : M S bool :=
  r ← strcmp fuel rd1 rd2 s1 s2; mret (r =? 0).
End Strings.

(** [rd] holds the bytes [bs], none of them NUL, and then a NUL, from [p]. *)
Fixpoint cstring (rd : Z -> option byte) (p : Z) (bs : list byte) : Prop :=
  match bs with
  | [] => exists z, rd p = Some z /\ byte.unsigned z = 0
  | b :: bs' => rd p = Some b /\ byte.unsigned b <> 0 /\ cstring rd (p +w 1) bs'
  end.

Lemma strcmp_spec {S} rd1 rd2 (l1 l2 : list byte) fuel p1 p2 (s : S) :
  cstring rd1 p1 l1 -> cstring rd2 p2 l2 -> (length l1 < fuel)%nat ->
  exists r, strcmp fuel rd1 rd2 p1 p2 s = Ret r s /\ (r = 0 <-> l1 = l2).
Proof.
  revert l2 fuel p1 p2. induction l1 as [|b1 l1 IH]; intros l2 fuel p1 p2 H1 H2 Hf;
    (destruct fuel as [|fuel]; [simpl in Hf; lia|]); simpl in *.
  - destruct H1 as (z & -> & Hz). destruct l2 as [|b2 l2]; simpl in H2.
    + destruct H2 as (z2 & -> & Hz2). rewrite Hz, Hz2. simpl. exists 0. done.
    + destruct H2 as (-> & Hb & _). rewrite Hz.
      destruct (Z.eqb_spec 0 (byte.unsigned b2)); [lia|].
      eexists. split; [done|]. split; [lia|done].
  - destruct H1 as (-> & Hb1 & H1). destruct l2 as [|b2 l2]; simpl in H2.
    + destruct H2 as (z2 & -> & Hz2). rewrite Hz2.
      destruct (Z.eqb_spec (byte.unsigned b1) 0); [lia|].
      eexists. split; [done|]. split; [lia|done].
    + destruct H2 as (-> & Hb2 & H2).
      destruct (Z.eqb_spec (byte.unsigned b1) (byte.unsigned b2)) as [He|Hne].
      * destruct (Z.eqb_spec (byte.unsigned b1) 0); [lia|].
        destruct (IH l2 fuel _ _ H1 H2 ltac:(lia)) as (r & Hr & Hiff).
        exists r. split; [done|]. apply byte.unsigned_inj in He. subst.
        rewrite Hiff. split; congruence.
      * eexists. split; [done|]. split; [lia|]. intros [= -> ->]. done.
Qed.

Lemma streq_spec {S} rd1 rd2 (l1 l2 : list byte) fuel p1 p2 (s : S) :
  cstring rd1 p1 l1 -> cstring rd2 p2 l2 -> (length l1 < fuel)%nat ->
  streq fuel rd1 rd2 p1 p2 s = Ret (bool_decide (l1 = l2)) s.
Proof.
  intros H1 H2 Hf. destruct (strcmp_spec rd1 rd2 l1 l2 fuel p1 p2 s H1 H2 Hf) as (r & Hr & Hiff).
  unfold streq. rewrite (bind_Ret _ _ _ _ _ Hr). unfold mret, M_ret. f_equal.
  destruct (Z.eqb_spec r 0); case_bool_decide; tauto.
Qed.

Lemma strlen_loop_spec {S} rd (l : list byte) fuel p ret (s : S) :
  cstring rd (p +w ret) l -> (length l < fuel)%nat ->
  strlen_loop fuel rd p ret s = Ret (ret + Z.of_nat (length l) + 1) s.
Proof.
  revert fuel ret. induction l as [|b l IH]; intros fuel ret Hs Hf;
    (destruct fuel as [|fuel]; [simpl in Hf; lia|]); simpl in *.
  - destruct Hs as (z & -> & ->). simpl. unfold mret, M_ret. f_equal. lia.
  - destruct Hs as (-> & Hb & Hs). destruct (Z.eqb_spec (byte.unsigned b) 0); [lia|].
    rewrite IH; [f_equal; lia| |lia].
    by rewrite u32_add_l, <- Z.add_assoc in Hs.
Qed.

(** ** Regions that behave as RAM *)

(** While [P] holds of the state, every address of [R] is backed by a byte of
    its own: reads succeed, a write is seen by later reads of the same
    address and by no other read of the region, and [P] is kept. *)
Class MemRegion {S : Type} `{MemOps S} (P : S -> Prop) (R : Z -> Prop) := {
  region_u32 a : R a -> 0 <= a < 4294967296;
  rd8_ok s a : P s -> R a -> exists b, rd8 a s = Some b;
  wr8_ok s a v : P s -> R a ->
    exists s', wr8 a v s = Some s' /\ P s' /\ rd8 a s' = Some v /\
      forall a', R a' -> a' <> a -> rd8 a' s' = rd8 a' s;
}.

(** [n] consecutive addresses from [a] lie in [R]. *)
Definition span (R : Z -> Prop) (a : Z) (n : nat) : Prop :=
  forall i, 0 <= i < Z.of_nat n -> R (a + i).

Section Region.
Context {S : Type} `{MO : MemOps S} {P : S -> Prop} {R : Z -> Prop} `{MR : !MemRegion P R}.

Lemma span_tail a n : span R a (Datatypes.S n) -> span R (a +w 1) n.
Proof.
  intros H i Hi. assert (Ha : R (a + 0)) by (apply H; lia).
  assert (Hb : R (a + (i + 1))) by (apply H; lia).
  destruct (decide (n = O)) as [->|]; [lia|].
  assert (Hc : R (a + 1)) by (apply H; lia).
  apply region_u32 in Ha, Hc. rewrite u32_small by lia.
  by replace (a + 1 + i) with (a + (i + 1)) by lia.
Qed.

Lemma span_head a n : span R a (Datatypes.S n) -> R a.
Proof. intros H. replace a with (a + 0) by lia. apply H. lia. Qed.

Lemma rdn_ok n s a : P s -> span R a n -> exists bs, rdn n a s = Some bs /\ length bs = n.
Proof.
  revert a. induction n as [|n IH]; intros a HP HR; simpl; [by exists []|].
  destruct (rd8_ok s a HP (span_head _ _ HR)) as [b Hb]. rewrite Hb. simpl.
  destruct (IH (a +w 1) HP (span_tail _ _ HR)) as (bs & -> & Hl). simpl.
  eexists. split; [done|]. simpl. lia.
Qed.

(** Reads of a span agree in two states that agree on its addresses. *)
Lemma rdn_ext n s s' a :
  span R a n -> (forall i, 0 <= i < Z.of_nat n -> rd8 (a + i) s' = rd8 (a + i) s) ->
  rdn n a s' = rdn n a s.
Proof.
  revert a. induction n as [|n IH]; intros a HR Hext; simpl; [done|].
  pose proof (Hext 0 ltac:(lia)) as H0. rewrite Z.add_0_r in H0. rewrite H0.
  destruct (decide (n = O)) as [->|Hn]; [done|].
  assert (Hc : R (a + 1)) by (apply HR; lia). apply region_u32 in Hc.
  rewrite IH; [done|by apply span_tail|].
  intros i Hi. rewrite u32_small by lia.
  replace (a + 1 + i) with (a + (i + 1)) by lia. apply Hext. lia.
Qed.

(** The memory after a block write: [bs] at [a], the rest of [R] as before. *)
Definition wrote (a : Z) (bs : list byte) (s s' : S) : Prop :=
  P s' /\ rdn (length bs) a s' = Some bs /\
  forall a', R a' -> ~ (a <= a' < a + Z.of_nat (length bs)) -> rd8 a' s' = rd8 a' s.

Lemma wrote_nil a s : P s -> wrote a [] s s.
Proof. by repeat split. Qed.

Lemma wrote_cons a b bs s s1 s2 :
  P s -> span R a (Datatypes.S (length bs)) -> wr8 a b s = Some s1 ->
  (P s1 /\ rd8 a s1 = Some b /\ forall a', R a' -> a' <> a -> rd8 a' s1 = rd8 a' s) ->
  wrote (a +w 1) bs s1 s2 -> wrote a (b :: bs) s s2.
Proof.
  intros HP HR Hw (HP1 & Hr1 & Hf1) (HP2 & Hr2 & Hf2).
  pose proof (span_head _ _ HR) as Ha. pose proof (region_u32 _ Ha).
  assert (Hu : bs = [] \/ u32 (a + 1) = a + 1).
  { destruct bs as [|b' bs']; [by left|right].
    assert (Hc : R (a + 1)) by (apply HR; simpl; lia). apply region_u32 in Hc.
    by rewrite u32_small by lia. }
  split; [done|]. simpl. split.
  - rewrite Hf2, Hr1 by (done || (destruct Hu as [-> | ->]; simpl; lia)). simpl. by rewrite Hr2.
  - intros a' Ha' Hna. rewrite Hf2 by (done || (destruct Hu as [-> | ->]; simpl in *; lia)).
    apply Hf1; [done|]. lia.
Qed.

Lemma wrn_ok bs s a : P s -> span R a (length bs) ->
  exists s', wrn a bs s = Some s' /\ wrote a bs s s'.
Proof.
  revert s a. induction bs as [|b bs IH]; intros s a HP HR; simpl.
  - eauto using wrote_nil.
  - destruct (wr8_ok s a b HP (span_head _ _ HR)) as (s1 & Hw & Hrest).
    rewrite Hw. simpl.
    destruct (IH s1 (a +w 1) (proj1 Hrest) (span_tail _ _ HR)) as (s2 & Hw2 & Hwr).
    exists s2. split; [done|]. eapply wrote_cons; done.
Qed.

(** *** Wide accesses *)

Lemma le_combine_lt n bs : length bs = n -> 0 <= le_combine bs < 2 ^ (8 * Z.of_nat n).
Proof. intros <-. apply le_combine_bound. Qed.

Lemma loadn_ok n s a : P s -> span R a n ->
  exists v, loadn n a s = Ret v s /\ 0 <= v < 2 ^ (8 * Z.of_nat n).
Proof.
  intros HP HR. destruct (rdn_ok n s a HP HR) as (bs & Hbs & Hl).
  exists (le_combine bs). unfold loadn. rewrite Hbs. split; [done|]. by apply le_combine_lt.
Qed.

Lemma loadn_ext n s s' a :
  P s -> span R a n -> (forall i, 0 <= i < Z.of_nat n -> rd8 (a + i) s' = rd8 (a + i) s) ->
  forall v, loadn n a s = Ret v s -> loadn n a s' = Ret v s'.
Proof.
  intros HP HR Hext v. unfold loadn. rewrite (rdn_ext n s s' a HR Hext).
  destruct (rdn n a s); congruence.
Qed.

Lemma storen_ok n s a v : P s -> span R a n ->
  exists s', storen n a v s = Ret tt s' /\ P s' /\
    loadn n a s' = Ret (v mod 2 ^ (Z.of_nat n * 8)) s' /\
    forall a', R a' -> ~ (a <= a' < a + Z.of_nat n) -> rd8 a' s' = rd8 a' s.
Proof.
  intros HP HR. destruct (wrn_ok (le_split n v) s a) as (s' & Hw & HP' & Hr & Hf).
  { done. } { by rewrite length_le_split. }
  exists s'. unfold storen. rewrite Hw. rewrite length_le_split in Hr, Hf.
  split; [done|]. split; [done|]. split; [|done].
  unfold loadn. rewrite Hr. by rewrite le_combine_split.
Qed.

(** A store does not disturb a load of a disjoint span of the region. *)
Lemma storen_loadn_ne n k s s' a b w :
  P s -> span R b k ->
  (forall a', R a' -> ~ (a <= a' < a + Z.of_nat n) -> rd8 a' s' = rd8 a' s) ->
  b + Z.of_nat k <= a \/ a + Z.of_nat n <= b ->
  loadn k b s = Ret w s -> loadn k b s' = Ret w s'.
Proof.
  intros HP HRb Hf Hd Hl. apply (loadn_ext k s s' b); try done.
  intros i Hi. apply Hf; [by apply HRb|]. lia.
Qed.

(** *** memset and memcpy on a region *)

Lemma store8_eq a v s :
  store8 a v s = match wr8 a (byte.of_Z v) s with Some s' => Ret tt s' | None => Faulted a end.
Proof.
  unfold store8, storen. change (le_split 1 v) with [byte.of_Z v]. simpl.
  by destruct (wr8 a (byte.of_Z v) s).
Qed.

Lemma load8_eq a s :
  load8 a s = match rd8 a s with Some b => Ret (byte.unsigned b) s | None => Faulted a end.
Proof.
  unfold load8, loadn. simpl. destruct (rd8 a s); simpl; [|done].
  by rewrite le_combine_1.
Qed.

Lemma memset_loop_ok len s dst ch : P s -> span R dst len -> 0 <= dst < 4294967296 ->
  exists s', memset_loop len dst ch s = Ret (dst +w Z.of_nat len) s' /\
    wrote dst (repeat (byte.of_Z ch) len) s s'.
Proof.
  revert s dst. induction len as [|len IH]; intros s dst HP HR Hd.
  - exists s. split; [|by apply wrote_nil]. simpl. unfold mret, M_ret. f_equal.
    rewrite Z.add_0_r. by rewrite u32_small.
  - destruct (wr8_ok s dst (byte.of_Z ch) HP (span_head _ _ HR)) as (s1 & Hw & HP1 & Hr1 & Hf1).
    destruct (IH s1 (dst +w 1) HP1 (span_tail _ _ HR) (u32_range _)) as (s2 & Hm & Hwr).
    exists s2. split.
    + simpl. erewrite bind_Ret by (rewrite store8_eq, Hw; done).
      rewrite Hm. f_equal. rewrite u32_add_l. f_equal. lia.
    + simpl. eapply wrote_cons; try done. by rewrite repeat_length.
Qed.

(** [memset] fills exactly the [len] bytes at [dst]; it returns the address
    after them. *)
Lemma memset_ok s dst ch len : P s -> 0 <= len -> 0 <= dst < 4294967296 ->
  span R dst (Z.to_nat len) ->
  exists s', memset dst ch len s = Ret (dst +w len) s' /\
    wrote dst (repeat (byte.of_Z ch) (Z.to_nat len)) s s'.
Proof.
  intros HP Hl Hd HR. unfold memset.
  destruct (memset_loop_ok (Z.to_nat len) s dst ch HP HR Hd) as (s' & Hm & Hw).
  rewrite Z2Nat.id in Hm by lia. eauto.
Qed.

Lemma rdn_cons_inv n a s bs : rdn (Datatypes.S n) a s = Some bs ->
  exists b bs', bs = b :: bs' /\ rd8 a s = Some b /\ rdn n (a +w 1) s = Some bs'.
Proof.
  simpl. destruct (rd8 a s) as [b|]; simpl; [|done].
  destruct (rdn n (a +w 1) s) as [bs'|]; simpl; [|done]. intros [= <-]. eauto.
Qed.

Lemma memcpy_loop_ok len s dst src bs : P s -> span R dst len -> span R src len ->
  dst + Z.of_nat len <= src \/ src + Z.of_nat len <= dst ->
  rdn len src s = Some bs ->
  exists s', memcpy_loop len dst src s = Ret tt s' /\ wrote dst bs s s'.
Proof.
  revert s dst src bs. induction len as [|len IH]; intros s dst src bs HP HRd HRs Hdis Hbs.
  - simpl in Hbs. injection Hbs as <-. exists s. split; [done|]. by apply wrote_nil.
  - destruct (rdn_cons_inv _ _ _ _ Hbs) as (b & bs' & -> & Hb & Hbs').
    pose proof (span_head _ _ HRd) as HRd0. pose proof (span_head _ _ HRs) as HRs0.
    destruct (wr8_ok s dst b HP HRd0) as (s1 & Hw & HP1 & Hr1 & Hf1).
    assert (Hlen : length bs' = len).
    { destruct (rdn_ok len s (src +w 1) HP (span_tail _ _ HRs)) as (l & Hl & <-). congruence. }
    assert (Hd' : len = O \/ (u32 (dst + 1) = dst + 1 /\ u32 (src + 1) = src + 1)).
    { destruct len as [|len']; [by left|right].
      assert (Hc : R (dst + 1)) by (apply HRd; lia). assert (Hc' : R (src + 1)) by (apply HRs; lia).
      apply region_u32 in Hc, Hc', HRd0, HRs0. by rewrite !u32_small by lia. }
    destruct (IH s1 (dst +w 1) (src +w 1) bs') as (s2 & Hm & Hwr).
    { done. } { by apply span_tail. } { by apply span_tail. }
    { destruct Hd' as [->|[-> ->]]; lia. }
    { rewrite (rdn_ext len s s1 (src +w 1)); [done|by apply span_tail|].
      intros i Hi. destruct Hd' as [->|[_ ->]]; [lia|].
      apply Hf1; [|lia]. replace (src + 1 + i) with (src + (i + 1)) by lia. apply HRs. lia. }
    exists s2. split.
    + simpl. erewrite bind_Ret by (rewrite load8_eq, Hb; done).
      erewrite bind_Ret by (rewrite store8_eq, byte.of_Z_unsigned, Hw; done). done.
    + eapply wrote_cons; try done. by rewrite Hlen.
Qed.

(** [memcpy] between disjoint spans copies the bytes and returns [dst]. *)
Lemma memcpy_ok s dst src len bs : P s -> 0 <= len ->
  span R dst (Z.to_nat len) -> span R src (Z.to_nat len) ->
  dst + len <= src \/ src + len <= dst ->
  rdn (Z.to_nat len) src s = Some bs ->
  exists s', memcpy dst src len s = Ret dst s' /\ wrote dst bs s s'.
Proof.
  intros HP Hl HRd HRs Hdis Hbs. unfold memcpy.
  destruct (memcpy_loop_ok (Z.to_nat len) s dst src bs) as (s' & Hm & Hw); try done.
  { rewrite Z2Nat.id by lia. done. }
  exists s'. split; [|done]. by rewrite (bind_Ret _ _ _ _ _ Hm).
Qed.
End Region.

Arguments wrote {S MO} P R a bs s s'.

(** Flat memory: a finite map from addresses to bytes; an address outside its
    domain faults.  The smallest instance of the interface. *)
#[export] Instance flat_ops : MemOps (gmap Z byte) := {
  rd8 a m := m !! a;
  wr8 a v m := match m !! a with Some _ => Some (<[a := v]> m) | None => None end;
}.

(** A map whose domain is exactly the region [R]. *)
Definition flat_on (R : Z -> Prop) (m : gmap Z byte) : Prop := forall a, R a -> is_Some (m !! a).

#[export] Instance flat_region (R : Z -> Prop) :
  (forall a, R a -> 0 <= a < 4294967296) -> MemRegion (flat_on R) R.
Proof.
  intros HR. split; [done|by intros s a Hs [b Hb]%Hs; exists b|].
  intros s a v Hs Ha. destruct (Hs a Ha) as [b Hb]. simpl. rewrite Hb.
  eexists. split; [done|]. split.
  { intros a' [b' Hb']%Hs. destruct (decide (a' = a)) as [->|].
    - rewrite lookup_insert_eq. eauto.
    - rewrite lookup_insert_ne by done. eauto. }
  split; [apply lookup_insert_eq|]. intros a' _ Hne. by rewrite lookup_insert_ne.
Qed.
