(* ===== verification/Machine.v ===== *)
(** * Machine.v: physical memory, the page-table walk and control registers

    The state C code runs on: physical memory as bytes, [cr3] (set_cr3 and
    get_cr3 of include/kernel/vm.h) and the trace of port writes (outb of
    include/kernel/x86.h).  A virtual address is resolved by the two-level
    walk of the i386 with 4 KiB pages, as a supervisor access: the directory
    entry and the table entry must have their present bit set.  The processor
    does not set CR0.WP or CR4.PSE, so the writable and size bits play no
    part.  All of the physical address space is RAM; the TLB is coherent with
    the tables and the accessed/dirty bits are not tracked (the kernel only
    compares the five lowest bits of an entry). *)

From S2P Require Import Prelude Memory.

Record machine := Machine {
  phys : gmap Z byte;      (* absent bytes read as zero *)
  cr3 : Z;
  ports : list (Z * Z);    (* (port, value), latest first *)
}.

(** include/kernel/vm.h: set_cr3, get_cr3; include/kernel/x86.h: outb *)
Definition set_cr3 (pdir : Z) : M machine unit :=
  modify (fun m => Machine (phys m) pdir (ports m)).
Definition get_cr3 : M machine Z := fun m => Ret (cr3 m) m.
Definition outb (port data : Z) : M machine unit :=
  modify (fun m => Machine (phys m) (cr3 m) ((u16 port, u8 data) :: ports m)).

Definition set_phys (f : gmap Z byte) (m : machine) : machine := Machine f (cr3 m) (ports m).

(** ** Physical memory *)

Definition pbyte (f : gmap Z byte) (a : Z) : byte := default Byte.x00 (f !! a).

Definition pload32 (f : gmap Z byte) (a : Z) : Z :=
  le_combine [pbyte f a; pbyte f (a + 1); pbyte f (a + 2); pbyte f (a + 3)].

Fixpoint pwrite (a : Z) (bs : list byte) (f : gmap Z byte) : gmap Z byte :=
  match bs with
  | [] => f
  | b :: bs' => pwrite (a + 1) bs' (<[a := b]> f)
  end.

Definition pstore32 (a v : Z) (f : gmap Z byte) : gmap Z byte := pwrite a (le_split 4 v) f.

(** ** The page-table walk *)

Definition frame (e : Z) : Z := Z.land e 4294963200.

Definition pd_index (va : Z) : Z := Z.shiftr va 22.
Definition pt_index (va : Z) : Z := Z.land (Z.shiftr va 12) 1023.

Definition pde_addr (m : machine) (d : Z) : Z := frame (cr3 m) + 4 * d.
Definition pde_at (m : machine) (d : Z) : Z := pload32 (phys m) (pde_addr m d).
Definition pte_addr (m : machine) (d t : Z) : Z := frame (pde_at m d) + 4 * t.
Definition pte_at (m : machine) (d t : Z) : Z := pload32 (phys m) (pte_addr m d t).

(** The table entry an address resolves to, when both levels are present. *)
Definition walk (m : machine) (d t : Z) : option Z :=
  if has (pde_at m d) 1 then if has (pte_at m d t) 1 then Some (pte_at m d t) else None else None.

Definition translate (m : machine) (va : Z) : option Z :=
  match walk m (pd_index va) (pt_index va) with
  | Some pte => Some (frame pte + va mod 4096)
  | None => None
  end.

(** What code in ring 3 may reach: both levels carry the user bit (4) too. *)
Definition user_ok (m : machine) (va : Z) : bool :=
  let pde := pde_at m (pd_index va) in
  let pte := pte_at m (pd_index va) (pt_index va) in
  has pde 1 && has pde 4 && has pte 1 && has pte 4.

#[export] Instance machine_ops : MemOps machine := {
  rd8 a m := match translate m a with Some p => Some (pbyte (phys m) p) | None => None end;
  wr8 a v m :=
    match translate m a with Some p => Some (set_phys (<[p := v]> (phys m)) m) | None => None end;
}.

(** Naturally aligned 32-bit accesses, which never straddle two pages and so
    are resolved by one walk: how the page tables themselves are accessed. *)
Definition vload32 (va : Z) : M machine Z := fun m =>
  match translate m va with Some p => Ret (pload32 (phys m) p) m | None => Faulted va end.
Definition vstore32 (va v : Z) : M machine unit := fun m =>
  match translate m va with
  | Some p => Ret tt (set_phys (pstore32 p v (phys m)) m)
  | None => Faulted va
  end.

(** ** Lemmas on physical memory *)

Lemma pload32_range f a : 0 <= pload32 f a < 4294967296.
Proof. unfold pload32. apply (le_combine_bound [_; _; _; _]). Qed.
#[export] Hint Resolve pload32_range : leoman.

Lemma pbyte_insert_eq f a v : pbyte (<[a := v]> f) a = v.
Proof. unfold pbyte. by rewrite lookup_insert_eq. Qed.
Lemma pbyte_insert_ne f a b v : a <> b -> pbyte (<[a := v]> f) b = pbyte f b.
Proof. intros. unfold pbyte. by rewrite lookup_insert_ne. Qed.

Lemma pload32_insert_ne f a b v : ~ (b <= a < b + 4) -> pload32 (<[a := v]> f) b = pload32 f b.
Proof. intros H. unfold pload32. by rewrite !pbyte_insert_ne by lia. Qed.

Lemma pbyte_pwrite_ne bs f a b :
  ~ (a <= b < a + Z.of_nat (length bs)) -> pbyte (pwrite a bs f) b = pbyte f b.
Proof.
  revert a f. induction bs as [|v bs IH]; intros a f H; simpl in *; [done|].
  rewrite IH by lia. by apply pbyte_insert_ne; lia.
Qed.

Lemma pbyte_pwrite bs f a i v :
  bs !! i = Some v -> pbyte (pwrite a bs f) (a + Z.of_nat i) = v.
Proof.
  revert a f i. induction bs as [|w bs IH]; intros a f i Hi; [done|].
  destruct i as [|i]; simpl in *.
  - injection Hi as <-. rewrite pbyte_pwrite_ne by lia. rewrite Z.add_0_r. apply pbyte_insert_eq.
  - rewrite <- (IH (a + 1) (<[a:=w]> f) i Hi). f_equal. lia.
Qed.

Lemma pload32_pstore32_eq f a v : 0 <= v < 4294967296 -> pload32 (pstore32 a v f) a = v.
Proof.
  intros Hv. unfold pload32, pstore32.
  assert (He : forall i w, le_split 4 v !! i = Some w -> pbyte (pwrite a (le_split 4 v) f) (a + Z.of_nat i) = w).
  { intros i w. apply pbyte_pwrite. }
  pose proof (He 0%nat _ eq_refl) as H0. pose proof (He 1%nat _ eq_refl) as H1.
  pose proof (He 2%nat _ eq_refl) as H2. pose proof (He 3%nat _ eq_refl) as H3.
  change (Z.of_nat 0) with 0 in H0. change (Z.of_nat 1) with 1 in H1.
  change (Z.of_nat 2) with 2 in H2. change (Z.of_nat 3) with 3 in H3.
  rewrite Z.add_0_r in H0. rewrite H0, H1, H2, H3.
  change (le_combine (le_split 4 v) = v). rewrite le_combine_split. by apply Z.mod_small.
Qed.

Lemma pload32_pstore32_ne f a b v :
  b + 4 <= a \/ a + 4 <= b -> pload32 (pstore32 a v f) b = pload32 f b.
Proof.
  intros H. unfold pload32, pstore32.
  by rewrite !pbyte_pwrite_ne by (rewrite length_le_split; lia).
Qed.

(** ** Frames and indices *)

Lemma frame_eq e : 0 <= e < 4294967296 -> frame e = e - e mod 4096.
Proof. apply land_page. Qed.

Lemma frame_range e : 0 <= e < 4294967296 -> 0 <= frame e <= 4294963200 /\ frame e mod 4096 = 0.
Proof. intros H. rewrite frame_eq by done. split; zdm. Qed.

Lemma frame_add e x : 0 <= e < 4294967296 -> e mod 4096 = 0 -> 0 <= x < 4096 -> frame (e + x) = e.
Proof. intros. rewrite frame_eq by zdm. zdm. Qed.

Lemma pd_index_eq va : pd_index va = va / 4194304.
Proof. unfold pd_index. by rewrite Z.shiftr_div_pow2 by lia. Qed.
Lemma pt_index_eq va : pt_index va = va / 4096 mod 1024.
Proof.
  unfold pt_index. rewrite Z.shiftr_div_pow2 by lia.
  change 1023 with (Z.ones 10). by rewrite Z.land_ones by lia.
Qed.

Lemma pd_index_range va : 0 <= va < 4294967296 -> 0 <= pd_index va < 1024.
Proof. intros. rewrite pd_index_eq. zdm. Qed.
Lemma pt_index_range va : 0 <= pt_index va < 1024.
Proof. rewrite pt_index_eq. zdm. Qed.

(** A virtual address is its two indices and its page offset. *)
Lemma va_split va : 0 <= va -> va = 4194304 * pd_index va + 4096 * pt_index va + va mod 4096.
Proof. intros. rewrite pd_index_eq, pt_index_eq. zdm. Qed.

Lemma index_of d t o : 0 <= t < 1024 -> 0 <= o < 4096 ->
  pd_index (4194304 * d + 4096 * t + o) = d /\ pt_index (4194304 * d + 4096 * t + o) = t /\
  (4194304 * d + 4096 * t + o) mod 4096 = o.
Proof. intros. rewrite pd_index_eq, pt_index_eq. split; [zdm|]. split; zdm. Qed.

Lemma pde_at_range m d : 0 <= pde_at m d < 4294967296.
Proof. apply pload32_range. Qed.
Lemma pte_at_range m d t : 0 <= pte_at m d t < 4294967296.
Proof. apply pload32_range. Qed.
#[export] Hint Resolve pde_at_range pte_at_range : leoman.

Lemma has_bit0 e : has e 1 = Z.odd e.
Proof.
  unfold has. rewrite <- Z.bit0_odd. change 1 with (Z.ones 1) at 1.
  rewrite Z.land_ones by lia. change (2 ^ 1) with 2. rewrite Zmod_odd, <- Z.bit0_odd.
  by destruct (Z.testbit e 0).
Qed.

(** ** Memory through the page tables is RAM

    A region whose addresses resolve injectively by [tau] to physical bytes
    outside every table entry their own walks read behaves as RAM, so what
    is proved of a client against [MemRegion] holds of the client running in
    virtual memory. *)

Section VirtualRegion.
Variable tau : Z -> Z.
Variable R : Z -> Prop.

Definition resolved (m : machine) : Prop :=
  (forall a, R a -> translate m a = Some (tau a)) /\
  (forall a a', R a -> R a' ->
     ~ (pde_addr m (pd_index a) <= tau a' < pde_addr m (pd_index a) + 4) /\
     ~ (pte_addr m (pd_index a) (pt_index a) <= tau a'
          < pte_addr m (pd_index a) (pt_index a) + 4)).

Hypothesis R_u32 : forall a, R a -> 0 <= a < 4294967296.
Hypothesis tau_inj : forall a a', R a -> R a' -> tau a = tau a' -> a = a'.

Lemma resolved_entries m a a' v : resolved m -> R a -> R a' ->
  let m' := set_phys (<[tau a' := v]> (phys m)) m in
  pde_at m' (pd_index a) = pde_at m (pd_index a) /\
  pte_at m' (pd_index a) (pt_index a) = pte_at m (pd_index a) (pt_index a).
Proof.
  intros [_ Hst] Ha Ha'. destruct (Hst a a' Ha Ha') as [Hd Ht]. simpl.
  assert (Hpd : pde_at (set_phys (<[tau a' := v]> (phys m)) m) (pd_index a) = pde_at m (pd_index a)).
  { unfold pde_at. change (pde_addr (set_phys (<[tau a':=v]> (phys m)) m)) with (pde_addr m).
    by apply pload32_insert_ne. }
  split; [done|]. unfold pte_at, pte_addr. rewrite Hpd. by apply pload32_insert_ne.
Qed.

Lemma resolved_translate m a a' v : resolved m -> R a -> R a' ->
  translate (set_phys (<[tau a' := v]> (phys m)) m) a = translate m a.
Proof.
  intros Hr Ha Ha'. destruct (resolved_entries m a a' v Hr Ha Ha') as [Hd Ht].
  unfold translate, walk. by rewrite Hd, Ht.
Qed.

Lemma virtual_region : MemRegion resolved R.
Proof.
  split; [done| |].
  - intros m a [Htr _] Ha. simpl. rewrite (Htr a Ha). eauto.
  - intros m a v Hr Ha. pose proof Hr as [Htr Hst]. simpl. rewrite (Htr a Ha).
    eexists. split; [done|]. split; [|split].
    + split.
      * intros b Hb. rewrite (resolved_translate m b a v Hr Hb Ha). by apply Htr.
      * intros b b' Hb Hb'. destruct (resolved_entries m b a v Hr Hb Ha) as [Hd _].
        unfold pte_addr. rewrite Hd. by apply Hst.
    + rewrite (resolved_translate m a a v Hr Ha Ha), (Htr a Ha). simpl.
      by rewrite pbyte_insert_eq.
    + intros b Hb Hne. rewrite (resolved_translate m b a v Hr Hb Ha), (Htr b Hb). simpl.
      rewrite pbyte_insert_ne; [done|]. intros He. by apply Hne, tau_inj.
Qed.
End VirtualRegion.
