(* ===== verification/Pm.v ===== *)
(** * Pm.v: the physical memory manager (kernel/pm.c, include/kernel/pm.h)

    A bitmap of 32K 32-bit words, one bit per 4 KiB page counted from
    [pm_page_pool].  [used] is the abstract view, a set of page numbers;
    the operations are shown to implement first-fit allocation on it. *)

From S2P Require Import Prelude Memory Machine.

(** include/kernel/vm.h: PAGE_SIZE, KERN_VOFF, PALIGNUP, PALIGNDOWN, p2v, v2p *)
Definition PAGE_SIZE : Z := KiB 4.
Definition KERN_VOFF : Z := 3758096384. (* 0xe0000000 *)
Definition PALIGNUP (addr : Z) : Z := Z.land (addr +w PAGE_SIZE -w 1) 4294963200.
Definition PALIGNDOWN (addr : Z) : Z := Z.land addr 4294963200.
Definition p2v (addr : Z) : Z := addr +w KERN_VOFF.
Definition v2p (addr : Z) : Z := addr -w KERN_VOFF.

(** include/kernel/pm.h *)
Definition PM_BITMAP_NMEMB : Z := 32 * 1024.

(** include/kernel/common.h: struct memory_map_entry *)
Record memory_map_entry := {
  base_low : Z; base_high : Z; len_low : Z; len_high : Z; mtype : Z; acpi_ext : Z;
}.

Record pm_state := Pm {
  pm_bitmap : list Z;
  pm_page_pool : Z;
}.

Definition set_word (idx w : Z) (s : pm_state) : pm_state :=
  Pm (zupdate idx w (pm_bitmap s)) (pm_page_pool s).

(** The address handed out for bit [bit] of word [idx]. *)
Definition page_of (s : pm_state) (idx bit : Z) : Z :=
  v2p (pm_page_pool s +w (u32 (idx * 32 + bit) *w PAGE_SIZE)).

(** ** pm_alloc *)

(** [for (bit = 0; ; bit++) if (!(w & (1 << bit)))]: the loop has no guard;
    with [bit = 32] the shift is undefined, which is the [None] here. *)
Fixpoint first_zero (n : nat) (w bit : Z) : option Z :=
  match n with
  | O => None
  | S n' => if has w (Z.shiftl 1 bit) then first_zero n' w (bit + 1) else Some bit
  end.

Fixpoint alloc_scan (idx : Z) (words : list Z) : M pm_state Z :=
  match words with
  | [] => mret 0
  | w :: words' =>
      if w =? 4294967295 then alloc_scan (idx + 1) words'
      else
        match first_zero 32 w 0 with
        | None => undef
        | Some bit =>
            s ← get;
            put (set_word idx (Z.lor w (Z.shiftl 1 bit)) s) ≫= fun _ =>
            mret (page_of s idx bit)
        end
  end.

Definition pm_alloc : M pm_state Z := fun s => alloc_scan 0 (pm_bitmap s) s.

(** ** pm_alloc_cont *)

(** The inner loop: [n] candidate positions, [mask] shifted left each time. *)
Fixpoint find_run (n : nat) (w mask shift : Z) : option (Z * Z) :=
  match n with
  | O => None
  | S n' =>
      if Z.land w mask =? 0 then Some (mask, shift)
      else find_run n' w (u32 (Z.shiftl mask 1)) (shift + 1)
  end.

Fixpoint cont_scan (page_num idx : Z) (words : list Z) : M pm_state Z :=
  match words with
  | [] => mret 0
  | w :: words' =>
      if w =? 4294967295 then cont_scan page_num (idx + 1) words'
      else if page_num =? 0 then undef (* ~0 >> 32 *)
      else
        match find_run (Z.to_nat (32 - page_num + 1)) w
                (Z.shiftr 4294967295 (32 - page_num)) 0 with
        | Some (mask, shift) =>
            s ← get;
            put (set_word idx (Z.lor w mask) s) ≫= fun _ =>
            mret (page_of s idx shift)
        | None => cont_scan page_num (idx + 1) words'
        end
  end.

Definition pm_alloc_cont (page_num : Z) : M pm_state Z := fun s =>
  if 32 <? page_num then Ret 0 s else cont_scan page_num 0 (pm_bitmap s) s.

(** ** pm_free *)

Definition pm_free (addr : Z) : M pm_state unit := fun s =>
  let addr := PALIGNDOWN addr in
  let idx := (addr -w pm_page_pool s) / PAGE_SIZE / 32 in
  let bit := ((addr -w pm_page_pool s) / PAGE_SIZE) mod 32 in
  match zlookup (pm_bitmap s) idx with
  | Some w => Ret tt (set_word idx (Z.land w (Z.lnot (Z.shiftl 1 bit))) s)
  | None => Undef
  end.

(** ** pm_init *)

(** One iteration of the scan for the biggest area. *)
Definition pick_area (e : memory_map_entry) (acc : Z * Z) : Z * Z :=
  let '(max_size, pool) := acc in
  if max_size <=? len_low e then (len_low e, PALIGNUP (p2v (base_low e))) else acc.

(** The first sixteen entries of the memory map are examined. *)
Definition pm_init (memory_map : list memory_map_entry) : M pm_state Z := fun s =>
  if (length memory_map <? 16)%nat then Undef
  else
    let '(_, pool) := foldl (fun acc e => pick_area e acc) (0, pm_page_pool s) (take 16 memory_map) in
    Ret (v2p pool) (Pm (repeat 0 (Z.to_nat PM_BITMAP_NMEMB)) pool).

(** ** The abstract view *)

(** Page number [k] is allocated. *)
Definition used (s : pm_state) (k : Z) : bool :=
  match zlookup (pm_bitmap s) (k / 32) with Some w => Z.testbit w (k mod 32) | None => false end.

(** The physical address of page number [k]. *)
Definition page_addr (s : pm_state) (k : Z) : Z := v2p (pm_page_pool s +w (k * 4096)).

Definition is_page (k : Z) : Prop := 0 <= k < 1048576.

Record pm_wf (s : pm_state) : Prop := {
  wf_len : length (pm_bitmap s) = Z.to_nat PM_BITMAP_NMEMB;
  wf_word : forall i w, zlookup (pm_bitmap s) i = Some w -> 0 <= w < 4294967296;
  wf_pool : 0 <= pm_page_pool s < 4294967296 /\ pm_page_pool s mod 4096 = 0;
}.

(** ** Lemmas *)

Lemma PAGE_SIZE_eq : PAGE_SIZE = 4096.
Proof. done. Qed.

Lemma page_of_addr s idx bit : 0 <= idx < 32768 -> 0 <= bit < 32 ->
  page_of s idx bit = page_addr s (idx * 32 + bit).
Proof.
  intros. unfold page_of, page_addr. rewrite PAGE_SIZE_eq.
  rewrite (u32_small (idx * 32 + bit)) by lia. by rewrite u32_add_r.
Qed.

Lemma page_addr_inj s k k' : is_page k -> is_page k' ->
  page_addr s k = page_addr s k' -> k = k'.
Proof. unfold is_page, page_addr, v2p, u32. intros. zdm. Qed.

Lemma page_addr_add s k i : page_addr s (k + i) = page_addr s k +w (4096 * i).
Proof. unfold page_addr, v2p, u32. zdm. Qed.

Lemma page_addr_aligned s k : pm_wf s -> page_addr s k mod 4096 = 0.
Proof.
  intros [_ _ [_ Hp]]. unfold page_addr, v2p. rewrite u32_sub_l. unfold u32, KERN_VOFF. zdm.
Qed.

Lemma page_addr_range s k : 0 <= page_addr s k < 4294967296.
Proof. apply u32_range. Qed.

Lemma used_word s i b w : 0 <= b < 32 ->
  zlookup (pm_bitmap s) i = Some w -> used s (i * 32 + b) = Z.testbit w b.
Proof.
  intros Hb Hw. unfold used. replace ((i * 32 + b) / 32) with i by zdm.
  rewrite Hw. f_equal. zdm.
Qed.

Lemma used_set_word s idx w k : 0 <= idx < Z.of_nat (length (pm_bitmap s)) ->
  used (set_word idx w s) k = if decide (k / 32 = idx) then Z.testbit w (k mod 32) else used s k.
Proof.
  intros Hi. unfold used, set_word. simpl. case_decide as Hk.
  - subst. by rewrite zlookup_zupdate_eq.
  - by rewrite zlookup_zupdate_ne.
Qed.

Lemma set_word_wf s idx w : pm_wf s -> 0 <= w < 4294967296 -> pm_wf (set_word idx w s).
Proof.
  intros [Hl Hw Hp] Hr. split; simpl; [by rewrite zupdate_length| |done].
  intros i w' Hi. destruct (decide (i = idx)) as [->|Hne].
  - pose proof (zlookup_Some_range _ _ _ Hi) as Hra. rewrite zupdate_length in Hra.
    rewrite zlookup_zupdate_eq in Hi by done. by injection Hi as <-.
  - rewrite zlookup_zupdate_ne in Hi by done. by apply (Hw i).
Qed.

Lemma wf_length s : pm_wf s -> Z.of_nat (length (pm_bitmap s)) = 32768.
Proof. intros Hwf. rewrite (wf_len s Hwf), Z2Nat.id by (unfold PM_BITMAP_NMEMB; lia). done. Qed.

Lemma wf_lookup s i : pm_wf s -> 0 <= i < 32768 ->
  exists w, zlookup (pm_bitmap s) i = Some w /\ 0 <= w < 4294967296.
Proof.
  intros Hwf Hi. destruct (zlookup_in_range (pm_bitmap s) i) as [w Hw].
  { by rewrite (wf_length s Hwf). }
  exists w. split; [done|]. by apply (wf_word s Hwf i).
Qed.

(** Two well-formed states with the same pool and the same used pages are equal. *)
Lemma pm_ext s s' : pm_wf s -> pm_wf s' -> pm_page_pool s = pm_page_pool s' ->
  (forall k, is_page k -> used s k = used s' k) -> s = s'.
Proof.
  intros Hs Hs' Hp Hu. destruct s as [l p], s' as [l' p']. simpl in Hp. subst p'. f_equal.
  apply list_eq. intros i. destruct (decide (Z.of_nat i < 32768)) as [Hi|Hi].
  - destruct (wf_lookup _ (Z.of_nat i) Hs) as (w & Hw & Hr); [lia|].
    destruct (wf_lookup _ (Z.of_nat i) Hs') as (w' & Hw' & Hr'); [lia|].
    simpl in *. rewrite zlookup_nat in Hw, Hw'. rewrite Hw, Hw'. f_equal.
    apply Z.bits_inj'. intros b Hb. destruct (decide (b < 32)).
    + specialize (Hu (Z.of_nat i * 32 + b) ltac:(unfold is_page; lia)).
      by rewrite (used_word _ _ _ w), (used_word _ _ _ w') in Hu by (simpl; rewrite ?zlookup_nat; done || lia).
    + rewrite <- (Z.mod_small w (2 ^ 32)), <- (Z.mod_small w' (2 ^ 32)) by lia.
      by rewrite !Z.mod_pow2_bits_high by lia.
  - rewrite !lookup_ge_None_2; [done| |].
    + pose proof (wf_length _ Hs') as H. simpl in H. lia.
    + pose proof (wf_length _ Hs) as H. simpl in H. lia.
Qed.

Lemma first_zero_spec n w bit : 0 <= bit ->
  match first_zero n w bit with
  | Some b => bit <= b < bit + Z.of_nat n /\ Z.testbit w b = false /\
      (forall k, bit <= k < b -> Z.testbit w k = true)
  | None => forall k, bit <= k < bit + Z.of_nat n -> Z.testbit w k = true
  end.
Proof.
  revert bit. induction n as [|n IH]; intros bit Hb; simpl; [intros; lia|].
  rewrite has_shiftl by lia. destruct (Z.testbit w bit) eqn:E.
  - specialize (IH (bit + 1) ltac:(lia)). destruct (first_zero n w (bit + 1)) as [b|].
    + destruct IH as (H1 & H2 & H3). split; [lia|]. split; [done|].
      intros k Hk. destruct (decide (k = bit)) as [->|]; [done|]. apply H3. lia.
    + intros k Hk. destruct (decide (k = bit)) as [->|]; [done|]. apply IH. lia.
  - split; [lia|]. split; [done|]. intros; lia.
Qed.

(** The unguarded inner loop always finds a bit: the word is not ~0. *)
Lemma first_zero_total w : 0 <= w < 4294967296 -> w <> 4294967295 ->
  exists b, first_zero 32 w 0 = Some b.
Proof.
  intros Hw Hne. pose proof (first_zero_spec 32 w 0 ltac:(lia)) as H.
  destruct (first_zero 32 w 0) as [b|]; [eauto|].
  exfalso. apply Hne. apply all_ones_bits; [done|]. intros k Hk. apply H. lia.
Qed.

(** ** Allocation implements first fit on the set of pages *)

(** The state after [n] pages from page [k] were marked, nothing else changed. *)
Record marked (k n : Z) (s s' : pm_state) : Prop := {
  marked_wf : pm_wf s';
  marked_pool : pm_page_pool s' = pm_page_pool s;
  marked_used : forall j, is_page j -> used s' j = used s j || ((k <=? j) && (j <? k + n));
}.

Lemma marked_addr k n s s' j : marked k n s s' -> page_addr s' j = page_addr s j.
Proof. intros Hm. unfold page_addr. by rewrite (marked_pool _ _ _ _ Hm). Qed.

Lemma set_run_marked s idx w n i : pm_wf s -> zlookup (pm_bitmap s) idx = Some w ->
  0 <= n -> 0 <= i -> i + n <= 32 ->
  marked (idx * 32 + i) n s (set_word idx (Z.lor w (Z.shiftl (Z.ones n) i)) s).
Proof.
  intros Hwf Hw Hn Hi Hin. pose proof (zlookup_Some_range _ _ _ Hw) as Hidx.
  split; [|done|].
  - apply set_word_wf; [done|]. apply (lor_lt_pow2 32); [lia|by apply (wf_word s Hwf idx)|].
    apply ones_run_u32; lia.
  - intros j Hj. rewrite used_set_word by done. case_decide as Hd.
    + rewrite testbit_lor_run by zdm. f_equal.
      * unfold used. by rewrite Hd, Hw.
      * replace (i <=? j mod 32) with (idx * 32 + i <=? j)
          by (apply bool_decide_ext || (destruct (Z.leb_spec (idx * 32 + i) j), (Z.leb_spec i (j mod 32)); done || zdm)).
        destruct (Z.ltb_spec j (idx * 32 + i + n)), (Z.ltb_spec (j mod 32) (i + n)); done || zdm.
    + destruct (Z.leb_spec (idx * 32 + i) j); simpl; [|by rewrite orb_false_r].
      destruct (Z.ltb_spec j (idx * 32 + i + n)); [zdm|by rewrite orb_false_r].
Qed.

Lemma alloc_scan_spec s pre words : pm_wf s -> pm_bitmap s = pre ++ words ->
  Forall (fun w => w = 4294967295) pre ->
  (exists k s', alloc_scan (Z.of_nat (length pre)) words s = Ret (page_addr s k) s' /\
     is_page k /\ used s k = false /\ (forall j, 0 <= j < k -> used s j = true) /\
     marked k 1 s s') \/
  (alloc_scan (Z.of_nat (length pre)) words s = Ret 0 s /\
     forall j, is_page j -> used s j = true).
Proof.
  intros Hwf. revert pre. induction words as [|w words IH]; intros pre Hb Hpre.
  - right. split; [done|]. intros j Hj.
    destruct (wf_lookup s (j / 32) Hwf ltac:(unfold is_page in Hj; zdm)) as (w & Hw & Hr).
    unfold used. rewrite Hw. rewrite Hb, app_nil_r in Hw.
    unfold zlookup in Hw. destruct (j / 32 <? 0); [done|].
    rewrite Forall_lookup in Hpre. apply Hpre in Hw. subst. apply (Z.ones_spec_low 32). zdm.
  - assert (Hw : zlookup (pm_bitmap s) (Z.of_nat (length pre)) = Some w).
    { rewrite zlookup_nat, Hb. by rewrite list_lookup_middle. }
    pose proof (wf_word s Hwf _ _ Hw) as Hr.
    pose proof (zlookup_Some_range _ _ _ Hw) as Hidx. rewrite (wf_length s Hwf) in Hidx.
    cbn [alloc_scan]. destruct (Z.eqb_spec w 4294967295) as [->|Hne].
    + specialize (IH (pre ++ [4294967295])). rewrite length_app in IH. simpl in IH.
      replace (Z.of_nat (length pre) + 1) with (Z.of_nat (length pre + 1)) by lia.
      apply IH; [by rewrite <- app_assoc|]. apply Forall_app. by repeat constructor.
    + left. destruct (first_zero_total w Hr Hne) as [b Hfz].
      pose proof (first_zero_spec 32 w 0 ltac:(lia)) as Hs. rewrite Hfz in Hs |- *.
      destruct Hs as (Hb1 & Hb2 & Hb3).
      exists (Z.of_nat (length pre) * 32 + b). eexists. split; [|split; [|split; [|split]]].
      * unfold mbind, M_bind, get, put. rewrite page_of_addr by lia. reflexivity.
      * unfold is_page. lia.
      * by rewrite (used_word s _ b w) by (done || lia).
      * intros j Hj. destruct (decide (j / 32 = Z.of_nat (length pre))) as [He|Hlt].
        -- unfold used. rewrite He, Hw. apply Hb3. zdm.
        -- unfold used. assert (Hj32 : 0 <= j / 32 < Z.of_nat (length pre)) by zdm.
           unfold zlookup. destruct (Z.ltb_spec (j / 32) 0); [lia|].
           rewrite Hb, lookup_app_l by lia.
           destruct (lookup_lt_is_Some_2 pre (Z.to_nat (j / 32)) ltac:(lia)) as [v Hv].
           rewrite Hv. rewrite Forall_lookup in Hpre. apply Hpre in Hv. subst.
           apply (Z.ones_spec_low 32). zdm.
      * change (Z.shiftl 1 b) with (Z.shiftl (Z.ones 1) b). apply set_run_marked; done || lia.
Qed.

(** *** Contiguous runs *)

(** [n] pages from [k], all in one bitmap word, are free. *)
Definition free_run (s : pm_state) (k n : Z) : Prop :=
  k mod 32 + n <= 32 /\ forall j, k <= j < k + n -> used s j = false.

Lemma find_run_spec m w p i : 0 < p -> 0 <= i -> i + Z.of_nat m + p <= 33 ->
  match find_run m w (Z.shiftl (Z.ones p) i) i with
  | Some (mask, sh) => i <= sh < i + Z.of_nat m /\ mask = Z.shiftl (Z.ones p) sh /\
      Z.land w mask = 0 /\ (forall k, i <= k < sh -> Z.land w (Z.shiftl (Z.ones p) k) <> 0)
  | None => forall k, i <= k < i + Z.of_nat m -> Z.land w (Z.shiftl (Z.ones p) k) <> 0
  end.
Proof.
  intros Hp. revert i. induction m as [|m IH]; intros i Hi Hm; simpl; [intros; lia|].
  destruct (Z.eqb_spec (Z.land w (Z.shiftl (Z.ones p) i)) 0) as [He|Hne].
  { split; [lia|]. split; [done|]. split; [done|]. intros; lia. }
  destruct m as [|m].
  { simpl. intros k Hk. assert (k = i) as -> by lia. exact Hne. }
  assert (Hsh : u32 (Z.shiftl (Z.shiftl (Z.ones p) i) 1) = Z.shiftl (Z.ones p) (i + 1)).
  { rewrite Z.shiftl_shiftl by lia. apply u32_small.
    apply ones_run_u32; lia. }
  rewrite Hsh. specialize (IH (i + 1) ltac:(lia) ltac:(lia)).
  destruct (find_run _ _ _ _) as [[mask sh]|].
  - destruct IH as (H1 & H2 & H3 & H4). split; [lia|]. split; [done|]. split; [done|].
    intros k Hk. destruct (decide (k = i)) as [->|]; [done|]. apply H4. lia.
  - intros k Hk. destruct (decide (k = i)) as [->|]; [done|]. apply IH. lia.
Qed.

Lemma free_run_word s idx w n b : zlookup (pm_bitmap s) idx = Some w -> 0 < n -> 0 <= b ->
  b + n <= 32 -> free_run s (idx * 32 + b) n <-> Z.land w (Z.shiftl (Z.ones n) b) = 0.
Proof.
  intros Hw Hn Hb Hbn. rewrite land_run_zero by lia. unfold free_run. split.
  - intros [_ H] k Hk. rewrite <- (H (idx * 32 + k)) by lia. symmetry. apply used_word; done || lia.
  - intros H. split; [zdm|]. intros j Hj. replace j with (idx * 32 + (j - idx * 32)) by lia.
    rewrite (used_word _ _ _ w) by (done || lia). apply H. lia.
Qed.

Lemma ones_shiftr n : 0 <= n <= 32 -> Z.shiftr 4294967295 (32 - n) = Z.ones n.
Proof.
  intros H. change 4294967295 with (Z.ones 32). apply Z.bits_inj'. intros i Hi.
  rewrite Z.shiftr_spec by lia. destruct (decide (i < n)).
  - by rewrite !Z.ones_spec_low by lia.
  - by rewrite !Z.ones_spec_high by lia.
Qed.

Lemma full_word_not_free s idx n k : zlookup (pm_bitmap s) idx = Some 4294967295 ->
  0 < n -> k / 32 = idx -> ~ free_run s k n.
Proof.
  intros Hw Hn Hk [_ H]. specialize (H k ltac:(lia)). unfold used in H. rewrite Hk, Hw in H.
  rewrite (Z.ones_spec_low 32) in H by zdm. done.
Qed.

Lemma cont_scan_spec s n pre words : pm_wf s -> 1 <= n <= 32 -> pm_bitmap s = pre ++ words ->
  (forall j, 0 <= j < 32 * Z.of_nat (length pre) -> ~ free_run s j n) ->
  (exists k s', cont_scan n (Z.of_nat (length pre)) words s = Ret (page_addr s k) s' /\
     is_page k /\ free_run s k n /\ (forall j, 0 <= j < k -> ~ free_run s j n) /\
     marked k n s s') \/
  (cont_scan n (Z.of_nat (length pre)) words s = Ret 0 s /\
     forall j, is_page j -> ~ free_run s j n).
Proof.
  intros Hwf Hn. revert pre. induction words as [|w words IH]; intros pre Hb Hpre.
  - right. split; [done|]. intros j Hj. apply Hpre. rewrite app_nil_r in Hb.
    rewrite <- Hb, (wf_length s Hwf). unfold is_page in Hj. lia.
  - assert (Hw : zlookup (pm_bitmap s) (Z.of_nat (length pre)) = Some w).
    { rewrite zlookup_nat, Hb. by rewrite list_lookup_middle. }
    pose proof (wf_word s Hwf _ _ Hw) as Hr.
    pose proof (zlookup_Some_range _ _ _ Hw) as Hidx. rewrite (wf_length s Hwf) in Hidx.
    assert (Hnext : (forall b, 0 <= b < 32 -> ~ free_run s (Z.of_nat (length pre) * 32 + b) n) ->
      forall j, 0 <= j < 32 * Z.of_nat (length (pre ++ [w])) -> ~ free_run s j n).
    { intros H j Hj. rewrite length_app in Hj. simpl in Hj.
      destruct (decide (j < 32 * Z.of_nat (length pre))); [apply Hpre; lia|].
      replace j with (Z.of_nat (length pre) * 32 + (j - 32 * Z.of_nat (length pre))) by lia.
      apply H. lia. }
    specialize (IH (pre ++ [w])). rewrite length_app in IH. simpl in IH.
    replace (Z.of_nat (length pre + 1)) with (Z.of_nat (length pre) + 1) in IH by lia.
    rewrite length_app in Hnext. simpl in Hnext.
    replace (Z.of_nat (length pre + 1)) with (Z.of_nat (length pre) + 1) in Hnext by lia.
    rewrite <- app_assoc in IH. cbn [cont_scan].
    destruct (Z.eqb_spec w 4294967295) as [->|Hne].
    { apply IH; [done|]. apply Hnext. intros b Hb'. eapply full_word_not_free; [done|lia|zdm]. }
    destruct (Z.eqb_spec n 0); [lia|]. rewrite ones_shiftr by lia.
    rewrite <- (Z.shiftl_0_r (Z.ones n)).
    pose proof (find_run_spec (Z.to_nat (32 - n + 1)) w n 0 ltac:(lia) ltac:(lia) ltac:(lia)) as Hfr.
    destruct (find_run _ _ _ _) as [[mask sh]|].
    + destruct Hfr as (Hsh & -> & Hz & Hmin). left.
      exists (Z.of_nat (length pre) * 32 + sh). eexists. split; [|split; [|split; [|split]]].
      * unfold mbind, M_bind, get, put. rewrite page_of_addr by lia. reflexivity.
      * unfold is_page. lia.
      * eapply free_run_word; done || lia.
      * intros j Hj. destruct (decide (j < 32 * Z.of_nat (length pre))); [apply Hpre; lia|].
        replace j with (Z.of_nat (length pre) * 32 + (j - 32 * Z.of_nat (length pre))) by lia.
        rewrite free_run_word by (done || lia). apply Hmin. lia.
      * apply set_run_marked; done || lia.
    + apply IH; [done|]. apply Hnext. intros b Hb'.
      destruct (decide (b + n <= 32)).
      * rewrite free_run_word by (done || lia). apply Hfr. lia.
      * intros [Hc _]. revert Hc. zdm.
Qed.

(** ** Freeing *)

Lemma pm_free_page s addr : pm_wf s ->
  let k := (PALIGNDOWN addr -w pm_page_pool s) / 4096 in
  exists s', pm_free addr s = Ret tt s' /\ is_page k /\ pm_wf s' /\
    pm_page_pool s' = pm_page_pool s /\
    forall j, is_page j -> used s' j = used s j && negb (j =? k).
Proof.
  intros Hwf k. pose proof (u32_range (PALIGNDOWN addr - pm_page_pool s)) as Hu.
  assert (Hk : is_page k) by (unfold k, is_page; zdm). unfold is_page in Hk.
  unfold pm_free. rewrite PAGE_SIZE_eq. fold k.
  destruct (wf_lookup s (k / 32) Hwf ltac:(zdm)) as (w & Hw & Hr). rewrite Hw.
  eexists. split; [done|]. split; [done|]. split; [|split; [done|]].
  - apply set_word_wf; [done|]. by apply (land_lt_pow2 32).
  - intros j Hj. rewrite used_set_word by (rewrite (wf_length s Hwf); zdm). case_decide as Hd.
    + rewrite Z.land_spec, Z.lnot_spec, Z.shiftl_spec by zdm. unfold used. rewrite Hd, Hw. f_equal. f_equal.
      change 1 with (Z.ones 1). destruct (Z.eqb_spec j k) as [->|Hne].
      * rewrite Z.sub_diag. done.
      * destruct (decide (j mod 32 < k mod 32)); [by rewrite Z.testbit_neg_r by lia|].
        apply Z.ones_spec_high. zdm.
    + destruct (Z.eqb_spec j k); [subst; done|]. by rewrite andb_true_r.
Qed.

(** ** Properties *)

Lemma pm_alloc_cases s : pm_wf s ->
  (exists k s', pm_alloc s = Ret (page_addr s k) s' /\ is_page k /\ used s k = false /\
     (forall j, 0 <= j < k -> used s j = true) /\ marked k 1 s s') \/
  (pm_alloc s = Ret 0 s /\ forall j, is_page j -> used s j = true).
Proof. intros Hwf. by apply (alloc_scan_spec s [] (pm_bitmap s)). Qed.

Lemma pm_alloc_cont_cases s n : pm_wf s -> 1 <= n <= 32 ->
  (exists k s', pm_alloc_cont n s = Ret (page_addr s k) s' /\ is_page k /\ free_run s k n /\
     (forall j, 0 <= j < k -> ~ free_run s j n) /\ marked k n s s') \/
  (pm_alloc_cont n s = Ret 0 s /\ forall j, is_page j -> ~ free_run s j n).
Proof.
  intros Hwf Hn. unfold pm_alloc_cont. destruct (Z.ltb_spec 32 n); [lia|].
  apply (cont_scan_spec s n [] (pm_bitmap s)); try done. simpl. intros; lia.
Qed.

(** First-fit allocation of one page on a set of used pages. *)
Definition spec_alloc (U : Z -> bool) (r : option Z) (U' : Z -> bool) : Prop :=
  match r with
  | Some k => is_page k /\ U k = false /\ (forall j, 0 <= j < k -> U j = true) /\
      (forall j, is_page j -> U' j = U j || (j =? k))
  | None => (forall j, is_page j -> U j = true) /\ (forall j, is_page j -> U' j = U j)
  end.

(** C1: pm_alloc implements first-fit allocation: it always returns (the
    unguarded bit loop finds a bit), hands out the physical address of the
    lowest-numbered free page and marks exactly that page, or returns NULL
    with nothing changed when every page is used. *)
Theorem pm_alloc_refines s : pm_wf s ->
  exists r s', pm_alloc s = Ret (match r with Some k => page_addr s k | None => 0 end) s' /\
    pm_wf s' /\ pm_page_pool s' = pm_page_pool s /\ spec_alloc (used s) r (used s').
Proof.
  intros Hwf. destruct (pm_alloc_cases s Hwf) as [(k & s' & Hr & Hk & Hf & Hmin & Hm)|[Hr Hall]].
  - exists (Some k), s'. destruct Hm as [Hwf' Hp Hu]. do 6 (split; [done|]).
    intros j Hj. rewrite Hu by done. f_equal.
    destruct (Z.leb_spec k j), (Z.ltb_spec j (k + 1)), (Z.eqb_spec j k); done || lia.
  - exists None, s. do 3 (split; [done|]). by split.
Qed.


(** *** The bitmap and the addresses keep their types *)

(** The calls of the manager, with any arguments of their C types; a block of
    no pages is left out, for which the code shifts by 32. *)
Inductive pm_call := CallAlloc | CallCont (n : Z) | CallFree (addr : Z).

Definition call_typed (c : pm_call) : Prop :=
  match c with
  | CallAlloc => True
  | CallCont n => 0 < n < 4294967296
  | CallFree addr => 0 <= addr < 4294967296
  end.

Definition pm_do (c : pm_call) : M pm_state Z :=
  match c with
  | CallAlloc => pm_alloc
  | CallCont n => pm_alloc_cont n
  | CallFree addr => pm_free addr ≫= fun _ => mret 0
  end.

Fixpoint pm_do_all (cs : list pm_call) : M pm_state (list Z) :=
  match cs with
  | [] => mret []
  | c :: cs' => a ← pm_do c; l ← pm_do_all cs'; mret (a :: l)
  end.

(** A physical page address, or NULL *)
Definition page_typed (a : Z) : Prop := 0 <= a < 4294967296 /\ a mod 4096 = 0.

Lemma page_typed_addr s k : pm_wf s -> page_typed (page_addr s k).
Proof. intros Hwf. split; [apply page_addr_range|by apply page_addr_aligned]. Qed.

Lemma pm_do_typed c s : pm_wf s -> call_typed c ->
  exists a s', pm_do c s = Ret a s' /\ pm_wf s' /\ pm_page_pool s' = pm_page_pool s /\ page_typed a.
Proof.
  intros Hwf Hc. destruct c as [|n|addr]; cbn [pm_do call_typed] in *.
  - destruct (pm_alloc_cases s Hwf) as [(k & s' & Hr & _ & _ & _ & Hm)|[Hr _]].
    + exists (page_addr s k), s'. destruct Hm. auto using page_typed_addr.
    + by exists 0, s.
  - destruct (decide (n <= 32)) as [Hn|Hn].
    + destruct (pm_alloc_cont_cases s n Hwf ltac:(lia)) as [(k & s' & Hr & _ & _ & _ & Hm)|[Hr _]].
      * exists (page_addr s k), s'. destruct Hm. auto using page_typed_addr.
      * by exists 0, s.
    + exists 0, s. unfold pm_alloc_cont. by destruct (Z.ltb_spec 32 n); [|lia].
  - destruct (pm_free_page s addr Hwf) as (s' & Hr & _ & Hwf' & Hp & _). exists 0, s'.
    by rewrite (bind_Ret _ _ _ _ _ Hr).
Qed.

(** C36: Type soundness of the manager: from a bitmap of its declared type (a
    million bits in 32-bit words, a page-aligned pool address), any sequence of
    calls with arguments of their types runs to its end, no access outside the
    array, no undefined shift, and leaves a bitmap of that type; every result
    is a page-aligned 32-bit address. *)
Theorem pm_calls_typed cs s : pm_wf s -> Forall call_typed cs ->
  exists l s', pm_do_all cs s = Ret l s' /\ pm_wf s' /\ pm_page_pool s' = pm_page_pool s /\
    length l = length cs /\ Forall page_typed l.
Proof.
  intros Hwf Hcs. revert s Hwf. induction Hcs as [|c cs Hc _ IH]; intros s Hwf; [by exists [], s|].
  destruct (pm_do_typed c s Hwf Hc) as (a & s1 & Hr & Hwf1 & Hp1 & Ha).
  destruct (IH s1 Hwf1) as (l & s2 & Hr2 & Hwf2 & Hp2 & Hl & Hf). exists (a :: l), s2.
  cbn [pm_do_all]. rewrite (bind_Ret _ _ _ _ _ Hr), (bind_Ret _ _ _ _ _ Hr2). cbn [length].
  split; [done|]. split; [done|]. split; [congruence|]. split; [congruence|by constructor].
Qed.

(** *** No page is handed out twice *)

(** The page addresses of a block of [n] pages at [a]. *)
Definition pages (a n : Z) : list Z := (fun i => a +w (4096 * i)) <$> seqZ 0 n.

(** Calls made from [s0] on, with the pages granted so far, latest first. *)
Inductive pm_runs (s0 : pm_state) : list Z -> pm_state -> Prop :=
| runs_start : pm_runs s0 [] s0
| runs_alloc g s a s' : pm_runs s0 g s -> pm_alloc s = Ret a s' -> a <> 0 ->
    pm_runs s0 (a :: g) s'
| runs_cont g s n a s' : pm_runs s0 g s -> 1 <= n <= 32 -> pm_alloc_cont n s = Ret a s' ->
    a <> 0 -> pm_runs s0 (pages a n ++ g) s'
| runs_null g s s' : pm_runs s0 g s ->
    (pm_alloc s = Ret 0 s' \/ exists n, 1 <= n <= 32 /\ pm_alloc_cont n s = Ret 0 s') ->
    pm_runs s0 g s'.

(** Every granted page was free at the start and is used now. *)
Definition granted (s0 : pm_state) (g : list Z) (s : pm_state) : Prop :=
  pm_wf s /\ pm_page_pool s = pm_page_pool s0 /\
  (forall j, is_page j -> used s0 j = true -> used s j = true) /\
  NoDup g /\
  (forall a, a ∈ g -> exists k, is_page k /\ a = page_addr s0 k /\ used s0 k = false /\ used s k = true).

Lemma pages_spec s k n a : a ∈ pages (page_addr s k) n <->
  exists j, k <= j < k + n /\ a = page_addr s j.
Proof.
  unfold pages. rewrite list_elem_of_fmap. split.
  - intros (i & -> & Hi). apply elem_of_seqZ in Hi. exists (k + i). split; [lia|]. symmetry. apply page_addr_add.
  - intros (j & Hj & ->). exists (j - k). split; [|apply elem_of_seqZ; lia].
    rewrite <- page_addr_add. f_equal. lia.
Qed.

Lemma pages_nodup s k n : is_page k -> is_page (k + n - 1) -> NoDup (pages (page_addr s k) n).
Proof.
  intros Hk Hn. unfold is_page in *. apply NoDup_fmap_2_strong; [|apply NoDup_seqZ].
  intros x y Hx Hy. rewrite elem_of_seqZ in Hx, Hy. unfold u32. zdm.
Qed.

Lemma granted_mark s0 g s s' k n :
  granted s0 g s -> is_page k -> is_page (k + n - 1) ->
  (forall j, k <= j < k + n -> used s j = false) -> marked k n s s' ->
  granted s0 (pages (page_addr s k) n ++ g) s'.
Proof.
  intros (Hwf & Hp & Hmon & Hnd & Hg) Hk Hkn Hf [Hwf' Hp' Hu]. unfold is_page in *.
  assert (Haddr : forall j, page_addr s j = page_addr s0 j) by (intros; unfold page_addr; by rewrite Hp).
  split; [done|]. split; [congruence|]. split; [|split].
  - intros j Hj Hu0. rewrite Hu by done. by rewrite Hmon.
  - apply list.NoDup_app. split; [by apply pages_nodup|]. split; [|done].
    intros a (j & Hj & ->)%pages_spec (k' & Hk' & Heq & _ & Hus)%Hg.
    rewrite Haddr in Heq. apply page_addr_inj in Heq; [|unfold is_page; lia..]. subst k'.
    rewrite Hf in Hus by lia. done.
  - intros a [(j & Hj & ->)%pages_spec|(k' & Hk' & -> & H0 & Hus)%Hg]%elem_of_app.
    + exists j. split; [unfold is_page; lia|]. split; [apply Haddr|]. split.
      * destruct (used s0 j) eqn:E; [|done]. apply Hmon in E; [|lia]. by rewrite Hf in E by lia.
      * rewrite Hu by (unfold is_page; lia).
        destruct (Z.leb_spec k j), (Z.ltb_spec j (k + n)); simpl; lia.
    + exists k'. split; [done|]. split; [done|]. split; [done|]. rewrite Hu by done. by rewrite Hus.
Qed.

Lemma granted_weaken s0 g g' s : granted s0 (g' ++ g) s -> granted s0 g s.
Proof.
  intros (H1 & H2 & H3 & Hn & Hg). do 3 (split; [done|]). split.
  - apply list.NoDup_app in Hn. tauto.
  - intros a Ha. apply Hg. set_solver.
Qed.

Lemma pages_one s k : pages (page_addr s k) 1 = [page_addr s k].
Proof.
  unfold pages. change (seqZ 0 1) with [0]. simpl. f_equal. rewrite Z.mul_0_r, Z.add_0_r.
  apply u32_small, page_addr_range.
Qed.

Lemma granted_alloc s0 g s a s' : granted s0 g s -> pm_alloc s = Ret a s' ->
  granted s0 ((if a =? 0 then [] else [a]) ++ g) s'.
Proof.
  intros HG Hr. destruct (pm_alloc_cases s (proj1 HG)) as [(k & s1 & Hr1 & Hk & Hf & _ & Hm)|[Hr1 _]];
    rewrite Hr in Hr1; injection Hr1 as -> ->; [|done].
  assert (HG' : granted s0 (pages (page_addr s k) 1 ++ g) s1).
  { apply granted_mark; try done.
    - unfold is_page in *. lia.
    - intros j Hj. by assert (j = k) as -> by lia. }
  rewrite pages_one in HG'. destruct (page_addr s k =? 0); [|done].
  by apply granted_weaken with [page_addr s k].
Qed.

Lemma granted_cont s0 g s n a s' : granted s0 g s -> 1 <= n <= 32 -> pm_alloc_cont n s = Ret a s' ->
  granted s0 ((if a =? 0 then [] else pages a n) ++ g) s'.
Proof.
  intros HG Hn Hr.
  destruct (pm_alloc_cont_cases s n (proj1 HG) Hn) as [(k & s1 & Hr1 & Hk & [Hw Hf] & _ & Hm)|[Hr1 _]];
    rewrite Hr in Hr1; injection Hr1 as -> ->; [|done].
  assert (HG' : granted s0 (pages (page_addr s k) n ++ g) s1).
  { apply granted_mark; try done. unfold is_page in *. zdm. }
  destruct (page_addr s k =? 0); [|done]. by eapply granted_weaken.
Qed.

(** C25: Over any sequence of pm_alloc and pm_alloc_cont calls no page address
    is handed out twice, and every page handed out was free at the start and
    is marked used at the end. *)
Theorem pm_allocs_disjoint s0 g s : pm_wf s0 -> pm_runs s0 g s ->
  NoDup g /\
  forall a, a ∈ g -> exists k, is_page k /\ a = page_addr s0 k /\ used s0 k = false /\ used s k = true.
Proof.
  intros Hwf Hrun. assert (HG : granted s0 g s).
  { induction Hrun as [|g s a s' _ IH Hr Ha|g s n a s' _ IH Hn Hr Ha|g s s' _ IH [Hr|(n & Hn & Hr)]].
    - split; [done|]. split; [done|]. split; [done|]. split; [constructor|]. set_solver.
    - apply (granted_alloc s0 g s a s' IH) in Hr. by destruct (Z.eqb_spec a 0).
    - apply (granted_cont s0 g s n a s' IH Hn) in Hr. by destruct (Z.eqb_spec a 0).
    - by apply (granted_alloc s0 g s 0 s' IH) in Hr.
    - by apply (granted_cont s0 g s n 0 s' IH Hn) in Hr. }
  destruct HG as (_ & _ & _ & ? & ?). done.
Qed.

(** *** Freeing *)

(** Freeing the kernel-virtual address (p2v) of a page just obtained from
    pm_alloc restores the allocator's state exactly. *)
Theorem pm_alloc_free_roundtrip s a s' : pm_wf s -> pm_alloc s = Ret a s' ->
  (exists j, is_page j /\ used s j = false) -> pm_free (p2v a) s' = Ret tt s.
Proof.
  intros Hwf Hr (j0 & Hj0 & Hfree).
  destruct (pm_alloc_cases s Hwf) as [(k & s1 & Hr1 & Hk & Hf & _ & [Hwf' Hp Hu])|[_ Hall]];
    [|by rewrite Hall in Hfree].
  rewrite Hr in Hr1. injection Hr1 as -> <-.
  destruct (pm_free_page s' (p2v (page_addr s k)) Hwf') as (s2 & Hr2 & _ & Hwf2 & Hp2 & Hu2).
  rewrite Hr2. f_equal. symmetry. apply pm_ext; [done|done|congruence|].
  assert (Hid : (PALIGNDOWN (p2v (page_addr s k)) -w pm_page_pool s') / 4096 = k).
  { destruct (wf_pool s Hwf) as [Hp0 Hal]. rewrite Hp. unfold PALIGNDOWN, p2v.
    rewrite land_page by apply u32_range. unfold page_addr, v2p, u32, KERN_VOFF, is_page in *. zdm. }
  intros j Hj. rewrite Hu2, Hid, Hu by done.
  destruct (Z.eqb_spec j k) as [->|Hne]; [by rewrite Hf, andb_false_r|].
  destruct (Z.leb_spec k j), (Z.ltb_spec j (k + 1)); simpl; try lia;
    by rewrite orb_false_r, andb_true_r.
Qed.

(** Freeing the address exactly as pm_alloc returned it does not free the
    page: pm_free subtracts the virtual address of the pool from a physical
    address, so it clears the bit of the page 131072 places further on (modulo
    the 2^20 pages) and the page stays marked used. *)
Theorem pm_free_of_returned_address s a s' k : pm_wf s -> is_page k ->
  used s k = false -> (forall j, 0 <= j < k -> used s j = true) -> pm_alloc s = Ret a s' ->
  exists s'', pm_free a s' = Ret tt s'' /\ used s'' k = true /\
    used s'' ((k + 131072) mod 1048576) = false.
Proof.
  intros Hwf Hk0 Hfr Hmin0 Hr.
  destruct (pm_alloc_cases s Hwf) as [(k' & s1 & Hr1 & Hk & Hf & Hmin & [Hwf' Hp Hu])|[_ Hall]];
    [|by rewrite Hall in Hfr].
  rewrite Hr in Hr1. injection Hr1 as -> <-.
  assert (k' = k) as ->.
  { unfold is_page in *. destruct (decide (k' < k)) as [Hlt|]; [by rewrite Hmin0 in Hf by lia|].
    destruct (decide (k < k')); [by rewrite Hmin in Hfr by lia|lia]. }
  destruct (pm_free_page s' (page_addr s k) Hwf') as (s2 & Hr2 & _ & Hwf2 & Hp2 & Hu2).
  assert (Hid : (PALIGNDOWN (page_addr s k) -w pm_page_pool s') / 4096 = (k + 131072) mod 1048576).
  { destruct (wf_pool s Hwf) as [Hp0 Hal]. rewrite Hp. unfold PALIGNDOWN.
    rewrite land_page by apply u32_range. unfold page_addr, v2p, u32, KERN_VOFF, is_page in *. zdm. }
  exists s2. split; [done|]. rewrite Hid in Hu2. unfold is_page in *.
  split; rewrite Hu2 by zdm.
  - rewrite Hu by done. rewrite Z.leb_refl. destruct (Z.ltb_spec k (k + 1)); [|lia]. simpl.
    rewrite orb_true_r. destruct (Z.eqb_spec k ((k + 131072) mod 1048576)); [zdm|done].
  - rewrite Z.eqb_refl. by rewrite andb_false_r.
Qed.

(** *** Initialisation *)

Lemma zlookup_repeat (n : nat) (x w i : Z) : zlookup (repeat x n) i = Some w -> w = x.
Proof.
  unfold zlookup. destruct (i <? 0); [done|].
  intros Hi%list_elem_of_lookup_2. rewrite list_elem_of_In in Hi. by apply repeat_spec in Hi.
Qed.

Lemma zeroed_wf pool : 0 <= pool < 4294967296 -> pool mod 4096 = 0 ->
  pm_wf (Pm (repeat 0 (Z.to_nat PM_BITMAP_NMEMB)) pool).
Proof.
  intros Hp Ha. split; [apply repeat_length| |done].
  intros i w Hi. apply zlookup_repeat in Hi. lia.
Qed.

Lemma zeroed_used pool k : used (Pm (repeat 0 (Z.to_nat PM_BITMAP_NMEMB)) pool) k = false.
Proof.
  unfold used. cbn [pm_bitmap]. destruct (zlookup _ _) as [w|] eqn:E; [|done].
  apply zlookup_repeat in E. subst. apply Z.bits_0.
Qed.

Lemma PALIGNUP_spec a : 0 <= PALIGNUP a < 4294967296 /\ PALIGNUP a mod 4096 = 0.
Proof.
  unfold PALIGNUP. pose proof (u32_range (u32 (a + PAGE_SIZE) - 1)) as Hr.
  rewrite land_page by done. zdm.
Qed.

(** [e], at [i], is the last of the entries with the greatest length. *)
Definition last_biggest (l : list memory_map_entry) (i : nat) (e : memory_map_entry) : Prop :=
  l !! i = Some e /\
  forall j e', l !! j = Some e' -> len_low e' <= len_low e /\ ((i < j)%nat -> len_low e' < len_low e).

Lemma pick_area_fold l p0 : l <> [] -> Forall (fun e => 0 <= len_low e) l ->
  exists i e, last_biggest l i e /\
    foldl (fun acc e => pick_area e acc) (0, p0) l = (len_low e, PALIGNUP (p2v (base_low e))).
Proof.
  intros Hne Hpos. induction l as [|x l IH] using rev_ind; [done|].
  apply Forall_app in Hpos as [Hl Hx]. rewrite Forall_singleton in Hx. rewrite foldl_app. simpl.
  destruct (decide (l = [])) as [->|Hl'].
  { simpl. destruct (Z.leb_spec 0 (len_low x)); [|lia]. exists O, x. split; [|done]. split; [done|].
    intros [|j] e' Hj; simplify_eq/=. lia. }
  destruct (IH Hl' Hl) as (i & e & [Hi Hmax] & ->). simpl.
  pose proof (lookup_lt_Some _ _ _ Hi) as Hlt.
  assert (Hlast : forall j e', (l ++ [x]) !! j = Some e' -> l !! j = Some e' \/ (j = length l /\ e' = x)).
  { intros j e' Hj. apply lookup_app_Some in Hj as [?|[Hge Hj]]; [by left|right].
    destruct (j - length l)%nat eqn:E; simplify_eq/=. split; [lia|done]. }
  destruct (Z.leb_spec (len_low e) (len_low x)) as [Hle|Hgt].
  - exists (length l), x. split; [|done]. split; [by rewrite list_lookup_middle|].
    intros j e' [Hj|[-> ->]]%Hlast; [|lia].
    pose proof (lookup_lt_Some _ _ _ Hj). destruct (Hmax _ _ Hj). lia.
  - exists i, e. split; [|done]. split; [by rewrite lookup_app_l|].
    intros j e' [Hj|[-> ->]]%Hlast; [by apply Hmax|lia].
Qed.

(** pm_init starts the pool at the page-aligned kernel-virtual address of
    the last of the longest areas among the sixteen entries of the memory map
    (whatever their types), with every page free and the allocator well
    formed; it returns the pool's physical address. *)
Theorem pm_init_picks_biggest mm s : (16 <= length mm)%nat ->
  Forall (fun e => 0 <= len_low e) mm ->
  exists i e s', last_biggest (take 16 mm) i e /\
    pm_init mm s = Ret (v2p (PALIGNUP (p2v (base_low e)))) s' /\
    pm_page_pool s' = PALIGNUP (p2v (base_low e)) /\ pm_wf s' /\
    forall k, used s' k = false.
Proof.
  intros Hlen Hpos. destruct (pick_area_fold (take 16 mm) (pm_page_pool s)) as (i & e & Hb & Hf).
  { intros Ht. apply (f_equal length) in Ht. rewrite length_take, length_nil in Ht. lia. }
  { by apply Forall_take. }
  exists i, e. unfold pm_init. destruct (Nat.ltb_spec (length mm) 16); [lia|]. rewrite Hf.
  eexists. split; [done|]. split; [done|]. split; [done|].
  destruct (PALIGNUP_spec (p2v (base_low e))).
  split; [by apply zeroed_wf|]. intros k. apply zeroed_used.
Qed.

(** ** Witnesses *)

(** A freshly initialised allocator whose pool starts at 4 MiB. *)
Definition pm_boot : pm_state := Pm (repeat 0 (Z.to_nat PM_BITMAP_NMEMB)) 3762290688.

Lemma pm_boot_wf : pm_wf pm_boot.
Proof. apply zeroed_wf; [lia|done]. Qed.

Lemma pm_alloc_refines_witness :
  exists r s', pm_alloc pm_boot = Ret (match r with Some k => page_addr pm_boot k | None => 0 end) s' /\
    pm_wf s' /\ pm_page_pool s' = pm_page_pool pm_boot /\ spec_alloc (used pm_boot) r (used s').
Proof. apply (pm_alloc_refines pm_boot). apply pm_boot_wf. Defined.


(** The state and address of the first allocation after boot. *)
Definition pm_boot1 : pm_state := set_word 0 1 pm_boot.
Lemma pm_boot_alloc : pm_alloc pm_boot = Ret 4194304 pm_boot1.
Proof. reflexivity. Qed.

(** A page, a block of three behind it, and a page behind that *)
Definition pm_boot2 : pm_state := set_word 0 15 pm_boot.
Definition pm_boot3 : pm_state := set_word 0 31 pm_boot.

Lemma pm_allocs_disjoint_witness :
  pm_runs pm_boot (4210688 :: pages 4198400 3 ++ [4194304]) pm_boot3 /\
  NoDup (4210688 :: pages 4198400 3 ++ [4194304]) /\
  forall a, a ∈ 4210688 :: pages 4198400 3 ++ [4194304] -> exists k, is_page k /\ a = page_addr pm_boot k /\
    used pm_boot k = false /\ used pm_boot3 k = true.
Proof.
  assert (H1 : pm_runs pm_boot [4194304] pm_boot1).
  { eapply runs_alloc; [constructor|apply pm_boot_alloc|done]. }
  assert (H2 : pm_runs pm_boot (pages 4198400 3 ++ [4194304]) pm_boot2).
  { eapply runs_cont; [exact H1|lia|reflexivity|done]. }
  assert (H3 : pm_runs pm_boot (4210688 :: pages 4198400 3 ++ [4194304]) pm_boot3).
  { eapply runs_alloc; [exact H2|reflexivity|done]. }
  split; [exact H3|]. exact (pm_allocs_disjoint pm_boot _ pm_boot3 pm_boot_wf H3).
Defined.

Lemma pm_alloc_free_roundtrip_witness : pm_free (p2v 4194304) pm_boot1 = Ret tt pm_boot.
Proof.
  apply (pm_alloc_free_roundtrip pm_boot 4194304 pm_boot1); [apply pm_boot_wf|apply pm_boot_alloc|].
  exists 0. split; [unfold is_page; lia|apply zeroed_used].
Defined.

Lemma pm_free_of_returned_address_witness :
  exists s'', pm_free 4194304 pm_boot1 = Ret tt s'' /\ used s'' 0 = true /\ used s'' 131072 = false.
Proof.
  apply (pm_free_of_returned_address pm_boot 4194304 pm_boot1 0).
  - apply pm_boot_wf.
  - unfold is_page. lia.
  - apply zeroed_used.
  - intros; lia.
  - apply pm_boot_alloc.
Defined.

(** A map whose third area is the biggest. *)
Definition mm_boot : list memory_map_entry :=
  Build_memory_map_entry 0 0 654336 0 1 1 :: Build_memory_map_entry 654336 0 1024 0 2 1 ::
  Build_memory_map_entry 1048576 0 66977792 0 1 1 :: repeat (Build_memory_map_entry 0 0 0 0 0 0) 13.

Lemma pm_init_picks_biggest_witness :
  exists i e s', last_biggest (take 16 mm_boot) i e /\
    pm_init mm_boot pm_boot = Ret (v2p (PALIGNUP (p2v (base_low e)))) s' /\
    pm_page_pool s' = PALIGNUP (p2v (base_low e)) /\ pm_wf s' /\ forall k, used s' k = false.
Proof.
  apply (pm_init_picks_biggest mm_boot pm_boot); [simpl; lia|].
  repeat (constructor; [simpl; lia|]). constructor.
Defined.

(** Freeing an address far outside the pool, the null page included, is a
    typed call like any other. *)
Lemma pm_calls_typed_witness : exists l s',
  pm_do_all [CallAlloc; CallCont 5; CallFree 0; CallFree 4294967295; CallCont 33] pm_boot = Ret l s' /\ pm_wf s' /\ length l = 5%nat.
Proof.
  destruct (pm_calls_typed [CallAlloc; CallCont 5; CallFree 0; CallFree 4294967295; CallCont 33] pm_boot)
    as (l & s' & Hr & Hwf & _ & Hl & _); [exact pm_boot_wf| |].
  - repeat constructor; vm_compute; congruence.
  - exists l, s'. split; [exact Hr|]. split; [exact Hwf|exact Hl].
Defined.
