(* ===== verification/Vm.v ===== *)
(** * Vm.v: the virtual memory manager (kernel/vm.c, include/kernel/vm.h)

    The kernel edits the page tables of the current address space through the
    recursive mapping: directory entry 1023 points to the directory itself, so
    the directory appears at 0xfffff000 and the tables at 0xffc00000.  Every
    access below goes through the page-table walk of Machine.v, as in the C
    code.  [vm_flush_page] only affects the TLB, which is taken to be coherent,
    and the diagnostics printed before [halt()] are left out. *)

From S2P Require Import Prelude Memory Machine Pm.

(** include/kernel/vm.h *)
Definition KERN_PDIR_ADDR : Z := 4294963200.  (* 0xfffff000 *)
Definition KERN_PTABS_ADDR : Z := 4290772992. (* 0xffc00000 *)
Definition VM_USER_STACK_ADDR : Z := 3489660928. (* 0xd0000000 *)
Definition PDE_P : Z := 1.
Definition PDE_W : Z := 2.
Definition PDE_U : Z := 4.
Definition PTE_P : Z := 1.
Definition PTE_W : Z := 2.
Definition PTE_U : Z := 4.
Definition PTE_T : Z := 8.
Definition PTE_C : Z := 16.

Definition vm_pdir_idx (vaddr : Z) : Z := Z.shiftr vaddr 22.
Definition vm_ptab_idx (vaddr : Z) : Z := Z.land (Z.shiftr vaddr 12) 1023.

(** The page tables live in the machine's memory, the page frames they are
    made of come from the physical memory manager. *)
Record vmst := Vmst { mach : machine; pms : pm_state }.

Definition set_mach (m : machine) (s : vmst) : vmst := Vmst m (pms s).
Definition on_mach {A} : M machine A -> M vmst A := zoom mach set_mach.
Definition on_pm {A} : M pm_state A -> M vmst A := zoom pms (fun p s => Vmst (mach s) p).

Definition vld (va : Z) : M vmst Z := on_mach (vload32 va).
Definition vst (va v : Z) : M vmst unit := on_mach (vstore32 va v).

(** [&pdir[idx]] and [&ptab[idx]] for the current directory *)
Definition pdir_slot (vaddr : Z) : Z := KERN_PDIR_ADDR +w (4 * vm_pdir_idx vaddr).
Definition ptab_slot (vaddr : Z) : Z :=
  (KERN_PTABS_ADDR +w (4 * (1024 * vm_pdir_idx vaddr))) +w (4 * vm_ptab_idx vaddr).

(** Map a single page *)
Definition map_page (paddr vaddr flags : Z) : M vmst unit :=
  let paddr := PALIGNDOWN paddr in
  let vaddr := PALIGNDOWN vaddr in
  let flags := Z.lor flags (Z.lor PTE_P PTE_W) in
  pde ← vld (pdir_slot vaddr);
  if has pde PDE_P then
    pte ← vld (ptab_slot vaddr);
    if has pte PTE_P then
      if negb (Z.land pte 4294963200 =? Z.land paddr 4294963200) then halt
      else if negb (Z.land pte 31 =? Z.land flags 31) then halt
      else mret tt
    else
      pde' ← vld (pdir_slot vaddr);
      vst (pdir_slot vaddr) (Z.lor pde' flags) ≫= fun _ =>
      vst (ptab_slot vaddr) (Z.lor paddr flags)
  else
    new_ptab ← on_pm pm_alloc;
    vst (pdir_slot vaddr) (Z.lor new_ptab flags) ≫= fun _ =>
    vst (ptab_slot vaddr) (Z.lor paddr flags).

(** Unmap a single page *)
Definition unmap_page (vaddr : Z) : M vmst unit := vst (ptab_slot (PALIGNDOWN vaddr)) 0.

(** [sz / PAGE_SIZE + (sz % PAGE_SIZE > 0)] *)
Definition npages (sz : Z) : Z := sz / PAGE_SIZE + (if 0 <? sz mod PAGE_SIZE then 1 else 0).

(** Map <sz> memory of continuous pages *)
Fixpoint map_pages_loop (n : nat) (paddr vaddr flags : Z) : M vmst unit :=
  match n with
  | O => mret tt
  | S n' => map_page paddr vaddr flags ≫= fun _ =>
            map_pages_loop n' (paddr +w PAGE_SIZE) (vaddr +w PAGE_SIZE) flags
  end.
Definition map_pages (paddr vaddr flags sz : Z) : M vmst unit :=
  if sz =? 0 then mret tt
  else map_pages_loop (Z.to_nat (npages sz)) (PALIGNDOWN paddr) (PALIGNDOWN vaddr) flags.

(** Unmap <sz> memory of continuous pages *)
Fixpoint unmap_pages_loop (n : nat) (vaddr : Z) : M vmst unit :=
  match n with
  | O => mret tt
  | S n' => unmap_page vaddr ≫= fun _ => unmap_pages_loop n' (vaddr +w PAGE_SIZE)
  end.
Definition unmap_pages (vaddr sz : Z) : M vmst unit :=
  if sz =? 0 then mret tt
  else unmap_pages_loop (Z.to_nat (npages sz)) (PALIGNDOWN vaddr).

(** What physical address <vaddr> is mapped to in the current address space *)
Definition vm_get_phys_mapping (vaddr : Z) : M vmst Z :=
  let page_offset := Z.land vaddr 4095 in
  pte ← vld (ptab_slot (PALIGNDOWN vaddr));
  mret (Z.land pte 4294966272 +w page_offset). (* ~0x3ff *)

(** Allocate <sz> worth of physical pages mapped from <vaddr> on *)
Fixpoint vm_alloc_loop (n : nat) (vaddr flags : Z) : M vmst unit :=
  match n with
  | O => mret tt
  | S n' =>
      physical_page ← on_pm pm_alloc;
      map_page physical_page vaddr flags ≫= fun _ => vm_alloc_loop n' (vaddr +w PAGE_SIZE) flags
  end.
Definition vm_alloc_pages_at (vaddr flags sz : Z) : M vmst unit :=
  if sz =? 0 then mret tt
  else vm_alloc_loop (Z.to_nat (npages sz)) (PALIGNDOWN vaddr) flags.

Definition vm_change_page_attrs (vaddr new_flags : Z) : M vmst unit :=
  let pte := ptab_slot (PALIGNDOWN vaddr) in
  v ← vld pte; vst pte (Z.lor (Z.land v 4294966272) new_flags).

Fixpoint vm_change_loop (n : nat) (vaddr new_flags : Z) : M vmst unit :=
  match n with
  | O => mret tt
  | S n' => vm_change_page_attrs vaddr new_flags ≫= fun _ =>
            vm_change_loop n' (vaddr +w PAGE_SIZE) new_flags
  end.
Definition vm_change_pages_attrs (vaddr new_flags bytes : Z) : M vmst unit :=
  vm_change_loop (Z.to_nat (npages bytes)) (PALIGNDOWN vaddr) new_flags.

(** A new, zeroed page directory *)
Definition new_pdir : M vmst Z :=
  pdir ← on_pm pm_alloc;
  if pdir =? 0 then mret 0
  else on_mach (memset pdir 0 PAGE_SIZE) ≫= fun _ => mret pdir.

(** The loop of vm_copy_kernel_pdir, from entry [i] on: copy the entries that
    are present and not meant for user code. *)
Fixpoint copy_pdes (n : nat) (i new_pdir : Z) : M vmst unit :=
  match n with
  | O => mret tt
  | S n' =>
      e ← vld (KERN_PDIR_ADDR +w (4 * i));
      (if has e PDE_P then
         if negb (has e PDE_U) then vst (new_pdir +w (4 * i)) e else mret tt
       else mret tt) ≫= fun _ =>
      copy_pdes n' (i + 1) new_pdir
  end.

Definition vm_copy_kernel_pdir : M vmst Z :=
  new_pdir ← on_pm pm_alloc;
  if new_pdir =? 0 then mret 0
  else
    map_page new_pdir new_pdir 0 ≫= fun _ =>
    on_mach (memset new_pdir 0 PAGE_SIZE) ≫= fun _ =>
    copy_pdes 1024 0 new_pdir ≫= fun _ =>
    vst (new_pdir +w (4 * 1023)) (Z.lor new_pdir (Z.lor PDE_P PDE_W)) ≫= fun _ =>
    mret new_pdir.

(** Nothing to set up: the boot code built the first tables. *)
Definition vm_init : M vmst Z := mret KERN_PDIR_ADDR.

(** ** Well-formed address spaces *)

Record as_wf (m : machine) : Prop := {
  as_cr3 : 0 <= cr3 m < 4294967296;
  as_self : has (pde_at m 1023) 1 = true /\ frame (pde_at m 1023) = frame (cr3 m);
  as_distinct : forall d d', 0 <= d < 1024 -> 0 <= d' < 1024 ->
    has (pde_at m d) 1 = true -> has (pde_at m d') 1 = true ->
    frame (pde_at m d) = frame (pde_at m d') -> d = d';
}.

(** A page of the pool proper.  The bitmap always has 2^20 bits, so that its
    page numbers run past the memory area the pool was placed in (and wrap
    around the address space); [N] is the number of pages of that area. *)
Definition pool_page (N k : Z) : Prop := 0 <= k < N.

(** The invariant of the virtual memory manager: the current space is well
    formed, its tables sit in frames the allocator does not consider free, and
    free frames of the pool hold zeroes.  The last is an assumption about
    memory, which operations keep but nothing establishes: neither pm.c nor
    vm.c clears a page, and a new page table is right only if its frame is
    clear. *)
Record vm_inv (N : Z) (s : vmst) : Prop := {
  inv_N : N <= 1048576;
  inv_as : as_wf (mach s);
  inv_pm : pm_wf (pms s);
  inv_tables : forall d k, 0 <= d < 1024 -> has (pde_at (mach s) d) 1 = true -> pool_page N k ->
    frame (pde_at (mach s) d) = page_addr (pms s) k -> used (pms s) k = true;
  inv_zero : forall k i, pool_page N k -> used (pms s) k = false -> 0 <= i < 4096 ->
    pbyte (phys (mach s)) (page_addr (pms s) k + i) = Byte.x00;
}.

Lemma pool_is_page N k : N <= 1048576 -> pool_page N k -> is_page k.
Proof. unfold pool_page, is_page. lia. Qed.

(** ** The recursive window *)

Lemma PALIGNDOWN_eq a : 0 <= a < 4294967296 -> PALIGNDOWN a = a - a mod 4096.
Proof. apply land_page. Qed.

Lemma PALIGNDOWN_index va : 0 <= va < 4294967296 ->
  pd_index (PALIGNDOWN va) = pd_index va /\ pt_index (PALIGNDOWN va) = pt_index va /\
  0 <= PALIGNDOWN va < 4294967296 /\ PALIGNDOWN va mod 4096 = 0.
Proof.
  intros H. rewrite PALIGNDOWN_eq, !pd_index_eq, !pt_index_eq by done.
  split; [zdm|]. split; [zdm|]. split; zdm.
Qed.

Lemma frame_ne f f' x x' : f mod 4096 = 0 -> f' mod 4096 = 0 -> f <> f' ->
  0 <= x < 4096 -> 0 <= x' < 4096 -> f + x <> f' + x'.
Proof. intros. zdm. Qed.

(** Entries of different tables, or different entries of one, do not overlap. *)
Lemma slots_apart f f' i j : f mod 4096 = 0 -> f' mod 4096 = 0 ->
  0 <= i < 1024 -> 0 <= j < 1024 -> (f <> f' \/ i <> j) ->
  f + 4 * i + 4 <= f' + 4 * j \/ f' + 4 * j + 4 <= f + 4 * i.
Proof. intros. zdm. Qed.

Section Window.
Context (m : machine) (Hwf : as_wf m).

Lemma frame_cr3 : 0 <= frame (cr3 m) <= 4294963200 /\ frame (cr3 m) mod 4096 = 0.
Proof. apply frame_range, (as_cr3 m Hwf). Qed.

Lemma frame_pde d : 0 <= frame (pde_at m d) <= 4294963200 /\ frame (pde_at m d) mod 4096 = 0.
Proof. apply frame_range, pde_at_range. Qed.

Lemma pte_at_self d : pte_at m 1023 d = pde_at m d.
Proof. unfold pte_at, pte_addr. destruct (as_self m Hwf) as [_ ->]. done. Qed.

Lemma translate_window d x : 0 <= d < 1024 -> 0 <= x < 4096 ->
  translate m (4290772992 + 4096 * d + x) =
    if has (pde_at m d) 1 then Some (frame (pde_at m d) + x) else None.
Proof.
  intros Hd Hx. destruct (index_of 1023 d x Hd Hx) as (Hi & Ht & Ho).
  change 4290772992 with (4194304 * 1023). unfold translate, walk. rewrite Hi, Ht, Ho.
  destruct (as_self m Hwf) as [-> _]. rewrite pte_at_self.
  by destruct (has (pde_at m d) 1).
Qed.

Lemma pdir_slot_eq va : 0 <= va < 4294967296 ->
  pdir_slot va = 4290772992 + 4096 * 1023 + 4 * pd_index va.
Proof.
  intros H. pose proof (pd_index_range va H). unfold pdir_slot, KERN_PDIR_ADDR.
  change (vm_pdir_idx va) with (pd_index va). rewrite u32_small; lia.
Qed.

Lemma ptab_slot_eq va : 0 <= va < 4294967296 ->
  ptab_slot va = 4290772992 + 4096 * pd_index va + 4 * pt_index va.
Proof.
  intros H. pose proof (pd_index_range va H). pose proof (pt_index_range va).
  unfold ptab_slot, KERN_PTABS_ADDR. change (vm_pdir_idx va) with (pd_index va).
  change (vm_ptab_idx va) with (pt_index va). rewrite !u32_small; rewrite ?u32_small; lia.
Qed.

Lemma translate_pdir_slot va : 0 <= va < 4294967296 ->
  translate m (pdir_slot va) = Some (pde_addr m (pd_index va)).
Proof.
  intros H. pose proof (pd_index_range va H). rewrite pdir_slot_eq, translate_window by lia.
  destruct (as_self m Hwf) as [-> ->]. done.
Qed.

Lemma translate_ptab_slot va : 0 <= va < 4294967296 ->
  translate m (ptab_slot va) =
    if has (pde_at m (pd_index va)) 1 then Some (pte_addr m (pd_index va) (pt_index va)) else None.
Proof.
  intros H. pose proof (pd_index_range va H). pose proof (pt_index_range va).
  rewrite ptab_slot_eq, translate_window by lia. done.
Qed.
End Window.

(** ** Writing one entry *)

Definition set_pde (m : machine) (d v : Z) : machine :=
  set_phys (pstore32 (pde_addr m d) v (phys m)) m.
Definition set_pte (m : machine) (d t v : Z) : machine :=
  set_phys (pstore32 (pte_addr m d t) v (phys m)) m.

Lemma vld_pde s va : as_wf (mach s) -> 0 <= va < 4294967296 ->
  vld (pdir_slot va) s = Ret (pde_at (mach s) (pd_index va)) s.
Proof.
  intros Hwf H. unfold vld, on_mach, zoom, vload32. rewrite translate_pdir_slot by done.
  by destruct s.
Qed.

Lemma vld_pte s va : as_wf (mach s) -> 0 <= va < 4294967296 ->
  vld (ptab_slot va) s =
    if has (pde_at (mach s) (pd_index va)) 1
    then Ret (pte_at (mach s) (pd_index va) (pt_index va)) s else Faulted (ptab_slot va).
Proof.
  intros Hwf H. unfold vld, on_mach, zoom, vload32. rewrite translate_ptab_slot by done.
  destruct (has _ 1); [by destruct s|done].
Qed.

Lemma vst_pde s va v : as_wf (mach s) -> 0 <= va < 4294967296 ->
  vst (pdir_slot va) v s = Ret tt (set_mach (set_pde (mach s) (pd_index va) v) s).
Proof.
  intros Hwf H. unfold vst, on_mach, zoom, vstore32. by rewrite translate_pdir_slot.
Qed.

Lemma vst_pte s va v : as_wf (mach s) -> 0 <= va < 4294967296 ->
  vst (ptab_slot va) v s =
    if has (pde_at (mach s) (pd_index va)) 1
    then Ret tt (set_mach (set_pte (mach s) (pd_index va) (pt_index va) v) s)
    else Faulted (ptab_slot va).
Proof.
  intros Hwf H. unfold vst, on_mach, zoom, vstore32. rewrite translate_ptab_slot by done.
  by destruct (has _ 1).
Qed.

Section Entries.
Context (m : machine) (Hwf : as_wf m).

Lemma pde_at_set_pde d d' v : 0 <= d < 1024 -> 0 <= d' < 1024 -> 0 <= v < 4294967296 ->
  pde_at (set_pde m d v) d' = if decide (d' = d) then v else pde_at m d'.
Proof.
  intros Hd Hd' Hv. unfold pde_at, set_pde. cbn [phys set_phys].
  change (pde_addr (set_phys _ m) d') with (pde_addr m d'). case_decide as He.
  - subst. by apply pload32_pstore32_eq.
  - apply pload32_pstore32_ne. unfold pde_addr.
    destruct (frame_cr3 m Hwf) as [_ Ha]. by apply slots_apart; try done; right.
Qed.

(** Tables other than the directory keep their contents. *)
Lemma pload_set_pde d v f t : 0 <= d < 1024 -> 0 <= t < 1024 ->
  f mod 4096 = 0 -> f <> frame (cr3 m) ->
  pload32 (phys (set_pde m d v)) (f + 4 * t) = pload32 (phys m) (f + 4 * t).
Proof.
  intros Hd Ht Hf Hne. apply pload32_pstore32_ne. unfold pde_addr.
  destruct (frame_cr3 m Hwf) as [_ Ha]. apply slots_apart; try done. by left.
Qed.

Lemma pde_at_set_pte d t v d' : 0 <= d < 1023 -> 0 <= t < 1024 -> 0 <= d' < 1024 ->
  has (pde_at m d) 1 = true -> pde_at (set_pte m d t v) d' = pde_at m d'.
Proof.
  intros Hd Ht Hd' Hp. unfold pde_at, set_pte. cbn [phys set_phys].
  apply pload32_pstore32_ne. unfold pte_addr, pde_addr. fold (pde_at m d).
  destruct (frame_cr3 m Hwf) as [_ Ha]. destruct (frame_pde m d) as [_ Hb].
  destruct (as_self m Hwf) as [Hs1 Hs2].
  apply slots_apart; try done. left. rewrite <- Hs2. intros He.
  apply (as_distinct m Hwf) in He; done || lia.
Qed.

Lemma pte_at_set_pte d t v d' t' : 0 <= d < 1023 -> 0 <= t < 1024 ->
  0 <= d' < 1024 -> 0 <= t' < 1024 -> 0 <= v < 4294967296 ->
  has (pde_at m d) 1 = true -> has (pde_at m d') 1 = true ->
  pte_at (set_pte m d t v) d' t' = if decide (d' = d /\ t' = t) then v else pte_at m d' t'.
Proof.
  intros Hd Ht Hd' Ht' Hv Hp Hp'. unfold pte_at, pte_addr at 1.
  rewrite pde_at_set_pte by done. unfold set_pte. cbn [phys set_phys]. case_decide as He.
  - destruct He as [-> ->]. by apply pload32_pstore32_eq.
  - apply pload32_pstore32_ne. unfold pte_addr.
    destruct (frame_pde m d) as [_ Ha]. destruct (frame_pde m d') as [_ Hb].
    apply slots_apart; try done. destruct (decide (d' = d)) as [->|Hne]; [right; intros ->; by apply He|left].
    intros Hf. apply Hne. symmetry. by apply (as_distinct m Hwf); try lia.
Qed.

Lemma as_wf_set_pde d v : 0 <= d < 1023 -> 0 <= v < 4294967296 ->
  (has v 1 = true -> forall d', 0 <= d' < 1024 -> d' <> d -> has (pde_at m d') 1 = true ->
     frame v <> frame (pde_at m d')) -> as_wf (set_pde m d v).
Proof.
  intros Hd Hv Hfr. split.
  - apply (as_cr3 m Hwf).
  - rewrite pde_at_set_pde by lia. rewrite decide_False by lia. apply (as_self m Hwf).
  - intros d1 d2 H1 H2. rewrite !pde_at_set_pde by lia. repeat case_decide; subst; try done.
    + intros Hp1 Hp2 He. exfalso. by apply (Hfr Hp1 d2).
    + intros Hp1 Hp2 He. exfalso. by apply (Hfr Hp2 d1).
    + by apply (as_distinct m Hwf).
Qed.

Lemma as_wf_set_pte d t v : 0 <= d < 1023 -> 0 <= t < 1024 -> has (pde_at m d) 1 = true ->
  as_wf (set_pte m d t v).
Proof.
  intros Hd Ht Hp. split.
  - apply (as_cr3 m Hwf).
  - rewrite pde_at_set_pte by (done || lia). apply (as_self m Hwf).
  - intros d1 d2 H1 H2. rewrite !pde_at_set_pte by (done || lia). by apply (as_distinct m Hwf).
Qed.

Lemma frame_pde_ne_pdir d : 0 <= d < 1023 -> has (pde_at m d) 1 = true ->
  frame (pde_at m d) <> frame (cr3 m).
Proof.
  intros Hd Hp He. destruct (as_self m Hwf) as [Hs1 Hs2]. rewrite <- Hs2 in He.
  apply (as_distinct m Hwf) in He; done || lia.
Qed.

Lemma walk_set_pte d t v d' t' : 0 <= d < 1023 -> 0 <= t < 1024 ->
  0 <= d' < 1024 -> 0 <= t' < 1024 -> 0 <= v < 4294967296 -> has (pde_at m d) 1 = true ->
  walk (set_pte m d t v) d' t' =
    if decide (d' = d /\ t' = t) then (if has v 1 then Some v else None) else walk m d' t'.
Proof.
  intros Hd Ht Hd' Ht' Hv Hp. unfold walk. rewrite pde_at_set_pte by done.
  destruct (has (pde_at m d') 1) eqn:Hp'.
  - rewrite pte_at_set_pte by done. by case_decide.
  - rewrite decide_False; [done|]. intros [-> _]. congruence.
Qed.

(** Replacing a directory entry leaves the walks of other entries alone; a
    replacement that keeps the table keeps its own walks too. *)
Lemma walk_set_pde d v d' t' : 0 <= d < 1023 -> 0 <= d' < 1023 -> 0 <= t' < 1024 ->
  0 <= v < 4294967296 ->
  (d' = d -> has (pde_at m d) 1 = has v 1 /\ frame v = frame (pde_at m d)) ->
  walk (set_pde m d v) d' t' = walk m d' t'.
Proof.
  intros Hd Hd' Ht' Hv Hsame. unfold walk, pte_at, pte_addr. rewrite pde_at_set_pde by lia.
  case_decide as He.
  - subst d'. destruct (Hsame eq_refl) as [<- ->]. destruct (has (pde_at m d) 1) eqn:Hp; [|done].
    rewrite pload_set_pde; try done; try lia; [apply frame_pde|].
    by apply frame_pde_ne_pdir.
  - destruct (has (pde_at m d') 1) eqn:Hp; [|done].
    rewrite pload_set_pde; try done; try lia; [apply frame_pde|].
    by apply frame_pde_ne_pdir.
Qed.
End Entries.

(** ** Preservation of the invariant *)

Lemma has_bit e : has e 1 = Z.testbit e 0.
Proof. by apply (has_shiftl e 0). Qed.

Lemma has_lor_r e f : has f 1 = true -> has (Z.lor e f) 1 = true.
Proof. rewrite !has_bit, Z.lor_spec. intros ->. apply orb_true_r. Qed.

Lemma frame_lor_low e f : 0 <= e < 4294967296 -> 0 <= f < 4096 -> frame (Z.lor e f) = frame e.
Proof.
  intros He Hf. unfold frame. rewrite Z.land_lor_distr_l.
  rewrite (land_page f) by lia. rewrite (Z.mod_small f) by lia.
  by rewrite Z.sub_diag, Z.lor_0_r.
Qed.

Lemma lor_u32 a b : 0 <= a < 4294967296 -> 0 <= b < 4294967296 -> 0 <= Z.lor a b < 4294967296.
Proof. by apply (lor_lt_pow2 32). Qed.

Lemma pbyte_pstore32_ne f a b v : ~ (a <= b < a + 4) -> pbyte (pstore32 a v f) b = pbyte f b.
Proof. intros. apply pbyte_pwrite_ne. rewrite length_le_split. lia. Qed.

(** A write inside a frame that is not free keeps free frames zeroed. *)
Lemma zero_frames_kept N s f i v k j : N <= 1048576 -> pm_wf (pms s) -> f mod 4096 = 0 -> 0 <= i < 1024 ->
  (forall k', pool_page N k' -> f = page_addr (pms s) k' -> used (pms s) k' = true) ->
  pool_page N k -> used (pms s) k = false -> 0 <= j < 4096 ->
  pbyte (pstore32 (f + 4 * i) v (phys (mach s))) (page_addr (pms s) k + j) =
  pbyte (phys (mach s)) (page_addr (pms s) k + j).
Proof.
  intros HN Hpm Hf Hi Hused Hk Hfree Hj. apply pbyte_pstore32_ne.
  pose proof (page_addr_aligned (pms s) k Hpm) as Hal.
  assert (f <> page_addr (pms s) k) by (intros He; apply Hused in He; [congruence|done]).
  intros Hr. apply (frame_ne f (page_addr (pms s) k) (page_addr (pms s) k + j - f) j); try done; lia.
Qed.

Lemma vm_inv_set_pte N s d t v : vm_inv N s -> 0 <= d < 1023 -> 0 <= t < 1024 ->
  has (pde_at (mach s) d) 1 = true -> vm_inv N (set_mach (set_pte (mach s) d t v) s).
Proof.
  intros [HN Has Hpm Htab Hz] Hd Ht Hp. split; cbn [mach pms set_mach].
  - done.
  - by apply as_wf_set_pte.
  - done.
  - intros d' k Hd'. rewrite pde_at_set_pte by done. by apply Htab.
  - intros k i Hk Hf Hi. rewrite <- (Hz k i Hk Hf Hi). apply (zero_frames_kept N s); try done.
    + apply frame_pde.
    + intros k' Hk' He. apply (Htab d k'); done || lia.
Qed.

Lemma vm_inv_set_pde N s d v : vm_inv N s -> 0 <= d < 1023 -> 0 <= v < 4294967296 ->
  (has v 1 = true -> forall d', 0 <= d' < 1024 -> d' <> d -> has (pde_at (mach s) d') 1 = true ->
     frame v <> frame (pde_at (mach s) d')) ->
  (has v 1 = true -> forall k, pool_page N k -> frame v = page_addr (pms s) k -> used (pms s) k = true) ->
  vm_inv N (set_mach (set_pde (mach s) d v) s).
Proof.
  intros [HN Has Hpm Htab Hz] Hd Hv Hne Hus. split; cbn [mach pms set_mach].
  - done.
  - by apply as_wf_set_pde.
  - done.
  - intros d' k Hd'. rewrite pde_at_set_pde by (done || lia). case_decide; [subst|].
    + intros Hp Hk. by apply Hus.
    + by apply Htab.
  - intros k i Hk Hf Hi. rewrite <- (Hz k i Hk Hf Hi). apply (zero_frames_kept N s); try done.
    + apply (frame_cr3 _ Has).
    + lia.
    + intros k' Hk' He. destruct (as_self _ Has) as [Hs1 Hs2].
      apply (Htab 1023 k'); try done. by rewrite Hs2.
Qed.

Lemma vm_inv_mark N m p p' k n : vm_inv N (Vmst m p) -> marked k n p p' -> vm_inv N (Vmst m p').
Proof.
  intros [HN Has Hpm Htab Hz] Hm. pose proof Hm as [Hwf Hp Hu]. cbn [mach pms] in *. split; cbn [mach pms].
  - done.
  - done.
  - done.
  - intros d j Hd Hpr Hj. pose proof (pool_is_page N j HN Hj). rewrite (marked_addr _ _ _ _ j Hm), Hu by done.
    intros He. by rewrite (Htab d j) by done.
  - intros j i Hj. pose proof (pool_is_page N j HN Hj). rewrite Hu by done. intros [Hf _]%orb_false_iff Hi.
    rewrite (marked_addr _ _ _ _ j Hm). by apply Hz.
Qed.

(** ** map_page *)

(** A physical address of neither a page table in use nor a free page of the
    pool: mapping pages never writes there. *)
Record plain (N : Z) (s : vmst) (a : Z) : Prop := {
  pl_table : forall d, 0 <= d < 1024 -> has (pde_at (mach s) d) 1 = true ->
    ~ (frame (pde_at (mach s) d) <= a < frame (pde_at (mach s) d) + 4096);
  pl_free : forall k, pool_page N k -> used (pms s) k = false ->
    ~ (page_addr (pms s) k <= a < page_addr (pms s) k + 4096);
}.

(** Entering a page in the table of [v], a table in use or a free page. *)
Lemma plain_kept N s p' d t v w a : N <= 1048576 -> as_wf (mach s) -> 0 <= d < 1023 -> 0 <= t < 1024 ->
  0 <= v < 4294967296 -> has v 1 = true -> as_wf (set_pde (mach s) d v) ->
  (forall k, page_addr p' k = page_addr (pms s) k) ->
  (forall k, is_page k -> used (pms s) k = true -> used p' k = true) ->
  plain N s a -> ~ (frame v <= a < frame v + 4096) ->
  let s' := Vmst (set_pte (set_pde (mach s) d v) d t w) p' in
  plain N s' a /\ pbyte (phys (mach s')) a = pbyte (phys (mach s)) a.
Proof.
  intros HN Has Hd Ht Hv Hvp Has' Hpa Hus [Htab Hfree] Hva s'.
  assert (Hpd : pde_at (set_pde (mach s) d v) d = v) by (rewrite pde_at_set_pde, decide_True by (done || lia); done).
  split.
  - split; unfold s'; cbn [mach pms].
    + intros d' Hd'. rewrite pde_at_set_pte by (done || lia || by rewrite Hpd).
      rewrite pde_at_set_pde by (done || lia). case_decide; [done|by apply Htab].
    + intros k Hk Hu. rewrite Hpa. apply Hfree; [done|]. destruct (used (pms s) k) eqn:E; [|done].
      rewrite Hus in Hu; [done|by apply (pool_is_page N)|done].
  - unfold s'. cbn [mach]. unfold set_pte at 1. cbn [phys set_phys]. unfold pte_addr. rewrite Hpd.
    rewrite pbyte_pstore32_ne by lia. unfold set_pde. cbn [phys set_phys]. apply pbyte_pstore32_ne.
    destruct (as_self _ Has) as [Hs1 Hs2]. specialize (Htab 1023 ltac:(lia) Hs1). rewrite Hs2 in Htab.
    unfold pde_addr. lia.
Qed.

(** Nothing but the page tables, the frames they are built from and the
    mapping of one page changed: [pte] is now the entry of page [(d, t)]. *)
Record maps_one (N d t pte : Z) (s s' : vmst) : Prop := {
  mo_inv : vm_inv N s';
  mo_cr3 : cr3 (mach s') = cr3 (mach s);
  mo_pool : pm_page_pool (pms s') = pm_page_pool (pms s);
  mo_used : forall k, is_page k -> used (pms s) k = true -> used (pms s') k = true;
  mo_one : exists k0, forall k, is_page k -> used (pms s') k = true -> used (pms s) k = true \/ k = k0;
  mo_walk : forall d' t', 0 <= d' < 1023 -> 0 <= t' < 1024 ->
    walk (mach s') d' t' = if decide (d' = d /\ t' = t) then Some pte else walk (mach s) d' t';
  mo_plain : forall a, plain N s a -> plain N s' a /\ pbyte (phys (mach s')) a = pbyte (phys (mach s)) a;
}.

Lemma flags_props flags : 0 <= flags < 4096 ->
  0 <= Z.lor flags (Z.lor PTE_P PTE_W) < 4096 /\ has (Z.lor flags (Z.lor PTE_P PTE_W)) 1 = true.
Proof.
  intros H. split; [by apply (lor_lt_pow2 12)|]. by apply has_lor_r.
Qed.

(** The entry map_page writes. *)
Definition new_pte (paddr flags : Z) : Z := PALIGNDOWN paddr + Z.lor flags 3.

Lemma new_pte_spec paddr flags : 0 <= paddr < 4294967296 -> 0 <= flags < 4096 ->
  Z.lor (PALIGNDOWN paddr) (Z.lor flags (Z.lor PTE_P PTE_W)) = new_pte paddr flags /\
  0 <= new_pte paddr flags < 4294967296 /\ has (new_pte paddr flags) 1 = true /\
  frame (new_pte paddr flags) = PALIGNDOWN paddr.
Proof.
  intros Hp Hf. destruct (flags_props flags Hf) as [Hr Ho]. change (Z.lor PTE_P PTE_W) with 3 in *.
  pose proof (PALIGNDOWN_index paddr Hp) as (_ & _ & Hb & Ha).
  assert (He : Z.lor (PALIGNDOWN paddr) (Z.lor flags 3) = new_pte paddr flags) by (by apply lor_page).
  split; [done|]. split; [unfold new_pte; zdm|]. split.
  - rewrite <- He. by apply has_lor_r.
  - rewrite <- He, frame_lor_low by done. rewrite <- (Z.add_0_r (PALIGNDOWN paddr)) at 1.
    apply frame_add; done || lia.
Qed.

Section MapPage.
Context (s : vmst) (N : Z) (Hinv : vm_inv N s) (paddr vaddr flags : Z).
Context (Hpa : 0 <= paddr < 4294967296) (Hva : 0 <= vaddr < 4294967296)
        (Hfl : 0 <= flags < 4096) (Hwin : pd_index vaddr <> 1023).

Let d := pd_index vaddr.
Let t := pt_index vaddr.

Lemma map_page_d : 0 <= d < 1023 /\ 0 <= t < 1024.
Proof.
  pose proof (pd_index_range vaddr Hva). pose proof (pt_index_range vaddr).
  subst d t. lia.
Qed.

Lemma map_page_unfold_present : has (pde_at (mach s) d) 1 = true ->
  map_page paddr vaddr flags s =
  let pte := pte_at (mach s) d t in
  if has pte 1 then
    if negb (frame pte =? PALIGNDOWN paddr) then Halted
    else if negb (Z.land pte 31 =? Z.land (Z.lor flags 3) 31) then Halted
    else Ret tt s
  else Ret tt (set_mach (set_pte (set_pde (mach s) d (Z.lor (pde_at (mach s) d) (Z.lor flags 3)))
                 d t (new_pte paddr flags)) s).
Proof.
  intros Hp. destruct (PALIGNDOWN_index vaddr Hva) as (Hd & Ht & Hb & _).
  destruct map_page_d as [Hdr Htr]. destruct Hinv as [HN Has Hpm Htab Hz].
  destruct (new_pte_spec paddr flags Hpa Hfl) as (He & Hne & Ho & Hfr).
  destruct (flags_props flags Hfl) as [Hr _]. change (Z.lor PTE_P PTE_W) with 3 in *.
  unfold map_page. change (Z.lor PTE_P PTE_W) with 3.
  erewrite bind_Ret by (by apply vld_pde). rewrite Hd. fold d. change PDE_P with 1. rewrite Hp.
  erewrite bind_Ret by (rewrite vld_pte, Hd by done; fold d; by rewrite Hp).
  rewrite Ht. fold t. change PTE_P with 1. cbv zeta.
  destruct (has (pte_at (mach s) d t) 1).
  - fold (frame (pte_at (mach s) d t)). fold (frame (PALIGNDOWN paddr)).
    assert (frame (PALIGNDOWN paddr) = PALIGNDOWN paddr) as ->.
    { unfold frame, PALIGNDOWN. by rewrite <- Z.land_assoc. }
    by repeat case_match.
  - erewrite bind_Ret by (by apply vld_pde). rewrite Hd. fold d.
    erewrite bind_Ret by (by apply vst_pde). rewrite Hd. fold d. rewrite He.
    assert (Hv : 0 <= Z.lor (pde_at (mach s) d) (Z.lor flags 3) < 4294967296)
      by (apply lor_u32; [apply pde_at_range|lia]).
    rewrite vst_pte; cbn [mach set_mach]; [|apply as_wf_set_pde; try done|done].
    + rewrite Hd, Ht. fold d t. rewrite pde_at_set_pde, decide_True by (done || lia).
      by rewrite has_lor_r by (by apply (flags_props flags)).
    + intros _ d' Hd' Hne' Hp'. rewrite frame_lor_low by (apply pde_at_range || lia).
      intros Heq. apply Hne'. symmetry. by apply (as_distinct _ Has); try lia.
Qed.

Lemma map_page_unfold_absent k p' : has (pde_at (mach s) d) 1 = false ->
  pm_alloc (pms s) = Ret (page_addr (pms s) k) p' -> pool_page N k -> used (pms s) k = false ->
  map_page paddr vaddr flags s =
  Ret tt (Vmst (set_pte (set_pde (mach s) d (page_addr (pms s) k + Z.lor flags 3))
                 d t (new_pte paddr flags)) p').
Proof.
  intros Hp Hal Hk Hfree. destruct (PALIGNDOWN_index vaddr Hva) as (Hd & Ht & Hb & _).
  destruct map_page_d as [Hdr Htr]. destruct Hinv as [HN Has Hpm Htab Hz].
  destruct (new_pte_spec paddr flags Hpa Hfl) as (He & Hne & Ho & Hfr).
  destruct (flags_props flags Hfl) as [Hr Hodd].
  pose proof (page_addr_aligned (pms s) k Hpm) as Hka. pose proof (page_addr_range (pms s) k) as Hkr.
  unfold map_page. rewrite He. change (Z.lor PTE_P PTE_W) with 3 in *.
  erewrite bind_Ret by (by apply vld_pde). rewrite Hd. fold d. change PDE_P with 1. rewrite Hp.
  erewrite bind_Ret by (unfold on_pm, zoom; by rewrite Hal).
  erewrite bind_Ret by (by apply vst_pde). rewrite Hd. fold d. cbn [mach].
  rewrite lor_page by done.
  assert (Hv : 0 <= page_addr (pms s) k + Z.lor flags 3 < 4294967296) by zdm.
  rewrite vst_pte; cbn [mach set_mach pms]; [|apply as_wf_set_pde; try done|done].
  - rewrite Hd, Ht. fold d t. rewrite pde_at_set_pde, decide_True by (done || lia).
    rewrite <- lor_page by done. by rewrite has_lor_r.
  - intros _ d' Hd' Hne' Hp'. rewrite frame_add by done. intros Heq.
    rewrite (Htab d' k) in Hfree; done.
Qed.
End MapPage.

Lemma pload32_zero f a : (forall i, 0 <= i < 4 -> pbyte f (a + i) = Byte.x00) -> pload32 f a = 0.
Proof.
  intros H. unfold pload32. pose proof (H 0 ltac:(lia)) as H0. rewrite Z.add_0_r in H0.
  by rewrite H0, !H by lia.
Qed.

Lemma pdir_not_free N s k : vm_inv N s -> pool_page N k -> used (pms s) k = false ->
  page_addr (pms s) k <> frame (cr3 (mach s)).
Proof.
  intros [HN Has Hpm Htab Hz] Hk Hf He. destruct (as_self _ Has) as [Hs1 Hs2].
  rewrite (Htab 1023 k) in Hf; [done|lia|done|done|]. by rewrite Hs2.
Qed.

(** The directory after the page table [d] was used or made: its entry keeps
    what it had, or leads to a frame that was free, and gains the flags; no
    other entry changed. *)
Definition directory_after (N d flags : Z) (s s' : vmst) : Prop :=
  exists base,
    (if has (pde_at (mach s) d) 1 then base = pde_at (mach s) d
     else exists k, pool_page N k /\ used (pms s) k = false /\ base = page_addr (pms s) k) /\
    forall d', 0 <= d' < 1023 ->
      pde_at (mach s') d' = if decide (d' = d) then Z.lor base (Z.lor flags 3) else pde_at (mach s) d'.

Lemma pde_at_set_both m d t v w d' : as_wf m -> as_wf (set_pde m d v) -> 0 <= d < 1023 -> 0 <= t < 1024 ->
  0 <= v < 4294967296 -> has v 1 = true -> 0 <= d' < 1023 ->
  pde_at (set_pte (set_pde m d v) d t w) d' = if decide (d' = d) then v else pde_at m d'.
Proof.
  intros H1 H2 Hd Ht Hv Hp Hd'. rewrite pde_at_set_pte; try done; try lia.
  - apply pde_at_set_pde; done || lia.
  - rewrite pde_at_set_pde by (done || lia). by rewrite decide_True.
Qed.

Section MapPageOk.
Context (s : vmst) (N : Z) (Hinv : vm_inv N s) (paddr vaddr flags : Z).
Context (Hpa : 0 <= paddr < 4294967296) (Hva : 0 <= vaddr < 4294967296)
        (Hfl : 0 <= flags < 4096) (Hwin : pd_index vaddr <> 1023).
Context (Hun : walk (mach s) (pd_index vaddr) (pt_index vaddr) = None).

Lemma map_page_ok_present : has (pde_at (mach s) (pd_index vaddr)) 1 = true ->
  exists s', map_page paddr vaddr flags s = Ret tt s' /\
    maps_one N (pd_index vaddr) (pt_index vaddr) (new_pte paddr flags) s s' /\
    directory_after N (pd_index vaddr) flags s s'.
Proof.
  intros Hp. destruct (map_page_d vaddr Hva Hwin) as [Hd Ht].
  rewrite (map_page_unfold_present s N Hinv) by done. cbv zeta.
  unfold walk in Hun. rewrite Hp in Hun. destruct (has (pte_at _ _ _) 1); [done|].
  eexists. split; [done|].
  destruct (new_pte_spec paddr flags Hpa Hfl) as (_ & Hne & Ho & _).
  destruct (flags_props flags Hfl) as [Hr Hodd]. change (Z.lor PTE_P PTE_W) with 3 in *.
  set (d := pd_index vaddr) in *. set (t := pt_index vaddr) in *.
  set (v := Z.lor (pde_at (mach s) d) (Z.lor flags 3)).
  assert (Hv : 0 <= v < 4294967296) by (apply lor_u32; [apply pde_at_range|lia]).
  assert (Hvp : has v 1 = true) by (by apply has_lor_r).
  assert (Hvf : frame v = frame (pde_at (mach s) d)) by (apply frame_lor_low; [apply pde_at_range|lia]).
  pose proof Hinv as [HN Has Hpm Htab Hz].
  assert (Hinv1 : vm_inv N (set_mach (set_pde (mach s) d v) s)).
  { apply vm_inv_set_pde; try done; rewrite Hvf.
    - intros _ d' Hd' Hne' Hp' Heq. apply Hne'. symmetry. by apply (as_distinct _ Has); try lia.
    - intros _ k Hk. by apply Htab; try lia. }
  assert (Hp1 : has (pde_at (set_pde (mach s) d v) d) 1 = true)
    by (by rewrite pde_at_set_pde, decide_True by (done || lia)).
  split; [|exists (pde_at (mach s) d); rewrite Hp; split; [done|];
           intros d' Hd'; by apply pde_at_set_both; try apply (inv_as _ _ Hinv1)].
  split; try done.
  - by apply (vm_inv_set_pte N (set_mach (set_pde (mach s) d v) s)).
  - exists 0. auto.
  - intros d' t' Hd' Ht'. cbn [mach set_mach].
    rewrite walk_set_pte; try done; try lia; [|apply (inv_as _ _ Hinv1)]. rewrite Ho.
    case_decide; [done|]. apply walk_set_pde; try done. intros _. by rewrite Hp, Hvp.
  - intros a Ha. apply (plain_kept N s (pms s)); try done; [apply (inv_as _ _ Hinv1)|].
    rewrite Hvf. apply (pl_table _ _ _ Ha); done || lia.
Qed.

Lemma map_page_ok_absent : has (pde_at (mach s) (pd_index vaddr)) 1 = false ->
  (exists k, pool_page N k /\ used (pms s) k = false) ->
  exists s', map_page paddr vaddr flags s = Ret tt s' /\
    maps_one N (pd_index vaddr) (pt_index vaddr) (new_pte paddr flags) s s' /\
    directory_after N (pd_index vaddr) flags s s'.
Proof.
  intros Hp (k0 & Hk0 & Hfree0). destruct (map_page_d vaddr Hva Hwin) as [Hd Ht].
  destruct (pm_alloc_cases (pms s) (inv_pm _ _ Hinv)) as [(k & p' & Hal & Hk1 & Hfree & Hmin & Hm)|[_ Hall]];
    [|by rewrite Hall in Hfree0 by (apply (pool_is_page N); [apply (inv_N _ _ Hinv)|done])].
  assert (Hk : pool_page N k).
  { unfold pool_page, is_page in *. destruct (decide (k <= k0)); [lia|]. by rewrite Hmin in Hfree0 by lia. }
  rewrite (map_page_unfold_absent s N Hinv paddr vaddr flags Hpa Hva Hfl Hwin k p') by done.
  eexists. split; [done|].
  destruct (new_pte_spec paddr flags Hpa Hfl) as (_ & Hne & Ho & _).
  destruct (flags_props flags Hfl) as [Hr Hodd]. change (Z.lor PTE_P PTE_W) with 3 in *.
  set (d := pd_index vaddr) in *. set (t := pt_index vaddr) in *.
  pose proof Hinv as [HN Has Hpm Htab Hz]. set (a := page_addr (pms s) k) in *.
  pose proof (page_addr_aligned (pms s) k Hpm : a mod 4096 = 0) as Hka.
  pose proof (page_addr_range (pms s) k : 0 <= a < _) as Hkr.
  set (v := a + Z.lor flags 3). assert (Hv : 0 <= v < 4294967296) by (unfold v; zdm).
  assert (Hvp : has v 1 = true) by (unfold v; rewrite <- lor_page by done; by apply has_lor_r).
  assert (Hvf : frame v = a) by (by apply frame_add).
  pose proof (vm_inv_mark N (mach s) (pms s) p' k 1 ltac:(by destruct s) Hm) as Hinv0.
  assert (Hinv1 : vm_inv N (Vmst (set_pde (mach s) d v) p')).
  { apply (vm_inv_set_pde N (Vmst (mach s) p')); try done; cbn [mach pms]; rewrite Hvf.
    - intros _ d' Hd' Hne' Hp' Heq. by rewrite (Htab d' k) in Hfree.
    - intros _ k' Hk'. rewrite (marked_addr _ _ _ _ k' Hm). pose proof (pool_is_page N k' HN Hk').
      intros ->%page_addr_inj; [|done..].
      rewrite (marked_used _ _ _ _ Hm) by done. rewrite Z.leb_refl.
      destruct (Z.ltb_spec k' (k' + 1)); [apply orb_true_r|lia]. }
  assert (Hp1 : has (pde_at (set_pde (mach s) d v) d) 1 = true)
    by (by rewrite pde_at_set_pde, decide_True by (done || lia)).
  split; [|exists a; rewrite Hp; split; [by exists k|]; intros d' Hd'; rewrite lor_page by done;
           by apply pde_at_set_both; try apply (inv_as _ _ Hinv1)].
  split; cbn [mach pms].
  - by apply (vm_inv_set_pte N (Vmst (set_pde (mach s) d v) p')).
  - done.
  - apply (marked_pool _ _ _ _ Hm).
  - intros j Hj Hu. rewrite (marked_used _ _ _ _ Hm) by done. by rewrite Hu.
  - exists k. intros j Hj. rewrite (marked_used _ _ _ _ Hm) by done. 
    destruct (used (pms s) j); [by left|]. simpl.
    destruct (Z.leb_spec k j), (Z.ltb_spec j (k + 1)); simpl; try done. right. lia.
  - intros d' t' Hd' Ht'. rewrite walk_set_pte; try done; try lia; [|apply (inv_as _ _ Hinv1)].
    rewrite Ho. case_decide as Hdt; [done|]. destruct (decide (d' = d)) as [->|Hdd].
    + unfold walk at 1. rewrite Hp1. unfold walk. rewrite Hp.
      unfold pte_at, pte_addr. rewrite pde_at_set_pde, decide_True, Hvf by (done || lia).
      rewrite pload_set_pde; try done; try lia; [|by apply (pdir_not_free N s k)].
      rewrite pload32_zero; [done|]. intros i Hi. rewrite <- Z.add_assoc. apply Hz; done || lia.
    + by apply walk_set_pde.
  - intros b Hb. apply (plain_kept N s p'); try done; [apply (inv_as _ _ Hinv1)| | |].
    + intros j. apply (marked_addr _ _ _ _ j Hm).
    + intros j Hj Hu. rewrite (marked_used _ _ _ _ Hm) by done. by rewrite Hu.
    + rewrite Hvf. by apply (pl_free _ _ _ Hb).
Qed.
End MapPageOk.

(** The page of [vaddr] can be mapped: it lies outside the recursive window,
    and its table exists or a frame for it is free. *)
Definition mappable (N : Z) (s : vmst) (vaddr : Z) : Prop :=
  0 <= vaddr < 4294967296 /\ pd_index vaddr <> 1023 /\
  (has (pde_at (mach s) (pd_index vaddr)) 1 = true \/ exists k, pool_page N k /\ used (pms s) k = false).

Lemma map_page_sets N s paddr vaddr flags : vm_inv N s -> 0 <= paddr < 4294967296 ->
  0 <= flags < 4096 -> mappable N s vaddr ->
  walk (mach s) (pd_index vaddr) (pt_index vaddr) = None ->
  exists s', map_page paddr vaddr flags s = Ret tt s' /\
    maps_one N (pd_index vaddr) (pt_index vaddr) (new_pte paddr flags) s s' /\
    directory_after N (pd_index vaddr) flags s s'.
Proof.
  intros Hinv Hpa Hfl (Hva & Hwin & Hfree) Hun.
  destruct (has (pde_at (mach s) (pd_index vaddr)) 1) eqn:Hp.
  - by apply map_page_ok_present.
  - apply map_page_ok_absent; try done. by destruct Hfree.
Qed.

Lemma map_page_ok N s paddr vaddr flags : vm_inv N s -> 0 <= paddr < 4294967296 ->
  0 <= flags < 4096 -> mappable N s vaddr ->
  walk (mach s) (pd_index vaddr) (pt_index vaddr) = None ->
  exists s', map_page paddr vaddr flags s = Ret tt s' /\
    maps_one N (pd_index vaddr) (pt_index vaddr) (new_pte paddr flags) s s'.
Proof.
  intros Hinv Hpa Hfl Hm Hun. destruct (map_page_sets N s paddr vaddr flags Hinv Hpa Hfl Hm Hun) as (s' & Hr & Ho & _). eauto.
Qed.

(** Translations before and after mapping one page. *)
Lemma maps_one_translate N d t pte s s' va : maps_one N d t pte s s' ->
  0 <= va < 4294967296 -> pd_index va <> 1023 ->
  translate (mach s') va =
    if decide (pd_index va = d /\ pt_index va = t) then Some (frame pte + va mod 4096)
    else translate (mach s) va.
Proof.
  intros Hm Hva Hw. pose proof (pd_index_range va Hva). pose proof (pt_index_range va).
  unfold translate. rewrite (mo_walk _ _ _ _ _ _ Hm) by lia. by case_decide.
Qed.

Lemma same_page va vaddr : 0 <= va -> 0 <= vaddr ->
  pd_index va = pd_index vaddr /\ pt_index va = pt_index vaddr <-> va / 4096 = vaddr / 4096.
Proof. intros. rewrite !pd_index_eq, !pt_index_eq. zdm. Qed.

(** ** Mapping ranges *)

(** At least [n] frames are free. *)
Definition free_frames (N : Z) (n : nat) (p : pm_state) : Prop :=
  exists l, NoDup l /\ length l = n /\ forall k, k ∈ l -> pool_page N k /\ used p k = false.

Lemma free_frames_one N n p : free_frames N (S n) p -> exists k, pool_page N k /\ used p k = false.
Proof. intros ([|k l] & _ & Hl & Hf); [done|]. exists k. apply Hf. set_solver. Qed.

Lemma free_frames_step N n p p' : N <= 1048576 -> free_frames N (S n) p ->
  (exists k0, forall k, is_page k -> used p' k = true -> used p k = true \/ k = k0) ->
  free_frames N n p'.
Proof.
  intros HN (l & Hnd & Hl & Hf) [k0 Hone].
  assert (Hkeep : forall k, k ∈ l -> k <> k0 -> pool_page N k /\ used p' k = false).
  { intros k Hk Hne. destruct (Hf k Hk) as [Hp Hu]. split; [done|].
    destruct (used p' k) eqn:E; [|done]. destruct (Hone k (pool_is_page N k HN Hp) E); congruence. }
  destruct (decide (k0 ∈ l)) as [Hin|Hout].
  - apply list_elem_of_split in Hin as (l1 & l2 & ->). exists (l1 ++ l2).
    apply list.NoDup_app in Hnd as (Hn1 & Hdis & Hn2).
    apply list.NoDup_cons in Hn2 as [Hn0 Hn2]. rewrite length_app in Hl |- *. simpl in Hl.
    split; [|split; [lia|]].
    + apply list.NoDup_app. split; [done|]. split; [|done]. set_solver.
    + intros k Hk. apply Hkeep; [set_solver|]. intros ->. apply elem_of_app in Hk as [Hk|Hk]; set_solver.
  - destruct l as [|k l]; [done|]. exists l. apply list.NoDup_cons in Hnd as [_ Hnd].
    split; [done|]. split; [simpl in Hl; lia|]. intros k' Hk'. apply Hkeep; set_solver.
Qed.

(** The entry an address goes through. *)
Definition entry (m : machine) (va : Z) : option Z := walk m (pd_index va) (pt_index va).

Lemma entry_translate m m' va : entry m' va = entry m va -> translate m' va = translate m va.
Proof. unfold entry, translate. by intros ->. Qed.

(** The pages of [v .. v + 4096*n) resolve to [p .. p + 4096*n); every other
    address outside the recursive window resolves as before. *)
Record maps_range (N v p n : Z) (s s' : vmst) : Prop := {
  mr_inv : vm_inv N s';
  mr_cr3 : cr3 (mach s') = cr3 (mach s);
  mr_translate : forall va, 0 <= va < 4294967296 -> pd_index va <> 1023 ->
    translate (mach s') va =
      if decide (v <= va < v + 4096 * n) then Some (p + (va - v)) else translate (mach s) va;
  mr_plain : forall a, plain N s a -> plain N s' a /\ pbyte (phys (mach s')) a = pbyte (phys (mach s)) a;
  mr_free : forall m, free_frames N (Z.to_nat n + m) (pms s) -> free_frames N m (pms s');
  mr_entry : forall va, 0 <= va < 4294967296 -> pd_index va <> 1023 -> ~ (v <= va < v + 4096 * n) ->
    entry (mach s') va = entry (mach s) va;
}.

Lemma window_bound va : 0 <= va < 4290772992 -> pd_index va <> 1023.
Proof. rewrite pd_index_eq. zdm. Qed.

Lemma walk_pte m d t pte : walk m d t = Some pte -> pte_at m d t = pte.
Proof. unfold walk. destruct (has (pde_at m d) 1), (has (pte_at m d t) 1); congruence. Qed.

Lemma walk_translate_None m va : translate m va = None <-> walk m (pd_index va) (pt_index va) = None.
Proof. unfold translate. by destruct (walk _ _ _). Qed.

Lemma map_pages_loop_ok N n s p v flags : vm_inv N s -> 0 <= flags < 4096 ->
  p mod 4096 = 0 -> v mod 4096 = 0 -> 0 <= p -> 0 <= v ->
  p + 4096 * Z.of_nat n <= 4294967296 -> v + 4096 * Z.of_nat n <= 4290772992 ->
  free_frames N n (pms s) ->
  (forall va, v <= va < v + 4096 * Z.of_nat n -> translate (mach s) va = None) ->
  exists s', map_pages_loop n p v flags s = Ret tt s' /\ maps_range N v p (Z.of_nat n) s s'.
Proof.
  intros Hinv Hfl. revert s p v Hinv.
  induction n as [|n IH]; intros s p v Hinv Hpa Hva Hp Hv Hpb Hvb Hfree Hun.
  { exists s. split; [done|]. split; try done. intros va _ _. by rewrite decide_False by lia. }
  pose proof (window_bound v ltac:(lia)) as Hw.
  destruct (map_page_ok N s p v flags) as (s1 & Hr & Hm); try done; try lia.
  { split; [lia|]. split; [done|]. right. by apply free_frames_one with n. }
  { apply walk_translate_None, Hun. lia. }
  assert (Hpd : PALIGNDOWN p = p) by (rewrite PALIGNDOWN_eq by lia; lia).
  assert (Hsame : forall va, 0 <= va -> pd_index va = pd_index v /\ pt_index va = pt_index v <-> v <= va < v + 4096).
  { intros va Hva0. rewrite same_page by lia. zdm. }
  destruct (new_pte_spec p flags ltac:(lia) Hfl) as (_ & _ & _ & Hfr).
  assert (Hent : forall va, 0 <= va < 4294967296 -> pd_index va <> 1023 -> ~ (v <= va < v + 4096) ->
    entry (mach s1) va = entry (mach s) va).
  { intros va Hvr Hvw Ho. pose proof (pd_index_range va Hvr). pose proof (pt_index_range va). unfold entry.
    rewrite (mo_walk _ _ _ _ _ _ Hm) by lia. by rewrite decide_False by (rewrite Hsame; lia). }
  cbn [map_pages_loop]. rewrite (bind_Ret _ _ _ _ _ Hr).
  destruct (decide (n = O)) as [->|Hn].
  { exists s1. split; [done|]. split; [apply (mo_inv _ _ _ _ _ _ Hm)|apply (mo_cr3 _ _ _ _ _ _ Hm)| |apply (mo_plain _ _ _ _ _ _ Hm)| |].
    2:{ intros m Hfm. eapply free_frames_step; [apply (inv_N _ _ Hinv)|exact Hfm|apply (mo_one _ _ _ _ _ _ Hm)]. }
    2:{ intros va Hvr Hvw Ho. apply Hent; [done..|lia]. }
    intros va Hvr Hvw.
    rewrite (maps_one_translate N _ _ _ _ _ _ Hm) by done. rewrite Hfr, Hpd.
    destruct (decide (v <= va < v + 4096)) as [Hin|Hout].
    - rewrite decide_True by (apply Hsame; lia). rewrite decide_True by lia. f_equal. zdm.
    - rewrite decide_False by (rewrite Hsame; lia). rewrite decide_False by lia. done. }
  change PAGE_SIZE with 4096. rewrite !u32_small by lia.
  destruct (IH s1 (p + 4096) (v + 4096)) as (s2 & Hr2 & Hm2); try lia.
  { apply (mo_inv _ _ _ _ _ _ Hm). } { zdm. } { zdm. }
  { eapply free_frames_step; [apply (inv_N _ _ Hinv)|done|]. apply (mo_one _ _ _ _ _ _ Hm). }
  { intros va Hvr. rewrite (maps_one_translate N _ _ _ _ _ _ Hm) by (try apply window_bound; lia).
    rewrite decide_False by (rewrite Hsame; lia). apply Hun. lia. }
  exists s2. split; [done|]. split; [apply (mr_inv _ _ _ _ _ _ Hm2)|rewrite (mr_cr3 _ _ _ _ _ _ Hm2); apply (mo_cr3 _ _ _ _ _ _ Hm)| | | |].
  4:{ intros va Hvr Hvw Ho. rewrite (mr_entry _ _ _ _ _ _ Hm2) by (done || lia). apply Hent; [done..|lia]. }
  3:{ intros m Hfm. apply (mr_free _ _ _ _ _ _ Hm2). replace (Z.to_nat (Z.of_nat (S n))) with (S n) in Hfm by lia.
      rewrite Nat2Z.id. eapply free_frames_step; [apply (inv_N _ _ Hinv)|exact Hfm|apply (mo_one _ _ _ _ _ _ Hm)]. }
  2:{ intros a Ha. destruct (mo_plain _ _ _ _ _ _ Hm a Ha) as [Ha1 <-]. by apply (mr_plain _ _ _ _ _ _ Hm2). }
  intros va Hvr Hvw. rewrite (mr_translate _ _ _ _ _ _ Hm2) by done.
  rewrite (maps_one_translate N _ _ _ _ _ _ Hm) by done. rewrite Hfr, Hpd.
  destruct (decide (v + 4096 <= va < v + 4096 + 4096 * Z.of_nat n)).
  { rewrite decide_True by lia. f_equal. lia. }
  destruct (decide (v <= va < v + 4096)) as [Hin|Hout].
  - rewrite decide_True by (apply Hsame; lia). rewrite decide_True by lia. f_equal. zdm.
  - rewrite decide_False by (rewrite Hsame; lia). rewrite decide_False by lia. done.
Qed.

Lemma npages_bounds sz : 0 < sz -> 0 < npages sz /\ 4096 * (npages sz - 1) < sz <= 4096 * npages sz.
Proof.
  intros H. unfold npages. change PAGE_SIZE with 4096.
  destruct (Z.ltb_spec 0 (sz mod 4096)); zdm.
Qed.

Lemma map_pages_ok N s paddr vaddr flags sz :
  vm_inv N s -> 0 <= flags < 4096 -> 0 < sz -> 0 <= paddr < 4294967296 -> 0 <= vaddr < 4294967296 ->
  PALIGNDOWN paddr + 4096 * npages sz <= 4294967296 ->
  PALIGNDOWN vaddr + 4096 * npages sz <= 4290772992 ->
  free_frames N (Z.to_nat (npages sz)) (pms s) ->
  (forall va, PALIGNDOWN vaddr <= va < PALIGNDOWN vaddr + 4096 * npages sz -> translate (mach s) va = None) ->
  exists s', map_pages paddr vaddr flags sz s = Ret tt s' /\
    maps_range N (PALIGNDOWN vaddr) (PALIGNDOWN paddr) (npages sz) s s'.
Proof.
  intros Hinv Hfl Hsz Hpa Hva Hpb Hvb Hfree Hun. destruct (npages_bounds sz Hsz) as [Hn _].
  destruct (PALIGNDOWN_index paddr Hpa) as (_ & _ & Hp1 & Hp2).
  destruct (PALIGNDOWN_index vaddr Hva) as (_ & _ & Hv1 & Hv2).
  unfold map_pages. destruct (Z.eqb_spec sz 0); [lia|].
  destruct (map_pages_loop_ok N (Z.to_nat (npages sz)) s (PALIGNDOWN paddr) (PALIGNDOWN vaddr) flags)
    as (s' & Hr & Hm); rewrite ?Z2Nat.id by lia; try done; try lia.
  rewrite Z2Nat.id in Hm by lia. by exists s'.
Qed.

(** ** Unmapping and re-flagging *)

Lemma set_pte_mapped N s d t v : vm_inv N s -> 0 <= d < 1023 -> 0 <= t < 1024 ->
  0 <= v < 4294967296 -> has (pde_at (mach s) d) 1 = true ->
  let s' := set_mach (set_pte (mach s) d t v) s in
  vm_inv N s' /\ forall va, 0 <= va < 4294967296 ->
    translate (mach s') va =
      if decide (pd_index va = d /\ pt_index va = t)
      then (if has v 1 then Some (frame v + va mod 4096) else None) else translate (mach s) va.
Proof.
  intros Hinv Hd Ht Hv Hp s'. split; [by apply vm_inv_set_pte|]. intros va Hva.
  pose proof (pd_index_range va Hva). pose proof (pt_index_range va).
  unfold translate, s'. cbn [mach set_mach]. rewrite walk_set_pte by (done || apply (inv_as _ _ Hinv)).
  case_decide; [|done]. by destruct (has v 1).
Qed.

Lemma set_pte_entry N s d t v va : vm_inv N s -> 0 <= d < 1023 -> 0 <= t < 1024 ->
  0 <= v < 4294967296 -> has (pde_at (mach s) d) 1 = true -> 0 <= va < 4294967296 ->
  ~ (pd_index va = d /\ pt_index va = t) -> entry (set_pte (mach s) d t v) va = entry (mach s) va.
Proof.
  intros Hinv Hd Ht Hv Hp Hva Hne. pose proof (pd_index_range va Hva). pose proof (pt_index_range va).
  unfold entry. rewrite walk_set_pte by (done || apply (inv_as _ _ Hinv)). by rewrite decide_False.
Qed.

(** ** Properties *)

(** The rights of a page: with the entries of both levels written from the
    same flags, ring 3 reaches it exactly when these carry the user bit. *)
Lemma has_user e : has e 4 = Z.testbit e 2.
Proof. exact (has_shiftl e 2 ltac:(lia)). Qed.

Lemma testbit_low_page a i : a mod 4096 = 0 -> 0 <= i < 12 -> Z.testbit a i = false.
Proof.
  intros Ha Hi. rewrite <- (Z.mod_pow2_bits_low a 12 i) by lia. change (2 ^ 12) with 4096. by rewrite Ha, Z.bits_0.
Qed.

Lemma user_ok_new N d flags paddr s s' va : 0 <= paddr < 4294967296 -> 0 <= flags < 4096 -> 0 <= va < 4294967296 ->
  pd_index va <> 1023 -> entry (mach s') va = Some (new_pte paddr flags) -> pd_index va = d ->
  directory_after N d flags s s' -> user_ok (mach s') va = has flags PTE_U.
Proof.
  intros Hp Hf Hva Hw He Hd (base & _ & Hpd). pose proof (pd_index_range va Hva).
  destruct (new_pte_spec paddr flags Hp Hf) as (Hl & _). change (Z.lor PTE_P PTE_W) with 3 in Hl.
  unfold entry in He. apply walk_pte in He as Hpte. unfold walk in He. unfold user_ok. rewrite Hpte.
  destruct (has (pde_at (mach s') (pd_index va)) 1); [|done]. rewrite Hpte in He.
  destruct (has (new_pte paddr flags) 1); [|done]. clear He. rewrite Hpd, decide_True by (done || lia).
  change PTE_U with 4. rewrite !has_user, <- Hl, !Z.lor_spec. change (Z.testbit 3 2) with false.
  rewrite (testbit_low_page (PALIGNDOWN paddr)); [|apply PALIGNDOWN_index; done|lia].
  destruct (Z.testbit flags 2); [by rewrite orb_true_r|]. rewrite orb_false_r. by rewrite andb_false_r.
Qed.

(** C2: Mapping a page that is not mapped, in a well-formed address space,
    succeeds through the recursive window, keeps the manager's invariant
    (also when a page table had to be allocated) and changes the address space
    exactly there: the page's entry holds the physical page asked for and the
    flags, with present and writable set, so that ring 3 reaches it exactly
    when the flags say so; the entry of every other page outside the window is
    as before.  The directory entry gains the flags too, and keeps the rest of
    what it had, or leads to a frame that was free; the other entries of the
    directory are as before.  No memory is written but page tables and free
    pages of the pool.  The invariant asks that free frames hold zeroes, which
    a new page table relies on: the code clears none. *)
Theorem map_page_updates_one_page N s paddr vaddr flags :
  vm_inv N s -> 0 <= paddr < 4294967296 -> 0 <= flags < 4096 -> mappable N s vaddr ->
  translate (mach s) vaddr = None ->
  exists s', map_page paddr vaddr flags s = Ret tt s' /\ vm_inv N s' /\
    (forall va, 0 <= va < 4294967296 -> pd_index va <> 1023 ->
      translate (mach s') va =
        if decide (va / 4096 = vaddr / 4096) then Some (PALIGNDOWN paddr + va mod 4096)
        else translate (mach s) va) /\
    (forall va, 0 <= va < 4294967296 -> pd_index va <> 1023 ->
      entry (mach s') va =
        if decide (va / 4096 = vaddr / 4096) then Some (Z.lor (PALIGNDOWN paddr) (Z.lor flags (Z.lor PTE_P PTE_W)))
        else entry (mach s) va) /\
    (forall va, 0 <= va < 4294967296 -> va / 4096 = vaddr / 4096 -> user_ok (mach s') va = has flags PTE_U) /\
    directory_after N (pd_index vaddr) flags s s' /\
    (forall a, plain N s a -> pbyte (phys (mach s')) a = pbyte (phys (mach s)) a).
Proof.
  intros Hinv Hpa Hfl Hmap Hun. apply walk_translate_None in Hun.
  destruct (map_page_sets N s paddr vaddr flags) as (s' & Hr & Hm & Hd); try done.
  destruct (new_pte_spec paddr flags Hpa Hfl) as (Hnew & _ & _ & Hfr). destruct Hmap as (Hv & Hw & _).
  assert (He : forall va, 0 <= va < 4294967296 -> pd_index va <> 1023 -> entry (mach s') va =
    if decide (va / 4096 = vaddr / 4096) then Some (new_pte paddr flags) else entry (mach s) va).
  { intros va Hva Hvw. pose proof (pd_index_range va Hva). pose proof (pt_index_range va). unfold entry.
    rewrite (mo_walk _ _ _ _ _ _ Hm) by lia. destruct (decide (va / 4096 = vaddr / 4096)) as [E|E].
    - by rewrite decide_True by (apply same_page; lia).
    - by rewrite decide_False by (rewrite same_page; lia). }
  exists s'. split; [done|]. split; [apply (mo_inv _ _ _ _ _ _ Hm)|].
  split; [|split; [by rewrite Hnew|split; [|split; [done|intros a Ha; apply (mo_plain _ _ _ _ _ _ Hm a Ha)]]]].
  - intros va Hva Hvw. specialize (He va Hva Hvw). case_decide; [|by apply entry_translate].
    unfold entry in He. unfold translate. by rewrite He, Hfr.
  - intros va Hva E. apply same_page in E as [Ed Et]; [|lia..].
    apply (user_ok_new N (pd_index vaddr) flags paddr s); try done; [by rewrite Ed|].
    rewrite He by (done || by rewrite Ed). rewrite decide_True; [done|]. apply same_page; lia || done.
Qed.

(** map_page on a page that is already mapped never changes anything: it
    returns when the physical page and the five low flag bits agree with the
    existing entry, and halts the machine otherwise. *)
Theorem map_page_already_mapped N s paddr vaddr flags pte :
  vm_inv N s -> 0 <= paddr < 4294967296 -> 0 <= vaddr < 4294967296 -> 0 <= flags < 4096 ->
  pd_index vaddr <> 1023 -> walk (mach s) (pd_index vaddr) (pt_index vaddr) = Some pte ->
  map_page paddr vaddr flags s =
    if decide (frame pte = PALIGNDOWN paddr /\ Z.land pte 31 = Z.land (Z.lor flags 3) 31)
    then Ret tt s else Halted.
Proof.
  intros Hinv Hpa Hva Hfl Hw Hwalk. unfold walk in Hwalk.
  destruct (has (pde_at (mach s) (pd_index vaddr)) 1) eqn:Hp; [|done].
  destruct (has (pte_at (mach s) (pd_index vaddr) (pt_index vaddr)) 1) eqn:Hpt; [|done].
  injection Hwalk as <-. rewrite (map_page_unfold_present s N Hinv) by done. cbv zeta. rewrite Hpt.
  case_decide as Hc.
  - destruct Hc as [-> ->]. by rewrite !Z.eqb_refl.
  - destruct (Z.eqb_spec (frame (pte_at (mach s) (pd_index vaddr) (pt_index vaddr))) (PALIGNDOWN paddr)); [|done].
    destruct (Z.eqb_spec (Z.land (pte_at (mach s) (pd_index vaddr) (pt_index vaddr)) 31) (Z.land (Z.lor flags 3) 31)); [|done].
    exfalso. auto.
Qed.

(** C21: map_pages maps npages(sz) consecutive pages: afterwards the range
    resolves page by page to the physical range, everything else outside the
    window resolves as before, no memory but page tables and free pages of the
    pool is written, and the invariant holds.  It needs one free
    frame per page at most. *)
Theorem map_pages_maps_range N s paddr vaddr flags sz :
  vm_inv N s -> 0 <= flags < 4096 -> 0 < sz -> 0 <= paddr < 4294967296 -> 0 <= vaddr < 4294967296 ->
  PALIGNDOWN paddr + 4096 * npages sz <= 4294967296 ->
  PALIGNDOWN vaddr + 4096 * npages sz <= 4290772992 ->
  free_frames N (Z.to_nat (npages sz)) (pms s) ->
  (forall va, PALIGNDOWN vaddr <= va < PALIGNDOWN vaddr + 4096 * npages sz -> translate (mach s) va = None) ->
  exists s', map_pages paddr vaddr flags sz s = Ret tt s' /\ vm_inv N s' /\
    (forall va, 0 <= va < 4294967296 -> pd_index va <> 1023 ->
      translate (mach s') va =
        if decide (PALIGNDOWN vaddr <= va < PALIGNDOWN vaddr + 4096 * npages sz)
        then Some (PALIGNDOWN paddr + (va - PALIGNDOWN vaddr)) else translate (mach s) va) /\
    (forall a, plain N s a -> pbyte (phys (mach s')) a = pbyte (phys (mach s)) a).
Proof.
  intros Hinv Hfl Hsz Hpa Hva Hpb Hvb Hfree Hun.
  destruct (map_pages_ok N s paddr vaddr flags sz) as (s' & Hr & Hm); try done. exists s'. split; [done|].
  split; [apply (mr_inv _ _ _ _ _ _ Hm)|]. split; [apply (mr_translate _ _ _ _ _ _ Hm)|].
  intros a Ha. apply (mr_plain _ _ _ _ _ _ Hm a Ha).
Qed.

(** unmap_page of a page whose table exists makes exactly that page fault
    and keeps the invariant; where there is no table the write itself faults. *)
Theorem unmap_page_removes N s vaddr :
  vm_inv N s -> 0 <= vaddr < 4294967296 -> pd_index vaddr <> 1023 ->
  if has (pde_at (mach s) (pd_index vaddr)) 1 then
    exists s', unmap_page vaddr s = Ret tt s' /\ vm_inv N s' /\
      forall va, 0 <= va < 4294967296 ->
        translate (mach s') va =
          if decide (va / 4096 = vaddr / 4096) then None else translate (mach s) va
  else exists fa, unmap_page vaddr s = Faulted fa.
Proof.
  intros Hinv Hva Hw. destruct (PALIGNDOWN_index vaddr Hva) as (Hd & Ht & Hb & _).
  destruct (map_page_d vaddr Hva Hw) as [Hdr Htr]. unfold unmap_page.
  rewrite vst_pte, Hd, Ht by (done || apply (inv_as _ _ Hinv)).
  destruct (has (pde_at (mach s) (pd_index vaddr)) 1) eqn:Hp; [|eauto].
  destruct (set_pte_mapped N s (pd_index vaddr) (pt_index vaddr) 0) as [Hi Htr']; try done.
  eexists. split; [done|]. split; [done|]. intros va Hv. rewrite Htr' by done.
  destruct (decide (va / 4096 = vaddr / 4096)) as [He|Hne].
  - by rewrite decide_True by (apply same_page; lia).
  - by rewrite decide_False by (rewrite same_page; lia).
Qed.

Lemma phys_mapping_ok s vaddr pa :
  as_wf (mach s) -> 0 <= vaddr < 4294967296 -> translate (mach s) vaddr = Some pa ->
  pte_at (mach s) (pd_index vaddr) (pt_index vaddr) mod 4096 < 1024 ->
  vm_get_phys_mapping vaddr s = Ret pa s.
Proof.
  intros Has Hva Htr Hlow. destruct (PALIGNDOWN_index vaddr Hva) as (Hd & Ht & Hb & _).
  unfold translate, walk in Htr.
  destruct (has (pde_at (mach s) (pd_index vaddr)) 1) eqn:Hp; [|done].
  destruct (has (pte_at (mach s) (pd_index vaddr) (pt_index vaddr)) 1); [|done]. injection Htr as <-.
  unfold vm_get_phys_mapping.
  erewrite bind_Ret by (rewrite vld_pte, Hd, Ht by done; by rewrite Hp).
  set (pte := pte_at (mach s) (pd_index vaddr) (pt_index vaddr)) in *.
  assert (Hr : 0 <= pte < 4294967296) by apply pte_at_range.
  unfold mret, M_ret. f_equal. rewrite land_fff, frame_eq by done.
  change 4294966272 with (2 ^ 32 - 2 ^ 10).
  rewrite (land_clear_low 10 pte) by (done || lia). change (2 ^ 10) with 1024.
  rewrite u32_small; zdm.
Qed.

(** C35: vm_get_phys_mapping agrees with the processor's own translation
    whenever bits 10 and 11 of the entry are clear (the code masks with ~0x3ff,
    not ~0xfff); the kernel never sets those bits. *)
Theorem vm_get_phys_mapping_translates s vaddr pa :
  as_wf (mach s) -> 0 <= vaddr < 4294967296 -> translate (mach s) vaddr = Some pa ->
  pte_at (mach s) (pd_index vaddr) (pt_index vaddr) mod 4096 < 1024 ->
  vm_get_phys_mapping vaddr s = Ret pa s.
Proof. apply phys_mapping_ok. Qed.

(** How many bytes map_pages really covers.  The page count is computed
    from the length alone, so the bytes of a range that starts at an offset
    into a page are all mapped when the offset and the length fit in the
    counted pages, and its last byte still faults when they do not. *)
Theorem map_pages_covers N s paddr vaddr flags sz s' :
  vm_inv N s -> 0 <= flags < 4096 -> 0 < sz -> 0 <= paddr < 4294967296 -> 0 <= vaddr < 4294967296 ->
  PALIGNDOWN paddr + 4096 * npages sz <= 4294967296 ->
  PALIGNDOWN vaddr + 4096 * npages sz + 4096 <= 4290772992 ->
  free_frames N (Z.to_nat (npages sz)) (pms s) ->
  (forall va, PALIGNDOWN vaddr <= va < PALIGNDOWN vaddr + 4096 * npages sz + 4096 ->
     translate (mach s) va = None) ->
  map_pages paddr vaddr flags sz s = Ret tt s' ->
  if decide (vaddr mod 4096 + sz <= 4096 * npages sz)
  then forall va, vaddr <= va < vaddr + sz -> exists pa, translate (mach s') va = Some pa
  else translate (mach s') (vaddr + sz - 1) = None.
Proof.
  intros Hinv Hfl Hsz Hpa Hva Hpb Hvb Hfree Hun Hr. destruct (npages_bounds sz Hsz) as [Hn Hnb].
  destruct (PALIGNDOWN_index paddr Hpa) as (_ & _ & Hp1 & Hp2).
  destruct (PALIGNDOWN_index vaddr Hva) as (_ & _ & Hv1 & Hv2).
  unfold map_pages in Hr. destruct (Z.eqb_spec sz 0); [lia|].
  destruct (map_pages_loop_ok N (Z.to_nat (npages sz)) s (PALIGNDOWN paddr) (PALIGNDOWN vaddr) flags)
    as (s1 & Hr1 & Hm); rewrite ?Z2Nat.id by lia; try done; try lia.
  { intros va H. apply Hun. lia. }
  rewrite Z2Nat.id in Hm by lia. rewrite Hr in Hr1. injection Hr1 as <-.
  rewrite (PALIGNDOWN_eq vaddr Hva) in *. case_decide as Hc.
  - intros va Hvr. rewrite (mr_translate _ _ _ _ _ _ Hm) by (try apply window_bound; zdm).
    rewrite decide_True by zdm. eauto.
  - rewrite (mr_translate _ _ _ _ _ _ Hm) by (try apply window_bound; zdm).
    rewrite decide_False by zdm. apply Hun. zdm.
Qed.

(** ** A concrete address space

    A directory at 1 MiB that holds nothing but its self mapping, and the
    allocator with its pool at 4 MiB. *)

Definition vm_boot : vmst :=
  Vmst (Machine (pstore32 (1048576 + 4092) 1048579 ∅) 1048576 []) pm_boot.

Lemma vm_boot_pde d : 0 <= d < 1024 ->
  pde_at (mach vm_boot) d = if decide (d = 1023) then 1048579 else 0.
Proof.
  intros Hd. unfold pde_at, pde_addr. cbn [mach vm_boot phys cr3].
  change (frame 1048576) with 1048576. case_decide as He.
  - subst. apply pload32_pstore32_eq. lia.
  - rewrite pload32_pstore32_ne by lia. done.
Qed.

Lemma vm_boot_page k : 0 <= k < 1024 -> page_addr (pms vm_boot) k = 4194304 + 4096 * k.
Proof. intros. unfold page_addr. cbn [pms vm_boot pm_page_pool pm_boot]. unfold v2p, PAGE_SIZE, KERN_VOFF. unfold u32, KiB. zdm. Qed.

Lemma vm_boot_inv : vm_inv 1024 vm_boot.
Proof.
  split; [lia| |apply pm_boot_wf| |].
  - split; [simpl; lia|done|]. intros d d' Hd Hd'. rewrite !vm_boot_pde by done.
    do 2 case_decide; subst; done.
  - intros d k Hd Hp Hk. rewrite vm_boot_pde in * by done. rewrite vm_boot_page by done.
    case_decide; [|done]. unfold pool_page in Hk. change (frame 1048579) with 1048576. lia.
  - intros k i Hk _ Hi. rewrite vm_boot_page by done. unfold pool_page in Hk.
    cbn [mach vm_boot phys]. unfold pstore32. rewrite pbyte_pwrite_ne; [done|].
    rewrite length_le_split. lia.
Qed.

Lemma vm_boot_unmapped va : 0 <= va < 4290772992 -> translate (mach vm_boot) va = None.
Proof.
  intros Hva. unfold translate, walk. rewrite pd_index_eq, vm_boot_pde by zdm.
  rewrite decide_False by zdm. done.
Qed.

Lemma vm_boot_free n : (n <= 1024)%nat -> free_frames 1024 n (pms vm_boot).
Proof.
  intros Hn. exists (seqZ 0 (Z.of_nat n)). split; [apply NoDup_seqZ|].
  split; [rewrite length_seqZ; lia|]. intros k Hk%elem_of_seqZ. split; [unfold pool_page; lia|].
  apply zeroed_used.
Qed.

(** The same space with the VGA page mapped to itself. *)
Definition vm_boot1 : vmst :=
  match map_page 753664 753664 0 vm_boot with Ret _ s => s | _ => vm_boot end.

Lemma vm_boot_mappable : mappable 1024 vm_boot 753664.
Proof.
  split; [lia|]. split; [done|]. right. exists 0.
  split; [unfold pool_page; lia|apply zeroed_used].
Qed.

Lemma vm_boot1_run :
  map_page 753664 753664 0 vm_boot = Ret tt vm_boot1 /\
  maps_one 1024 (pd_index 753664) (pt_index 753664) (new_pte 753664 0) vm_boot vm_boot1.
Proof.
  destruct (map_page_ok 1024 vm_boot 753664 753664 0) as (s' & Hr & Hm).
  - apply vm_boot_inv.
  - lia.
  - lia.
  - apply vm_boot_mappable.
  - apply walk_translate_None, vm_boot_unmapped. lia.
  - unfold vm_boot1. rewrite Hr. exact (conj eq_refl Hm).
Qed.

Lemma vm_boot1_inv : vm_inv 1024 vm_boot1.
Proof. apply (mo_inv _ _ _ _ _ _ (proj2 vm_boot1_run)). Qed.
Lemma vm_boot1_walk : walk (mach vm_boot1) (pd_index 753664) (pt_index 753664) = Some 753667.
Proof.
  rewrite (mo_walk _ _ _ _ _ _ (proj2 vm_boot1_run)) by (vm_compute; intuition congruence). done.
Qed.
#[global] Opaque vm_boot1.

Lemma map_page_updates_one_page_witness :
  exists s', map_page 753664 753664 PTE_U vm_boot = Ret tt s' /\ vm_inv 1024 s' /\
    (forall va, 0 <= va < 4294967296 -> pd_index va <> 1023 ->
      translate (mach s') va =
        if decide (va / 4096 = 753664 / 4096) then Some (PALIGNDOWN 753664 + va mod 4096)
        else translate (mach vm_boot) va) /\ user_ok (mach s') 753700 = true.
Proof.
  destruct (map_page_updates_one_page 1024 vm_boot 753664 753664 PTE_U) as (s' & H & Hi & Ht & _ & Hu & _);
    [apply vm_boot_inv|lia|split; [discriminate|reflexivity]|apply vm_boot_mappable|apply vm_boot_unmapped; lia|].
  exists s'. split; [exact H|]. split; [exact Hi|]. split; [exact Ht|].
  rewrite (Hu 753700 ltac:(lia) eq_refl). reflexivity.
Defined.

Lemma map_page_already_mapped_witness :
  map_page 757760 753664 0 vm_boot1 = Halted.
Proof.
  rewrite (map_page_already_mapped 1024 vm_boot1 757760 753664 0 753667); [done|..];
    [apply vm_boot1_inv|lia|lia|lia|done|apply vm_boot1_walk].
Defined.

Lemma map_pages_maps_range_witness :
  exists s', map_pages 753664 753664 0 8000 vm_boot = Ret tt s' /\ vm_inv 1024 s' /\
    forall va, 0 <= va < 4294967296 -> pd_index va <> 1023 ->
      translate (mach s') va =
        if decide (PALIGNDOWN 753664 <= va < PALIGNDOWN 753664 + 4096 * npages 8000)
        then Some (PALIGNDOWN 753664 + (va - PALIGNDOWN 753664)) else translate (mach vm_boot) va.
Proof.
  destruct (map_pages_maps_range 1024 vm_boot 753664 753664 0 8000) as (s' & H & Hi & Ht & _);
    [apply vm_boot_inv|lia|lia|lia|lia|done|done|apply vm_boot_free; apply leb_complete; done| |].
  - change (PALIGNDOWN 753664 + 4096 * npages 8000) with 761856. change (PALIGNDOWN 753664) with 753664.
    intros va Hva. apply vm_boot_unmapped. lia.
  - exists s'. split; [exact H|]. split; [exact Hi|exact Ht].
Defined.

Lemma unmap_page_removes_witness :
  exists fa, unmap_page 753664 vm_boot = Faulted fa.
Proof. apply (unmap_page_removes 1024 vm_boot 753664); [apply vm_boot_inv|lia|done]. Defined.

Lemma vm_get_phys_mapping_translates_witness :
  vm_get_phys_mapping 753700 vm_boot1 = Ret 753700 vm_boot1.
Proof.
  pose proof vm_boot1_walk as Hw. 
  apply (vm_get_phys_mapping_translates vm_boot1 753700 753700);
    [apply (inv_as _ _ vm_boot1_inv)|lia| |].
  - unfold translate. change (pd_index 753700) with (pd_index 753664).
    change (pt_index 753700) with (pt_index 753664). by rewrite Hw.
  - change (pd_index 753700) with (pd_index 753664).
    change (pt_index 753700) with (pt_index 753664).
    rewrite (walk_pte _ _ _ _ Hw). reflexivity.
Defined.

(** Two bytes that straddle a page boundary: only the first page is counted. *)
Definition vm_boot2 : vmst :=
  match map_pages 757759 757759 0 2 vm_boot with Ret _ s => s | _ => vm_boot end.

Lemma vm_boot2_run : map_pages 757759 757759 0 2 vm_boot = Ret tt vm_boot2.
Proof.
  unfold vm_boot2, map_pages. change (2 =? 0) with false. cbv iota.
  change (Z.to_nat (npages 2)) with 1%nat. change (PALIGNDOWN 757759) with 753664.
  cbn [map_pages_loop]. rewrite (bind_Ret _ _ _ _ _ (proj1 vm_boot1_run)). exact eq_refl.
Qed.

Lemma map_pages_covers_witness : translate (mach vm_boot2) 757760 = None.
Proof.
  apply (map_pages_covers 1024 vm_boot 757759 757759 0 2 vm_boot2);
    [apply vm_boot_inv|lia|lia|lia|lia|done|done|apply vm_boot_free; apply leb_complete; done| |apply vm_boot2_run].
  change (PALIGNDOWN 757759 + 4096 * npages 2 + 4096) with 761856. change (PALIGNDOWN 757759) with 753664.
  intros va Hva. apply vm_boot_unmapped. lia.
Defined.
