(* ===== verification/Heap.v ===== *)
(** * Heap.v: the kernel heap (kernel/heap.c, include/kernel/heap.h)

    A singly linked list of blocks laid out in the heap itself.  The
    operations run on any memory ([MemOps]); what is proved of them needs a
    region that behaves as RAM ([MemRegion]).  [heap_rep] relates memory to
    the list of blocks it encodes, and [spec_kalloc]/[spec_kfree] are the
    operations on that list.  The [static bool heap_initialized] is passed to
    the operations; [heap_init] returns its new value.  Diagnostics printed
    before an early return are left out. *)

From S2P Require Import Prelude Memory Machine Pm Vm.

(** include/kernel/heap.h *)
Definition CONFIG_KERNEL_HEAP_SIZE : Z := KiB 16.

Definition BLOCK_UNUSED : Z := 0.
Definition BLOCK_USED : Z := 255.

(** struct block: magic (u16 at 0), type (u8 at 2), next (at 4), data_size (at 8) *)
Definition sizeof_block : Z := 12.
Definition magic_at (b : Z) : Z := b.
Definition type_at (b : Z) : Z := b +w 2.
Definition next_at (b : Z) : Z := b +w 4.
Definition data_size_at (b : Z) : Z := b +w 8.

Definition heap_pool_addr : Z := 3825205248. (* 0xe4000000 *)

Section HeapOps.
Context {S : Type} `{MemOps S}.

(** The body of the loop of kalloc once a block was chosen. *)
Definition take_block (block bytes : Z) : M S Z :=
  next ← load32 (next_at block);
  (if next =? 0 then
     let new_block := block +w sizeof_block +w bytes in
     memcpy new_block block sizeof_block ≫= fun _ =>
     sz ← load32 (data_size_at new_block);
     store32 (data_size_at new_block) (sz -w (bytes +w sizeof_block)) ≫= fun _ =>
     store32 (next_at block) new_block
   else mret tt) ≫= fun _ =>
  store32 (data_size_at block) bytes ≫= fun _ =>
  store8 (type_at block) BLOCK_USED ≫= fun _ =>
  mret (block +w sizeof_block).

(** [for (block = heap_pool_addr; block != NULL; block = block->next)] *)
Fixpoint kalloc_loop (fuel : nat) (block bytes : Z) : M S Z :=
  match fuel with
  | O => nofuel
  | Datatypes.S fuel' =>
      if block =? 0 then mret 0
      else
        type ← load8 (type_at block);
        fits ← (if type =? BLOCK_UNUSED then
                  sz ← load32 (data_size_at block); mret (bytes <=? sz +w sizeof_block)
                else mret false);
        if (fits : bool) then take_block block bytes
        else next ← load32 (next_at block); kalloc_loop fuel' next bytes
  end.

Definition kalloc (fuel : nat) (heap_initialized : bool) (bytes : Z) : M S Z :=
  if negb heap_initialized then mret 0
  else if bytes =? 0 then mret 0
  else kalloc_loop fuel heap_pool_addr bytes.

Definition kfree (heap_initialized : bool) (addr : Z) : M S unit :=
  if negb heap_initialized then mret tt
  else if addr =? 0 then mret tt
  else store8 (type_at (addr -w sizeof_block)) BLOCK_UNUSED.

(** The (type, data_size) pairs heap_list_blocks prints. *)
Fixpoint heap_list_loop (fuel : nat) (block : Z) : M S (list (Z * Z)) :=
  match fuel with
  | O => nofuel
  | Datatypes.S fuel' =>
      if block =? 0 then mret []
      else
        type ← load8 (type_at block);
        sz ← load32 (data_size_at block);
        next ← load32 (next_at block);
        rest ← heap_list_loop fuel' next; mret ((type, sz) :: rest)
  end.
Definition heap_list_blocks (fuel : nat) (heap_initialized : bool) : M S (list (Z * Z)) :=
  if negb heap_initialized then mret [] else heap_list_loop fuel heap_pool_addr.

(** The first block, as heap_init writes it: the size of a block less
    the size of its [data_size] is 8. *)
Definition initial_block : M S unit :=
  store16 (magic_at heap_pool_addr) 47806 ≫= fun _ =>   (* 0xbabe *)
  store8 (type_at heap_pool_addr) BLOCK_UNUSED ≫= fun _ =>
  store32 (data_size_at heap_pool_addr) (CONFIG_KERNEL_HEAP_SIZE -w 8) ≫= fun _ =>
  store32 (next_at heap_pool_addr) 0.
End HeapOps.

Definition heap_init : M vmst bool :=
  heap_pool_phys_addr ← on_pm (pm_alloc_cont (CONFIG_KERNEL_HEAP_SIZE / PAGE_SIZE));
  if heap_pool_phys_addr =? 0 then halt
  else
    map_pages heap_pool_phys_addr heap_pool_addr 0 CONFIG_KERNEL_HEAP_SIZE ≫= fun _ =>
    on_mach initial_block ≫= fun _ => mret true.

(** ** The block list *)

Record blk := Blk { b_addr : Z; b_used : bool; b_size : Z }.

Definition type_of (b : blk) : Z := if b_used b then BLOCK_USED else BLOCK_UNUSED.
Definition head_addr (l : list blk) : Z := match l with [] => 0 | b :: _ => b_addr b end.

(** First fit: the blocks before, the block chosen and the blocks after. *)
Fixpoint first_fit (bytes : Z) (l : list blk) : option (list blk * blk * list blk) :=
  match l with
  | [] => None
  | b :: l' =>
      if negb (b_used b) && (bytes <=? b_size b +w sizeof_block) then Some ([], b, l')
      else match first_fit bytes l' with
           | Some (pre, c, post) => Some (b :: pre, c, post)
           | None => None
           end
  end.

(** The rest that is split off when the chosen block is the last one. *)
Definition rest_block (b : blk) (bytes : Z) : blk :=
  Blk (b_addr b + sizeof_block + bytes) false (b_size b -w (bytes +w sizeof_block)).

Definition taken (b : blk) (bytes : Z) (post : list blk) : list blk :=
  Blk (b_addr b) true bytes :: match post with [] => [rest_block b bytes] | _ => post end.

Definition spec_kalloc (bytes : Z) (l : list blk) : Z * list blk :=
  match first_fit bytes l with
  | None => (0, l)
  | Some (pre, b, post) => (b_addr b + sizeof_block, pre ++ taken b bytes post)
  end.

Definition spec_kfree (addr : Z) (l : list blk) : list blk :=
  map (fun b => if b_addr b + sizeof_block =? addr then Blk (b_addr b) false (b_size b) else b) l.

(** Headers do not overlap: the blocks are in address order, each after the
    header of the one before. *)
Fixpoint apart (l : list blk) : Prop :=
  match l with
  | [] => True
  | b :: l' => match l' with [] => True | c :: _ => b_addr b + sizeof_block <= b_addr c end /\ apart l'
  end.

Lemma apart_cons b l : apart (b :: l) -> apart l.
Proof. by intros [_ H]. Qed.

Lemma apart_lt b l c : apart (b :: l) -> c ∈ l -> b_addr b + sizeof_block <= b_addr c.
Proof.
  revert b. induction l as [|d l IH]; intros b Hap Hc; [set_solver|].
  destruct Hap as [Hbd Hap]. apply elem_of_cons in Hc as [-> | Hc]; [done|].
  pose proof (IH d Hap Hc). unfold sizeof_block in *. lia.
Qed.

Lemma apart_app_inv l1 l2 : apart (l1 ++ l2) -> apart l2.
Proof. induction l1; simpl; [done|]. intros [_ H]. auto. Qed.

Section HeapRep.
Context {S : Type} `{MO : MemOps S} {P : S -> Prop} {R : Z -> Prop} `{MR : !MemRegion P R}.

(** Memory [s] holds the header of [b], linked to [nxt]. *)
Record header (s : S) (b : blk) (nxt : Z) : Prop := {
  hd_addr : b_addr b <> 0;
  hd_span : span R (b_addr b) 12;
  hd_magic : load16 (b_addr b) s = Ret 47806 s;
  hd_type : load8 (b_addr b + 2) s = Ret (type_of b) s;
  hd_next : load32 (b_addr b + 4) s = Ret nxt s;
  hd_size : load32 (b_addr b + 8) s = Ret (b_size b) s;
  hd_size_u32 : 0 <= b_size b < 4294967296;
}.

Fixpoint chain (s : S) (l : list blk) : Prop :=
  match l with
  | [] => True
  | b :: l' => header s b (head_addr l') /\ chain s l'
  end.

Definition heap_rep (s : S) (l : list blk) : Prop :=
  P s /\ head_addr l = heap_pool_addr /\ apart l /\ chain s l.

(** States that agree on the 12 bytes of a header agree on the header. *)
Definition same_hdr (a : Z) (s s' : S) : Prop :=
  forall i, 0 <= i < 12 -> rd8 (a + i) s' = rd8 (a + i) s.

Lemma sub_span a i n m : span R a n -> 0 <= i -> i + Z.of_nat m <= Z.of_nat n -> span R (a + i) m.
Proof. intros HR Hi Hm j Hj. rewrite <- Z.add_assoc. apply HR. lia. Qed.

Lemma header_load s s' a i n v : P s -> span R a 12 -> same_hdr a s s' ->
  0 <= i -> i + Z.of_nat n <= 12 ->
  loadn n (a + i) s = Ret v s -> loadn n (a + i) s' = Ret v s'.
Proof.
  intros HP HR Hs Hi Hn Hl. apply (loadn_ext n s s' (a + i)); try done.
  - apply (sub_span a i 12); lia || done.
  - intros j Hj. rewrite <- Z.add_assoc. apply Hs. lia.
Qed.

Lemma header_ext s s' b nxt : P s -> same_hdr (b_addr b) s s' -> header s b nxt -> header s' b nxt.
Proof.
  intros HP Hs [Ha Hsp Hm Ht Hn Hz Hu]. split; try done.
  - rewrite <- (Z.add_0_r (b_addr b)) in Hm |- *. eapply header_load; done || lia.
  - eapply header_load; done || lia.
  - eapply header_load; done || lia.
  - eapply header_load; done || lia.
Qed.

Lemma chain_ext s s' l : P s -> (forall b, b ∈ l -> same_hdr (b_addr b) s s') ->
  chain s l -> chain s' l.
Proof.
  intros HP. induction l as [|b l IH]; simpl; [done|]. intros Hs [Hh Hc]. split.
  - eapply header_ext; [done| |done]. apply Hs. set_solver.
  - apply IH; [|done]. intros c Hcl. apply Hs. set_solver.
Qed.

Lemma chain_app s l1 l2 : chain s (l1 ++ l2) -> chain s l2.
Proof. induction l1; simpl; [done|]. intros [_ H]. auto. Qed.

Lemma field_u32 a i : span R a 12 -> 0 <= i < 12 -> u32 (a + i) = a + i.
Proof.
  intros HR Hi. apply u32_small, region_u32. apply HR. lia.
Qed.

(** Everything of the region outside the header at [a] is as before. *)
Definition frame12 (a : Z) (s s' : S) : Prop :=
  P s' /\ forall a', R a' -> ~ (a <= a' < a + 12) -> rd8 a' s' = rd8 a' s.

Lemma frame12_hdr a b s s' : frame12 a s s' -> span R b 12 -> a + 12 <= b \/ b + 12 <= a ->
  same_hdr b s s'.
Proof. intros [_ Hf] HR Hd i Hi. apply Hf; [apply HR; lia|lia]. Qed.

Lemma frame12_trans a s1 s2 s3 : frame12 a s1 s2 -> frame12 a s2 s3 -> frame12 a s1 s3.
Proof. intros [_ H1] [HP H2]. split; [done|]. intros a' Ha' Hn. by rewrite H2, H1. Qed.

Lemma rdn_nth n s a bs i : span R a n -> rdn n a s = Some bs -> 0 <= i < Z.of_nat n ->
  rd8 (a + i) s = bs !! Z.to_nat i.
Proof using MR.
  revert a bs i. induction n as [|n IH]; intros a bs i HR Hbs Hi; [lia|].
  destruct (rdn_cons_inv _ _ _ _ Hbs) as (b0 & bs' & -> & Hb & Hbs').
  destruct (decide (i = 0)) as [->|Hne]; [by rewrite Z.add_0_r|].
  replace (Z.to_nat i) with (Datatypes.S (Z.to_nat (i - 1))) by lia. simpl.
  assert (Hc : R (a + 1)) by (apply HR; lia). pose proof (region_u32 _ Hc).
  rewrite u32_small in Hbs' by lia.
  rewrite <- (IH (a + 1) bs' (i - 1)); [f_equal; lia| |done|lia].
  intros j Hj. rewrite <- Z.add_assoc. apply HR. lia.
Qed.

Lemma rdn_same m n s s' a a' bs i : span R a n -> span R a' n ->
  rdn n a s = Some bs -> rdn n a' s' = Some bs -> 0 <= i -> i + Z.of_nat m <= Z.of_nat n ->
  rdn m (a' + i) s' = rdn m (a + i) s.
Proof using MR.
  intros HR HR' Hbs Hbs'. revert i. induction m as [|m IH]; intros i Hi Hm; [done|].
  simpl. rewrite (rdn_nth n s a bs i), (rdn_nth n s' a' bs i) by (done || lia).
  destruct (bs !! Z.to_nat i); [|done]. simpl.
  destruct m as [|m]; [done|].
  assert (Hc : R (a + (i + 1))) by (apply HR; lia). assert (Hc' : R (a' + (i + 1))) by (apply HR'; lia).
  apply region_u32 in Hc, Hc'. rewrite !u32_small by lia. rewrite <- !Z.add_assoc. by rewrite IH by lia.
Qed.

Section Fields.
Context (s : S) (b : blk) (nxt : Z) (HP : P s) (Hh : header s b nxt).

Lemma field_store i n v : 0 <= i -> i + Z.of_nat n <= 12 ->
  exists s', storen n (b_addr b +w i) v s = Ret tt s' /\ frame12 (b_addr b) s s' /\
    loadn n (b_addr b + i) s' = Ret (v mod 2 ^ (Z.of_nat n * 8)) s' /\
    forall j m w, 0 <= j -> j + Z.of_nat m <= 12 -> j + Z.of_nat m <= i \/ i + Z.of_nat n <= j ->
      loadn m (b_addr b + j) s = Ret w s -> loadn m (b_addr b + j) s' = Ret w s'.
Proof using HP Hh MR.
  intros Hi Hn. pose proof (hd_span _ _ _ Hh) as HR.
  assert (Hu : b_addr b +w i = b_addr b + i \/ n = O).
  { destruct n as [|n]; [by right|left]. apply field_u32; [done|lia]. }
  destruct Hu as [-> | ->].
  - assert (Hsp : span R (b_addr b + i) n) by (apply (sub_span _ _ 12); done || lia).
    destruct (storen_ok n s (b_addr b + i) v HP Hsp) as (s' & Hst & HP' & Hld & Hf).
    exists s'. split; [done|]. split; [split; [done|]; intros a' Ha' Hn'; apply Hf; [done|lia]|].
    split; [done|]. intros j m w Hj Hm Hd Hl.
    eapply (storen_loadn_ne n m s s'); try done; [|lia]. apply (sub_span _ _ 12); done || lia.
  - exists s. split; [done|]. split; [done|]. split; [simpl; by rewrite Z.mod_1_r|]. done.
Qed.

Lemma store_type u : exists s', store8 (type_at (b_addr b)) (type_of (Blk 0 u 0)) s = Ret tt s' /\
  frame12 (b_addr b) s s' /\ header s' (Blk (b_addr b) u (b_size b)) nxt.
Proof using HP Hh MR.
  destruct (field_store 2 1 (type_of (Blk 0 u 0))) as (s' & Hst & Hf & Hld & Ho); [lia..|].
  exists s'. split; [done|]. split; [done|]. destruct Hh as [Ha Hsp Hm Ht Hn Hz Hu].
  rewrite <- (Z.add_0_r (b_addr b)) in Hm.
  split; cbn [b_addr b_size]; try done; try (apply Ho; done || lia).
  - rewrite <- (Z.add_0_r (b_addr b)). apply Ho; done || lia.
  - unfold load8. rewrite Hld. by destruct u.
Qed.

Lemma store_next n : 0 <= n < 4294967296 ->
  exists s', store32 (next_at (b_addr b)) n s = Ret tt s' /\
  frame12 (b_addr b) s s' /\ header s' b n.
Proof using HP Hh MR.
  intros Hnu. destruct (field_store 4 4 n) as (s' & Hst & Hf & Hld & Ho); [lia..|].
  exists s'. split; [done|]. split; [done|]. destruct Hh as [Ha Hsp Hm Ht Hn Hz Hu].
  rewrite <- (Z.add_0_r (b_addr b)) in Hm.
  split; try done; try (apply Ho; done || lia).
  - rewrite <- (Z.add_0_r (b_addr b)). apply Ho; done || lia.
  - unfold load32. rewrite Hld. by rewrite Z.mod_small.
Qed.

Lemma store_size z : 0 <= z < 4294967296 ->
  exists s', store32 (data_size_at (b_addr b)) z s = Ret tt s' /\
  frame12 (b_addr b) s s' /\ header s' (Blk (b_addr b) (b_used b) z) nxt.
Proof using HP Hh MR.
  intros Hnu. destruct (field_store 8 4 z) as (s' & Hst & Hf & Hld & Ho); [lia..|].
  exists s'. split; [done|]. split; [done|]. destruct Hh as [Ha Hsp Hm Ht Hn Hz Hu].
  rewrite <- (Z.add_0_r (b_addr b)) in Hm.
  split; cbn [b_addr b_size]; try done; try (apply Ho; done || lia).
  - rewrite <- (Z.add_0_r (b_addr b)). apply Ho; done || lia.
  - unfold load32. rewrite Hld. by rewrite Z.mod_small.
Qed.

(** memcpy of a header to a disjoint place makes a second header. *)
Lemma copy_header n : n <> 0 -> span R n 12 ->
  b_addr b + 12 <= n \/ n + 12 <= b_addr b ->
  exists s', memcpy n (b_addr b) sizeof_block s = Ret n s' /\
  frame12 n s s' /\ header s' (Blk n (b_used b) (b_size b)) nxt.
Proof using HP Hh MR.
  intros Hn0 HRn Hd. destruct Hh as [Ha Hsp Hm Ht Hn Hz Hu].
  destruct (rdn_ok 12 s (b_addr b) HP Hsp) as (bs & Hbs & Hlen).
  destruct (memcpy_ok s n (b_addr b) sizeof_block bs) as (s' & Hc & HP' & Hr & Hf);
    try done; unfold sizeof_block in *; [lia|].
  rewrite Hlen in Hr, Hf.
  exists s'. split; [done|]. split; [done|].
  assert (Hcopy : forall i m v, 0 <= i -> i + Z.of_nat m <= 12 ->
    loadn m (b_addr b + i) s = Ret v s -> loadn m (n + i) s' = Ret v s').
  { intros i m v Hi Him. unfold loadn.
    rewrite (rdn_same m 12 s s' (b_addr b) n bs i); try done.
    destruct (rdn m (b_addr b + i) s); congruence. }
  rewrite <- (Z.add_0_r (b_addr b)) in Hm.
  split; cbn [b_addr b_size]; try done; try (apply Hcopy; done || lia).
  rewrite <- (Z.add_0_r n). apply Hcopy; done || lia.
Qed.
End Fields.

Lemma take_block_inner s b nxt bytes : P s -> header s b nxt -> nxt <> 0 ->
  b_addr b + 12 < 4294967296 -> 0 <= bytes < 4294967296 ->
  exists s', take_block (b_addr b) bytes s = Ret (b_addr b + 12) s' /\
    frame12 (b_addr b) s s' /\ header s' (Blk (b_addr b) true bytes) nxt.
Proof using MR.
  intros HP Hh Hn Ha Hb. pose proof (hd_span _ _ _ Hh) as HR.
  pose proof (region_u32 _ (span_head _ _ HR)).
  destruct (store_size s b nxt HP Hh bytes Hb) as (s1 & Hs1 & Hf1 & Hh1).
  destruct (store_type s1 _ nxt (proj1 Hf1) Hh1 true) as (s2 & Hs2 & Hf2 & Hh2).
  exists s2. split; [|split; [by eapply frame12_trans|done]].
  unfold take_block, next_at. rewrite (field_u32 (b_addr b) 4) by (done || lia).
  rewrite (bind_Ret _ _ _ _ _ (hd_next _ _ _ Hh)).
  destruct (Z.eqb_spec nxt 0); [done|]. erewrite (bind_Ret (mret tt)) by done.
  rewrite (bind_Ret _ _ _ _ _ Hs1), (bind_Ret _ _ _ _ _ Hs2).
  unfold mret, M_ret, sizeof_block. by rewrite u32_small by lia.
Qed.

Lemma take_block_last s b bytes : P s -> header s b 0 -> b_used b = false -> 0 < bytes < 4294967296 ->
  span R (b_addr b + 12 + bytes) 12 ->
  exists s', take_block (b_addr b) bytes s = Ret (b_addr b + 12) s' /\ P s' /\
    (forall a', R a' -> ~ (b_addr b <= a' < b_addr b + 12) ->
       ~ (b_addr b + 12 + bytes <= a' < b_addr b + 24 + bytes) -> rd8 a' s' = rd8 a' s) /\
    header s' (Blk (b_addr b) true bytes) (b_addr b + 12 + bytes) /\ header s' (rest_block b bytes) 0.
Proof using MR.
  intros HP Hh Hun Hb HRn. pose proof (hd_span _ _ _ Hh) as HR.
  pose proof (region_u32 _ (span_head _ _ HR)). pose proof (region_u32 _ (span_head _ _ HRn)).
  set (n := b_addr b + 12 + bytes) in *.
  destruct (copy_header s b 0 HP Hh n) as (s1 & Hs1 & Hf1 & Hh1); [lia|done|lia|].
  assert (Hb1 : header s1 b 0).
  { apply (header_ext s); try done. apply (frame12_hdr n); try done. lia. }
  destruct (store_size s1 _ 0 (proj1 Hf1) Hh1 (b_size b -w (bytes +w sizeof_block)) (u32_range _))
    as (s2 & Hs2 & Hf2 & Hh2). cbn [b_addr b_used] in *.
  assert (Hb2 : header s2 b 0).
  { apply (header_ext s1); try done; [apply Hf1|]. apply (frame12_hdr n); try done. lia. }
  destruct (store_next s2 b 0 (proj1 Hf2) Hb2 n) as (s3 & Hs3 & Hf3 & Hh3); [lia|].
  destruct (store_size s3 b n (proj1 Hf3) Hh3 bytes) as (s4 & Hs4 & Hf4 & Hh4); [lia|].
  destruct (store_type s4 _ n (proj1 Hf4) Hh4 true) as (s5 & Hs5 & Hf5 & Hh5). cbn [b_addr] in *.
  assert (Hf35 : frame12 (b_addr b) s2 s5) by eauto using frame12_trans.
  exists s5. split; [|split; [apply Hf5|split; [|split; [done|]]]].
  - assert (Hnx : load32 (next_at (b_addr b)) s = Ret 0 s).
    { unfold next_at. rewrite (field_u32 (b_addr b) 4) by (done || lia). apply (hd_next _ _ _ Hh). }
    unfold take_block. rewrite (bind_Ret _ _ _ _ _ Hnx), Z.eqb_refl. cbv zeta.
    replace (b_addr b +w sizeof_block +w bytes) with n.
    2:{ unfold sizeof_block. rewrite u32_add_l, u32_small; done. }
    erewrite bind_Ret; [|rewrite (bind_Ret _ _ _ _ _ Hs1)].
    + rewrite (bind_Ret _ _ _ _ _ Hs4), (bind_Ret _ _ _ _ _ Hs5).
      unfold mret, M_ret, sizeof_block. by rewrite u32_small by lia.
    + erewrite bind_Ret.
      * rewrite (bind_Ret _ _ _ _ _ Hs2). exact Hs3.
      * unfold data_size_at. rewrite (field_u32 n 8) by (done || lia). apply (hd_size _ _ _ Hh1).
  - intros a' Ha' Hn1 Hn2. destruct Hf35 as [_ E35], Hf2 as [_ E2], Hf1 as [_ E1].
    rewrite E35, E2, E1 by (done || lia). done.
  - apply (header_ext s2); [apply Hf2| |].
    + apply (frame12_hdr (b_addr b)); try done. cbn [rest_block b_addr]. unfold sizeof_block. lia.
    + rewrite Hun in Hh2. exact Hh2.
Qed.

(** The search loop visits the blocks in order and stops at the first fit. *)
Lemma kalloc_loop_search l s fuel bytes : chain s l -> (length l < fuel)%nat ->
  kalloc_loop fuel (head_addr l) bytes s =
    match first_fit bytes l with
    | None => Ret 0 s
    | Some (_, b, _) => take_block (b_addr b) bytes s
    end.
Proof using MR.
  revert fuel. induction l as [|b l IH]; intros fuel Hc Hf;
    (destruct fuel as [|fuel]; [simpl in Hf; lia|]); [done|].
  destruct Hc as [Hh Hc]. pose proof Hh as [Ha HR _ Ht Hn Hz Hu]. cbn [kalloc_loop head_addr].
  destruct (Z.eqb_spec (b_addr b) 0); [done|].
  unfold type_at, data_size_at, next_at. rewrite !(field_u32 (b_addr b)) by (done || lia).
  rewrite (bind_Ret _ _ _ _ _ Ht). cbn [first_fit]. unfold type_of, BLOCK_USED, BLOCK_UNUSED.
  destruct (b_used b); simpl negb; cbn [andb].
  - change (255 =? 0) with false. cbv iota. erewrite (bind_Ret (mret false)) by done. cbv iota.
    rewrite (bind_Ret _ _ _ _ _ Hn), IH by (done || (simpl in Hf; lia)).
    by destruct (first_fit bytes l) as [[[??]?]|].
  - change (0 =? 0) with true. cbv iota.
    erewrite bind_Ret by (rewrite (bind_Ret _ _ _ _ _ Hz); done).
    destruct (bytes <=? b_size b +w sizeof_block); cbv iota; [done|].
    rewrite (bind_Ret _ _ _ _ _ Hn), IH by (done || (simpl in Hf; lia)).
    by destruct (first_fit bytes l) as [[[??]?]|].
Qed.
End HeapRep.

Lemma first_fit_Some bytes l pre b post : first_fit bytes l = Some (pre, b, post) ->
  l = pre ++ b :: post /\ b_used b = false /\ bytes <= b_size b +w sizeof_block.
Proof.
  revert pre b post. induction l as [|c l IH]; intros pre b post; simpl; [done|].
  destruct (negb (b_used c) && (bytes <=? c.(b_size) +w sizeof_block)) eqn:E.
  - intros [= <- <- <-]. apply andb_prop in E as [E1%negb_true_iff E2]. split; [done|]. split; [done|]. lia.
  - destruct (first_fit bytes l) as [[[pre' b'] post']|]; [|done]. intros [= <- <- <-].
    destruct (IH _ _ _ eq_refl) as (-> & ? & ?). done.
Qed.

Lemma head_addr_app pre b l b' l' : b_addr b = b_addr b' ->
  head_addr (pre ++ b :: l) = head_addr (pre ++ b' :: l').
Proof. by destruct pre. Qed.

Lemma apart_split pre b post : apart (pre ++ b :: post) ->
  (forall c, c ∈ pre -> b_addr c + sizeof_block <= b_addr b) /\
  (forall c, c ∈ post -> b_addr b + sizeof_block <= b_addr c).
Proof.
  intros Hap. split.
  - induction pre as [|d pre IH]; intros c Hc; [set_solver|].
    apply elem_of_cons in Hc as [-> | Hc].
    + eapply apart_lt; [exact Hap|]. set_solver.
    + apply IH; [by apply apart_cons in Hap|done].
  - intros c. apply apart_lt. by apply apart_app_inv in Hap.
Qed.

Lemma apart_replace pre b b' post post' : apart (pre ++ b :: post) -> b_addr b = b_addr b' ->
  apart (b' :: post') -> apart (pre ++ b' :: post').
Proof.
  intros Hap He Hap'. induction pre as [|d pre IH]; simpl in *; [done|].
  destruct Hap as [Hd Hap]. split; [|auto]. destruct pre; simpl in *; lia.
Qed.

Section HeapRefines.
Context {S : Type} `{MO : MemOps S} {P : S -> Prop} {R : Z -> Prop} `{MR : !MemRegion P R}.

Lemma chain_replace s s' pre b b' post post' : P s -> chain (R:=R) s (pre ++ b :: post) ->
  b_addr b = b_addr b' -> (forall c, c ∈ pre -> same_hdr (b_addr c) s s') ->
  chain (R:=R) s' (b' :: post') -> chain (R:=R) s' (pre ++ b' :: post').
Proof.
  intros HP Hc He Hs Hc'. induction pre as [|d pre IH]; simpl in *; [done|].
  destruct Hc as [Hh Hc]. split.
  - rewrite (head_addr_app _ _ _ b' post') in Hh by done. eapply header_ext; [done| |done].
    apply Hs. set_solver.
  - apply IH; [done|]. intros c Hcp. apply Hs. set_solver.
Qed.

Lemma chain_mid s pre b post : chain (R:=R) s (pre ++ b :: post) ->
  header (R:=R) s b (head_addr post) /\ chain (R:=R) s post /\ (forall c, c ∈ pre ++ b :: post -> span R (b_addr c) 12).
Proof.
  intros Hc. split; [apply chain_app in Hc; apply Hc|]. split; [apply chain_app in Hc; apply Hc|].
  remember (pre ++ b :: post) as l eqn:El. clear El. induction l as [|d l IH]; [set_solver|].
  destruct Hc as [Hh Hc]. intros c [-> | Hin]%elem_of_cons; [apply (hd_span _ _ _ Hh)|]. by apply IH.
Qed.

(** When the block chosen is the last one, the header of the rest is inside
    the region. *)
Definition room (bytes : Z) (l : list blk) : Prop :=
  match first_fit bytes l with
  | Some (_, b, []) => span R (b_addr b + 12 + bytes) 12
  | _ => True
  end.

(** The headers an allocation rewrites. *)
Definition touched (bytes : Z) (l : list blk) (a : Z) : Prop :=
  match first_fit bytes l with
  | Some (_, b, post) =>
      b_addr b <= a < b_addr b + 12 \/
      (post = [] /\ b_addr b + 12 + bytes <= a < b_addr b + 24 + bytes)
  | None => False
  end.

Lemma kalloc_refines_aux s l fuel bytes : heap_rep (P:=P) (R:=R) s l -> 0 < bytes < 4294967296 ->
  room bytes l -> (length l < fuel)%nat ->
  exists s', kalloc fuel true bytes s = Ret (fst (spec_kalloc bytes l)) s' /\
    heap_rep (P:=P) (R:=R) s' (snd (spec_kalloc bytes l)) /\
    forall a, R a -> ~ touched bytes l a -> rd8 a s' = rd8 a s.
Proof using MR.
  intros (HP & Hhd & Hap & Hc) Hb Hroom Hf. unfold kalloc. cbn [negb].
  destruct (Z.eqb_spec bytes 0); [lia|]. rewrite <- Hhd, (kalloc_loop_search l s) by done.
  unfold spec_kalloc, room, touched in *.
  destruct (first_fit bytes l) as [[[pre b] post]|] eqn:Eff; [|by exists s].
  destruct (first_fit_Some _ _ _ _ _ Eff) as (-> & Hun & _).
  destruct (chain_mid _ _ _ _ Hc) as (Hh & Hcp & Hsp). destruct (apart_split _ _ _ Hap) as [Hpre Hpost].
  unfold sizeof_block in *. destruct post as [|c post].
  - destruct (take_block_last s b bytes HP Hh Hun Hb Hroom) as (s' & Hr & HP' & Hfr & Hh1 & Hh2).
    exists s'. split; [done|]. split; [|intros a Ha Hn; apply Hfr; [done|tauto..]].
    split; [done|]. cbn [snd taken]. split; [rewrite <- Hhd; by apply head_addr_app|]. split.
    + eapply apart_replace; [exact Hap|done|]. simpl. unfold sizeof_block. split; [|done]. lia.
    + eapply chain_replace; [exact HP|exact Hc|done| |].
      * intros c0 Hc0 i Hi. pose proof (Hpre c0 Hc0). apply Hfr; [|lia..].
        apply (Hsp c0); [set_solver|lia].
      * simpl. unfold sizeof_block in *. done.
  - pose proof (Hpost c ltac:(set_solver)). pose proof (Hsp c ltac:(set_solver)) as Hspc.
    pose proof (region_u32 _ (span_head _ _ Hspc)). destruct Hcp as [Hhc Hcp].
    destruct (take_block_inner s b (b_addr c) bytes HP Hh) as (s' & Hr & Hfr & Hh1);
      [apply (hd_addr _ _ _ Hhc)|lia|lia|].
    exists s'. split; [done|]. split; [|intros a Ha Hn; apply Hfr; [done|tauto..]].
    split; [apply Hfr|]. cbn [snd taken]. split; [rewrite <- Hhd; by apply head_addr_app|]. split.
    + eapply apart_replace; [exact Hap|done|]. apply apart_app_inv in Hap as [? Hap]. done.
    + eapply chain_replace; [exact HP|exact Hc|done| |].
      * intros c0 Hc0. pose proof (Hpre c0 Hc0). eapply frame12_hdr; [exact Hfr| |lia].
        apply Hsp. set_solver.
      * split; [done|]. apply (chain_ext s); [done| |done].
        intros c0 Hc0. pose proof (Hpost c0 Hc0). eapply frame12_hdr; [exact Hfr| |lia].
        apply Hsp. set_solver.
Qed.

Lemma spec_kfree_split pre b post : apart (pre ++ b :: post) ->
  spec_kfree (b_addr b + sizeof_block) (pre ++ b :: post) =
    pre ++ Blk (b_addr b) false (b_size b) :: post.
Proof.
  intros Hap. destruct (apart_split _ _ _ Hap) as [Hpre Hpost]. unfold spec_kfree, sizeof_block in *.
  assert (Hid : forall l, (forall c, c ∈ l -> b_addr c <> b_addr b) ->
    map (fun c => if b_addr c + 12 =? b_addr b + 12 then Blk (b_addr c) false (b_size c) else c) l = l).
  { induction l as [|c l IH]; intros Hl; simpl; [done|]. rewrite IH by (intros; apply Hl; set_solver).
    destruct (Z.eqb_spec (b_addr c + 12) (b_addr b + 12)); [|done].
    exfalso. apply (Hl c); [set_solver|lia]. }
  rewrite map_app. simpl. rewrite Z.eqb_refl.
  rewrite !Hid; [done|intros c Hc; specialize (Hpost c Hc); lia|intros c Hc; specialize (Hpre c Hc); lia].
Qed.

(** kfree of an allocated address marks its block, and only its block, unused. *)
Lemma kfree_refines_aux s l b : heap_rep (P:=P) (R:=R) s l -> b ∈ l ->
  b_addr b + 12 < 4294967296 ->
  exists s', kfree true (b_addr b + sizeof_block) s = Ret tt s' /\
    heap_rep (P:=P) (R:=R) s' (spec_kfree (b_addr b + sizeof_block) l) /\
    forall a, R a -> ~ (b_addr b <= a < b_addr b + 12) -> rd8 a s' = rd8 a s.
Proof using MR.
  intros (HP & Hhd & Hap & Hc) Hin Hbd. apply list_elem_of_split in Hin as (pre & post & ->).
  destruct (chain_mid _ _ _ _ Hc) as (Hh & Hcp & Hsp). destruct (apart_split _ _ _ Hap) as [Hpre Hpost].
  rewrite spec_kfree_split by done. pose proof (region_u32 _ (span_head _ _ (hd_span _ _ _ Hh))).
  destruct (store_type s b _ HP Hh false) as (s' & Hs & Hfr & Hh').
  exists s'. unfold sizeof_block in *. split.
  { unfold kfree. cbn [negb]. destruct (Z.eqb_spec (b_addr b + 12) 0); [lia|]. unfold sizeof_block.
    replace (b_addr b + 12 -w 12) with (b_addr b); [done|]. rewrite u32_small; lia. }
  split; [|apply Hfr]. split; [apply Hfr|]. split; [rewrite <- Hhd; by apply head_addr_app|]. split.
  - eapply apart_replace; [exact Hap|done|]. by apply apart_app_inv in Hap.
  - eapply chain_replace; [exact HP|exact Hc|done| |].
    + intros c Hc0. pose proof (Hpre c Hc0). eapply frame12_hdr; [exact Hfr| |lia]. apply Hsp. set_solver.
    + split; [done|]. apply (chain_ext s); [done| |done].
      intros c Hc0. pose proof (Hpost c Hc0). eapply frame12_hdr; [exact Hfr| |lia]. apply Hsp. set_solver.
Qed.

(** What heap_init leaves in memory: one unused block. *)
Definition fresh_heap : list blk := [Blk heap_pool_addr false 16376].

Lemma initial_block_rep s : P s -> span R heap_pool_addr 12 ->
  exists s', initial_block s = Ret tt s' /\ heap_rep (P:=P) (R:=R) s' fresh_heap.
Proof using MR.
  intros HP HR. set (a := heap_pool_addr) in *.
  assert (Hs : forall i n, 0 <= i -> i + Z.of_nat n <= 12 -> span R (a + i) n).
  { intros i n Hi Hn. apply (sub_span a i 12); done || lia. }
  destruct (storen_ok 2 s (a + 0) 47806 HP) as (s1 & E1 & HP1 & L1 & F1); [apply Hs; lia|].
  destruct (storen_ok 1 s1 (a + 2) BLOCK_UNUSED HP1) as (s2 & E2 & HP2 & L2 & F2); [apply Hs; lia|].
  destruct (storen_ok 4 s2 (a + 8) 16376 HP2) as (s3 & E3 & HP3 & L3 & F3); [apply Hs; lia|].
  destruct (storen_ok 4 s3 (a + 4) 0 HP3) as (s4 & E4 & HP4 & L4 & F4); [apply Hs; lia|].
  assert (M1 : loadn 2 (a + 0) s4 = Ret 47806 s4).
  { eapply (storen_loadn_ne 4 2 s3 s4); [done|apply Hs; lia|exact F4|lia|].
    eapply (storen_loadn_ne 4 2 s2 s3); [done|apply Hs; lia|exact F3|lia|].
    eapply (storen_loadn_ne 1 2 s1 s2); [done|apply Hs; lia|exact F2|lia|]. exact L1. }
  assert (M2 : loadn 1 (a + 2) s4 = Ret 0 s4).
  { eapply (storen_loadn_ne 4 1 s3 s4); [done|apply Hs; lia|exact F4|lia|].
    eapply (storen_loadn_ne 4 1 s2 s3); [done|apply Hs; lia|exact F3|lia|]. exact L2. }
  assert (M3 : loadn 4 (a + 8) s4 = Ret 16376 s4).
  { eapply (storen_loadn_ne 4 4 s3 s4); [done|apply Hs; lia|exact F4|lia|]. exact L3. }
  exists s4. split.
  { unfold initial_block. rewrite (bind_Ret _ _ _ _ _ E1), (bind_Ret _ _ _ _ _ E2), (bind_Ret _ _ _ _ _ E3).
    exact E4. }
  split; [done|]. split; [done|]. split; [done|]. split; [|done].
  split; try done; cbn [b_size]; lia.
Qed.
End HeapRefines.

(** ** Requests of one size

    Every kalloc of the kernel asks for one message ([sizeof(struct msg)]).
    With requests of a single size [b] the blocks form an array of slots:
    [fl] tells which slots are in use, the unused rest follows them. *)

Fixpoint ublocks (b a : Z) (fl : list bool) : list blk :=
  match fl with
  | [] => [Blk a false (heap_pool_addr + 16376 - a)]
  | f :: fl' => Blk a f b :: ublocks b (a + 12 + b) fl'
  end.

Fixpoint used_slots (b a : Z) (fl : list bool) : list Z :=
  match fl with
  | [] => []
  | f :: fl' => (if f then [a + 12] else []) ++ used_slots b (a + 12 + b) fl'
  end.

(** How many slots fit: each takes [b + 12] bytes and the rest keeps a header. *)
Definition capacity (b : Z) : Z := (CONFIG_KERNEL_HEAP_SIZE - 12) / (b + 12).

Definition heap_range (a : Z) : Prop := heap_pool_addr <= a < heap_pool_addr + CONFIG_KERNEL_HEAP_SIZE.

(** The slot the next request gets, and the flags afterwards. *)
Fixpoint grab (b a : Z) (fl : list bool) : Z * list bool :=
  match fl with
  | [] => (a + 12, [true])
  | true :: fl' => let '(r, fl1) := grab b (a + 12 + b) fl' in (r, true :: fl1)
  | false :: fl' => (a + 12, true :: fl')
  end.

Definition slot_end (b a : Z) (fl : list bool) : Z := a + (b + 12) * Z.of_nat (length fl).

Lemma ublocks_apart b a fl : 0 < b -> apart (ublocks b a fl).
Proof.
  intros Hb. revert a. induction fl as [|f fl IH]; intros a; simpl; [done|].
  split; [|apply IH]. destruct fl; simpl; unfold sizeof_block; lia.
Qed.

Lemma used_slots_range b a fl x : 0 < b -> x ∈ used_slots b a fl ->
  a + 12 <= x /\ x + b <= slot_end b a fl.
Proof.
  intros Hb. unfold slot_end. revert a. induction fl as [|f fl IH]; intros a Hx; simpl in *; [set_solver|].
  apply elem_of_app in Hx as [Hx|Hx].
  - destruct f; [|set_solver]. apply list_elem_of_singleton in Hx as ->. lia.
  - apply IH in Hx. lia.
Qed.

(** The two slots of different addresses do not overlap, headers included. *)
Lemma used_slots_apart b a fl x y : 0 < b -> x ∈ used_slots b a fl -> y ∈ used_slots b a fl ->
  x <> y -> x + b + 12 <= y \/ y + b + 12 <= x.
Proof.
  intros Hb. revert a. induction fl as [|f fl IH]; intros a Hx Hy Hne; simpl in *; [set_solver|].
  apply elem_of_app in Hx as [Hx|Hx]; apply elem_of_app in Hy as [Hy|Hy]; try by apply IH with (a + 12 + b).
  - destruct f; [|set_solver]. set_solver.
  - destruct f; [|set_solver]. apply list_elem_of_singleton in Hx as ->.
    pose proof (used_slots_range _ _ _ _ Hb Hy). lia.
  - destruct f; [|set_solver]. apply list_elem_of_singleton in Hy as ->.
    pose proof (used_slots_range _ _ _ _ Hb Hx). lia.
Qed.

(** What the first-fit search does on an array of slots. *)
Lemma first_fit_ublocks b a fl : 0 < b < 16384 -> heap_pool_addr <= a ->
  (false ∈ fl \/ slot_end b a fl + b + 24 <= heap_pool_addr + 16384) ->
  exists pre c post, first_fit b (ublocks b a fl) = Some (pre, c, post) /\
    b_addr c + 12 = (grab b a fl).1 /\ pre ++ taken c b post = ublocks b a (grab b a fl).2 /\
    a <= b_addr c <= slot_end b a fl /\
    (forall x, x ∈ used_slots b a fl -> x + b <= b_addr c \/ b_addr c + 12 + b + 12 <= x) /\
    (post = [] -> b_addr c = slot_end b a fl /\ false ∉ fl).
Proof.
  intros Hb. revert a. induction fl as [|f fl IH]; intros a Ha Hend; unfold slot_end in *; simpl in Hend |- *.
  - destruct Hend as [Hend|Hend]; [set_solver|]. rewrite u32_small by (unfold sizeof_block; lia).
    destruct (Z.leb_spec b (heap_pool_addr + 16376 - a + sizeof_block)); [|unfold sizeof_block in *; lia].
    eexists [], _, []. split; [done|]. split; [done|]. split.
    + simpl. unfold taken, rest_block, sizeof_block. cbn [b_addr b_size]. do 2 f_equal.
      f_equal. rewrite (u32_small (b + 12)) by lia. rewrite u32_small by lia. lia.
    + cbn [b_addr]. split; [lia|]. split; [set_solver|]. intros _. split; [lia|set_solver].
  - destruct f; cbn [negb andb].
    + destruct (IH (a + 12 + b)) as (pre & c & post & Hff & Hga & Hbl & Hrg & Hdis & Hlast); [lia|set_solver by lia|].
      rewrite Hff. destruct (grab b (a + 12 + b) fl) as [r fl1]. cbn [fst snd] in *.
      eexists _, c, post. split; [done|]. split; [done|]. split; [simpl; by rewrite Hbl|].
      split; [lia|]. split.
      * intros x [Hx | Hx]%elem_of_cons; [subst; lia|by apply Hdis].
      * intros Hp. destruct (Hlast Hp). split; [lia|set_solver].
    + rewrite u32_small by (unfold sizeof_block; lia).
      destruct (Z.leb_spec b (b + sizeof_block)); [|unfold sizeof_block in *; lia].
      eexists [], _, _. split; [done|]. split; [done|]. split.
      * simpl. unfold taken. cbn [b_addr]. by destruct fl.
      * cbn [b_addr]. split; [lia|]. split.
        -- intros x Hx. pose proof (used_slots_range b _ _ x ltac:(lia) Hx). lia.
        -- intros Hp. by destruct fl.
Qed.

Lemma grab_slots b a fl : used_slots b a (grab b a fl).2 ≡ₚ (grab b a fl).1 :: used_slots b a fl.
Proof.
  revert a. induction fl as [|f fl IH]; intros a; simpl; [done|]. destruct f; simpl.
  - specialize (IH (a + 12 + b)). destruct (grab b (a + 12 + b) fl) as [r fl1]. simpl in *.
    rewrite IH. apply Permutation_swap.
  - done.
Qed.

Lemma ublocks_length b a fl : length (ublocks b a fl) = (1 + length fl)%nat.
Proof. revert a. induction fl as [|f fl IH]; intros a; simpl; [done|]. by rewrite IH. Qed.

Lemma free_slot b a fl : false ∈ fl \/ length (used_slots b a fl) = length fl.
Proof.
  revert a. induction fl as [|f fl IH]; intros a; simpl; [by right|]. destruct f; [|left; set_solver].
  destruct (IH (a + 12 + b)); [left; set_solver|right; simpl; lia].
Qed.

Lemma grab_length b a fl : (length (grab b a fl).2 <= length fl)%nat \/
  (length (grab b a fl).2 = 1 + length fl /\ length (used_slots b a fl) = length fl)%nat.
Proof.
  revert a. induction fl as [|f fl IH]; intros a; simpl; [by right|]. destruct f; simpl; [|left; lia].
  specialize (IH (a + 12 + b)). destruct (grab b (a + 12 + b) fl) as [r fl1]. simpl in *. lia.
Qed.

(** The flags after freeing the slot at address [x]. *)
Fixpoint release (b a x : Z) (fl : list bool) : list bool :=
  match fl with
  | [] => []
  | f :: fl' => (if a + 12 =? x then false else f) :: release b (a + 12 + b) x fl'
  end.

Lemma release_length b a x fl : length (release b a x fl) = length fl.
Proof. revert a. induction fl; intros; simpl; auto. Qed.

Lemma release_ublocks b a x fl : x < slot_end b a fl -> 0 < b ->
  spec_kfree x (ublocks b a fl) = ublocks b a (release b a x fl).
Proof.
  intros Hx Hb. revert a Hx. induction fl as [|f fl IH]; intros a Hx; unfold slot_end in *; simpl in *;
    unfold sizeof_block.
  - destruct (Z.eqb_spec (a + 12) x); [lia|done].
  - rewrite <- IH by lia. unfold spec_kfree, sizeof_block. by destruct (a + 12 =? x).
Qed.

Lemma release_below b a x fl : 0 < b -> x < a + 12 -> release b a x fl = fl.
Proof.
  intros Hb. revert a. induction fl as [|f fl IH]; intros a Hx; simpl; [done|].
  rewrite IH by lia. destruct (Z.eqb_spec (a + 12) x); [lia|done].
Qed.

Lemma release_slots b a x fl : 0 < b -> x ∈ used_slots b a fl ->
  used_slots b a fl ≡ₚ x :: used_slots b a (release b a x fl).
Proof.
  intros Hb. revert a. induction fl as [|f fl IH]; intros a Hx; simpl in *; [set_solver|].
  destruct (Z.eqb_spec (a + 12) x) as [<-|Hne].
  - destruct f; simpl.
    + by rewrite release_below by lia.
    + pose proof (used_slots_range b _ _ _ Hb Hx). lia.
  - destruct f; simpl in *.
    + apply elem_of_cons in Hx as [->|Hx]; [done|]. rewrite (IH _ Hx) at 1. apply Permutation_swap.
    + by apply IH.
Qed.

Lemma used_slot_block b a fl x : x ∈ used_slots b a fl ->
  exists c, c ∈ ublocks b a fl /\ b_addr c + 12 = x.
Proof.
  revert a. induction fl as [|f fl IH]; intros a Hx; simpl in *; [set_solver|].
  apply elem_of_app in Hx as [Hx|Hx].
  - destruct f; [|set_solver]. apply list_elem_of_singleton in Hx as ->.
    eexists. split; [apply list_elem_of_here|]. done.
  - destruct (IH _ Hx) as (c & Hc & He). exists c. split; [by right|done].
Qed.

Section Uniform.
Context {S : Type} `{MO : MemOps S} {P : S -> Prop} `{MR : !MemRegion P heap_range}.

(** The heap serves requests of [b] bytes and [live] are the addresses
    handed out and not freed since. *)
Definition serves (b : Z) (s : S) (live : list Z) : Prop :=
  exists fl, heap_rep (P:=P) (R:=heap_range) s (ublocks b heap_pool_addr fl) /\
    live ≡ₚ used_slots b heap_pool_addr fl /\ Z.of_nat (length fl) <= capacity b.

Lemma capacity_bound b n : 0 < b -> 0 <= n <= capacity b -> (b + 12) * n + 12 <= 16384.
Proof.
  intros Hb Hn. unfold capacity in Hn. change CONFIG_KERNEL_HEAP_SIZE with 16384 in *.
  assert ((b + 12) * ((16384 - 12) / (b + 12)) <= 16384 - 12) by (apply Z.mul_div_le; lia). nia.
Qed.

(** Two payloads that share no byte. *)
Definition disjoint_payloads (b x y : Z) : Prop := x + b <= y \/ y + b <= x.

Lemma serves_fresh b s : heap_rep (P:=P) (R:=heap_range) s fresh_heap -> 0 < b -> b <= 16360 ->
  serves b s [].
Proof.
  intros Hr Hb Hb2. exists []. split; [done|]. split; [done|]. simpl. unfold capacity.
  apply Z.div_pos; [done|lia].
Qed.

Lemma serves_live b s live x y : 0 < b -> serves b s live -> x ∈ live ->
  heap_pool_addr + 12 <= x /\ x + b <= heap_pool_addr + CONFIG_KERNEL_HEAP_SIZE /\
  (y ∈ live -> x <> y -> disjoint_payloads b x y).
Proof.
  intros Hb (fl & _ & Hl & Hc) Hx. rewrite Hl in Hx.
  pose proof (used_slots_range b _ fl x Hb Hx) as [H1 H2].
  pose proof (capacity_bound b (Z.of_nat (length fl)) Hb ltac:(lia)). unfold slot_end in H2.
  change CONFIG_KERNEL_HEAP_SIZE with 16384. split; [lia|]. split; [lia|].
  intros Hy Hne. rewrite Hl in Hy. unfold disjoint_payloads.
  pose proof (used_slots_apart b _ fl x y Hb Hx Hy Hne). lia.
Qed.

Lemma serves_kalloc b s live fuel : 0 < b -> serves b s live ->
  Z.of_nat (length live) < capacity b -> capacity b + 1 < Z.of_nat fuel ->
  exists a s', kalloc fuel true b s = Ret a s' /\ a ∉ live /\ serves b s' (a :: live) /\
    forall x i, x ∈ live -> 0 <= i < b -> rd8 (x + i) s' = rd8 (x + i) s.
Proof using MR.
  intros Hb Hsv Hlen Hfuel. pose proof Hsv as (fl & Hrep & Hl & Hc).
  assert (Hcap : forall n, 0 <= n <= capacity b -> (b + 12) * n + 12 <= 16384) by (intros; by apply capacity_bound).
  assert (Hfree : false ∈ fl \/ (b + 12) * (Z.of_nat (length fl) + 1) + 12 <= 16384).
  { destruct (free_slot b heap_pool_addr fl) as [Hf|Hf]; [by left|right].
    apply Hcap. rewrite Hl in Hlen. lia. }
  assert (Hbs : 0 < b < 16384) by (pose proof (Hcap 1 ltac:(lia)); lia).
  destruct (first_fit_ublocks b heap_pool_addr fl Hbs) as (pre & c & post & Hff & Hga & Hbl & Hrg & Hdis & Hlast).
  { lia. } { unfold slot_end. destruct Hfree; [by left|right; lia]. }
  assert (Hroom : room (R:=heap_range) b (ublocks b heap_pool_addr fl)).
  { unfold room. rewrite Hff. destruct post; [|done]. destruct (Hlast eq_refl) as [He Hnf].
    unfold slot_end in He. destruct Hfree as [|Hfree]; [done|]. intros i Hi.
    unfold heap_range. change CONFIG_KERNEL_HEAP_SIZE with 16384. lia. }
  destruct (kalloc_refines_aux s _ fuel b Hrep ltac:(lia) Hroom) as (s' & Hr & Hrep' & Hfr).
  { clear - Hfuel Hc. pose proof (ublocks_length b heap_pool_addr fl). lia. }
  unfold spec_kalloc, touched in *. rewrite Hff in Hr, Hrep', Hfr. cbn [fst snd] in *.
  exists (b_addr c + 12), s'. split; [done|]. split.
  { rewrite Hl. intros Hin. apply Hdis in Hin. lia. }
  split.
  - exists (grab b heap_pool_addr fl).2. rewrite <- Hbl. split; [done|].
    split; [by rewrite grab_slots, <- Hga, <- Hl|].
    destruct (grab_length b heap_pool_addr fl) as [Hg|[Hg Hu]]; [lia|]. rewrite Hl in Hlen. lia.
  - intros x i Hx Hi. destruct (serves_live b s live x x Hb Hsv Hx) as (H1 & H2 & _).
    rewrite Hl in Hx. specialize (Hdis x Hx). apply Hfr; [unfold heap_range; lia|].
    destruct post; [|intros [H|[H _]]; [lia|done]]. intros [H|[_ H]]; lia.
Qed.

Lemma serves_kfree b s live x : 0 < b -> serves b s live -> x ∈ live ->
  exists s' live', kfree true x s = Ret tt s' /\ live ≡ₚ x :: live' /\ serves b s' live' /\
    forall y i, y ∈ live -> 0 <= i < b -> rd8 (y + i) s' = rd8 (y + i) s.
Proof using MR.
  intros Hb Hsv Hx. destruct (serves_live b s live x x Hb Hsv Hx) as (H1 & H2 & _).
  pose proof Hsv as (fl & Hrep & Hl & Hc). pose proof Hx as Hx'. rewrite Hl in Hx'.
  destruct (used_slot_block _ _ _ _ Hx') as (c & Hin & He).
  destruct (kfree_refines_aux s _ c Hrep Hin) as (s' & Hr & Hrep' & Hfr).
  { unfold heap_pool_addr, CONFIG_KERNEL_HEAP_SIZE, KiB, u32 in *. zdm. }
  unfold sizeof_block in *. rewrite He in Hr, Hrep'.
  pose proof (used_slots_range b _ fl x Hb Hx') as [_ Hse].
  rewrite release_ublocks in Hrep' by lia.
  exists s', (used_slots b heap_pool_addr (release b heap_pool_addr x fl)).
  split; [done|]. split; [rewrite Hl; by apply release_slots|]. split.
  - eexists. split; [exact Hrep'|]. split; [done|]. by rewrite release_length.
  - intros y i Hy Hi. destruct (serves_live b s live y x Hb Hsv Hy) as (H3 & H4 & Hd).
    apply Hfr; [unfold heap_range; lia|]. destruct (decide (y = x)) as [->|Hne]; [lia|].
    rewrite Hl in Hy. pose proof (used_slots_apart b _ fl y x Hb Hy Hx' Hne). lia.
Qed.
End Uniform.

(** ** Properties *)

(** C4: kalloc is first fit on the block list.  On memory that encodes the
    list [l], and with room for the header that splitting the last block
    writes, it returns and leaves memory that encodes exactly
    [snd (spec_kalloc bytes l)], changing no byte outside the headers of the
    block it takes and of the rest it splits off. *)
Theorem kalloc_refines {S} `{MO : MemOps S} (P : S -> Prop) (R : Z -> Prop) (MR : MemRegion P R)
    s l fuel bytes :
  heap_rep (P:=P) (R:=R) s l -> 0 < bytes < 4294967296 -> room (R:=R) bytes l -> (length l < fuel)%nat ->
  exists s', kalloc fuel true bytes s = Ret (fst (spec_kalloc bytes l)) s' /\
    heap_rep (P:=P) (R:=R) s' (snd (spec_kalloc bytes l)) /\
    forall a, R a -> ~ touched bytes l a -> rd8 a s' = rd8 a s.
Proof. apply kalloc_refines_aux. Qed.

(** C26: With requests of one size, which is all the kernel makes, the heap is
    safe up to its capacity: while fewer than [capacity b] payloads are live,
    kalloc returns a new payload inside the heap that shares no byte with a
    live one, and changes no byte of a live one. *)
Theorem kalloc_uniform_safe {S} `{MO : MemOps S} (P : S -> Prop) (MR : MemRegion P heap_range)
    b s live fuel :
  0 < b -> serves (P:=P) b s live -> Z.of_nat (length live) < capacity b -> capacity b + 1 < Z.of_nat fuel ->
  exists a s', kalloc fuel true b s = Ret a s' /\ serves (P:=P) b s' (a :: live) /\
    heap_pool_addr <= a /\ a + b <= heap_pool_addr + CONFIG_KERNEL_HEAP_SIZE /\
    (forall x, x ∈ live -> disjoint_payloads b a x) /\
    (forall x i, x ∈ live -> 0 <= i < b -> rd8 (x + i) s' = rd8 (x + i) s).
Proof.
  intros Hb Hsv Hlen Hf. destruct (serves_kalloc b s live fuel Hb Hsv Hlen Hf) as (a & s' & Hr & Hn & Hsv' & Hd).
  exists a, s'. split; [done|]. split; [done|].
  destruct (serves_live b s' (a :: live) a a Hb Hsv' ltac:(set_solver)) as (H1 & H2 & _).
  split; [lia|]. split; [done|]. split; [|done]. intros x Hx.
  apply (serves_live b s' (a :: live) a x Hb Hsv'); set_solver.
Qed.

(** kfree gives back exactly one payload: the heap then serves the other
    live payloads, whose bytes are unchanged, and after freeing the last of
    them it can serve its whole capacity again. *)
Theorem kfree_releases {S} `{MO : MemOps S} (P : S -> Prop) (MR : MemRegion P heap_range) b s live x :
  0 < b -> serves (P:=P) b s live -> x ∈ live ->
  exists s' live', kfree true x s = Ret tt s' /\ live ≡ₚ x :: live' /\ serves (P:=P) b s' live' /\
    forall y i, y ∈ live -> 0 <= i < b -> rd8 (y + i) s' = rd8 (y + i) s.
Proof. apply serves_kfree. Qed.

(** C34: The size test of kalloc accepts a freed block that is up to 12 bytes
    too small.  Allocate [x] and [y] bytes, free the first and ask for
    [x + 12]: kalloc returns the first block again, and its payload now covers
    the whole header of the second, live, block. *)
Theorem kalloc_reuse_covers_header {S} `{MO : MemOps S} (P : S -> Prop) (MR : MemRegion P heap_range)
    s x y fuel :
  heap_rep (P:=P) (R:=heap_range) s fresh_heap -> 0 < x -> 0 < y ->
  x + y + 36 <= CONFIG_KERNEL_HEAP_SIZE -> (3 < fuel)%nat ->
  exists p q s1 s2 s3 s4,
    kalloc fuel true x s = Ret p s1 /\ kalloc fuel true y s1 = Ret q s2 /\
    kfree true p s2 = Ret tt s3 /\ kalloc fuel true (x + 12) s3 = Ret p s4 /\
    q - 12 = p + x /\ load8 (type_at (q - 12)) s4 = Ret BLOCK_USED s4 /\
    forall i, 0 <= i < 12 -> p <= q - 12 + i < p + (x + 12).
Proof.
  change CONFIG_KERNEL_HEAP_SIZE with 16384. intros Hr Hx Hy Hsz Hf.
  set (base := heap_pool_addr) in *. assert (Hbase : base = 3825205248) by done.
  assert (Hsp : forall a, base <= a -> a + 12 <= base + 16384 -> span heap_range a 12).
  { intros a H1 H2 i Hi. unfold heap_range. change CONFIG_KERNEL_HEAP_SIZE with 16384. lia. }
  assert (Hle : forall n m, n <= m -> (n <=? m) = true) by (intros; lia).
  assert (F1 : first_fit x fresh_heap = Some ([], Blk base false 16376, [])).
  { unfold fresh_heap. simpl. unfold sizeof_block. rewrite u32_small, Hle by lia. done. }
  destruct (kalloc_refines_aux s _ fuel x Hr) as (s1 & E1 & R1 & _);
    [lia|unfold room; rewrite F1; apply Hsp; cbn [b_addr]; lia|simpl; lia|].
  unfold spec_kalloc in E1, R1. rewrite F1 in E1, R1. cbn [fst snd app b_addr] in E1, R1.
  unfold taken, rest_block, sizeof_block in E1, R1. cbn [b_addr b_size] in E1, R1.
  rewrite (u32_small (x + 12)), (u32_small (16376 - (x + 12))) in R1 by lia.
  set (l1 := [Blk base true x; _]) in R1.
  assert (F2 : first_fit y l1 = Some ([Blk base true x], Blk (base + 12 + x) false (16376 - (x + 12)), [])).
  { unfold l1. simpl. unfold sizeof_block. rewrite u32_small, Hle by lia. done. }
  destruct (kalloc_refines_aux s1 _ fuel y R1) as (s2 & E2 & R2 & _);
    [lia|unfold room; rewrite F2; apply Hsp; cbn [b_addr]; lia|simpl; lia|].
  unfold spec_kalloc in E2, R2. rewrite F2 in E2, R2. cbn [fst snd app b_addr] in E2, R2. unfold taken in R2. cbn [b_addr] in R2.
  set (l2 := [Blk base true x; _; _]) in R2.
  destruct (kfree_refines_aux s2 l2 (Blk base true x) R2) as (s3 & E3 & R3 & _);
    [by left|cbn [b_addr]; lia|]. cbn [b_addr] in E3, R3.
  assert (L3 : spec_kfree (base + sizeof_block) l2 = [Blk base false x; Blk (base + 12 + x) true y; rest_block (Blk (base + 12 + x) false (16376 - (x + 12))) y]).
  { apply (spec_kfree_split [] (Blk base true x)). apply R2. }
  rewrite L3 in R3. set (l3 := [Blk base false x; _; _]) in R3.
  assert (F3 : first_fit (x + 12) l3 = Some ([], Blk base false x, [Blk (base + 12 + x) true y; rest_block (Blk (base + 12 + x) false (16376 - (x + 12))) y])).
  { unfold l3. simpl. unfold sizeof_block. rewrite u32_small, Hle by lia. done. }
  destruct (kalloc_refines_aux s3 _ fuel (x + 12) R3) as (s4 & E4 & R4 & _);
    [lia|unfold room; by rewrite F3|simpl; lia|].
  unfold spec_kalloc in E4, R4. rewrite F3 in E4, R4. cbn [fst snd app b_addr] in E4, R4. unfold taken in R4.
  destruct R4 as (_ & _ & _ & _ & [_ HR _ Ht _ _ _] & _). cbn [b_addr type_of b_used] in HR, Ht.
  exists (base + 12), (base + 12 + x + 12), s1, s2, s3, s4.
  split; [done|]. split; [done|]. split; [done|]. split; [done|]. split; [lia|].
  replace (base + 12 + x + 12 - 12) with (base + 12 + x) by lia. split; [|intros i Hi; lia].
  unfold type_at. by rewrite (field_u32 (base + 12 + x) 2) by (done || lia).
Qed.

(** ** RAM for concrete runs: one byte per address, nothing faults *)

#[export] Instance ram_ops : MemOps (gmap Z byte * unit) := {
  rd8 a m := Some (pbyte m.1 a);
  wr8 a v m := Some (<[a := v]> m.1, tt);
}.

Lemma ram_region (R : Z -> Prop) : (forall a, R a -> 0 <= a < 4294967296) ->
  MemRegion (S:=gmap Z byte * unit) (fun _ => True) R.
Proof.
  intros HR. split; [done|by eauto|]. intros s a v _ Ha. simpl. eexists. split; [done|].
  split; [done|]. simpl. split; [by rewrite pbyte_insert_eq|]. intros a' _ Hne. by rewrite pbyte_insert_ne.
Qed.

#[export] Instance heap_ram : MemRegion (S:=gmap Z byte * unit) (fun _ => True) heap_range.
Proof.
  apply ram_region. unfold heap_range. change CONFIG_KERNEL_HEAP_SIZE with 16384.
  unfold heap_pool_addr. lia.
Qed.

Definition ram_heap : gmap Z byte * unit :=
  match initial_block (∅ : gmap Z byte, tt) with Ret _ s => s | _ => (∅, tt) end.
Definition ram_heap1 : gmap Z byte * unit :=
  match kalloc 400 true 40 ram_heap with Ret _ s => s | _ => (∅, tt) end.

Lemma ram_heap_rep : heap_rep (P:=fun _ => True) (R:=heap_range) ram_heap fresh_heap.
Proof.
  destruct (initial_block_rep (P:=fun _ => True) (R:=heap_range) (∅ : gmap Z byte, tt)) as (s' & Hr & Hrep).
  - done.
  - intros i Hi. unfold heap_range. change CONFIG_KERNEL_HEAP_SIZE with 16384. lia.
  - unfold ram_heap. rewrite Hr. exact Hrep.
Qed.

Lemma ram_heap_serves : serves (P:=fun _ => True) 40 ram_heap [].
Proof. apply serves_fresh; [apply ram_heap_rep|lia..]. Qed.

Lemma ram_heap1_serves : serves (P:=fun _ => True) 40 ram_heap1 [heap_pool_addr + 12].
Proof.
  destruct (serves_kalloc (P:=fun _ => True) 40 ram_heap [] 400) as (a & s' & Hr & _ & Hs & _);
    [lia|apply ram_heap_serves|done..|].
  assert (He : kalloc 400 true 40 ram_heap = Ret (heap_pool_addr + 12) ram_heap1) by (vm_compute; reflexivity).
  rewrite Hr in He. apply ret_inj in He as [Ha Hs']. rewrite Ha, Hs' in Hs. exact Hs.
Qed.

Lemma kalloc_refines_witness :
  exists s', kalloc 2 true 100 ram_heap = Ret (fst (spec_kalloc 100 fresh_heap)) s' /\
    heap_rep (P:=fun _ => True) (R:=heap_range) s' (snd (spec_kalloc 100 fresh_heap)) /\
    forall a, heap_range a -> ~ touched 100 fresh_heap a -> rd8 a s' = rd8 a ram_heap.
Proof.
  apply (kalloc_refines (fun _ => True) heap_range heap_ram ram_heap fresh_heap 2 100).
  - apply ram_heap_rep.
  - lia.
  - unfold room. change (first_fit 100 fresh_heap) with (Some ([] : list blk, Blk heap_pool_addr false 16376, [] : list blk)).
    cbv iota. cbn [b_addr]. intros i Hi. unfold heap_range. change CONFIG_KERNEL_HEAP_SIZE with 16384. lia.
  - simpl. lia.
Defined.

Lemma kalloc_uniform_safe_witness :
  exists a s', kalloc 400 true 40 ram_heap1 = Ret a s' /\
    serves (P:=fun _ => True) 40 s' [a; heap_pool_addr + 12] /\
    heap_pool_addr <= a /\ a + 40 <= heap_pool_addr + CONFIG_KERNEL_HEAP_SIZE /\
    (forall x, x ∈ [heap_pool_addr + 12] -> disjoint_payloads 40 a x) /\
    (forall x i, x ∈ [heap_pool_addr + 12] -> 0 <= i < 40 -> rd8 (x + i) s' = rd8 (x + i) ram_heap1).
Proof.
  apply (kalloc_uniform_safe (fun _ => True) heap_ram 40 ram_heap1 [heap_pool_addr + 12] 400);
    [lia|apply ram_heap1_serves|done|done].
Defined.

Lemma kfree_releases_witness :
  exists s' live', kfree true (heap_pool_addr + 12) ram_heap1 = Ret tt s' /\
    [heap_pool_addr + 12] ≡ₚ heap_pool_addr + 12 :: live' /\ serves (P:=fun _ => True) 40 s' live' /\
    forall y i, y ∈ [heap_pool_addr + 12] -> 0 <= i < 40 -> rd8 (y + i) s' = rd8 (y + i) ram_heap1.
Proof.
  apply (kfree_releases (fun _ => True) heap_ram 40 ram_heap1 [heap_pool_addr + 12] (heap_pool_addr + 12));
    [lia|apply ram_heap1_serves|by left].
Defined.

Lemma kalloc_reuse_covers_header_witness :
  exists p q s1 s2 s3 s4,
    kalloc 4 true 20 ram_heap = Ret p s1 /\ kalloc 4 true 20 s1 = Ret q s2 /\
    kfree true p s2 = Ret tt s3 /\ kalloc 4 true (20 + 12) s3 = Ret p s4 /\
    q - 12 = p + 20 /\ load8 (type_at (q - 12)) s4 = Ret BLOCK_USED s4 /\
    forall i, 0 <= i < 12 -> p <= q - 12 + i < p + (20 + 12).
Proof.
  apply (kalloc_reuse_covers_header (fun _ => True) heap_ram ram_heap 20 20 4);
    [apply ram_heap_rep|lia|lia|done|lia].
Defined.
