(* ===== verification/Queue.v ===== *)
(** * Queue.v: singly-linked tail queues (include/queue.h, the STAILQ macros)

    The kernel keeps waiting messages in them.  A head is two words of memory, the first
    element and the address of the last "next" word, which is the head's own
    first word when the queue is empty; an element carries its "next" word at
    a fixed offset.  The macros run on any memory; [queue_rep] relates memory
    to the list of queued elements. *)

From S2P Require Import Prelude Memory.

Section Stailq.
Context {S : Type} `{MemOps S}.
(** Offset of [field.stqe_next] in an element. *)
Variable field : Z.

Definition stqh_first (head : Z) : Z := head.
Definition stqh_last (head : Z) : Z := head +w 4.
Definition stqe_next (elm : Z) : Z := elm +w field.

Definition STAILQ_FIRST (head : Z) : M S Z := load32 (stqh_first head).
Definition STAILQ_EMPTY (head : Z) : M S bool :=
  first ← load32 (stqh_first head); mret (first =? 0).
Definition STAILQ_NEXT (elm : Z) : M S Z := load32 (stqe_next elm).

Definition STAILQ_INIT (head : Z) : M S unit :=
  store32 (stqh_first head) 0 ≫= fun _ => store32 (stqh_last head) (stqh_first head).

Definition STAILQ_INSERT_HEAD (head elm : Z) : M S unit :=
  first ← STAILQ_FIRST head;
  store32 (stqe_next elm) first ≫= fun _ =>
  (if first =? 0 then store32 (stqh_last head) (stqe_next elm) else mret tt) ≫= fun _ =>
  store32 (stqh_first head) elm.

Definition STAILQ_INSERT_TAIL (head elm : Z) : M S unit :=
  store32 (stqe_next elm) 0 ≫= fun _ =>
  last ← load32 (stqh_last head);
  store32 last elm ≫= fun _ =>
  store32 (stqh_last head) (stqe_next elm).

Definition STAILQ_REMOVE_HEAD (head : Z) : M S unit :=
  first ← STAILQ_FIRST head;
  next ← STAILQ_NEXT first;
  store32 (stqh_first head) next ≫= fun _ =>
  if next =? 0 then store32 (stqh_last head) (stqh_first head) else mret tt.

Definition STAILQ_INSERT_AFTER (head tqelm elm : Z) : M S unit :=
  next ← STAILQ_NEXT tqelm;
  store32 (stqe_next elm) next ≫= fun _ =>
  (if next =? 0 then store32 (stqh_last head) (stqe_next elm) else mret tt) ≫= fun _ =>
  store32 (stqe_next tqelm) elm.

Definition STAILQ_REMOVE_AFTER (head elm : Z) : M S unit :=
  after ← STAILQ_NEXT elm;
  next ← STAILQ_NEXT after;
  store32 (stqe_next elm) next ≫= fun _ =>
  if next =? 0 then store32 (stqh_last head) (stqe_next elm) else mret tt.

(** [while (STAILQ_NEXT(curelm, field) != (elm))]; the trace macros are empty *)
Fixpoint find_before (fuel : nat) (curelm elm : Z) : M S Z :=
  match fuel with
  | O => nofuel
  | Datatypes.S fuel' =>
      next ← STAILQ_NEXT curelm;
      if next =? elm then mret curelm else find_before fuel' next elm
  end.
Definition STAILQ_REMOVE (fuel : nat) (head elm : Z) : M S unit :=
  first ← STAILQ_FIRST head;
  if first =? elm then STAILQ_REMOVE_HEAD head
  else curelm ← find_before fuel first elm; STAILQ_REMOVE_AFTER head curelm.

Definition STAILQ_LAST (head : Z) : M S Z :=
  empty ← STAILQ_EMPTY head;
  if (empty : bool) then mret 0 else last ← load32 (stqh_last head); mret (last -w field).

Definition STAILQ_CONCAT (head1 head2 : Z) : M S unit :=
  empty ← STAILQ_EMPTY head2;
  if (empty : bool) then mret tt
  else
    last ← load32 (stqh_last head1);
    first ← STAILQ_FIRST head2;
    store32 last first ≫= fun _ =>
    last2 ← load32 (stqh_last head2);
    store32 (stqh_last head1) last2 ≫= fun _ => STAILQ_INIT head2.

(** The end of STAILQ_SWAP: an empty queue's last slot is in its own head. *)
Definition reset_if_empty (head : Z) : M S unit :=
  empty ← STAILQ_EMPTY head;
  if (empty : bool) then store32 (stqh_last head) (stqh_first head) else mret tt.

Definition STAILQ_SWAP (head1 head2 : Z) : M S unit :=
  swap_first ← STAILQ_FIRST head1;
  swap_last ← load32 (stqh_last head1);
  first2 ← STAILQ_FIRST head2;
  store32 (stqh_first head1) first2 ≫= fun _ =>
  last2 ← load32 (stqh_last head2);
  store32 (stqh_last head1) last2 ≫= fun _ =>
  store32 (stqh_first head2) swap_first ≫= fun _ =>
  store32 (stqh_last head2) swap_last ≫= fun _ =>
  reset_if_empty head1 ≫= fun _ => reset_if_empty head2.

(** The elements STAILQ_FOREACH visits. *)
Fixpoint foreach_from (fuel : nat) (var : Z) : M S (list Z) :=
  match fuel with
  | O => nofuel
  | Datatypes.S fuel' =>
      if var =? 0 then mret []
      else next ← STAILQ_NEXT var; rest ← foreach_from fuel' next; mret (var :: rest)
  end.
Definition STAILQ_FOREACH (fuel : nat) (head : Z) : M S (list Z) :=
  first ← STAILQ_FIRST head; foreach_from fuel first.
Definition STAILQ_FOREACH_FROM (fuel : nat) (var head : Z) : M S (list Z) :=
  if negb (var =? 0) then foreach_from fuel var else STAILQ_FOREACH fuel head.

(** STAILQ_FOREACH_SAFE reads an element's link before the loop's body, which
    may remove or reuse the element. *)
Fixpoint foreach_safe_from (fuel : nat) (body : Z -> M S unit) (var : Z) : M S (list Z) :=
  match fuel with
  | O => nofuel
  | Datatypes.S fuel' =>
      if var =? 0 then mret []
      else tvar ← STAILQ_NEXT var;
           body var ≫= fun _ => rest ← foreach_safe_from fuel' body tvar; mret (var :: rest)
  end.
Definition STAILQ_FOREACH_SAFE (fuel : nat) (head : Z) (body : Z -> M S unit) : M S (list Z) :=
  first ← STAILQ_FIRST head; foreach_safe_from fuel body first.
Definition STAILQ_FOREACH_FROM_SAFE (fuel : nat) (var head : Z) (body : Z -> M S unit) : M S (list Z) :=
  if negb (var =? 0) then foreach_safe_from fuel body var else STAILQ_FOREACH_SAFE fuel head body.
End Stailq.

(** ** Words of memory *)

Section Words.
Context {S : Type} `{MO : MemOps S} {P : S -> Prop} {R : Z -> Prop} `{MR : !MemRegion P R}.

Definition word (s : S) (a v : Z) : Prop := load32 a s = Ret v s.

(** Everything of the region outside the word at [a] is as before. *)
Definition except4 (X : Z -> Prop) (s s' : S) : Prop :=
  P s' /\ forall a', R a' -> ~ X a' -> rd8 a' s' = rd8 a' s.

Lemma store32_word s a v : P s -> span R a 4 -> 0 <= v < 4294967296 ->
  exists s', store32 a v s = Ret tt s' /\ word s' a v /\ except4 (fun x => a <= x < a + 4) s s'.
Proof using MR.
  intros HP HR Hv. destruct (storen_ok 4 s a v HP HR) as (s' & Hs & HP' & Hl & Hf).
  exists s'. split; [done|]. split; [|done]. unfold word, load32. rewrite Hl. by rewrite Z.mod_small.
Qed.

Lemma word_except X s s' a v : P s -> except4 X s s' -> span R a 4 ->
  (forall i, 0 <= i < 4 -> ~ X (a + i)) -> word s a v -> word s' a v.
Proof using MR.
  intros HP [_ Hf] HR Hx Hw. apply (loadn_ext 4 s s' a); try done.
  intros i Hi. apply Hf; [by apply HR|by apply Hx].
Qed.

Lemma except4_trans X Y s1 s2 s3 : except4 X s1 s2 -> except4 Y s2 s3 ->
  except4 (fun a => X a \/ Y a) s1 s3.
Proof. intros [_ H1] [HP H2]. split; [done|]. intros a Ha Hn. rewrite H2, H1 by tauto. done. Qed.

Lemma except4_weaken X Y s1 s2 : except4 X s1 s2 -> (forall a, X a -> Y a) -> except4 Y s1 s2.
Proof. intros [HP H1] H. split; [done|]. intros a Ha Hn. apply H1; [done|]. auto. Qed.
End Words.

(** ** Queues in memory *)

(** A word outside the written range keeps its value; [HP] is the region
    predicate of the state before, [HX] the write. *)
Ltac kept HP HX :=
  eapply (word_except _ _ _ _ _ HP HX);
    [assumption | cbv beta; unfold not; intros; lia | assumption].

Section QueueRep.
Context {S : Type} `{MO : MemOps S} {P : S -> Prop} {R : Z -> Prop} `{MR : !MemRegion P R}.
Variable field : Z.

Definition first_of (n : Z) (l : list Z) : Z := match l with [] => n | e :: _ => e end.

(** The "next" words of the elements of [l] link them in order, the last
    one to [n]. *)
Fixpoint links (s : S) (n : Z) (l : list Z) : Prop :=
  match l with
  | [] => True
  | e :: l' => word s (e + field) (first_of n l') /\ links s n l'
  end.

Definition last_slot (head : Z) (l : list Z) : Z :=
  match list.last l with Some e => e + field | None => head end.

(** The words of the elements do not overlap one another or the head. *)
Definition off4 (a b : Z) : Prop := a + 4 <= b \/ b + 4 <= a.
Record separate (head : Z) (l : list Z) : Prop := {
  sep_head : span R head 8;
  sep_elm : forall e, e ∈ l -> 0 < e < 4294967296 /\ span R (e + field) 4 /\
              (e + field + 4 <= head \/ head + 8 <= e + field);
  sep_pair : forall i j e e', l !! i = Some e -> l !! j = Some e' -> i <> j ->
              off4 (e + field) (e' + field);
}.

Record queue_rep (s : S) (head : Z) (l : list Z) : Prop := {
  q_P : P s;
  q_sep : separate head l;
  q_first : word s head (first_of 0 l);
  q_last : word s (head + 4) (last_slot head l);
  q_links : links s 0 l;
}.

Lemma links_except X s s' n l : P s -> except4 (P:=P) (R:=R) X s s' ->
  (forall e, e ∈ l -> span R (e + field) 4 /\ forall i, 0 <= i < 4 -> ~ X (e + field + i)) ->
  links s n l -> links s' n l.
Proof using MR.
  intros HP Hx. induction l as [|e l IH]; simpl; [done|]. intros Hl [Hw Hls]. split.
  - destruct (Hl e) as [HR Hnx]; [set_solver|]. eapply word_except; done.
  - apply IH; [|done]. intros e' He'. apply Hl. set_solver.
Qed.

Ltac kept_links HP HX := eapply (links_except _ _ _ _ _ HP HX); [|assumption]; cbv beta; unfold not.

Lemma slot_u32 a : span R a 4 -> u32 a = a.
Proof using MR. intros HR. apply u32_small, region_u32. by apply (span_head a 3). Qed.

Lemma head_spans head : span R head 8 -> span R head 4 /\ span R (head + 4) 4 /\ u32 (head + 4) = head + 4.
Proof using MR.
  intros HR. assert (H1 : span R head 4) by (intros i Hi; apply HR; lia).
  assert (H2 : span R (head + 4) 4) by (intros i Hi; rewrite <- Z.add_assoc; apply HR; lia).
  split; [done|]. split; [done|]. by apply slot_u32.
Qed.

Lemma links_snoc s n l x : links s n (l ++ [x]) <-> links s x l /\ word s (x + field) n.
Proof.
  induction l as [|e l IH]; simpl; [tauto|]. rewrite IH.
  assert (He : first_of n (l ++ [x]) = first_of x l) by (by destruct l). rewrite He. tauto.
Qed.

Lemma separate_last head l x : separate head (l ++ [x]) ->
  separate head l /\ forall e, e ∈ l -> off4 (e + field) (x + field).
Proof.
  intros [Hh He Hp]. split; [split; [done| |]|].
  - intros e Hin. apply He. set_solver.
  - intros i j e e' Hi Hj. apply (Hp i j e e').
    + by apply lookup_app_l_Some.
    + by apply lookup_app_l_Some.
  - intros e [i Hi]%list_elem_of_lookup. apply (Hp i (length l)).
    + by apply lookup_app_l_Some.
    + by rewrite lookup_app_r, Nat.sub_diag by lia.
    + apply lookup_lt_Some in Hi. lia.
Qed.

Lemma last_slot_snoc head l x : last_slot head (l ++ [x]) = x + field.
Proof. unfold last_slot. by rewrite last_snoc. Qed.

(** The words of a queue: its head and the links of its elements *)
Definition queue_words (head : Z) (l : list Z) (a : Z) : Prop :=
  head <= a < head + 8 \/ exists e, e ∈ l /\ e + field <= a < e + field + 4.

Lemma queue_insert_tail s head l e : queue_rep s head l -> separate head (l ++ [e]) ->
  exists s', STAILQ_INSERT_TAIL field head e s = Ret tt s' /\ queue_rep s' head (l ++ [e]) /\
    except4 (P:=P) (R:=R) (queue_words head (l ++ [e])) s s'.
Proof using MR.
  intros [HP Hsep Hfst Hlst Hlk] Hs2. destruct (separate_last head l e Hs2) as [_ Hoff].
  destruct (head_spans head (sep_head _ _ Hsep)) as (HR1 & HR2 & Hu4).
  destruct (sep_elm _ _ Hs2 e) as (He0 & HRe & Hdis); [set_solver|].
  destruct (store32_word s (e + field) 0 HP HRe) as (s1 & Es1 & Ws1 & Xs1); [lia|].
  pose proof (proj1 Xs1) as HP1.
  assert (Hl1 : word s1 (head + 4) (last_slot head l)) by (kept HP Xs1).
  assert (Hf1 : word s1 head (first_of 0 l)) by (kept HP Xs1).
  assert (Hlk1 : links s1 0 l).
  { kept_links HP Xs1. intros x Hx. split; [by apply (sep_elm _ _ Hsep)|].
    pose proof (Hoff x Hx). unfold off4 in *. intros; lia. }
  assert (Hend : exists s2, store32 (last_slot head l) e s1 = Ret tt s2 /\ P s2 /\
            word s2 (e + field) 0 /\ word s2 head (first_of e l) /\ links s2 e l /\
            except4 (P:=P) (R:=R) (queue_words head (l ++ [e])) s1 s2).
  { destruct (decide (l = [])) as [->|Hne].
    - destruct (store32_word s1 head e HP1 HR1) as (s2 & Es2 & Ws2 & Xs2); [lia|].
      exists s2. split; [done|]. split; [apply Xs2|]. split; [|split; [done|split; [done|]]].
      + kept HP1 Xs2.
      + apply (except4_weaken _ _ _ _ Xs2). intros a Ha. left. lia.
    - destruct (exists_last Hne) as (l0 & x & ->). rewrite last_slot_snoc.
      destruct (separate_last head l0 x Hsep) as [Hsep0 Hoff0].
      apply links_snoc in Hlk1 as [Hlk0 Hwx].
      destruct (sep_elm _ _ Hsep x) as (Hx0 & HRx & Hdx); [set_solver|].
      destruct (store32_word s1 (x + field) e HP1 HRx) as (s2 & Es2 & Ws2 & Xs2); [lia|].
      pose proof (Hoff x ltac:(set_solver)) as Hxe. unfold off4 in *.
      exists s2. split; [done|]. split; [apply Xs2|]. split; [kept HP1 Xs2|].
      split; [|split; [apply links_snoc; split; [|done]|]].
      + replace (first_of e (l0 ++ [x])) with (first_of 0 (l0 ++ [x])) by (by destruct l0).
        kept HP1 Xs2.
      + kept_links HP1 Xs2. intros y Hy. split; [by apply (sep_elm _ _ Hsep0)|].
        pose proof (Hoff0 y Hy). intros; lia.
      + apply (except4_weaken _ _ _ _ Xs2). intros a Ha. right. exists x. split; [set_solver|done]. }
  destruct Hend as (s2 & Es2 & HP2 & We2 & Wf2 & Lk2 & Xs2).
  assert (Hre : 0 <= e + field < 4294967296) by (apply region_u32; by apply (span_head _ 3)).
  destruct (store32_word s2 (head + 4) (e + field) HP2 HR2 Hre) as (s3 & Es3 & Ws3 & Xs3).
  exists s3. split.
  { unfold STAILQ_INSERT_TAIL, stqe_next, stqh_last. rewrite (slot_u32 (e + field)), Hu4 by done.
    rewrite (bind_Ret _ _ _ _ _ Es1), (bind_Ret _ _ _ _ _ Hl1), (bind_Ret _ _ _ _ _ Es2). exact Es3. }
  split.
  2:{ eapply except4_weaken; [exact (except4_trans _ _ _ _ _ (except4_trans _ _ _ _ _ Xs1 Xs2) Xs3)|].
      intros a [[Ha|Ha]|Ha]; [right; exists e; split; [set_solver|done]|done|left; lia]. }
  split; [apply Xs3|done| | |].
  - replace (first_of 0 (l ++ [e])) with (first_of e l) by (by destruct l).
    kept HP2 Xs3.
  - by rewrite last_slot_snoc.
  - apply links_snoc. split.
    + kept_links HP2 Xs3. intros x Hx. destruct (sep_elm _ _ Hsep x Hx) as (_ & HRx & Hd).
      split; [done|]. intros; lia.
    + kept HP2 Xs3.
Qed.

Lemma separate_tail head e l : separate head (e :: l) ->
  separate head l /\ forall x, x ∈ l -> off4 (e + field) (x + field).
Proof.
  intros [Hh He Hp]. split; [split; [done| |]|].
  - intros x Hin. apply He. set_solver.
  - intros i j x x' Hi Hj Hne. apply (Hp (Datatypes.S i) (Datatypes.S j) x x'); [done|done|lia].
  - intros x [i Hi]%list_elem_of_lookup. apply (Hp 0%nat (Datatypes.S i)); done.
Qed.

Lemma queue_init s head : P s -> span R head 8 -> 0 < head ->
  exists s', STAILQ_INIT head s = Ret tt s' /\ queue_rep s' head [] /\
    except4 (P:=P) (R:=R) (fun a => head <= a < head + 4 \/ head + 4 <= a < head + 4 + 4) s s'.
Proof using MR.
  intros HP HR Hh. destruct (head_spans head HR) as (HR1 & HR2 & Hu4).
  pose proof (region_u32 _ (span_head _ 3 HR1)).
  destruct (store32_word s head 0 HP HR1) as (s1 & Es1 & Ws1 & Xs1); [lia|].
  pose proof (proj1 Xs1) as HP1.
  destruct (store32_word s1 (head + 4) head HP1 HR2) as (s2 & Es2 & Ws2 & Xs2); [lia|].
  exists s2. split.
  { unfold STAILQ_INIT, stqh_first, stqh_last. rewrite Hu4, (bind_Ret _ _ _ _ _ Es1). exact Es2. }
  split; [|by apply (except4_trans _ _ s s1 s2)].
  split; try done; [apply Xs2| |].
  - split; [done|set_solver|]. intros i j e e' Hi. by rewrite lookup_nil in Hi.
  - kept HP1 Xs2.
Qed.

Lemma queue_first s head l : queue_rep s head l ->
  STAILQ_FIRST head s = Ret (first_of 0 l) s /\
  STAILQ_EMPTY head s = Ret (bool_decide (l = [])) s.
Proof.
  intros [HP Hsep Hfst _ _]. split; [exact Hfst|]. unfold STAILQ_EMPTY.
  rewrite (bind_Ret _ _ _ _ _ Hfst). unfold mret, M_ret. f_equal. destruct l as [|e l]; [done|].
  destruct (sep_elm _ _ Hsep e) as (He & _); [set_solver|]. cbn [first_of].
  destruct (Z.eqb_spec e 0); [lia|]. by rewrite bool_decide_eq_false_2.
Qed.

(** *** At any place of the queue

    [leads s head l x]: from the head through [l] one gets to [x].  Its end is
    the word every insertion and removal behind [l] writes. *)
Definition leads (s : S) (head : Z) (l : list Z) (x : Z) : Prop :=
  word s head (first_of x l) /\ links s x l.

Lemma links_app s n l1 l2 : links s n (l1 ++ l2) <-> links s (first_of n l2) l1 /\ links s n l2.
Proof.
  induction l1 as [|e l1 IH]; cbn [links app]; [tauto|]. rewrite IH.
  replace (first_of n (l1 ++ l2)) with (first_of (first_of n l2) l1) by (by destruct l1). tauto.
Qed.

Lemma first_of_app n l1 l2 : first_of n (l1 ++ l2) = first_of (first_of n l2) l1.
Proof. by destruct l1. Qed.

Lemma separate_sub head l1 l l2 : separate head (l1 ++ l ++ l2) -> separate head (l1 ++ l2).
Proof.
  intros [Hh He Hp]. split; [done| |].
  - intros e Hin. apply He. set_solver.
  - intros i j e e' Hi Hj Hne.
    assert (Hpos : forall i e, (l1 ++ l2) !! i = Some e ->
              (l1 ++ l ++ l2) !! (if decide (i < length l1)%nat then i else i + length l)%nat = Some e).
    { intros k x Hk. case_decide as Hd; [by rewrite lookup_app_l in Hk |- *|].
      rewrite lookup_app_r in Hk by lia. rewrite lookup_app_r by lia. rewrite lookup_app_r by lia.
      rewrite <- Hk. f_equal. lia. }
    apply (Hp _ _ e e' (Hpos i e Hi) (Hpos j e' Hj)). repeat case_decide; lia.
Qed.

Lemma separate_off head pre e post x : separate head (pre ++ e :: post) -> x ∈ pre ++ post -> off4 (e + field) (x + field).
Proof.
  intros [_ _ Hp] Hx. apply list_elem_of_lookup in Hx as [i Hi].
  apply (Hp (length pre) (if decide (i < length pre)%nat then i else Datatypes.S i) e x).
  - by rewrite lookup_app_r, Nat.sub_diag by lia.
  - case_decide; [by rewrite lookup_app_l in Hi |- *|]. rewrite lookup_app_r in Hi by lia.
    rewrite lookup_app_r by lia. rewrite <- Hi. replace (Datatypes.S i - length pre)%nat with (Datatypes.S (i - length pre)) by lia. done.
  - case_decide; lia.
Qed.

Lemma leads_word s head l x : leads s head l x -> word s (last_slot head l) x.
Proof.
  intros [Hf Hl]. destruct (decide (l = [])) as [->|Hne]; [exact Hf|].
  destruct (exists_last Hne) as (l0 & e & ->). rewrite last_slot_snoc. by apply links_snoc in Hl as [_ ?].
Qed.

(** The word at the end of [leads], and where it lies *)
Lemma last_slot_span head l : separate head l -> span R (last_slot head l) 4 /\
  (last_slot head l = head /\ l = [] \/ exists e, e ∈ l /\ last_slot head l = e + field).
Proof using MR.
  intros Hs. destruct (decide (l = [])) as [->|Hne]; [split; [by apply head_spans, Hs|by left]|].
  destruct (exists_last Hne) as (l0 & e & ->). rewrite last_slot_snoc.
  split; [apply (sep_elm _ _ Hs); set_solver|]. right. exists e. set_solver.
Qed.

Lemma leads_except X s s' head l x : P s -> except4 (P:=P) (R:=R) X s s' -> separate head l ->
  (forall i, 0 <= i < 4 -> ~ X (head + i)) ->
  (forall e, e ∈ l -> forall i, 0 <= i < 4 -> ~ X (e + field + i)) -> leads s head l x -> leads s' head l x.
Proof using MR.
  intros HP Hx Hs Hh He [Hf Hl]. split.
  - eapply word_except; try done. by apply head_spans, Hs.
  - eapply links_except; try done. intros e Hin. split; [by apply (sep_elm _ _ Hs)|by apply He].
Qed.

(** Writing that word leads to another element. *)
Lemma leads_store s head l x y : P s -> separate head l -> leads s head l x -> 0 <= y < 4294967296 ->
  exists s', store32 (last_slot head l) y s = Ret tt s' /\ leads s' head l y /\
    except4 (P:=P) (R:=R) (fun a => last_slot head l <= a < last_slot head l + 4) s s'.
Proof using MR.
  intros HP Hs Hl Hy. destruct (last_slot_span head l Hs) as [HR Hwh].
  destruct (store32_word s (last_slot head l) y HP HR Hy) as (s' & Es & Ws & Xs). exists s'. split; [done|]. split; [|done].
  destruct (decide (l = [])) as [->|Hne]; [by split|].
  destruct (exists_last Hne) as (l0 & e & ->). rewrite last_slot_snoc in *. destruct Hl as [Hf Hk].
  apply links_snoc in Hk as [Hk _]. destruct (separate_last head l0 e Hs) as [Hs0 Hoff].
  destruct (sep_elm _ _ Hs e) as (He0 & _ & Hd); [set_solver|].
  destruct (leads_except _ s s' head l0 e HP Xs Hs0) as [Hf' Hk'].
  - intros; lia.
  - intros z Hz. pose proof (Hoff z Hz). unfold off4 in *. intros; lia.
  - split; [|done]. rewrite first_of_app in Hf. exact Hf.
  - split; [by rewrite first_of_app|]. apply links_snoc. by split.
Qed.

Lemma queue_leads s head l : queue_rep s head l <->
  P s /\ separate head l /\ leads s head l 0 /\ word s (head + 4) (last_slot head l).
Proof using. split; [intros [H1 H2 H3 H4 H5]; done|intros (H1 & H2 & [H3 H5] & H4); by split]. Qed.

(** The end of [l1] does not overlap the words behind it. *)
Lemma slot_off head l1 l2 x : separate head (l1 ++ l2) -> x ∈ l2 -> off4 (last_slot head l1) (x + field).
Proof using MR.
  intros Hs Hx. assert (Hs1 : separate head l1).
  { pose proof (separate_sub head l1 l2 []) as H1. rewrite !app_nil_r in H1. by apply H1. }
  destruct (last_slot_span head l1 Hs1) as [_ [[-> _]|(e & He & ->)]].
  - destruct (sep_elm _ _ Hs x) as (_ & _ & Hd); [set_solver|]. unfold off4. lia.
  - apply list_elem_of_lookup in He as [n Hn]. apply list_elem_of_lookup in Hx as [m Hm].
    apply (sep_pair _ _ Hs n (length l1 + m) e x).
    + by apply lookup_app_l_Some.
    + by rewrite lookup_app_r, Nat.add_comm, Nat.add_sub by lia.
    + apply lookup_lt_Some in Hn. lia.
Qed.

Lemma slot_off_last head l : separate head l -> off4 (last_slot head l) (head + 4).
Proof using MR.
  intros Hs. destruct (last_slot_span head l Hs) as [_ [[-> _]|(e & He & ->)]]; unfold off4; [lia|].
  destruct (sep_elm _ _ Hs e He) as (_ & _ & Hd). lia.
Qed.

Lemma last_slot_app head l1 l2 : l2 <> [] -> last_slot head (l1 ++ l2) = last_slot head l2.
Proof. intros Hne. destruct (exists_last Hne) as (l0 & e & ->). by rewrite app_assoc, !last_slot_snoc. Qed.

Lemma last_slot_cons head e l : l <> [] -> last_slot head (e :: l) = last_slot head l.
Proof. intros Hne. exact (last_slot_app head [e] l Hne). Qed.

Lemma first_of_range head l : separate head l -> 0 <= first_of 0 l < 4294967296 /\ (first_of 0 l = 0 <-> l = []).
Proof.
  intros Hs. destruct l as [|x l]; cbn [first_of]; [split; [lia|done]|].
  destruct (sep_elm _ _ Hs x) as (Hx & _); [set_solver|]. split; [lia|]. split; [lia|done].
Qed.

Lemma separate_parts head pre post : separate head (pre ++ post) -> separate head pre /\ separate head post.
Proof.
  intros Hs. split.
  - pose proof (separate_sub head pre post []) as H1. rewrite !app_nil_r in H1. by apply H1.
  - by apply (separate_sub head [] pre post).
Qed.

Lemma queue_splice_in s head pre e post : queue_rep s head (pre ++ post) -> separate head (pre ++ e :: post) ->
  exists s', (store32 (e + field) (first_of 0 post) ≫= fun _ =>
     (if first_of 0 post =? 0 then store32 (head + 4) (e + field) else mret tt) ≫= fun _ =>
     store32 (last_slot head pre) e) s = Ret tt s' /\ queue_rep s' head (pre ++ e :: post).
Proof using MR.
  intros (HP & Hs & [Hf Hk] & Hlast)%queue_leads Hs2. apply links_app in Hk as [Hk Hpost]. rewrite first_of_app in Hf.
  destruct (separate_parts _ _ _ Hs) as [Hs1 Hsp]. destruct (first_of_range head post Hsp) as [Hfr Hnil].
  destruct (head_spans head (sep_head _ _ Hs)) as (HR1 & HR2 & _).
  destruct (sep_elm _ _ Hs2 e) as (He0 & HRe & Hd); [set_solver|].
  assert (Hoff : forall x, x ∈ pre ++ post -> off4 (e + field) (x + field)) by (intros x; by apply (separate_off head)).
  destruct (store32_word s (e + field) _ HP HRe Hfr) as (s1 & Es1 & We1 & Xs1). pose proof (proj1 Xs1) as HP1.
  assert (L1 : leads s1 head pre (first_of 0 post)).
  { apply (leads_except _ s s1 head pre _ HP Xs1 Hs1); [intros; lia| |by split].
    intros x Hx. pose proof (Hoff x ltac:(set_solver)). unfold off4 in *. intros; lia. }
  assert (K1 : links s1 0 post).
  { kept_links HP Xs1. intros x Hx. split; [by apply (sep_elm _ _ Hsp)|].
    pose proof (Hoff x ltac:(set_solver)). unfold off4 in *. intros; lia. }
  assert (Hre : 0 <= e + field < 4294967296) by (apply region_u32; by apply (span_head _ 3)).
  assert (Hmid : exists s2, (if first_of 0 post =? 0 then store32 (head + 4) (e + field) else mret tt) s1 = Ret tt s2 /\
     P s2 /\ leads s2 head pre (first_of 0 post) /\ links s2 0 post /\ word s2 (e + field) (first_of 0 post) /\
     word s2 (head + 4) (last_slot head (pre ++ e :: post))).
  { destruct (Z.eqb_spec (first_of 0 post) 0) as [E|Hne].
    - apply Hnil in E as ->. destruct (store32_word s1 (head + 4) (e + field) HP1 HR2 Hre) as (s2 & Es2 & W2 & Xs2).
      exists s2. split; [done|]. split; [apply Xs2|]. split.
      + apply (leads_except _ s1 s2 head pre _ HP1 Xs2 Hs1); [intros; lia| |done].
        intros x Hx. destruct (sep_elm _ _ Hs1 x Hx) as (_ & _ & Hdx). intros; lia.
      + split; [done|]. split; [kept HP1 Xs2|by rewrite last_slot_snoc].
    - exists s1. split; [done|]. do 4 (split; [done|]). rewrite last_slot_app, last_slot_cons by (done || by intros ->; apply Hne).
      rewrite last_slot_app in Hlast by (by intros ->; apply Hne). kept HP Xs1. }
  destruct Hmid as (s2 & Es2 & HP2 & L2 & K2 & We2 & Wl2).
  destruct (leads_store s2 head pre _ e HP2 Hs1 L2) as (s3 & Es3 & L3 & Xs3); [lia|].
  pose proof (slot_off_last head pre Hs1) as O1. assert (O2 : forall x, x ∈ e :: post -> off4 (last_slot head pre) (x + field))
    by (intros x; by apply slot_off). unfold off4 in *.
  exists s3. split; [by rewrite (bind_Ret _ _ _ _ _ Es1), (bind_Ret _ _ _ _ _ Es2)|]. apply queue_leads.
  split; [apply Xs3|]. split; [done|]. split; [|kept HP2 Xs3]. destruct L3 as [Hf3 Hk3]. split; [by rewrite first_of_app|].
  apply links_app. split; [exact Hk3|]. cbn [links]. split.
  - pose proof (O2 e ltac:(set_solver)). kept HP2 Xs3.
  - kept_links HP2 Xs3. intros x Hx. split; [by apply (sep_elm _ _ Hsp)|]. pose proof (O2 x ltac:(set_solver)). intros; lia.
Qed.

Lemma queue_splice_out s head pre e post : queue_rep s head (pre ++ e :: post) ->
  exists s', (store32 (last_slot head pre) (first_of 0 post) ≫= fun _ =>
     if first_of 0 post =? 0 then store32 (head + 4) (last_slot head pre) else mret tt) s = Ret tt s' /\
    queue_rep s' head (pre ++ post) /\
    except4 (P:=P) (R:=R) (fun a => last_slot head pre <= a < last_slot head pre + 4 \/ head + 4 <= a < head + 4 + 4) s s'.
Proof using MR.
  intros (HP & Hs & [Hf Hk] & Hlast)%queue_leads. apply links_app in Hk as [Hk [_ Hpost]]. rewrite first_of_app in Hf.
  destruct (separate_parts _ _ _ Hs) as [Hs1 Hsep]. pose proof (separate_sub head pre [e] post Hs) as Hs'.
  destruct (separate_parts _ _ _ Hs') as [_ Hsp]. destruct (first_of_range head post Hsp) as [Hfr Hnil].
  destruct (head_spans head (sep_head _ _ Hs)) as (HR1 & HR2 & _).
  destruct (leads_store s head pre _ (first_of 0 post) HP Hs1 (conj Hf Hk) Hfr) as (s1 & Es1 & L1 & Xs1).
  pose proof (proj1 Xs1) as HP1. pose proof (slot_off_last head pre Hs1) as O1.
  assert (O2 : forall x, x ∈ post -> off4 (last_slot head pre) (x + field)) by (intros x; by apply slot_off). unfold off4 in *.
  assert (K1 : links s1 0 post).
  { kept_links HP Xs1. intros x Hx. split; [by apply (sep_elm _ _ Hsp)|]. pose proof (O2 x Hx). intros; lia. }
  rewrite (bind_Ret _ _ _ _ _ Es1). destruct (Z.eqb_spec (first_of 0 post) 0) as [E|Hne].
  - apply Hnil in E as ->. destruct (last_slot_span head pre Hs1) as [HRl _].
    assert (Hrl : 0 <= last_slot head pre < 4294967296) by (apply region_u32; by apply (span_head _ 3)).
    destruct (store32_word s1 (head + 4) _ HP1 HR2 Hrl) as (s2 & Es2 & W2 & Xs2). exists s2. split; [done|].
    split; [|by apply (except4_trans _ _ s s1 s2)]. rewrite app_nil_r in *. apply queue_leads. split; [apply Xs2|]. split; [done|]. split; [|done].
    apply (leads_except _ s1 s2 head pre _ HP1 Xs2 Hs1); [intros; lia| |done].
    intros x Hx. destruct (sep_elm _ _ Hs1 x Hx) as (_ & _ & Hdx). intros; lia.
  - exists s1. split; [done|]. split; [|apply (except4_weaken _ _ _ _ Xs1); tauto]. apply queue_leads. split; [done|]. split; [done|]. destruct L1 as [Hf1 Hk1].
    split; [split; [by rewrite first_of_app|by apply links_app]|].
    rewrite last_slot_app, last_slot_cons in Hlast by (done || by intros ->; apply Hne).
    rewrite last_slot_app by (by intros ->; apply Hne). kept HP Xs1.
Qed.

(** The operations, in these terms *)
Lemma next_at s head pre e post : queue_rep s head (pre ++ e :: post) ->
  STAILQ_NEXT field e s = Ret (first_of 0 post) s /\ stqe_next field e = e + field.
Proof using MR.
  intros (HP & Hs & [_ Hk] & _)%queue_leads. apply links_app in Hk as [_ [Hw _]].
  destruct (sep_elm _ _ Hs e) as (_ & HRe & _); [set_solver|].
  assert (E : stqe_next field e = e + field) by by apply slot_u32. split; [|done]. unfold STAILQ_NEXT. by rewrite E.
Qed.

Lemma queue_insert_head s head e l : queue_rep s head l -> separate head (e :: l) ->
  exists s', STAILQ_INSERT_HEAD field head e s = Ret tt s' /\ queue_rep s' head (e :: l).
Proof using MR.
  intros Hq Hs. destruct (queue_splice_in s head [] e l Hq Hs) as (s' & Hr & Hq'). exists s'. split; [|done].
  destruct (sep_elm _ _ Hs e) as (_ & HRe & _); [set_solver|]. destruct (head_spans head (sep_head _ _ Hs)) as (_ & _ & Hu4).
  unfold STAILQ_INSERT_HEAD, STAILQ_FIRST, stqh_first, stqh_last, stqe_next.
  rewrite (bind_Ret _ _ _ _ _ (q_first _ _ _ Hq)), (slot_u32 (e + field)), Hu4 by done. exact Hr.
Qed.

Lemma queue_insert_after s head pre t e post : queue_rep s head (pre ++ t :: post) ->
  separate head (pre ++ t :: e :: post) ->
  exists s', STAILQ_INSERT_AFTER field head t e s = Ret tt s' /\ queue_rep s' head (pre ++ t :: e :: post).
Proof using MR.
  intros Hq Hs. assert (Ea : forall l : list Z, pre ++ t :: l = (pre ++ [t]) ++ l) by (intros l; by rewrite <- app_assoc).
  destruct (next_at s head pre t post Hq) as [Hn Ht].
  destruct (sep_elm _ _ Hs e) as (_ & HRe & _); [set_solver|]. destruct (head_spans head (sep_head _ _ Hs)) as (_ & _ & Hu4).
  rewrite Ea in Hq, Hs |- *. destruct (queue_splice_in s head (pre ++ [t]) e post Hq Hs) as (s' & Hr & Hq').
  rewrite last_slot_snoc in Hr. exists s'. split; [|done]. unfold STAILQ_INSERT_AFTER.
  rewrite (bind_Ret _ _ _ _ _ Hn), Ht. unfold stqh_last, stqe_next. rewrite (slot_u32 (e + field)), Hu4 by done. exact Hr.
Qed.

Lemma queue_remove_head s head e l : queue_rep s head (e :: l) ->
  exists s', STAILQ_REMOVE_HEAD field head s = Ret tt s' /\ queue_rep s' head l /\
    except4 (P:=P) (R:=R) (fun a => head <= a < head + 8) s s'.
Proof using MR.
  intros Hq. destruct (queue_splice_out s head [] e l Hq) as (s' & Hr & Hq' & Hx). exists s'.
  split; [|split; [done|apply (except4_weaken _ _ _ _ Hx); unfold last_slot; cbn [list.last]; intros; lia]].
  destruct (head_spans head (sep_head _ _ (q_sep _ _ _ Hq))) as (_ & _ & Hu4).
  unfold STAILQ_REMOVE_HEAD, STAILQ_FIRST. unfold stqh_first, stqh_last. rewrite (bind_Ret _ _ _ _ _ (q_first _ _ _ Hq)).
  cbn [first_of]. rewrite (bind_Ret _ _ _ _ _ (proj1 (next_at s head [] e l Hq))), Hu4. exact Hr.
Qed.

Lemma queue_remove_after s head pre t e post : queue_rep s head (pre ++ t :: e :: post) ->
  exists s', STAILQ_REMOVE_AFTER field head t s = Ret tt s' /\ queue_rep s' head (pre ++ t :: post).
Proof using MR.
  intros Hq. assert (Ea : forall l : list Z, pre ++ t :: l = (pre ++ [t]) ++ l) by (intros l; by rewrite <- app_assoc).
  destruct (next_at s head pre t _ Hq) as [Hn Ht]. destruct (head_spans head (sep_head _ _ (q_sep _ _ _ Hq))) as (_ & _ & Hu4).
  rewrite Ea in Hq |- *. pose proof (proj1 (next_at s head (pre ++ [t]) e post Hq)) as Hn2.
  destruct (queue_splice_out s head (pre ++ [t]) e post Hq) as (s' & Hr & Hq' & _). rewrite last_slot_snoc in Hr.
  exists s'. split; [|done]. unfold STAILQ_REMOVE_AFTER. rewrite (bind_Ret _ _ _ _ _ Hn). cbn [first_of].
  rewrite (bind_Ret _ _ _ _ _ Hn2), Ht. unfold stqh_last. rewrite Hu4. exact Hr.
Qed.

(** The search of STAILQ_REMOVE stops in front of the element. *)
Lemma find_before_ok s head pre t e post : forall q fuel, queue_rep s head (q ++ pre ++ t :: e :: post) ->
  (length pre < fuel)%nat -> e ∉ pre ++ [t] -> find_before field fuel (first_of t pre) e s = Ret t s.
Proof using MR.
  induction pre as [|x pre IH]; intros q [|fuel] Hq Hf Hn; cbn [length] in Hf; try lia; cbn [find_before first_of app] in *.
  - rewrite (bind_Ret _ _ _ _ _ (proj1 (next_at s head q t _ Hq))). cbn [first_of]. by rewrite Z.eqb_refl.
  - rewrite (bind_Ret _ _ _ _ _ (proj1 (next_at s head q x _ Hq))). rewrite first_of_app. cbn [first_of].
    apply not_elem_of_cons in Hn as [Hx Hn].
    destruct (Z.eqb_spec (first_of t pre) e) as [E|_]; [exfalso; apply Hn; destruct pre; cbn in E; set_solver|].
    apply (IH (q ++ [x])); [by rewrite <- app_assoc|lia|done].
Qed.

Lemma queue_remove s head pre e post fuel : queue_rep s head (pre ++ e :: post) -> (length pre < fuel)%nat -> e ∉ pre ->
  exists s', STAILQ_REMOVE field fuel head e s = Ret tt s' /\ queue_rep s' head (pre ++ post).
Proof using MR.
  intros Hq Hf Hn. unfold STAILQ_REMOVE. unfold STAILQ_FIRST at 1, stqh_first at 1. rewrite (bind_Ret _ _ _ _ _ (q_first _ _ _ Hq)).
  destruct (decide (pre = [])) as [->|Hne].
  - cbn [app first_of] in *. rewrite Z.eqb_refl. destruct (queue_remove_head s head e post Hq) as (s' & Hr & Hq' & _). by exists s'.
  - destruct (exists_last Hne) as (pre0 & t & ->). rewrite <- app_assoc in Hq. cbn [app] in Hq.
    rewrite <- !app_assoc. cbn [app]. rewrite first_of_app. cbn [first_of].
    destruct (Z.eqb_spec (first_of t pre0) e) as [E|_].
    { exfalso. apply Hn. destruct pre0; cbn in E; set_solver. }
    rewrite length_app in Hf. cbn [length] in Hf.
    rewrite (bind_Ret _ _ _ _ _ (find_before_ok s head pre0 t e post [] fuel Hq ltac:(lia) Hn)).
    by apply queue_remove_after with e.
Qed.

Lemma queue_last s head l : queue_rep s head l ->
  STAILQ_LAST field head s = Ret (default 0 (list.last l)) s.
Proof using MR.
  intros Hq. pose proof Hq as (HP & Hs & _ & Hlast)%queue_leads. unfold STAILQ_LAST.
  rewrite (bind_Ret _ _ _ _ _ (proj2 (queue_first s head l Hq))).
  destruct (decide (l = [])) as [->|Hne]; [done|]. rewrite bool_decide_eq_false_2 by done.
  unfold stqh_last. destruct (head_spans head (sep_head _ _ Hs)) as (_ & _ & ->). rewrite (bind_Ret _ _ _ _ _ Hlast).
  destruct (exists_last Hne) as (l0 & e & ->). rewrite last_slot_snoc, last_snoc.
  destruct (sep_elm _ _ Hs e) as (He & _); [set_solver|]. unfold mret, M_ret. f_equal. change (default 0 (Some e)) with e. unfold u32.
  replace (e + field - field) with e by lia. apply Z.mod_small. lia.
Qed.

(** Two queues that do not overlap *)
Lemma queue_concat s h1 l1 h2 l2 : queue_rep s h1 l1 -> queue_rep s h2 l2 -> separate h1 (l1 ++ l2) -> 0 < h2 ->
  (h2 + 8 <= h1 \/ h1 + 8 <= h2) -> (forall e, e ∈ l1 -> e + field + 4 <= h2 \/ h2 + 8 <= e + field) ->
  exists s', STAILQ_CONCAT h1 h2 s = Ret tt s' /\ queue_rep s' h1 (l1 ++ l2) /\ queue_rep s' h2 [].
Proof using MR.
  intros Hq1 Hq2 Hs H0 Hhh Hd1. pose proof Hq1 as (HP & Hs1 & L1 & W1)%queue_leads.
  pose proof Hq2 as (_ & Hs2 & [F2 K2] & W2)%queue_leads. unfold STAILQ_CONCAT.
  rewrite (bind_Ret _ _ _ _ _ (proj2 (queue_first s h2 l2 Hq2))).
  destruct (decide (l2 = [])) as [->|Hne]; [exists s; by rewrite app_nil_r|]. rewrite bool_decide_eq_false_2 by done.
  destruct (head_spans h1 (sep_head _ _ Hs1)) as (HRh1 & HR1 & Hu1). destruct (head_spans h2 (sep_head _ _ Hs2)) as (HRh2 & HR2 & Hu2).
  destruct (first_of_range h2 l2 Hs2) as [Hfr _]. destruct (last_slot_span h2 l2 Hs2) as [HRl _].
  assert (Hrl : 0 <= last_slot h2 l2 < 4294967296) by (apply region_u32; by apply (span_head _ 3)).
  destruct (leads_store s h1 l1 0 _ HP Hs1 L1 Hfr) as (s1 & Es1 & L1' & Xs1). pose proof (proj1 Xs1) as HP1.
  pose proof (slot_off_last h1 l1 Hs1) as O0. assert (O2 : forall x, x ∈ l2 -> off4 (last_slot h1 l1) (x + field)) by (intros x; by apply slot_off).
  assert (O1 : last_slot h1 l1 + 4 <= h2 \/ h2 + 8 <= last_slot h1 l1).
  { destruct (last_slot_span h1 l1 Hs1) as [_ [[-> _]|(e & He & ->)]]; [lia|by apply Hd1]. }
  unfold off4 in *.
  assert (K2' : links s1 0 l2).
  { kept_links HP Xs1. intros x Hx. split; [by apply (sep_elm _ _ Hs2)|]. pose proof (O2 x Hx). intros; lia. }
  assert (W2' : word s1 (h2 + 4) (last_slot h2 l2)) by (kept HP Xs1).
  destruct (store32_word s1 (h1 + 4) _ HP1 HR1 Hrl) as (s2 & Es2 & W3 & Xs2). pose proof (proj1 Xs2) as HP2.
  destruct (queue_init s2 h2 HP2 (sep_head _ _ Hs2) H0) as (s3 & Es3 & Hq3 & Xs3).
  exists s3. split.
  { unfold stqh_last. rewrite Hu1, Hu2, (bind_Ret _ _ _ _ _ W1). unfold STAILQ_FIRST, stqh_first.
    rewrite (bind_Ret _ _ _ _ _ F2), (bind_Ret _ _ _ _ _ Es1), (bind_Ret _ _ _ _ _ W2'), (bind_Ret _ _ _ _ _ Es2). exact Es3. }
  split; [|done]. apply queue_leads. split; [apply Xs3|]. split; [done|]. split.
  - assert (Hcut : forall e, e ∈ l1 ++ l2 -> e + field + 4 <= h2 \/ h2 + 8 <= e + field).
    { intros e [He|He]%elem_of_app; [by apply Hd1|by apply (sep_elm _ _ Hs2)]. }
    apply (leads_except _ s2 s3 h1 _ 0 HP2 Xs3 Hs); [intros; lia|intros e He; pose proof (Hcut e He); intros; lia|].
    apply (leads_except _ s1 s2 h1 _ 0 HP1 Xs2 Hs); [intros; lia| |].
    { intros e He. destruct (sep_elm _ _ Hs e He) as (_ & _ & Hd). intros; lia. }
    destruct L1' as [F1' K1']. split; [by rewrite first_of_app|by apply links_app].
  - rewrite last_slot_app by done.
    assert (E : last_slot h1 l2 = last_slot h2 l2) by (unfold last_slot; by destruct (exists_last Hne) as (l0 & e & ->); rewrite !last_snoc).
    rewrite E. kept HP2 Xs3.
Qed.

(** A head whose first word and elements are in place, but whose last word
    is right only if there are elements *)
Record half_rep (s : S) (head : Z) (l : list Z) (x : Z) : Prop := {
  h_sep : separate head l;
  h_first : word s head (first_of 0 l);
  h_last : word s (head + 4) x;
  h_links : links s 0 l;
  h_x : l <> [] -> x = last_slot head l;
}.

Lemma reset_ok s head l x : P s -> half_rep s head l x -> 0 < head ->
  exists s', reset_if_empty head s = Ret tt s' /\ queue_rep s' head l /\
    except4 (P:=P) (R:=R) (fun a => head <= a < head + 8) s s'.
Proof using MR.
  intros HP [Hs F L K Hx] H0. destruct (head_spans head (sep_head _ _ Hs)) as (HR1 & HR2 & Hu).
  pose proof (region_u32 _ (span_head _ 3 HR1)) as Hh. unfold reset_if_empty.
  assert (He : STAILQ_EMPTY head s = Ret (bool_decide (l = [])) s).
  { unfold STAILQ_EMPTY. unfold STAILQ_FIRST, stqh_first. rewrite (bind_Ret _ _ _ _ _ F). unfold mret, M_ret. f_equal.
    destruct (first_of_range head l Hs) as [_ Hz]. destruct (Z.eqb_spec (first_of 0 l) 0); [rewrite bool_decide_eq_true_2; tauto|].
    rewrite bool_decide_eq_false_2; tauto. }
  rewrite (bind_Ret _ _ _ _ _ He). destruct (decide (l = [])) as [->|Hne].
  - rewrite bool_decide_eq_true_2 by done. unfold stqh_last, stqh_first. rewrite Hu.
    destruct (store32_word s (head + 4) head HP HR2 Hh) as (s1 & E1 & W1 & X1). exists s1. split; [exact E1|]. split.
    + split; [apply X1|done|kept HP X1|done|done].
    + apply (except4_weaken _ _ _ _ X1). intros; lia.
  - rewrite bool_decide_eq_false_2 by done. exists s. split; [done|]. rewrite (Hx Hne) in L. split; [by split|by split].
Qed.

Lemma half_except X s s' head l x : P s -> except4 (P:=P) (R:=R) X s s' -> half_rep s head l x ->
  (forall a, head <= a < head + 8 -> ~ X a) -> (forall e i, e ∈ l -> 0 <= i < 4 -> ~ X (e + field + i)) ->
  half_rep s' head l x.
Proof using MR.
  intros HP HX [Hs F L K Hx] Hhead Hl. destruct (head_spans head (sep_head _ _ Hs)) as (HR1 & HR2 & _).
  split; try done.
  - eapply (word_except _ _ _ _ _ HP HX); [done|intros i Hi; apply Hhead; lia|done].
  - eapply (word_except _ _ _ _ _ HP HX); [done|intros i Hi; apply Hhead; lia|done].
  - eapply (links_except _ _ _ _ _ HP HX); [|done]. intros e He. split; [by apply (sep_elm _ _ Hs)|]. intros i Hi. by apply Hl.
Qed.

(** Writing a whole head makes it that of another list. *)
Lemma write_head s head l l' x : P s -> separate head l -> links s 0 l -> 0 <= x < 4294967296 ->
  x = last_slot l' l \/ l = [] ->
  exists s1 s2, store32 (stqh_first head) (first_of 0 l) s = Ret tt s1 /\ store32 (stqh_last head) x s1 = Ret tt s2 /\
    P s1 /\ half_rep s2 head l x /\ except4 (P:=P) (R:=R) (fun a => head <= a < head + 4) s s1 /\
    except4 (P:=P) (R:=R) (fun a => head <= a < head + 8) s s2.
Proof using MR.
  intros HP Hs K Hx Hxl. destruct (head_spans head (sep_head _ _ Hs)) as (HR1 & HR2 & Hu).
  destruct (first_of_range head l Hs) as [Hf _].
  destruct (store32_word s head _ HP HR1 Hf) as (s1 & E1 & W1 & X1). pose proof (proj1 X1) as HP1.
  destruct (store32_word s1 (head + 4) x HP1 HR2 Hx) as (s2 & E2 & W2 & X2).
  assert (X12 : except4 (P:=P) (R:=R) (fun a => head <= a < head + 8) s s2).
  { apply (except4_weaken _ _ _ _ (except4_trans _ _ _ _ _ X1 X2)). intros; lia. }
  exists s1, s2. unfold stqh_first, stqh_last. rewrite Hu. do 3 (split; [done|]). split; [|done]. split; try done.
  - kept HP1 X2.
  - eapply (links_except _ _ _ _ _ HP X12); [|done]. intros e He. destruct (sep_elm _ _ Hs e He) as (_ & HRe & Hd).
    split; [done|]. intros; lia.
  - intros Hne. destruct Hxl as [->|]; [|done]. unfold last_slot.
    destruct (exists_last Hne) as (l0 & e & ->). by rewrite !last_snoc.
Qed.

Lemma queue_swap s h1 l1 h2 l2 : queue_rep s h1 l1 -> queue_rep s h2 l2 -> separate h1 l2 -> separate h2 l1 ->
  0 < h1 -> 0 < h2 -> (h2 + 8 <= h1 \/ h1 + 8 <= h2) ->
  exists s', STAILQ_SWAP h1 h2 s = Ret tt s' /\ queue_rep s' h1 l2 /\ queue_rep s' h2 l1.
Proof using MR.
  intros [HP Hs1 F1 L1 K1] [_ Hs2 F2 L2 K2] Hs12 Hs21 H1 H2 Hd.
  destruct (head_spans h1 (sep_head _ _ Hs1)) as (_ & HR1 & Hu1). destruct (head_spans h2 (sep_head _ _ Hs2)) as (_ & HR2 & Hu2).
  assert (Hlast : forall h l, separate h l -> 0 <= last_slot h l < 4294967296).
  { intros h l Hs. destruct (last_slot_span h l Hs) as [HRl _]. apply region_u32; by apply (span_head _ 3). }
  destruct (write_head s h1 l2 h2 (last_slot h2 l2) HP Hs12 K2 (Hlast _ _ Hs2)) as (s1 & s2 & E1 & E2 & HP1 & Hh1 & X1 & X2); [by left|].
  pose proof (proj1 X2) as HP2.
  assert (K1' : links s2 0 l1).
  { eapply (links_except _ _ _ _ _ HP X2); [|done]. intros e He. destruct (sep_elm _ _ Hs1 e He) as (_ & HRe & Hde).
    split; [done|]. intros; lia. }
  destruct (write_head s2 h2 l1 h1 (last_slot h1 l1) HP2 Hs21 K1' (Hlast _ _ Hs1)) as (s3 & s4 & E3 & E4 & HP3 & Hh2 & X3 & X4); [by left|].
  pose proof (proj1 X4) as HP4.
  assert (Hh1' : half_rep s4 h1 l2 (last_slot h2 l2)).
  { apply (half_except _ s2 s4 _ _ _ HP2 X4 Hh1); [intros; lia|]. intros e i He. destruct (sep_elm _ _ Hs2 e He) as (_ & _ & ?). lia. }
  destruct (reset_ok s4 h1 l2 _ HP4 Hh1' H1) as (s5 & E5 & Q1 & X5). pose proof (proj1 X5) as HP5.
  assert (Hh2' : half_rep s5 h2 l1 (last_slot h1 l1)).
  { apply (half_except _ s4 s5 _ _ _ HP4 X5 Hh2); [intros; lia|]. intros e i He. destruct (sep_elm _ _ Hs1 e He) as (_ & _ & ?). lia. }
  destruct (reset_ok s5 h2 l1 _ HP5 Hh2' H2) as (s6 & E6 & Q2 & X6).
  exists s6. split; [|split; [|done]].
  - assert (L2' : word s1 (h2 + 4) (last_slot h2 l2)) by (kept HP X1).
    assert (R1 : load32 (stqh_last h1) s = Ret (last_slot h1 l1) s) by (unfold stqh_last; rewrite Hu1; exact L1).
    assert (R2 : load32 (stqh_last h2) s1 = Ret (last_slot h2 l2) s1) by (unfold stqh_last; rewrite Hu2; exact L2').
    unfold STAILQ_SWAP. rewrite (bind_Ret _ _ _ _ _ (F1 : STAILQ_FIRST h1 s = _)), (bind_Ret _ _ _ _ _ R1).
    rewrite (bind_Ret _ _ _ _ _ (F2 : STAILQ_FIRST h2 s = _)), (bind_Ret _ _ _ _ _ E1), (bind_Ret _ _ _ _ _ R2).
    rewrite (bind_Ret _ _ _ _ _ E2), (bind_Ret _ _ _ _ _ E3), (bind_Ret _ _ _ _ _ E4), (bind_Ret _ _ _ _ _ E5). exact E6.
  - destruct Q1 as [_ S1 G1 G2 G3].
    assert (Hq : half_rep s6 h1 l2 (last_slot h1 l2)).
    { apply (half_except _ s5 s6 _ _ _ HP5 X6); [by split|intros; lia|]. intros e i He. destruct (sep_elm _ _ Hs2 e He) as (_ & _ & ?). lia. }
    destruct Hq as [? ? ? ? ?]. split; try done. apply X6.
Qed.

Lemma foreach_ok s head l fuel : queue_rep s head l -> (length l < fuel)%nat ->
  STAILQ_FOREACH field fuel head s = Ret l s.
Proof using MR.
  intros [HP Hsep Hfst _ Hlk] Hf. unfold STAILQ_FOREACH. unfold STAILQ_FIRST, stqh_first.
  rewrite (bind_Ret _ _ _ _ _ Hfst). clear Hfst. revert fuel Hf.
  induction l as [|e l IH]; intros fuel Hf; (destruct fuel as [|fuel]; [simpl in Hf; lia|]); [done|].
  destruct (separate_tail head e l Hsep) as [Hsep' _]. destruct Hlk as [Hw Hlk].
  destruct (sep_elm _ _ Hsep e) as (He & HRe & _); [set_solver|]. cbn [first_of foreach_from].
  destruct (Z.eqb_spec e 0); [lia|]. unfold STAILQ_NEXT, stqe_next. rewrite (slot_u32 (e + field)) by done.
  rewrite (bind_Ret _ _ _ _ _ Hw). erewrite bind_Ret by (apply IH; [done|done|simpl in Hf; lia]). done.
Qed.

(** From an element on, FOREACH_FROM visits the rest of the queue. *)
Lemma foreach_from_middle s head pre e post fuel : queue_rep s head (pre ++ e :: post) -> (length (e :: post) < fuel)%nat ->
  STAILQ_FOREACH_FROM field fuel e head s = Ret (e :: post) s.
Proof using MR.
  intros [HP Hsep Hfst _ Hlk] Hf. apply links_app in Hlk as [_ Hlk].
  destruct (separate_parts head pre (e :: post) Hsep) as [_ Hsep'].
  assert (He : 0 < e < 4294967296) by (apply (sep_elm _ _ Hsep'); set_solver).
  unfold STAILQ_FOREACH_FROM. destruct (Z.eqb_spec e 0); [lia|]. cbn [negb].
  clear He n Hfst Hsep. revert e fuel Hlk Hsep' Hf. induction post as [|x post IH]; intros e fuel [Hw Hlk] Hs Hf;
    (destruct fuel as [|fuel]; [simpl in Hf; lia|]);
    destruct (sep_elm _ _ Hs e) as (He & HRe & _); [set_solver| |set_solver|]; cbn [foreach_from];
    (destruct (Z.eqb_spec e 0); [lia|]); unfold STAILQ_NEXT, stqe_next; rewrite (slot_u32 (e + field)) by done;
    rewrite (bind_Ret _ _ _ _ _ Hw).
  - destruct fuel; [simpl in Hf; lia|]. done.
  - cbn [first_of]. destruct (separate_tail head e (x :: post) Hs) as [Hs' _].
    erewrite bind_Ret by (apply IH; [done|done|simpl in *; lia]). done.
Qed.

(** A body that writes nothing but the link of its element, as one that frees
    it does, does not disturb FOREACH_SAFE. *)
Lemma foreach_safe_ok s head l fuel body : queue_rep s head l -> (length l < fuel)%nat ->
  (forall e s1, e ∈ l -> P s1 -> exists s2, body e s1 = Ret tt s2 /\
     except4 (P:=P) (R:=R) (fun a => e + field <= a < e + field + 4) s1 s2) ->
  exists s', STAILQ_FOREACH_SAFE field fuel head body s = Ret l s' /\ P s'.
Proof using MR.
  intros [HP Hsep Hfst _ Hlk] Hf Hbody. unfold STAILQ_FOREACH_SAFE. unfold STAILQ_FIRST, stqh_first.
  rewrite (bind_Ret _ _ _ _ _ Hfst). clear Hfst. revert s fuel HP Hlk Hf.
  induction l as [|e l IH]; intros s fuel HP Hlk Hf; (destruct fuel as [|fuel]; [simpl in Hf; lia|]); [by exists s|].
  destruct (separate_tail head e l Hsep) as [Hsep' Hoff]. destruct Hlk as [Hw Hlk].
  destruct (sep_elm _ _ Hsep e) as (He & HRe & _); [set_solver|]. cbn [first_of foreach_safe_from].
  destruct (Z.eqb_spec e 0); [lia|]. unfold STAILQ_NEXT, stqe_next. rewrite (slot_u32 (e + field)) by done.
  rewrite (bind_Ret _ _ _ _ _ Hw). destruct (Hbody e s ltac:(set_solver) HP) as (s1 & E1 & X1).
  rewrite (bind_Ret _ _ _ _ _ E1).
  destruct (IH Hsep' (fun x s1 Hx => Hbody x s1 ltac:(set_solver)) s1 fuel) as (s' & Hr & HP').
  - apply X1.
  - kept_links HP X1. intros x Hx. split; [by apply (sep_elm _ _ Hsep')|]. pose proof (Hoff x Hx). unfold off4 in *. intros; lia.
  - simpl in Hf. lia.
  - exists s'. by rewrite (bind_Ret _ _ _ _ _ Hr).
Qed.
End QueueRep.

(** ** The queue as a list

    [run_op] runs one operation; [spec_op] is what it means for the list. *)

Inductive queue_op :=
| Insert_head (elm : Z) | Insert_tail (elm : Z) | Insert_after (tqelm elm : Z) | Remove_head | Remove (elm : Z).

(** [fuel] bounds the search of STAILQ_REMOVE. *)
Definition run_op {S} `{MemOps S} (field head : Z) (fuel : nat) (op : queue_op) : M S unit :=
  match op with
  | Insert_head elm => STAILQ_INSERT_HEAD field head elm
  | Insert_tail elm => STAILQ_INSERT_TAIL field head elm
  | Insert_after tqelm elm => STAILQ_INSERT_AFTER field head tqelm elm
  | Remove_head => STAILQ_REMOVE_HEAD field head
  | Remove elm => STAILQ_REMOVE field fuel head elm
  end.

Fixpoint run_ops {S} `{MemOps S} (field head : Z) (fuel : nat) (ops : list queue_op) : M S unit :=
  match ops with
  | [] => mret tt
  | op :: ops' => run_op field head fuel op ≫= fun _ => run_ops field head fuel ops'
  end.

(** [elm] put behind the first [t], and the first [elm] taken out *)
Fixpoint put_after (t elm : Z) (l : list Z) : list Z :=
  match l with [] => [] | x :: l' => if decide (x = t) then x :: elm :: l' else x :: put_after t elm l' end.
Fixpoint without (elm : Z) (l : list Z) : list Z :=
  match l with [] => [] | x :: l' => if decide (x = elm) then l' else x :: without elm l' end.

Definition spec_op (op : queue_op) (l : list Z) : list Z :=
  match op with
  | Insert_head elm => elm :: l
  | Insert_tail elm => l ++ [elm]
  | Insert_after tqelm elm => put_after tqelm elm l
  | Remove_head => drop 1 l
  | Remove elm => without elm l
  end.

Lemma put_after_split t e pre post : t ∉ pre -> put_after t e (pre ++ t :: post) = pre ++ t :: e :: post.
Proof.
  induction pre as [|x pre IH]; intros Hn; cbn [app put_after]; [by rewrite decide_True|].
  apply not_elem_of_cons in Hn as [Hx Hn]. rewrite decide_False by done. by rewrite IH.
Qed.
Lemma without_split e pre post : e ∉ pre -> without e (pre ++ e :: post) = pre ++ post.
Proof.
  induction pre as [|x pre IH]; intros Hn; cbn [app without]; [by rewrite decide_True|].
  apply not_elem_of_cons in Hn as [Hx Hn]. rewrite decide_False by done. by rewrite IH.
Qed.

(** The operations respect the contract of the macros: an inserted element is
    outside the queue and does not overlap it, and what is removed or inserted
    behind is in the queue, which is within the fuel of the search. *)
Definition op_ok (R : Z -> Prop) (field head : Z) (fuel : nat) (l : list Z) (op : queue_op) : Prop :=
  match op with
  | Insert_head _ | Insert_tail _ => separate (R:=R) field head (spec_op op l)
  | Insert_after t _ => t ∈ l /\ separate (R:=R) field head (spec_op op l)
  | Remove_head => l <> []
  | Remove elm => elm ∈ l /\ (length l <= fuel)%nat
  end.
Fixpoint ops_ok (R : Z -> Prop) (field head : Z) (fuel : nat) (l : list Z) (ops : list queue_op) : Prop :=
  match ops with
  | [] => True
  | op :: ops' => op_ok R field head fuel l op /\ ops_ok R field head fuel (spec_op op l) ops'
  end.

Lemma run_op_ok {S} `{MO : MemOps S} (P : S -> Prop) (R : Z -> Prop) (MR : MemRegion P R) field head fuel op s l :
  queue_rep (P:=P) (R:=R) field s head l -> op_ok R field head fuel l op ->
  exists s', run_op field head fuel op s = Ret tt s' /\ queue_rep (P:=P) (R:=R) field s' head (spec_op op l).
Proof.
  intros Hq Hok. destruct op as [e|e|t e| |e]; cbn [op_ok spec_op run_op] in *.
  - by apply queue_insert_head.
  - destruct (queue_insert_tail field s head l e) as (s' & H1 & H2 & _); try done. by exists s'.
  - destruct Hok as [Ht Hs]. apply list_elem_of_split_l in Ht as (pre & post & -> & Hn).
    rewrite put_after_split in * by done. by apply queue_insert_after.
  - destruct l as [|e l]; [done|]. destruct (queue_remove_head field s head e l Hq) as (s' & Hr & Hq' & _). by exists s'.
  - destruct Hok as [He Hf]. apply list_elem_of_split_l in He as (pre & post & -> & Hn).
    rewrite without_split by done. apply queue_remove; [done| |done]. rewrite length_app in Hf. cbn [length] in Hf. lia.
Qed.

(** C30: The tail queue is the list it stands for: any sequence of insertions
    at the head, at the tail and behind an element, and of removals of the
    head and of a given element, that respects the macros' contract runs to the
    end and leaves the memory representation of the list that the same changes
    give; with insertions at the tail and removals of the head it is first in,
    first out. *)
Theorem stailq_list {S} `{MO : MemOps S} (P : S -> Prop) (R : Z -> Prop) (MR : MemRegion P R)
    field head fuel ops s l :
  queue_rep (P:=P) (R:=R) field s head l -> ops_ok R field head fuel l ops ->
  exists s', run_ops field head fuel ops s = Ret tt s' /\
    queue_rep (P:=P) (R:=R) field s' head (foldl (fun acc op => spec_op op acc) l ops).
Proof.
  revert s l. induction ops as [|op ops IH]; intros s l Hq Hok; simpl; [by exists s|].
  destruct Hok as [Hop Hok]. destruct (run_op_ok P R MR field head fuel op s l Hq Hop) as (s1 & Hr & Hq1).
  destruct (IH s1 _ Hq1 Hok) as (s' & Hr' & Hq'). exists s'. split; [|done]. by rewrite (bind_Ret _ _ _ _ _ Hr).
Qed.

(** Walking a queue with STAILQ_FOREACH visits exactly its elements, in
    order, and terminates. *)
Theorem stailq_foreach_visits {S} `{MO : MemOps S} (P : S -> Prop) (R : Z -> Prop) (MR : MemRegion P R)
    field head s l fuel :
  queue_rep (P:=P) (R:=R) field s head l -> (length l < fuel)%nat ->
  STAILQ_FOREACH field fuel head s = Ret l s.
Proof. apply foreach_ok. Qed.

(** ** A concrete queue: an empty head at 0x2000, elements at 0x1000 and 0x1040 *)

Definition low_range (a : Z) : Prop := 4096 <= a < 16384.

Definition low_mem : gmap Z byte := list_to_map ((fun a => (a, Byte.x00)) <$> seqZ 4096 12288).

Lemma low_mem_on : flat_on low_range low_mem.
Proof.
  intros a Ha. exists Byte.x00. apply elem_of_list_to_map.
  - rewrite <- list_fmap_compose. rewrite (list_fmap_ext _ id) by done. rewrite list_fmap_id. apply NoDup_seqZ.
  - apply list_elem_of_fmap. exists a. split; [done|]. apply elem_of_seqZ. unfold low_range in Ha. lia.
Qed.

#[export] Instance low_region : MemRegion (flat_on low_range) low_range.
Proof. apply flat_region. unfold low_range. lia. Qed.

Lemma low_span a n : 4096 <= a -> a + Z.of_nat n <= 16384 -> span low_range a n.
Proof. intros H1 H2 i Hi. unfold low_range. lia. Qed.

Definition low_queue : gmap Z byte := match STAILQ_INIT 8192 low_mem with Ret _ s => s | _ => ∅ end.

Lemma low_queue_rep : queue_rep (P:=flat_on low_range) (R:=low_range) 36 low_queue 8192 [].
Proof.
  destruct (queue_init (P:=flat_on low_range) (R:=low_range) 36 low_mem 8192) as (s' & Hr & Hq & _);
    [apply low_mem_on|apply low_span; lia|lia|].
  unfold low_queue. rewrite Hr. exact Hq.
Qed.

Lemma low_separate l : NoDup l -> Forall (fun e => e = 4096 \/ e = 4160) l -> separate (R:=low_range) 36 8192 l.
Proof.
  intros Hn Hl. rewrite list.Forall_forall in Hl. split; [apply low_span; lia| |].
  - intros e He. destruct (Hl e He) as [-> | ->]; (split; [lia|]; split; [apply low_span; lia|lia]).
  - intros i j e e' Hi Hj Hne. unfold off4. assert (e <> e') by (intros ->; by apply Hne, (NoDup_lookup l i j e')).
    destruct (Hl e (list_elem_of_lookup_2 _ _ _ Hi)), (Hl e' (list_elem_of_lookup_2 _ _ _ Hj)); subst; lia.
Qed.

(** One element at the tail, one in front of it, taken out and put behind it *)
Definition low_ops : list queue_op := [Insert_tail 4096; Insert_head 4160; Remove 4096; Insert_after 4160 4096; Remove_head].

Lemma stailq_list_witness :
  exists s', run_ops 36 8192 4 low_ops low_queue = Ret tt s' /\
    queue_rep (P:=flat_on low_range) (R:=low_range) 36 s' 8192 [4096].
Proof.
  apply (stailq_list (flat_on low_range) low_range low_region 36 8192 4 low_ops low_queue []).
  - apply low_queue_rep.
  - simpl. split; [apply low_separate; [apply (bool_decide_unpack _); reflexivity|repeat constructor; lia]|].
    split; [apply low_separate; [apply (bool_decide_unpack _); reflexivity|repeat constructor; lia]|].
    split; [split; [set_solver|lia]|].
    split; [split; [set_solver|apply low_separate; [apply (bool_decide_unpack _); reflexivity|repeat constructor; lia]]|]. done.
Defined.

Lemma stailq_foreach_visits_witness : STAILQ_FOREACH 36 1 8192 low_queue = Ret [] low_queue.
Proof.
  apply (stailq_foreach_visits (flat_on low_range) low_range low_region 36 8192 low_queue [] 1).
  - apply low_queue_rep.
  - simpl. lia.
Defined.
