(* ===== verification/Desc.v ===== *)
(** * Desc.v: segment descriptors, the task state segment and the interrupt
      tables (kernel/gdt.c, kernel/tss.c, kernel/idt.c and their headers)

    The tables are arrays of records in the kernel's data; the functions that
    fill them are pure updates, [option] where the C code indexes without a
    bound ([None] is a write outside the array).  Function pointers are their
    addresses. *)

From S2P Require Import Prelude Memory Machine.

(** ** Global descriptors *)

(** include/kernel/gdt.h: struct gdt_entry, a packed 64-bit bit-field *)
Record gdt_entry := GdtEntry {
  limit_low : Z; gbase_low : Z; base_mid : Z; access : Z;
  limit_high : Z; gflags : Z; gbase_high : Z;
}.

Definition SEGNUM : Z := 6.
Definition SEG_NULL_IDX : Z := 0.
Definition SEG_KCODE_IDX : Z := 1.
Definition SEG_KDATA_IDX : Z := 2.
Definition SEG_UCODE_IDX : Z := 3.
Definition SEG_UDATA_IDX : Z := 4.
Definition SEG_TSS_IDX : Z := 5.
Definition sizeof_gdt_entry : Z := 8.
Definition SEG_KCODE : Z := SEG_KCODE_IDX * sizeof_gdt_entry.
Definition SEG_KDATA : Z := SEG_KDATA_IDX * sizeof_gdt_entry.
Definition SEG_UCODE : Z := Z.lor (SEG_UCODE_IDX * sizeof_gdt_entry) 3.
Definition SEG_UDATA : Z := Z.lor (SEG_UDATA_IDX * sizeof_gdt_entry) 3.
Definition SEG_TSS : Z := Z.lor (SEG_TSS_IDX * sizeof_gdt_entry) 3.

Definition GDTE_X : Z := 8.
Definition GDTE_W : Z := 2.
Definition GDTE_R : Z := 2.
Definition GDTE_A : Z := 1.
Definition GDTE_TSS : Z := 0.
Definition GDTE_NOT_TSS : Z := 16.
Definition GDTE_DPL_KERNEL : Z := 0.
Definition GDTE_DPL_USER : Z := 96.
Definition GDTE_PRESENT : Z := 128.
Definition GDTE_32_BIT : Z := 4.
Definition GDTE_BYTE_GRAN : Z := 0.
Definition GDTE_PAGE_GRAN : Z := 8.

(** Bit-fields keep the low bits of what is assigned to them: 8 for [access],
    4 for [flags]. *)
Definition segment (base limit access flags : Z) : gdt_entry :=
  GdtEntry (Z.land limit 65535)
           (Z.land base 65535) (Z.land (Z.shiftr base 16) 255)
           (u8 (Z.lor GDTE_PRESENT access))
           (Z.land (Z.shiftr limit 16) 15) (flags mod 16)
           (Z.land (Z.shiftr base 24) 255).

Definition gdt_set_segment (idx base limit access flags : Z) (gdt : list gdt_entry)
    : option (list gdt_entry) :=
  match zlookup gdt idx with
  | Some _ => Some (zupdate idx (segment base limit access flags) gdt)
  | None => None
  end.

(** The 64 bits the processor reads, fields from the lowest bit on. *)
Definition gdt_bits (e : gdt_entry) : Z :=
  limit_low e + 2 ^ 16 * gbase_low e + 2 ^ 32 * base_mid e + 2 ^ 40 * access e +
  2 ^ 48 * limit_high e + 2 ^ 52 * gflags e + 2 ^ 56 * gbase_high e.

(** How the processor takes a descriptor apart. *)
Definition bitfield (bits lo n : Z) : Z := Z.shiftr bits lo mod 2 ^ n.
Definition desc_base (bits : Z) : Z := bitfield bits 16 24 + 2 ^ 24 * bitfield bits 56 8.
Definition desc_limit (bits : Z) : Z := bitfield bits 0 16 + 2 ^ 16 * bitfield bits 48 4.
Definition desc_access (bits : Z) : Z := bitfield bits 40 8.
Definition desc_flags (bits : Z) : Z := bitfield bits 52 4.
Definition desc_dpl (bits : Z) : Z := bitfield bits 45 2.

(** ** The task state segment *)

(** include/kernel/tss.h: the fields the kernel assigns; the others stay 0. *)
Record tss_entry := Tss {
  esp0 : Z; ss0 : Z;
  tss_es : Z; tss_cs : Z; tss_ss : Z; tss_ds : Z; tss_fs : Z; tss_gs : Z;
}.
Definition sizeof_tss_entry : Z := 104.

Definition tss_set_ss (ss : Z) (t : tss_entry) : tss_entry :=
  Tss (esp0 t) ss (tss_es t) (tss_cs t) (tss_ss t) (tss_ds t) (tss_fs t) (tss_gs t).
Definition tss_set_esp (esp : Z) (t : tss_entry) : tss_entry :=
  Tss esp (ss0 t) (tss_es t) (tss_cs t) (tss_ss t) (tss_ds t) (tss_fs t) (tss_gs t).

(** [base] is the address of the structure. *)
Definition tss_init (base ss esp : Z) (gdt : list gdt_entry) : option (list gdt_entry * tss_entry) :=
  let limit := base +w sizeof_tss_entry in
  match gdt_set_segment SEG_TSS_IDX base limit
          (Z.lor (Z.lor (Z.lor GDTE_DPL_USER GDTE_X) GDTE_A) GDTE_TSS)
          (Z.lor GDTE_BYTE_GRAN GDTE_32_BIT) gdt with
  | Some gdt' =>
      let seg := Z.lor SEG_KDATA 3 in
      Some (gdt', Tss esp ss seg (Z.lor SEG_KCODE 3) seg seg seg seg)
  | None => None
  end.

Definition gdt_init (tss_base kernel_stack_top : Z) (gdt : list gdt_entry)
    : option (list gdt_entry * tss_entry) :=
  match zlookup gdt SEG_NULL_IDX with
  | None => None
  | Some _ =>
      let gdt := zupdate SEG_NULL_IDX (GdtEntry 0 0 0 0 0 0 0) gdt in
      gdt ← gdt_set_segment SEG_KCODE_IDX 0 4294967295
              (Z.lor (Z.lor (Z.lor GDTE_DPL_KERNEL GDTE_X) GDTE_W) GDTE_NOT_TSS)
              (Z.lor GDTE_PAGE_GRAN GDTE_32_BIT) gdt;
      gdt ← gdt_set_segment SEG_KDATA_IDX 0 4294967295
              (Z.lor (Z.lor GDTE_DPL_KERNEL GDTE_R) GDTE_NOT_TSS)
              (Z.lor GDTE_PAGE_GRAN GDTE_32_BIT) gdt;
      gdt ← gdt_set_segment SEG_UCODE_IDX 0 4294967295
              (Z.lor (Z.lor (Z.lor GDTE_DPL_USER GDTE_X) GDTE_W) GDTE_NOT_TSS)
              (Z.lor GDTE_PAGE_GRAN GDTE_32_BIT) gdt;
      gdt ← gdt_set_segment SEG_UDATA_IDX 0 4294967295
              (Z.lor (Z.lor GDTE_DPL_USER GDTE_R) GDTE_NOT_TSS)
              (Z.lor GDTE_PAGE_GRAN GDTE_32_BIT) gdt;
      tss_init tss_base SEG_KDATA kernel_stack_top gdt
  end.

(** gdt_load and idt_load: the (limit, base) pair given to lgdt and lidt. *)
Definition gdt_load (base size : Z) : Z * Z := (u16 (size - 1), base).
Definition idt_load (base size : Z) : Z * Z := (u16 (size - 1), base).

(** gdt_install, idt_install: what is loaded for the tables at these
    addresses; gdt_flush, which reloads the segment registers, is assembly. *)
Definition sizeof_idt_entry : Z := 8.
Definition gdt_install (gdt : Z) : Z * Z := gdt_load gdt (SEGNUM * sizeof_gdt_entry).
Definition idt_install (idt : Z) : Z * Z := idt_load idt (256 * sizeof_idt_entry).

(** ** Interrupt gates *)

(** include/kernel/idt.h *)
Record idt_entry := IdtEntry { gate_low : Z; segm : Z; zero : Z; iflags : Z; gate_high : Z }.
Record irq_handler_entry := IrqEntry { handler : Z; ipdir : Z }.

Definition idt_set_gate (num base segm flags : Z) (idt : list idt_entry) : list idt_entry :=
  zupdate (u8 num)
    (IdtEntry (Z.land base 65535) (u16 segm) 0 (u8 flags) (Z.shiftr (Z.land base 4294901760) 16))
    idt.

Definition idt_get_gate (num : Z) (idt : list idt_entry) : option Z :=
  match zlookup idt (u8 num) with
  | Some e => Some (Z.lor (Z.shiftl (gate_high e) 16) (gate_low e))
  | None => None
  end.

(** idt_init: [isr i] and [irq i] are the addresses of the assembly stubs. *)
Fixpoint set_gates (n : nat) (num : Z) (stub : Z -> Z) (i : Z) (idt : list idt_entry) : list idt_entry :=
  match n with
  | O => idt
  | S n' => set_gates n' (num + 1) stub (i + 1) (idt_set_gate num (stub i) 8 142 idt)
  end.
Definition idt_init_gates (isr irq : Z -> Z) (idt : list idt_entry) : list idt_entry :=
  set_gates 16 32 irq 0
    (set_gates 32 0 isr 0 (repeat (IdtEntry 0 0 0 0 0) (length idt))).

(** The exception handlers still unset become [screen_of_death]. *)
Definition idt_init_isrs (screen_of_death : Z) (isr_handlers : list Z) : list Z :=
  map (fun h => if h =? 0 then screen_of_death else h) isr_handlers.

(** irq_remap: what the two interrupt controllers are sent, in order. *)
Definition irq_remap : M machine unit :=
  outb 32 17 ≫= fun _ => outb 160 17 ≫= fun _ =>
  outb 33 32 ≫= fun _ => outb 161 40 ≫= fun _ =>
  outb 33 4 ≫= fun _ => outb 161 2 ≫= fun _ =>
  outb 33 1 ≫= fun _ => outb 161 1 ≫= fun _ =>
  outb 33 0 ≫= fun _ => outb 161 0.

(** [num < 16] is the only test: a negative [num] writes before the array. *)
Definition irq_install_handler (num h pdir : Z) (irq_handlers : list irq_handler_entry)
    : option (list irq_handler_entry) :=
  if num <? 16 then
    match zlookup irq_handlers num with
    | Some _ => Some (zupdate num (IrqEntry h pdir) irq_handlers)
    | None => None
    end
  else Some irq_handlers.

Definition irq_uninstall_handler (num : Z) (irq_handlers : list irq_handler_entry)
    : option (list irq_handler_entry) :=
  if num <? 16 then
    match zlookup irq_handlers num with
    | Some e => Some (zupdate num (IrqEntry 0 (ipdir e)) irq_handlers)
    | None => None
    end
  else Some irq_handlers.

Definition int_install_handler (num h : Z) (int_handlers : list Z) : option (list Z) :=
  if 48 <=? num then
    match zlookup int_handlers (num - 48) with
    | Some _ => Some (zupdate (num - 48) h int_handlers)
    | None => None
    end
  else Some int_handlers.

Definition int_uninstall_handler (num : Z) (int_handlers : list Z) : option (list Z) :=
  int_install_handler num 0 int_handlers.

(** ** Dispatch

    The handlers run on a state that contains the machine and the tables
    ([Section] variables [tabs] and [lift]); [call h regs] is a call of the
    function at address [h]. *)

Record int_tables := IntTables {
  isr_handlers : list Z;
  irq_handlers : list irq_handler_entry;
  int_handlers : list Z;
}.

(** include/kernel/common.h: struct intregs, [num] is the 13th word. *)
Definition intregs_num (regs : Z) : Z := regs +w 48.

Section Dispatch.
Context {St : Type} (tabs : St -> int_tables) (lift : forall A, M machine A -> M St A).
Variable call : Z -> Z -> M St Z.

Definition tables : M St int_tables := fun s => Ret (tabs s) s.

Definition isr_handler (regs : Z) : M St unit :=
  num ← lift _ (load32 (intregs_num regs));
  if num <? 32 then
    t ← tables;
    match zlookup (isr_handlers t) num with
    | None => undef
    | Some h => if h =? 0 then lift _ (store16 753664 49235)
                else call h regs ≫= fun _ => mret tt
    end
  else mret tt.

Definition irq_handler (regs : Z) : M St Z :=
  num ← lift _ (load32 (intregs_num regs));
  ret ← (if (32 <=? num) && (num <? 48) then
           t ← tables;
           match zlookup (irq_handlers t) (num - 32) with
           | None => undef
           | Some e =>
               if handler e =? 0 then
                 lift _ (store16 753666 49233) ≫= fun _ => mret regs
               else
                 saved_pdir ← lift _ get_cr3;
                 (if negb (ipdir e =? 0) then lift _ (set_cr3 (ipdir e)) else mret tt) ≫= fun _ =>
                 ret ← call (handler e) regs;
                 (if negb (ipdir e =? 0) then lift _ (set_cr3 saved_pdir) else mret tt) ≫= fun _ =>
                 mret ret
           end
         else mret regs);
  num ← lift _ (load32 (intregs_num regs));
  (if 40 <=? num then lift _ (outb 160 32) else mret tt) ≫= fun _ =>
  lift _ (outb 32 32) ≫= fun _ => mret ret.

Definition int_handler (regs : Z) : M St unit :=
  num ← lift _ (load32 (intregs_num regs));
  if 48 <=? num then
    t ← tables;
    match zlookup (int_handlers t) (num - 48) with
    | None => undef
    | Some h => if h =? 0 then lift _ (store16 753668 49230)
                else call h regs ≫= fun _ => mret tt
    end
  else mret tt.
End Dispatch.

(** ** Lemmas on bit-fields *)

Lemma land_ffff z : Z.land z 65535 = z mod 65536.
Proof. change 65535 with (Z.ones 16). by rewrite Z.land_ones by lia. Qed.
Lemma land_ff z : Z.land z 255 = z mod 256.
Proof. change 255 with (Z.ones 8). by rewrite Z.land_ones by lia. Qed.
Lemma land_f z : Z.land z 15 = z mod 16.
Proof. change 15 with (Z.ones 4). by rewrite Z.land_ones by lia. Qed.

(** Taking apart what was packed from fields within their widths. *)
Lemma gdt_bits_fields a b c d e f g :
  0 <= a < 2 ^ 16 -> 0 <= b < 2 ^ 16 -> 0 <= c < 2 ^ 8 -> 0 <= d < 2 ^ 8 ->
  0 <= e < 2 ^ 4 -> 0 <= f < 2 ^ 4 -> 0 <= g < 2 ^ 8 ->
  let bits := gdt_bits (GdtEntry a b c d e f g) in
  bitfield bits 0 16 = a /\ bitfield bits 16 24 = b + 2 ^ 16 * c /\ bitfield bits 40 8 = d /\
  bitfield bits 48 4 = e /\ bitfield bits 52 4 = f /\ bitfield bits 56 8 = g.
Proof.
  intros. unfold bits, bitfield, gdt_bits. cbn [limit_low gbase_low base_mid access limit_high gflags gbase_high].
  rewrite !Z.shiftr_div_pow2 by lia. rewrite Z.pow_0_r, Z.div_1_r.
  change (2 ^ 16) with 65536 in *. change (2 ^ 8) with 256 in *. change (2 ^ 4) with 16 in *.
  change (2 ^ 24) with 16777216. change (2 ^ 32) with 4294967296. change (2 ^ 40) with 1099511627776.
  change (2 ^ 48) with 281474976710656. change (2 ^ 52) with 4503599627370496.
  change (2 ^ 56) with 72057594037927936.
  split; [zdm|]. split; [zdm|]. split; [zdm|]. split; [zdm|]. split; zdm.
Qed.

Lemma segment_fields base limit acc flags :
  0 <= base < 4294967296 -> 0 <= limit < 4294967296 -> 0 <= acc < 256 -> 0 <= flags < 16 ->
  let bits := gdt_bits (segment base limit acc flags) in
  desc_base bits = base /\ desc_limit bits = limit mod 1048576 /\
  desc_access bits = Z.lor 128 acc /\ desc_flags bits = flags.
Proof.
  intros Hb Hl Ha Hf. unfold segment. rewrite !land_ffff, !land_ff, land_f.
  rewrite !Z.shiftr_div_pow2 by lia. unfold GDTE_PRESENT, u8.
  rewrite (Z.mod_small (Z.lor 128 acc)) by (apply (lor_lt_pow2 8); lia).
  pose proof (lor_lt_pow2 8 128 acc ltac:(lia) ltac:(lia) ltac:(lia)) as Hacc.
  change (2 ^ 8) with 256 in Hacc.
  assert (Hm : forall x n, 0 < n -> 0 <= x mod n < n) by (intros; by apply Z.mod_pos_bound).
  unfold desc_base, desc_limit, desc_access, desc_flags.
  destruct (gdt_bits_fields (limit mod 65536) (base mod 65536) (base / 2 ^ 16 mod 256) (Z.lor 128 acc)
              (limit / 2 ^ 16 mod 16) (flags mod 16) (base / 2 ^ 24 mod 256))
    as (E1 & E2 & E3 & E4 & E5 & E6); try (apply Hm; lia); [done|].
  rewrite E1, E2, E3, E4, E5, E6. change (2 ^ 16) with 65536. change (2 ^ 24) with 16777216.
  split; [zdm|]. split; [zdm|]. split; [done|]. zdm.
Qed.

(** A segment descriptor written by gdt_set_segment is taken apart by the
    processor into the base, the low 20 bits of the limit, the access byte
    with the present bit, and the flags it was given. *)
Theorem gdt_segment_decodes base limit acc flags :
  0 <= base < 4294967296 -> 0 <= limit < 4294967296 -> 0 <= acc < 256 -> 0 <= flags < 16 ->
  let bits := gdt_bits (segment base limit acc flags) in
  desc_base bits = base /\ desc_limit bits = limit mod 1048576 /\
  desc_access bits = Z.lor 128 acc /\ desc_flags bits = flags.
Proof. apply segment_fields. Qed.

Lemma gdt_segment_decodes_witness :
  let bits := gdt_bits (segment 3758096384 4294967295 26 12) in
  desc_base bits = 3758096384 /\ desc_limit bits = 4294967295 mod 1048576 /\
  desc_access bits = Z.lor 128 26 /\ desc_flags bits = 12.
Proof. apply (gdt_segment_decodes 3758096384 4294967295 26 12); lia. Defined.

(** What gdt_init sets up: a null descriptor and four flat 4 GiB segments,
    at privilege 0 for the kernel's selectors and 3 for the user's, and a task
    state segment at the address of the structure whose ring-0 stack is the
    kernel stack.  The limit of the TSS descriptor is the address after the
    structure, truncated to 20 bits, where the size less one is meant. *)
Theorem gdt_init_segments tss_base top gdt :
  length gdt = 6%nat -> 0 <= tss_base < 4294967296 ->
  exists kc kd uc ud ts t,
    gdt_init tss_base top gdt = Some ([GdtEntry 0 0 0 0 0 0 0; kc; kd; uc; ud; ts], t) /\
    Forall (fun e => desc_base (gdt_bits e) = 0 /\ desc_limit (gdt_bits e) = 1048575 /\
                     desc_flags (gdt_bits e) = 12) [kc; kd; uc; ud] /\
    map (fun e => desc_dpl (gdt_bits e)) [kc; kd; uc; ud] = [0; 0; 3; 3] /\
    desc_base (gdt_bits ts) = tss_base /\ desc_limit (gdt_bits ts) = (tss_base + 104) mod 1048576 /\
    esp0 t = top /\ ss0 t = SEG_KDATA.
Proof.
  intros Hl Hb. destruct gdt as [|g0 [|g1 [|g2 [|g3 [|g4 [|g5 [|? ?]]]]]]]; try done.
  do 6 eexists. split; [reflexivity|]. split; [repeat (constructor; [vm_compute; auto|]); constructor|].
  split; [reflexivity|].
  destruct (segment_fields tss_base (tss_base +w sizeof_tss_entry)
    (Z.lor (Z.lor (Z.lor GDTE_DPL_USER GDTE_X) GDTE_A) GDTE_TSS) (Z.lor GDTE_BYTE_GRAN GDTE_32_BIT))
    as (E1 & E2 & _ & _); [done|apply u32_range|vm_compute; intuition congruence|vm_compute; intuition congruence|].
  split; [exact E1|]. split; [|done]. etransitivity; [exact E2|]. unfold u32, sizeof_tss_entry. zdm.
Qed.

Lemma gdt_init_segments_witness :
  exists kc kd uc ud ts t,
    gdt_init 3759243264 3759239168 (repeat (GdtEntry 0 0 0 0 0 0 0) 6) =
      Some ([GdtEntry 0 0 0 0 0 0 0; kc; kd; uc; ud; ts], t) /\
    Forall (fun e => desc_base (gdt_bits e) = 0 /\ desc_limit (gdt_bits e) = 1048575 /\
                     desc_flags (gdt_bits e) = 12) [kc; kd; uc; ud] /\
    map (fun e => desc_dpl (gdt_bits e)) [kc; kd; uc; ud] = [0; 0; 3; 3] /\
    desc_base (gdt_bits ts) = 3759243264 /\ desc_limit (gdt_bits ts) = (3759243264 + 104) mod 1048576 /\
    esp0 t = 3759239168 /\ ss0 t = SEG_KDATA.
Proof. apply (gdt_init_segments 3759243264 3759239168 (repeat (GdtEntry 0 0 0 0 0 0 0) 6)); [done|lia]. Defined.

(** ** Gates *)

Lemma gate_base base : 0 <= base < 4294967296 ->
  Z.lor (Z.shiftl (Z.shiftr (Z.land base 4294901760) 16) 16) (Z.land base 65535) = base.
Proof.
  intros Hb. change 4294901760 with (2 ^ 32 - 2 ^ 16). rewrite (land_clear_low 16) by (done || lia).
  rewrite land_ffff, Z.shiftr_div_pow2, Z.shiftl_mul_pow2 by lia. change (2 ^ 16) with 65536.
  rewrite (lor_add_low 16) by (change (2 ^ 16) with 65536; zdm). zdm.
Qed.

Lemma set_gate_get num num' base sg flags idt : length idt = 256%nat ->
  0 <= num < 256 -> 0 <= num' < 256 -> 0 <= base < 4294967296 ->
  idt_get_gate num' (idt_set_gate num base sg flags idt) =
    if decide (num' = num) then Some base else idt_get_gate num' idt.
Proof.
  intros Hl Hn Hn' Hb. unfold idt_get_gate, idt_set_gate, u8. rewrite (Z.mod_small num'), (Z.mod_small num) by lia.
  case_decide as He.
  - subst. rewrite zlookup_zupdate_eq by lia. cbn [gate_low gate_high]. by rewrite gate_base.
  - by rewrite zlookup_zupdate_ne by lia.
Qed.

Lemma set_gates_get n num stub i idt num' : length idt = 256%nat -> 0 <= num -> num + Z.of_nat n <= 256 ->
  0 <= num' < 256 -> (forall j, 0 <= stub j < 4294967296) ->
  idt_get_gate num' (set_gates n num stub i idt) =
    if decide (num <= num' < num + Z.of_nat n) then Some (stub (i + (num' - num))) else idt_get_gate num' idt.
Proof.
  revert num i idt. induction n as [|n IH]; intros num i idt Hl Hn Hb Hn' Hs; cbn [set_gates].
  - rewrite decide_False by lia. done.
  - rewrite IH by (unfold idt_set_gate; rewrite ?zupdate_length; lia || done).
    rewrite set_gate_get by (done || lia). repeat case_decide; subst; try lia; try done; do 2 f_equal; lia.
Qed.

Lemma set_gates_length n num stub i idt : length (set_gates n num stub i idt) = length idt.
Proof.
  revert num i idt. induction n as [|n IH]; intros; cbn [set_gates]; [done|].
  rewrite IH. unfold idt_set_gate. apply zupdate_length.
Qed.

(** After idt_init every exception vector leads to its own stub, every
    vector 32 to 47 to the stub of its IRQ, and no other gate is set. *)
Theorem idt_init_gates_lead idt isr irq num :
  length idt = 256%nat -> 0 <= num < 256 ->
  (forall j, 0 <= isr j < 4294967296) -> (forall j, 0 <= irq j < 4294967296) ->
  idt_get_gate num (idt_init_gates isr irq idt) =
    Some (if num <? 32 then isr num else if num <? 48 then irq (num - 32) else 0).
Proof.
  intros Hl Hn Hi Hq. unfold idt_init_gates. rewrite Hl.
  assert (Hrep : length (repeat (IdtEntry 0 0 0 0 0) 256) = 256%nat) by apply repeat_length.
  rewrite set_gates_get by (rewrite ?set_gates_length; done || lia).
  rewrite set_gates_get by (done || lia).
  destruct (Z.ltb_spec num 32); [rewrite decide_False, decide_True by lia; do 2 f_equal; lia|].
  destruct (Z.ltb_spec num 48); [rewrite decide_True by lia; done|].
  rewrite !decide_False by lia. unfold idt_get_gate, u8. rewrite Z.mod_small by done.
  unfold zlookup. destruct (Z.ltb_spec num 0); [lia|].
  destruct (repeat (IdtEntry 0 0 0 0 0) 256 !! Z.to_nat num) as [e|] eqn:E.
  - apply list_elem_of_lookup_2, list_elem_of_In, repeat_spec in E as ->. done.
  - apply lookup_ge_None in E. rewrite Hrep in E. lia.
Qed.

Lemma idt_init_gates_lead_witness :
  idt_get_gate 33 (idt_init_gates (fun i => 1048576 + i mod 32 * 16) (fun i => 1049088 + i mod 16 * 16)
                     (repeat (IdtEntry 1 1 1 1 1) 256)) = Some (1049088 + 1 mod 16 * 16).
Proof.
  apply (idt_init_gates_lead (repeat (IdtEntry 1 1 1 1 1) 256) (fun i => 1048576 + i mod 32 * 16)
           (fun i => 1049088 + i mod 16 * 16) 33); [done|lia| |]; intros j; zdm.
Defined.

(** ** Acknowledging an interrupt *)

Section Irq.
Context {St : Type} (tabs : St -> int_tables) (getm : St -> machine) (setm : machine -> St -> St).
Variable call : Z -> Z -> M St Z.
Hypothesis get_set : forall m s, getm (setm m s) = m.

Definition with_cr3 (pdir : Z) (s : St) : St :=
  setm (Machine (phys (getm s)) pdir (ports (getm s))) s.
Definition cr3_of (s : St) : Z := cr3 (getm s).
Definition regs_num (regs num : Z) (s : St) : Prop := load32 (intregs_num regs) (getm s) = Ret num (getm s).

(** The end-of-interrupt commands for [num], latest first. *)
Definition eois (num : Z) : list (Z * Z) := (32, 32) :: (if 40 <=? num then [(160, 32)] else []).

Lemma setm_getm_eoi num s :
  exists s', ((if 40 <=? num then zoom getm setm (outb 160 32) else mret tt) ≫= fun _ =>
              zoom getm setm (outb 32 32)) s = Ret tt s' /\
    getm s' = Machine (phys (getm s)) (cr3 (getm s)) (eois num ++ ports (getm s)).
Proof using get_set.
  unfold eois. destruct (40 <=? num); unfold mbind, M_bind, zoom, outb, modify, mret, M_ret;
    cbn [app]; eexists; (split; [reflexivity|]); by rewrite !get_set.
Qed.

Hypothesis set_get : forall s, setm (getm s) s = s.
Definition lift_m A : M machine A -> M St A := zoom getm setm.

Lemma lift_num regs num s : regs_num regs num s ->
  lift_m _ (load32 (intregs_num regs)) s = Ret num s.
Proof using set_get. intros H. unfold lift_m, zoom. rewrite H. by rewrite set_get. Qed.

Lemma lift_set_cr3 pdir s : lift_m _ (set_cr3 pdir) s = Ret tt (with_cr3 pdir s).
Proof. done. Qed.

Lemma irq_handler_acks_aux regs num s e r s1 :
  regs_num regs num s -> 32 <= num < 48 -> zlookup (irq_handlers (tabs s)) (num - 32) = Some e ->
  handler e <> 0 ->
  call (handler e) regs (if ipdir e =? 0 then s else with_cr3 (ipdir e) s) = Ret r s1 ->
  regs_num regs num (if ipdir e =? 0 then s1 else with_cr3 (cr3_of s) s1) ->
  exists s', irq_handler tabs lift_m call regs s = Ret r s' /\
    getm s' = Machine (phys (getm s1)) (if ipdir e =? 0 then cr3_of s1 else cr3_of s)
                (eois num ++ ports (getm s1)).
Proof using get_set set_get.
  intros Hnum Hr He Hh Hcall Hnum2. unfold irq_handler.
  rewrite (bind_Ret _ _ _ _ _ (lift_num _ _ _ Hnum)).
  replace ((32 <=? num) && (num <? 48)) with true by lia.
  set (s2 := if ipdir e =? 0 then s1 else with_cr3 (cr3_of s) s1) in *.
  erewrite (bind_Ret _ _ s r s2).
  - rewrite (bind_Ret _ _ _ _ _ (lift_num _ _ _ Hnum2)).
    destruct (setm_getm_eoi num s2) as (s' & Hs' & Hg).
    exists s'. split.
    + apply bind_inv in Hs' as (? & sx & H1 & H2).
      rewrite (bind_Ret _ _ _ _ _ H1). by rewrite (bind_Ret _ _ _ _ _ H2).
    + rewrite Hg. unfold s2. destruct (ipdir e =? 0); [done|]. unfold with_cr3. by rewrite get_set.
  - erewrite (bind_Ret (tables tabs)) by done. rewrite He.
    destruct (Z.eqb_spec (handler e) 0); [done|].
    erewrite bind_Ret by (unfold lift_m, zoom, get_cr3; rewrite set_get; done).
    unfold s2. destruct (ipdir e =? 0); cbn [negb].
    + erewrite (bind_Ret (mret tt)) by done. rewrite (bind_Ret _ _ _ _ _ Hcall). done.
    + rewrite (bind_Ret _ _ _ _ _ (lift_set_cr3 _ _)), (bind_Ret _ _ _ _ _ Hcall).
      by rewrite (bind_Ret _ _ _ _ _ (lift_set_cr3 _ _)).
Qed.
End Irq.

(** C32: A hardware interrupt with a handler is dispatched to it, in the address
    space registered with the handler, and acknowledged: afterwards the
    processor is back in the interrupted address space and the master
    controller, and for IRQ 8 to 15 the slave before it, got the end of
    interrupt last.  The laws of [getm] and [setm] say that the machine is a
    component of the state. *)
Theorem irq_handler_acks {St} (tabs : St -> int_tables) (getm : St -> machine) (setm : machine -> St -> St)
    (call : Z -> Z -> M St Z) regs num s e r s1 :
  (forall m s, getm (setm m s) = m) -> (forall s, setm (getm s) s = s) ->
  regs_num getm regs num s -> 32 <= num < 48 -> zlookup (irq_handlers (tabs s)) (num - 32) = Some e ->
  handler e <> 0 ->
  call (handler e) regs (if ipdir e =? 0 then s else with_cr3 getm setm (ipdir e) s) = Ret r s1 ->
  regs_num getm regs num (if ipdir e =? 0 then s1 else with_cr3 getm setm (cr3_of getm s) s1) ->
  exists s', irq_handler tabs (lift_m getm setm) call regs s = Ret r s' /\
    getm s' = Machine (phys (getm s1)) (if ipdir e =? 0 then cr3_of getm s1 else cr3_of getm s)
                (eois num ++ ports (getm s1)).
Proof. intros Hgs Hsg. by apply irq_handler_acks_aux. Qed.

(** A machine whose low 4 MiB are mapped to themselves by one page table at
    2 MiB, and a saved frame for IRQ 12 at 0x3000.  One directory, at 1 MiB, is
    in use, another, at 3 MiB, is the handler's. *)
Definition irq_phys : gmap Z byte :=
  pstore32 3145728 2097155 (pstore32 1048576 2097155 (pstore32 (2097152 + 12) 12291 (pstore32 (12288 + 48) 44 ∅))).
Definition irq_state : machine * int_tables :=
  (Machine irq_phys 1048576 [],
   IntTables (repeat 0 32) (zupdate 12 (IrqEntry 4096 3145728) (repeat (IrqEntry 0 0) 16)) (repeat 0 208)).

(** A handler that notes its address and the address space it runs in *)
Definition noting (h regs : Z) : M (machine * int_tables) Z := fun s =>
  Ret regs (Machine (phys (fst s)) (cr3 (fst s)) ((h, cr3 (fst s)) :: ports (fst s)), snd s).

Lemma irq_handler_acks_witness :
  exists s', irq_handler snd (lift_m fst (fun m s => (m, snd s))) noting 12288 irq_state = Ret 12288 s' /\
    fst s' = Machine irq_phys 1048576 [(32, 32); (160, 32); (4096, 3145728)].
Proof.
  apply (irq_handler_acks snd fst (fun m s => (m, snd s)) noting 12288 44 irq_state (IrqEntry 4096 3145728) 12288
           (Machine irq_phys 3145728 [(4096, 3145728)], snd irq_state)).
  - done.
  - by intros [].
  - vm_compute. reflexivity.
  - lia.
  - reflexivity.
  - done.
  - reflexivity.
  - vm_compute. reflexivity.
Defined.
