(* ===== verification/Proc.v ===== *)
(** * Proc.v: processes and the scheduler (kernel/proc.c, include/kernel/proc.h,
      kernel/elf.c)

    The process table is an array of [NPROCS] records; a [struct proc *] is
    the index of its slot, NULL is [None].  The [recv_queue] head of a slot
    stays in memory, at its offset in the C structure, because the queue
    macros store pointers to it.  The rest of the table is a value beside
    memory: a write through memory that reaches procs[] has no effect here,
    and whoever reasons about whole runs has to exclude it ([keeps_own] of
    System.v).  The link-time addresses the code uses are
    the fields of [symbols].  [cli], the log messages and the endless loop of
    the idle process are left out. *)

From S2P Require Import Prelude Memory Machine Pm Vm Heap Queue Desc.

(** include/kernel/config.h, include/kernel/proc.h *)
Definition NPROCS : Z := 64.
Definition MAX_PROC_NAME_LEN : Z := 32.

Inductive proc_state :=
| PROC_UNUSED | PROC_RUNNING | PROC_READY
| PROC_SEND_BLOCKED | PROC_RECV_BLOCKED | PROC_REPLY_BLOCKED.

#[export] Instance proc_state_eq_dec : EqDecision proc_state.
Proof. solve_decision. Defined.

Record proc := Proc {
  pid : Z;                   (* unsigned *)
  state : proc_state;
  name : list byte;          (* char[MAX_PROC_NAME_LEN + 1] *)
  privileged : bool;
  superuser : bool;
  trapframe : Z;
  kstack : Z;
  ustack : Z;
  pdir : Z;
  memsz : Z;
  loc_address : Z;           (* location.memory.address *)
  loc_size : Z;              (* location.memory.size *)
}.

(** sizeof(struct proc) and the offset of recv_queue in it *)
Definition sizeof_proc : Z := 88.
Definition recv_queue_off : Z := 80.

Record ptable := PTable {
  procs : list proc;
  next_pid : Z;
  idle : option Z;
  current_proc : option Z;
  scheduling_enabled : bool;
  rr : Z;                    (* the static [i] of find_next_proc *)
}.

Definition set_procs (l : list proc) (t : ptable) : ptable :=
  PTable l (next_pid t) (idle t) (current_proc t) (scheduling_enabled t) (rr t).
Definition set_rr (i : Z) (t : ptable) : ptable :=
  PTable (procs t) (next_pid t) (idle t) (current_proc t) (scheduling_enabled t) i.
Definition set_current (c : option Z) (t : ptable) : ptable :=
  PTable (procs t) (next_pid t) (idle t) c (scheduling_enabled t) (rr t).
Definition set_idle (c : option Z) (t : ptable) : ptable :=
  PTable (procs t) (next_pid t) c (current_proc t) (scheduling_enabled t) (rr t).
Definition set_sched (b : bool) (t : ptable) : ptable :=
  PTable (procs t) (next_pid t) (idle t) (current_proc t) b (rr t).
Definition set_next_pid (n : Z) (t : ptable) : ptable :=
  PTable (procs t) n (idle t) (current_proc t) (scheduling_enabled t) (rr t).

(** Field updates of one slot *)
Definition with_state (st : proc_state) (p : proc) : proc :=
  Proc (pid p) st (name p) (privileged p) (superuser p) (trapframe p) (kstack p) (ustack p)
       (pdir p) (memsz p) (loc_address p) (loc_size p).
Definition with_trapframe (tf : Z) (p : proc) : proc :=
  Proc (pid p) (state p) (name p) (privileged p) (superuser p) tf (kstack p) (ustack p)
       (pdir p) (memsz p) (loc_address p) (loc_size p).
Definition with_location (addr size : Z) (p : proc) : proc :=
  Proc (pid p) (state p) (name p) (privileged p) (superuser p) (trapframe p) (kstack p) (ustack p)
       (pdir p) (memsz p) addr size.

(** [proc->...] through a possibly NULL pointer *)
Definition deref (o : option Z) : M ptable (Z * proc) := fun t =>
  match o with
  | None => Undef
  | Some i => match zlookup (procs t) i with Some p => Ret (i, p) t | None => Undef end
  end.
Definition update (i : Z) (f : proc -> proc) : M ptable unit := fun t =>
  match zlookup (procs t) i with
  | Some p => Ret tt (set_procs (zupdate i (f p) (procs t)) t)
  | None => Undef
  end.

(** ** The table *)

(** One round of the loop of find_next_proc, [left] slots still to visit. *)
Fixpoint find_next_loop (left : nat) (i : Z) (st : proc_state) (t : ptable) : outcome ptable (option Z) :=
  match left with
  | O => Ret None (set_rr i t)
  | S left' =>
      if decide (idle t = Some i) then find_next_loop left' ((i + 1) mod NPROCS) st t
      else
        match zlookup (procs t) i with
        | None => Undef
        | Some p =>
            if decide (state p = st) then Ret (Some i) (set_rr (i + 1) t)
            else find_next_loop left' ((i + 1) mod NPROCS) st t
        end
  end.
Definition find_next_proc (st : proc_state) : M ptable (option Z) := fun t =>
  find_next_loop (Z.to_nat NPROCS) (rr t mod NPROCS) st t.

(** [proc->pid == pid]: the int argument is converted to unsigned. *)
Fixpoint find_pid (l : list proc) (i p : Z) : option Z :=
  match l with
  | [] => None
  | q :: l' => if pid q =? u32 p then Some i else find_pid l' (i + 1) p
  end.
Definition proc_find_by_pid (p : Z) : M ptable (option Z) := fun t =>
  Ret (find_pid (procs t) 0 p) t.

(** The name argument is a string at address [s] of the reader [rd]. *)
Fixpoint find_name (l : list proc) (rd : Z -> option byte) (s : Z) : M ptable Z :=
  match l with
  | [] => mret 0
  | q :: l' =>
      eq ← streq (Z.to_nat (MAX_PROC_NAME_LEN + 1)) (zlookup (name q)) rd 0 s;
      if (eq : bool) then mret (pid q) else find_name l' rd s
  end.
Definition proc_find_by_name (rd : Z -> option byte) (s : Z) : M ptable Z := fun t =>
  find_name (procs t) rd s t.

Definition proc_set_state (p : Z) (st : proc_state) : M ptable unit :=
  o ← proc_find_by_pid p; ip ← deref o; update (fst ip) (with_state st).
Definition proc_awake (p : Z) : M ptable unit :=
  o ← proc_find_by_pid p; ip ← deref o; update (fst ip) (with_state PROC_READY).
Definition blocked (st : proc_state) : bool :=
  match st with
  | PROC_SEND_BLOCKED | PROC_RECV_BLOCKED | PROC_REPLY_BLOCKED => true
  | _ => false
  end.
Definition proc_is_blocked (p : Z) : M ptable bool :=
  o ← proc_find_by_pid p; ip ← deref o; mret (blocked (state (snd ip))).

Definition proc_disable_scheduling : M ptable unit := modify (set_sched false).
Definition proc_enable_scheduling : M ptable unit := modify (set_sched true).
Definition proc_scheduling_enabled : M ptable bool := fun t => Ret (scheduling_enabled t) t.

(** What proc_dump_proc_list prints: one line per slot in use. *)
Definition proc_dump_proc_list (t : ptable) : list (Z * bool * list byte * proc_state * bool * bool) :=
  omap (fun ip : nat * proc =>
          let '(i, p) := ip in
          if decide (state p = PROC_UNUSED) then None
          else Some (pid p, bool_decide (current_proc t = Some (Z.of_nat i)), name p, state p,
                     privileged p, superuser p))
       (imap pair (procs t)).

(** ** The kernel's state *)

Record kst := Kst {
  vm : vmst;
  heap_initialized : bool;
  tss : tss_entry;
  idt : list idt_entry;
  tabs : int_tables;
  pt : ptable;
}.

Definition set_vm (v : vmst) (k : kst) : kst := Kst v (heap_initialized k) (tss k) (idt k) (tabs k) (pt k).
Definition set_pt (t : ptable) (k : kst) : kst := Kst (vm k) (heap_initialized k) (tss k) (idt k) (tabs k) t.
Definition set_tss (t : tss_entry) (k : kst) : kst := Kst (vm k) (heap_initialized k) t (idt k) (tabs k) (pt k).
Definition set_idt (t : list idt_entry) (k : kst) : kst :=
  Kst (vm k) (heap_initialized k) (tss k) t (tabs k) (pt k).
Definition set_tabs (t : int_tables) (k : kst) : kst :=
  Kst (vm k) (heap_initialized k) (tss k) (idt k) t (pt k).

Definition on_vm {A} : M vmst A -> M kst A := zoom vm set_vm.
Definition on_mem {A} (m : M machine A) : M kst A := on_vm (on_mach m).
Definition on_pt {A} : M ptable A -> M kst A := zoom pt set_pt.

(** Addresses fixed by the linker: the process table, the functions whose
    addresses the code takes and its string literals. *)
Record symbols := Symbols {
  sym_procs : Z;
  sym_proc_load : Z;
  sym_msg_dispatcher : Z;
  sym_proc_idle : Z;
  sym_int127 : Z;
  sym_proc_schedule_after_irq : Z;
  str_kernel : Z;
  str_idle : Z;
}.

(** ** Scheduling *)

Definition switch_to (p : proc) : M kst unit :=
  modify (fun k => set_tss (tss_set_esp (kstack p) (tss_set_ss SEG_KDATA (tss k))) k) ≫= fun _ =>
  on_mem (set_cr3 (pdir p)).

Definition proc_schedule_after_irq (cpu_state : Z) : M kst Z :=
  t ← on_pt get;
  if negb (scheduling_enabled t) then mret cpu_state
  else
    match current_proc t with
    | None => mret cpu_state
    | Some c =>
        on_pt (update c (with_trapframe cpu_state)) ≫= fun _ =>
        cur ← on_pt (deref (Some c));
        b ← on_pt (proc_is_blocked (pid (snd cur)));
        (if negb (b : bool) then on_pt (update c (with_state PROC_READY)) else mret tt) ≫= fun _ =>
        found ← on_pt (find_next_proc PROC_READY);
        let next_proc := match found with None => idle t | Some _ => found end in
        if decide (next_proc = Some c) then mret cpu_state
        else
          on_pt (modify (set_current next_proc)) ≫= fun _ =>
          nx ← on_pt (deref next_proc);
          switch_to (snd nx) ≫= fun _ => mret (trapframe (snd nx))
    end.

(** ** Loading a program *)

Definition PT_LOAD : Z := 1.

(** The switch of the loop: PT_LOAD is the only type that does anything. *)
Definition elf_segment (file phdr : Z) : M kst unit :=
  p_type ← on_mem (load32 phdr);
  if p_type =? PT_LOAD then
    p_offset ← on_mem (load32 (phdr +w 4));
    p_vaddr ← on_mem (load32 (phdr +w 8));
    t ← on_pt get;
    cur ← on_pt (deref (current_proc t));
    p_memsz ← on_mem (load32 (phdr +w 20));
    on_vm (map_pages (file +w p_offset) p_vaddr
             (Z.lor PTE_W (if privileged (snd cur) then 0 else PTE_U)) p_memsz)
  else mret tt.

(** The loop over the program headers; [i] is an int, e_phnum a uint16_t. *)
Fixpoint elf_segments (fuel : nat) (file phdr i : Z) : M kst unit :=
  match fuel with
  | O => nofuel
  | S fuel' =>
      e_phnum ← on_mem (load16 (file +w 44));
      if i <? e_phnum then
        elf_segment file phdr ≫= fun _ => elf_segments fuel' file (phdr +w 32) (i + 1)
      else mret tt
  end.
Definition elf_load (file : Z) : M kst Z :=
  e_phoff ← on_mem (load32 (file +w 28));
  elf_segments (Z.to_nat 65537) file (file +w e_phoff) 0 ≫= fun _ =>
  on_mem (load32 (file +w 24)).

(** What proc_load leaves in the registers: the frame popped by iret and the
    data segments. *)
Record iret_frame := IretFrame {
  ir_eip : Z; ir_cs : Z; ir_eflags : Z; ir_esp : Z; ir_ss : Z; ir_ds : Z;
}.

Definition proc_load : M kst iret_frame :=
  t ← on_pt get;
  cur ← on_pt (deref (current_proc t));
  let p := snd cur in
  let addr := loc_address p in
  magic ← on_mem (load32 addr);
  entry ← (if magic =? 1179403647 then elf_load addr else mret addr);
  let user_stack_size := KiB 16 in
  let code_seg := if privileged p then SEG_KCODE else SEG_UCODE in
  let data_seg := if privileged p then SEG_KDATA else SEG_UDATA in
  on_vm (vm_alloc_pages_at (VM_USER_STACK_ADDR -w user_stack_size)
           (if privileged p then 0 else PTE_U) user_stack_size) ≫= fun _ =>
  mret (IretFrame entry code_seg 512 VM_USER_STACK_ADDR data_seg data_seg).

Definition proc_kickoff_first_process : M kst iret_frame :=
  t ← on_pt get;
  cur ← on_pt (deref (current_proc t));
  on_pt (update (fst cur) (with_state PROC_RUNNING)) ≫= fun _ =>
  switch_to (snd cur) ≫= fun _ =>
  on_pt proc_enable_scheduling ≫= fun _ =>
  proc_load.

(** ** Creating processes *)

(** [*--stack = v] for each [v] in turn; returns the final [stack]. *)
Fixpoint push_all (stack : Z) (vs : list Z) : M kst Z :=
  match vs with
  | [] => mret stack
  | v :: vs' => on_vm (vst (stack -w 4) v) ≫= fun _ => push_all (stack -w 4) vs'
  end.

Section Create.
Variable sy : symbols.

Definition recv_queue_at (i : Z) : Z := sym_procs sy +w (sizeof_proc * i) +w recv_queue_off.

(** The frame of a new process, in the order it is pushed: ss, useresp,
    eflags, cs, eip; err, num; eax to edi; ds, es, fs, gs. *)
Definition new_frame (kstk : Z) : list Z :=
  [SEG_KDATA; kstk; 512; SEG_KCODE; sym_proc_load sy; 3735928559; 4276992702;
   0; 0; 0; 0; 0; 0; 0; 0; SEG_KDATA; SEG_KDATA; SEG_KDATA; SEG_KDATA].

Definition proc_new (nm : Z) (priv super : bool) : M kst (option Z) :=
  slot ← on_pt (find_next_proc PROC_UNUSED);
  stack ← on_vm (on_pm pm_alloc);
  on_vm (map_page stack stack PTE_W) ≫= fun _ =>
  t ← on_pt get;
  ip ← on_pt (deref slot);
  let i := fst ip in
  let p := snd ip in
  on_pt (update i (fun p => Proc (next_pid t) PROC_READY (name p) (privileged p) (superuser p)
                                 (trapframe p) (kstack p) (ustack p) (pdir p) (memsz p)
                                 (loc_address p) (loc_size p))) ≫= fun _ =>
  on_pt (modify (set_next_pid (next_pid t +w 1))) ≫= fun _ =>
  new_pdir ← on_vm vm_copy_kernel_pdir;
  let kstk := stack +w PAGE_SIZE in
  on_mem (STAILQ_INIT (recv_queue_at i)) ≫= fun _ =>
  nmb ← on_mem (fun m => match rdn (Z.to_nat MAX_PROC_NAME_LEN) nm m with
                         | Some bs => Ret bs m
                         | None => Faulted nm
                         end);
  frame ← push_all (stack +w PAGE_SIZE) (new_frame kstk);
  on_pt (update i (fun p => Proc (pid p) (state p)
                                 (nmb ++ drop (Z.to_nat MAX_PROC_NAME_LEN) (name p)) priv (superuser p)
                                 frame kstk (ustack p) new_pdir PAGE_SIZE
                                 (loc_address p) (loc_size p))) ≫= fun _ =>
  on_pt (modify (set_current slot)) ≫= fun _ =>
  mret slot.

Definition proc_new_from_memory (nm : Z) (priv super : bool) (addr size : Z) : M kst (option Z) :=
  slot ← proc_new nm priv super;
  ip ← on_pt (deref slot);
  on_pt (update (fst ip) (with_location addr size)) ≫= fun _ => mret slot.

Definition proc_earlyinit : M kst unit :=
  on_pt (modify (fun t => set_procs (map (fun p => Proc 4294967295 PROC_UNUSED (name p) (privileged p)
           (superuser p) (trapframe p) (kstack p) (ustack p) (pdir p) (memsz p) (loc_address p)
           (loc_size p)) (procs t)) t)) ≫= fun _ =>
  modify (fun k => set_idt (idt_set_gate 127 (sym_int127 sy) 8 238 (idt k)) k) ≫= fun _ =>
  k ← get;
  match int_install_handler 127 (sym_proc_schedule_after_irq sy) (int_handlers (tabs k)) with
  | None => undef
  | Some h =>
      put (set_tabs (IntTables (isr_handlers (tabs k)) (irq_handlers (tabs k)) h) k) ≫= fun _ =>
      c ← proc_new_from_memory (str_kernel sy) true true (sym_msg_dispatcher sy) 0;
      on_pt (modify (set_current c)) ≫= fun _ =>
      c ← proc_new_from_memory (str_idle sy) true true (sym_proc_idle sy) 0;
      on_pt (modify (fun t => set_current c (set_idle c t)))
  end.
End Create.

(** ** Round robin *)

(** Slot [i] can be taken by a search for state [st]. *)
Definition eligible (st : proc_state) (t : ptable) (i : Z) : Prop :=
  idle t <> Some i /\ exists p, zlookup (procs t) i = Some p /\ state p = st.

#[export] Instance eligible_dec st t i : Decision (eligible st t i).
Proof.
  unfold eligible. destruct (decide (idle t = Some i)) as [Hi|Hi]; [right; tauto|].
  destruct (zlookup (procs t) i) as [p|]; [|right; intros [_ (p & Hp & _)]; done].
  destruct (decide (state p = st)) as [Hs|Hs]; [left; eauto|right].
  intros [_ (q & [= <-] & Hq)]. done.
Qed.

Definition table_wf (t : ptable) : Prop := Z.of_nat (length (procs t)) = NPROCS.

(** The slot [d] places after [i], around the table. *)
Definition after (i d : Z) : Z := (i + d) mod NPROCS.

Lemma after_range i d : 0 <= after i d < NPROCS.
Proof. apply Z.mod_pos_bound. done. Qed.
Lemma after_0 i : 0 <= i < NPROCS -> after i 0 = i.
Proof. intros. unfold after. rewrite Z.add_0_r. by apply Z.mod_small. Qed.
Lemma after_S i d : after ((i + 1) mod NPROCS) d = after i (d + 1).
Proof. unfold after. rewrite Zplus_mod_idemp_l. f_equal. lia. Qed.

Lemma find_next_loop_step left i st t : table_wf t -> 0 <= i < NPROCS ->
  find_next_loop (S left) i st t =
    if decide (eligible st t i) then Ret (Some i) (set_rr (i + 1) t)
    else find_next_loop left ((i + 1) mod NPROCS) st t.
Proof.
  intros Hwf Hi. cbn [find_next_loop]. unfold table_wf in Hwf.
  destruct (zlookup_in_range (procs t) i) as [p Hp]; [lia|]. rewrite Hp.
  destruct (decide (idle t = Some i)) as [Hid|Hid].
  { rewrite decide_False; [done|]. by intros [? _]. }
  destruct (decide (state p = st)) as [Hs|Hs].
  - rewrite decide_True; [done|]. split; eauto.
  - rewrite decide_False; [done|]. intros [_ (q & Hq & Hq')]. congruence.
Qed.

Lemma find_next_loop_spec left i st t : table_wf t -> 0 <= i < NPROCS ->
  (exists d, 0 <= d < Z.of_nat left /\ eligible st t (after i d) /\
     (forall d', 0 <= d' < d -> ~ eligible st t (after i d')) /\
     find_next_loop left i st t = Ret (Some (after i d)) (set_rr (after i d + 1) t)) \/
  ((forall d, 0 <= d < Z.of_nat left -> ~ eligible st t (after i d)) /\
   find_next_loop left i st t = Ret None (set_rr (after i (Z.of_nat left)) t)).
Proof.
  revert i. induction left as [|left IH]; intros i Hwf Hi.
  - right. split; [lia|]. simpl. by rewrite after_0.
  - rewrite find_next_loop_step by done. case_decide as He.
    + left. exists 0. rewrite after_0 by done. split; [lia|]. split; [done|]. split; [lia|done].
    + destruct (IH ((i + 1) mod NPROCS) Hwf) as [(d & Hd & Hel & Hmin & Hr)|[Hno Hr]];
        [by apply Z.mod_pos_bound| |].
      * left. exists (d + 1). rewrite after_S in *. split; [lia|]. split; [done|]. split; [|done].
        intros d' Hd'. destruct (decide (d' = 0)) as [->|]; [by rewrite after_0|].
        replace d' with (d' - 1 + 1) by lia. rewrite <- after_S. apply Hmin. lia.
      * right. rewrite after_S in Hr. split; [|rewrite Hr; do 3 f_equal; lia].
        intros d' Hd'. destruct (decide (d' = 0)) as [->|]; [by rewrite after_0|].
        replace d' with (d' - 1 + 1) by lia. rewrite <- after_S. apply Hno. lia.
Qed.

(** Every slot is at some distance less than [NPROCS] from any other. *)
Definition dist (i j : Z) : Z := (j - i) mod NPROCS.
Lemma dist_range i j : 0 <= dist i j < NPROCS.
Proof. apply Z.mod_pos_bound. done. Qed.
Lemma after_dist i j : 0 <= j < NPROCS -> after (i mod NPROCS) (dist i j) = j.
Proof. unfold after, dist, NPROCS. intros. zdm. Qed.

Lemma find_next_cases st t : table_wf t ->
  (exists j, 0 <= j < NPROCS /\ eligible st t j /\
     (forall j', 0 <= j' < NPROCS -> eligible st t j' -> dist (rr t) j <= dist (rr t) j') /\
     find_next_proc st t = Ret (Some j) (set_rr (j + 1) t)) \/
  ((forall j, 0 <= j < NPROCS -> ~ eligible st t j) /\
   find_next_proc st t = Ret None (set_rr (rr t mod NPROCS) t)).
Proof.
  intros Hwf. unfold find_next_proc.
  destruct (find_next_loop_spec (Z.to_nat NPROCS) (rr t mod NPROCS) st t Hwf)
    as [(d & Hd & Hel & Hmin & Hr)|[Hno Hr]]; [by apply Z.mod_pos_bound| |].
  - left. exists (after (rr t mod NPROCS) d). split; [apply after_range|]. split; [done|]. split; [|done].
    intros j' Hj' Hel'. pose proof (dist_range (rr t) j'). rewrite Z2Nat.id in Hd by done.
    assert (Hdd : dist (rr t) (after (rr t mod NPROCS) d) = d) by (unfold dist, after, NPROCS in *; zdm).
    rewrite Hdd. destruct (decide (d <= dist (rr t) j')); [done|]. exfalso.
    apply (Hmin (dist (rr t) j')); [lia|]. by rewrite after_dist.
  - right. split.
    + intros j Hj He. rewrite Z2Nat.id in Hno by done. apply (Hno (dist (rr t) j)); [apply dist_range|].
      by rewrite after_dist.
    + rewrite Hr. do 2 f_equal. rewrite Z2Nat.id by done. unfold after, NPROCS. zdm.
Qed.

(** C3: find_next_proc returns the first slot in the wanted state, other than
    the idle process, counting around the table from where the previous
    search left off; it returns NULL exactly when there is none. *)
Theorem find_next_proc_round_robin st t : table_wf t ->
  match find_next_proc st t with
  | Ret (Some j) t' => 0 <= j < NPROCS /\ eligible st t j /\ t' = set_rr (j + 1) t /\
      forall j', 0 <= j' < NPROCS -> eligible st t j' -> dist (rr t) j <= dist (rr t) j'
  | Ret None t' => t' = set_rr (rr t mod NPROCS) t /\ forall j, 0 <= j < NPROCS -> ~ eligible st t j
  | _ => False
  end.
Proof.
  intros Hwf. destruct (find_next_cases st t Hwf) as [(j & Hj & He & Hm & ->)|[Hno ->]]; auto.
Qed.

Lemma find_next_progress st t j : table_wf t -> 0 <= j < NPROCS -> eligible st t j ->
  exists r t', find_next_proc st t = Ret (Some r) t' /\
    (r = j \/ dist (rr t') j < dist (rr t) j).
Proof.
  intros Hwf Hj He. destruct (find_next_cases st t Hwf) as [(r & Hr & _ & Hm & E)|[Hno _]];
    [|by destruct (Hno j Hj)].
  exists r, (set_rr (r + 1) t). split; [done|]. destruct (decide (r = j)) as [->|Hne]; [by left|right].
  specialize (Hm j Hj He). cbn [rr set_rr]. unfold dist, NPROCS in *. zdm.
Qed.

(** C19: The scheduler's search is fair: a process that stays ready is chosen by
    one of any [NPROCS] consecutive searches, whatever happens to the other
    slots between them. *)
Theorem find_next_proc_fair (ts : nat -> ptable) j :
  0 <= j < NPROCS ->
  (forall n, table_wf (ts n) /\ eligible PROC_READY (ts n) j) ->
  (forall n r t', find_next_proc PROC_READY (ts n) = Ret r t' -> rr (ts (S n)) = rr t') ->
  exists n t', (n < 64)%nat /\ find_next_proc PROC_READY (ts n) = Ret (Some j) t'.
Proof.
  intros Hj Hts Hrr.
  assert (Hgen : forall k n, dist (rr (ts n)) j < Z.of_nat k ->
    exists m t', (n <= m < n + k)%nat /\ find_next_proc PROC_READY (ts m) = Ret (Some j) t').
  { induction k as [|k IH]; intros n Hd; [pose proof (dist_range (rr (ts n)) j); lia|].
    destruct (Hts n) as [Hwf He].
    destruct (find_next_progress PROC_READY (ts n) j Hwf Hj He) as (r & t' & Hr & [->|Hlt]).
    - exists n, t'. split; [lia|done].
    - rewrite <- (Hrr _ _ _ Hr) in Hlt. destruct (IH (S n)) as (m & t'' & Hm & Hr'); [lia|].
      exists m, t''. split; [lia|done]. }
  destruct (Hgen 64%nat 0%nat) as (m & t' & Hm & Hr).
  { pose proof (dist_range (rr (ts 0%nat)) j). unfold NPROCS in *. lia. }
  exists m, t'. split; [lia|done].
Qed.

(** ** Looking up processes *)

Lemma find_pid_ext l l' i p : map pid l = map pid l' -> find_pid l i p = find_pid l' i p.
Proof.
  revert l' i. induction l as [|q l IH]; intros [|q' l'] i; simpl; try done. intros [= -> H].
  destruct (pid q' =? u32 p); [done|]. by apply IH.
Qed.

Lemma map_zupdate_same {A B} (f : A -> B) l i x y : zlookup l i = Some x -> f y = f x ->
  map f (zupdate i y l) = map f l.
Proof.
  intros Hx Hf. unfold zlookup, zupdate in *. destruct (i <? 0); [done|].
  change (f <$> <[Z.to_nat i:=y]> l = f <$> l). rewrite list_fmap_insert. apply list_insert_id.
  by rewrite list_lookup_fmap, Hx, Hf.
Qed.

(** The first slot with the pid, or none. *)
Lemma find_pid_spec l i p :
  match find_pid l i p with
  | Some j => i <= j /\ (exists q, zlookup l (j - i) = Some q /\ pid q = u32 p) /\
      forall j' q, i <= j' < j -> zlookup l (j' - i) = Some q -> pid q <> u32 p
  | None => forall q, q ∈ l -> pid q <> u32 p
  end.
Proof.
  revert i. induction l as [|q l IH]; intros i; simpl; [set_solver|].
  destruct (Z.eqb_spec (pid q) (u32 p)) as [He|Hne].
  - split; [lia|]. split; [|lia]. exists q. by rewrite Z.sub_diag.
  - specialize (IH (i + 1)). destruct (find_pid l (i + 1) p) as [j|].
    + destruct IH as (Hj & (q' & Hq & Hp) & Hmin).
      assert (Hsh : forall j', i < j' -> zlookup (q :: l) (j' - i) = zlookup l (j' - (i + 1))).
      { intros j' Hj'. unfold zlookup. destruct (Z.ltb_spec (j' - i) 0); [lia|].
        destruct (Z.ltb_spec (j' - (i + 1)) 0); [lia|].
        replace (Z.to_nat (j' - i)) with (S (Z.to_nat (j' - (i + 1)))) by lia. done. }
      split; [lia|]. split.
      * exists q'. by rewrite Hsh by lia.
      * intros j' q0 Hj' Hq0. destruct (decide (j' = i)) as [->|].
        -- rewrite Z.sub_diag in Hq0. by injection Hq0 as <-.
        -- rewrite Hsh in Hq0 by lia. apply (Hmin j' q0); [lia|done].
    + intros q' [-> | Hin]%elem_of_cons; auto.
Qed.

(** ** The scheduler *)

Lemma on_pt_Ret {A} (m : M ptable A) k a t' : m (pt k) = Ret a t' -> on_pt m k = Ret a (set_pt t' k).
Proof. intros H. unfold on_pt, zoom. by rewrite H. Qed.

Lemma update_Ret i f t p : zlookup (procs t) i = Some p ->
  update i f t = Ret tt (set_procs (zupdate i (f p) (procs t)) t).
Proof. intros H. unfold update. by rewrite H. Qed.
Lemma deref_Ret i t p : zlookup (procs t) i = Some p -> deref (Some i) t = Ret (i, p) t.
Proof. intros H. unfold deref. by rewrite H. Qed.

Lemma zupdate_zupdate {A} i (x y : A) l : zupdate i x (zupdate i y l) = zupdate i x l.
Proof. unfold zupdate. destruct (i <? 0); [done|]. apply list_insert_insert_eq. Qed.

Lemma set_pt_pt t k : pt (set_pt t k) = t.
Proof. done. Qed.
Lemma set_pt_id k : set_pt (pt k) k = k.
Proof. by destruct k. Qed.

(** What the interrupted process [p] looks like after its state was saved. *)
Definition preempted (cpu_state : Z) (p : proc) : proc :=
  with_state (if blocked (state p) then state p else PROC_READY) (with_trapframe cpu_state p).

Lemma proc_is_blocked_Ret t c p : find_pid (procs t) 0 (pid p) = Some c -> zlookup (procs t) c = Some p ->
  proc_is_blocked (pid p) t = Ret (blocked (state p)) t.
Proof.
  intros Hf Hp. unfold proc_is_blocked. erewrite bind_Ret by (unfold proc_find_by_pid; by rewrite Hf).
  by rewrite (bind_Ret _ _ _ _ _ (deref_Ret _ _ _ Hp)).
Qed.

Lemma schedule_prefix k cpu c p : scheduling_enabled (pt k) = true -> current_proc (pt k) = Some c ->
  zlookup (procs (pt k)) c = Some p -> find_pid (procs (pt k)) 0 (pid p) = Some c ->
  let t1 := set_procs (zupdate c (preempted cpu p) (procs (pt k))) (pt k) in
  proc_schedule_after_irq cpu k =
    (found ← on_pt (find_next_proc PROC_READY);
     let next_proc := match found with None => idle (pt k) | Some _ => found end in
     if decide (next_proc = Some c) then mret cpu
     else on_pt (modify (set_current next_proc)) ≫= fun _ =>
          nx ← on_pt (deref next_proc);
          switch_to (snd nx) ≫= fun _ => mret (trapframe (snd nx))) (set_pt t1 k).
Proof.
  intros Hs Hc Hp Hf t1. unfold proc_schedule_after_irq.
  erewrite (bind_Ret (on_pt get)) by (by apply on_pt_Ret). rewrite Hs, Hc. cbn [negb]. rewrite set_pt_id.
  pose proof (zlookup_Some_range _ _ _ Hp) as Hcr.
  erewrite (bind_Ret (on_pt (update c _))) by (apply on_pt_Ret, update_Ret, Hp).
  set (t0 := set_procs (zupdate c (with_trapframe cpu p) (procs (pt k))) (pt k)).
  assert (Hp0 : zlookup (procs t0) c = Some (with_trapframe cpu p)) by (by apply zlookup_zupdate_eq).
  assert (Hf0 : find_pid (procs t0) 0 (pid (with_trapframe cpu p)) = Some c).
  { rewrite <- Hf. apply find_pid_ext. by apply (map_zupdate_same pid _ _ p). }
  erewrite (bind_Ret (on_pt (deref _))) by (apply on_pt_Ret, deref_Ret, Hp0). cbn [snd].
  erewrite (bind_Ret (on_pt (proc_is_blocked _))) by (by apply on_pt_Ret, proc_is_blocked_Ret with (c := c)).
  change (state (with_trapframe cpu p)) with (state p).
  rewrite !set_pt_pt. unfold t1, preempted. destruct (blocked (state p)) eqn:Hb; cbn [negb].
  - erewrite (bind_Ret (mret tt)) by done.
    replace (with_state (state p) (with_trapframe cpu p)) with (with_trapframe cpu p) by done. done.
  - erewrite (bind_Ret (on_pt (update c _))) by (apply on_pt_Ret, update_Ret, Hp0).
    rewrite !set_pt_pt. unfold t0, set_procs. cbn [procs]. rewrite zupdate_zupdate. done.
Qed.

(** C20: A timer interrupt or a yield, with scheduling on, saves the frame of
    the current process, makes it ready unless it is blocked, and switches to
    the next ready process around the table, or to idle when there is none:
    the frame returned, the address space and the kernel stack are those of
    the process that becomes current, which is never a blocked one unless it
    is idle.  When that is the same process nothing is switched. *)
Theorem proc_schedule_after_irq_switches k cpu c p d :
  table_wf (pt k) -> scheduling_enabled (pt k) = true -> current_proc (pt k) = Some c ->
  zlookup (procs (pt k)) c = Some p -> find_pid (procs (pt k)) 0 (pid p) = Some c ->
  idle (pt k) = Some d -> 0 <= d < NPROCS ->
  let t1 := set_procs (zupdate c (preempted cpu p) (procs (pt k))) (pt k) in
  exists n q k', zlookup (procs t1) n = Some q /\
    (eligible PROC_READY t1 n \/ (n = d /\ forall j, 0 <= j < NPROCS -> ~ eligible PROC_READY t1 j)) /\
    proc_schedule_after_irq cpu k = Ret (trapframe q) k' /\
    procs (pt k') = procs t1 /\ current_proc (pt k') = Some n /\
    (if decide (n = c) then vm k' = vm k /\ tss k' = tss k
     else cr3 (mach (vm k')) = pdir q /\ esp0 (tss k') = kstack q /\ ss0 (tss k') = SEG_KDATA).
Proof.
  intros Hwf Hs Hc Hp Hf Hid Hd t1. rewrite (schedule_prefix k cpu c p) by done. fold t1.
  pose proof (zlookup_Some_range _ _ _ Hp) as Hcr.
  assert (Hwf1 : table_wf t1) by (unfold table_wf in *; cbn [procs t1 set_procs]; by rewrite zupdate_length).
  assert (Hpc : zlookup (procs t1) c = Some (preempted cpu p)) by (by apply zlookup_zupdate_eq).
  assert (Hch : exists n r, find_next_proc PROC_READY t1 = Ret r (set_rr (rr (match find_next_proc PROC_READY t1 with Ret _ t => t | _ => t1 end)) t1) /\
    match r with None => idle (pt k) | Some _ => r end = Some n /\ 0 <= n < NPROCS /\
    (eligible PROC_READY t1 n \/ (n = d /\ forall j, 0 <= j < NPROCS -> ~ eligible PROC_READY t1 j))).
  { destruct (find_next_cases PROC_READY t1 Hwf1) as [(j & Hj & He & _ & ->)|[Hno ->]].
    - exists j, (Some j). auto.
    - exists d, None. auto 6. }
  destruct Hch as (n & r & Hfind & Hr & Hn & Hcase). set (i' := rr _) in Hfind.
  erewrite (bind_Ret (on_pt (find_next_proc _))) by (by apply on_pt_Ret). rewrite Hr. cbv zeta.
  destruct (zlookup_in_range (procs t1) n) as [q Hq]; [unfold table_wf in Hwf1; lia|].
  exists n, q. destruct (decide (n = c)) as [->|Hne].
  - rewrite decide_True by done. rewrite Hpc in Hq. injection Hq as <-.
    eexists. split; [done|]. split; [done|]. split; [reflexivity|]. done.
  - rewrite decide_False by congruence. eexists. split; [done|]. split; [done|]. split.
    + erewrite (bind_Ret (on_pt (modify _))) by (apply on_pt_Ret; reflexivity).
      erewrite (bind_Ret (on_pt (deref _))) by (apply on_pt_Ret, deref_Ret; exact Hq). reflexivity.
    + done.
Qed.

(** ** Creating a process *)

Lemma on_vm_pt {A} (m : M vmst A) k a k' : on_vm m k = Ret a k' -> pt k' = pt k.
Proof. unfold on_vm, zoom. destruct (m (vm k)); try discriminate. by intros [= <- <-]. Qed.
Lemma on_mem_pt {A} (m : M machine A) k a k' : on_mem m k = Ret a k' -> pt k' = pt k.
Proof. apply on_vm_pt. Qed.
Lemma on_pt_inv {A} (m : M ptable A) k a k' : on_pt m k = Ret a k' -> m (pt k) = Ret a (pt k').
Proof. unfold on_pt, zoom. destruct (m (pt k)); try discriminate. by intros [= <- <-]. Qed.

Lemma push_all_pt vs stack k a k' : push_all stack vs k = Ret a k' -> pt k' = pt k /\ a = stack -w (4 * Z.of_nat (length vs)) \/ vs = [] /\ k' = k /\ a = stack.
Proof.
  revert stack k. induction vs as [|v vs IH]; intros stack k H.
  - right. apply ret_inv in H as [-> ->]. done.
  - left. cbn [push_all] in H. apply bind_inv in H as ([] & k1 & H1 & H2). apply on_vm_pt in H1.
    destruct (IH _ _ H2) as [[Hp ->]|(-> & -> & ->)].
    + split; [congruence|]. rewrite u32_sub_l. f_equal. simpl. lia.
    + done.
Qed.

Lemma deref_inv o t i p t' : deref o t = Ret (i, p) t' -> o = Some i /\ zlookup (procs t) i = Some p /\ t' = t.
Proof.
  unfold deref. destruct o as [j|]; [|done]. destruct (zlookup (procs t) j) eqn:E; [|done].
  by intros [= <- <- <-].
Qed.
Lemma update_inv i f t t' : update i f t = Ret tt t' ->
  exists p, zlookup (procs t) i = Some p /\ t' = set_procs (zupdate i (f p) (procs t)) t.
Proof. unfold update. destruct (zlookup (procs t) i) eqn:E; [|done]. intros [= <-]. eauto. Qed.

(** Taking a run of a bound computation apart, one step per call. *)
Ltac step H a k' H1 := apply bind_inv in H as (a & k' & H1 & H).

Strategy expand [proc_new].

(** With the process table full, proc_new goes on with the NULL that
    find_next_proc gave it: once the page for the stack is mapped, it writes
    through it. *)
Theorem proc_new_full_table sy nm priv super k v' :
  table_wf (pt k) -> (forall j, 0 <= j < NPROCS -> ~ eligible PROC_UNUSED (pt k) j) ->
  (stack ← on_pm pm_alloc; map_page stack stack PTE_W) (vm k) = Ret tt v' ->
  proc_new sy nm priv super k = Undef.
Proof.
  intros Hwf Hno H. step H a v1 Ha. unfold proc_new.
  destruct (find_next_cases PROC_UNUSED (pt k) Hwf) as [(j & Hj & He & _)|[_ E]]; [by destruct (Hno j)|].
  rewrite (bind_Ret _ _ _ _ _ (on_pt_Ret _ _ _ _ E)).
  rewrite (bind_Ret _ _ _ a (set_vm v1 (set_pt (set_rr (rr (pt k) mod NPROCS) (pt k)) k)))
    by (unfold on_vm, zoom; cbn [set_pt vm]; by rewrite Ha).
  rewrite (bind_Ret _ _ _ tt (set_vm v' (set_pt (set_rr (rr (pt k) mod NPROCS) (pt k)) k)))
    by (unfold on_vm, zoom; cbn [set_pt set_vm vm]; by rewrite H).
  done.
Qed.

(** The slot [i] of [t] was given to a new process. *)
Record created (t t' : ptable) (i : Z) (priv : bool) : Prop := {
  cr_was : exists p, zlookup (procs t) i = Some p /\ state p = PROC_UNUSED /\
    exists p', procs t' = zupdate i p' (procs t) /\
      pid p' = next_pid t /\ state p' = PROC_READY /\ privileged p' = priv /\
      superuser p' = superuser p /\ drop 32 (name p') = drop 32 (name p) /\
      trapframe p' = kstack p' -w 76 /\ memsz p' = PAGE_SIZE;
  cr_next : next_pid t' = next_pid t +w 1;
  cr_cur : current_proc t' = Some i;
  cr_idle : idle t' = idle t;
  cr_rr : rr t' = i + 1;
  cr_sched : scheduling_enabled t' = scheduling_enabled t;
}.

Lemma rdn_length {S} `{MemOps S} n a (s : S) bs : rdn n a s = Some bs -> length bs = n.
Proof.
  revert a bs. induction n as [|n IH]; intros a bs Hb; [by injection Hb as <-|].
  simpl in Hb. destruct (rd8 a s); [|done]. simpl in Hb.
  destruct (rdn n (a +w 1) s) eqn:E; [|done]. simpl in Hb. injection Hb as <-.
  simpl. f_equal. by apply (IH _ _ E).
Qed.

Lemma found_slot t r t' : table_wf t -> find_next_proc PROC_UNUSED t = Ret r t' ->
  procs t' = procs t /\ next_pid t' = next_pid t /\ idle t' = idle t /\
  scheduling_enabled t' = scheduling_enabled t /\
  forall i, r = Some i -> rr t' = i + 1 /\ 0 <= i < NPROCS /\ idle t <> Some i /\
    exists p, zlookup (procs t) i = Some p /\ state p = PROC_UNUSED.
Proof.
  intros Hwf H. destruct (find_next_cases PROC_UNUSED t Hwf) as [(j & Hj & [Hi He] & _ & E)|[_ E]];
    rewrite E in H; apply ret_inj in H as [<- <-]; split_and!; try done.
  intros i [= <-]. done.
Qed.

Lemma proc_new_created sy nm priv super k r k' : table_wf (pt k) ->
  proc_new sy nm priv super k = Ret r k' ->
  exists i, r = Some i /\ 0 <= i < NPROCS /\ idle (pt k) <> Some i /\ created (pt k) (pt k') i priv.
Proof.
  intros Hwf H. unfold proc_new in H.
  step H slot k1 H1. step H stack k2 H2. step H u1 k3 H3. step H t k4 H4. step H ip k5 H5. destruct ip as [i p].
  step H u2 k6 H6. step H u3 k7 H7. step H npd k8 H8. step H u4 k9 H9. step H nmb k10 H10.
  step H frm k11 H11. step H u5 k12 H12. step H u6 k13 H13. apply ret_inv in H as [<- <-].
  assert (Hnmb : length nmb = Z.to_nat MAX_PROC_NAME_LEN).
  { clear -H10. unfold on_mem, on_vm, on_mach, zoom in H10.
    destruct (rdn (Z.to_nat MAX_PROC_NAME_LEN) nm (mach (vm k9))) as [bs|] eqn:E; [|done].
    apply ret_inj in H10 as [<- _]. by apply rdn_length in E. }
  apply on_mem_pt in H10. destruct (push_all_pt _ _ _ _ _ H11) as [[H11p Hfr]|[? _]]; [|done]. clear H11.
  apply on_pt_inv in H1, H4, H5, H6, H7, H12, H13. apply on_vm_pt in H2, H3, H8. apply on_mem_pt in H9.
  cbn [fst snd] in *. destruct u2, u5.
  destruct (found_slot _ _ _ Hwf H1) as (Hpr & Hnp & Hidl & Hsch & Hslot). clear H1.
  apply ret_inj in H4 as [<- H4]. apply deref_inv in H5 as (-> & Hp & H5).
  destruct (Hslot i eq_refl) as (Hrri & Hir & Hni & p0 & Hp0 & Hst). clear Hslot.
  assert (E5 : procs (pt k5) = procs (pt k) /\ next_pid (pt k5) = next_pid (pt k) /\ idle (pt k5) = idle (pt k) /\
    rr (pt k5) = i + 1 /\ scheduling_enabled (pt k5) = scheduling_enabled (pt k)).
  { rewrite H5, <- H4, H3, H2. done. }
  assert (E3 : next_pid (pt k3) = next_pid (pt k)) by (rewrite H3, H2; done).
  clear H5 H4 H3 H2. destruct E5 as (E5p & E5n & E5i & E5r & E5s).
  apply update_inv in H6 as (p1 & Hp1 & H6). rewrite E5p, Hp0 in Hp1. injection Hp1 as <-.
  apply ret_inj in H7 as [_ H7]. apply update_inv in H12 as (p2 & Hp2 & H12). apply ret_inj in H13 as [_ H13].
  rewrite H11p, H10, H9, H8, <- H7, H6 in Hp2, H12. unfold set_procs, set_next_pid in Hp2, H12.
  cbn [procs] in Hp2, H12.
  pose proof (zlookup_Some_range _ _ _ Hp0) as Hr0.
  rewrite E5p, zlookup_zupdate_eq in Hp2 by done. injection Hp2 as <-.
  exists i. split; [done|]. split; [done|]. split; [done|].
  rewrite <- H13, H12. unfold set_current. cbn [procs next_pid idle current_proc rr scheduling_enabled].
  rewrite zupdate_zupdate, E5p.
  split; cbn [procs next_pid idle current_proc rr scheduling_enabled]; [|by rewrite E3|done..].
  exists p0. split; [done|]. split; [done|]. eexists. split; [reflexivity|]. split_and!; try done.
  - cbn [name]. rewrite drop_app_length' by done. done.
Qed.

(** C33: A successful proc_new takes an unused slot other than idle's, gives it
    the next pid, the ready state and the requested privilege, sets its frame
    19 words below its kernel stack, makes it current and leaves every other
    slot alone.  The superuser flag asked for is not stored. *)
Theorem proc_new_takes_slot sy nm priv super k r k' : table_wf (pt k) ->
  proc_new sy nm priv super k = Ret r k' ->
  exists i, r = Some i /\ 0 <= i < NPROCS /\ idle (pt k) <> Some i /\ created (pt k) (pt k') i priv.
Proof. apply proc_new_created. Qed.

(** ** Names *)

(** The string a character array holds: the bytes before its first NUL. *)
Fixpoint cname (bs : list byte) : list byte :=
  match bs with
  | [] => []
  | b :: bs' => if byte.unsigned b =? 0 then [] else b :: cname bs'
  end.

Lemma cname_cstring pre bs : Exists (fun b => byte.unsigned b = 0) bs ->
  Z.of_nat (length (pre ++ bs)) < 4294967296 ->
  cstring (zlookup (pre ++ bs)) (Z.of_nat (length pre)) (cname bs).
Proof.
  revert pre. induction bs as [|b bs IH]; intros pre Hex Hl; [by inversion Hex|].
  assert (Hb : zlookup (pre ++ b :: bs) (Z.of_nat (length pre)) = Some b).
  { rewrite zlookup_nat, lookup_app_r, Nat.sub_diag by lia. done. }
  simpl. destruct (Z.eqb_spec (byte.unsigned b) 0) as [Hz|Hnz]; simpl; [eauto|].
  split; [done|]. split; [done|].
  replace (pre ++ b :: bs) with ((pre ++ [b]) ++ bs) by (by rewrite <- app_assoc).
  rewrite length_app in Hl. simpl in Hl.
  replace (Z.of_nat (length pre) +w 1) with (Z.of_nat (length (pre ++ [b]))).
  2:{ rewrite length_app, u32_small; simpl; lia. }
  apply IH.
  - by inversion Hex.
  - rewrite !length_app. simpl. lia.
Qed.

Lemma cname_length bs : Exists (fun b => byte.unsigned b = 0) bs -> (length (cname bs) < length bs)%nat.
Proof.
  induction bs as [|b bs IH]; intros Hex; [by inversion Hex|]. simpl.
  destruct (Z.eqb_spec (byte.unsigned b) 0); simpl; [lia|].
  inversion Hex; subst; [done|]. specialize (IH ltac:(done)). lia.
Qed.

(** The name array is full size and NUL terminated. *)
Definition named (p : proc) : Prop :=
  length (name p) = 33%nat /\ Exists (fun b => byte.unsigned b = 0) (name p).

(** proc_find_by_name returns the pid of the first slot whose name is the
    string asked for, and 0 when there is none. *)
Theorem proc_find_by_name_first t rd s l :
  Forall named (procs t) -> cstring rd s l ->
  proc_find_by_name rd s t =
    Ret (match filter (fun p => cname (name p) = l) (procs t) with p :: _ => pid p | [] => 0 end) t.
Proof.
  intros Hn Hs. unfold proc_find_by_name. remember (procs t) as ps eqn:E. clear E.
  induction Hn as [|p ps [Hl Hz] _ IH]; [done|]. cbn [find_name].
  pose proof (cname_length _ Hz). pose proof (cname_cstring [] (name p) Hz ltac:(simpl; lia)) as Hc. simpl in Hc.
  erewrite bind_Ret by (apply streq_spec; [exact Hc|exact Hs|change (Z.to_nat (MAX_PROC_NAME_LEN + 1)) with 33%nat; lia]).
  destruct (decide (cname (name p) = l)) as [He|Hne].
  - rewrite bool_decide_eq_true_2 by done. by rewrite filter_cons_True.
  - rewrite bool_decide_eq_false_2 by done. rewrite filter_cons_False by done. exact IH.
Qed.

(** proc_find_by_pid returns the first slot whose pid is the argument
    taken as unsigned, and NULL exactly when there is none; it changes
    nothing.  So -1 finds the first slot that is unused since start-up. *)
Theorem proc_find_by_pid_first t p :
  exists r, proc_find_by_pid p t = Ret r t /\
    match r with
    | Some j => (exists q, zlookup (procs t) j = Some q /\ pid q = u32 p) /\
        forall j' q, 0 <= j' < j -> zlookup (procs t) j' = Some q -> pid q <> u32 p
    | None => forall q, q ∈ procs t -> pid q <> u32 p
    end.
Proof.
  exists (find_pid (procs t) 0 p). split; [done|]. pose proof (find_pid_spec (procs t) 0 p) as H.
  destruct (find_pid (procs t) 0 p) as [j|]; [|done]. destruct H as (Hj & Hq & Hmin).
  rewrite Z.sub_0_r in Hq. split; [done|]. intros j' q Hj' Hq'. apply (Hmin j' q); [lia|].
  by rewrite Z.sub_0_r.
Qed.

(** ** A concrete kernel

    The low 4 MiB are mapped to themselves by the table at 2 MiB, the
    directory is at 1 MiB, the page pool starts at 4 MiB. *)

Fixpoint identity_ptes (n : nat) (i : Z) (f : gmap Z byte) : gmap Z byte :=
  match n with
  | O => f
  | S n' => identity_ptes n' (i + 1) (pstore32 (2097152 + 4 * i) (4096 * i + 3) f)
  end.

Definition k_phys : gmap Z byte :=
  pwrite 32768 [Byte.x6b; Byte.x65; Byte.x72; Byte.x6e; Byte.x65; Byte.x6c] (* kernel *)
    (pwrite 32800 [Byte.x69; Byte.x64; Byte.x6c; Byte.x65]                   (* idle *)
       (pstore32 1048576 2097155 (pstore32 (1048576 + 4092) 1048579 (identity_ptes 1024 0 ∅)))).

Definition k_syms : symbols := Symbols 65536 131072 131328 131584 131840 132096 32768 32800.

Definition proc0 : proc := Proc 0 PROC_UNUSED (repeat Byte.x00 33) false false 0 0 0 0 0 0 0.

Definition k_boot : kst :=
  Kst (Vmst (Machine k_phys 1048576 []) pm_boot) false (Tss 0 0 0 0 0 0 0 0)
      (repeat (IdtEntry 0 0 0 0 0) 256) (IntTables (repeat 0 32) (repeat (IrqEntry 0 0) 16) (repeat 0 208))
      (PTable (repeat proc0 64) 0 None None false 0).

Definition run_state {A} (m : M kst A) (k : kst) : kst := match m k with Ret _ k' => k' | _ => k end.

Lemma run_state_Ret {A} (eqb : A -> bool) (a : A) (m : M kst A) k :
  (forall x, eqb x = true -> x = a) ->
  match m k with Ret x _ => eqb x | _ => false end = true -> m k = Ret a (run_state m k).
Proof.
  intros He H. unfold run_state. destruct (m k) as [x k'| | | |]; try done. by rewrite (He x H).
Qed.

Definition answers {A} `{EqDecision A} (m : M kst A) (k : kst) (a : A) : bool :=
  match m k with Ret x _ => bool_decide (x = a) | _ => false end.

Lemma run_state_eq {A} `{EqDecision A} (m : M kst A) k (a : A) : answers m k a = true -> m k = Ret a (run_state m k).
Proof. apply run_state_Ret. by intros x Hx%bool_decide_eq_true_1. Qed.

Lemma returns_run {A} (m : M kst A) k : returns m k = true -> exists a, m k = Ret a (run_state m k).
Proof. intros (a & k' & Hk)%returns_Ret. exists a. unfold run_state. by rewrite Hk. Qed.

(** After the early initialisation the slots 0 and 1 hold the kernel process
    and idle, which is current. *)
Definition k_early : kst := run_state (proc_earlyinit k_syms) k_boot.
Definition k_sched : kst := set_pt (set_sched true (pt k_early)) k_early.

(** The table it leaves, evaluated once for all that is shown of it. *)
Definition pt_early : ptable := Eval vm_compute in pt k_early.

Lemma early_evaluates : returns (proc_earlyinit k_syms) k_boot = true /\ pt k_early = pt_early.
Proof. vm_compute. split; reflexivity. Qed.

Lemma early_runs : proc_earlyinit k_syms k_boot = Ret tt k_early.
Proof.
  destruct (returns_run _ _ (proj1 early_evaluates)) as [[] Hr]. exact Hr.
Qed.

Lemma pt_sched : pt k_sched = set_sched true pt_early.
Proof. unfold k_sched. by rewrite <- (proj2 early_evaluates). Qed.

Lemma find_next_proc_round_robin_witness :
  match find_next_proc PROC_READY (pt k_sched) with
  | Ret (Some j) t' => 0 <= j < NPROCS /\ eligible PROC_READY (pt k_sched) j /\
      t' = set_rr (j + 1) (pt k_sched) /\
      forall j', 0 <= j' < NPROCS -> eligible PROC_READY (pt k_sched) j' ->
        dist (rr (pt k_sched)) j <= dist (rr (pt k_sched)) j'
  | Ret None t' => t' = set_rr (rr (pt k_sched) mod NPROCS) (pt k_sched) /\
      forall j, 0 <= j < NPROCS -> ~ eligible PROC_READY (pt k_sched) j
  | _ => False
  end.
Proof. apply (find_next_proc_round_robin PROC_READY (pt k_sched)). rewrite pt_sched. vm_compute. reflexivity. Defined.

(** Slots 3 and 5 ready, the search starting after slot 3 each time but the first. *)
Definition two_ready : ptable :=
  PTable (zupdate 5 (with_state PROC_READY proc0) (zupdate 3 (with_state PROC_READY proc0) (repeat proc0 64)))
         0 None None true 0.
Definition turns (n : nat) : ptable :=
  set_rr (match n with O => 0 | S n' => if Nat.even n' then 4 else 6 end) two_ready.

Lemma find_next_proc_fair_witness :
  exists n t', (n < 64)%nat /\ find_next_proc PROC_READY (turns n) = Ret (Some 5) t'.
Proof.
  apply (find_next_proc_fair turns 5).
  - unfold NPROCS. lia.
  - intros n. split; [reflexivity|]. split; [done|]. eexists. split; reflexivity.
  - intros n r t'. unfold turns. destruct n as [|n].
    + vm_compute. intros H. by injection H as _ <-.
    + rewrite Nat.even_succ, <- Nat.negb_even. destruct (Nat.even n); vm_compute; intros H; by injection H as _ <-.
Defined.

Lemma proc_schedule_after_irq_switches_witness :
  exists n q k',
    zlookup (procs (set_procs (zupdate 1 (preempted 5000 (default proc0 (zlookup (procs (pt k_sched)) 1)))
                                 (procs (pt k_sched))) (pt k_sched))) n = Some q /\
    proc_schedule_after_irq 5000 k_sched = Ret (trapframe q) k' /\ current_proc (pt k') = Some n.
Proof.
  destruct (proc_schedule_after_irq_switches k_sched 5000 1 (default proc0 (zlookup (procs (pt k_sched)) 1)) 1)
    as (n & q & k' & Hq & _ & Hr & _ & Hc & _).
  - rewrite pt_sched. vm_compute. reflexivity.
  - reflexivity.
  - rewrite pt_sched. vm_compute. reflexivity.
  - rewrite pt_sched. vm_compute. reflexivity.
  - rewrite pt_sched. vm_compute. reflexivity.
  - rewrite pt_sched. vm_compute. reflexivity.
  - unfold NPROCS. lia.
  - exists n, q, k'. split; [exact Hq|]. split; [exact Hr|exact Hc].
Defined.

Definition k_full : kst := set_pt (PTable (repeat (with_state PROC_READY proc0) 64) 64 None None true 0) k_boot.

Lemma proc_new_full_table_witness : proc_new k_syms 32768 false false k_full = Undef.
Proof.
  destruct (returns_Ret (stack ← on_pm pm_alloc; map_page stack stack PTE_W) (vm k_full)) as ([] & v' & Hv).
  { vm_compute. reflexivity. }
  apply (proc_new_full_table k_syms 32768 false false k_full v'); [reflexivity| |exact Hv].
  intros j Hj [_ (p & Hp & Hs)]. unfold zlookup in Hp. destruct (j <? 0); [done|].
  cbn [k_full set_pt pt procs] in Hp.
  apply list_elem_of_lookup_2, list_elem_of_In, repeat_spec in Hp as ->. done.
Defined.

Definition k_new : kst := run_state (proc_new k_syms 32768 true true) k_boot.

Lemma proc_new_takes_slot_witness : created (pt k_boot) (pt k_new) 0 true.
Proof.
  assert (Hr : proc_new k_syms 32768 true true k_boot = Ret (Some 0) k_new).
  { apply (run_state_Ret (fun x => bool_decide (x = Some 0))); [by intros x Hx%bool_decide_eq_true_1|].
    vm_compute. reflexivity. }
  destruct (proc_new_takes_slot k_syms 32768 true true k_boot (Some 0) k_new) as (i & Hi & _ & _ & Hc).
  - reflexivity.
  - exact Hr.
  - injection Hi as Hi. rewrite Hi. exact Hc.
Defined.
