(* ===== verification/Load.v ===== *)
(** * Load.v: what loading a program does to the address space (kernel/elf.c,
      proc_load of kernel/proc.c, vm_alloc_pages_at of kernel/vm.c)

    The code is in Proc.v and Vm.v.  Reading the image while its segments get
    mapped is safe as long as the image lies in memory that mapping does not
    write ([held]); allocated pages are fresh and distinct.  Nothing clears them:
    that free frames hold zeroes is what the invariant of Vm.v asks of memory. *)

From S2P Require Import Prelude Memory Machine Pm Vm Heap Queue Desc Proc.

(** ** Memory that stays while pages are mapped *)

(** [a] resolves to memory that mapping pages does not write. *)
Definition held (N : Z) (s : vmst) (a : Z) : Prop :=
  0 <= a < 4294967296 /\ pd_index a <> 1023 /\ exists p, translate (mach s) a = Some p /\ plain N s p.

Definition unmapped (s : vmst) (v n : Z) : Prop := forall va, v <= va < v + n -> translate (mach s) va = None.

Lemma held_mapped N v p n s s' a : maps_range N v p n s s' -> unmapped s v (4096 * n) -> held N s a ->
  held N s' a /\ rd8 a (mach s') = rd8 a (mach s).
Proof.
  intros Hm Hun (Ha & Hw & q & Ht & Hq).
  assert (Ht' : translate (mach s') a = Some q).
  { rewrite (mr_translate _ _ _ _ _ _ Hm) by done. rewrite decide_False; [done|].
    intros Hin. by rewrite Hun in Ht. }
  destruct (mr_plain _ _ _ _ _ _ Hm q Hq) as [Hq' Hb]. split; [split; [done|split; [done|by exists q]]|].
  simpl. rewrite Ht, Ht'. by f_equal.
Qed.

(** An [n]-byte number in such memory *)
Definition num_held (N : Z) (s : vmst) (n : nat) (a v : Z) : Prop :=
  loadn n a (mach s) = Ret v (mach s) /\ forall i, 0 <= i < Z.of_nat n -> held N s (u32 (a + i)).

(** The bytes at [a] of one state are those at [b] of another. *)
Lemma rdn_shift n : forall a b (m m' : machine),
  (forall i, 0 <= i < Z.of_nat n -> rd8 (u32 (a + i)) m' = rd8 (u32 (b + i)) m) ->
  0 <= a < 4294967296 -> 0 <= b < 4294967296 -> rdn n a m' = rdn n b m.
Proof.
  induction n as [|n IH]; intros a b m m' H Ha Hb; [done|]. cbn [rdn].
  pose proof (H 0 ltac:(lia)) as H0. rewrite !Z.add_0_r, !u32_small in H0 by done. rewrite H0.
  rewrite (IH (a +w 1) (b +w 1) m m'); [done| |apply u32_range..]. intros i Hi. rewrite !u32_add_l.
  replace (a + 1 + i) with (a + (i + 1)) by lia. replace (b + 1 + i) with (b + (i + 1)) by lia. apply H. lia.
Qed.

Lemma rdn_pointwise n a (m m' : machine) : (forall i, 0 <= i < Z.of_nat n -> rd8 (u32 (a + i)) m' = rd8 (u32 (a + i)) m) ->
  0 <= a < 4294967296 -> rdn n a m' = rdn n a m.
Proof. intros H Ha. by apply rdn_shift. Qed.

Lemma num_held_pointwise N s s' k a w : 0 <= a < 4294967296 ->
  (forall i, 0 <= i < Z.of_nat k -> held N s (u32 (a + i)) ->
     held N s' (u32 (a + i)) /\ rd8 (u32 (a + i)) (mach s') = rd8 (u32 (a + i)) (mach s)) ->
  num_held N s k a w -> num_held N s' k a w.
Proof.
  intros Ha Hk [Hl Hh]. split; [|intros i Hi; by apply Hk, Hh]. unfold loadn in *.
  rewrite (rdn_pointwise k a (mach s) (mach s')); [|intros i Hi; by apply Hk, Hh|done].
  revert Hl. destruct (rdn (S:=machine) k a (mach s)); [by intros [= ->]|done].
Qed.

Lemma num_held_mapped N v p n s s' k a w : maps_range N v p n s s' -> unmapped s v (4096 * n) ->
  0 <= a < 4294967296 -> num_held N s k a w -> num_held N s' k a w.
Proof. intros Hm Hun Ha. apply num_held_pointwise; [done|]. intros i _. by apply (held_mapped N v p n s s'). Qed.

(** ** ELF images *)

(** struct elf_pheader, as much of it as is used *)
Record elf_pheader := Pheader { p_type : Z; p_offset : Z; p_vaddr : Z; p_memsz : Z }.

Definition phdr_held (N : Z) (s : vmst) (a : Z) (h : elf_pheader) : Prop :=
  num_held N s 4 a (p_type h) /\ num_held N s 4 (a +w 4) (p_offset h) /\
  num_held N s 4 (a +w 8) (p_vaddr h) /\ num_held N s 4 (a +w 20) (p_memsz h).

Fixpoint phdrs_held (N : Z) (s : vmst) (a : Z) (l : list elf_pheader) : Prop :=
  match l with [] => True | h :: l' => phdr_held N s a h /\ phdrs_held N s (a +w 32) l' end.

(** An image at [file] with these program headers and this entry point *)
Record elf_held (N : Z) (s : vmst) (file entry phoff : Z) (l : list elf_pheader) : Prop := {
  eh_phoff : num_held N s 4 (file +w 28) phoff;
  eh_entry : num_held N s 4 (file +w 24) entry;
  eh_phnum : num_held N s 2 (file +w 44) (Z.of_nat (length l));
  eh_phdrs : phdrs_held N s (file +w phoff) l;
}.

(** The pages a header asks for: none unless it is PT_LOAD *)
Definition seg_pages (h : elf_pheader) : Z :=
  if p_type h =? PT_LOAD then if p_memsz h =? 0 then 0 else npages (p_memsz h) else 0.
Definition seg_start (h : elf_pheader) : Z := PALIGNDOWN (p_vaddr h).
Definition seg_frame (file : Z) (h : elf_pheader) : Z := PALIGNDOWN (file +w p_offset h).

Definition in_seg (h : elf_pheader) (va : Z) : Prop := seg_start h <= va < seg_start h + 4096 * seg_pages h.
#[export] Instance in_seg_dec h va : Decision (in_seg h va).
Proof. unfold in_seg. apply _. Defined.

(** Where an address of a segment ends up *)
Fixpoint seg_resolve (file : Z) (l : list elf_pheader) (va : Z) : option Z :=
  match l with
  | [] => None
  | h :: l' => if decide (in_seg h va) then Some (seg_frame file h + (va - seg_start h)) else seg_resolve file l' va
  end.

Definition total_pages (l : list elf_pheader) : nat := sum_list_with (fun h => Z.to_nat (seg_pages h)) l.

(** The segments fit below the recursive window and in physical memory, are
    not mapped yet, and no two of them share a page. *)
Fixpoint segs_ok (file : Z) (s : vmst) (l : list elf_pheader) : Prop :=
  match l with
  | [] => True
  | h :: l' =>
      (seg_frame file h + 4096 * seg_pages h <= 4294967296 /\
       seg_start h + 4096 * seg_pages h <= 4290772992 /\
       0 <= p_memsz h /\ 0 <= p_vaddr h < 4294967296 /\
       unmapped s (seg_start h) (4096 * seg_pages h) /\
       forall h' va, h' ∈ l' -> in_seg h va -> ~ in_seg h' va) /\ segs_ok file s l'
  end.

(** *** Mapping the segments *)

Lemma on_vm_Ret {A} (m : M vmst A) k a v : m (vm k) = Ret a v -> on_vm m k = Ret a (set_vm v k).
Proof. intros H. unfold on_vm, zoom. by rewrite H. Qed.

Lemma num_read N k n a w : num_held N (vm k) n a w -> on_mem (loadn n a) k = Ret w k.
Proof.
  intros [H _]. unfold on_mem, on_vm, on_mach, zoom. rewrite H. by destruct k as [[m p] ? ? ? ? ?].
Qed.

Lemma phdrs_held_mapped N v p n s s' a l : maps_range N v p n s s' -> unmapped s v (4096 * n) ->
  phdrs_held N s (u32 a) l -> phdrs_held N s' (u32 a) l.
Proof.
  intros Hm Hun.
  assert (Hk : forall j a w, num_held N s j (u32 a) w -> num_held N s' j (u32 a) w).
  { intros j b w. apply (num_held_mapped N v p n s s'); [done..|apply u32_range]. }
  revert a. induction l as [|h l IH]; intros a; [done|]. intros [(P1 & P2 & P3 & P4) Hl].
  split; [split; [|split; [|split]]; by apply Hk|by apply IH].
Qed.

Lemma segs_ok_mapped N v p n s s' file l : maps_range N v p n s s' ->
  (forall h va, h ∈ l -> in_seg h va -> ~ (v <= va < v + 4096 * n)) ->
  segs_ok file s l -> segs_ok file s' l.
Proof.
  intros Hm. induction l as [|h l IH]; intros Hdis; [done|]. cbn [segs_ok].
  intros [(H1 & H2 & H3 & H4 & H5 & H6) Hl]. split; [|apply IH; [set_solver|done]].
  split; [done|]. split; [done|]. split; [done|]. split; [done|]. split; [|done].
  intros va Hva. assert (Hb : 0 <= seg_start h) by apply PALIGNDOWN_index, H4.
  assert (0 <= va < 4290772992) by lia.
  rewrite (mr_translate _ _ _ _ _ _ Hm) by (lia || apply window_bound; lia).
  rewrite decide_False by (apply (Hdis h); [set_solver|done]). by apply H5.
Qed.

Lemma maps_range_refl N v p s : vm_inv N s -> maps_range N v p 0 s s.
Proof.
  intros Hi. split; try done. intros va _ _. by rewrite decide_False by lia.
Qed.

Lemma seg_resolve_none file l va : (forall h, h ∈ l -> ~ in_seg h va) -> seg_resolve file l va = None.
Proof.
  induction l as [|h l IH]; intros H; [done|]. cbn [seg_resolve].
  rewrite decide_False by (apply H; set_solver). apply IH. intros; apply H; set_solver.
Qed.

Section Elf.
Variable N file c : Z.
Variable q : proc.
Variable k0 : kst.
Hypothesis Hcur : current_proc (pt k0) = Some c.
Hypothesis Hq : zlookup (procs (pt k0)) c = Some q.

Lemma elf_segment_ok v ph h : vm_inv N v -> phdr_held N v ph h ->
  seg_frame file h + 4096 * seg_pages h <= 4294967296 -> seg_start h + 4096 * seg_pages h <= 4290772992 ->
  0 <= p_memsz h -> 0 <= p_vaddr h < 4294967296 -> unmapped v (seg_start h) (4096 * seg_pages h) ->
  free_frames N (Z.to_nat (seg_pages h)) (pms v) ->
  exists v', elf_segment file ph (set_vm v k0) = Ret tt (set_vm v' k0) /\
    maps_range N (seg_start h) (seg_frame file h) (seg_pages h) v v'.
Proof.
  intros Hinv (P1 & P2 & P3 & P4) Hf Hs Hm Hv Hun Hfr. unfold elf_segment.
  rewrite (bind_Ret _ _ _ _ _ (num_read N (set_vm v k0) _ _ _ P1)). unfold seg_pages in *.
  destruct (Z.eqb_spec (p_type h) PT_LOAD) as [Ht|Ht]; [|exists v; split; [done|by apply maps_range_refl]].
  rewrite (bind_Ret _ _ _ _ _ (num_read N (set_vm v k0) _ _ _ P2)).
  rewrite (bind_Ret _ _ _ _ _ (num_read N (set_vm v k0) _ _ _ P3)).
  assert (Hg : on_pt get (set_vm v k0) = Ret (pt k0) (set_vm v k0)) by (by destruct k0).
  rewrite (bind_Ret _ _ _ _ _ Hg). rewrite Hcur.
  assert (Hd : on_pt (deref (Some c)) (set_vm v k0) = Ret (c, q) (set_vm v k0)).
  { rewrite (on_pt_Ret _ (set_vm v k0) (c, q) (pt k0)); [by destruct k0|]. by apply deref_Ret. }
  rewrite (bind_Ret _ _ _ _ _ Hd). rewrite (bind_Ret _ _ _ _ _ (num_read N (set_vm v k0) _ _ _ P4)).
  destruct (Z.eqb_spec (p_memsz h) 0) as [->|Hne].
  { exists v. split; [|by apply maps_range_refl]. by destruct v. }
  destruct (map_pages_ok N v (file +w p_offset h) (p_vaddr h)
    (Z.lor PTE_W (if privileged (snd (c, q)) then 0 else PTE_U)) (p_memsz h)) as (v' & Hr & Hrange);
    [done|by destruct (privileged _)|lia|apply u32_range|done|done|done|done|done|].
  exists v'. split; [|done]. by rewrite (on_vm_Ret _ (set_vm v k0) _ _ Hr).
Qed.

(** What a run over headers has done to the address space. *)
Record loaded (l : list elf_pheader) (v v' : vmst) : Prop := {
  ld_inv : vm_inv N v';
  ld_cr3 : cr3 (mach v') = cr3 (mach v);
  ld_translate : forall va, 0 <= va < 4294967296 -> pd_index va <> 1023 ->
    translate (mach v') va =
      match seg_resolve file l va with Some p => Some p | None => translate (mach v) va end;
  ld_plain : forall a, plain N v a -> plain N v' a /\ pbyte (phys (mach v')) a = pbyte (phys (mach v)) a;
  ld_held : forall n a w, 0 <= a < 4294967296 -> num_held N v n a w -> num_held N v' n a w;
  ld_free : forall m, free_frames N (total_pages l + m) (pms v) -> free_frames N m (pms v');
}.

Lemma loaded_nil v : vm_inv N v -> loaded [] v v.
Proof. by split. Qed.

Lemma loaded_cons h l v v1 v2 : vm_inv N v -> unmapped v (seg_start h) (4096 * seg_pages h) ->
  (forall h' va, h' ∈ l -> in_seg h va -> ~ in_seg h' va) ->
  maps_range N (seg_start h) (seg_frame file h) (seg_pages h) v v1 -> loaded l v1 v2 -> loaded (h :: l) v v2.
Proof.
  intros Hinv Hun Hdis Hm [L1 L2 L3 L4 L5 L6]. split; [done| | | | |].
  - rewrite L2. apply (mr_cr3 _ _ _ _ _ _ Hm).
  - intros va Hva Hw. rewrite L3 by done. cbn [seg_resolve].
    assert (Hno : in_seg h va -> seg_resolve file l va = None)
      by (intros Hin; apply seg_resolve_none; intros h' Hh'; by apply (Hdis h' va)).
    rewrite (mr_translate _ _ _ _ _ _ Hm) by done. unfold in_seg in *.
    destruct (decide (seg_start h <= va < seg_start h + 4096 * seg_pages h)) as [Hin|Hout]; [|done].
    by rewrite Hno.
  - intros a Ha. destruct (mr_plain _ _ _ _ _ _ Hm a Ha) as [Ha1 <-]. by apply L4.
  - intros n a w Ha Hh. apply L5; [done|]. by apply (num_held_mapped N _ _ _ v v1 n a w Hm).
  - intros m Hfr. apply L6, (mr_free _ _ _ _ _ _ Hm). cbn [total_pages sum_list_with] in Hfr.
    by rewrite Nat.add_assoc.
Qed.

Lemma free_frames_less n m p : free_frames N (n + m) p -> free_frames N n p.
Proof.
  intros (l & Hnd & Hl & Hf). exists (take n l). rewrite <- (take_drop n l) in Hnd.
  apply list.NoDup_app in Hnd as [Hnd _]. split; [done|]. split; [rewrite length_take; lia|].
  intros j (i & Hi & _)%elem_of_take. by apply Hf, list_elem_of_lookup_2 with i.
Qed.

Lemma elf_segments_ok l : forall fuel v ph i, vm_inv N v -> 0 <= ph < 4294967296 ->
  num_held N v 2 (file +w 44) (i + Z.of_nat (length l)) -> phdrs_held N v ph l -> segs_ok file v l ->
  free_frames N (total_pages l) (pms v) -> (length l < fuel)%nat ->
  exists v', elf_segments fuel file ph i (set_vm v k0) = Ret tt (set_vm v' k0) /\ loaded l v v'.
Proof.
  induction l as [|h l IH]; intros fuel v ph i Hinv Hph Hn Hp Hok Hfr Hfu; (destruct fuel as [|fuel]; [cbn in Hfu; lia|]).
  all: cbn [elf_segments]; rewrite (bind_Ret _ _ _ _ _ (num_read N (set_vm v k0) _ _ _ Hn)).
  { cbn [length]. rewrite Z.add_0_r, Z.ltb_irrefl. exists v. split; [done|by apply loaded_nil]. }
  cbn [length] in *. destruct (Z.ltb_spec i (i + Z.of_nat (S (length l)))); [|lia].
  destruct Hp as [Hh Hp], Hok as [(H1 & H2 & H3 & H4 & H5 & H6) Hok]. unfold total_pages in Hfr. cbn [sum_list_with] in Hfr.
  destruct (elf_segment_ok v ph h) as (v1 & Hr & Hm); [done..|by apply free_frames_less in Hfr|].
  rewrite (bind_Ret _ _ _ _ _ Hr).
  assert (Hkeep : forall n a w, num_held N v n (u32 a) w -> num_held N v1 n (u32 a) w).
  { intros n a w. apply (num_held_mapped N _ _ _ v v1 n _ w Hm H5), u32_range. }
  destruct (IH fuel v1 (ph +w 32) (i + 1)) as (v' & Hr' & Hl).
  - apply (mr_inv _ _ _ _ _ _ Hm).
  - apply u32_range.
  - replace (i + 1 + Z.of_nat (length l)) with (i + Z.of_nat (S (length l))) by lia. by apply Hkeep.
  - by apply (phdrs_held_mapped N _ _ _ v v1 (ph + 32) l Hm H5).
  - apply (segs_ok_mapped N _ _ _ v v1 file l Hm); [|done]. intros h' va Hin Hva Hr2. by apply (H6 h' va).
  - by apply (mr_free _ _ _ _ _ _ Hm).
  - lia.
  - exists v'. split; [done|]. by apply (loaded_cons h l v v1 v').
Qed.
End Elf.

(** ** Allocated pages *)

(** Fresh pages of the pool at [v], the page numbers being [fs]: they hold
    what their frames held before, and nothing but tables and other free pages
    was written. *)
Record allocated (N v : Z) (fs : list Z) (s s' : vmst) : Prop := {
  al_inv : vm_inv N s';
  al_cr3 : cr3 (mach s') = cr3 (mach s);
  al_pool : pm_page_pool (pms s') = pm_page_pool (pms s);
  al_used : forall k, is_page k -> used (pms s) k = true -> used (pms s') k = true;
  al_fresh : NoDup fs /\ forall k, k ∈ fs -> pool_page N k /\ used (pms s) k = false;
  al_taken : forall k, k ∈ fs -> used (pms s') k = true;
  al_translate : forall va, 0 <= va < 4294967296 -> pd_index va <> 1023 ->
    translate (mach s') va =
      if decide (v <= va < v + 4096 * Z.of_nat (length fs))
      then match fs !! Z.to_nat ((va - v) / 4096) with Some k => Some (page_addr (pms s) k + va mod 4096) | None => None end
      else translate (mach s) va;
  al_bytes : forall k i, k ∈ fs -> 0 <= i < 4096 -> plain N s' (page_addr (pms s) k + i) /\
    pbyte (phys (mach s')) (page_addr (pms s) k + i) = pbyte (phys (mach s)) (page_addr (pms s) k + i);
  al_plain : forall a, plain N s a -> plain N s' a /\ pbyte (phys (mach s')) a = pbyte (phys (mach s)) a;
}.

(** Taking a page makes it plain memory. *)
Lemma plain_marked N s p' k : vm_inv N s -> pool_page N k -> used (pms s) k = false -> marked k 1 (pms s) p' ->
  (forall a, plain N s a -> plain N (Vmst (mach s) p') a) /\
  forall i, 0 <= i < 4096 -> plain N (Vmst (mach s) p') (page_addr (pms s) k + i).
Proof.
  intros [HN Has Hpm Htab _] Hk Hf Hm.
  assert (Hless : forall j, pool_page N j -> used p' j = false -> used (pms s) j = false /\ j <> k).
  { intros j Hj. rewrite (marked_used _ _ _ _ Hm) by (by apply (pool_is_page N)).
    intros [Hu Hr]%orb_false_iff. split; [done|]. intros ->. rewrite Z.leb_refl in Hr. cbn in Hr.
    destruct (Z.ltb_spec k (k + 1)); [done|lia]. }
  split.
  - intros a [Ht Hfr]. split; [done|]. intros j Hj Hu. cbn [pms] in *. rewrite (marked_addr _ _ _ _ j Hm).
    by apply Hfr; [|apply Hless].
  - intros i Hi. pose proof (page_addr_aligned (pms s) k Hpm) as Hka. split; cbn [mach pms].
    + intros d Hd Hp Hr. assert (He : frame (pde_at (mach s) d) = page_addr (pms s) k).
      { destruct (frame_pde (mach s) d) as [_ Hal]. destruct (decide (frame (pde_at (mach s) d) = page_addr (pms s) k)); [done|].
        exfalso. apply (frame_ne (frame (pde_at (mach s) d)) (page_addr (pms s) k) (page_addr (pms s) k + i - frame (pde_at (mach s) d)) i); try done; lia. }
      rewrite (Htab d k) in Hf; done.
    + intros j Hj Hu Hr. rewrite (marked_addr _ _ _ _ j Hm) in Hr. pose proof (page_addr_aligned (pms s) j Hpm) as Hja.
      destruct (Hless j Hj Hu) as [_ Hne]. apply Hne. apply (page_addr_inj (pms s)); [by apply (pool_is_page N)..|].
      destruct (decide (page_addr (pms s) j = page_addr (pms s) k)); [done|].
      exfalso. apply (frame_ne (page_addr (pms s) j) (page_addr (pms s) k) (page_addr (pms s) k + i - page_addr (pms s) j) i); try done; lia.
Qed.

(** One turn of the loop *)
Lemma alloc_page_ok N n s v flags : vm_inv N s -> 0 <= flags < 4096 -> v mod 4096 = 0 -> 0 <= v < 4290772992 ->
  free_frames N (S (S n)) (pms s) -> translate (mach s) v = None ->
  exists k s', (physical_page ← on_pm pm_alloc; map_page physical_page v flags) s = Ret tt s' /\
    allocated N v [k] s s' /\ free_frames N n (pms s').
Proof.
  intros Hinv Hfl Hva Hv Hfr Hun. pose proof (inv_N _ _ Hinv) as HN.
  destruct (pm_alloc_cases (pms s) (inv_pm _ _ Hinv)) as [(k & p' & Hal & Hk1 & Hfree & Hmin & Hm)|[_ Hall]];
    destruct (free_frames_one _ _ _ Hfr) as (k1 & Hk1p & Hk1f);
    [|by rewrite Hall in Hk1f by (by apply (pool_is_page N))].
  assert (Hk : pool_page N k).
  { unfold pool_page, is_page in *. destruct (decide (k <= k1)); [lia|]. by rewrite Hmin in Hk1f by lia. }
  pose proof (vm_inv_mark N (mach s) (pms s) p' k 1 ltac:(by destruct s) Hm) as Hinv0.
  assert (Hfr1 : free_frames N (S n) p').
  { eapply free_frames_step; [done|exact Hfr|]. exists k. intros j Hj. rewrite (marked_used _ _ _ _ Hm) by done.
    destruct (used (pms s) j); [by left|]. cbn. destruct (Z.leb_spec k j), (Z.ltb_spec j (k + 1)); cbn; try done. right. lia. }
  pose proof (page_addr_range (pms s) k) as Hpr. pose proof (page_addr_aligned (pms s) k (inv_pm _ _ Hinv)) as Hpa.
  pose proof (window_bound v ltac:(lia)) as Hw.
  destruct (map_page_ok N (Vmst (mach s) p') (page_addr (pms s) k) v flags) as (s' & Hr & Hmo); try done; [|by apply walk_translate_None|].
  { split; [lia|]. split; [done|]. right. by apply free_frames_one with n. }
  destruct (plain_marked N s p' k Hinv Hk Hfree Hm) as [Hpl Hplk].
  exists k, s'. split.
  { rewrite (bind_Ret _ _ s (page_addr (pms s) k) (Vmst (mach s) p')); [done|]. unfold on_pm, zoom. by rewrite Hal. }
  split; [|eapply free_frames_step; [done|exact Hfr1|apply (mo_one _ _ _ _ _ _ Hmo)]].
  split.
  - apply (mo_inv _ _ _ _ _ _ Hmo).
  - apply (mo_cr3 _ _ _ _ _ _ Hmo).
  - rewrite (mo_pool _ _ _ _ _ _ Hmo). apply (marked_pool _ _ _ _ Hm).
  - intros j Hj Hu. apply (mo_used _ _ _ _ _ _ Hmo); [done|]. cbn [pms]. rewrite (marked_used _ _ _ _ Hm) by done. by rewrite Hu.
  - split; [apply list.NoDup_singleton|]. intros j ->%list_elem_of_singleton. done.
  - intros j ->%list_elem_of_singleton. apply (mo_used _ _ _ _ _ _ Hmo); [done|]. cbn [pms].
    rewrite (marked_used _ _ _ _ Hm) by done. rewrite Z.leb_refl. destruct (Z.ltb_spec k (k + 1)); [apply orb_true_r|lia].
  - intros va Hvr Hvw. rewrite (maps_one_translate N _ _ _ _ _ _ Hmo) by done.
    destruct (new_pte_spec (page_addr (pms s) k) flags Hpr Hfl) as (_ & _ & _ & ->).
    rewrite PALIGNDOWN_eq, Hpa, Z.sub_0_r by done. cbn [length].
    assert (Hsame : pd_index va = pd_index v /\ pt_index va = pt_index v <-> v <= va < v + 4096)
      by (rewrite same_page by lia; zdm).
    destruct (decide (v <= va < v + 4096 * Z.of_nat 1)).
    + rewrite decide_True by (apply Hsame; lia). replace ((va - v) / 4096) with 0 by zdm. done.
    + rewrite decide_False by (rewrite Hsame; lia). done.
  - intros j i ->%list_elem_of_singleton Hi. exact (mo_plain _ _ _ _ _ _ Hmo _ (Hplk i Hi)).
  - intros a Ha. apply (mo_plain _ _ _ _ _ _ Hmo). by apply Hpl.
Qed.

Lemma allocated_cons N v k fs s s1 s2 : vm_inv N s -> 0 <= v -> v mod 4096 = 0 ->
  allocated N v [k] s s1 -> allocated N (v + 4096) fs s1 s2 -> allocated N v (k :: fs) s s2.
Proof.
  intros Hinv Hv Hvm [A1 A2 A3 A4 [A5 A5'] At A6 A7 A8] [B1 B2 B3 B4 [B5 B5'] Bt B6 B7 B8]. cbn [length] in *.
  assert (Hpa : forall j, page_addr (pms s1) j = page_addr (pms s) j) by (intros j; unfold page_addr; by rewrite A3).
  pose proof (inv_N _ _ A1) as HN. specialize (At k ltac:(set_solver)).
  destruct (A5' k ltac:(set_solver)) as [Hkp Hkf].
  assert (Hfs : forall j, j ∈ fs -> pool_page N j /\ used (pms s) j = false).
  { intros j Hj. destruct (B5' j Hj) as [Hp Hu]. split; [done|]. destruct (used (pms s) j) eqn:E; [|done].
    rewrite A4 in Hu; [done|by apply (pool_is_page N)|done]. }
  split.
  - done.
  - by rewrite B2.
  - by rewrite B3.
  - intros j Hj Hu. by apply B4, A4.
  - split.
    + apply list.NoDup_cons. split; [|done]. intros Hin. destruct (B5' k Hin) as [_ Hu]. congruence.
    + intros j [->|Hj]%elem_of_cons; [done|by apply Hfs].
  - intros j [->|Hj]%elem_of_cons; [by apply B4; [apply (pool_is_page N)|]|by apply Bt].
  - intros va Hva Hw. rewrite B6, A6 by done. cbn [length].
    destruct (decide (v <= va < v + 4096 * Z.of_nat (S (length fs)))) as [Hin|Hout].
    + destruct (decide (v + 4096 <= va < v + 4096 + 4096 * Z.of_nat (length fs))) as [Hin'|Hout'].
      * replace (Z.to_nat ((va - v) / 4096)) with (S (Z.to_nat ((va - (v + 4096)) / 4096))) by zdm. cbn [lookup list_lookup].
        destruct (fs !! _); [by rewrite Hpa|done].
      * rewrite decide_True by lia. replace ((va - v) / 4096) with 0 by zdm. done.
    + rewrite decide_False by lia. by rewrite decide_False by lia.
  - intros j i [->|Hj]%elem_of_cons Hi.
    + destruct (A7 k i ltac:(set_solver) Hi) as [Hp1 Hz1]. destruct (B8 _ Hp1) as [Hp2 ->]. done.
    + destruct (Hfs j Hj) as [Hp Hu]. destruct (B5' j Hj) as [_ Hu1]. rewrite <- Hpa. destruct (B7 j i Hj Hi) as [H1 ->].
      split; [done|]. rewrite (inv_zero _ _ A1) by done. symmetry. rewrite Hpa. by apply (inv_zero _ _ Hinv).
  - intros a Ha. destruct (A8 a Ha) as [Ha1 <-]. by apply B8.
Qed.

Lemma vm_alloc_loop_ok N n : forall m s v flags, vm_inv N s -> 0 <= flags < 4096 -> v mod 4096 = 0 -> 0 <= v ->
  v + 4096 * Z.of_nat n <= 4290772992 -> free_frames N (2 * n + m) (pms s) ->
  unmapped s v (4096 * Z.of_nat n) ->
  exists fs s', vm_alloc_loop n v flags s = Ret tt s' /\ length fs = n /\ allocated N v fs s s' /\
    free_frames N m (pms s').
Proof.
  induction n as [|n IH]; intros m s v flags Hinv Hfl Hva Hv Hb Hfr Hun.
  { exists [], s. split; [done|]. split; [done|]. split; [|done]. split; try done.
    - split; [apply base.NoDup_nil_2|]. intros k Hk. by apply elem_of_nil in Hk.
    - intros k Hk. by apply elem_of_nil in Hk.
    - intros va _ _. by rewrite decide_False by (cbn; lia).
    - intros k i Hk. by apply elem_of_nil in Hk. }
  destruct (alloc_page_ok N (2 * n + m) s v flags) as (k & s1 & Hr & Hal & Hfr1); [done..|lia| |apply Hun; lia|].
  { by replace (S (S (2 * n + m))) with (2 * S n + m)%nat by lia. }
  cbn [vm_alloc_loop]. change PAGE_SIZE with 4096. rewrite u32_small by lia.
  destruct (IH m s1 (v + 4096) flags) as (fs & s' & Hr' & Hl & Hal' & Hfr'); [apply (al_inv _ _ _ _ _ Hal)|done|zdm|lia|lia|done| |].
  { intros va Hvr. rewrite (al_translate _ _ _ _ _ Hal) by (lia || apply window_bound; lia).
    rewrite decide_False by (cbn; lia). apply Hun. lia. }
  exists (k :: fs), s'. split; [|split; [by rewrite <- Hl|split; [|done]]].
  - unfold mbind, M_bind in *. destruct (on_pm pm_alloc s) as [a s0| | | |]; try done. by rewrite Hr.
  - by apply (allocated_cons N v k fs s s1 s').
Qed.

(** C23: vm_alloc_pages_at gives every page of its range a frame of its own:
    the frames were free and pairwise different, and they are not cleared: the
    pages read what the frames held; the rest of the address space resolves as
    before, and no other memory is written than page tables and free pages of
    the pool.  Two free frames per page are enough, one for the page and one
    for a table. *)
Theorem vm_alloc_pages_at_fresh N s vaddr flags sz :
  vm_inv N s -> 0 <= flags < 4096 -> 0 < sz -> 0 <= vaddr < 4294967296 ->
  PALIGNDOWN vaddr + 4096 * npages sz <= 4290772992 ->
  free_frames N (2 * Z.to_nat (npages sz)) (pms s) ->
  unmapped s (PALIGNDOWN vaddr) (4096 * npages sz) ->
  exists fs s', vm_alloc_pages_at vaddr flags sz s = Ret tt s' /\ Z.of_nat (length fs) = npages sz /\
    allocated N (PALIGNDOWN vaddr) fs s s'.
Proof.
  intros Hinv Hfl Hsz Hva Hb Hfr Hun. destruct (npages_bounds sz Hsz) as [Hn _].
  destruct (PALIGNDOWN_index vaddr Hva) as (_ & _ & Hv1 & Hv2).
  unfold vm_alloc_pages_at. destruct (Z.eqb_spec sz 0); [lia|].
  destruct (vm_alloc_loop_ok N (Z.to_nat (npages sz)) 0 s (PALIGNDOWN vaddr) flags) as (fs & s' & Hr & Hl & Hal & _);
    rewrite ?Z2Nat.id, ?Nat.add_0_r by lia; try done; [lia|].
  exists fs, s'. split; [done|]. split; [lia|done].
Qed.

(** ** A program is loaded

    [elf_load] on an image that mapping leaves alone maps every PT_LOAD
    segment, page by page, to the physical addresses that are the image's
    virtual ones.  That is where its bytes are while the image is mapped to
    itself; the program then reads them, if a segment begins at the same place
    of a page as its bytes in the image. *)

Lemma seg_resolve_in file s l h va : segs_ok file s l -> h ∈ l -> in_seg h va ->
  seg_resolve file l va = Some (seg_frame file h + (va - seg_start h)).
Proof.
  induction l as [|h' l IH]; intros Hok Hh Hin; [by apply elem_of_nil in Hh|]. cbn [seg_resolve segs_ok] in *.
  destruct Hok as [(_ & _ & _ & _ & _ & Hdis) Hok]. apply elem_of_cons in Hh as [->|Hh]; [by rewrite decide_True|].
  rewrite decide_False; [by apply IH|]. intros Hin'. by apply (Hdis h va).
Qed.

(** The address is mapped to itself, in memory that mapping does not write. *)
Definition at_self (N : Z) (s : vmst) (a : Z) : Prop := translate (mach s) a = Some a /\ plain N s a.

(** Byte [i] of a loadable segment, when the segment is as well aligned as its
    bytes *)
Definition seg_byte (file : Z) (h : elf_pheader) (i : Z) : Prop :=
  0 <= i < p_memsz h /\ in_seg h (p_vaddr h + i) /\ (file +w p_offset h) mod 4096 = p_vaddr h mod 4096.

Lemma seg_byte_frame file h i : 0 <= p_vaddr h < 4294967296 -> seg_byte file h i ->
  seg_frame file h + (p_vaddr h + i - seg_start h) = (file +w p_offset h) + i.
Proof.
  intros Hv (_ & _ & Hm). unfold seg_frame, seg_start. rewrite !PALIGNDOWN_eq by (done || apply u32_range). lia.
Qed.

Lemma segs_ok_at file s l h : segs_ok file s l -> h ∈ l ->
  0 <= p_vaddr h < 4294967296 /\ 0 <= seg_start h /\ seg_start h + 4096 * seg_pages h <= 4290772992.
Proof.
  induction l as [|h' l IH]; intros Hok Hh; [by apply elem_of_nil in Hh|]. destruct Hok as [(_ & H2 & _ & H4 & _) Hok].
  apply elem_of_cons in Hh as [->|Hh]; [|by apply IH]. split; [done|]. split; [apply PALIGNDOWN_index, H4|done].
Qed.

(** C24: Loading an ELF image maps exactly the pages of its PT_LOAD segments,
    each to the physical pages whose addresses are those of the image, taken as
    they are, and answers the entry point; the rest of the address space
    resolves as before and no memory is written but page tables and free pages
    of the pool.  Program headers of any other type do nothing.  So where the
    image is mapped to itself, and a segment begins at the same place of a page
    as its bytes do, the segment reads the bytes of the image. *)
Theorem elf_load_maps N file c q k entry phoff l :
  vm_inv N (vm k) -> current_proc (pt k) = Some c -> zlookup (procs (pt k)) c = Some q ->
  Z.of_nat (length l) < 65536 -> elf_held N (vm k) file entry phoff l -> segs_ok file (vm k) l ->
  free_frames N (total_pages l) (pms (vm k)) ->
  exists v', elf_load file k = Ret entry (set_vm v' k) /\ vm_inv N v' /\
    (forall va, 0 <= va < 4294967296 -> pd_index va <> 1023 ->
      translate (mach v') va =
        match seg_resolve file l va with Some p => Some p | None => translate (mach (vm k)) va end) /\
    (forall h i, h ∈ l -> seg_byte file h i -> at_self N (vm k) ((file +w p_offset h) + i) ->
      rd8 (p_vaddr h + i) (mach v') = rd8 ((file +w p_offset h) + i) (mach (vm k))) /\
    forall a, plain N (vm k) a -> pbyte (phys (mach v')) a = pbyte (phys (mach (vm k))) a.
Proof.
  intros Hinv Hc Hq Hlen [H1 H2 H3 H4] Hok Hfr. unfold elf_load. rewrite (bind_Ret _ _ _ _ _ (num_read N k _ _ _ H1)).
  destruct (elf_segments_ok N file c q k Hc Hq l (Z.to_nat 65537) (vm k) (file +w phoff) 0) as (v' & Hr & Hl);
    [done|apply u32_range|done|done|done|done|lia|].
  replace (set_vm (vm k) k) with k in Hr by (by destruct k). rewrite (bind_Ret _ _ _ _ _ Hr).
  exists v'. split.
  - apply (num_read N (set_vm v' k) 4 (file +w 24) entry). apply (ld_held _ _ _ _ _ Hl); [apply u32_range|done].
  - split; [apply (ld_inv _ _ _ _ _ Hl)|]. split; [apply (ld_translate _ _ _ _ _ Hl)|].
    split; [|intros a Ha; apply (ld_plain _ _ _ _ _ Hl a Ha)]. intros h i Hh Hb [Ht Hp].
    destruct (segs_ok_at _ _ _ h Hok Hh) as (Hv & Hs1 & Hs2). pose proof Hb as (Hi & Hin & _).
    cbn [rd8 machine_ops]. unfold in_seg in Hin.
    rewrite (ld_translate _ _ _ _ _ Hl) by (lia || apply window_bound; lia).
    rewrite (seg_resolve_in file (vm k) l h) by done. rewrite seg_byte_frame, Ht by done.
    by destruct (ld_plain _ _ _ _ _ Hl _ Hp) as [_ ->].
Qed.

Definition stack_size : Z := 16384.
Definition in_stack (va : Z) : Prop := VM_USER_STACK_ADDR - stack_size <= va < VM_USER_STACK_ADDR.
#[export] Instance in_stack_dec va : Decision (in_stack va).
Proof. unfold in_stack. apply _. Defined.

(** C22: What a process starts with: proc_load maps its ELF image and four
    fresh and pairwise different pages of stack below 0xd0000000, zeroed as the
    free frames of the invariant are, and
    leaves for ring 0 or 3, as the process is privileged or not, at the
    image's entry point with an empty stack and interrupts on. *)
Theorem proc_load_enters N c q k entry phoff l :
  vm_inv N (vm k) -> current_proc (pt k) = Some c -> zlookup (procs (pt k)) c = Some q ->
  Z.of_nat (length l) < 65536 -> num_held N (vm k) 4 (loc_address q) 1179403647 ->
  elf_held N (vm k) (loc_address q) entry phoff l -> segs_ok (loc_address q) (vm k) l ->
  (forall h va, h ∈ l -> in_seg h va -> ~ in_stack va) ->
  unmapped (vm k) (VM_USER_STACK_ADDR - stack_size) stack_size ->
  free_frames N (total_pages l + 8) (pms (vm k)) ->
  exists v' fs, proc_load k = Ret
      (IretFrame entry (if privileged q then SEG_KCODE else SEG_UCODE) 512 VM_USER_STACK_ADDR
         (if privileged q then SEG_KDATA else SEG_UDATA) (if privileged q then SEG_KDATA else SEG_UDATA)) (set_vm v' k) /\
    vm_inv N v' /\ length fs = 4%nat /\ NoDup fs /\
    (forall va, 0 <= va < 4294967296 -> pd_index va <> 1023 ->
      translate (mach v') va =
        if decide (in_stack va)
        then match fs !! Z.to_nat ((va - (VM_USER_STACK_ADDR - stack_size)) / 4096) with
             | Some f => Some (page_addr (pms v') f + va mod 4096)
             | None => None
             end
        else match seg_resolve (loc_address q) l va with Some p => Some p | None => translate (mach (vm k)) va end) /\
    (forall f i, f ∈ fs -> 0 <= i < 4096 -> pbyte (phys (mach v')) (page_addr (pms v') f + i) = Byte.x00) /\
    forall a, plain N (vm k) a -> pbyte (phys (mach v')) a = pbyte (phys (mach (vm k))) a.
Proof.
  intros Hinv Hc Hq Hlen Hmag [H1 H2 H3 H4] Hok Hdis Hst Hfr. unfold proc_load.
  assert (Hg : on_pt get k = Ret (pt k) k) by (by destruct k). rewrite (bind_Ret _ _ _ _ _ Hg), Hc.
  assert (Hd : on_pt (deref (Some c)) k = Ret (c, q) k).
  { rewrite (on_pt_Ret _ k (c, q) (pt k)); [by destruct k|]. by apply deref_Ret. }
  rewrite (bind_Ret _ _ _ _ _ Hd). cbn [snd]. rewrite (bind_Ret _ _ _ _ _ (num_read N k _ _ _ Hmag)).
  rewrite Z.eqb_refl.
  destruct (elf_segments_ok N (loc_address q) c q k Hc Hq l (Z.to_nat 65537) (vm k) (loc_address q +w phoff) 0)
    as (v1 & Hr & Hl); [done|apply u32_range|done|done|done|by apply free_frames_less in Hfr|lia|].
  replace (set_vm (vm k) k) with k in Hr by (by destruct k).
  assert (Hload : elf_load (loc_address q) k = Ret entry (set_vm v1 k)).
  { unfold elf_load. rewrite (bind_Ret _ _ _ _ _ (num_read N k _ _ _ H1)), (bind_Ret _ _ _ _ _ Hr).
    apply (num_read N (set_vm v1 k) 4). apply (ld_held _ _ _ _ _ Hl); [apply u32_range|done]. }
  rewrite (bind_Ret _ _ _ _ _ Hload). change (VM_USER_STACK_ADDR -w KiB 16) with (VM_USER_STACK_ADDR - stack_size).
  change (vm_alloc_pages_at (VM_USER_STACK_ADDR - stack_size) (if privileged q then 0 else PTE_U) (KiB 16))
    with (vm_alloc_loop 4 (VM_USER_STACK_ADDR - stack_size) (if privileged q then 0 else PTE_U)).
  destruct (vm_alloc_loop_ok N 4 0 v1 (VM_USER_STACK_ADDR - stack_size) (if privileged q then 0 else PTE_U))
    as (fs & v' & Ha & Hfl & Hal & _); [apply (ld_inv _ _ _ _ _ Hl)|by destruct (privileged q)|done|done|done| | |].
  { by apply (ld_free _ _ _ _ _ Hl). }
  { intros va Hva. unfold VM_USER_STACK_ADDR, stack_size in *.
    rewrite (ld_translate _ _ _ _ _ Hl) by (lia || apply window_bound; lia).
    rewrite seg_resolve_none by (intros h Hh Hin; apply (Hdis h va Hh Hin); unfold in_stack, VM_USER_STACK_ADDR, stack_size; lia).
    apply Hst. lia. }
  rewrite (bind_Ret _ _ _ _ _ (on_vm_Ret _ (set_vm v1 k) _ _ Ha)). exists v', fs. split; [done|].
  assert (Hpa : forall f, page_addr (pms v') f = page_addr (pms v1) f) by (intros f; unfold page_addr; by rewrite (al_pool _ _ _ _ _ Hal)).
  split; [apply (al_inv _ _ _ _ _ Hal)|]. split; [done|]. split; [apply (al_fresh _ _ _ _ _ Hal)|]. split; [|split].
  - intros va Hva Hw. rewrite (al_translate _ _ _ _ _ Hal) by done. rewrite Hfl.
    rewrite (ld_translate _ _ _ _ _ Hl) by done. unfold in_stack, VM_USER_STACK_ADDR, stack_size in *.
    destruct (decide _) as [Hin|Hout].
    + destruct (fs !! _); [by rewrite Hpa|done].
    + done.
  - intros f i Hf Hi. rewrite Hpa. destruct (al_bytes _ _ _ _ _ Hal f i Hf Hi) as [_ ->].
    destruct (al_fresh _ _ _ _ _ Hal) as [_ Hfree]. destruct (Hfree f Hf). by apply (inv_zero _ _ (ld_inv _ _ _ _ _ Hl)).
  - intros a Hp. destruct (ld_plain _ _ _ _ _ Hl a Hp) as [Hp1 <-]. apply (al_plain _ _ _ _ _ Hal a Hp1).
Qed.

(** ** An image at 0xb8000

    Writing memory that mapping leaves alone keeps the address space. *)

Definition poke (a : Z) (bs : list byte) (s : vmst) : vmst :=
  set_mach (set_phys (pwrite a bs (phys (mach s))) (mach s)) s.

Section Poke.
Variables (N a : Z) (bs : list byte) (s : vmst).
Hypothesis Hinv : vm_inv N s.
Hypothesis Hpl : forall i, 0 <= i < Z.of_nat (length bs) -> plain N s (a + i).

Lemma poke_load f x : (forall y, f <= y < f + 4096 -> ~ plain N s y) -> 0 <= x <= 4092 ->
  pload32 (phys (mach (poke a bs s))) (f + x) = pload32 (phys (mach s)) (f + x).
Proof.
  intros Hf Hx. unfold pload32, poke. cbn [mach set_mach phys set_phys].
  assert (Hb : forall y, f <= y < f + 4096 -> pbyte (pwrite a bs (phys (mach s))) y = pbyte (phys (mach s)) y).
  { intros y Hy. apply pbyte_pwrite_ne. intros Hr. apply (Hf y Hy). replace y with (a + (y - a)) by lia. apply Hpl. lia. }
  rewrite !Hb by lia. done.
Qed.

Lemma poke_pde d : 0 <= d < 1024 -> pde_at (mach (poke a bs s)) d = pde_at (mach s) d.
Proof.
  intros Hd. apply (poke_load (frame (cr3 (mach s))) (4 * d)); [|lia]. intros y Hy [Ht _].
  destruct (as_self _ (inv_as _ _ Hinv)) as [H1 H2]. rewrite <- H2 in Hy. by apply (Ht 1023).
Qed.

Lemma poke_pte d t : 0 <= d < 1024 -> 0 <= t < 1024 -> has (pde_at (mach s) d) 1 = true ->
  pte_at (mach (poke a bs s)) d t = pte_at (mach s) d t.
Proof.
  intros Hd Ht Hp. unfold pte_at, pte_addr. rewrite poke_pde by done.
  apply (poke_load (frame (pde_at (mach s) d)) (4 * t)); [|lia]. intros y Hy [Htab _]. by apply (Htab d).
Qed.

Lemma poke_plain b : plain N s b -> plain N (poke a bs s) b.
Proof. intros [Ht Hf]. split; [|done]. intros d Hd. rewrite poke_pde by done. by apply Ht. Qed.

Lemma poke_entry va : 0 <= va < 4294967296 -> entry (mach (poke a bs s)) va = entry (mach s) va.
Proof.
  intros Hva. pose proof (pd_index_range va Hva). pose proof (pt_index_range va). unfold entry, walk.
  rewrite poke_pde by lia. destruct (has (pde_at (mach s) (pd_index va)) 1) eqn:Hp; [|done].
  by rewrite poke_pte.
Qed.

Lemma poke_translate va : 0 <= va < 4294967296 -> translate (mach (poke a bs s)) va = translate (mach s) va.
Proof. intros Hva. by apply entry_translate, poke_entry. Qed.

Lemma poke_inv : vm_inv N (poke a bs s).
Proof.
  destruct Hinv as [HN [Hc [Hs1 Hs2] Hd] Hpm Htab Hz]. split; [done| |done| |].
  - split; [done|rewrite poke_pde by lia; done|]. intros d d' H1 H2. rewrite !poke_pde by done. by apply Hd.
  - intros d k H1. rewrite poke_pde by done. by apply Htab.
  - intros k i Hk Hu Hi. cbn [pms poke set_mach] in *. unfold poke. cbn [mach set_mach phys set_phys].
    rewrite pbyte_pwrite_ne; [by apply Hz|]. intros Hr.
    destruct (Hpl (page_addr (pms s) k + i - a)) as [_ Hfr]; [lia|]. apply (Hfr k Hk Hu). lia.
Qed.
End Poke.

(** An image of one loadable page and one header of another type, entered at
    0x8048010, in the page that vm_boot1 maps to itself *)
Definition img : list byte :=
  le_split 4 1179403647 ++ repeat Byte.x00 20 ++ le_split 4 134512656 ++ le_split 4 52 ++ repeat Byte.x00 12 ++
  le_split 2 2 ++ repeat Byte.x00 6 ++
  concat (map (le_split 4) [1; 0; 134512640; 0; 4096; 4096; 0; 0; 2; 0; 0; 0; 16; 16; 0; 0]).
Definition img_headers : list elf_pheader := [Pheader 1 0 134512640 4096; Pheader 2 0 0 16].

(** [l] at the start of that page *)
Definition page_vm (l : list byte) : vmst := poke 753664 l vm_boot1.

Definition img_vm : vmst := page_vm img.
Definition img_proc : proc := with_location 753664 4096 (with_state PROC_RUNNING proc0).
Definition k_img : kst :=
  set_vm img_vm (set_pt (PTable (img_proc :: repeat proc0 63) 1 None (Some 0) true 1) k_boot).

Lemma vm_boot1_plain i : 0 <= i < 4096 -> plain 1024 vm_boot1 (753664 + i).
Proof.
  intros Hi. apply (mo_plain _ _ _ _ _ _ (proj2 vm_boot1_run)). split.
  - intros d Hd. rewrite vm_boot_pde by done. case_decide; [|done]. change (frame 1048579) with 1048576. lia.
  - intros k Hk _. unfold pool_page in Hk. rewrite vm_boot_page by done. lia.
Qed.

Lemma vm_boot1_translate va : 0 <= va < 4290772992 ->
  translate (mach vm_boot1) va = if decide (753664 <= va < 757760) then Some va else None.
Proof.
  intros Hva. pose proof (window_bound va Hva).
  rewrite (maps_one_translate _ _ _ _ _ _ _ (proj2 vm_boot1_run)) by lia.
  assert (Hsame : pd_index va = pd_index 753664 /\ pt_index va = pt_index 753664 <-> 753664 <= va < 757760)
    by (rewrite same_page by lia; zdm).
  destruct (decide (753664 <= va < 757760)).
  - rewrite decide_True by (by apply Hsame). change (frame (new_pte 753664 0)) with 753664. f_equal. zdm.
  - rewrite decide_False by (by rewrite Hsame). by apply vm_boot_unmapped.
Qed.

Section Page.
Variable l : list byte.
Hypothesis Hl : Z.of_nat (length l) <= 4096.

Lemma page_plain i : 0 <= i < Z.of_nat (length l) -> plain 1024 vm_boot1 (753664 + i).
Proof. intros Hi. apply vm_boot1_plain. lia. Qed.

Lemma page_translate va : 0 <= va < 4290772992 ->
  translate (mach (page_vm l)) va = if decide (753664 <= va < 757760) then Some va else None.
Proof.
  intros Hva. unfold page_vm. rewrite (poke_translate 1024); [by apply vm_boot1_translate|apply vm_boot1_inv|apply page_plain|lia].
Qed.

Lemma page_kept a : plain 1024 vm_boot1 a -> plain 1024 (page_vm l) a.
Proof. apply (poke_plain 1024); [apply vm_boot1_inv|apply page_plain]. Qed.

Lemma page_num n a bs v : 753664 <= a -> a + Z.of_nat n <= 757760 ->
  rdn n a (mach (page_vm l)) = Some bs -> le_combine bs = v -> num_held 1024 (page_vm l) n a v.
Proof.
  intros Ha Hn Hr Hv. split; [unfold loadn; by rewrite Hr, Hv|]. intros i Hi. rewrite u32_small by lia.
  split; [lia|]. split; [by apply window_bound; lia|]. exists (a + i). split.
  - rewrite page_translate by lia. by rewrite decide_True by lia.
  - apply page_kept. replace (a + i) with (753664 + (a + i - 753664)) by lia. apply vm_boot1_plain. lia.
Qed.

Lemma page_word a v : 753664 <= a <= 757756 ->
  match rdn 4 a (mach (page_vm l)) with Some bs => le_combine bs =? v | None => false end = true ->
  num_held 1024 (page_vm l) 4 a v.
Proof.
  intros Ha H. destruct (rdn 4 a (mach (page_vm l))) as [bs|] eqn:Hb; [|done].
  apply Z.eqb_eq in H. apply (page_num 4%nat a bs v); done || lia.
Qed.

Lemma page_inv : vm_inv 1024 (page_vm l).
Proof. apply poke_inv; [apply vm_boot1_inv|apply page_plain]. Qed.

Lemma page_free n : (n <= 1000)%nat -> free_frames 1024 n (pms (page_vm l)).
Proof.
  intros Hn. apply (free_frames_step 1024 n (pms vm_boot)); [lia|apply vm_boot_free; lia|].
  apply (mo_one _ _ _ _ _ _ (proj2 vm_boot1_run)).
Qed.
End Page.

Lemma img_fits : Z.of_nat (length img) <= 4096.
Proof. vm_compute. discriminate. Qed.

Ltac img_word n a := let b := eval vm_compute in a in
  apply (page_num img img_fits n b (match rdn n b (mach img_vm) with Some l => l | None => [] end));
  [lia|lia|vm_compute; reflexivity|vm_compute; reflexivity].

Lemma img_held : elf_held 1024 img_vm 753664 134512656 52 img_headers.
Proof.
  split; [img_word 4%nat (753664 +w 28)|img_word 4%nat (753664 +w 24)|img_word 2%nat (753664 +w 44)|].
  split; [split; [|split; [|split]]|split; [split; [|split; [|split]]|done]].
  - img_word 4%nat (753664 +w 52).
  - img_word 4%nat (753664 +w 56).
  - img_word 4%nat (753664 +w 60).
  - img_word 4%nat (753664 +w 72).
  - img_word 4%nat (753664 +w 84).
  - img_word 4%nat (753664 +w 88).
  - img_word 4%nat (753664 +w 92).
  - img_word 4%nat (753664 +w 104).
Qed.

Lemma img_segs : segs_ok 753664 img_vm img_headers.
Proof.
  cbn [segs_ok img_headers]. change (seg_start (Pheader 1 0 134512640 4096)) with 134512640.
  change (seg_frame 753664 (Pheader 1 0 134512640 4096)) with 753664. change (seg_pages (Pheader 1 0 134512640 4096)) with 1.
  change (seg_start (Pheader 2 0 0 16)) with 0. change (seg_frame 753664 (Pheader 2 0 0 16)) with 753664.
  change (seg_pages (Pheader 2 0 0 16)) with 0. cbn [p_memsz p_vaddr]. split; [|split; [|done]].
  - split; [lia|]. split; [lia|]. split; [lia|]. split; [lia|]. split.
    + intros va Hva. unfold img_vm; rewrite (page_translate img img_fits) by lia. by rewrite decide_False by lia.
    + intros h va ->%list_elem_of_singleton _. unfold in_seg. change (seg_pages (Pheader 2 0 0 16)) with 0. lia.
  - split; [lia|]. split; [lia|]. split; [lia|]. split; [lia|]. split; [intros va Hva; lia|].
    intros h va Hh. by apply elem_of_nil in Hh.
Qed.

Lemma elf_load_maps_witness : exists v', elf_load 753664 k_img = Ret 134512656 (set_vm v' k_img) /\
  translate (mach v') 134512700 = Some 753724 /\ rd8 134512641 (mach v') = Some Byte.x45.
Proof.
  destruct (elf_load_maps 1024 753664 0 img_proc k_img 134512656 52 img_headers) as (v' & Hr & _ & Ht & Hb & _);
    [exact (page_inv img img_fits)|reflexivity|reflexivity|cbn; lia|exact img_held|exact img_segs|apply (page_free img); vm_compute; lia|].
  exists v'. split; [exact Hr|]. split; [rewrite Ht; [reflexivity|lia|vm_compute; discriminate]|].
  change 134512641 with (p_vaddr (Pheader 1 0 134512640 4096) + 1). rewrite Hb; [vm_compute; reflexivity|by left| |].
  - split; [cbn; lia|]. split; [|reflexivity]. split; [discriminate|reflexivity].
  - change (u32 (753664 + p_offset (Pheader 1 0 134512640 4096)) + 1) with 753665. change (vm k_img) with img_vm. split.
    + unfold img_vm. rewrite (page_translate img img_fits) by lia. by rewrite decide_True by lia.
    + unfold img_vm. apply (page_kept img img_fits). exact (vm_boot1_plain 1 ltac:(lia)).
Defined.

Lemma proc_load_enters_witness : exists v',
  proc_load k_img = Ret (IretFrame 134512656 SEG_UCODE 512 3489660928 SEG_UDATA SEG_UDATA) (set_vm v' k_img) /\
  vm_inv 1024 v' /\ translate (mach v') 134512700 = Some 753724.
Proof.
  destruct (proc_load_enters 1024 0 img_proc k_img 134512656 52 img_headers) as (v' & fs & Hr & Hi & _ & _ & Ht & _).
  - exact (page_inv img img_fits).
  - reflexivity.
  - reflexivity.
  - cbn. lia.
  - img_word 4%nat 753664.
  - exact img_held.
  - exact img_segs.
  - intros h va Hh Hin Hs. unfold in_stack, VM_USER_STACK_ADDR, stack_size, in_seg in *.
    apply elem_of_cons in Hh as [->|Hh%list_elem_of_singleton]; [|subst h].
    + change (seg_start (Pheader 1 0 134512640 4096)) with 134512640 in Hin.
      change (seg_pages (Pheader 1 0 134512640 4096)) with 1 in Hin. lia.
    + change (seg_pages (Pheader 2 0 0 16)) with 0 in Hin. lia.
  - intros va Hva. unfold VM_USER_STACK_ADDR, stack_size in Hva. change (vm k_img) with img_vm.
    unfold img_vm; rewrite (page_translate img img_fits) by lia. by rewrite decide_False by lia.
  - apply (page_free img). vm_compute. lia.
  - exists v'. split; [exact Hr|]. split; [exact Hi|]. rewrite Ht; [reflexivity|lia|vm_compute; discriminate].
Defined.

Lemma vm_alloc_pages_at_fresh_witness : exists fs s',
  vm_alloc_pages_at 1073741824 2 10000 img_vm = Ret tt s' /\ Z.of_nat (length fs) = 3 /\ allocated 1024 1073741824 fs img_vm s'.
Proof.
  apply (vm_alloc_pages_at_fresh 1024 img_vm 1073741824 2 10000);
    [exact (page_inv img img_fits)|lia|lia|lia|vm_compute; discriminate|apply (page_free img); vm_compute; lia|].
  change (PALIGNDOWN 1073741824) with 1073741824. change (4096 * npages 10000) with 12288.
  intros va Hva. unfold img_vm; rewrite (page_translate img img_fits) by lia. by rewrite decide_False by lia.
Defined.
