(* ===== verification/Window.v ===== *)
(** * Window.v: copying into another address space (kernel/syscall.c)

    send and reply reach the other party's buffer by mapping its physical
    pages at a fixed address of the current space, copying, and unmapping.
    Here the three steps are put together: what arrives, and that the address
    space and all other memory are left as they were. *)

From S2P Require Import Prelude Memory Machine Pm Vm Heap Queue Desc Proc Load.

(** ** What a step leaves alone

    [changes N f D s s']: memory is written only where [D] holds, every address
    goes through the entry it went through, and at most [f] frames are used
    up. *)

Record changes (N : Z) (f : nat) (D : Z -> Prop) (s s' : vmst) : Prop := {
  ch_inv : vm_inv N s';
  ch_cr3 : cr3 (mach s') = cr3 (mach s);
  ch_entry : forall va, 0 <= va < 4294967296 -> pd_index va <> 1023 -> entry (mach s') va = entry (mach s) va;
  ch_plain : forall a, plain N s a -> plain N s' a;
  ch_rest : forall a, plain N s a -> ~ D a -> pbyte (phys (mach s')) a = pbyte (phys (mach s)) a;
  ch_free : forall m, free_frames N (f + m) (pms s) -> free_frames N m (pms s');
}.

Definition within (p len : Z) (a : Z) : Prop := p <= a < p + len.

(** None of the [n] bytes at [a] is where [D] holds. *)
Definition outside (D : Z -> Prop) (s : vmst) (a : Z) (n : nat) : Prop :=
  forall i q, 0 <= i < Z.of_nat n -> translate (mach s) (u32 (a + i)) = Some q -> ~ D q.

Section Changes.
Variable N : Z.
Implicit Types (D E : Z -> Prop) (s : vmst).

Lemma changes_refl D s : vm_inv N s -> changes N 0 D s s.
Proof. by split. Qed.

Lemma changes_weaken f D E s s' : changes N f D s s' -> (forall a, D a -> E a) -> changes N f E s s'.
Proof. intros [? ? ? ? H ?] HD. split; try done. intros a Ha Hn. apply H; [done|]. auto. Qed.

Lemma changes_trans f g D s1 s2 s3 : changes N f D s1 s2 -> changes N g D s2 s3 -> changes N (f + g) D s1 s3.
Proof.
  intros [H1 H2 H3 H4 H5 H6] [K1 K2 K3 K4 K5 K6]. split; [done|congruence| |by auto| |].
  - intros va Hva Hw. rewrite K3 by done. by apply H3.
  - intros a Ha Hn. rewrite K5 by auto. by apply H5.
  - intros m Hm. apply K6, H6. by rewrite Nat.add_assoc.
Qed.

Lemma changes_translate f D s s' va : changes N f D s s' -> 0 <= va < 4294967296 -> pd_index va <> 1023 ->
  translate (mach s') va = translate (mach s) va.
Proof. intros H Hva Hw. apply entry_translate. by apply (ch_entry _ _ _ _ _ H). Qed.

Lemma changes_unmapped f D s s' v n : changes N f D s s' -> 0 <= v -> v + n <= 4290772992 ->
  unmapped s v n -> unmapped s' v n.
Proof.
  intros H Hv Hn Hu va Hva. rewrite (changes_translate _ _ _ _ _ H) by (try apply window_bound; lia). by apply Hu.
Qed.

Lemma changes_held f D s s' a : changes N f D s s' -> held N s a -> held N s' a.
Proof.
  intros H (Ha & Hw & q & Ht & Hq). split; [done|]. split; [done|]. exists q.
  split; [|by apply (ch_plain _ _ _ _ _ H)]. by rewrite (changes_translate _ _ _ _ _ H).
Qed.

Lemma changes_num f D s s' n a w : changes N f D s s' -> 0 <= a < 4294967296 -> outside D s a n ->
  num_held N s n a w -> num_held N s' n a w.
Proof.
  intros H Ha Ho. apply num_held_pointwise; [done|]. intros i Hi Hh. split; [by apply (changes_held f D s)|].
  destruct Hh as (Hr & Hw & q & Ht & Hq). cbn [rd8 machine_ops].
  rewrite (changes_translate _ _ _ _ _ H), Ht by done. f_equal. apply (ch_rest _ _ _ _ _ H); [done|]. by apply (Ho i).
Qed.

Lemma changes_outside f D E s s' a n : changes N f D s s' -> (forall i, 0 <= i < Z.of_nat n -> held N s (u32 (a + i))) ->
  outside E s a n -> outside E s' a n.
Proof.
  intros H Hh Ho i q Hi. destruct (Hh i Hi) as (Hr & Hw & _). rewrite (changes_translate _ _ _ _ _ H) by done.
  by apply Ho.
Qed.

Lemma poke_changes p bs s : vm_inv N s -> (forall i, 0 <= i < Z.of_nat (length bs) -> plain N s (p + i)) ->
  changes N 0 (within p (Z.of_nat (length bs))) s (poke p bs s).
Proof.
  intros Hi Hp. split; try done.
  - by apply poke_inv.
  - intros va Hva _. by apply (poke_entry N).
  - intros a. by apply poke_plain.
  - intros a _ Hn. unfold poke. cbn [mach set_mach phys set_phys]. by apply pbyte_pwrite_ne.
Qed.
End Changes.

(** ** The copy *)

(** [src] holds the bytes [bs] in memory that mapping leaves alone, none of
    them where [D] holds. *)
Definition bytes_at (N : Z) (s : vmst) (src : Z) (D : Z -> Prop) (bs : list byte) : Prop :=
  forall i b, bs !! i = Some b -> exists q, translate (mach s) (u32 (src + Z.of_nat i)) = Some q /\
    pbyte (phys (mach s)) q = b /\ plain N s q /\ pd_index (u32 (src + Z.of_nat i)) <> 1023 /\ ~ D q.

(** The source of a copy to [p] *)
Definition source (N : Z) (s : vmst) (src p : Z) (bs : list byte) : Prop :=
  bytes_at N s src (within p (Z.of_nat (length bs))) bs.

Lemma bytes_at_changes N f D E s s' src bs : changes N f E s s' -> (forall a, E a -> D a) ->
  bytes_at N s src D bs -> bytes_at N s' src D bs.
Proof.
  intros H HE Hs i b Hi. destruct (Hs i b Hi) as (q & Ht & Hb & Hp & Hw & Hn). exists q.
  rewrite (changes_translate _ _ _ _ _ _ H) by (done || apply u32_range).
  rewrite (ch_rest _ _ _ _ _ H) by auto. split; [done|]. split; [done|]. split; [by apply (ch_plain _ _ _ _ _ H)|done].
Qed.

(** [dst] leads to [n] bytes of plain memory at [p]. *)
Definition leads (N : Z) (s : vmst) (dst p n : Z) : Prop :=
  forall i, 0 <= i < n -> translate (mach s) (u32 (dst + i)) = Some (p + i) /\ plain N s (p + i).

Lemma source_head N s src p b bs : source N s src p (b :: bs) -> 0 <= src < 4294967296 ->
  load8 src (mach s) = Ret (byte.unsigned b) (mach s).
Proof.
  intros Hsrc Hs. destruct (Hsrc 0%nat b eq_refl) as (q & Hq & Hb & _). change (Z.of_nat 0) with 0 in Hq.
  rewrite Z.add_0_r, u32_small in Hq by done. rewrite load8_eq. simpl. by rewrite Hq, Hb.
Qed.

Lemma memcpy_step N s dst src p b bs n : vm_inv N s ->
  0 <= dst < 4294967296 -> 0 <= src < 4294967296 -> 0 <= n ->
  leads N s dst p (n + 1) -> source N s src p (b :: bs) ->
  (forall k, memcpy_loop (S k) dst src (mach s) =
     memcpy_loop k (u32 (dst + 1)) (u32 (src + 1)) (mach (poke p [b] s))) /\
  vm_inv N (poke p [b] s) /\ leads N (poke p [b] s) (u32 (dst + 1)) (p + 1) n /\
  source N (poke p [b] s) (u32 (src + 1)) (p + 1) bs /\
  forall va, 0 <= va < 4294967296 -> translate (mach (poke p [b] s)) va = translate (mach s) va.
Proof.
  intros Hinv Hd Hs Hn Hl Hsrc. destruct (Hl 0 ltac:(lia)) as [Ht Hp].
  rewrite Z.add_0_r, u32_small in Ht by done. rewrite Z.add_0_r in Hp.
  assert (Hpl : forall i, 0 <= i < Z.of_nat (length [b]) -> plain N s (p + i)).
  { cbn [length]. intros i Hi. replace i with 0 by lia. by rewrite Z.add_0_r. }
  assert (Hstore : store8 dst (byte.unsigned b) (mach s) = Ret tt (mach (poke p [b] s))).
  { rewrite store8_eq, byte.of_Z_unsigned. cbn [wr8 machine_ops]. rewrite Ht, Z.add_0_r. done. }
  pose proof (poke_translate N p [b] s Hinv Hpl) as Htr.
  split; [|split; [|split; [|split]]].
  - intros k. cbn [memcpy_loop]. rewrite (bind_Ret _ _ _ _ _ (source_head _ _ _ _ _ _ Hsrc Hs)).
    by rewrite (bind_Ret _ _ _ _ _ Hstore).
  - by apply poke_inv.
  - intros i Hi. rewrite u32_add_l. replace (dst + 1 + i) with (dst + (i + 1)) by lia.
    replace (p + 1 + i) with (p + (i + 1)) by lia. rewrite Htr by apply u32_range.
    destruct (Hl (i + 1) ltac:(lia)) as [H1 H2]. split; [done|by apply (poke_plain N)].
  - intros i c Hc. rewrite u32_add_l. destruct (Hsrc (S i) c Hc) as (q' & Hq' & Hb' & Hqp' & Hw & Hqd').
    rewrite Nat2Z.inj_succ in Hq', Hw. replace (src + 1 + Z.of_nat i) with (src + Z.succ (Z.of_nat i)) by lia.
    unfold within in *. cbn [length] in Hqd'. exists q'. rewrite Htr by apply u32_range. split; [done|]. split; [|split].
    + unfold poke. cbn [mach set_mach phys set_phys]. rewrite pbyte_pwrite_ne; [done|]. cbn [length]. lia.
    + by apply (poke_plain N).
    + split; [done|]. lia.
  - exact Htr.
Qed.

Lemma memcpy_loop_poke N bs : forall s dst src p, vm_inv N s ->
  0 <= dst < 4294967296 -> 0 <= src < 4294967296 ->
  leads N s dst p (Z.of_nat (length bs)) -> source N s src p bs ->
  memcpy_loop (length bs) dst src (mach s) = Ret tt (mach (poke p bs s)).
Proof.
  induction bs as [|b bs IH]; intros s dst src p Hinv Hd Hs Hl Hsrc; [by destruct s as [[]]|].
  destruct (memcpy_step N s dst src p b bs (Z.of_nat (length bs))) as (Hr & Hi & Hl' & Hs' & _); try done; [lia| |].
  { replace (Z.of_nat (length bs) + 1) with (Z.of_nat (length (b :: bs))) by (cbn; lia). done. }
  cbn [length]. rewrite Hr. change (poke p (b :: bs) s) with (poke (p + 1) bs (poke p [b] s)).
  by apply IH; try apply u32_range.
Qed.

(** With less of it leading anywhere, the copy stops at the first byte behind. *)
Lemma memcpy_loop_faults N bs : forall s dst src p n, vm_inv N s ->
  0 <= dst < 4294967296 -> 0 <= src < 4294967296 -> (n < length bs)%nat ->
  leads N s dst p (Z.of_nat n) -> translate (mach s) (u32 (dst + Z.of_nat n)) = None -> source N s src p bs ->
  memcpy_loop (length bs) dst src (mach s) = Faulted (u32 (dst + Z.of_nat n)).
Proof.
  induction bs as [|b bs IH]; intros s dst src p n Hinv Hd Hs Hn Hl Hf Hsrc; [cbn in Hn; lia|].
  cbn [length] in *. destruct n as [|n].
  { change (Z.of_nat 0) with 0 in *. rewrite Z.add_0_r in *. rewrite u32_small in * by done. cbn [memcpy_loop].
    rewrite (bind_Ret _ _ _ _ _ (source_head _ _ _ _ _ _ Hsrc Hs)).
    unfold mbind, M_bind. rewrite store8_eq. cbn [wr8 machine_ops]. by rewrite Hf. }
  destruct (memcpy_step N s dst src p b bs (Z.of_nat n)) as (Hr & Hi & Hl' & Hs' & Htr); try done; [lia| |].
  { by replace (Z.of_nat n + 1) with (Z.of_nat (S n)) by lia. }
  assert (He : u32 (dst + Z.of_nat (S n)) = u32 (u32 (dst + 1) + Z.of_nat n)).
  { rewrite u32_add_l. f_equal. lia. }
  rewrite Hr, He in *. apply (IH (poke p [b] s) (u32 (dst + 1)) (u32 (src + 1)) (p + 1)); try apply u32_range; try done; [lia|].
  by rewrite Htr by apply u32_range.
Qed.

(** ** Unmapping a range *)

Record unmaps (N v n : Z) (s s' : vmst) : Prop := {
  um_inv : vm_inv N s';
  um_cr3 : cr3 (mach s') = cr3 (mach s);
  um_translate : forall va, 0 <= va < 4294967296 ->
    translate (mach s') va = if decide (v <= va < v + 4096 * n) then None else translate (mach s) va;
  um_plain : forall a, plain N s a -> plain N s' a /\ pbyte (phys (mach s')) a = pbyte (phys (mach s)) a;
  um_pms : pms s' = pms s;
  um_entry : forall va, 0 <= va < 4294967296 -> ~ (v <= va < v + 4096 * n) -> entry (mach s') va = entry (mach s) va;
}.

Lemma unmap_page_ok N s v : vm_inv N s -> 0 <= v -> v mod 4096 = 0 -> v + 4096 <= 4290772992 ->
  translate (mach s) v <> None -> exists s', unmap_page v s = Ret tt s' /\ unmaps N v 1 s s'.
Proof.
  intros Hinv Hv Hal Hb Ht. assert (Hva : 0 <= v < 4294967296) by lia.
  destruct (PALIGNDOWN_index v Hva) as (Hd & Htt & _). pose proof (window_bound v ltac:(lia)) as Hw.
  destruct (map_page_d v Hva Hw) as [Hdr Htr]. unfold unmap_page.
  rewrite vst_pte, Hd, Htt by (apply PALIGNDOWN_index, Hva || apply (inv_as _ _ Hinv)).
  destruct (has (pde_at (mach s) (pd_index v)) 1) eqn:Hp.
  2:{ exfalso. apply Ht. unfold translate, walk. by rewrite Hp. }
  destruct (set_pte_mapped N s (pd_index v) (pt_index v) 0) as [Hi Htr']; try done.
  eexists. split; [done|]. split; try done.
  - intros va Hr. rewrite Htr' by done.
    destruct (decide (v <= va < v + 4096 * 1)) as [He|Hne].
    + rewrite decide_True by (apply same_page; zdm). done.
    + rewrite decide_False; [done|]. rewrite same_page by lia. zdm.
  - intros a Ha. split.
    + destruct Ha as [H1 H2]. split; [|done]. intros d Hd'. cbn [mach set_mach].
      rewrite pde_at_set_pte by (done || apply (inv_as _ _ Hinv)). by apply H1.
    + unfold set_mach, set_pte. cbn [mach phys set_phys]. apply pbyte_pstore32_ne. intros Hr.
      destruct Ha as [H1 _]. apply (H1 (pd_index v)); [lia|done|]. unfold pte_addr in Hr. lia.
  - intros va Hr Ho. cbn [mach set_mach]. apply (set_pte_entry N); try done. rewrite same_page by lia. zdm.
Qed.

Lemma unmaps_refl N v s : vm_inv N s -> unmaps N v 0 s s.
Proof. intros Hi. split; try done. intros va _. by rewrite decide_False by lia. Qed.

Lemma unmaps_trans N v n s1 s2 s3 : unmaps N v 1 s1 s2 -> unmaps N (v + 4096) n s2 s3 -> 0 <= n ->
  unmaps N v (n + 1) s1 s3.
Proof.
  intros [H1 H2 H3 H4 H5 H6] [K1 K2 K3 K4 K5 K6] Hn. split; [done|congruence| | |congruence|].
  - intros va Hva. rewrite K3, H3 by done. repeat case_decide; done || lia.
  - intros a Ha. destruct (H4 a Ha) as [Ha' <-]. by apply K4.
  - intros va Hva Ho. rewrite K6 by (done || lia). apply H6; [done|lia].
Qed.

Lemma unmap_pages_loop_ok N n : forall s v, vm_inv N s -> 0 <= v -> v mod 4096 = 0 ->
  v + 4096 * Z.of_nat n <= 4290772992 ->
  (forall va, v <= va < v + 4096 * Z.of_nat n -> translate (mach s) va <> None) ->
  exists s', unmap_pages_loop n v s = Ret tt s' /\ unmaps N v (Z.of_nat n) s s'.
Proof.
  induction n as [|n IH]; intros s v Hinv Hv Hal Hb Ht.
  { exists s. split; [done|by apply unmaps_refl]. }
  destruct (unmap_page_ok N s v) as (s1 & Hr & Hm); try done; [lia|apply Ht; lia|].
  cbn [unmap_pages_loop]. rewrite (bind_Ret _ _ _ _ _ Hr). change PAGE_SIZE with 4096. rewrite u32_small by lia.
  destruct (IH s1 (v + 4096)) as (s2 & Hr2 & Hm2); [apply (um_inv _ _ _ _ _ Hm)|lia|zdm|lia| |].
  { intros va Hva. rewrite (um_translate _ _ _ _ _ Hm) by lia. rewrite decide_False by lia. apply Ht. lia. }
  exists s2. split; [done|]. rewrite Nat2Z.inj_succ. apply (unmaps_trans _ _ _ _ s1); [done..|lia].
Qed.

Lemma unmap_pages_ok N s v sz : vm_inv N s -> 0 < sz -> 0 <= v -> v mod 4096 = 0 ->
  v + 4096 * npages sz <= 4290772992 ->
  (forall va, v <= va < v + 4096 * npages sz -> translate (mach s) va <> None) ->
  exists s', unmap_pages v sz s = Ret tt s' /\ unmaps N v (npages sz) s s'.
Proof.
  intros Hinv Hsz Hv Hal Hb Ht. destruct (npages_bounds sz Hsz) as [Hn _]. unfold unmap_pages.
  destruct (Z.eqb_spec sz 0); [lia|]. rewrite PALIGNDOWN_eq, Hal, Z.sub_0_r by lia.
  destruct (unmap_pages_loop_ok N (Z.to_nat (npages sz)) s v) as (s' & Hr & Hm);
    rewrite ?Z2Nat.id by lia; try done. rewrite Z2Nat.id in Hm by lia. by exists s'.
Qed.

(** ** The three steps together *)

(** Mapping unmapped pages, changing memory and unmapping the pages again *)
Lemma windowed N base p n D s v1 w v2 : unmapped s base (4096 * n) -> maps_range N base p n s v1 ->
  changes N 0 D v1 w -> unmaps N base n w v2 -> changes N (Z.to_nat n) D s v2.
Proof.
  intros Hun Hr Hc Hm. split.
  - apply (um_inv _ _ _ _ _ Hm).
  - rewrite (um_cr3 _ _ _ _ _ Hm), (ch_cr3 _ _ _ _ _ Hc). apply (mr_cr3 _ _ _ _ _ _ Hr).
  - intros va Hva Hw. destruct (decide (base <= va < base + 4096 * n)) as [Hin|Hout].
    + assert (Ht : translate (mach v2) va = None) by (by rewrite (um_translate _ _ _ _ _ Hm), decide_True).
      apply walk_translate_None in Ht. pose proof (Hun va Hin) as Hu. apply walk_translate_None in Hu.
      unfold entry. congruence.
    + rewrite (um_entry _ _ _ _ _ Hm), (ch_entry _ _ _ _ _ Hc) by done. by apply (mr_entry _ _ _ _ _ _ Hr).
  - intros a Ha. apply (um_plain _ _ _ _ _ Hm), (ch_plain _ _ _ _ _ Hc), (mr_plain _ _ _ _ _ _ Hr), Ha.
  - intros a Ha Hn. destruct (mr_plain _ _ _ _ _ _ Hr a Ha) as [Ha1 <-].
    destruct (um_plain _ _ _ _ _ Hm a) as [_ ->]; [by apply (ch_plain _ _ _ _ _ Hc)|]. by apply (ch_rest _ _ _ _ _ Hc).
  - intros m Hf. rewrite (um_pms _ _ _ _ _ Hm). apply (ch_free _ _ _ _ _ Hc). by apply (mr_free _ _ _ _ _ _ Hr).
Qed.

(** What is left of a copy of [bs] to the physical address [p] *)
Definition copied (N p : Z) (bs : list byte) (s s' : vmst) : Prop :=
  changes N (Z.to_nat (npages (Z.of_nat (length bs)))) (within p (Z.of_nat (length bs))) s s' /\
  forall i b, bs !! i = Some b -> pbyte (phys (mach s')) (p + Z.of_nat i) = b.

(** The window at [base] takes the buffer of [len] bytes at [p]. *)
Record window (N : Z) (s : vmst) (base p len : Z) : Prop := {
  wi_base : 0 <= base /\ base mod 4096 = 0;
  wi_len : 0 < len /\ 0 <= p < 4294967296;
  wi_room : PALIGNDOWN p + 4096 * npages len <= 4294967296 /\ base + 4096 * npages len <= 4290772992;
  wi_free : free_frames N (Z.to_nat (npages len)) (pms s);
  wi_unmapped : unmapped s base (4096 * npages len);
  wi_dest : forall i, 0 <= i < len -> plain N s (p + i);
}.

Lemma pbyte_poke p bs s a : pbyte (phys (mach (poke p bs s))) a =
  default (pbyte (phys (mach s)) a) (if a <? p then None else bs !! Z.to_nat (a - p)).
Proof.
  unfold poke. cbn [mach set_mach phys set_phys]. destruct (Z.ltb_spec a p).
  { rewrite pbyte_pwrite_ne by lia. done. }
  destruct (bs !! Z.to_nat (a - p)) as [b|] eqn:Hb.
  - replace a with (p + Z.of_nat (Z.to_nat (a - p))) at 1 by lia. by apply pbyte_pwrite.
  - apply lookup_ge_None in Hb. rewrite pbyte_pwrite_ne by lia. done.
Qed.

Lemma free_frames_le N n m p : (n <= m)%nat -> free_frames N m p -> free_frames N n p.
Proof.
  intros Hn (l & Hnd & Hl & Hf). exists (take n l). split; [|split].
  - by eapply list.sublist_NoDup; [|apply sublist_take].
  - rewrite length_take. lia.
  - intros k Hk. apply Hf. by eapply elem_of_subseteq, Hk; apply subseteq_take.
Qed.

Lemma window_changes N f D s s' base p len : changes N f D s s' -> free_frames N (Z.to_nat (npages len)) (pms s') ->
  window N s base p len -> window N s' base p len.
Proof.
  intros H Hf [H1 H2 H3 H4 H5 H6]. split; try done.
  - apply (changes_unmapped N f D s); [done|lia|lia|done].
  - intros i Hi. apply (ch_plain _ _ _ _ _ H). by apply H6.
Qed.

Lemma window_mapped N s base p len : vm_inv N s -> window N s base p len ->
  exists v1, map_pages p base 0 len s = Ret tt v1 /\ maps_range N base (PALIGNDOWN p) (npages len) s v1.
Proof.
  intros Hinv [[Hb1 Hb2] [Hl Hp] [Hr1 Hr2] Hfr Hun Hd]. pose proof (proj1 (npages_bounds len Hl)).
  assert (Hb : PALIGNDOWN base = base) by (rewrite PALIGNDOWN_eq; lia).
  destruct (map_pages_ok N s p base 0 len) as (v1 & Hm & Hr); rewrite ?Hb; try done; try lia.
  rewrite Hb in Hr. by exists v1.
Qed.

(** Any address of the window's first page unmaps it. *)
Lemma unmap_pages_within base off sz : 0 <= base -> base mod 4096 = 0 -> 0 <= off < 4096 ->
  base + off < 4294967296 -> unmap_pages (base + off) sz = unmap_pages base sz.
Proof.
  intros Hb Hal Ho Hlt. unfold unmap_pages. destruct (sz =? 0); [done|].
  rewrite !PALIGNDOWN_eq by lia. f_equal. zdm.
Qed.

Section Copy.
Variables (N : Z) (s : vmst) (base p src : Z) (bs : list byte).
Let len := Z.of_nat (length bs).
Hypothesis Hinv : vm_inv N s.
Hypothesis Hw : window N s base p len.
Hypothesis Hsrc : source N s src p bs.
Hypothesis Hs : 0 <= src < 4294967296.

Lemma window_leads v1 n : maps_range N base (PALIGNDOWN p) (npages len) s v1 ->
  n <= len -> p mod 4096 + n <= 4096 * npages len -> leads N v1 (base + p mod 4096) p n.
Proof.
  intros Hr Hnl Hf. destruct Hw as [[Hb1 Hb2] [Hl Hp] [Hr1 Hr2] Hfr Hun Hd].
  rewrite PALIGNDOWN_eq in Hr1 by done. intros i Hi. pose proof (Z.mod_pos_bound p 4096 eq_refl).
  rewrite u32_small by lia. rewrite (mr_translate _ _ _ _ _ _ Hr) by (try apply window_bound; lia). split.
  - rewrite decide_True by lia. rewrite PALIGNDOWN_eq by done. f_equal. lia.
  - apply (mr_plain _ _ _ _ _ _ Hr), Hd. lia.
Qed.

Lemma window_source v1 : maps_range N base (PALIGNDOWN p) (npages len) s v1 -> source N v1 src p bs.
Proof.
  intros Hr i b Hb. destruct (Hsrc i b Hb) as (q & Hq & Hqb & Hqp & Hqw & Hqd). exists q.
  destruct (mr_plain _ _ _ _ _ _ Hr q Hqp) as [Hqp1 Hqb1]. split; [|split; [congruence|done]].
  rewrite (mr_translate _ _ _ _ _ _ Hr) by (done || apply u32_range). rewrite decide_False; [done|].
  intros Hin. by rewrite (wi_unmapped _ _ _ _ _ Hw) in Hq by lia.
Qed.

Lemma window_dst : 0 <= base + p mod 4096 < 4294967296.
Proof.
  destruct Hw as [[Hb1 _] [Hl _] [_ Hr2] _ _ _]. pose proof (proj1 (npages_bounds len Hl)).
  pose proof (Z.mod_pos_bound p 4096 eq_refl). lia.
Qed.

(** The page behind the window is not mapped either: a buffer that reaches
    into it makes the copy fault there. *)
Lemma window_faults v1 : maps_range N base (PALIGNDOWN p) (npages len) s v1 ->
  4096 * npages len < p mod 4096 + len -> translate (mach s) (base + 4096 * npages len) = None ->
  base + 4096 * npages len < 4290772992 ->
  memcpy (base + p mod 4096) src len (mach v1) = Faulted (base + 4096 * npages len).
Proof.
  intros Hr Hf Hn Hb. pose proof window_dst as Hd. pose proof (Z.mod_pos_bound p 4096 eq_refl).
  pose proof (proj1 (npages_bounds len (proj1 (wi_len _ _ _ _ _ Hw)))). pose proof (proj1 (wi_base _ _ _ _ _ Hw)).
  set (n := Z.to_nat (4096 * npages len - p mod 4096)).
  assert (Hnz : Z.of_nat n = 4096 * npages len - p mod 4096) by lia.
  assert (He : u32 (base + p mod 4096 + Z.of_nat n) = base + 4096 * npages len) by (rewrite u32_small; lia).
  unfold memcpy. unfold len at 1. rewrite Nat2Z.id. unfold mbind, M_bind.
  rewrite (memcpy_loop_faults N bs v1 _ _ p n); [by rewrite He|apply (mr_inv _ _ _ _ _ _ Hr)|done|done|lia| | |by apply window_source].
  - apply window_leads; [done|lia|lia].
  - rewrite He, (mr_translate _ _ _ _ _ _ Hr) by (try apply window_bound; lia). by rewrite decide_False by lia.
Qed.

Hypothesis Hfits : p mod 4096 + len <= 4096 * npages len.

(** In the mapped space the copy goes to [p], wherever in the page that is. *)
Lemma window_copied v1 : maps_range N base (PALIGNDOWN p) (npages len) s v1 ->
  memcpy (base + p mod 4096) src len (mach v1) = Ret (base + p mod 4096) (mach (poke p bs v1)) /\
  changes N 0 (within p len) v1 (poke p bs v1).
Proof.
  intros Hr. pose proof (mr_inv _ _ _ _ _ _ Hr) as Hi. split.
  - unfold memcpy. unfold len. rewrite Nat2Z.id.
    erewrite bind_Ret by (apply (memcpy_loop_poke N); [done|exact window_dst|done|by apply window_leads|by apply window_source]). done.
  - apply poke_changes; [done|]. intros i Hi'. apply (mr_plain _ _ _ _ _ _ Hr), (wi_dest _ _ _ _ _ Hw). done.
Qed.

Lemma window_closed v1 : maps_range N base (PALIGNDOWN p) (npages len) s v1 ->
  exists v2, unmap_pages base len (poke p bs v1) = Ret tt v2 /\ copied N p bs s v2.
Proof.
  intros Hr. destruct (window_copied v1 Hr) as (_ & Hc).
  destruct Hw as [[Hb1 Hb2] [Hl Hpr] [Hr1 Hr2] Hfr Hun Hd].
  destruct (unmap_pages_ok N (poke p bs v1) base len) as (v2 & Hu & Hm); try done; [apply (ch_inv _ _ _ _ _ Hc)| |].
  { intros va Hva. rewrite (changes_translate _ _ _ _ _ _ Hc), (mr_translate _ _ _ _ _ _ Hr) by (try apply window_bound; lia).
    by rewrite decide_True by lia. }
  exists v2. split; [done|]. split; [by apply (windowed N base (PALIGNDOWN p) _ _ s v1 (poke p bs v1))|].
  intros i b Hi. destruct (um_plain _ _ _ _ _ Hm (p + Z.of_nat i)) as [_ ->].
  - apply (ch_plain _ _ _ _ _ Hc), (mr_plain _ _ _ _ _ _ Hr), Hd. apply lookup_lt_Some in Hi. unfold len. lia.
  - unfold poke. cbn [mach set_mach phys set_phys]. by apply pbyte_pwrite.
Qed.
End Copy.

(** ** Copying out of the window

    The receiver's own buffer need not be contiguous in physical memory: byte
    [i] of it is at [qs !! i]. *)

Fixpoint scatter (qs : list Z) (bs : list byte) (s : vmst) : vmst :=
  match qs, bs with q :: qs', b :: bs' => scatter qs' bs' (poke q [b] s) | _, _ => s end.

Definition dests (N : Z) (s : vmst) (dst : Z) (qs : list Z) : Prop :=
  forall i q, qs !! i = Some q -> translate (mach s) (u32 (dst + Z.of_nat i)) = Some q /\ plain N s q.

Definition reads (s : vmst) (src : Z) (qs : list Z) (bs : list byte) : Prop :=
  forall i b, bs !! i = Some b -> exists a, translate (mach s) (u32 (src + Z.of_nat i)) = Some a /\
    pbyte (phys (mach s)) a = b /\ a ∉ qs.

Lemma plain_single N s q (b : byte) : plain N s q -> forall i, 0 <= i < Z.of_nat (length [b]) -> plain N s (q + i).
Proof. cbn [length]. intros Hq i Hi. replace i with 0 by lia. by rewrite Z.add_0_r. Qed.

Lemma pbyte_poke_one q b s a : pbyte (phys (mach (poke q [b] s))) a = if decide (a = q) then b else pbyte (phys (mach s)) a.
Proof.
  unfold poke. cbn [mach set_mach phys set_phys pwrite]. case_decide as He.
  - subst. apply pbyte_insert_eq.
  - by apply pbyte_insert_ne.
Qed.

Lemma scatter_changes N qs : forall bs s, vm_inv N s -> Forall (plain N s) qs ->
  changes N 0 (.∈ qs) s (scatter qs bs s).
Proof.
  induction qs as [|q qs IH]; intros [|b bs] s Hinv Hpl; try (by apply changes_refl). cbn [scatter].
  apply list.Forall_cons in Hpl as [Hq Hqs]. pose proof (poke_changes N q [b] s Hinv (plain_single N s q b Hq)) as H1.
  apply (changes_trans _ 0 0 _ _ (poke q [b] s)).
  - apply (changes_weaken _ _ _ _ _ _ H1). unfold within. cbn [length]. intros a Ha. replace a with q by lia. by left.
  - eapply changes_weaken; [apply IH; [apply (ch_inv _ _ _ _ _ H1)|]|by right].
    eapply list.Forall_impl; [exact Hqs|]. apply (ch_plain _ _ _ _ _ H1).
Qed.

Lemma scatter_pms qs : forall bs s, set_mach (mach (scatter qs bs s)) s = scatter qs bs s.
Proof.
  induction qs as [|q qs IH]; intros [|b bs] s; try (by destruct s). cbn [scatter].
  by rewrite <- (IH bs (poke q [b] s)) at 2.
Qed.

Lemma scatter_byte N qs : forall bs s i q b, vm_inv N s -> Forall (plain N s) qs -> NoDup qs ->
  qs !! i = Some q -> bs !! i = Some b -> pbyte (phys (mach (scatter qs bs s))) q = b.
Proof.
  induction qs as [|q' qs IH]; intros [|b' bs] s i q b Hinv Hpl Hnd Hq Hb; try (by destruct i).
  apply list.Forall_cons in Hpl as [Hq' Hqs]. apply list.NoDup_cons in Hnd as [Hni Hnd].
  pose proof (plain_single N s q' b' Hq') as H1. pose proof (poke_inv N q' [b'] s Hinv H1) as Hi1.
  assert (Hp1 : Forall (plain N (poke q' [b'] s)) qs).
  { eapply list.Forall_impl; [exact Hqs|]. intros x. by apply poke_plain. }
  destruct i as [|i]; cbn [scatter].
  - injection Hq as ->. injection Hb as ->.
    rewrite (ch_rest _ _ _ _ _ (scatter_changes N qs bs _ Hi1 Hp1)); [by rewrite pbyte_poke_one, decide_True|by apply poke_plain|done].
  - by apply (IH bs _ i).
Qed.

Lemma memcpy_loop_scatter N qs : forall bs s dst src, vm_inv N s -> length bs = length qs ->
  0 <= dst < 4294967296 -> 0 <= src < 4294967296 -> dests N s dst qs -> reads s src qs bs ->
  memcpy_loop (length qs) dst src (mach s) = Ret tt (mach (scatter qs bs s)).
Proof.
  induction qs as [|q qs IH]; intros [|b bs] s dst src Hinv Hlen Hd Hs Hq Hr; try done.
  destruct (Hq 0%nat q eq_refl) as [Ht Hp]. destruct (Hr 0%nat b eq_refl) as (a & Ha & Hb & Hna).
  change (Z.of_nat 0) with 0 in *. rewrite Z.add_0_r, u32_small in Ht, Ha by done.
  pose proof (plain_single N s q b Hp) as H1. cbn [length memcpy_loop scatter].
  assert (Hload : load8 src (mach s) = Ret (byte.unsigned b) (mach s)) by (rewrite load8_eq; simpl; by rewrite Ha, Hb).
  assert (Hstore : store8 dst (byte.unsigned b) (mach s) = Ret tt (mach (poke q [b] s))).
  { rewrite store8_eq, byte.of_Z_unsigned. cbn [wr8 machine_ops]. by rewrite Ht. }
  rewrite (bind_Ret _ _ _ _ _ Hload), (bind_Ret _ _ _ _ _ Hstore).
  assert (Hidx : forall x i, u32 (u32 (x + 1) + Z.of_nat i) = u32 (x + Z.of_nat (S i))).
  { intros x i. rewrite u32_add_l. f_equal. lia. }
  apply IH; [by apply poke_inv|by injection Hlen|apply u32_range|apply u32_range| |].
  - intros i q' Hi. destruct (Hq (S i) q' Hi) as [K1 K2]. rewrite Hidx.
    rewrite (poke_translate N) by (done || apply u32_range). split; [done|by apply poke_plain].
  - intros i b' Hi. destruct (Hr (S i) b' Hi) as (a' & K1 & K2 & K3). rewrite Hidx. exists a'.
    rewrite (poke_translate N) by (done || apply u32_range). split; [done|]. split; [|set_solver].
    rewrite pbyte_poke_one, decide_False by set_solver. done.
Qed.

(** The receiver's buffer: [n] bytes from [dst] on, at the distinct plain
    addresses [qs], none of them in the sender's buffer at [p]. *)
Record target (N : Z) (s : vmst) (dst p : Z) (qs : list Z) : Prop := {
  tg_range : 0 <= dst < 4294967296;
  tg_dests : dests N s dst qs;
  tg_index : forall i q, qs !! i = Some q -> pd_index (u32 (dst + Z.of_nat i)) <> 1023;
  tg_nodup : NoDup qs;
  tg_apart : forall q, q ∈ qs -> ~ (p <= q < p + Z.of_nat (length qs));
  tg_source : forall i, 0 <= i < Z.of_nat (length qs) -> plain N s (p + i);
}.

Section CopyIn.
Variables (N : Z) (s : vmst) (base p slen dst : Z) (qs : list Z).
Let n := Z.of_nat (length qs).
Hypothesis Hinv : vm_inv N s.
Hypothesis Hw : window N s base p slen.
Hypothesis Hq : target N s dst p qs.
Hypothesis Hfits : p mod 4096 + n <= 4096 * npages slen.

(** The bytes at [p] *)
Definition buffer : list byte := map (fun i => pbyte (phys (mach s)) (p + i)) (seqZ 0 n).

Lemma length_buffer : length buffer = length qs.
Proof. unfold buffer. rewrite length_map, length_seqZ. unfold n. lia. Qed.

Lemma lookup_buffer i b : buffer !! i = Some b <-> (i < length qs)%nat /\ b = pbyte (phys (mach s)) (p + Z.of_nat i).
Proof.
  unfold buffer. rewrite list_lookup_fmap. split.
  - intros (z & [-> Hz]%lookup_seqZ & ->)%fmap_Some. unfold n in Hz. split; [lia|]. by rewrite Z.add_0_l.
  - intros [Hi ->]. apply fmap_Some. exists (Z.of_nat i). split; [|done]. apply lookup_seqZ. unfold n. lia.
Qed.

Lemma qs_plain : Forall (plain N s) qs.
Proof. apply list.Forall_forall. intros q [i Hi]%list_elem_of_lookup. apply (tg_dests _ _ _ _ _ Hq i q Hi). Qed.

Lemma copy_in_copied v1 : maps_range N base (PALIGNDOWN p) (npages slen) s v1 ->
  memcpy dst (base + p mod 4096) n (mach v1) = Ret dst (mach (scatter qs buffer v1)).
Proof.
  intros Hr. destruct Hw as [[Hb1 Hb2] [Hl Hp] [Hr1 Hr2] Hfr Hun Hd]. rewrite PALIGNDOWN_eq in Hr1 by done.
  pose proof (proj1 (npages_bounds slen Hl)). pose proof (Z.mod_pos_bound p 4096 eq_refl).
  unfold memcpy, n. rewrite Nat2Z.id. erewrite bind_Ret; [done|].
  apply (memcpy_loop_scatter N); [apply (mr_inv _ _ _ _ _ _ Hr)|apply length_buffer|apply (tg_range _ _ _ _ _ Hq)|lia| |].
  - intros i q Hi. destruct (tg_dests _ _ _ _ _ Hq i q Hi) as [Ht Hqp]. split; [|by apply (mr_plain _ _ _ _ _ _ Hr)].
    rewrite (mr_translate _ _ _ _ _ _ Hr); [|apply u32_range|by apply (tg_index _ _ _ _ _ Hq i q)].
    rewrite decide_False; [done|]. intros Hin. by rewrite Hun in Ht.
  - intros i b [Hi ->]%lookup_buffer. exists (p + Z.of_nat i). unfold n in Hfits. rewrite u32_small by lia.
    rewrite (mr_translate _ _ _ _ _ _ Hr) by (try apply window_bound; lia). split; [|split].
    + rewrite decide_True by lia. rewrite PALIGNDOWN_eq by done. f_equal. lia.
    + apply (mr_plain _ _ _ _ _ _ Hr), (tg_source _ _ _ _ _ Hq). lia.
    + intros Hin. apply (tg_apart _ _ _ _ _ Hq _ Hin). lia.
Qed.

Lemma copy_in_closed v1 : maps_range N base (PALIGNDOWN p) (npages slen) s v1 ->
  exists v2, unmap_pages (base + p mod 4096) slen (scatter qs buffer v1) = Ret tt v2 /\
    changes N (Z.to_nat (npages slen)) (.∈ qs) s v2 /\
    forall i q, qs !! i = Some q -> pbyte (phys (mach v2)) q = pbyte (phys (mach s)) (p + Z.of_nat i).
Proof.
  intros Hr. pose proof (mr_inv _ _ _ _ _ _ Hr) as Hi1.
  assert (Hpl1 : Forall (plain N v1) qs).
  { eapply list.Forall_impl; [exact qs_plain|]. intros x. apply (mr_plain _ _ _ _ _ _ Hr). }
  pose proof (scatter_changes N qs buffer v1 Hi1 Hpl1) as Hc.
  destruct Hw as [[Hb1 Hb2] [Hl Hp] [Hr1 Hr2] Hfr Hun Hd]. pose proof (Z.mod_pos_bound p 4096 eq_refl).
  pose proof (proj1 (npages_bounds slen Hl)). rewrite unmap_pages_within by lia.
  destruct (unmap_pages_ok N (scatter qs buffer v1) base slen) as (v2 & Hu & Hm); try done; [apply (ch_inv _ _ _ _ _ Hc)| |].
  { intros va Hva. rewrite (changes_translate _ _ _ _ _ _ Hc), (mr_translate _ _ _ _ _ _ Hr) by (try apply window_bound; lia).
    by rewrite decide_True by lia. }
  exists v2. split; [done|]. split; [by apply (windowed N base (PALIGNDOWN p) _ _ s v1 (scatter qs buffer v1))|].
  intros i q Hiq. destruct (um_plain _ _ _ _ _ Hm q) as [_ ->].
  - apply (ch_plain _ _ _ _ _ Hc), (mr_plain _ _ _ _ _ _ Hr). apply (tg_dests _ _ _ _ _ Hq i q Hiq).
  - apply (scatter_byte N qs buffer v1 i); [done|done|apply (tg_nodup _ _ _ _ _ Hq)|done|].
    apply lookup_buffer. split; [by eapply lookup_lt_Some|done].
Qed.
End CopyIn.
