(* ===== verification/Syscall.v ===== *)
(** * Syscall.v: message passing (kernel/syscall.c, kernel/msg_dispatcher.c,
      lib/libipc/ipc.c, include/ipc.h, include/msg/kernel.h)

    The three system calls work on packets in the caller's memory and on
    queue elements in the kernel heap, both reached through the page tables
    of the current address space; the buffers of the other party are mapped
    at fixed addresses for the copy.  [yield] is the address of the register
    frame that the stub of vector 127 pushes before the scheduler runs. *)

From S2P Require Import Prelude Memory Machine Pm Vm Heap Queue Desc Proc Load Window.

(** include/ipc.h: struct msg_packet, struct msg_packet_queue *)
Definition m_sender (m : Z) : Z := m.
Definition m_receiver (m : Z) : Z := m +w 4.
Definition m_send_buf (m : Z) : Z := m +w 8.
Definition m_recv_buf (m : Z) : Z := m +w 12.
Definition m_send_len (m : Z) : Z := m +w 16.
Definition m_recv_len (m : Z) : Z := m +w 20.
Definition m_phys_send_buf (m : Z) : Z := m +w 24.
Definition m_phys_recv_buf (m : Z) : Z := m +w 28.
Definition m_phys_msg_packet (m : Z) : Z := m +w 32.
Definition sizeof_msg_packet : Z := 36.
Definition msgs_field : Z := 36.
Definition sizeof_msg_packet_queue : Z := 40.

(** struct intregs: eax is the 12th word *)
Definition intregs_eax (regs : Z) : Z := regs +w 44.

(** Enough for any list of blocks with disjoint headers in the 16 KiB heap. *)
Definition heap_fuel : nat := Z.to_nat 1366.

Definition ld (a : Z) : M kst Z := on_mem (load32 a).
Definition st (a v : Z) : M kst unit := on_mem (store32 a v).
Definition kernel_kalloc (bytes : Z) : M kst Z :=
  k ← get; on_mem (kalloc heap_fuel (heap_initialized k) bytes).
Definition kernel_kfree (addr : Z) : M kst unit :=
  k ← get; on_mem (kfree (heap_initialized k) addr).
Definition this_proc : M kst (Z * proc) := t ← on_pt get; on_pt (deref (current_proc t)).

(** [int $0x7f] *)
Definition proc_schedule_without_irq (yield : Z) : M kst Z := proc_schedule_after_irq yield.

Section Syscalls.
Variable sy : symbols.

Definition queue_of (i : Z) : Z := recv_queue_at sy i.

(** Queueing a new packet: what send does unless the receiver is waiting. *)
Definition send_enqueue (msg r : Z) : M kst unit :=
  new_msg ← kernel_kalloc sizeof_msg_packet_queue;
  on_mem (memcpy new_msg msg sizeof_msg_packet) ≫= fun _ =>
  cur ← this_proc;
  st (m_sender new_msg) (pid (snd cur)) ≫= fun _ =>
  v ← ld (m_receiver msg); st (m_receiver new_msg) v ≫= fun _ =>
  v ← ld (m_send_buf msg); st (m_send_buf new_msg) v ≫= fun _ =>
  v ← ld (m_send_len msg); st (m_send_len new_msg) v ≫= fun _ =>
  v ← ld (m_recv_buf msg); st (m_recv_buf new_msg) v ≫= fun _ =>
  v ← ld (m_recv_len msg); st (m_recv_len new_msg) v ≫= fun _ =>
  v ← ld (m_send_buf msg); v ← on_vm (vm_get_phys_mapping v); st (m_phys_send_buf new_msg) v ≫= fun _ =>
  v ← ld (m_recv_buf msg); v ← on_vm (vm_get_phys_mapping v); st (m_phys_recv_buf new_msg) v ≫= fun _ =>
  on_mem (STAILQ_INSERT_TAIL msgs_field (queue_of r) new_msg).

(** The copy of send and reply: the buffer of the other party's packet
    [msg_in_queue] gets mapped at [base], so that its first byte is at
    [mapped], is filled from the send buffer of [msg], and gets unmapped. *)
Definition copy_out (base mapped msg msg_in_queue : Z) : M kst unit :=
  pa ← ld (m_phys_recv_buf msg_in_queue); len ← ld (m_recv_len msg_in_queue);
  on_vm (map_pages pa base 0 len) ≫= fun _ =>
  src ← ld (m_send_buf msg); len ← ld (m_recv_len msg_in_queue);
  on_mem (memcpy mapped src len) ≫= fun _ =>
  len ← ld (m_recv_len msg_in_queue);
  on_vm (unmap_pages base len).

(** The copy of receive: the sender's buffer gets mapped at [base], so that
    its first byte is at [mapped], and the receiver's own is filled from it. *)
Definition copy_in (base mapped msg msg_in_queue : Z) : M kst unit :=
  pa ← ld (m_phys_send_buf msg_in_queue); len ← ld (m_send_len msg_in_queue);
  on_vm (map_pages pa base 0 len) ≫= fun _ =>
  dst ← ld (m_recv_buf msg); len ← ld (m_recv_len msg);
  on_mem (memcpy dst mapped len) ≫= fun _ =>
  len ← ld (m_send_len msg_in_queue);
  on_vm (unmap_pages mapped len).

(** Handing the message straight to a receiver that waits in ipc_recv. *)
Definition send_deliver (msg r : Z) : M kst unit :=
  cur ← this_proc;
  on_pt (update (fst cur) (with_state PROC_SEND_BLOCKED)) ≫= fun _ =>
  msg_in_queue ← on_mem (STAILQ_FIRST (queue_of r));
  let mapped_recv_buf_base := 3735879680 in (* 0xdead0000 *)
  v ← ld (m_recv_buf msg_in_queue);
  let mapped_recv_buf := mapped_recv_buf_base +w Z.land v 4095 in
  st (m_sender msg_in_queue) (pid (snd cur)) ≫= fun _ =>
  v ← ld (m_send_buf msg); st (m_send_buf msg_in_queue) v ≫= fun _ =>
  v ← ld (m_send_len msg); st (m_send_len msg_in_queue) v ≫= fun _ =>
  v ← ld (m_send_buf msg); v ← on_vm (vm_get_phys_mapping v);
  st (m_phys_send_buf msg_in_queue) v ≫= fun _ =>
  copy_out mapped_recv_buf_base mapped_recv_buf msg msg_in_queue ≫= fun _ =>
  let mapped_msg_packet_base := 3133014016 in (* 0xbabe0000 *)
  pa ← ld (m_phys_msg_packet msg_in_queue);
  let mapped_msg_packet := mapped_msg_packet_base +w Z.land pa 4095 in
  on_vm (map_pages pa mapped_msg_packet 0 sizeof_msg_packet) ≫= fun _ =>
  st (m_sender mapped_msg_packet) (pid (snd cur)) ≫= fun _ =>
  on_vm (unmap_pages mapped_msg_packet sizeof_msg_packet) ≫= fun _ =>
  v ← ld (m_recv_buf msg); st (m_recv_buf msg_in_queue) v ≫= fun _ =>
  v ← ld (m_recv_len msg); st (m_recv_len msg_in_queue) v ≫= fun _ =>
  v ← ld (m_recv_buf msg); v ← on_vm (vm_get_phys_mapping v);
  st (m_phys_recv_buf msg_in_queue) v ≫= fun _ =>
  on_pt (update r (with_state PROC_READY)).

(** send up to the point where it yields; [false] is the early return. *)
Definition send_body (regs : Z) : M kst bool :=
  on_pt proc_disable_scheduling ≫= fun _ =>
  msg ← ld (intregs_eax regs);
  rpid ← ld (m_receiver msg);
  receiver ← on_pt (proc_find_by_pid rpid);
  match receiver with
  | None => mret false
  | Some r =>
      rp ← on_pt (deref (Some r));
      (if decide (state (snd rp) = PROC_RECV_BLOCKED) then mret tt else send_enqueue msg r) ≫= fun _ =>
      rp ← on_pt (deref (Some r));
      match state (snd rp) with
      | PROC_RECV_BLOCKED => send_deliver msg r
      | PROC_READY =>
          cur ← this_proc; on_pt (update (fst cur) (with_state PROC_REPLY_BLOCKED))
      | _ => mret tt
      end ≫= fun _ =>
      mret true
  end.

Definition syscall_send_msg (yield regs : Z) : M kst Z :=
  go ← send_body regs;
  if (go : bool) then
    on_pt proc_enable_scheduling ≫= fun _ =>
    proc_schedule_without_irq yield ≫= fun _ => mret regs
  else mret regs.

Definition recv_body (regs : Z) : M kst unit :=
  on_pt proc_disable_scheduling ≫= fun _ =>
  msg ← ld (intregs_eax regs);
  cur ← this_proc;
  empty ← on_mem (STAILQ_EMPTY (queue_of (fst cur)));
  if (empty : bool) then
    on_pt (update (fst cur) (with_state PROC_RECV_BLOCKED)) ≫= fun _ =>
    new_msg ← kernel_kalloc sizeof_msg_packet_queue;
    on_mem (memcpy new_msg msg sizeof_msg_packet) ≫= fun _ =>
    v ← ld (m_recv_buf new_msg); v ← on_vm (vm_get_phys_mapping v);
    st (m_phys_recv_buf new_msg) v ≫= fun _ =>
    v ← on_vm (vm_get_phys_mapping msg); st (m_phys_msg_packet new_msg) v ≫= fun _ =>
    on_mem (STAILQ_INSERT_TAIL msgs_field (queue_of (fst cur)) new_msg)
  else
    msg_in_queue ← on_mem (STAILQ_FIRST (queue_of (fst cur)));
    let mapped_send_buf_base := 3133014016 in (* 0xbabe0000 *)
    v ← ld (m_send_buf msg_in_queue);
    let mapped_send_buf := mapped_send_buf_base +w Z.land v 4095 in
    copy_in mapped_send_buf_base mapped_send_buf msg msg_in_queue ≫= fun _ =>
    v ← ld (m_sender msg_in_queue); st (m_sender msg) v.

Definition syscall_recv_msg (yield regs : Z) : M kst Z :=
  recv_body regs ≫= fun _ =>
  on_pt proc_enable_scheduling ≫= fun _ =>
  proc_schedule_without_irq yield ≫= fun _ => mret regs.

Definition rply_body (regs : Z) : M kst unit :=
  on_pt proc_disable_scheduling ≫= fun _ =>
  msg ← ld (intregs_eax regs);
  cur ← this_proc;
  empty ← on_mem (STAILQ_EMPTY (queue_of (fst cur)));
  if negb empty then
    first_waiting ← on_mem (STAILQ_FIRST (queue_of (fst cur)));
    let msg_in_queue := first_waiting in
    spid ← ld (m_sender msg_in_queue);
    sender ← on_pt (proc_find_by_pid spid);
    let mapped_recv_buf_base := 3405643776 in (* 0xcafe0000 *)
    v ← ld (m_recv_buf msg_in_queue);
    let mapped_recv_buf := mapped_recv_buf_base +w Z.land v 4095 in
    copy_out mapped_recv_buf_base mapped_recv_buf msg msg_in_queue ≫= fun _ =>
    on_mem (STAILQ_REMOVE_HEAD msgs_field (queue_of (fst cur))) ≫= fun _ =>
    kernel_kfree first_waiting ≫= fun _ =>
    sp ← on_pt (deref sender);
    on_pt (update (fst sp) (with_state PROC_READY))
  else mret tt.

Definition syscall_rply_msg (yield regs : Z) : M kst Z :=
  rply_body regs ≫= fun _ =>
  on_pt proc_enable_scheduling ≫= fun _ =>
  proc_schedule_without_irq yield ≫= fun _ => mret regs.
End Syscalls.

(** include/kernel/syscall.h *)
Definition SYSCALL_RPLY_MSG_VECTOR : Z := 222.
Definition SYSCALL_SEND_MSG_VECTOR : Z := 186.
Definition SYSCALL_RECV_MSG_VECTOR : Z := 190.

(** [int222], [int186], [int190] are the stubs, the other three the handlers. *)
Definition syscall_install (int222 int186 int190 rply send recv : Z) : M kst unit := fun k =>
  let idt' :=
    idt_set_gate SYSCALL_RECV_MSG_VECTOR int190 8 238
      (idt_set_gate SYSCALL_SEND_MSG_VECTOR int186 8 238
         (idt_set_gate SYSCALL_RPLY_MSG_VECTOR int222 8 238 (idt k))) in
  match h ← int_install_handler SYSCALL_RPLY_MSG_VECTOR rply (int_handlers (tabs k));
        h ← int_install_handler SYSCALL_SEND_MSG_VECTOR send h;
        int_install_handler SYSCALL_RECV_MSG_VECTOR recv h with
  | Some h => Ret tt (set_tabs (IntTables (isr_handlers (tabs k)) (irq_handlers (tabs k)) h) (set_idt idt' k))
  | None => Undef
  end.

(** ** The kernel process

    One round of the loop of msg_dispatcher between ipc_recv and ipc_reply:
    the message is at [msg], [inb] is what a port reads as.  The result is
    the response and the pid it is sent to. *)

Definition MSG_REQUEST_INTERRUPT_FORWARDING : Z := 0.
Definition MSG_MAP_MEMORY : Z := 1.
Definition MSG_PORT_IN_BYTE : Z := 2.
Definition MSG_PORT_OUT_BYTE : Z := 3.
Definition MSG_FIND_PROC_BY_NAME : Z := 4.

Definition install_irq (which h pd : Z) : M kst unit := fun k =>
  match irq_install_handler (s32 which) h pd (irq_handlers (tabs k)) with
  | Some t => Ret tt (set_tabs (IntTables (isr_handlers (tabs k)) t (int_handlers (tabs k))) k)
  | None => Undef
  end.

(** The case of MSG_REQUEST_INTERRUPT_FORWARDING *)
Definition forward_interrupt (msg : Z) (sender : option Z) : M kst Z :=
  on_pt proc_disable_scheduling ≫= fun _ =>
  which ← ld (msg +w 4);
  virt ← ld (msg +w 8);
  save_curr_cr3 ← on_mem get_cr3;
  sp ← on_pt (deref sender);
  on_mem (set_cr3 (pdir (snd sp))) ≫= fun _ =>
  phys ← on_vm (vm_get_phys_mapping virt);
  on_mem (set_cr3 save_curr_cr3) ≫= fun _ =>
  install_irq which virt (pdir (snd sp)) ≫= fun _ =>
  on_pt proc_enable_scheduling ≫= fun _ =>
  mret 868941363. (* 0x33cafe33 *)

Section Dispatcher.
Variable inb : Z -> Z.

Definition msg_dispatch (msg sender_pid : Z) : M kst (Z * Z) :=
  sender ← on_pt (proc_find_by_pid sender_pid);
  type ← ld msg;
  response ←
    (if type =? MSG_REQUEST_INTERRUPT_FORWARDING then forward_interrupt msg sender
     else if type =? MSG_MAP_MEMORY then
       on_pt proc_disable_scheduling ≫= fun _ =>
       sp ← on_pt (deref sender);
       on_mem (set_cr3 (pdir (snd sp))) ≫= fun _ =>
       paddr ← ld (msg +w 4);
       length ← ld (msg +w 8);
       on_vm (map_pages paddr 268435456 PTE_U length) ≫= fun _ =>
       cur ← this_proc;
       on_mem (set_cr3 (pdir (snd cur))) ≫= fun _ =>
       on_pt proc_enable_scheduling ≫= fun _ =>
       mret 268435456 (* 0x10000000 *)
     else if type =? MSG_PORT_IN_BYTE then
       which ← on_mem (load16 (msg +w 4)); mret (u8 (inb which))
     else if type =? MSG_PORT_OUT_BYTE then
       which ← on_mem (load16 (msg +w 4));
       data ← ld (msg +w 8);
       on_mem (outb which (Z.land data 255)) ≫= fun _ => mret 1
     else if type =? MSG_FIND_PROC_BY_NAME then
       k ← get;
       on_pt (proc_find_by_name (fun a => rd8 a (mach (vm k))) (msg +w 4))
     else mret 0);
  sp ← on_pt (deref sender);
  mret (response, pid (snd sp)).
End Dispatcher.

(** ** The client side (lib/libipc/ipc.c): the packet each call builds *)

Record msg_packet := MsgPacket {
  p_sender : Z; p_receiver : Z; p_send_buf : Z; p_recv_buf : Z; p_send_len : Z; p_recv_len : Z;
  p_phys_send_buf : Z; p_phys_recv_buf : Z; p_phys_msg_packet : Z;
}.
Definition ipc_send_packet (receiver send_buf send_len recv_buf recv_len : Z) : msg_packet :=
  MsgPacket 0 receiver send_buf recv_buf send_len recv_len 0 0 0.
Definition ipc_recv_packet (recv_buf recv_len : Z) : msg_packet :=
  MsgPacket 0 0 0 recv_buf 0 recv_len 0 0 0.
Definition ipc_reply_packet (sender send_buf send_len : Z) : msg_packet :=
  MsgPacket sender 0 send_buf 0 send_len 0 0 0 0.

(** A packet in memory, field by field. *)
Definition packet_words (p : msg_packet) : list Z :=
  [p_sender p; p_receiver p; p_send_buf p; p_recv_buf p; p_send_len p; p_recv_len p;
   p_phys_send_buf p; p_phys_recv_buf p; p_phys_msg_packet p].
Fixpoint put_words (a : Z) (ws : list Z) : M kst unit :=
  match ws with
  | [] => mret tt
  | w :: ws' => st a w ≫= fun _ => put_words (a +w 4) ws'
  end.
(** The stub's frame at [regs] with [eax] pointing to the packet at [msg]. *)
Definition ipc_call (regs msg : Z) (p : msg_packet) : M kst unit :=
  put_words msg (packet_words p) ≫= fun _ => st (intregs_eax regs) msg.

(** ** What the system calls do to the process table *)

(** Whenever [m] returns, the tables before and after are related by [R]. *)
Definition pt_rel {A} (R : ptable -> ptable -> Prop) (m : M kst A) : Prop :=
  forall k a k', m k = Ret a k' -> R (pt k) (pt k').
Notation keeps_pt := (pt_rel (fun t t' => t' = t)).

Create HintDb ptdb.

Lemma keeps_ret {A} (a : A) : keeps_pt (mret a : M kst A).
Proof. by intros k b k' [_ <-]%ret_inv. Qed.
Lemma keeps_get : keeps_pt (get : M kst kst).
Proof. by intros k b k' [_ <-]%ret_inj. Qed.
Lemma keeps_on_vm {A} (m : M vmst A) : keeps_pt (on_vm m).
Proof. intros k a k'. apply on_vm_pt. Qed.
Lemma keeps_on_mem {A} (m : M machine A) : keeps_pt (on_mem m).
Proof. intros k a k'. apply on_mem_pt. Qed.
Lemma keeps_this_proc : keeps_pt this_proc.
Proof.
  intros k [i p] k' H. unfold this_proc in H. step H t k1 H1. apply on_pt_inv in H1, H.
  apply ret_inj in H1 as [<- H1]. apply deref_inv in H as (_ & _ & H). congruence.
Qed.
Lemma pt_rel_bind {A B} (m : M kst A) (f : A -> M kst B) R :
  keeps_pt m -> (forall a, pt_rel R (f a)) -> pt_rel R (m ≫= f).
Proof. intros Hm Hf k b k' H. step H a k1 H1. apply Hm in H1. apply Hf in H. by rewrite H1 in H. Qed.

#[export] Hint Resolve keeps_ret keeps_get keeps_on_vm keeps_on_mem keeps_this_proc : ptdb.
Ltac keep_pt := repeat (apply pt_rel_bind; [solve [auto with ptdb]|intros ?]).

Lemma keeps_kalloc n : keeps_pt (kernel_kalloc n).
Proof. unfold kernel_kalloc. keep_pt. auto with ptdb. Qed.
Lemma keeps_kfree n : keeps_pt (kernel_kfree n).
Proof. unfold kernel_kfree. keep_pt. auto with ptdb. Qed.
#[export] Hint Resolve keeps_kalloc keeps_kfree : ptdb.
Lemma keeps_ld a : keeps_pt (ld a).
Proof. apply keeps_on_mem. Qed.
Lemma keeps_st a v : keeps_pt (st a v).
Proof. apply keeps_on_mem. Qed.
#[export] Hint Resolve keeps_ld keeps_st : ptdb.
Lemma keeps_copy_out base mapped msg q : keeps_pt (copy_out base mapped msg q).
Proof. unfold copy_out. keep_pt. auto with ptdb. Qed.
Lemma keeps_copy_in base mapped msg q : keeps_pt (copy_in base mapped msg q).
Proof. unfold copy_in. keep_pt. auto with ptdb. Qed.
#[export] Hint Resolve keeps_copy_out keeps_copy_in : ptdb.

Lemma keeps_enqueue sy msg r : keeps_pt (send_enqueue sy msg r).
Proof. unfold send_enqueue. keep_pt. auto with ptdb. Qed.

(** [t'] is [t] with the state of slot [i] set. *)
Definition state_set (i : Z) (st : proc_state) (t t' : ptable) : Prop :=
  exists p, zlookup (procs t) i = Some p /\ t' = set_procs (zupdate i (with_state st p) (procs t)) t.

Lemma update_state i st : pt_rel (state_set i st) (on_pt (update i (with_state st))).
Proof. intros k [] k' H. apply on_pt_inv, update_inv in H. exact H. Qed.

Lemma this_proc_inv k i p k' : this_proc k = Ret (i, p) k' ->
  pt k' = pt k /\ current_proc (pt k) = Some i /\ zlookup (procs (pt k)) i = Some p.
Proof.
  intros H. pose proof (keeps_this_proc _ _ _ H). unfold this_proc in H. step H t k1 H1.
  apply on_pt_inv in H1, H. apply ret_inj in H1 as [<- H1]. apply deref_inv in H as (Hc & Hp & _).
  rewrite <- H1 in Hp. auto.
Qed.

Lemma send_deliver_states sy msg r k k' : send_deliver sy msg r k = Ret tt k' ->
  exists c t1, current_proc (pt k) = Some c /\ state_set c PROC_SEND_BLOCKED (pt k) t1 /\
    state_set r PROC_READY t1 (pt k').
Proof.
  intros H. unfold send_deliver in H. step H cur k1 H1. destruct cur as [c p].
  apply this_proc_inv in H1 as (E1 & Hc & Hp). step H u k2 H2. apply update_state in H2. rewrite E1 in H2.
  exists c, (pt k2). split; [done|]. split; [done|].
  match type of H with ?m k2 = _ => assert (Hrel : pt_rel (state_set r PROC_READY) m) end.
  { keep_pt. apply update_state. }
  by apply Hrel in H.
Qed.

(** The word [v] is at address [a] of the current address space. *)
Definition peek (k : kst) (a v : Z) : Prop := load32 a (mach (vm k)) = Ret v (mach (vm k)).

Lemma ld_inv a k v k' : ld a k = Ret v k' -> peek k a v /\ k' = k.
Proof.
  unfold ld, peek, on_mem, on_vm, on_mach, zoom, load32, loadn.
  destruct (rdn 4 a (mach (vm k))); [|done]. intros [= <- <-]. split; [done|]. by destruct k as [[]].
Qed.
Lemma ld_Ret a k v : peek k a v -> ld a k = Ret v k.
Proof.
  unfold ld, peek, on_mem, on_vm, on_mach, zoom. intros ->. by destruct k as [[]].
Qed.

(** Reading a word only needs its bytes, which keeps evaluation small. *)
Definition peek_test (k : kst) (a v : Z) : bool :=
  match rdn 4 a (mach (vm k)) with Some bs => le_combine bs =? v | None => false end.
Lemma peek_of_rdn k a v : peek_test k a v = true -> peek k a v.
Proof. unfold peek_test, peek, load32, loadn. destruct (rdn 4 a (mach (vm k))); [|done]. by intros ->%Z.eqb_eq. Qed.

Definition mapping_test (v : vmst) (virt pa : Z) : bool :=
  match vm_get_phys_mapping virt v with Ret x _ => x =? pa | _ => false end.
Lemma phys_mapping_of_read virt v pa : mapping_test v virt pa = true -> vm_get_phys_mapping virt v = Ret pa v.
Proof.
  unfold mapping_test, vm_get_phys_mapping, vld, on_mach, zoom, vload32, mbind, M_bind.
  destruct (translate (mach v) _); [|done]. unfold mret, M_ret. intros ->%Z.eqb_eq. by destruct v.
Qed.

Lemma peek_pt k t a v : peek k a v -> peek (set_pt t k) a v.
Proof. done. Qed.

Lemma find_by_pid_inv p k r k' : on_pt (proc_find_by_pid p) k = Ret r k' ->
  r = find_pid (procs (pt k)) 0 p /\ k' = k.
Proof.
  unfold on_pt, zoom, proc_find_by_pid. intros [<- <-]%ret_inj. split; [done|]. apply set_pt_id.
Qed.
Lemma deref_pt_inv o k i p k' : on_pt (deref o) k = Ret (i, p) k' ->
  o = Some i /\ zlookup (procs (pt k)) i = Some p /\ pt k' = pt k.
Proof. intros (-> & Hp & Ht)%on_pt_inv%deref_inv. auto. Qed.

Definition sched_off (t : ptable) : ptable := set_sched false t.

(** How a send leaves the two parties when it gets to yield.  A receiver
    that waits in ipc_recv is made ready and the sender send-blocked; a ready
    receiver leaves the sender reply-blocked; with a receiver in any other
    state the message is queued and nobody is blocked.  No other slot
    changes state, and scheduling is off throughout. *)
Theorem send_body_states sy regs k k' :
  send_body sy regs k = Ret true k' ->
  exists msg rpid r rp, peek k (intregs_eax regs) msg /\ peek k (m_receiver msg) rpid /\
    find_pid (procs (pt k)) 0 rpid = Some r /\ zlookup (procs (pt k)) r = Some rp /\
    match state rp with
    | PROC_RECV_BLOCKED => exists c t1, current_proc (pt k) = Some c /\
        state_set c PROC_SEND_BLOCKED (sched_off (pt k)) t1 /\ state_set r PROC_READY t1 (pt k')
    | PROC_READY => exists c, current_proc (pt k) = Some c /\
        state_set c PROC_REPLY_BLOCKED (sched_off (pt k)) (pt k')
    | _ => pt k' = sched_off (pt k)
    end.
Proof.
  intros H. unfold send_body in H. step H u k1 H1. apply ret_inj in H1 as [_ <-].
  step H msg k2 H2. apply ld_inv in H2 as [Hm ->]. step H rpid k3 H3. apply ld_inv in H3 as [Hr ->].
  step H rcv k4 H4. apply find_by_pid_inv in H4 as [Hf ->].
  change (find_pid (procs (pt k)) 0 rpid) with (find_pid (procs (sched_off (pt k))) 0 rpid).
  destruct rcv as [r|]; [|by apply ret_inj in H as [? _]].
  exists msg, rpid, r. step H rp k5 H5. destruct rp as [r' rp].
  apply deref_pt_inv in H5 as ([= <-] & Hrp & E5). exists rp.
  split; [done|]. split; [done|]. split; [done|]. split; [done|].
  step H u2 k6 H6. assert (E6 : pt k6 = pt k5).
  { cbn [snd] in H6. destruct (decide (state rp = PROC_RECV_BLOCKED)); [by apply keeps_ret in H6|].
    by apply keeps_enqueue in H6. }
  step H rp2 k7 H7. destruct rp2 as [r2 rp2]. apply deref_pt_inv in H7 as ([= <-] & Hrp2 & E7).
  cbn [snd] in H. rewrite E5 in E6. rewrite E6 in E7, Hrp2. assert (rp2 = rp) as -> by congruence.
  step H u3 k8 H8. apply ret_inj in H as [_ <-].
  destruct (state rp); try (apply ret_inv in H8 as [_ <-]; exact E7).
  - step H8 cur k9 H9. destruct cur as [c cp]. apply this_proc_inv in H9 as (E9 & Hc & _).
    apply update_state in H8. rewrite E9, E7 in H8. rewrite E7 in Hc. exists c. done.
  - destruct u3. apply send_deliver_states in H8 as (c & t1 & Hc & H81 & H82). rewrite E7 in Hc, H81.
    exists c, t1. done.
Qed.

(** A message to a pid nobody has comes back from the system call at once,
    with nothing sent, nobody blocked, and scheduling left disabled: from then
    on no interrupt switches processes until someone enables it again. *)
Theorem send_unknown_receiver sy yield regs k msg rpid :
  peek k (intregs_eax regs) msg -> peek k (m_receiver msg) rpid ->
  find_pid (procs (pt k)) 0 rpid = None ->
  syscall_send_msg sy yield regs k = Ret regs (set_pt (sched_off (pt k)) k) /\
  forall cpu, proc_schedule_after_irq cpu (set_pt (sched_off (pt k)) k) =
    Ret cpu (set_pt (sched_off (pt k)) k).
Proof.
  intros Hm Hr Hf. split; [|done]. unfold syscall_send_msg.
  set (k1 := set_pt (sched_off (pt k)) k).
  assert (Hb : send_body sy regs k = Ret false k1).
  { unfold send_body.
    rewrite (bind_Ret (on_pt proc_disable_scheduling) _ k tt k1 eq_refl).
    rewrite (bind_Ret _ _ _ _ _ (ld_Ret _ k1 _ Hm)), (bind_Ret _ _ _ _ _ (ld_Ret _ k1 _ Hr)).
    rewrite (bind_Ret (on_pt (proc_find_by_pid rpid)) _ k1 None k1); [done|].
    unfold on_pt, zoom, proc_find_by_pid. cbn [k1 set_pt pt sched_off set_sched procs]. by rewrite Hf. }
  by rewrite (bind_Ret _ _ _ _ _ Hb).
Qed.

(** Reading a queue head leaves the kernel's state alone. *)
Lemma on_mem_load32 a k v k' : on_mem (load32 a) k = Ret v k' -> peek k a v /\ k' = k.
Proof. apply ld_inv. Qed.
Lemma on_mem_empty a k e k' : on_mem (STAILQ_EMPTY a) k = Ret e k' ->
  exists v, peek k a v /\ e = (v =? 0) /\ k' = k.
Proof.
  intros H. unfold on_mem, on_vm, on_mach, zoom in H.
  destruct (STAILQ_EMPTY a (mach (vm k))) as [e' m'| | | |] eqn:Ee; try done.
  apply ret_inj in H as [<- <-]. unfold STAILQ_EMPTY in Ee. step Ee v m1 Hv. apply ret_inv in Ee as [<- <-].
  unfold load32, loadn, stqh_first in Hv. destruct (rdn 4 a (mach (vm k))) as [bs|] eqn:Eb; [|done].
  apply ret_inj in Hv as [<- <-]. exists (le_combine bs). split; [unfold peek, load32, loadn; by rewrite Eb|].
  split; [done|]. by destruct k as [[]].
Qed.

Lemma this_proc_eq k i p k' : this_proc k = Ret (i, p) k' -> k' = k.
Proof.
  intros H. unfold this_proc in H. step H t k1 H1. unfold on_pt, zoom in H, H1.
  apply ret_inj in H1 as [<- <-]. rewrite set_pt_id in H.
  destruct (deref (current_proc (pt k)) (pt k)) as [[i' p'] t'| | | |] eqn:Ed; try done.
  apply ret_inj in H as [_ <-]. apply deref_inv in Ed as (_ & _ & ->). apply set_pt_id.
Qed.

(** A receive with no message waiting blocks the caller until a message
    comes; with one waiting it changes no state.  Nothing else of the table
    changes either way. *)
Theorem recv_body_states sy regs k k' :
  recv_body sy regs k = Ret tt k' ->
  exists c first, current_proc (pt k) = Some c /\ peek k (queue_of sy c) first /\
    if first =? 0 then state_set c PROC_RECV_BLOCKED (sched_off (pt k)) (pt k')
    else pt k' = sched_off (pt k).
Proof.
  intros H. unfold recv_body in H. step H u k1 H1. apply ret_inj in H1 as [_ <-].
  step H msg k2 H2. apply ld_inv in H2 as [_ ->]. step H cur k3 H3. destruct cur as [c cp].
  pose proof (this_proc_eq _ _ _ _ H3) as ->. apply this_proc_inv in H3 as (_ & Hc & _). cbn [fst] in H.
  step H e k4 H4. apply on_mem_empty in H4 as (first & Hfst & -> & ->).
  exists c, first. split; [done|]. split; [done|]. destruct (first =? 0).
  - step H u2 k6 H6. apply update_state in H6.
    match type of H with ?m k6 = _ => assert (Hk : keeps_pt m) end.
    { keep_pt. auto with ptdb. }
    apply Hk in H. rewrite <- H in H6. exact H6.
  - match type of H with ?m (set_pt _ k) = _ => assert (Hk : keeps_pt m) end.
    { keep_pt. auto with ptdb. }
    apply Hk in H. exact H.
Qed.

(** A reply with a message waiting makes the sender of the first waiting
    message ready, whoever the reply names; without one it changes no state. *)
Theorem rply_body_states sy regs k k' :
  rply_body sy regs k = Ret tt k' ->
  exists c first, current_proc (pt k) = Some c /\ peek k (queue_of sy c) first /\
    if first =? 0 then pt k' = sched_off (pt k)
    else exists spid r, peek k (m_sender first) spid /\ find_pid (procs (pt k)) 0 spid = Some r /\
           state_set r PROC_READY (sched_off (pt k)) (pt k').
Proof.
  intros H. unfold rply_body in H. step H u k1 H1. apply ret_inj in H1 as [_ <-].
  step H msg k2 H2. apply ld_inv in H2 as [_ ->]. step H cur k3 H3. destruct cur as [c cp].
  pose proof (this_proc_eq _ _ _ _ H3) as ->. apply this_proc_inv in H3 as (_ & Hc & _). cbn [fst] in H.
  step H e k4 H4. apply on_mem_empty in H4 as (first & Hfst & -> & ->).
  exists c, first. split; [done|]. split; [done|]. destruct (first =? 0); cbn [negb] in H.
  { apply ret_inv in H as [_ <-]. done. }
  step H fw k5 H5. apply on_mem_load32 in H5 as [Hfw ->]. unfold peek, stqh_first in Hfst, Hfw.
  rewrite Hfst in Hfw. apply ret_inj in Hfw as [<- _].
  step H spid k6 H6. apply ld_inv in H6 as [Hsp ->]. step H sender k7 H7.
  apply find_by_pid_inv in H7 as [Hf ->]. exists spid.
  match type of H with ?m (set_pt _ k) = _ =>
    assert (Hk : pt_rel (fun t t' => exists r, sender = Some r /\ state_set r PROC_READY t t') m) end.
  { keep_pt. intros q [] q' Hq. step Hq sp q1 H8. destruct sp as [i p].
    apply deref_pt_inv in H8 as (-> & _ & E2). apply update_state in Hq. rewrite E2 in Hq. eauto. }
  apply Hk in H as (r & -> & Hst). exists r. split; [done|]. split; [by rewrite Hf|]. exact Hst.
Qed.

(** ** Interrupt forwarding *)

Definition in_space (pd : Z) (v : vmst) : vmst :=
  Vmst (Machine (phys (mach v)) pd (ports (mach v))) (pms v).

Lemma on_mem_set_cr3 pd k : on_mem (set_cr3 pd) k = Ret tt (set_vm (in_space pd (vm k)) k).
Proof. done. Qed.

(** The kernel after a request was handled: scheduling on, the table set. *)
Definition with_irqs (t : list irq_handler_entry) (k : kst) : kst :=
  set_pt (set_sched true (pt k)) (set_tabs (IntTables (isr_handlers (tabs k)) t (int_handlers (tabs k))) k).

(** The table after a request for interrupt [which]; None writes outside it. *)
Definition forwarded (which h pd : Z) (t : list irq_handler_entry) : option (list irq_handler_entry) :=
  if which <? 0 then None else if which <? 16 then Some (zupdate which (IrqEntry h pd) t) else Some t.

Lemma irq_install_cases which h pd t : Z.of_nat (length t) = 16 ->
  irq_install_handler which h pd t = forwarded which h pd t.
Proof.
  intros Hlen. unfold irq_install_handler, forwarded. destruct (Z.ltb_spec which 0) as [Hneg|Hnn].
  - replace (which <? 16) with true by lia. unfold zlookup. by replace (which <? 0) with true by lia.
  - destruct (Z.ltb_spec which 16) as [Hlt|Hge]; [|done].
    destruct (zlookup_in_range t which) as [e ->]; [lia|done].
Qed.

Lemma forward_interrupt_run msg k which virt s sp pa :
  peek k (msg +w 4) which -> peek k (msg +w 8) virt -> zlookup (procs (pt k)) s = Some sp ->
  vm_get_phys_mapping virt (in_space (pdir sp) (vm k)) = Ret pa (in_space (pdir sp) (vm k)) ->
  forward_interrupt msg (Some s) k =
    (install_irq which virt (pdir sp) ≫= fun _ => on_pt proc_enable_scheduling ≫= fun _ => mret 868941363)
      (set_pt (sched_off (pt k)) k).
Proof.
  intros Hw Hv Hsp Hmap. unfold forward_interrupt. set (k1 := set_pt (sched_off (pt k)) k).
  rewrite (bind_Ret (on_pt proc_disable_scheduling) _ k tt k1 eq_refl).
  rewrite (bind_Ret _ _ _ _ _ (ld_Ret _ k1 _ Hw)), (bind_Ret _ _ _ _ _ (ld_Ret _ k1 _ Hv)).
  rewrite (bind_Ret (on_mem get_cr3) _ k1 (cr3 (mach (vm k))) k1).
  2:{ unfold on_mem, on_vm, on_mach, zoom, get_cr3. cbn [k1 set_pt vm]. by destruct k as [[]]. }
  erewrite bind_Ret by (apply on_pt_Ret, deref_Ret; exact Hsp). rewrite set_pt_id. cbn [snd].
  rewrite (bind_Ret _ _ _ _ _ (on_mem_set_cr3 _ _)).
  rewrite (bind_Ret (on_vm (vm_get_phys_mapping virt)) _ _ pa (set_vm (in_space (pdir sp) (vm k)) k1)).
  2:{ unfold on_vm, zoom. cbn [set_vm vm k1 set_pt]. by rewrite Hmap. }
  rewrite (bind_Ret _ _ _ _ _ (on_mem_set_cr3 _ _)).
  replace (set_vm _ (set_vm _ k1)) with k1; [done|]. unfold k1. by destruct k as [[[]]].
Qed.

(** C31: A request to forward an interrupt reads the handler's mapping in the
    sender's space, comes back to the space it came from and answers
    0x33cafe33.  The handler is installed for IRQ 0 to 15; a number above is
    answered the same way with nothing installed, and a negative one writes
    outside the table. *)
Theorem msg_dispatch_forwarding inb msg spid k which virt s sp pa :
  Z.of_nat (length (irq_handlers (tabs k))) = 16 ->
  peek k msg MSG_REQUEST_INTERRUPT_FORWARDING -> peek k (msg +w 4) which -> peek k (msg +w 8) virt ->
  find_pid (procs (pt k)) 0 spid = Some s -> zlookup (procs (pt k)) s = Some sp ->
  vm_get_phys_mapping virt (in_space (pdir sp) (vm k)) = Ret pa (in_space (pdir sp) (vm k)) ->
  msg_dispatch inb msg spid k =
    match forwarded (s32 which) virt (pdir sp) (irq_handlers (tabs k)) with
    | Some t => Ret (868941363, pid sp) (with_irqs t k)
    | None => Undef
    end.
Proof.
  intros Hlen Ht Hw Hv Hf Hsp Hmap. unfold msg_dispatch.
  rewrite (bind_Ret (on_pt (proc_find_by_pid spid)) _ k (Some s) k).
  2:{ unfold on_pt, zoom, proc_find_by_pid. rewrite Hf. by rewrite set_pt_id. }
  rewrite (bind_Ret _ _ _ _ _ (ld_Ret _ _ _ Ht)). cbn [MSG_REQUEST_INTERRUPT_FORWARDING Z.eqb].
  unfold mbind at 1, M_bind at 1. rewrite (forward_interrupt_run _ _ _ _ _ _ _ Hw Hv Hsp Hmap).
  unfold mbind at 1, M_bind at 1, install_irq. cbn [set_pt tabs]. rewrite (irq_install_cases _ _ _ _ Hlen).
  destruct (forwarded _ _ _ _) as [t|]; [|done].
  erewrite bind_Ret by (apply on_pt_Ret; reflexivity).
  unfold mbind, M_bind, on_pt, zoom, deref. cbn. by rewrite Hsp.
Qed.

(** ** The copy into the other party's buffer *)

(** What [copy_out] needs: the two words of the waiting packet and the word of
    the message that it reads are in memory that mapping leaves alone, and the
    length, which it reads again after the copy, is not overwritten by it. *)
Record copy_ready (N : Z) (s : vmst) (msg q src p : Z) (bs : list byte) : Prop := {
  cr_pa : num_held N s 4 (m_phys_recv_buf q) p;
  cr_len : num_held N s 4 (m_recv_len q) (Z.of_nat (length bs));
  cr_src : num_held N s 4 (m_send_buf msg) src;
  cr_range : 0 <= src < 4294967296;
  cr_bytes : source N s src p bs;
  cr_away : outside (within p (Z.of_nat (length bs))) s (m_recv_len q) 4;
}.

(** Up to the copy, once the window is mapped *)
Lemma copy_out_opens N base mapped msg q src p (bs : list byte) k v1 : window N (vm k) base p (Z.of_nat (length bs)) ->
  num_held N (vm k) 4 (m_phys_recv_buf q) p -> num_held N (vm k) 4 (m_recv_len q) (Z.of_nat (length bs)) ->
  num_held N (vm k) 4 (m_send_buf msg) src ->
  map_pages p base 0 (Z.of_nat (length bs)) (vm k) = Ret tt v1 ->
  maps_range N base (PALIGNDOWN p) (npages (Z.of_nat (length bs))) (vm k) v1 ->
  copy_out base mapped msg q k =
    (on_mem (memcpy mapped src (Z.of_nat (length bs))) ≫= fun _ =>
     len ← ld (m_recv_len q); on_vm (unmap_pages base len)) (set_vm v1 k).
Proof.
  intros Hw Hpa Hlen Hsrc Hm Hr. pose proof (wi_unmapped _ _ _ _ _ Hw) as Hun. unfold copy_out.
  rewrite (bind_Ret _ _ _ _ _ (num_read N k _ _ _ Hpa)), (bind_Ret _ _ _ _ _ (num_read N k _ _ _ Hlen)).
  rewrite (bind_Ret _ _ _ _ _ (on_vm_Ret _ k _ _ Hm)).
  erewrite bind_Ret by (apply (num_read N (set_vm v1 k)), (num_held_mapped _ _ _ _ _ _ _ _ _ Hr Hun); [apply u32_range|exact Hsrc]).
  by erewrite bind_Ret by (apply (num_read N (set_vm v1 k)), (num_held_mapped _ _ _ _ _ _ _ _ _ Hr Hun); [apply u32_range|exact Hlen]).
Qed.

(** A word in memory that neither the mapping nor the change behind it touches *)
Lemma num_windowed N base p n D s v1 w k a x : maps_range N base p n s v1 -> unmapped s base (4096 * n) ->
  changes N 0 D v1 w -> 0 <= a < 4294967296 -> outside D s a k -> num_held N s k a x -> num_held N w k a x.
Proof.
  intros Hr Hun Hc Ha Ho Hx. pose proof (num_held_mapped _ _ _ _ _ _ _ _ _ Hr Hun Ha Hx) as H1.
  apply (changes_num _ _ _ _ _ _ _ _ Hc Ha); [|done]. intros i q Hi. destruct (proj2 Hx i Hi) as (Hu & Hw & q' & Ht & _).
  rewrite (mr_translate _ _ _ _ _ _ Hr) by done. rewrite decide_False; [by apply Ho|].
  intros Hin. by rewrite Hun in Ht.
Qed.

Lemma copy_out_ok N base msg q src p bs k :
  vm_inv N (vm k) -> window N (vm k) base p (Z.of_nat (length bs)) -> copy_ready N (vm k) msg q src p bs ->
  p mod 4096 + Z.of_nat (length bs) <= 4096 * npages (Z.of_nat (length bs)) ->
  exists v, copy_out base (base + p mod 4096) msg q k = Ret tt (set_vm v k) /\ copied N p bs (vm k) v.
Proof.
  intros Hinv Hw [Hpa Hlen Hsrc Hs Hb Haw] Hfits.
  destruct (window_mapped N (vm k) base p _ Hinv Hw) as (v1 & Hm & Hr).
  destruct (window_copied N (vm k) base p src bs Hw Hb Hs Hfits v1 Hr) as (Hcopy & Hc).
  destruct (window_closed N (vm k) base p src bs Hw Hb Hs Hfits v1 Hr) as (v2 & Hu & Hd).
  pose proof (wi_unmapped _ _ _ _ _ Hw) as Hun.
  rewrite (copy_out_opens N base _ msg q src p bs k v1 Hw Hpa Hlen Hsrc Hm Hr).
  rewrite (bind_Ret _ _ _ (base + p mod 4096) (set_vm (poke p bs v1) k)).
  2:{ unfold on_mem, on_vm, on_mach, zoom. cbn [vm set_vm]. by rewrite Hcopy. }
  erewrite bind_Ret.
  2:{ apply (num_read N (set_vm (poke p bs v1) k)), (num_windowed _ _ _ _ _ _ _ _ _ _ _ Hr Hun Hc);
      [apply u32_range|exact Haw|exact Hlen]. }
  exists v2. by rewrite (on_vm_Ret _ (set_vm (poke p bs v1) k) _ _ Hu).
Qed.

(** The copy of send and reply, through the window at 0xdead0000 or
    0xcafe0000: a buffer that the window's pages cover receives exactly the
    sender's bytes, at its physical address whatever its offset in the page;
    every address resolves as before, no other memory changes and nothing but
    the memory does. *)
Theorem copy_out_delivers N base msg q src p bs k :
  vm_inv N (vm k) -> window N (vm k) base p (Z.of_nat (length bs)) -> copy_ready N (vm k) msg q src p bs ->
  p mod 4096 + Z.of_nat (length bs) <= 4096 * npages (Z.of_nat (length bs)) ->
  exists v, copy_out base (base + p mod 4096) msg q k = Ret tt (set_vm v k) /\ vm_inv N v /\
    (forall va, 0 <= va < 4294967296 -> pd_index va <> 1023 -> translate (mach v) va = translate (mach (vm k)) va) /\
    (forall i b, bs !! i = Some b -> pbyte (phys (mach v)) (p + Z.of_nat i) = b) /\
    forall a, plain N (vm k) a -> ~ (p <= a < p + Z.of_nat (length bs)) ->
      pbyte (phys (mach v)) a = pbyte (phys (mach (vm k))) a.
Proof.
  intros Hinv Hw Hc Hf. destruct (copy_out_ok N base msg q src p bs k Hinv Hw Hc Hf) as (v & H1 & H2 & H3).
  exists v. split; [done|]. split; [apply (ch_inv _ _ _ _ _ H2)|]. split; [intros va; apply (changes_translate _ _ _ _ _ _ H2)|].
  split; [done|apply (ch_rest _ _ _ _ _ H2)].
Qed.

(** C16: The number of pages the window gets is taken from the buffer's length
    alone: when the buffer starts so late in its page that it reaches one page
    further, the copy faults in the kernel at the first byte behind the window,
    with the window still mapped. *)
Theorem copy_out_page_short N base msg q src p bs k :
  vm_inv N (vm k) -> window N (vm k) base p (Z.of_nat (length bs)) -> copy_ready N (vm k) msg q src p bs ->
  4096 * npages (Z.of_nat (length bs)) < p mod 4096 + Z.of_nat (length bs) ->
  base + 4096 * npages (Z.of_nat (length bs)) < 4290772992 ->
  translate (mach (vm k)) (base + 4096 * npages (Z.of_nat (length bs))) = None ->
  copy_out base (base + p mod 4096) msg q k = Faulted (base + 4096 * npages (Z.of_nat (length bs))).
Proof.
  intros Hinv Hw [Hpa Hlen Hsrc Hs Hb Haw] Hf Hbd Hn. destruct (window_mapped N (vm k) base p _ Hinv Hw) as (v1 & Hm & Hr).
  rewrite (copy_out_opens N base _ msg q src p bs k v1 Hw Hpa Hlen Hsrc Hm Hr).
  unfold mbind, M_bind, on_mem, on_vm, on_mach, zoom. cbn [vm set_vm].
  by rewrite (window_faults N (vm k) base p src bs Hw Hb Hs v1 Hr Hf Hn Hbd).
Qed.

(** *** The copy out of the sender's buffer *)

(** What [copy_in] reads: two words of the waiting packet and two of the
    receiver's; the length it reads once more after the copy is not in the
    receiver's buffer. *)
Record receive_ready (N : Z) (s : vmst) (msg q p slen dst : Z) (qs : list Z) : Prop := {
  rr_pa : num_held N s 4 (m_phys_send_buf q) p;
  rr_slen : num_held N s 4 (m_send_len q) slen;
  rr_dst : num_held N s 4 (m_recv_buf msg) dst;
  rr_rlen : num_held N s 4 (m_recv_len msg) (Z.of_nat (length qs));
  rr_target : target N s dst p qs;
  rr_away : outside (.∈ qs) s (m_send_len q) 4;
}.

Lemma copy_in_ok N base msg q p slen dst qs k :
  vm_inv N (vm k) -> window N (vm k) base p slen -> receive_ready N (vm k) msg q p slen dst qs ->
  p mod 4096 + Z.of_nat (length qs) <= 4096 * npages slen ->
  exists v, copy_in base (base + p mod 4096) msg q k = Ret tt (set_vm v k) /\
    changes N (Z.to_nat (npages slen)) (.∈ qs) (vm k) v /\
    forall i a, qs !! i = Some a -> pbyte (phys (mach v)) a = pbyte (phys (mach (vm k))) (p + Z.of_nat i).
Proof.
  intros Hinv Hw [Hpa Hsl Hdst Hrl Htg Haw] Hfits. destruct (window_mapped N (vm k) base p _ Hinv Hw) as (v1 & Hm & Hr).
  pose proof (wi_unmapped _ _ _ _ _ Hw) as Hun.
  pose proof (copy_in_copied N (vm k) base p slen dst qs Hw Htg Hfits v1 Hr) as Hcopy.
  destruct (copy_in_closed N (vm k) base p slen dst qs Hw Htg Hfits v1 Hr) as (v2 & Hu & Hd).
  assert (Hpl1 : Forall (plain N v1) qs).
  { eapply list.Forall_impl; [by eapply qs_plain|]. intros x. apply (mr_plain _ _ _ _ _ _ Hr). }
  assert (Hkept : forall a w, 0 <= a < 4294967296 -> num_held N (vm k) 4 a w -> num_held N v1 4 a w).
  { intros a w Ha. by apply (num_held_mapped _ _ _ _ _ _ _ _ _ Hr Hun). }
  unfold copy_in. rewrite (bind_Ret _ _ _ _ _ (num_read N k _ _ _ Hpa)), (bind_Ret _ _ _ _ _ (num_read N k _ _ _ Hsl)).
  rewrite (bind_Ret _ _ _ _ _ (on_vm_Ret _ k _ _ Hm)).
  erewrite bind_Ret by (apply (num_read N (set_vm v1 k)), Hkept; [apply u32_range|exact Hdst]).
  erewrite bind_Ret by (apply (num_read N (set_vm v1 k)), Hkept; [apply u32_range|exact Hrl]).
  set (w := scatter qs (buffer (vm k) p qs) v1) in *.
  pose proof (scatter_changes N qs (buffer (vm k) p qs) v1 (mr_inv _ _ _ _ _ _ Hr) Hpl1 : changes N 0 _ v1 w) as Hc.
  rewrite (bind_Ret _ _ _ dst (set_vm w k)).
  2:{ unfold on_mem, on_vm, on_mach, zoom. cbn [vm set_vm]. rewrite Hcopy. unfold w. by rewrite scatter_pms. }
  erewrite bind_Ret.
  2:{ apply (num_read N (set_vm w k)), (num_windowed _ _ _ _ _ _ _ _ _ _ _ Hr Hun Hc);
      [apply u32_range|exact Haw|exact Hsl]. }
  exists v2. by rewrite (on_vm_Ret _ (set_vm w k) _ _ Hu).
Qed.

(** A receive with a message waiting fills the receiver's buffer with what
    is at the sender's physical buffer: as many bytes as the receiver asked
    for, also when the sender sent fewer, as long as they are in the pages that
    its length covers.  Every address resolves as before and no other memory
    changes. *)
Theorem copy_in_delivers N base msg q p slen dst qs k :
  vm_inv N (vm k) -> window N (vm k) base p slen -> receive_ready N (vm k) msg q p slen dst qs ->
  p mod 4096 + Z.of_nat (length qs) <= 4096 * npages slen ->
  exists v, copy_in base (base + p mod 4096) msg q k = Ret tt (set_vm v k) /\ vm_inv N v /\
    (forall va, 0 <= va < 4294967296 -> pd_index va <> 1023 -> translate (mach v) va = translate (mach (vm k)) va) /\
    (forall i a, qs !! i = Some a -> pbyte (phys (mach v)) a = pbyte (phys (mach (vm k))) (p + Z.of_nat i)) /\
    forall a, plain N (vm k) a -> a ∉ qs -> pbyte (phys (mach v)) a = pbyte (phys (mach (vm k))) a.
Proof.
  intros Hinv Hw Hc Hf. destruct (copy_in_ok N base msg q p slen dst qs k Hinv Hw Hc Hf) as (v & H1 & H2 & H3).
  exists v. split; [done|]. split; [apply (ch_inv _ _ _ _ _ H2)|]. split; [intros va; apply (changes_translate _ _ _ _ _ _ H2)|].
  split; [done|apply (ch_rest _ _ _ _ _ H2)].
Qed.

(** ** A concrete exchange

    The heap, the early processes and two more processes in slots 2 and 3. *)

Definition k_heap : kst :=
  Kst (vm k_boot) true (tss k_boot) (idt k_boot) (tabs k_boot) (pt k_boot).

Definition two_processes : M kst unit :=
  on_vm heap_init ≫= fun _ => proc_earlyinit k_syms ≫= fun _ =>
  proc_new_from_memory k_syms 32768 false false 0 0 ≫= fun _ =>
  proc_new_from_memory k_syms 32800 false false 0 0 ≫= fun _ =>
  on_pt proc_enable_scheduling.

(** Slot [n] runs: it is current and its address space is loaded. *)
Definition run_slot (n : Z) : M kst unit :=
  on_pt (modify (set_current (Some n))) ≫= fun _ =>
  p ← on_pt (deref (Some n)); on_mem (set_cr3 (pdir (snd p))).

(** Slot 3 is about to wait for 8 bytes at 0x26000. *)
Definition receiver_ready : M kst unit :=
  two_processes ≫= fun _ => run_slot 3 ≫= fun _ => ipc_call 147456 151552 (ipc_recv_packet 155648 8).

(** It waits, and slot 2 is about to send two words to it. *)
Definition sender_ready : M kst unit :=
  syscall_recv_msg k_syms 163840 147456 ≫= fun _ => run_slot 2 ≫= fun _ =>
  st 159744 1111 ≫= fun _ => st 159748 2222 ≫= fun _ =>
  ipc_call 167936 172032 (ipc_send_packet 3 159744 8 176128 4).

(** Slot 2 sends; slot 3 looks at what it got and answers one word. *)
Definition send_and_answer : M kst (list Z * list proc_state) :=
  syscall_send_msg k_syms 163840 167936 ≫= fun _ =>
  t1 ← on_pt get;
  run_slot 3 ≫= fun _ => x ← ld 155648; y ← ld 155652; z ← ld 151552;
  st 180224 7777 ≫= fun _ =>
  ipc_call 147456 151552 (ipc_reply_packet z 180224 4) ≫= fun _ =>
  syscall_rply_msg k_syms 163840 147456 ≫= fun _ =>
  run_slot 2 ≫= fun _ => w ← ld 176128; t2 ← on_pt get;
  mret ([x; y; z; w], map state (take 4 (procs t1)) ++ map state (take 4 (procs t2))).

Definition exchanged : list Z * list proc_state :=
  ([1111; 2222; 2; 7777],
   [PROC_READY; PROC_READY; PROC_SEND_BLOCKED; PROC_READY;
    PROC_READY; PROC_READY; PROC_READY; PROC_READY]).

Definition k_idle : kst := run_state receiver_ready k_heap.
Definition k_sender : kst := run_state sender_ready k_idle.
Definition k_sent : kst := run_state (send_body k_syms 167936) k_sender.
Definition k_received : kst := run_state (recv_body k_syms 147456) k_idle.
Definition k_replied : kst := run_state (rply_body k_syms 147456) k_idle.

(** A request to forward IRQ 9 to the handler at 0x20000, at 0x25000. *)
Definition k_request : kst := run_state (put_words 151552 [0; 9; 131072]) k_idle.
Definition pt_idle : ptable := Eval vm_compute in pt k_idle.
Definition slot2 : proc := Eval vm_compute in default proc0 (zlookup (procs pt_idle) 2).


(** The runs the examples below are about, evaluated together. *)
Lemma runs_evaluate :
  (answers receiver_ready k_heap tt = true /\ answers sender_ready k_idle tt = true /\
   answers send_and_answer k_sender exchanged = true) /\
  (answers (send_body k_syms 167936) k_sender true = true /\
   answers (recv_body k_syms 147456) k_idle tt = true /\ answers (rply_body k_syms 147456) k_idle tt = true) /\
  (pt k_idle = pt_idle /\ pt k_request = pt_idle /\ length (irq_handlers (tabs k_request)) = 16%nat) /\
  (peek_test k_request 151552 0 = true /\ peek_test k_request 151556 9 = true /\
   peek_test k_request 151560 131072 = true /\
   mapping_test (in_space (pdir slot2) (vm k_request)) 131072 131072 = true).
Proof. vm_compute. repeat split. Qed.

(** The exchange runs: the sender's two words and its pid reach the receiver,
    the sender blocks, the reply's word reaches the sender's buffer and both
    are ready again. *)
Example exchange_evaluates : answers send_and_answer k_sender exchanged = true.
Proof. destruct runs_evaluate as ((_ & _ & H) & _). exact H. Qed.

Lemma send_body_states_witness :
  exists msg rpid r rp, peek k_sender (intregs_eax 167936) msg /\ peek k_sender (m_receiver msg) rpid /\
    find_pid (procs (pt k_sender)) 0 rpid = Some r /\ zlookup (procs (pt k_sender)) r = Some rp /\
    match state rp with
    | PROC_RECV_BLOCKED => exists c t1, current_proc (pt k_sender) = Some c /\
        state_set c PROC_SEND_BLOCKED (sched_off (pt k_sender)) t1 /\ state_set r PROC_READY t1 (pt k_sent)
    | PROC_READY => exists c, current_proc (pt k_sender) = Some c /\
        state_set c PROC_REPLY_BLOCKED (sched_off (pt k_sender)) (pt k_sent)
    | _ => pt k_sent = sched_off (pt k_sender)
    end.
Proof.
  apply (send_body_states k_syms 167936 k_sender k_sent).
  destruct runs_evaluate as (_ & (H & _) & _). exact (run_state_eq _ _ _ H).
Defined.

Lemma recv_body_states_witness :
  exists c first, current_proc (pt k_idle) = Some c /\ peek k_idle (queue_of k_syms c) first /\
    if first =? 0 then state_set c PROC_RECV_BLOCKED (sched_off (pt k_idle)) (pt k_received)
    else pt k_received = sched_off (pt k_idle).
Proof.
  apply (recv_body_states k_syms 147456 k_idle k_received).
  destruct runs_evaluate as (_ & (_ & H & _) & _). exact (run_state_eq _ _ _ H).
Defined.

Lemma rply_body_states_witness :
  exists c first, current_proc (pt k_idle) = Some c /\ peek k_idle (queue_of k_syms c) first /\
    if first =? 0 then pt k_replied = sched_off (pt k_idle)
    else exists spid r, peek k_idle (m_sender first) spid /\ find_pid (procs (pt k_idle)) 0 spid = Some r /\
           state_set r PROC_READY (sched_off (pt k_idle)) (pt k_replied).
Proof.
  apply (rply_body_states k_syms 147456 k_idle k_replied).
  destruct runs_evaluate as (_ & (_ & _ & H) & _). exact (run_state_eq _ _ _ H).
Defined.

Lemma msg_dispatch_forwarding_witness :
  msg_dispatch (fun _ => 0) 151552 2 k_request =
    Ret (868941363, pid slot2)
      (with_irqs (zupdate 9 (IrqEntry 131072 (pdir slot2)) (irq_handlers (tabs k_request))) k_request).
Proof.
  destruct runs_evaluate as (_ & _ & (_ & Hpt & Hl) & H1 & H2 & H3 & H4).
  apply (msg_dispatch_forwarding (fun _ => 0) 151552 2 k_request 9 131072 2 slot2 131072).
  - by rewrite Hl.
  - exact (peek_of_rdn _ _ _ H1).
  - exact (peek_of_rdn _ _ _ H2).
  - exact (peek_of_rdn _ _ _ H3).
  - rewrite Hpt. vm_compute. reflexivity.
  - rewrite Hpt. vm_compute. reflexivity.
  - exact (phys_mapping_of_read _ _ _ H4).
Defined.

(** A message at 0xb8000 whose buffer is at 0xb8088, and a waiting packet at
    0xb8024 with a buffer of [n] bytes at the physical address [p] *)
Definition copy_words (n p : Z) : list byte :=
  concat (map (le_split 4) [0; 0; 753800; 0; 0; 0; 0; 0; 0; 0; 0; 0; 0; 0; n; 0; p; 0]) ++ repeat Byte.x00 64.
Definition copy_page (n p : Z) (bs : list byte) : list byte := copy_words n p ++ bs.
Definition k_copy (p : Z) (bs : list byte) : kst := set_vm (page_vm (copy_page (Z.of_nat (length bs)) p bs)) k_boot.

Lemma plain_low a : 0 <= a < 1048576 -> plain 1024 vm_boot1 a.
Proof.
  intros Ha. apply (mo_plain _ _ _ _ _ _ (proj2 vm_boot1_run)). split.
  - intros d Hd. rewrite vm_boot_pde by done. case_decide; [|done]. change (frame 1048579) with 1048576. lia.
  - intros k Hk _. unfold pool_page in Hk. rewrite vm_boot_page by done. lia.
Qed.

Section CopyWitness.
Variables (p : Z) (bs : list byte).
Let n := Z.of_nat (length bs).
Hypothesis Hn : 0 < n <= 16.
Hypothesis Hp : 4096 <= p /\ p + n <= 753664.
Hypothesis Hw1 : rdn 4 753728 (mach (vm (k_copy p bs))) = Some (le_split 4 p).
Hypothesis Hw2 : rdn 4 753720 (mach (vm (k_copy p bs))) = Some (le_split 4 n).
Hypothesis Hw3 : rdn 4 753672 (mach (vm (k_copy p bs))) = Some (le_split 4 753800).

Lemma copy_fits : Z.of_nat (length (copy_page n p bs)) <= 4096.
Proof. unfold copy_page. rewrite length_app. change (length (copy_words n p)) with 136%nat. lia. Qed.

Lemma copy_window base : 1073741824 <= base -> base mod 4096 = 0 -> base + 8192 <= 4290772992 ->
  window 1024 (vm (k_copy p bs)) base p n /\ copy_ready 1024 (vm (k_copy p bs)) 753664 753700 753800 p bs /\
  npages n = 1 /\ translate (mach (vm (k_copy p bs))) (base + 4096) = None.
Proof.
  intros H1 H2 H3. assert (Hnp : npages n = 1).
  { unfold npages. change PAGE_SIZE with 4096. rewrite Z.div_small, Z.mod_small by lia. destruct (Z.ltb_spec 0 n); lia. }
  assert (Ht : forall va, 0 <= va < 4290772992 ->
    translate (mach (vm (k_copy p bs))) va = if decide (753664 <= va < 757760) then Some va else None).
  { intros va Hva. apply page_translate; [exact copy_fits|done]. }
  assert (Hpl : forall i, 0 <= i < n -> plain 1024 (vm (k_copy p bs)) (p + i)).
  { intros i Hi. apply page_kept; [exact copy_fits|]. apply plain_low. lia. }
  pose proof (page_num _ copy_fits) as Hnum.
  split; [|split; [|split; [done|]]].
  - split; rewrite ?Hnp; try done; try lia.
    + rewrite PALIGNDOWN_eq by lia. pose proof (Z.mod_pos_bound p 4096 eq_refl). lia.
    + apply (page_free _ 1). lia.
    + intros va Hva. rewrite Ht by lia. by rewrite decide_False by lia.
  - split.
    + apply (Hnum 4%nat 753728 (le_split 4 p)); [lia|lia|exact Hw1|]. rewrite le_combine_split. apply Z.mod_small. lia.
    + apply (Hnum 4%nat 753720 (le_split 4 n)); [lia|lia|exact Hw2|]. rewrite le_combine_split. apply Z.mod_small. lia.
    + by apply (Hnum 4%nat 753672 (le_split 4 753800)); [lia|lia|exact Hw3|reflexivity].
    + lia.
    + intros i b Hi. pose proof (lookup_lt_Some _ _ _ Hi). fold n. rewrite u32_small by lia. exists (753800 + Z.of_nat i).
      rewrite Ht by lia. rewrite decide_True by lia. split; [done|]. split; [|split; [|split; [apply window_bound; lia|unfold within; lia]]].
      * change (vm (k_copy p bs)) with (poke 753664 (copy_page n p bs) vm_boot1). rewrite pbyte_poke.
        destruct (Z.ltb_spec (753800 + Z.of_nat i) 753664); [lia|]. unfold copy_page.
        assert (Hlw : length (copy_words n p) = 136%nat) by done.
        rewrite lookup_app_r by lia. rewrite Hlw. replace (_ - 136)%nat with i by lia. by rewrite Hi.
      * apply page_kept; [exact copy_fits|]. apply plain_low. lia.
    + intros i q Hi Hq. revert Hq. change (m_recv_len 753700) with 753720. rewrite u32_small, Ht by lia.
      rewrite decide_True by lia. intros [= <-]. unfold within. lia.
  - rewrite Ht by lia. by rewrite decide_False by lia.
Qed.
End CopyWitness.

Definition hello : list byte := [Byte.x68; Byte.x65; Byte.x6c; Byte.x6c; Byte.x6f; Byte.x00].

(** Six bytes to 0x8064 through the window of a reply *)
Lemma copy_out_delivers_witness : exists v,
  copy_out 3405643776 3405643876 753664 753700 (k_copy 32868 hello) = Ret tt (set_vm v (k_copy 32868 hello)) /\
  pbyte (phys (mach v)) 32868 = Byte.x68 /\ pbyte (phys (mach v)) 32873 = Byte.x00.
Proof.
  assert (Hw1 : rdn 4 753728 (mach (vm (k_copy 32868 hello))) = Some (le_split 4 32868)) by (vm_compute; reflexivity).
  assert (Hw2 : rdn 4 753720 (mach (vm (k_copy 32868 hello))) = Some (le_split 4 6)) by (vm_compute; reflexivity).
  assert (Hw3 : rdn 4 753672 (mach (vm (k_copy 32868 hello))) = Some (le_split 4 753800)) by (vm_compute; reflexivity).
  assert (Hn : 0 < Z.of_nat (length hello) <= 16) by (cbn; lia).
  assert (Hp : 4096 <= 32868 /\ 32868 + Z.of_nat (length hello) <= 753664) by (cbn; lia).
  destruct (copy_window 32868 hello Hn Hp Hw1 Hw2 Hw3 3405643776) as (H1 & H2 & _); [lia|done|lia|].
  destruct (copy_out_delivers 1024 3405643776 753664 753700 753800 32868 hello (k_copy 32868 hello))
    as (v & Hr & _ & _ & Hb & _); [exact (page_inv _ (copy_fits 32868 hello Hn))|exact H1|exact H2|vm_compute; discriminate|].
  exists v. split; [exact Hr|]. split; [exact (Hb 0%nat Byte.x68 eq_refl)|exact (Hb 5%nat Byte.x00 eq_refl)].
Defined.

(** The same buffer at the end of its page *)
Lemma copy_out_page_short_witness :
  copy_out 3405643776 (3405643776 + 36862 mod 4096) 753664 753700 (k_copy 36862 hello) = Faulted 3405647872.
Proof.
  assert (Hw1 : rdn 4 753728 (mach (vm (k_copy 36862 hello))) = Some (le_split 4 36862)) by (vm_compute; reflexivity).
  assert (Hw2 : rdn 4 753720 (mach (vm (k_copy 36862 hello))) = Some (le_split 4 6)) by (vm_compute; reflexivity).
  assert (Hw3 : rdn 4 753672 (mach (vm (k_copy 36862 hello))) = Some (le_split 4 753800)) by (vm_compute; reflexivity).
  assert (Hn : 0 < Z.of_nat (length hello) <= 16) by (cbn; lia).
  assert (Hp : 4096 <= 36862 /\ 36862 + Z.of_nat (length hello) <= 753664) by (cbn; lia).
  destruct (copy_window 36862 hello Hn Hp Hw1 Hw2 Hw3 3405643776) as (H1 & H2 & _ & H4); [lia|done|lia|].
  apply (copy_out_page_short 1024 3405643776 753664 753700 753800 36862 hello (k_copy 36862 hello));
    [exact (page_inv _ (copy_fits 36862 hello Hn))|exact H1|exact H2|vm_compute; reflexivity|vm_compute; reflexivity|exact H4].
Defined.

(** A receive of six bytes at 0xb8088; the sender sent four of the six at 0xb80ec. *)
Definition receive_page : list byte :=
  concat (map (le_split 4) [0; 0; 0; 753800; 0; 6; 0; 0; 0; 0; 0; 0; 0; 4; 0; 753900; 0; 0]) ++
  repeat Byte.x00 164 ++ hello.
Definition k_receive : kst := set_vm (page_vm receive_page) k_boot.

Lemma receive_fits : Z.of_nat (length receive_page) <= 4096.
Proof. vm_compute. discriminate. Qed.

Lemma receive_translate va : 0 <= va < 4290772992 ->
  translate (mach (vm k_receive)) va = if decide (753664 <= va < 757760) then Some va else None.
Proof. apply page_translate, receive_fits. Qed.

Lemma receive_plain a : 0 <= a < 1048576 -> plain 1024 (vm k_receive) a.
Proof. intros Ha. apply page_kept; [exact receive_fits|]. by apply plain_low. Qed.

Lemma receive_window : window 1024 (vm k_receive) 3133014016 753900 4.
Proof.
  split.
  - split; [lia|reflexivity].
  - lia.
  - split; vm_compute; discriminate.
  - apply (page_free _ 1). lia.
  - intros va Hva. change (4096 * npages 4) with 4096 in Hva. rewrite receive_translate by lia. by rewrite decide_False by lia.
  - intros i Hi. apply receive_plain. lia.
Qed.

Lemma receive_target : target 1024 (vm k_receive) 753800 753900 (seqZ 753800 6).
Proof.
  split; rewrite ?length_seqZ; try lia.
  - intros i q [-> Hi]%lookup_seqZ. rewrite u32_small, receive_translate, decide_True by lia. split; [done|]. apply receive_plain. lia.
  - intros i q [-> Hi]%lookup_seqZ. rewrite u32_small by lia. apply window_bound. lia.
  - apply NoDup_seqZ.
  - intros q Hq%elem_of_seqZ. lia.
  - intros i Hi. apply receive_plain. lia.
Qed.

Lemma copy_in_delivers_witness : exists v,
  copy_in 3133014016 3133014252 753664 753700 k_receive = Ret tt (set_vm v k_receive) /\
  pbyte (phys (mach v)) 753800 = Byte.x68 /\ pbyte (phys (mach v)) 753804 = Byte.x6f.
Proof.
  destruct (copy_in_delivers 1024 3133014016 753664 753700 753900 4 753800 (seqZ 753800 6) k_receive) as (v & Hr & _ & _ & Hb & _).
  - exact (page_inv _ receive_fits).
  - exact receive_window.
  - split; [apply (page_word receive_page receive_fits); [vm_compute; split; discriminate|vm_compute; reflexivity]..|exact receive_target|].
    intros i a Hi. change (m_send_len 753700) with 753716. rewrite u32_small, receive_translate, decide_True by lia.
    intros [= <-] Hin%elem_of_seqZ. lia.
  - vm_compute. discriminate.
  - exists v. split; [exact Hr|]. split.
    + rewrite (Hb 0%nat 753800 eq_refl). vm_compute. reflexivity.
    + rewrite (Hb 4%nat 753804 eq_refl). vm_compute. reflexivity.
Defined.
