(* ===== verification/Ram.v ===== *)
(** * Ram.v: the kernel's memory behind the page tables

    The kernel's data is reached through the page tables of the process that
    runs.  While its addresses resolve to memory of their own, that memory is
    RAM for the queues of Queue.v and the heap of Heap.v, and what a system
    call does to other memory leaves them as they are.  Here is also how a
    single word is stored. *)

From S2P Require Import Prelude Memory Machine Pm Vm Heap Queue Desc Proc Load Window Syscall.

(** ** Storing a word *)

(** The word at [a] is at the distinct plain addresses [qs]. *)
Record word_dest (N : Z) (s : vmst) (a : Z) (qs : list Z) : Prop := {
  wd_range : 0 <= a < 4294967296;
  wd_length : length qs = 4%nat;
  wd_dests : dests N s a qs;
  wd_index : forall i, 0 <= i < 4 -> pd_index (u32 (a + i)) <> 1023;
  wd_nodup : NoDup qs;
}.

Lemma word_dest_changes N f D s s' a qs : changes N f D s s' -> word_dest N s a qs -> word_dest N s' a qs.
Proof.
  intros H [H1 H2 H3 H4 H5]. split; try done. intros i q Hi. destruct (H3 i q Hi) as [Ht Hp].
  split; [|by apply (ch_plain _ _ _ _ _ H)]. rewrite (changes_translate _ _ _ _ _ _ H); [done|apply u32_range|].
  apply H4. apply lookup_lt_Some in Hi. lia.
Qed.

Lemma dests_tail N s a q qs (b : byte) : vm_inv N s -> dests N s a (q :: qs) -> dests N (poke q [b] s) (u32 (a + 1)) qs.
Proof.
  intros Hinv H i q' Hi. destruct (H 0%nat q eq_refl) as [_ Hq]. destruct (H (S i) q' Hi) as [Ht Hp].
  pose proof (plain_single N s q b Hq) as H1. rewrite u32_add_l. replace (a + 1 + Z.of_nat i) with (a + Z.of_nat (S i)) by lia.
  rewrite (poke_translate N) by (done || apply u32_range). split; [done|by apply poke_plain].
Qed.

Lemma wrn_scatter N qs : forall bs s a, vm_inv N s -> length bs = length qs -> 0 <= a < 4294967296 ->
  dests N s a qs -> wrn a bs (mach s) = Some (mach (scatter qs bs s)).
Proof.
  induction qs as [|q qs IH]; intros [|b bs] s a Hinv Hlen Ha Hd; try done. cbn [wrn scatter].
  destruct (Hd 0%nat q eq_refl) as [Ht Hp]. rewrite Z.add_0_r, u32_small in Ht by done.
  cbn [wr8 machine_ops]. rewrite Ht. cbn [mbind option_bind].
  apply (IH bs (poke q [b] s)); [apply poke_inv; [done|by apply plain_single]|by injection Hlen|apply u32_range|by apply dests_tail].
Qed.

Lemma rdn_dests N qs : forall bs s a, length bs = length qs -> 0 <= a < 4294967296 -> dests N s a qs ->
  (forall i q b, qs !! i = Some q -> bs !! i = Some b -> pbyte (phys (mach s)) q = b) ->
  rdn (length bs) a (mach s) = Some bs.
Proof.
  induction qs as [|q qs IH]; intros [|b bs] s a Hlen Ha Hd Hb; try done. cbn [length rdn].
  destruct (Hd 0%nat q eq_refl) as [Ht _]. rewrite Z.add_0_r, u32_small in Ht by done.
  cbn [rd8 machine_ops]. rewrite Ht, (Hb 0%nat q b eq_refl eq_refl). cbn [mbind option_bind].
  rewrite (IH bs s); [done|by injection Hlen|apply u32_range| |].
  - intros i q' Hi. destruct (Hd (S i) q' Hi) as [Ht' Hp]. rewrite u32_add_l.
    by replace (a + 1 + Z.of_nat i) with (a + Z.of_nat (S i)) by lia.
  - intros i. apply (Hb (S i)).
Qed.

Lemma word_plain N s a qs : word_dest N s a qs -> Forall (plain N s) qs.
Proof. intros H. apply list.Forall_forall. intros q [i Hi]%list_elem_of_lookup. apply (wd_dests _ _ _ _ H i q Hi). Qed.

(** A store to such a word: only its bytes change, and they hold the value. *)
Lemma st_word N k a qs v : vm_inv N (vm k) -> word_dest N (vm k) a qs -> 0 <= v < 4294967296 ->
  exists w, st a v k = Ret tt (set_vm w k) /\ changes N 0 (.∈ qs) (vm k) w /\ num_held N w 4 a v.
Proof.
  intros Hinv H Hv. pose proof (word_plain _ _ _ _ H) as Hpl. set (bs := le_split 4 v). set (w := scatter qs bs (vm k)).
  assert (Hlen : length bs = length qs) by (rewrite (wd_length _ _ _ _ H); apply length_le_split).
  pose proof (scatter_changes N qs bs (vm k) Hinv Hpl : changes N 0 (.∈ qs) (vm k) w) as Hc.
  pose proof (word_dest_changes _ _ _ _ _ _ _ Hc H) as H'.
  exists w. split; [|split; [done|split]].
  - unfold st, on_mem, on_vm, on_mach, zoom, store32, storen. fold bs.
    rewrite (wrn_scatter N qs bs (vm k) a Hinv Hlen (wd_range _ _ _ _ H) (wd_dests _ _ _ _ H)). unfold w. by rewrite scatter_pms.
  - unfold loadn. assert (Hr : rdn (length bs) a (mach w) = Some bs).
    { apply (rdn_dests N qs); [done|apply H'|apply H'|]. intros i q b. by apply (scatter_byte N), H. }
    unfold bs in Hr at 1. rewrite length_le_split in Hr. rewrite Hr. unfold bs. rewrite le_combine_split.
    f_equal. by apply Z.mod_small.
  - intros i Hi. split; [apply u32_range|]. split; [by apply (wd_index _ _ _ _ H)|].
    destruct (lookup_lt_is_Some_2 qs (Z.to_nat i)) as [q Hq]; [rewrite (wd_length _ _ _ _ H); lia|].
    exists q. destruct (wd_dests _ _ _ _ H' _ _ Hq) as [Ht Hp]. rewrite Z2Nat.id in Ht by lia. done.
Qed.

Lemma num_range N s a v : num_held N s 4 a v -> 0 <= v < 4294967296.
Proof.
  intros [H _]. unfold loadn in H. destruct (rdn 4 a (mach s)) as [bs|] eqn:E; [|done]. injection H as <-.
  assert (Hl : length bs = 4%nat); [|pose proof (le_combine_bound bs) as Hb; by rewrite Hl in Hb].
  assert (Hgen : forall n a l, rdn n a (mach s) = Some l -> length l = n); [|by apply Hgen in E].
  clear. induction n as [|n IH]; intros a l H; cbn [rdn] in H; [by injection H as <-|].
  destruct (rd8 a (mach s)); [|done]. cbn [mbind option_bind] in H.
  destruct (rdn n (a +w 1) (mach s)) as [l'|] eqn:E; [|done]. injection H as <-. cbn [length]. f_equal. by apply (IH (a +w 1)).
Qed.

(** What vm_get_phys_mapping gives for an address whose entry has bits 10 and
    11 clear. *)
Definition mapped_to (s : vmst) (va pa : Z) : Prop :=
  0 <= va < 4294967296 /\ pd_index va <> 1023 /\
  exists pte, entry (mach s) va = Some pte /\ pte mod 4096 < 1024 /\ pa = frame pte + va mod 4096.

Lemma mapped_to_changes N f D s s' va pa : changes N f D s s' -> mapped_to s va pa -> mapped_to s' va pa.
Proof.
  intros H (Hva & Hw & pte & He & Hl & Hp). split; [done|]. split; [done|]. exists pte.
  by rewrite (ch_entry _ _ _ _ _ H).
Qed.

Lemma mapped_to_range s va pa : mapped_to s va pa -> 0 <= pa < 4294967296.
Proof.
  intros (Hva & Hw & pte & He & Hl & ->). unfold entry in He. pose proof (pte_at_range (mach s) (pd_index va) (pt_index va)) as Hr.
  rewrite (walk_pte _ _ _ _ He) in Hr. pose proof (frame_range pte Hr). pose proof (Z.mod_pos_bound va 4096 eq_refl). lia.
Qed.

Lemma mapped_to_read N k va pa : vm_inv N (vm k) -> mapped_to (vm k) va pa -> on_vm (vm_get_phys_mapping va) k = Ret pa k.
Proof.
  intros Hinv (Hva & Hw & pte & He & Hl & Hp). unfold entry in He. unfold on_vm, zoom.
  rewrite (phys_mapping_ok (vm k) va pa); [by destruct k|apply (inv_as _ _ Hinv)|done| |].
  - unfold translate. by rewrite He, Hp.
  - by rewrite (walk_pte _ _ _ _ He).
Qed.

(** ** The kernel's data *)

Section KernelRam.
(** The addresses of the kernel's data, and where they lead *)
Variables (N : Z) (R : Z -> Prop) (tau : Z -> Z).

Record kernel_data : Prop := {
  kd_range : forall a, R a -> 0 <= a < 4294967296 /\ pd_index a <> 1023;
  kd_inj : forall a a', R a -> R a' -> tau a = tau a' -> a = a';
}.

Definition kernel_at (x : Z) : Prop := exists a, R a /\ tau a = x.

(** The part of it at the addresses [X] *)
Definition kernel_in (X : Z -> Prop) (x : Z) : Prop := exists a, R a /\ X a /\ tau a = x.

Lemma kernel_in_at X x : kernel_in X x -> kernel_at x.
Proof. intros (a & Ha & _ & E). by exists a. Qed.
Lemma kernel_in_mono (X Y : Z -> Prop) x : (forall a, X a -> Y a) -> kernel_in X x -> kernel_in Y x.
Proof. intros HXY (a & Ha & Hx & E). exists a. auto. Qed.

(** Memory [m] has the kernel's data where it should be, and nothing but the
    kernel's data changed since [m0]. *)
Record kernel_ram (p : pm_state) (m0 m : machine) : Prop := {
  kr_to : forall a, R a -> translate m a = Some (tau a);
  kr_plain : forall a, R a -> plain N (Vmst m p) (tau a);
  kr_changes : changes N 0 kernel_at (Vmst m0 p) (Vmst m p);
}.

(** The kernel's data in a state as such *)
Definition ram (s : vmst) : machine -> Prop := kernel_ram (pms s) (mach s).

Lemma ram_start s : vm_inv N s -> (forall a, R a -> translate (mach s) a = Some (tau a)) ->
  (forall a, R a -> plain N s (tau a)) -> ram s (mach s).
Proof. destruct s as [m p]. split; [done..|]. by apply changes_refl. Qed.

Lemma ram_inv s m : ram s m -> vm_inv N (Vmst m (pms s)).
Proof. intros H. apply (ch_inv _ _ _ _ _ (kr_changes _ _ _ H)). Qed.

(** The same state, seen as a start *)
Lemma ram_again p m0 m : kernel_ram p m0 m -> kernel_ram p m m.
Proof. intros [H1 H2 H3]. split; try done. apply changes_refl, (ch_inv _ _ _ _ _ H3). Qed.

Hypothesis Hdata : kernel_data.

(** What changes the rest of memory leaves the kernel's data where it is ... *)
Lemma ram_kept f D s s' : changes N f D s s' -> ram s (mach s) -> ram s' (mach s').
Proof.
  intros H Hr. apply ram_start; [apply (ch_inv _ _ _ _ _ H)| |].
  - intros a Ha. destruct (kd_range Hdata a Ha). rewrite (changes_translate _ _ _ _ _ _ H) by done. by apply Hr.
  - intros a Ha. apply (ch_plain _ _ _ _ _ H). destruct s. by apply (kr_plain _ _ _ Hr).
Qed.

(** ... and as it is. *)
Lemma ram_read f D s s' a : changes N f D s s' -> ram s (mach s) -> R a -> ~ D (tau a) ->
  rd8 a (mach s') = rd8 a (mach s).
Proof.
  intros H Hr Ha Hn. cbn [rd8 machine_ops]. pose proof (ram_kept _ _ _ _ H Hr) as Hr'.
  rewrite (kr_to _ _ _ Hr' a Ha), (kr_to _ _ _ Hr a Ha). f_equal. apply (ch_rest _ _ _ _ _ H); [|done].
  destruct s. by apply (kr_plain _ _ _ Hr).
Qed.

(** What only changes the kernel's data at [X] *)
Lemma ram_fine X s m : ram s m -> (forall a, R a -> ~ X a -> rd8 a m = rd8 a (mach s)) ->
  changes N 0 (kernel_in X) s (Vmst m (pms s)).
Proof.
  intros Hr Hx. pose proof (kr_changes _ _ _ Hr) as Hc0.
  assert (Hc : changes N 0 kernel_at s (Vmst m (pms s))) by (by destruct s).
  destruct Hc as [H1 H2 H3 H4 H5 H6]. split; try done. intros x Hp Hn. cbn [mach] in *.
  assert (Hin : kernel_at x -> pbyte (phys m) x = pbyte (phys (mach s)) x).
  { intros (a & Ha & <-). destruct (kd_range Hdata a Ha) as [Hra Hwa].
    assert (Hxa : ~ X a) by (intros Hxa; apply Hn; by exists a).
    specialize (Hx a Ha Hxa). cbn [rd8 machine_ops] in Hx. specialize (H3 a Hra Hwa). cbn [mach] in H3.
    rewrite <- (entry_translate _ _ _ H3), (kr_to _ _ _ Hr a Ha) in Hx. by injection Hx. }
  destruct (Strings.Byte.byte_eq_dec (pbyte (phys m) x) (pbyte (phys (mach s)) x)) as [E|E]; [done|].
  apply H5; [done|]. intros Hk. by apply E, Hin.
Qed.

Lemma kernel_region p m0 : MemRegion (kernel_ram p m0) R.
Proof.
  destruct Hdata as [Hr Hinj]. split.
  - intros a Ha. by apply Hr.
  - intros m a Hm Ha. cbn [rd8 machine_ops]. rewrite (kr_to _ _ _ Hm a Ha). eauto.
  - intros m a v Hm Ha. cbn [rd8 wr8 machine_ops]. rewrite (kr_to _ _ _ Hm a Ha).
    set (m' := set_phys (<[tau a := v]> (phys m)) m).
    assert (Hm' : Vmst m' p = poke (tau a) [v] (Vmst m p)) by done.
    assert (Hc : changes N 0 kernel_at (Vmst m p) (Vmst m' p)).
    { rewrite Hm'. eapply changes_weaken.
      - apply poke_changes; [apply (ch_inv _ _ _ _ _ (kr_changes _ _ _ Hm))|]. by apply plain_single, (kr_plain _ _ _ Hm).
      - unfold within. cbn [length]. intros x Hx. exists a. split; [done|lia]. }
    pose proof (changes_trans _ _ _ _ _ _ _ (kr_changes _ _ _ Hm) Hc) as Hc0.
    pose proof (ram_kept _ _ (Vmst m p) (Vmst m' p) Hc (ram_again _ _ _ Hm)) as [K1 K2 _].
    cbn [mach] in K1. exists m'. split; [done|]. split; [done|]. split.
    + rewrite (K1 a Ha). cbn [m' phys set_phys]. by rewrite pbyte_insert_eq.
    + intros b Hb Hne. rewrite (K1 b Hb), (kr_to _ _ _ Hm b Hb). cbn [m' phys set_phys].
      rewrite pbyte_insert_ne; [done|]. intros He. by apply Hne, Hinj.
Qed.

(** A word of the kernel's data *)
Definition word_at (a : Z) : list Z := map tau (seqZ a 4).

Lemma elem_word_at x a : x ∈ word_at a <-> exists b, a <= b < a + 4 /\ x = tau b.
Proof.
  unfold word_at. rewrite list_elem_of_fmap. setoid_rewrite elem_of_seqZ. split; intros (b & H1 & H2); eauto.
Qed.

Lemma kernel_word s a : ram s (mach s) -> span R a 4 -> word_dest N s a (word_at a).
Proof.
  intros Hr Hs. assert (Hin : forall i, 0 <= i < 4 -> R (a + i)) by (intros i Hi; by apply Hs).
  assert (Hu : forall i, 0 <= i < 4 -> u32 (a + i) = a + i).
  { intros i Hi. apply u32_small, (kd_range Hdata _ (Hin i Hi)). }
  split.
  - pose proof (proj1 (kd_range Hdata _ (Hin 0 ltac:(lia)))). lia.
  - unfold word_at. by rewrite length_map, length_seqZ.
  - intros i q Hq. unfold word_at in Hq. rewrite list_lookup_fmap in Hq.
    apply fmap_Some in Hq as (b & [-> Hi]%lookup_seqZ & ->). rewrite Hu by lia. split; [apply (kr_to _ _ _ Hr), Hin; lia|].
    destruct s. apply (kr_plain _ _ _ Hr), Hin. lia.
  - intros i Hi. rewrite Hu by done. apply (kd_range Hdata), Hin. done.
  - unfold word_at. apply NoDup_fmap_2_strong; [|apply NoDup_seqZ]. intros x y Hx%elem_of_seqZ Hy%elem_of_seqZ.
    apply (kd_inj Hdata); [replace x with (a + (x - a)) by lia|replace y with (a + (y - a)) by lia]; apply Hin; lia.
Qed.

(** Two words of the kernel's data do not share a byte unless they overlap. *)
Lemma word_outside s a b : ram s (mach s) -> span R a 4 -> span R b 4 -> a + 4 <= b \/ b + 4 <= a ->
  outside (.∈ word_at b) s a 4.
Proof.
  intros Hr Ha Hb Hab i q Hi Hq. pose proof (Ha i Hi) as Hai. rewrite u32_small in Hq by apply (kd_range Hdata _ Hai).
  rewrite (kr_to _ _ _ Hr _ Hai) in Hq. injection Hq as <-. intros (x & Hx & He)%elem_word_at.
  assert (HR : R x) by (replace x with (b + (x - b)) by lia; apply Hb; lia).
  apply (kd_inj Hdata) in He; [|done..]. lia.
Qed.

(** A word of the kernel's data is not where other memory changes. *)
Lemma kernel_outside D s a n : ram s (mach s) -> span R a n -> (forall b, R b -> ~ D (tau b)) -> outside D s a n.
Proof.
  intros Hr Ha Hd i q Hi Hq. pose proof (Ha i Hi) as Hai. rewrite u32_small in Hq by apply (kd_range Hdata _ Hai).
  rewrite (kr_to _ _ _ Hr _ Hai) in Hq. injection Hq as <-. by apply Hd.
Qed.
End KernelRam.

(** ** Queues and heaps when other memory changes *)

Section Moved.
Context {S : Type} `{MO : MemOps S} {P P' : S -> Prop} {R : Z -> Prop} `{MR : !MemRegion P R}.
Variables (s s' : S).
Hypothesis Hs' : P' s'.

(** A queue is its head and the links of its elements. *)
Lemma queue_moved field head l : queue_rep (P:=P) (R:=R) field s head l ->
  (forall a, R a -> head <= a < head + 8 -> rd8 a s' = rd8 a s) ->
  (forall e a, e ∈ l -> R a -> e + field <= a < e + field + 4 -> rd8 a s' = rd8 a s) ->
  queue_rep (P:=P') (R:=R) field s' head l.
Proof using MR Hs'.
  intros [HP Hsep F L K] Hh Hl.
  assert (Hw : forall a v, span R a 4 -> (forall i, 0 <= i < 4 -> rd8 (a + i) s' = rd8 (a + i) s) -> word s a v -> word s' a v).
  { intros a v Ha Hi Hv. by apply (loadn_ext 4 s s' a HP Ha). }
  destruct (head_spans head (sep_head _ _ _ Hsep)) as (H1 & H2 & _).
  split; try done; [apply Hw; try done; intros i Hi; apply Hh; [by apply H1|lia]|
                    apply Hw; try done; intros i Hi; apply Hh; [by apply H2|lia]|].
  assert (He : forall e, e ∈ l -> span R (e + field) 4) by (intros e He; by apply (sep_elm _ _ _ Hsep)).
  clear F L Hsep. induction l as [|e l IH]; [done|]. destruct K as [K1 K2]. pose proof (He e ltac:(set_solver)) as Hsp. split.
  - apply Hw; [done| |done]. intros i Hi. apply (Hl e); [set_solver|by apply Hsp|lia].
  - apply IH; [done| |]; intros x; [intros a Hx; apply (Hl x a)|intros Hx; apply He]; set_solver.
Qed.

Lemma heap_moved l : heap_rep (P:=P) (R:=R) s l ->
  (forall b a, b ∈ l -> R a -> b_addr b <= a < b_addr b + 12 -> rd8 a s' = rd8 a s) ->
  heap_rep (P:=P') (R:=R) s' l.
Proof using MR Hs'.
  intros (HP & Hh & Ha & Hc) Hl. split; [done|]. split; [done|]. split; [done|].
  apply (chain_ext (P:=P) s); [done| |done]. intros b Hb i Hi.
  apply (Hl b); [done| |lia]. apply list_elem_of_split in Hb as (l1 & l2 & ->).
  destruct (chain_mid _ _ _ _ Hc) as (Hd & _ & _). by apply (hd_span _ _ _ Hd).
Qed.
End Moved.

(** A queue in the kernel's data, when its words are not written *)
Lemma queue_kept N R tau f D s s' field head l : kernel_data R tau -> changes N f D s s' -> ram N R tau s (mach s) ->
  queue_rep (P:=ram N R tau s) (R:=R) field (mach s) head l ->
  (forall a, R a -> queue_words field head l a -> ~ D (tau a)) ->
  queue_rep (P:=ram N R tau s') (R:=R) field (mach s') head l.
Proof.
  intros Hd Hc Hr Hq Hn. pose proof (kernel_region N R tau Hd (pms s) (mach s) : MemRegion (ram N R tau s) R) as MR.
  apply (queue_moved (P:=ram N R tau s) (mach s) (mach s') (ram_kept N R tau Hd _ _ _ _ Hc Hr) _ _ _ Hq).
  - intros a Ha Hw. apply (ram_read N R tau Hd _ _ _ _ a Hc Hr Ha), Hn; [done|by left].
  - intros e a He Ha Hw. apply (ram_read N R tau Hd _ _ _ _ a Hc Hr Ha), Hn; [done|right; by exists e].
Qed.

Lemma on_mem_Ret {A} (f : M machine A) k a m : f (mach (vm k)) = Ret a m ->
  on_mem f k = Ret a (set_vm (set_mach m (vm k)) k).
Proof. intros H. unfold on_mem, on_vm, on_mach, zoom. by rewrite H. Qed.
Lemma on_mem_read {A} (f : M machine A) k a : f (mach (vm k)) = Ret a (mach (vm k)) -> on_mem f k = Ret a k.
Proof. intros H. rewrite (on_mem_Ret f k a _ H). by destruct k as [[m p] ? ? ? ? ?]. Qed.

Lemma bind_assoc_run {A B C} (m : M kst A) (f : A -> M kst B) (g : B -> M kst C) k :
  (m ≫= fun a => f a ≫= g) k = ((m ≫= f) ≫= g) k.
Proof. unfold mbind, M_bind. by destruct (m k). Qed.

Lemma this_proc_Ret k c cp : current_proc (pt k) = Some c -> zlookup (procs (pt k)) c = Some cp -> this_proc k = Ret (c, cp) k.
Proof.
  intros Hc Hp. unfold this_proc. rewrite (bind_Ret (on_pt get) _ k (pt k) k) by (unfold on_pt, zoom, get; by rewrite set_pt_id).
  rewrite Hc. rewrite (on_pt_Ret _ k _ _ (deref_Ret _ _ _ Hp)). by rewrite set_pt_id.
Qed.

(** ** A kernel in one page

    For the examples: the first page of the heap, at the frame 0xb8000, holds
    the bytes [pg]; the kernel's data is its first half, the second half stands
    for the memory of the process that runs. *)

Definition vm_kern1 : vmst :=
  match map_page 753664 heap_pool_addr 0 vm_boot with Ret _ s => s | _ => vm_boot end.

Lemma vm_kern1_run : map_page 753664 heap_pool_addr 0 vm_boot = Ret tt vm_kern1 /\
  maps_one 1024 (pd_index heap_pool_addr) (pt_index heap_pool_addr) (new_pte 753664 0) vm_boot vm_kern1.
Proof.
  destruct (map_page_ok 1024 vm_boot 753664 heap_pool_addr 0) as (s' & Hr & Hm).
  - apply vm_boot_inv.
  - lia.
  - lia.
  - split; [vm_compute; intuition congruence|]. split; [vm_compute; discriminate|]. right. exists 0.
    split; [vm_compute; intuition congruence|reflexivity].
  - apply walk_translate_None, vm_boot_unmapped. vm_compute. intuition congruence.
  - unfold vm_kern1. rewrite Hr. exact (conj eq_refl Hm).
Qed.
Lemma vm_kern1_inv : vm_inv 1024 vm_kern1.
Proof. apply (mo_inv _ _ _ _ _ _ (proj2 vm_kern1_run)). Qed.
#[global] Opaque vm_kern1.

Lemma vm_kern1_translate va : 0 <= va < 4290772992 ->
  translate (mach vm_kern1) va =
    if decide (heap_pool_addr <= va < heap_pool_addr + 4096) then Some (753664 + (va - heap_pool_addr)) else None.
Proof.
  intros Hva. pose proof (window_bound va Hva). change heap_pool_addr with 3825205248.
  rewrite (maps_one_translate _ _ _ _ _ _ _ (proj2 vm_kern1_run)) by lia. change heap_pool_addr with 3825205248.
  assert (Hsame : pd_index va = pd_index 3825205248 /\ pt_index va = pt_index 3825205248 <-> 3825205248 <= va < 3825205248 + 4096)
    by (rewrite same_page by lia; zdm).
  destruct (decide (3825205248 <= va < 3825205248 + 4096)).
  - rewrite decide_True by (by apply Hsame). change (frame (new_pte 753664 0)) with 753664. f_equal. zdm.
  - rewrite decide_False by (by rewrite Hsame). by apply vm_boot_unmapped.
Qed.

Lemma vm_kern1_plain a : 0 <= a < 1048576 -> plain 1024 vm_kern1 a.
Proof.
  intros Ha. apply (mo_plain _ _ _ _ _ _ (proj2 vm_kern1_run)). split.
  - intros d Hd. rewrite vm_boot_pde by done. case_decide; [|done]. change (frame 1048579) with 1048576. lia.
  - intros k Hk _. unfold pool_page in Hk. rewrite vm_boot_page by done. lia.
Qed.

Definition words (l : list Z) : list byte := concat (map (le_split 4) l).
Definition kern_range (a : Z) : Prop := 3825205248 <= a < 3825207296.
Definition kern_to (a : Z) : Z := 753664 + (a - 3825205248).
Definition vm_kern (pg : list byte) : vmst := poke 753664 pg vm_kern1.
Notation kram s := (ram 1024 kern_range kern_to s).

Lemma kern_data : kernel_data kern_range kern_to.
Proof.
  split.
  - intros a Ha. unfold kern_range in Ha. split; [lia|]. apply window_bound. lia.
  - unfold kern_to. intros a a' _ _ E. lia.
Qed.

(** The [n]-byte numbers [v] at [a], for each (n, a, v) of a list *)
Definition page_num (pg : list byte) (x : nat * Z * Z) : bool :=
  let '(n, a, v) := x in
  match rdn n a (mach (vm_kern pg)) with Some bs => le_combine bs =? v | None => false end.

(** The waiting element and the head of its queue *)
Definition kern_elem : Z := 3825205260.
Definition kern_head : Z := 3825205504.
Definition kern_shape : list (nat * Z * Z) :=
  [(2%nat, 3825205248, 47806); (1%nat, 3825205250, BLOCK_USED); (4%nat, 3825205252, 0); (4%nat, 3825205256, 100);
   (4%nat, kern_head, kern_elem); (4%nat, kern_head + 4, kern_elem + 36); (4%nat, kern_elem + 36, 0)].
Definition kern_blk : blk := Blk 3825205248 true 100.

Section KernelPage.
Variable pg : list byte.
Hypothesis Hpg : Z.of_nat (length pg) <= 4096.

Lemma kern_plain i : 0 <= i < Z.of_nat (length pg) -> plain 1024 vm_kern1 (753664 + i).
Proof using Hpg. intros Hi. apply vm_kern1_plain. lia. Qed.

Lemma vm_kern_inv : vm_inv 1024 (vm_kern pg).
Proof using Hpg. apply poke_inv; [exact vm_kern1_inv|exact kern_plain]. Qed.

Lemma vm_kern_translate va : 0 <= va < 4290772992 ->
  translate (mach (vm_kern pg)) va = if decide (3825205248 <= va < 3825209344) then Some (kern_to va) else None.
Proof using Hpg.
  intros Hva. unfold vm_kern. rewrite (poke_translate 1024); [|exact vm_kern1_inv|exact kern_plain|lia].
  rewrite vm_kern1_translate by done. reflexivity.
Qed.

Lemma vm_kern_mapped va : 3825205248 <= va < 3825209344 -> mapped_to (vm_kern pg) va (kern_to va).
Proof using Hpg.
  intros Hva. pose proof (window_bound va ltac:(lia)) as Hw. split; [lia|]. split; [done|]. exists (new_pte 753664 0).
  pose proof (pd_index_range va ltac:(lia)). pose proof (pt_index_range va).
  assert (Hsame : pd_index va = pd_index 3825205248 /\ pt_index va = pt_index 3825205248) by (apply same_page; [lia|lia|zdm]).
  split; [|split; [reflexivity|change (frame (new_pte 753664 0)) with 753664; unfold kern_to; zdm]].
  unfold vm_kern. rewrite (poke_entry 1024); [|exact vm_kern1_inv|exact kern_plain|lia]. unfold entry.
  rewrite (mo_walk _ _ _ _ _ _ (proj2 vm_kern1_run)) by lia. by rewrite decide_True by exact Hsame.
Qed.

Lemma vm_kern_plain a : 0 <= a < 1048576 -> plain 1024 (vm_kern pg) a.
Proof using Hpg. intros Ha. apply (poke_plain 1024); [exact vm_kern1_inv|exact kern_plain|]. by apply vm_kern1_plain. Qed.

Lemma vm_kern_free n : (n < 1024)%nat -> free_frames 1024 n (pms (vm_kern pg)).
Proof.
  intros Hn. apply (free_frames_step 1024 n (pms vm_boot)); [lia|apply vm_boot_free; lia|]. apply (mo_one _ _ _ _ _ _ (proj2 vm_kern1_run)).
Qed.

Lemma kern_num n a v : 3825205248 <= a -> a + Z.of_nat n <= 3825209344 ->
  page_num pg (n, a, v) = true -> num_held 1024 (vm_kern pg) n a v.
Proof using Hpg.
  intros Ha Hn H. unfold page_num in H. split.
  - unfold loadn. destruct (rdn n a (mach (vm_kern pg))) as [bs|]; [|done]. by apply Z.eqb_eq in H as ->.
  - intros i Hi. rewrite u32_small by lia. split; [lia|]. split; [by apply window_bound; lia|].
    exists (kern_to (a + i)). split; [|apply vm_kern_plain; unfold kern_to; lia].
    rewrite vm_kern_translate by lia. by rewrite decide_True by lia.
Qed.

Lemma kern_ram : kram (vm_kern pg) (mach (vm_kern pg)).
Proof using Hpg.
  apply ram_start.
  - exact vm_kern_inv.
  - intros a Ha. pose proof Ha as Hr. unfold kern_range in Hr. rewrite vm_kern_translate by lia. by rewrite decide_True by lia.
  - intros a Ha. unfold kern_range in Ha. apply vm_kern_plain. unfold kern_to. lia.
Qed.

(** A window at [base] on a buffer below 1 MiB *)
Lemma kern_window base p n : 0 <= base -> base mod 4096 = 0 -> base + 4096 <= 3825205248 ->
  0 < n <= 4096 -> 0 <= p -> p + n <= 1048576 -> window 1024 (vm_kern pg) base p n.
Proof using Hpg.
  intros Hb Hal Hb2 Hn Hp Hp2. assert (H1 : npages n = 1).
  { pose proof (npages_bounds n ltac:(lia)). lia. }
  split; rewrite ?H1; try lia; try done.
  - rewrite PALIGNDOWN_eq by lia. pose proof (Z.mod_pos_bound p 4096 eq_refl). lia.
  - apply (vm_kern_free 1%nat). lia.
  - intros va Hva. rewrite vm_kern_translate by lia. by rewrite decide_False by lia.
  - intros i Hi. apply vm_kern_plain. lia.
Qed.

(** The copy out to a buffer below the page, from bytes in the page *)
Lemma kern_copy msg q src p bs : 3825205248 <= src -> src + Z.of_nat (length bs) <= 3825209344 ->
  0 <= p -> p + Z.of_nat (length bs) <= 753664 -> 3825205248 <= m_recv_len q -> m_recv_len q + 4 <= 3825209344 ->
  num_held 1024 (vm_kern pg) 4 (m_phys_recv_buf q) p ->
  num_held 1024 (vm_kern pg) 4 (m_recv_len q) (Z.of_nat (length bs)) ->
  num_held 1024 (vm_kern pg) 4 (m_send_buf msg) src ->
  (forall i b, bs !! i = Some b -> pbyte (phys (mach (vm_kern pg))) (kern_to (src + Z.of_nat i)) = b) ->
  copy_ready 1024 (vm_kern pg) msg q src p bs.
Proof using Hpg.
  intros Hs1 Hs2 Hp1 Hp2 Hl1 Hl2 H1 H2 H3 Hb. split; try done; [lia| |].
  - intros i b Hi. pose proof (lookup_lt_Some _ _ _ Hi). rewrite u32_small by lia. exists (kern_to (src + Z.of_nat i)).
    split; [rewrite vm_kern_translate by lia; by rewrite decide_True by lia|]. split; [by apply Hb|]. unfold kern_to.
    split; [apply vm_kern_plain; lia|]. split; [apply window_bound; lia|unfold within; lia].
  - intros i a Hi. rewrite u32_small, vm_kern_translate by lia. rewrite decide_True by lia. intros [= <-].
    unfold within, kern_to. lia.
Qed.

Hypothesis Hshape : forallb (page_num pg) kern_shape = true.

Lemma shape_num i n a v : kern_shape !! i = Some (n, a, v) -> num_held 1024 (vm_kern pg) n a v.
Proof using Hpg Hshape.
  intros Hi. rewrite forallb_forall in Hshape.
  assert (Hin : (n, a, v) ∈ kern_shape) by (by eapply list_elem_of_lookup_2).
  assert (Hr : 3825205248 <= a /\ a + Z.of_nat n <= 3825209344).
  { do 7 (destruct i as [|i]; [injection Hi as <- <- _; unfold kern_head, kern_elem; lia|]). done. }
  apply kern_num; [lia|lia|]. by apply Hshape, list_elem_of_In.
Qed.

(** A queue of the one element *)
Lemma kern_queue : queue_rep (P:=kram (vm_kern pg)) (R:=kern_range) msgs_field (mach (vm_kern pg)) kern_head [kern_elem].
Proof using Hpg Hshape.
  split; [exact kern_ram| | |exact (proj1 (shape_num 5 _ _ _ eq_refl))|split; [|done]].
  - unfold kern_head, kern_elem. split.
    + intros i Hi. unfold kern_range. lia.
    + intros e' ->%list_elem_of_singleton. unfold msgs_field. split; [lia|]. split; [intros i Hi; unfold kern_range; lia|lia].
    + intros i j e1 e2 Hi Hj Hne. apply lookup_lt_Some in Hi, Hj. cbn in Hi, Hj. lia.
  - exact (proj1 (shape_num 4 _ _ _ eq_refl)).
  - exact (proj1 (shape_num 6 _ _ _ eq_refl)).
Qed.

(** A heap of the one block *)
Lemma kern_heap : heap_rep (P:=kram (vm_kern pg)) (R:=kern_range) (mach (vm_kern pg)) [kern_blk].
Proof using Hpg Hshape.
  split; [exact kern_ram|]. split; [reflexivity|]. split; [done|]. split; [|done].
  split; cbn [kern_blk b_addr b_size head_addr]; try done.
  - intros i Hi. unfold kern_range. lia.
  - exact (proj1 (shape_num 0 _ _ _ eq_refl)).
  - exact (proj1 (shape_num 1 _ _ _ eq_refl)).
  - exact (proj1 (shape_num 2 _ _ _ eq_refl)).
  - exact (proj1 (shape_num 3 _ _ _ eq_refl)).
Qed.
End KernelPage.

(** The half of the kernel: a used block with the waiting element [e], the
    register frame at 128 with [eax] and the head of a queue of one at 256 *)
Definition kern_page (e : list Z) (eax : Z) (user : list byte) : list byte :=
  le_split 2 47806 ++ [byte.of_Z BLOCK_USED; Byte.x00] ++ words [0; 100] ++ words e ++
  repeat Byte.x00 76 ++ words (repeat 0 11 ++ [eax]) ++ repeat Byte.x00 80 ++
  words [3825205260; 3825205296] ++ repeat Byte.x00 1784 ++ user.
Definition kern_syms : symbols := Symbols 3825205424 0 0 0 0 0 0 0.
Lemma kern_queue_at : queue_of kern_syms 0 = kern_head.
Proof. reflexivity. Qed.

(** Each number of a page is read off it. *)
Ltac read_page pg fits a v := apply (kern_num pg fits 4%nat a v); [lia|lia|vm_compute; reflexivity].
