(* ===== verification/Element.v ===== *)
(** * Element.v: a queue element (include/ipc.h: struct msg_packet_queue)

    The words of an element while a system call fills it in, described against
    the state at the start: what may have changed since, and what the element
    holds.  Then how a new element comes to be: allocated, filled from a
    packet, and put at the end of a queue. *)

From S2P Require Import Prelude Memory Machine Pm Vm Heap Queue Desc Proc Load Window Syscall Ram.

(** ** Between two accesses *)

Section Along.
Variables (N : Z) (R : Z -> Prop) (tau : Z -> Z) (s0 : vmst) (q : Z) (T : Z -> Prop).
Hypothesis Hdata : kernel_data R tau.
Hypothesis Hram : ram N R tau s0 (mach s0).
Hypothesis Hspan : span R q 40.
Hypothesis HT : forall a, q <= a < q + 36 -> T (tau a).

(** The words of the element at [q] *)
Definition elem (s : vmst) (ws : list Z) : Prop :=
  forall j w, ws !! j = Some w -> num_held N s 4 (q + 4 * Z.of_nat j) w.

(** Only [T] changed since the start, and the element holds [ws]. *)
Record along (f : nat) (s : vmst) (ws : list Z) : Prop := {
  al_changes : changes N f T s0 s;
  al_elem : elem s ws;
  al_length : length ws = 9%nat;
}.

Lemma field_at off : 0 <= off < 40 -> q +w off = q + off.
Proof using Hdata Hspan. intros Ho. apply u32_small, (kd_range _ _ Hdata), Hspan. lia. Qed.

Lemma along_ram f s ws : along f s ws -> ram N R tau s (mach s).
Proof using Hdata Hram. intros H. apply (ram_kept N R tau Hdata _ _ _ _ (al_changes _ _ _ H) Hram). Qed.

Lemma along_ld f k ws j w a : along f (vm k) ws -> ws !! j = Some w -> a = q + 4 * Z.of_nat j -> ld a k = Ret w k.
Proof using. intros H Hj ->. exact (num_read N k 4 _ _ (al_elem _ _ _ H j w Hj)). Qed.

Lemma word_span j : (j < 9)%nat -> span R (q + 4 * Z.of_nat j) 4.
Proof using Hspan. intros Hj i Hi. replace (q + 4 * Z.of_nat j + i) with (q + (4 * Z.of_nat j + i)) by lia. apply Hspan. lia. Qed.

Lemma along_st f k ws j x a : along f (vm k) ws -> (j < 9)%nat -> a = q + 4 * Z.of_nat j -> 0 <= x < 4294967296 ->
  exists s, st a x k = Ret tt (set_vm s k) /\ along f s (<[j := x]> ws) /\
    changes N 0 (fun y => exists b, q <= b < q + 36 /\ tau b = y) (vm k) s.
Proof using Hdata Hram Hspan HT.
  intros H Hj -> Hx. pose proof (along_ram _ _ _ H) as Hr. pose proof (word_span j Hj) as Hsp.
  destruct (st_word N k (q + 4 * Z.of_nat j) (word_at tau (q + 4 * Z.of_nat j)) x) as (s & Hst & Hc & Hn);
    [apply (ch_inv _ _ _ _ _ (al_changes _ _ _ H))|by apply (kernel_word N R tau Hdata)|done|].
  assert (Hc' : changes N 0 (fun y => exists b, q <= b < q + 36 /\ tau b = y) (vm k) s).
  { eapply changes_weaken; [exact Hc|]. intros y (b & Hb & ->)%elem_word_at. exists b. split; [lia|done]. }
  exists s. split; [done|]. split; [|done]. split.
  - rewrite <- (Nat.add_0_r f). apply (changes_trans _ _ _ _ _ _ _ (al_changes _ _ _ H)).
    eapply changes_weaken; [exact Hc'|]. intros y (b & Hb & <-). by apply HT.
  - intros i w Hi. destruct (decide (i = j)) as [->|Hne].
    + rewrite list_lookup_insert_eq in Hi by (by rewrite (al_length _ _ _ H)). by injection Hi as <-.
    + rewrite list_lookup_insert_ne in Hi by done. pose proof (lookup_lt_Some _ _ _ Hi) as Hlt.
      rewrite (al_length _ _ _ H) in Hlt. pose proof (word_span i Hlt) as Hsi.
      apply (changes_num _ _ _ _ _ _ _ _ Hc); [|apply (word_outside N R tau Hdata); try done; lia|by apply H].
      rewrite <- (Z.add_0_r (q + _)). apply (kd_range _ _ Hdata), Hsi. lia.
  - by rewrite length_insert, (al_length _ _ _ H).
Qed.

(** A word of the message, which nothing touches *)
Lemma along_msg f k ws a w : along f (vm k) ws -> num_held N s0 4 a w -> 0 <= a < 4294967296 -> outside T s0 a 4 -> ld a k = Ret w k.
Proof using. intros H Hn Ha Ho. apply (num_read N k 4). by apply (changes_num _ _ _ _ _ _ _ _ (al_changes _ _ _ H)). Qed.

Lemma along_map f k ws va pa : along f (vm k) ws -> mapped_to s0 va pa -> on_vm (vm_get_phys_mapping va) k = Ret pa k.
Proof using.
  intros H Hm. apply (mapped_to_read N); [apply (ch_inv _ _ _ _ _ (al_changes _ _ _ H))|].
  by apply (mapped_to_changes _ _ _ _ _ _ _ (al_changes _ _ _ H)).
Qed.

(** Changes beside the kernel's data *)
Lemma along_changes f g D s s' ws : along f s ws -> changes N g D s s' -> (forall x, D x -> T x) ->
  (forall a, R a -> ~ D (tau a)) -> along (f + g) s' ws.
Proof using Hdata Hram Hspan.
  intros H Hc HD Hn. split.
  - apply (changes_trans _ _ _ _ _ _ _ (al_changes _ _ _ H)). by apply (changes_weaken _ _ _ _ _ _ Hc).
  - intros j w Hj. pose proof (lookup_lt_Some _ _ _ Hj) as Hlt. rewrite (al_length _ _ _ H) in Hlt. pose proof (word_span j Hlt) as Hsj.
    apply (changes_num _ _ _ _ _ _ _ _ Hc); [|by apply (kernel_outside N R tau Hdata); [apply (along_ram _ _ _ H)| |]|by apply H].
    rewrite <- (Z.add_0_r (q + _)). apply (kd_range _ _ Hdata), Hsj. lia.
  - apply (al_length _ _ _ H).
Qed.
End Along.

(** ** A new element *)

(** The packet [m] is at [msg], none of it where [D] holds. *)
Definition packet_at (N : Z) (s : vmst) (msg : Z) (m : msg_packet) (D : Z -> Prop) : Prop :=
  forall j w, packet_words m !! j = Some w ->
    num_held N s 4 (msg +w (4 * Z.of_nat j)) w /\ outside D s (msg +w (4 * Z.of_nat j)) 4.

Lemma packet_at_changes N f E D s s' msg m : changes N f E s s' -> (forall x, E x -> D x) ->
  packet_at N s msg m D -> packet_at N s' msg m D.
Proof.
  intros H HE Hm j w Hj. destruct (Hm j w Hj) as [Hn Ho]. split.
  - apply (changes_num _ _ _ _ _ _ _ _ H (u32_range _)); [|done]. intros i x Hi Hx Hd. by apply (Ho i x Hi Hx), HE.
  - apply (changes_outside _ _ _ _ _ _ _ _ H); [apply Hn|done].
Qed.

(** A byte of the packet *)
Lemma packet_byte N s msg m D i : packet_at N s msg m D -> 0 <= i < 36 ->
  exists x, translate (mach s) (u32 (msg + i)) = Some x /\ plain N s x /\ ~ D x.
Proof.
  intros Hm Hi. destruct (lookup_lt_is_Some_2 (packet_words m) (Z.to_nat (i / 4))) as [w Hw]; [cbn [packet_words length]; zdm|].
  destruct (Hm _ _ Hw) as [[_ Hh] Ho]. pose proof (Z.mod_pos_bound i 4 eq_refl) as Hr.
  destruct (Hh (i mod 4) ltac:(lia)) as (_ & _ & x & Hx & Hp). pose proof (Ho (i mod 4) x ltac:(lia) Hx) as Hn.
  rewrite Z2Nat.id, u32_add_l in Hx by zdm. replace (msg + 4 * (i / 4) + i mod 4) with (msg + i) in Hx by zdm. by exists x.
Qed.

(** What kalloc writes is headers of blocks of the list it leaves. *)
Definition heads (l : list blk) (a : Z) : Prop := exists b, b ∈ l /\ b_addr b <= a < b_addr b + 12.

Lemma touched_heads blocks bytes a : touched bytes blocks a ->
  heads (snd (spec_kalloc bytes blocks)) a.
Proof.
  unfold touched, spec_kalloc. destruct (first_fit bytes blocks) as [[[pre b] post]|]; [|done].
  cbn [snd]. intros [Ha|[-> Ha]].
  - exists (Blk (b_addr b) true bytes). split; [unfold taken; set_solver|done].
  - exists (rest_block b bytes). split; [unfold taken; set_solver|]. unfold rest_block, sizeof_block. cbn [b_addr]. lia.
Qed.

Section Making.
Variables (N : Z) (R : Z -> Prop) (tau : Z -> Z).
Hypothesis Hdata : kernel_data R tau.
Notation kram := (ram N R tau).
Variables (k : kst) (msg : Z) (m : msg_packet) (head : Z) (l : list Z) (blocks : list blk) (q : Z) (blocks' : list blk).

(** A new element can be had at [q] and queued behind [l]: the heap gives a
    block that holds it, apart from the headers and the words of the queue. *)
Record making : Prop := {
  mk_inv : vm_inv N (vm k);
  mk_ram : kram (vm k) (mach (vm k));
  mk_on : heap_initialized k = true;
  mk_heap : heap_rep (P:=kram (vm k)) (R:=R) (mach (vm k)) blocks;
  mk_room : room (R:=R) sizeof_msg_packet_queue blocks /\ (length blocks < heap_fuel)%nat;
  mk_spec : spec_kalloc sizeof_msg_packet_queue blocks = (q, blocks') /\ q <> 0;
  mk_span : span R q 40;
  mk_fits : forall b, b ∈ blocks' -> b_addr b + 12 <= q \/ q + 40 <= b_addr b;
  mk_queue : queue_rep (P:=kram (vm k)) (R:=R) msgs_field (mach (vm k)) head l;
  mk_separate : separate (R:=R) msgs_field head (l ++ [q]);
  mk_off : forall a, queue_words msgs_field head l a -> ~ (q <= a < q + 36);
  mk_heads : forall b a, b ∈ blocks' -> queue_words msgs_field head l a -> ~ (b_addr b <= a < b_addr b + 12);
  mk_msg : packet_at N (vm k) msg m (kernel_at R tau) /\ 0 <= msg < 4294967296;
}.
Hypothesis H : making.
Let element_bytes : list Z := map tau (seqZ q 36).

(** The block of the element *)
Lemma element_alloc : exists v, kernel_kalloc sizeof_msg_packet_queue k = Ret q (set_vm v k) /\
  changes N 0 (kernel_in R tau (heads blocks')) (vm k) v /\ kram v (mach v) /\
  queue_rep (P:=kram v) (R:=R) msgs_field (mach v) head l /\ heap_rep (P:=kram v) (R:=R) (mach v) blocks'.
Proof using H Hdata.
  destruct (mk_room H) as [Hroom Hlen]. destruct (mk_spec H) as [Hspec _].
  pose proof (kernel_region N R tau Hdata (pms (vm k)) (mach (vm k)) : MemRegion (kram (vm k)) R) as MR.
  destruct (kalloc_refines_aux (mach (vm k)) blocks heap_fuel sizeof_msg_packet_queue (mk_heap H) ltac:(unfold sizeof_msg_packet_queue; lia) Hroom Hlen)
    as (m1 & E1 & Hh1 & F1).
  assert (P1 : kram (vm k) m1) by apply Hh1. pose proof (ram_again _ _ _ _ _ _ P1 : kram (Vmst m1 (pms (vm k))) m1) as P1'.
  assert (Hq1 : queue_rep (P:=kram (Vmst m1 (pms (vm k)))) (R:=R) msgs_field m1 head l).
  { apply (queue_moved (P:=kram (vm k)) (mach (vm k)) m1 P1' _ _ _ (mk_queue H)).
    - intros a Ha Hr. apply F1; [done|]. intros (b & Hb & Hin)%touched_heads. rewrite Hspec in Hb.
      apply (mk_heads H b a Hb); [by left|done].
    - intros e a He Ha Hr. apply F1; [done|]. intros (b & Hb & Hin)%touched_heads. rewrite Hspec in Hb.
      apply (mk_heads H b a Hb); [right; by exists e|done]. }
  assert (Hh1' : heap_rep (P:=kram (Vmst m1 (pms (vm k)))) (R:=R) m1 blocks').
  { rewrite Hspec in Hh1. by apply (heap_moved (P:=kram (vm k)) m1 m1 P1' _ Hh1). }
  exists (Vmst m1 (pms (vm k))). rewrite Hspec in E1. split; [|split; [|done]].
  - unfold kernel_kalloc. rewrite (bind_Ret get _ _ _ _ eq_refl), (mk_on H). by apply on_mem_Ret.
  - apply (ram_fine N R tau Hdata _ _ _ P1). intros a Ha Hn. apply F1; [done|]. intros Ht%touched_heads.
    by rewrite Hspec in Ht.
Qed.

Lemma element_plain s : kram s (mach s) -> Forall (plain N s) element_bytes.
Proof using H.
  intros Hr. apply list.Forall_forall. intros x Hx. unfold element_bytes in Hx.
  apply list_elem_of_fmap in Hx as (a & -> & Ha%elem_of_seqZ). destruct s. apply (kr_plain _ _ _ _ _ _ Hr).
  replace a with (q + (a - q)) by lia. apply (mk_span H). lia.
Qed.

Lemma element_addr i : 0 <= i < 40 -> 0 <= q + i < 4294967296 /\ pd_index (q + i) <> 1023 /\ u32 (q + i) = q + i.
Proof using H Hdata.
  intros Hi. destruct (kd_range _ _ Hdata (q + i) (mk_span H i Hi)) as [Hr Hw]. split; [done|]. split; [done|]. by apply u32_small.
Qed.

(** The bytes of the packet, as they are in [s] *)
Definition packet_bytes (s : vmst) : list byte := map (fun i => default Byte.x00 (rd8 (u32 (msg + i)) (mach s))) (seqZ 0 36).

Lemma lookup_packet_bytes s i : (i < 36)%nat ->
  packet_bytes s !! i = Some (default Byte.x00 (rd8 (u32 (msg + Z.of_nat i)) (mach s))).
Proof using.
  intros Hi. unfold packet_bytes. rewrite list_lookup_fmap.
  rewrite (proj2 (lookup_seqZ 0 36 i (Z.of_nat i))) by lia. done.
Qed.

Lemma lookup_element_bytes i : (i < 36)%nat -> element_bytes !! i = Some (tau (q + Z.of_nat i)).
Proof using.
  intros Hi. unfold element_bytes. rewrite list_lookup_fmap.
  rewrite (proj2 (lookup_seqZ q 36 i (q + Z.of_nat i))) by lia. done.
Qed.

Lemma element_length : length element_bytes = 36%nat.
Proof using. unfold element_bytes. by rewrite length_map, length_seqZ. Qed.

Lemma elem_of_element x : x ∈ element_bytes -> kernel_at R tau x.
Proof using H.
  intros (a & -> & Ha%elem_of_seqZ)%list_elem_of_fmap. exists a. split; [|done].
  replace a with (q + (a - q)) by lia. apply (mk_span H). lia.
Qed.

Lemma element_nodup : NoDup element_bytes.
Proof using H Hdata.
  apply NoDup_fmap_2_strong; [|apply NoDup_seqZ]. intros x y Hx%elem_of_seqZ Hy%elem_of_seqZ.
  apply (kd_inj _ _ Hdata); [replace x with (q + (x - q)) by lia|replace y with (q + (y - q)) by lia]; apply (mk_span H); lia.
Qed.

Lemma element_dests s : kram s (mach s) -> dests N s q element_bytes.
Proof using H Hdata.
  intros Hr i x Hi. pose proof (lookup_lt_Some _ _ _ Hi) as Hlt. rewrite element_length in Hlt.
  rewrite lookup_element_bytes in Hi by done. injection Hi as <-.
  destruct (element_addr (Z.of_nat i) ltac:(lia)) as (_ & _ & ->). split; [apply (kr_to _ _ _ _ _ _ Hr), (mk_span H); lia|].
  destruct s as [ms ps]. apply (kr_plain _ _ _ _ _ _ Hr), (mk_span H). lia.
Qed.

Lemma packet_reads s : packet_at N s msg m (kernel_at R tau) -> reads s msg element_bytes (packet_bytes s).
Proof using H.
  intros Hm i b Hb. pose proof (lookup_lt_Some _ _ _ Hb) as Hlt. unfold packet_bytes in Hlt. rewrite length_map, length_seqZ in Hlt.
  rewrite lookup_packet_bytes in Hb by lia. injection Hb as <-.
  destruct (packet_byte N s msg m _ (Z.of_nat i) Hm ltac:(lia)) as (x & Hx & _ & Hn). exists x. split; [done|].
  split; [cbn [rd8 machine_ops]; by rewrite Hx|]. intros Hin. by apply Hn, elem_of_element.
Qed.

(** Once the bytes of the packet are in the element, so are its words. *)
Lemma element_words s v : kram v (mach v) -> packet_at N s msg m (kernel_at R tau) ->
  (forall i x b, element_bytes !! i = Some x -> packet_bytes s !! i = Some b -> pbyte (phys (mach v)) x = b) ->
  elem N q v (packet_words m).
Proof using H Hdata.
  intros Hr Hm Hb j w Hj. pose proof (lookup_lt_Some _ _ _ Hj) as Hjl. cbn [packet_words length] in Hjl.
  destruct (Hm j w Hj) as [[Hv _] _]. pose proof (element_dests v Hr) as Hds.
  assert (Hbyte : forall i, 0 <= i < 36 -> rd8 (q + i) (mach v) = rd8 (u32 (msg + i)) (mach s)).
  { intros i Hi. destruct (packet_byte N s msg m _ i Hm Hi) as (x & Hx & _).
    pose proof (lookup_element_bytes (Z.to_nat i) ltac:(lia)) as He. destruct (Hds _ _ He) as [Ht _].
    rewrite Z2Nat.id in He, Ht by lia. destruct (element_addr i ltac:(lia)) as (_ & _ & Eu). rewrite Eu in Ht.
    pose proof (lookup_packet_bytes s (Z.to_nat i) ltac:(lia)) as Hp. rewrite Z2Nat.id in Hp by lia.
    cbn [rd8 machine_ops] in *. rewrite Ht, (Hb _ _ _ He Hp), Hx. done. }
  destruct (element_addr (4 * Z.of_nat j) ltac:(lia)) as (Hq4 & _ & _). split.
  - unfold loadn in *. rewrite (rdn_shift 4 (q + 4 * Z.of_nat j) (msg +w (4 * Z.of_nat j)) (mach s) (mach v)); [|intros i Hi|done|apply u32_range].
    + destruct (rdn 4 _ (mach s)); [|done]. congruence.
    + rewrite u32_add_l, <- !Z.add_assoc. destruct (element_addr (4 * Z.of_nat j + i) ltac:(lia)) as (_ & _ & ->). apply Hbyte. lia.
  - intros i Hi. rewrite <- Z.add_assoc. destruct (element_addr (4 * Z.of_nat j + i) ltac:(lia)) as (Ha & Hw & ->).
    split; [done|]. split; [done|]. pose proof (lookup_element_bytes (Z.to_nat (4 * Z.of_nat j + i)) ltac:(lia)) as He.
    destruct (Hds _ _ He) as [Ht Hp]. rewrite Z2Nat.id in * by lia. destruct (element_addr (4 * Z.of_nat j + i) ltac:(lia)) as (_ & _ & Eu).
    rewrite Eu in Ht. eauto.
Qed.

(** The packet is copied into the element. *)
Lemma element_copy k1 : kram (vm k1) (mach (vm k1)) -> vm_inv N (vm k1) -> packet_at N (vm k1) msg m (kernel_at R tau) ->
  exists v, on_mem (memcpy q msg sizeof_msg_packet) k1 = Ret q (set_vm v k1) /\
    changes N 0 (.∈ element_bytes) (vm k1) v /\ elem N q v (packet_words m).
Proof using H Hdata.
  intros Hr Hinv Hm. set (s := vm k1) in *. pose proof (element_plain s Hr) as Hpl.
  assert (Hlen : length (packet_bytes s) = length element_bytes) by (unfold packet_bytes; by rewrite element_length, length_map, length_seqZ).
  pose proof (scatter_changes N element_bytes (packet_bytes s) s Hinv Hpl) as Hc.
  exists (scatter element_bytes (packet_bytes s) s). split; [|split; [done|]].
  - unfold on_mem, on_vm, on_mach, zoom. fold s. unfold memcpy. change (Z.to_nat sizeof_msg_packet) with 36%nat. rewrite <- element_length.
    erewrite bind_Ret; [unfold mret, M_ret; by rewrite scatter_pms|].
    destruct (element_addr 0 ltac:(lia)) as (Hq & _ & _). rewrite Z.add_0_r in Hq.
    apply (memcpy_loop_scatter N); [done..|apply (mk_msg H)|by apply element_dests|by apply packet_reads].
  - apply (element_words s); [exact (ram_kept N R tau Hdata _ _ _ _ Hc Hr)|done|].
    intros i x b Hx Hb. by apply (scatter_byte N _ _ _ i); [| |apply element_nodup| |].
Qed.

(** What is kept of the queue and the heap when only the element changes *)
Definition element_at (x : Z) : Prop := exists b, q <= b < q + 36 /\ tau b = x.

Lemma element_beside f s s' a : changes N f element_at s s' -> kram s (mach s) -> R a -> ~ (q <= a < q + 36) ->
  rd8 a (mach s') = rd8 a (mach s).
Proof using H Hdata.
  intros Hc Hr Ha Hn. apply (ram_read N R tau Hdata _ _ _ _ a Hc Hr Ha). intros (b & Hb & E).
  apply (kd_inj _ _ Hdata) in E as ->; [done| |done]. replace b with (q + (b - q)) by lia. apply (mk_span H). lia.
Qed.

Lemma element_queue f s s' : changes N f element_at s s' -> kram s (mach s) ->
  queue_rep (P:=kram s) (R:=R) msgs_field (mach s) head l -> queue_rep (P:=kram s') (R:=R) msgs_field (mach s') head l.
Proof using H Hdata.
  intros Hc Hr Hq. apply (queue_kept N R tau f element_at s s' msgs_field head l Hdata Hc Hr Hq).
  intros a Ha Hw (b & Hb & E). apply (mk_off H a Hw). apply (kd_inj _ _ Hdata) in E as ->; [done| |done].
  replace b with (q + (b - q)) by lia. apply (mk_span H). lia.
Qed.

Lemma element_heap f s s' : changes N f element_at s s' -> kram s (mach s) ->
  heap_rep (P:=kram s) (R:=R) (mach s) blocks' -> heap_rep (P:=kram s') (R:=R) (mach s') blocks'.
Proof using H Hdata.
  intros Hc Hr Hh. pose proof (kernel_region N R tau Hdata (pms s) (mach s) : MemRegion (kram s) R) as MR.
  apply (heap_moved (P:=kram s) (mach s) (mach s') (ram_kept N R tau Hdata _ _ _ _ Hc Hr) _ Hh).
  intros b a Hb Ha Hw. apply (element_beside f s); try done. pose proof (mk_fits H b Hb). lia.
Qed.

(** A new element with the packet's words, not in the queue yet *)
Record made (v : vmst) : Prop := {
  md_changes : changes N 0 (kernel_in R tau (fun a => heads blocks' a \/ q <= a < q + 36)) (vm k) v;
  md_ram : kram v (mach v);
  md_elem : elem N q v (packet_words m);
  md_queue : queue_rep (P:=kram v) (R:=R) msgs_field (mach v) head l;
  md_heap : heap_rep (P:=kram v) (R:=R) (mach v) blocks';
}.

Lemma element_made : exists v, made v /\ forall A (X : Z -> M kst A),
  (new_msg ← kernel_kalloc sizeof_msg_packet_queue; on_mem (memcpy new_msg msg sizeof_msg_packet) ≫= fun _ => X new_msg) k = X q (set_vm v k).
Proof using H Hdata.
  destruct element_alloc as (v1 & E1 & C1 & R1 & Q1 & H1).
  destruct (element_copy (set_vm v1 k)) as (v2 & E2 & C2 & L2);
    [done|apply (ch_inv _ _ _ _ _ C1)|by apply (packet_at_changes _ _ _ _ _ _ _ _ C1); [apply kernel_in_at|apply (mk_msg H)]|].
  change (vm (set_vm v1 k)) with v1 in C2.
  assert (C2' : changes N 0 element_at v1 v2).
  { eapply changes_weaken; [exact C2|]. intros x (a & -> & Ha%elem_of_seqZ)%list_elem_of_fmap. by exists a. }
  exists v2. split; [split; [|exact (ram_kept N R tau Hdata _ _ _ _ C2' R1)|done|by apply (element_queue 0 v1)|by apply (element_heap 0 v1)]|].
  - apply (changes_trans _ 0 0 _ _ v1).
    + apply (changes_weaken _ _ _ _ _ _ C1). intros x. apply kernel_in_mono. by left.
    + apply (changes_weaken _ _ _ _ _ _ C2'). intros x (a & Ha & <-). exists a. split; [|by split; [right|]].
      replace a with (q + (a - q)) by lia. apply (mk_span H). lia.
  - intros A X. by rewrite (bind_Ret _ _ _ _ _ E1), (bind_Ret _ _ _ _ _ E2).
Qed.

(** The element, filled in since, is put at the end of the queue. *)
Lemma element_linked v k1 ws : made v -> along N v q element_at 0 (vm k1) ws ->
  exists w, on_mem (STAILQ_INSERT_TAIL msgs_field head q) k1 = Ret tt (set_vm w k1) /\
    changes N 0 (kernel_in R tau (queue_words msgs_field head (l ++ [q]))) (vm k1) w /\ kram w (mach w) /\ elem N q w ws /\
    queue_rep (P:=kram w) (R:=R) msgs_field (mach w) head (l ++ [q]) /\ heap_rep (P:=kram w) (R:=R) (mach w) blocks'.
Proof using H Hdata.
  intros Hm [Hc He Hl]. set (s := vm k1) in *. pose proof (ram_kept N R tau Hdata _ _ _ _ Hc (md_ram v Hm)) as Hr.
  pose proof (element_queue 0 v s Hc (md_ram v Hm) (md_queue v Hm)) as Hq.
  pose proof (element_heap 0 v s Hc (md_ram v Hm) (md_heap v Hm)) as Hh.
  pose proof (kernel_region N R tau Hdata (pms s) (mach s) : MemRegion (kram s) R) as MR.
  destruct (queue_insert_tail msgs_field (mach s) head l q Hq (mk_separate H)) as (m1 & E1 & Q1 & [P1 X1]).
  pose proof (ram_again _ _ _ _ _ _ P1 : kram (Vmst m1 (pms s)) m1) as P1'.
  pose proof (ram_fine N R tau Hdata _ s m1 P1 X1) as Hc1.
  assert (Hw : forall a, queue_words msgs_field head (l ++ [q]) a -> queue_words msgs_field head l a \/ q + 36 <= a < q + 40).
  { intros a [Ha|(e & [He'| ->%list_elem_of_singleton]%elem_of_app & Ha)]; [by left; left|left; right; by exists e|].
    right. unfold msgs_field in Ha. lia. }
  exists (Vmst m1 (pms s)). split; [by apply on_mem_Ret|]. split; [done|]. split; [done|]. split; [|split].
  - intros j x Hj. pose proof (lookup_lt_Some _ _ _ Hj) as Hlt. rewrite Hl in Hlt. destruct (element_addr (4 * Z.of_nat j) ltac:(lia)) as (Hq4 & _ & _).
    apply (num_held_pointwise N s); [done| |by apply He]. intros i Hi Hd. split; [by apply (changes_held _ _ _ _ _ _ Hc1)|].
    rewrite <- Z.add_assoc. destruct (element_addr (4 * Z.of_nat j + i) ltac:(lia)) as (_ & _ & ->).
    apply X1; [apply (mk_span H); lia|]. intros [Ha|Ha]%Hw; [|lia]. by apply (mk_off H _ Ha); lia.
  - by apply (queue_moved (P:=kram s) m1 m1 P1' _ _ _ Q1).
  - apply (heap_moved (P:=kram s) (mach s) m1 P1' _ Hh). intros b a Hb Ha Hin. apply X1; [done|].
    intros [Hx|Hx]%Hw; [by apply (mk_heads H b a)|]. pose proof (mk_fits H b Hb). lia.
Qed.
End Making.
