(* ===== verification/Reply.v ===== *)
(** * Reply.v: a whole reply (kernel/syscall.c: syscall_rply_msg)

    The parts together: the kernel's memory behind the page tables behaves as
    RAM, so what Queue.v and Heap.v show of the waiting list and of the heap
    holds of them there; the copy of Syscall.v leaves that memory alone, and
    the queue and the heap leave the copied bytes alone. *)

From S2P Require Import Prelude Memory Machine Pm Vm Heap Queue Desc Proc Load Window Syscall Ram.

(** ** The reply *)

Section Reply.
Variables (N : Z) (R : Z -> Prop) (tau : Z -> Z) (sy : symbols).
Hypothesis Hdata : kernel_data R tau.
Notation kram := (ram N R tau).

(** The process of slot [c] replies with the packet at [msg]: the element [q]
    waits first in its queue, before [l], in block [b] of the heap; it is from
    the process of slot [r], whose buffer is at the physical address [p]. *)
Record replying (k : kst) (regs msg src p : Z) (bs : list byte) (c q r : Z) (l : list Z) (b : blk) (blocks : list blk) : Prop := {
  rp_inv : vm_inv N (vm k);
  rp_current : current_proc (pt k) = Some c /\ is_Some (zlookup (procs (pt k)) c);
  rp_regs : num_held N (vm k) 4 (intregs_eax regs) msg;
  rp_ram : kram (vm k) (mach (vm k));
  rp_queue : queue_rep (P:=kram (vm k)) (R:=R) msgs_field (mach (vm k)) (queue_of sy c) (q :: l);
  rp_on : heap_initialized k = true;
  rp_heap : heap_rep (P:=kram (vm k)) (R:=R) (mach (vm k)) blocks;
  rp_block : b ∈ blocks /\ q = b_addr b + sizeof_block /\ b_addr b + 12 < 4294967296;
  rp_apart : forall d, d ∈ blocks -> b_addr d + 12 <= queue_of sy c \/ queue_of sy c + 8 <= b_addr d;
  rp_links : forall e, e ∈ l -> b_addr b + 12 <= e + msgs_field \/ e + msgs_field + 4 <= b_addr b;
  rp_sender : exists spid, num_held N (vm k) 4 (m_sender q) spid /\ find_pid (procs (pt k)) 0 spid = Some r;
  rp_buf : exists rbuf, num_held N (vm k) 4 (m_recv_buf q) rbuf /\ rbuf mod 4096 = p mod 4096;
  rp_window : window N (vm k) 3405643776 p (Z.of_nat (length bs));
  rp_copy : copy_ready N (vm k) msg q src p bs;
  rp_fits : p mod 4096 + Z.of_nat (length bs) <= 4096 * npages (Z.of_nat (length bs));
  rp_away : forall a, R a -> ~ within p (Z.of_nat (length bs)) (tau a);
}.

(** What follows the copy *)
Definition rply_closes (c q : Z) (sender : option Z) : M kst unit :=
  on_mem (STAILQ_REMOVE_HEAD msgs_field (queue_of sy c)) ≫= fun _ =>
  kernel_kfree q ≫= fun _ =>
  sp ← on_pt (deref sender);
  on_pt (update (fst sp) (with_state PROC_READY)).

Lemma rply_opens k regs msg src p bs c q r l b blocks : replying k regs msg src p bs c q r l b blocks ->
  rply_body sy regs k =
    (copy_out 3405643776 (3405643776 + p mod 4096) msg q ≫= fun _ => rply_closes c q (Some r))
      (set_pt (sched_off (pt k)) k).
Proof.
  intros H. destruct (rp_current _ _ _ _ _ _ _ _ _ _ _ _ H) as [Hc [cp Hcp]].
  destruct (rp_sender _ _ _ _ _ _ _ _ _ _ _ _ H) as (spid & Hsp & Hf).
  destruct (rp_buf _ _ _ _ _ _ _ _ _ _ _ _ H) as (rbuf & Hrb & Hmod).
  pose proof (kernel_region N R tau Hdata (pms (vm k)) (mach (vm k)) : MemRegion (kram (vm k)) R) as MR.
  pose proof (rp_queue _ _ _ _ _ _ _ _ _ _ _ _ H) as Hq. destruct (queue_first _ _ _ _ Hq) as [Hqf Hqe].
  unfold rply_body. set (k1 := set_pt (sched_off (pt k)) k).
  rewrite (bind_Ret (on_pt proc_disable_scheduling) _ k tt k1 eq_refl).
  rewrite (bind_Ret _ _ _ _ _ (num_read N k1 _ _ _ (rp_regs _ _ _ _ _ _ _ _ _ _ _ _ H))).
  rewrite (bind_Ret _ _ _ _ _ (this_proc_Ret k1 c cp Hc Hcp)). cbn [fst].
  rewrite (bind_Ret _ _ _ _ _ (on_mem_read _ k1 _ Hqe)), bool_decide_eq_false_2 by done. cbn [negb].
  rewrite (bind_Ret _ _ _ _ _ (on_mem_read _ k1 _ Hqf)). cbn [first_of]. cbv zeta.
  rewrite (bind_Ret _ _ _ _ _ (num_read N k1 _ _ _ Hsp)).
  rewrite (bind_Ret (on_pt (proc_find_by_pid spid)) _ k1 (Some r) k1).
  2:{ unfold on_pt, zoom, proc_find_by_pid. cbn [k1 set_pt pt sched_off set_sched procs]. by rewrite Hf. }
  rewrite (bind_Ret _ _ _ _ _ (num_read N k1 _ _ _ Hrb)).
  replace (u32 (3405643776 + Z.land rbuf 4095)) with (3405643776 + p mod 4096); [done|].
  rewrite land_fff, Hmod. pose proof (Z.mod_pos_bound p 4096 eq_refl). symmetry. apply u32_small. lia.
Qed.

(** Where it writes: the head of the queue and the header of the block *)
Definition closed_at (c : Z) (b : blk) (a : Z) : Prop :=
  queue_of sy c <= a < queue_of sy c + 8 \/ b_addr b <= a < b_addr b + 12.

(** The queue and the heap, on memory that holds the kernel's data *)
Lemma rply_data k c q l b blocks : kram (vm k) (mach (vm k)) -> let P := kram (vm k) in
  queue_rep (P:=P) (R:=R) msgs_field (mach (vm k)) (queue_of sy c) (q :: l) -> heap_rep (P:=P) (R:=R) (mach (vm k)) blocks ->
  b ∈ blocks -> q = b_addr b + sizeof_block -> b_addr b + 12 < 4294967296 ->
  (forall d, d ∈ blocks -> b_addr d + 12 <= queue_of sy c \/ queue_of sy c + 8 <= b_addr d) ->
  (forall e, e ∈ l -> b_addr b + 12 <= e + msgs_field \/ e + msgs_field + 4 <= b_addr b) ->
  heap_initialized k = true ->
  exists m', (on_mem (STAILQ_REMOVE_HEAD msgs_field (queue_of sy c)) ≫= fun _ => kernel_kfree q) k =
      Ret tt (set_vm (Vmst m' (pms (vm k))) k) /\
    P m' /\ queue_rep (P:=P) (R:=R) msgs_field m' (queue_of sy c) l /\
    heap_rep (P:=P) (R:=R) m' (spec_kfree q blocks) /\
    forall a, R a -> ~ closed_at c b a -> rd8 a m' = rd8 a (mach (vm k)).
Proof.
  intros Hm P Hq Hh Hb Eq Hbr Hap Hln Hi. set (m := mach (vm k)) in *. set (pm := pms (vm k)).
  pose proof (kernel_region N R tau Hdata pm m : MemRegion P R) as MR.
  destruct (queue_remove_head _ _ _ _ _ Hq) as (m1 & E1 & Q1 & X1). pose proof (proj1 X1) as P1.
  assert (Hh1 : heap_rep (P:=P) (R:=R) m1 blocks).
  { apply (heap_moved m m1 P1 _ Hh). intros d a Hd Ha Hr. apply X1; [done|]. specialize (Hap d Hd). lia. }
  destruct (kfree_refines_aux m1 blocks b Hh1 Hb Hbr) as (m2 & E2 & Hh2 & F2). rewrite <- Eq in E2, Hh2.
  assert (P2 : P m2) by apply Hh2. exists m2. split; [|split; [done|split; [|split; [done|]]]].
  - rewrite (bind_Ret _ _ _ _ _ (on_mem_Ret _ k tt m1 E1)). unfold kernel_kfree.
    rewrite (bind_Ret get _ _ _ _ eq_refl). cbn [heap_initialized set_vm]. rewrite Hi.
    by rewrite (on_mem_Ret _ (set_vm (set_mach m1 (vm k)) k) tt m2 E2).
  - apply (queue_moved m1 m2 P2 _ _ _ Q1).
    + intros a Ha Hr. apply F2; [done|]. specialize (Hap b Hb). lia.
    + intros e a He Ha Hr. apply F2; [done|]. specialize (Hln e He). lia.
  - intros a Ha Hn. unfold closed_at in Hn. rewrite F2 by (done || tauto). apply X1; [done|tauto].
Qed.

Lemma rply_runs k regs msg src p bs c q r l b blocks : replying k regs msg src p bs c q r l b blocks ->
  exists v t f, rply_body sy regs k = Ret tt (set_vm v (set_pt t k)) /\ state_set r PROC_READY (sched_off (pt k)) t /\
    changes N f (fun a => within p (Z.of_nat (length bs)) a \/ kernel_in R tau (closed_at c b) a) (vm k) v /\
    queue_rep (P:=kram v) (R:=R) msgs_field (mach v) (queue_of sy c) l /\
    heap_rep (P:=kram v) (R:=R) (mach v) (spec_kfree q blocks) /\ kram v (mach v) /\
    (forall i x, bs !! i = Some x -> pbyte (phys (mach v)) (p + Z.of_nat i) = x).
Proof.
  intros H. rewrite (rply_opens _ _ _ _ _ _ _ _ _ _ _ _ H). destruct H as [Hinv _ _ Hram Hq Hon Hh (Hb & Eq & Hbr) Hap Hln Hsd _ Hw Hc Hf Haw].
  set (k1 := set_pt (sched_off (pt k)) k).
  destruct (copy_out_ok N _ msg q src p bs k1 Hinv Hw Hc Hf) as (v & Hr & Hch & Hby).
  pose proof (ram_kept N R tau Hdata _ _ _ _ Hch Hram) as Hv. change (vm k1) with (vm k) in *.
  pose proof (fun a Ha => ram_read N R tau Hdata _ _ _ _ a Hch Hram Ha (Haw a Ha)) as Hsame.
  pose proof (kernel_region N R tau Hdata (pms (vm k)) (mach (vm k)) : MemRegion (kram (vm k)) R) as MR.
  assert (Hq1 : queue_rep (P:=kram v) (R:=R) msgs_field (mach v) (queue_of sy c) (q :: l))
    by (apply (queue_moved (P:=kram (vm k)) (mach (vm k)) (mach v) Hv _ _ _ Hq); auto).
  assert (Hh1 : heap_rep (P:=kram v) (R:=R) (mach v) blocks)
    by (apply (heap_moved (P:=kram (vm k)) (mach (vm k)) (mach v) Hv _ Hh); auto).
  destruct (rply_data (set_vm v k1) c q l b blocks Hv Hq1 Hh1 Hb Eq Hbr Hap Hln Hon) as (m' & Hrun & P' & Q' & H' & F').
  change (vm (set_vm v k1)) with v in *.
  destruct Hsd as (spid & _ & Hfind). pose proof (find_pid_spec (procs (pt k)) 0 spid) as Hsp. rewrite Hfind in Hsp.
  destruct Hsp as (_ & (rp & Hrp & _) & _). rewrite Z.sub_0_r in Hrp.
  pose proof (ram_again _ _ _ _ _ _ P' : kram (Vmst m' (pms v)) m') as Pm.
  pose proof (kernel_region N R tau Hdata (pms v) (mach v) : MemRegion (kram v) R) as MR1.
  pose proof (ram_fine N R tau Hdata _ v m' P' F') as Hkv.
  set (t' := set_procs (zupdate r (with_state PROC_READY rp) (procs (pt k))) (sched_off (pt k))).
  eexists (Vmst m' (pms v)), t', _. split; [|split; [by exists rp|split; [|split; [|split; [|split; [done|]]]]]].
  - rewrite (bind_Ret _ _ _ _ _ Hr). unfold rply_closes.
    apply (fun E => eq_trans (bind_assoc_run _ _ _ _) (eq_trans (bind_Ret _ _ _ _ _ Hrun) E)).
    rewrite (bind_Ret (on_pt (deref (Some r))) _ _ _ _
      (on_pt_Ret _ _ _ _ (deref_Ret r (pt (set_vm (Vmst m' (pms v)) (set_vm v k1))) rp Hrp))).
    exact (on_pt_Ret _ _ _ _ (update_Ret r (with_state PROC_READY) (sched_off (pt k)) rp Hrp)).
  - eapply changes_trans; (eapply changes_weaken; [done|]); auto.
  - by apply (queue_moved (P:=kram v) m' m' Pm _ _ _ Q').
  - by apply (heap_moved (P:=kram v) m' m' Pm _ H').
  - intros i x Hx. rewrite (ch_rest _ _ _ _ _ Hkv); [by apply Hby| |].
    + apply (ch_plain _ _ _ _ _ Hch), (wi_dest _ _ _ _ _ Hw). apply lookup_lt_Some in Hx. lia.
    + intros (a & Ha & _ & E). apply (Haw a Ha). apply lookup_lt_Some in Hx. unfold within. lia.
Qed.
End Reply.

(** C12: A reply with a message waiting, when the kernel's queue, heap and
    tables are in its data region and the buffer is apart from it: the call
    returns; the buffer of the waiting process, in its own address space, holds
    exactly the bytes replied; the message is off the queue, the rest of which
    is as it was; its block is back in the heap; the waiting process is ready
    and no other state changed; every address resolves as before and no memory
    but the buffer, the queue's head and the block's header changed. *)
Theorem reply_delivers N R tau sy k regs msg src p bs c q r l b blocks :
  kernel_data R tau -> replying N R tau sy k regs msg src p bs c q r l b blocks ->
  exists v t, let P := ram N R tau v in
    rply_body sy regs k = Ret tt (set_vm v (set_pt t k)) /\
    state_set r PROC_READY (sched_off (pt k)) t /\
    (forall i x, bs !! i = Some x -> pbyte (phys (mach v)) (p + Z.of_nat i) = x) /\
    queue_rep (P:=P) (R:=R) msgs_field (mach v) (queue_of sy c) l /\
    heap_rep (P:=P) (R:=R) (mach v) (spec_kfree q blocks) /\ P (mach v) /\
    (forall va, 0 <= va < 4294967296 -> pd_index va <> 1023 -> translate (mach v) va = translate (mach (vm k)) va) /\
    (forall a, plain N (vm k) a -> (forall x, R x -> closed_at sy c b x -> tau x <> a) -> ~ (p <= a < p + Z.of_nat (length bs)) ->
       pbyte (phys (mach v)) a = pbyte (phys (mach (vm k))) a).
Proof.
  intros Hd H. destruct (rply_runs N R tau sy Hd k regs msg src p bs c q r l b blocks H)
    as (v & t & f & Hr & Hs & Hc & Hq & Hh & Hram & Hb).
  exists v, t. cbv zeta. do 6 (split; [done|]). split; [intros va; apply (changes_translate _ _ _ _ _ _ Hc)|].
  intros a Ha Hx Ho. apply (ch_rest _ _ _ _ _ Hc); [done|]. intros [Hi|(x & Hx1 & Hx2 & E)]; [done|by apply (Hx x)].
Qed.

(** *** A concrete reply *)

(** A message from process 2 waits, for 6 bytes at 0x8064; the packet of the
    reply and the bytes are in the half of the process. *)
Definition reply_page : list byte :=
  kern_page [2; 0; 0; 20580; 0; 6; 0; 32868; 0; 0] 3825207296 (words [0; 0; 3825207360; 0; 6; 0; 0; 0; 0] ++ repeat Byte.x00 28 ++ hello).

Definition pt_reply : ptable :=
  PTable [Proc 1 PROC_READY [] false false 0 0 0 0 0 0 0; Proc 2 PROC_SEND_BLOCKED [] false false 0 0 0 0 0 0 0]
    3 None (Some 0) true 0.
Definition k_reply : kst := set_pt pt_reply (set_vm (vm_kern reply_page) k_heap).

Lemma reply_fits : Z.of_nat (length reply_page) <= 4096.
Proof. vm_compute. discriminate. Qed.
Lemma reply_shape : forallb (page_num reply_page) kern_shape = true.
Proof. vm_compute. reflexivity. Qed.
Ltac reply_num a v := read_page reply_page reply_fits a v.

Lemma reply_replying : replying 1024 kern_range kern_to kern_syms k_reply 3825205376 3825207296 3825207360 32868 hello
  0 3825205260 1 [] kern_blk [kern_blk].
Proof.
  change (vm k_reply) with (vm_kern reply_page). split; change (vm k_reply) with (vm_kern reply_page); change (queue_of kern_syms 0) with kern_head.
  - exact (vm_kern_inv _ reply_fits).
  - split; [reflexivity|]. by eexists.
  - reply_num 3825205420 3825207296.
  - exact (kern_ram _ reply_fits).
  - exact (kern_queue _ reply_fits reply_shape).
  - reflexivity.
  - exact (kern_heap _ reply_fits reply_shape).
  - split; [by left|]. split; [reflexivity|]. cbn. lia.
  - intros d ->%list_elem_of_singleton. unfold kern_head. cbn. lia.
  - intros e He. by apply not_elem_of_nil in He.
  - exists 2. split; [|reflexivity]. reply_num 3825205260 2.
  - exists 20580. split; [|reflexivity]. reply_num 3825205272 20580.
  - apply (kern_window _ reply_fits); cbn [hello length]; lia || reflexivity.
  - apply (kern_copy _ reply_fits); cbn [hello length]; try lia; try (change (m_recv_len 3825205260) with 3825205280; lia).
    + reply_num 3825205288 32868.
    + reply_num 3825205280 6.
    + reply_num 3825207304 3825207360.
    + intros i x Hi. do 6 (destruct i as [|i]; [injection Hi as <-; vm_compute; reflexivity|]). done.
  - vm_compute. discriminate.
  - intros a Ha. unfold kern_range in Ha. unfold within, kern_to. cbn [hello length]. lia.
Qed.

(** Process 2 gets its six bytes and is ready, and the block is free. *)
Lemma reply_delivers_witness : exists v t,
  rply_body kern_syms 3825205376 k_reply = Ret tt (set_vm v (set_pt t k_reply)) /\
  state_set 1 PROC_READY (sched_off pt_reply) t /\
  pbyte (phys (mach v)) 32868 = Byte.x68 /\ pbyte (phys (mach v)) 32872 = Byte.x6f /\
  heap_rep (P:=ram 1024 kern_range kern_to v) (R:=kern_range) (mach v) [Blk 3825205248 false 100].
Proof.
  destruct (reply_delivers 1024 kern_range kern_to kern_syms k_reply 3825205376 3825207296 3825207360 32868 hello
              0 3825205260 1 [] kern_blk [kern_blk] kern_data reply_replying) as (v & t & Hr & Hs & Hb & _ & Hh & _).
  exists v, t. split; [exact Hr|]. split; [exact Hs|]. split; [exact (Hb 0%nat Byte.x68 eq_refl)|].
  split; [exact (Hb 4%nat Byte.x6f eq_refl)|exact Hh].
Defined.
