(* ===== verification/Receive.v ===== *)
(** * Receive.v: a receive with a message waiting (kernel/syscall.c:
      syscall_recv_msg)

    The copy of Syscall.v out of the sender's buffer and the store of the
    sender's pid, which leave the kernel's queue and heap as they are: the
    message stays first in the queue until the reply. *)

From S2P Require Import Prelude Memory Machine Pm Vm Heap Queue Desc Proc Load Window Syscall Ram.

Section Receive.
Variables (N : Z) (R : Z -> Prop) (tau : Z -> Z) (sy : symbols).
Hypothesis Hdata : kernel_data R tau.
Notation kram := (ram N R tau).

(** The process of slot [c] receives into the packet at [msg], whose first word
    is at [ws] and whose buffer is at [qs]; the element [q] waits first in its
    queue, with [slen] bytes at the physical address [p] from process [spid]. *)
Record receiving (k : kst) (regs msg spid p slen dst : Z) (qs ws : list Z) (c q : Z) (l : list Z) : Prop := {
  rv_inv : vm_inv N (vm k);
  rv_current : current_proc (pt k) = Some c /\ is_Some (zlookup (procs (pt k)) c);
  rv_regs : num_held N (vm k) 4 (intregs_eax regs) msg;
  rv_ram : kram (vm k) (mach (vm k));
  rv_queue : queue_rep (P:=kram (vm k)) (R:=R) msgs_field (mach (vm k)) (queue_of sy c) (q :: l);
  rv_sbuf : exists sbuf, num_held N (vm k) 4 (m_send_buf q) sbuf /\ sbuf mod 4096 = p mod 4096;
  rv_window : window N (vm k) 3133014016 p slen;
  rv_copy : receive_ready N (vm k) msg q p slen dst qs;
  rv_fits : p mod 4096 + Z.of_nat (length qs) <= 4096 * npages slen;
  rv_element : span R q 40;
  rv_sender : num_held N (vm k) 4 (m_sender q) spid;
  rv_word : word_dest N (vm k) msg ws;
  rv_apart : forall x, x ∈ ws -> x ∉ qs;
  rv_away : forall a, R a -> tau a ∉ qs /\ tau a ∉ ws;
}.

Lemma recv_opens k regs msg spid p slen dst qs ws c q l : receiving k regs msg spid p slen dst qs ws c q l ->
  recv_body sy regs k =
    (copy_in 3133014016 (3133014016 + p mod 4096) msg q ≫= fun _ => v ← ld (m_sender q); st (m_sender msg) v)
      (set_pt (sched_off (pt k)) k).
Proof.
  intros H. destruct (rv_current _ _ _ _ _ _ _ _ _ _ _ _ H) as [Hc [cp Hcp]].
  destruct (rv_sbuf _ _ _ _ _ _ _ _ _ _ _ _ H) as (sbuf & Hsb & Hmod).
  pose proof (kernel_region N R tau Hdata (pms (vm k)) (mach (vm k)) : MemRegion (kram (vm k)) R) as MR.
  destruct (queue_first _ _ _ _ (rv_queue _ _ _ _ _ _ _ _ _ _ _ _ H)) as [Hqf Hqe].
  unfold recv_body. set (k1 := set_pt (sched_off (pt k)) k).
  rewrite (bind_Ret (on_pt proc_disable_scheduling) _ k tt k1 eq_refl).
  rewrite (bind_Ret _ _ _ _ _ (num_read N k1 _ _ _ (rv_regs _ _ _ _ _ _ _ _ _ _ _ _ H))).
  rewrite (bind_Ret _ _ _ _ _ (this_proc_Ret k1 c cp Hc Hcp)). cbn [fst].
  rewrite (bind_Ret _ _ _ _ _ (on_mem_read _ k1 _ Hqe)), bool_decide_eq_false_2 by done.
  rewrite (bind_Ret _ _ _ _ _ (on_mem_read _ k1 _ Hqf)). cbn [first_of]. cbv zeta.
  rewrite (bind_Ret _ _ _ _ _ (num_read N k1 _ _ _ Hsb)).
  replace (u32 (3133014016 + Z.land sbuf 4095)) with (3133014016 + p mod 4096); [done|].
  rewrite land_fff, Hmod. pose proof (Z.mod_pos_bound p 4096 eq_refl). symmetry. apply u32_small. lia.
Qed.

Lemma recv_runs k regs msg spid p slen dst qs ws c q l : receiving k regs msg spid p slen dst qs ws c q l ->
  exists v f, recv_body sy regs k = Ret tt (set_vm v (set_pt (sched_off (pt k)) k)) /\
    changes N f (fun a => a ∈ qs \/ a ∈ ws) (vm k) v /\ num_held N v 4 (m_sender msg) spid /\
    forall i a, qs !! i = Some a -> pbyte (phys (mach v)) a = pbyte (phys (mach (vm k))) (p + Z.of_nat i).
Proof.
  intros H. rewrite (recv_opens _ _ _ _ _ _ _ _ _ _ _ _ H).
  destruct H as [Hinv _ _ Hram _ _ Hw Hc Hf Hel Hsd Hwd Hap Haw].
  set (k1 := set_pt (sched_off (pt k)) k).
  destruct (copy_in_ok N _ msg q p slen dst qs k1 Hinv Hw Hc Hf) as (v & Hr & Hch & Hby). change (vm k1) with (vm k) in *.
  rewrite (bind_Ret _ _ _ _ _ Hr).
  rewrite (bind_Ret (ld (m_sender q)) _ (set_vm v k1) spid (set_vm v k1)).
  2:{ apply (num_read N (set_vm v k1) 4), (changes_num _ _ _ _ _ _ _ _ Hch); [|apply (kernel_outside N R tau Hdata)|done]; try done.
      - rewrite <- (Z.add_0_r (m_sender q)). apply (kd_range _ _ Hdata), Hel. lia.
      - intros i Hi. apply Hel. lia.
      - intros b Hb. by apply Haw. }
  destruct (st_word N (set_vm v k1) msg ws spid (ch_inv _ _ _ _ _ Hch)
    (word_dest_changes _ _ _ _ _ _ _ Hch Hwd) (num_range _ _ _ _ Hsd)) as (w & Hst & Hcw & Hnw).
  change (vm (set_vm v k1)) with v in Hcw. eexists w, _. split; [|split; [|split; [done|]]].
  - unfold m_sender. rewrite Hst. by destruct k as [[]].
  - eapply changes_trans; (eapply changes_weaken; [done|]); auto.
  - intros i a Hi. rewrite (ch_rest _ _ _ _ _ Hcw); [by apply Hby| |].
    + apply (ch_plain _ _ _ _ _ Hch). destruct Hc as [_ _ _ _ Htg _]. apply (tg_dests _ _ _ _ _ Htg i a Hi).
    + intros Ha. apply (Hap a Ha). by eapply list_elem_of_lookup_2.
Qed.
End Receive.

(** C11: A receive with a message waiting, when the kernel's queue, heap and
    tables are apart from the receiver's packet and buffer: the call returns;
    the buffer, wherever its pages are, holds as many bytes of the sender's as
    the receiver asked for, also when fewer were sent; the packet names the
    sender; the message stays first in the queue, the rest of it and the heap as
    they were, and no process changes state; every address resolves as before
    and no memory but the buffer and the packet's first word changed. *)
Theorem receive_delivers N R tau sy k regs msg spid p slen dst qs ws c q l :
  kernel_data R tau -> receiving N R tau sy k regs msg spid p slen dst qs ws c q l ->
  exists v, let P := ram N R tau v in
    recv_body sy regs k = Ret tt (set_vm v (set_pt (sched_off (pt k)) k)) /\
    (forall i a, qs !! i = Some a -> pbyte (phys (mach v)) a = pbyte (phys (mach (vm k))) (p + Z.of_nat i)) /\
    num_held N v 4 (m_sender msg) spid /\
    queue_rep (P:=P) (R:=R) msgs_field (mach v) (queue_of sy c) (q :: l) /\
    (forall blocks, heap_rep (P:=ram N R tau (vm k)) (R:=R) (mach (vm k)) blocks ->
       heap_rep (P:=P) (R:=R) (mach v) blocks) /\ P (mach v) /\
    (forall va, 0 <= va < 4294967296 -> pd_index va <> 1023 -> translate (mach v) va = translate (mach (vm k)) va) /\
    (forall a, plain N (vm k) a -> a ∉ qs -> a ∉ ws -> pbyte (phys (mach v)) a = pbyte (phys (mach (vm k))) a).
Proof.
  intros Hd H. destruct (recv_runs N R tau sy Hd k regs msg spid p slen dst qs ws c q l H) as (v & f & Hr & Hc & Hn & Hb).
  destruct H as [_ _ _ Hram Hq _ _ _ _ _ _ _ _ Haw]. pose proof (ram_kept N R tau Hd _ _ _ _ Hc Hram) as Hv.
  assert (Hsame : forall a, R a -> rd8 a (mach v) = rd8 a (mach (vm k))).
  { intros a Ha. apply (ram_read N R tau Hd _ _ _ _ a Hc Hram Ha). destruct (Haw a Ha). tauto. }
  pose proof (kernel_region N R tau Hd (pms (vm k)) (mach (vm k)) : MemRegion (ram N R tau (vm k)) R) as MR.
  exists v. cbv zeta. do 3 (split; [done|]). split; [|split; [|split; [done|split]]].
  - apply (queue_kept N R tau _ _ _ _ _ _ _ Hd Hc Hram Hq). intros a Ha _. destruct (Haw a Ha). tauto.
  - intros blocks Hh. apply (heap_moved (P:=ram N R tau (vm k)) (mach (vm k)) (mach v) Hv _ Hh); auto.
  - intros va. apply (changes_translate _ _ _ _ _ _ Hc).
  - intros a Ha H1 H2. apply (ch_rest _ _ _ _ _ Hc); [done|tauto].
Qed.

(** *** A concrete receive

    Process 2 has sent four bytes at 0xb8900; the receiver asks for six. *)
Definition rcv_page : list byte :=
  kern_page [2; 0; 35072; 0; 4; 0; 755968; 0; 0; 0] 3825207296
    (words [0; 0; 0; 3825207360; 0; 6; 0; 0; 0] ++ repeat Byte.x00 220 ++ hello).

Definition pt_rcv : ptable := PTable [Proc 1 PROC_READY [] false false 0 0 0 0 0 0 0] 2 None (Some 0) true 0.
Definition k_rcv : kst := set_pt pt_rcv (set_vm (vm_kern rcv_page) k_heap).

Lemma rcv_fits : Z.of_nat (length rcv_page) <= 4096.
Proof. vm_compute. discriminate. Qed.
Lemma rcv_shape : forallb (page_num rcv_page) kern_shape = true.
Proof. vm_compute. reflexivity. Qed.
Ltac rcv_num a v := read_page rcv_page rcv_fits a v.

Lemma rcv_dests a n : 3825205248 <= a -> 0 <= n -> a + n <= 3825209344 ->
  dests 1024 (vm_kern rcv_page) a (seqZ (kern_to a) n).
Proof.
  intros Ha Hn Hb i q [-> Hi]%lookup_seqZ. rewrite u32_small, (vm_kern_translate _ rcv_fits), decide_True by lia.
  unfold kern_to. split; [f_equal; lia|]. apply (vm_kern_plain _ rcv_fits). lia.
Qed.

Lemma rcv_receiving : receiving 1024 kern_range kern_to kern_syms k_rcv 3825205376 3825207296 2 755968 4 3825207360
  (seqZ 755776 6) (seqZ 755712 4) 0 kern_elem [].
Proof.
  change (vm k_rcv) with (vm_kern rcv_page).
  split; change (vm k_rcv) with (vm_kern rcv_page); change (queue_of kern_syms 0) with kern_head.
  - exact (vm_kern_inv _ rcv_fits).
  - split; [reflexivity|]. by eexists.
  - rcv_num 3825205420 3825207296.
  - exact (kern_ram _ rcv_fits).
  - exact (kern_queue _ rcv_fits rcv_shape).
  - exists 35072. split; [|reflexivity]. rcv_num 3825205268 35072.
  - apply (kern_window _ rcv_fits); lia || reflexivity.
  - split; [rcv_num 3825205284 755968|rcv_num 3825205276 4|rcv_num 3825207308 3825207360|rcv_num 3825207316 6| |].
    + split; rewrite ?length_seqZ; try lia.
      * apply (rcv_dests 3825207360 6); lia.
      * intros i q [-> Hi]%lookup_seqZ. rewrite u32_small by lia. apply window_bound. lia.
      * apply NoDup_seqZ.
      * intros q Hq%elem_of_seqZ. lia.
      * intros i Hi. apply (vm_kern_plain _ rcv_fits). lia.
    + intros i a Hi. change (m_send_len kern_elem) with 3825205276.
      rewrite u32_small, (vm_kern_translate _ rcv_fits), decide_True by lia. unfold kern_to.
      intros [= <-] Hin%elem_of_seqZ. lia.
  - vm_compute. discriminate.
  - intros i Hi. unfold kern_elem, kern_range in *. lia.
  - rcv_num 3825205260 2.
  - split; [lia|by rewrite length_seqZ|apply (rcv_dests 3825207296 4); lia| |apply NoDup_seqZ].
    intros i Hi. rewrite u32_small by lia. apply window_bound. lia.
  - intros x Hx%elem_of_seqZ Hy%elem_of_seqZ. lia.
  - intros a Ha. unfold kern_range, kern_to in *. split; intros Hx%elem_of_seqZ; lia.
Qed.

(** All six arrive, with the sender's pid. *)
Lemma receive_delivers_witness : exists v,
  recv_body kern_syms 3825205376 k_rcv = Ret tt (set_vm v (set_pt (sched_off pt_rcv) k_rcv)) /\
  pbyte (phys (mach v)) 755776 = Byte.x68 /\ pbyte (phys (mach v)) 755780 = Byte.x6f /\
  num_held 1024 v 4 3825207296 2.
Proof.
  destruct (receive_delivers 1024 kern_range kern_to kern_syms k_rcv 3825205376 3825207296 2 755968 4 3825207360
    (seqZ 755776 6) (seqZ 755712 4) 0 kern_elem [] kern_data rcv_receiving) as (v & Hr & Hb & Hn & _).
  exists v. split; [exact Hr|]. split; [|split; [|exact Hn]].
  - rewrite (Hb 0%nat 755776 eq_refl). vm_compute. reflexivity.
  - rewrite (Hb 4%nat 755780 eq_refl). vm_compute. reflexivity.
Defined.
