(* ===== verification/Enqueue.v ===== *)
(** * Enqueue.v: a receive that waits and a send that is queued
      (kernel/syscall.c: syscall_recv_msg, syscall_send_msg)

    The two branches that make a new element: a receive with nothing in its
    queue, and a send to a process that is not waiting. *)

From S2P Require Import Prelude Memory Machine Pm Vm Heap Queue Desc Proc Load Window Syscall Ram Element.

Section Enqueue.
Variables (N : Z) (R : Z -> Prop) (tau : Z -> Z) (sy : symbols).
Hypothesis Hdata : kernel_data R tau.
Notation kram := (ram N R tau).

Lemma making_pt t k msg m head l blocks q blocks' : making N R tau k msg m head l blocks q blocks' ->
  making N R tau (set_pt t k) msg m head l blocks q blocks'.
Proof. by intros []. Qed.

Lemma element_kernel k msg m head l blocks q blocks' : making N R tau k msg m head l blocks q blocks' ->
  forall x, element_at tau q x -> kernel_at R tau x.
Proof.
  intros H x (b & Hb & <-). exists b. split; [|done]. replace b with (q + (b - q)) by lia.
  apply (mk_span _ _ _ _ _ _ _ _ _ _ _ H). lia.
Qed.

(** Steps on the new element, before it is in the queue *)
Section Fill.
Variables (k : kst) (msg : Z) (m : msg_packet) (head : Z) (l : list Z) (blocks : list blk) (q : Z) (blocks' : list blk) (v : vmst).
Hypothesis H : making N R tau k msg m head l blocks q blocks'.
Hypothesis Hm : made N R tau k m head l q blocks' v.
Notation going := (along N v q (element_at tau q) 0).

Lemma fill_start : going v (packet_words m).
Proof using Hm. split; [apply changes_refl, (ch_inv _ _ _ _ _ (md_changes _ _ _ _ _ _ _ _ _ _ Hm))|apply (md_elem _ _ _ _ _ _ _ _ _ _ Hm)|done]. Qed.

Lemma fill_st k' ws j x off : going (vm k') ws -> off = 4 * Z.of_nat j -> (j < 9)%nat -> 0 <= x < 4294967296 ->
  exists s, st (q +w off) x k' = Ret tt (set_vm s k') /\ going s (<[j := x]> ws).
Proof using H Hm Hdata.
  intros Ha -> Hj Hx. pose proof (mk_span _ _ _ _ _ _ _ _ _ _ _ H) as Hsp.
  destruct (along_st N R tau v q (element_at tau q) Hdata (md_ram _ _ _ _ _ _ _ _ _ _ Hm) Hsp (fun a Ha' => ex_intro _ a (conj Ha' eq_refl))
    0 k' ws j x (q +w (4 * Z.of_nat j)) Ha Hj) as (s & E & A & _); [apply (field_at R tau q Hdata Hsp); lia|done|by exists s].
Qed.

Lemma fill_ld k' ws j w off : going (vm k') ws -> ws !! j = Some w -> off = 4 * Z.of_nat j -> ld (q +w off) k' = Ret w k'.
Proof using H Hdata.
  intros Ha Hj ->. apply (along_ld N v q (element_at tau q) 0 k' ws j w); try done.
  apply (field_at R tau q Hdata (mk_span _ _ _ _ _ _ _ _ _ _ _ H)). apply lookup_lt_Some in Hj.
  rewrite (al_length _ _ _ _ _ _ _ Ha) in Hj. lia.
Qed.

(** A word of the packet the element was made from *)
Lemma fill_msg k' ws j w : going (vm k') ws -> packet_words m !! j = Some w -> ld (msg +w (4 * Z.of_nat j)) k' = Ret w k'.
Proof using H Hm.
  intros Ha Hj. pose proof (md_changes _ _ _ _ _ _ _ _ _ _ Hm) as Hc.
  destruct (packet_at_changes _ _ _ _ _ _ _ _ Hc (kernel_in_at R tau _) (proj1 (mk_msg _ _ _ _ _ _ _ _ _ _ _ H)) j w Hj) as [Hn Ho].
  apply (along_msg N v q (element_at tau q) 0 k' ws _ w Ha Hn (u32_range _)).
  intros i x Hi Hx He. by apply (Ho i x Hi Hx), (element_kernel _ _ _ _ _ _ _ _ H).
Qed.

Lemma fill_map k' ws va pa : going (vm k') ws -> mapped_to (vm k) va pa -> on_vm (vm_get_phys_mapping va) k' = Ret pa k'.
Proof using Hm.
  intros Ha Hp. apply (along_map N v q (element_at tau q) 0 k' ws va pa Ha).
  by apply (mapped_to_changes _ _ _ _ _ _ _ (md_changes _ _ _ _ _ _ _ _ _ _ Hm)).
Qed.

Lemma fill_word j w : packet_words m !! j = Some w -> 0 <= w < 4294967296.
Proof using H. intros Hj. exact (num_range _ _ _ _ (proj1 (proj1 (mk_msg _ _ _ _ _ _ _ _ _ _ _ H) j w Hj))). Qed.

Lemma fill_sender : m_sender q = q +w 0.
Proof using H Hdata. rewrite (field_at R tau q Hdata (mk_span _ _ _ _ _ _ _ _ _ _ _ H)) by lia. symmetry. apply Z.add_0_r. Qed.
End Fill.

(** Where a call that makes the element [q] behind [l] writes: the headers of
    the heap, the element and the words of the queue *)
Definition new_at (head : Z) (l : list Z) (q : Z) (blocks' : list blk) (a : Z) : Prop :=
  heads blocks' a \/ q <= a < q + 36 \/ queue_words msgs_field head (l ++ [q]) a.

Lemma made_changes k msg m head l blocks q blocks' v ws k' w : making N R tau k msg m head l blocks q blocks' ->
  made N R tau k m head l q blocks' v -> along N v q (element_at tau q) 0 (vm k') ws ->
  changes N 0 (kernel_in R tau (queue_words msgs_field head (l ++ [q]))) (vm k') w ->
  changes N 0 (kernel_in R tau (new_at head l q blocks')) (vm k) w.
Proof.
  intros H Hm Ha Hw. apply (changes_trans _ 0 0 _ _ (vm k')); [apply (changes_trans _ 0 0 _ _ v)|].
  - apply (changes_weaken _ _ _ _ _ _ (md_changes _ _ _ _ _ _ _ _ _ _ Hm)). intros x. apply kernel_in_mono.
    intros a [Hx|Hx]; [by left|by right; left].
  - apply (changes_weaken _ _ _ _ _ _ (al_changes _ _ _ _ _ _ _ Ha)). intros x (b & Hb & <-). exists b.
    split; [|by split; [right; left|]]. replace b with (q + (b - q)) by lia. apply (mk_span _ _ _ _ _ _ _ _ _ _ _ H). lia.
  - apply (changes_weaken _ _ _ _ _ _ Hw). intros x. apply kernel_in_mono. by right; right.
Qed.

(** ** A receive that waits *)

(** What the receive leaves in its element for the sender to find *)
Definition waits_with (m : msg_packet) (pr pm : Z) : msg_packet :=
  MsgPacket (p_sender m) (p_receiver m) (p_send_buf m) (p_recv_buf m) (p_send_len m) (p_recv_len m) (p_phys_send_buf m) pr pm.

Record waiting (k : kst) (regs msg : Z) (m : msg_packet) (pr pm c : Z) (blocks : list blk) (q : Z) (blocks' : list blk) : Prop := {
  wt_current : current_proc (pt k) = Some c /\ is_Some (zlookup (procs (pt k)) c);
  wt_regs : num_held N (vm k) 4 (intregs_eax regs) msg;
  wt_making : making N R tau k msg m (queue_of sy c) [] blocks q blocks';
  wt_maps : mapped_to (vm k) (p_recv_buf m) pr /\ mapped_to (vm k) msg pm;
}.

Lemma recv_waits_runs k regs msg m pr pm c blocks q blocks' : waiting k regs msg m pr pm c blocks q blocks' ->
  exists v t, recv_body sy regs k = Ret tt (set_vm v (set_pt t k)) /\ state_set c PROC_RECV_BLOCKED (sched_off (pt k)) t /\
    changes N 0 (kernel_in R tau (new_at (queue_of sy c) [] q blocks')) (vm k) v /\ kram v (mach v) /\ elem N q v (packet_words (waits_with m pr pm)) /\
    queue_rep (P:=kram v) (R:=R) msgs_field (mach v) (queue_of sy c) [q] /\ heap_rep (P:=kram v) (R:=R) (mach v) blocks'.
Proof.
  intros [[Hc [cp Hcp]] Hregs Hmk [Hpr Hpm]].
  set (k1 := set_pt (sched_off (pt k)) k).
  set (t1 := set_procs (zupdate c (with_state PROC_RECV_BLOCKED cp) (procs (pt k))) (sched_off (pt k))).
  pose proof (making_pt t1 _ _ _ _ _ _ _ _ Hmk) as Hmk1.
  destruct (element_made N R tau Hdata _ _ _ _ _ _ _ _ Hmk1) as (v & Hv & Ev).
  pose proof (fill_start _ _ _ _ _ _ _ Hv) as A0. set (k2 := set_pt t1 k) in *.
  destruct (fill_st _ _ _ _ _ _ _ _ _ Hmk1 Hv (set_vm v k2) _ 7%nat pr 28 A0 eq_refl ltac:(lia) (mapped_to_range _ _ _ Hpr)) as (v1 & E1 & A1).
  destruct (fill_st _ _ _ _ _ _ _ _ _ Hmk1 Hv (set_vm v1 k2) _ 8%nat pm 32 A1 eq_refl ltac:(lia) (mapped_to_range _ _ _ Hpm)) as (v2 & E2 & A2).
  destruct (element_linked N R tau Hdata _ _ _ _ _ _ _ _ Hmk1 v (set_vm v2 k2) _ Hv A2) as (w & Ew & Cw & Rw & Lw & Qw & Hw).
  change (vm (set_vm v2 k2)) with v2 in Cw.
  pose proof (kernel_region N R tau Hdata (pms (vm k)) (mach (vm k)) : MemRegion (kram (vm k)) R) as MR.
  destruct (queue_first _ _ _ _ (mk_queue _ _ _ _ _ _ _ _ _ _ _ Hmk)) as [_ Hqe].
  exists w, t1. split; [|split; [by exists cp|split; [|done]]].
  - unfold recv_body. rewrite (bind_Ret (on_pt proc_disable_scheduling) _ k tt k1 eq_refl).
    rewrite (bind_Ret _ _ _ _ _ (num_read N k1 _ _ _ Hregs)), (bind_Ret _ _ _ _ _ (this_proc_Ret k1 c cp Hc Hcp)). cbn [fst].
    rewrite (bind_Ret _ _ _ _ _ (on_mem_read _ k1 _ Hqe)), bool_decide_eq_true_2 by done.
    rewrite (bind_Ret (on_pt (update c (with_state PROC_RECV_BLOCKED))) _ k1 tt k2).
    2:{ exact (on_pt_Ret _ _ _ _ (update_Ret c (with_state PROC_RECV_BLOCKED) (sched_off (pt k)) cp Hcp)). }
    refine (eq_trans (Ev unit _) _).
    rewrite (bind_Ret (ld (m_recv_buf q)) _ (set_vm v k2) (p_recv_buf m) (set_vm v k2))
      by (exact (fill_ld _ _ _ _ _ _ _ _ _ Hmk1 (set_vm v k2) _ 3 _ 12 A0 eq_refl eq_refl)).
    rewrite (bind_Ret _ _ _ _ _ (fill_map _ _ _ _ _ _ _ Hv (set_vm v k2) _ _ _ A0 Hpr)), (bind_Ret _ _ _ _ _ E1).
    rewrite (bind_Ret _ _ _ _ _ (fill_map _ _ _ _ _ _ _ Hv (set_vm v1 k2) _ _ _ A1 Hpm)), (bind_Ret _ _ _ _ _ E2).
    exact Ew.
  - exact (made_changes _ _ _ _ _ _ _ _ _ _ (set_vm v2 k2) w Hmk1 Hv A2 Cw).
Qed.

(** ** A send that is queued *)

(** The element of a queued message: the packet, with the sender's pid and the
    physical addresses of its buffers *)
Definition queued (m : msg_packet) (spid ps pr : Z) : msg_packet :=
  MsgPacket spid (p_receiver m) (p_send_buf m) (p_recv_buf m) (p_send_len m) (p_recv_len m) ps pr (p_phys_msg_packet m).

Record queueing (k : kst) (regs msg : Z) (m : msg_packet) (spid ps pr c r : Z) (rst : proc_state) (l : list Z)
    (blocks : list blk) (q : Z) (blocks' : list blk) : Prop := {
  qg_current : current_proc (pt k) = Some c /\ exists cp, zlookup (procs (pt k)) c = Some cp /\ pid cp = spid /\ 0 <= spid < 4294967296;
  qg_regs : num_held N (vm k) 4 (intregs_eax regs) msg;
  qg_receiver : find_pid (procs (pt k)) 0 (p_receiver m) = Some r;
  qg_state : exists rp, zlookup (procs (pt k)) r = Some rp /\ state rp = rst /\ rst <> PROC_RECV_BLOCKED;
  qg_making : making N R tau k msg m (queue_of sy r) l blocks q blocks';
  qg_maps : mapped_to (vm k) (p_send_buf m) ps /\ mapped_to (vm k) (p_recv_buf m) pr;
}.

Lemma enqueue_runs k regs msg m spid ps pr c r rst l blocks q blocks' :
  queueing k regs msg m spid ps pr c r rst l blocks q blocks' ->
  let k1 := set_pt (sched_off (pt k)) k in
  exists w, send_enqueue sy msg r k1 = Ret tt (set_vm w k1) /\
    changes N 0 (kernel_in R tau (new_at (queue_of sy r) l q blocks')) (vm k) w /\ kram w (mach w) /\ elem N q w (packet_words (queued m spid ps pr)) /\
    queue_rep (P:=kram w) (R:=R) msgs_field (mach w) (queue_of sy r) (l ++ [q]) /\ heap_rep (P:=kram w) (R:=R) (mach w) blocks'.
Proof.
  intros [(Hc & cp & Hcp & Hpid & Hspid) _ _ _ Hmk [Hps Hpr]] k1.
  pose proof (making_pt (sched_off (pt k)) _ _ _ _ _ _ _ _ Hmk) as H.
  destruct (element_made N R tau Hdata _ _ _ _ _ _ _ _ H) as (v & Hv & Ev). fold k1 in Ev, Hv, H.
  pose proof (fun k' ws j x off => fill_st _ _ _ _ _ _ _ _ v H Hv k' ws j x off) as Hst.
  pose proof (fun k' ws j w => fill_msg _ _ _ _ _ _ _ _ v H Hv k' ws j w) as Hld.
  pose proof (fun j w => fill_word _ _ _ _ _ _ _ _ H j w) as Hw.
  pose proof (fill_start _ _ _ _ _ _ _ Hv) as A0.
  destruct (Hst (set_vm v k1) _ 0%nat spid 0 A0 eq_refl ltac:(lia) Hspid) as (v1 & E1 & A1).
  destruct (Hst (set_vm v1 k1) _ 1%nat _ 4 A1 eq_refl ltac:(lia) (Hw 1%nat _ eq_refl)) as (v2 & E2 & A2).
  destruct (Hst (set_vm v2 k1) _ 2%nat _ 8 A2 eq_refl ltac:(lia) (Hw 2%nat _ eq_refl)) as (v3 & E3 & A3).
  destruct (Hst (set_vm v3 k1) _ 4%nat _ 16 A3 eq_refl ltac:(lia) (Hw 4%nat _ eq_refl)) as (v4 & E4 & A4).
  destruct (Hst (set_vm v4 k1) _ 3%nat _ 12 A4 eq_refl ltac:(lia) (Hw 3%nat _ eq_refl)) as (v5 & E5 & A5).
  destruct (Hst (set_vm v5 k1) _ 5%nat _ 20 A5 eq_refl ltac:(lia) (Hw 5%nat _ eq_refl)) as (v6 & E6 & A6).
  destruct (Hst (set_vm v6 k1) _ 6%nat ps 24 A6 eq_refl ltac:(lia) (mapped_to_range _ _ _ Hps)) as (v7 & E7 & A7).
  destruct (Hst (set_vm v7 k1) _ 7%nat pr 28 A7 eq_refl ltac:(lia) (mapped_to_range _ _ _ Hpr)) as (v8 & E8 & A8).
  destruct (element_linked N R tau Hdata _ _ _ _ _ _ _ _ H v (set_vm v8 k1) _ Hv A8) as (w & Ew & Cw & Rw & Lw & Qw & Hhw).
  change (vm (set_vm v8 k1)) with v8 in Cw. exists w. split; [|split; [|done]].
  - unfold send_enqueue. refine (eq_trans (Ev unit _) _).
    rewrite (bind_Ret _ _ _ _ _ (this_proc_Ret (set_vm v k1) c cp Hc Hcp)). cbn [snd]. rewrite Hpid, (fill_sender _ _ _ _ _ _ _ _ H).
    rewrite (bind_Ret _ _ _ _ _ E1).
    rewrite (bind_Ret _ _ _ _ _ (Hld (set_vm v1 k1) _ 1%nat _ A1 eq_refl)), (bind_Ret _ _ _ _ _ E2).
    rewrite (bind_Ret _ _ _ _ _ (Hld (set_vm v2 k1) _ 2%nat _ A2 eq_refl)), (bind_Ret _ _ _ _ _ E3).
    rewrite (bind_Ret _ _ _ _ _ (Hld (set_vm v3 k1) _ 4%nat _ A3 eq_refl)), (bind_Ret _ _ _ _ _ E4).
    rewrite (bind_Ret _ _ _ _ _ (Hld (set_vm v4 k1) _ 3%nat _ A4 eq_refl)), (bind_Ret _ _ _ _ _ E5).
    rewrite (bind_Ret _ _ _ _ _ (Hld (set_vm v5 k1) _ 5%nat _ A5 eq_refl)), (bind_Ret _ _ _ _ _ E6).
    rewrite (bind_Ret _ _ _ _ _ (Hld (set_vm v6 k1) _ 2%nat _ A6 eq_refl)).
    rewrite (bind_Ret _ _ _ _ _ (fill_map _ _ _ _ _ _ _ Hv (set_vm v6 k1) _ _ _ A6 Hps)), (bind_Ret _ _ _ _ _ E7).
    rewrite (bind_Ret _ _ _ _ _ (Hld (set_vm v7 k1) _ 3%nat _ A7 eq_refl)).
    rewrite (bind_Ret _ _ _ _ _ (fill_map _ _ _ _ _ _ _ Hv (set_vm v7 k1) _ _ _ A7 Hpr)), (bind_Ret _ _ _ _ _ E8).
    exact Ew.
  - exact (made_changes _ _ _ _ _ _ _ _ _ _ (set_vm v8 k1) w H Hv A8 Cw).
Qed.

Lemma send_queues_runs k regs msg m spid ps pr c r rst l blocks q blocks' :
  queueing k regs msg m spid ps pr c r rst l blocks q blocks' ->
  exists v t, send_body sy regs k = Ret true (set_vm v (set_pt t k)) /\
    match rst with PROC_READY => state_set c PROC_REPLY_BLOCKED (sched_off (pt k)) t | _ => t = sched_off (pt k) end /\
    changes N 0 (kernel_in R tau (new_at (queue_of sy r) l q blocks')) (vm k) v /\ kram v (mach v) /\ elem N q v (packet_words (queued m spid ps pr)) /\
    queue_rep (P:=kram v) (R:=R) msgs_field (mach v) (queue_of sy r) (l ++ [q]) /\ heap_rep (P:=kram v) (R:=R) (mach v) blocks'.
Proof.
  intros H. destruct (enqueue_runs _ _ _ _ _ _ _ _ _ _ _ _ _ _ H) as (v & Ev & Hv).
  destruct H as [(Hc & cp & Hcp & _) Hregs Hf (rp & Hrp & Hrst & Hne) Hmk _]. set (k1 := set_pt (sched_off (pt k)) k) in *.
  destruct (proj1 (mk_msg _ _ _ _ _ _ _ _ _ _ _ Hmk) 1%nat _ eq_refl) as [Hrpid _].
  assert (Hd : forall w, on_pt (deref (Some r)) (set_vm w k1) = Ret (r, rp) (set_vm w k1))
    by (intros w; exact (on_pt_Ret _ (set_vm w k1) _ _ (deref_Ret r (pt k1) rp Hrp))).
  set (t := match rst with
            | PROC_READY => set_procs (zupdate c (with_state PROC_REPLY_BLOCKED cp) (procs (pt k))) (sched_off (pt k))
            | _ => sched_off (pt k) end).
  exists v, t. split; [|split; [|done]].
  - unfold send_body. rewrite (bind_Ret (on_pt proc_disable_scheduling) _ k tt k1 eq_refl).
    rewrite (bind_Ret _ _ _ _ _ (num_read N k1 _ _ _ Hregs)).
    rewrite (bind_Ret (ld (m_receiver msg)) _ k1 (p_receiver m) k1) by (exact (num_read N k1 4 _ _ Hrpid)).
    rewrite (bind_Ret (on_pt (proc_find_by_pid (p_receiver m))) _ k1 (Some r) k1).
    2:{ unfold on_pt, zoom, proc_find_by_pid. cbn [k1 set_pt pt sched_off set_sched procs]. by rewrite Hf. }
    rewrite (bind_Ret (on_pt (deref (Some r))) _ k1 (r, rp) k1) by (exact (on_pt_Ret _ _ _ _ (deref_Ret r (pt k1) rp Hrp))).
    cbn [snd]. rewrite decide_False by (by rewrite Hrst). rewrite (bind_Ret _ _ _ _ _ Ev), (bind_Ret _ _ _ _ _ (Hd v)). cbn [snd].
    rewrite Hrst. subst t. destruct rst; try reflexivity; [|done].
    refine (bind_Ret _ _ _ tt _ _). rewrite (bind_Ret _ _ _ _ _ (this_proc_Ret (set_vm v k1) c cp Hc Hcp)). cbn [fst].
    exact (on_pt_Ret _ _ _ _ (update_Ret c (with_state PROC_REPLY_BLOCKED) (sched_off (pt k)) cp Hcp)).
  - subst t. destruct rst; try reflexivity. by exists cp.
Qed.
End Enqueue.

(** C13: A receive with nothing in its queue, when the heap has a block for an
    element: the call returns; the caller is blocked in ipc_recv; its queue
    holds one new element, with the words of its packet and the physical
    addresses of its buffer and of the packet itself, which the next send goes
    by; the heap is as kalloc specifies; every address resolves as before and
    no memory but the kernel's data changed. *)
Theorem receive_waits N R tau sy k regs msg m pr pm c blocks q blocks' :
  kernel_data R tau -> waiting N R tau sy k regs msg m pr pm c blocks q blocks' ->
  exists v t, let P := ram N R tau v in
    recv_body sy regs k = Ret tt (set_vm v (set_pt t k)) /\ state_set c PROC_RECV_BLOCKED (sched_off (pt k)) t /\
    elem N q v (packet_words (waits_with m pr pm)) /\
    queue_rep (P:=P) (R:=R) msgs_field (mach v) (queue_of sy c) [q] /\ heap_rep (P:=P) (R:=R) (mach v) blocks' /\ P (mach v) /\
    (forall va, 0 <= va < 4294967296 -> pd_index va <> 1023 -> translate (mach v) va = translate (mach (vm k)) va) /\
    (forall a, plain N (vm k) a -> (forall x, R x -> new_at (queue_of sy c) [] q blocks' x -> tau x <> a) ->
       pbyte (phys (mach v)) a = pbyte (phys (mach (vm k))) a).
Proof.
  intros Hd H. destruct (recv_waits_runs N R tau sy Hd _ _ _ _ _ _ _ _ _ _ H) as (v & t & Hr & Hs & Hc & Hram & He & Hq & Hh).
  exists v, t. cbv zeta. do 6 (split; [done|]). split; [intros va; apply (changes_translate _ _ _ _ _ _ Hc)|].
  intros a Ha Hn. apply (ch_rest _ _ _ _ _ Hc); [done|]. intros (x & Hx & Hin & E). by apply (Hn x).
Qed.

(** C14: A send to a process that is not waiting, when the heap has a block for
    an element: the call gets to its yield; a new element at the end of the
    receiver's queue holds the packet, the sender's pid and the physical
    addresses of its buffers, which the receive and the reply go by; only a
    ready receiver makes the sender block; the heap is as kalloc specifies;
    every address resolves as before and no memory but the heap's headers, the
    element and the queue's words changed. *)
Theorem send_queues N R tau sy k regs msg m spid ps pr c r rst l blocks q blocks' :
  kernel_data R tau -> queueing N R tau sy k regs msg m spid ps pr c r rst l blocks q blocks' ->
  exists v t, let P := ram N R tau v in
    send_body sy regs k = Ret true (set_vm v (set_pt t k)) /\
    match rst with PROC_READY => state_set c PROC_REPLY_BLOCKED (sched_off (pt k)) t | _ => t = sched_off (pt k) end /\
    elem N q v (packet_words (queued m spid ps pr)) /\
    queue_rep (P:=P) (R:=R) msgs_field (mach v) (queue_of sy r) (l ++ [q]) /\ heap_rep (P:=P) (R:=R) (mach v) blocks' /\ P (mach v) /\
    (forall va, 0 <= va < 4294967296 -> pd_index va <> 1023 -> translate (mach v) va = translate (mach (vm k)) va) /\
    (forall a, plain N (vm k) a -> (forall x, R x -> new_at (queue_of sy r) l q blocks' x -> tau x <> a) ->
       pbyte (phys (mach v)) a = pbyte (phys (mach (vm k))) a).
Proof.
  intros Hd H. destruct (send_queues_runs N R tau sy Hd _ _ _ _ _ _ _ _ _ _ _ _ _ _ H) as (v & t & Hr & Hs & Hc & Hram & He & Hq & Hh).
  exists v, t. cbv zeta. do 6 (split; [done|]). split; [intros va; apply (changes_translate _ _ _ _ _ _ Hc)|].
  intros a Ha Hn. apply (ch_rest _ _ _ _ _ Hc); [done|]. intros (x & Hx & Hin & E). by apply (Hn x).
Qed.

(** *** On a fresh heap

    One free block of 1000 bytes and an empty queue; the packet of the process
    that runs is at 0xe4000800. *)
Definition fresh_packet : msg_packet := MsgPacket 0 2 3825207360 3825207376 6 4 0 0 0.
Definition fresh_page : list byte :=
  le_split 2 47806 ++ [byte.of_Z BLOCK_UNUSED; Byte.x00] ++ words [0; 1000] ++ repeat Byte.x00 116 ++
  words (repeat 0 11 ++ [3825207296]) ++ repeat Byte.x00 80 ++ words [0; 3825205504] ++ repeat Byte.x00 1784 ++
  words (packet_words fresh_packet).
Definition k_fresh (t : ptable) : kst := set_pt t (set_vm (vm_kern fresh_page) k_heap).

Lemma fresh_fits : Z.of_nat (length fresh_page) <= 4096.
Proof. vm_compute. discriminate. Qed.
Ltac fresh_num n a v := apply (kern_num fresh_page fresh_fits n a v); [lia|lia|vm_compute; reflexivity].
Notation kram := (ram 1024 kern_range kern_to (vm_kern fresh_page)).

Lemma fresh_queue : queue_rep (P:=kram) (R:=kern_range) msgs_field (mach (vm_kern fresh_page)) kern_head [].
Proof.
  split; [exact (kern_ram _ fresh_fits)| | | |done].
  - split; [intros i Hi; unfold kern_range, kern_head in *; lia|intros e He; by apply not_elem_of_nil in He|done].
  - assert (Hn : num_held 1024 (vm_kern fresh_page) 4 3825205504 0) by fresh_num 4%nat 3825205504 0. exact (proj1 Hn).
  - assert (Hn : num_held 1024 (vm_kern fresh_page) 4 3825205508 3825205504) by fresh_num 4%nat 3825205508 3825205504. exact (proj1 Hn).
Qed.

Lemma fresh_heap : heap_rep (P:=kram) (R:=kern_range) (mach (vm_kern fresh_page)) [Blk 3825205248 false 1000].
Proof.
  split; [exact (kern_ram _ fresh_fits)|]. split; [reflexivity|]. split; [done|]. split; [|done].
  assert (H1 : num_held 1024 (vm_kern fresh_page) 2 3825205248 47806) by fresh_num 2%nat 3825205248 47806.
  assert (H2 : num_held 1024 (vm_kern fresh_page) 1 3825205250 BLOCK_UNUSED) by fresh_num 1%nat 3825205250 BLOCK_UNUSED.
  assert (H3 : num_held 1024 (vm_kern fresh_page) 4 3825205252 0) by fresh_num 4%nat 3825205252 0.
  assert (H4 : num_held 1024 (vm_kern fresh_page) 4 3825205256 1000) by fresh_num 4%nat 3825205256 1000.
  split; cbn [b_addr b_size head_addr]; [done| |exact (proj1 H1)|exact (proj1 H2)|exact (proj1 H3)|exact (proj1 H4)|lia].
  intros i Hi. unfold kern_range. lia.
Qed.

Lemma fresh_packet_at : packet_at 1024 (vm_kern fresh_page) 3825207296 fresh_packet (kernel_at kern_range kern_to).
Proof.
  intros j w Hj. assert (Hlt : (j < 9)%nat) by exact (lookup_lt_Some _ _ _ Hj). split.
  - do 9 (destruct j as [|j]; [injection Hj as <-; match goal with |- num_held _ _ _ ?a ?v => let x := eval vm_compute in a in fresh_num 4%nat x v end|]). lia.
  - rewrite u32_small by lia. intros i x Hi. rewrite u32_small, (vm_kern_translate _ fresh_fits), decide_True by lia. intros [= <-].
    unfold kern_to. intros (b & Hb & E). unfold kern_range, kern_to in *. lia.
Qed.

Lemma fresh_making t : making 1024 kern_range kern_to (k_fresh t) 3825207296 fresh_packet kern_head [] [Blk 3825205248 false 1000]
  kern_elem [Blk 3825205248 true 40; Blk 3825205300 false 948].
Proof.
  change (vm (k_fresh t)) with (vm_kern fresh_page). split; change (vm (k_fresh t)) with (vm_kern fresh_page).
  - exact (vm_kern_inv _ fresh_fits).
  - exact (kern_ram _ fresh_fits).
  - reflexivity.
  - exact fresh_heap.
  - split; [|apply (Nat.ltb_lt 1 heap_fuel); vm_compute; reflexivity]. intros i Hi. cbn [b_addr] in *. unfold kern_range, sizeof_msg_packet_queue. lia.
  - split; [reflexivity|discriminate].
  - intros i Hi. unfold kern_range, kern_elem. lia.
  - intros b Hb. unfold kern_elem. apply elem_of_cons in Hb as [->|Hb]; [cbn [b_addr]; lia|].
    apply list_elem_of_singleton in Hb as ->. cbn [b_addr]. lia.
  - exact fresh_queue.
  - cbn [app]. unfold kern_head, kern_elem. split.
    + intros i Hi. unfold kern_range. lia.
    + intros e ->%list_elem_of_singleton. unfold msgs_field. split; [lia|]. split; [intros i Hi; unfold kern_range; lia|lia].
    + intros i j e1 e2 Hi Hj Hne. apply lookup_lt_Some in Hi, Hj. cbn in Hi, Hj. lia.
  - unfold queue_words, kern_head, kern_elem. intros a [Ha|(e & He & _)]; [lia|by apply not_elem_of_nil in He].
  - unfold queue_words, kern_head. intros b a Hb [Ha|(e & He & _)]; [|by apply not_elem_of_nil in He].
    apply elem_of_cons in Hb as [->|Hb]; [cbn [b_addr]; lia|]. apply list_elem_of_singleton in Hb as ->. cbn [b_addr]. lia.
  - split; [exact fresh_packet_at|lia].
Qed.

Definition pt_waits : ptable := PTable [Proc 2 PROC_READY [] false false 0 0 0 0 0 0 0] 3 None (Some 0) true 0.
Definition pt_queues : ptable :=
  PTable [Proc 2 PROC_READY [] false false 0 0 0 0 0 0 0; Proc 1 PROC_READY [] false false 0 0 0 0 0 0 0] 3 None (Some 1) true 0.

Lemma fresh_waiting : waiting 1024 kern_range kern_to kern_syms (k_fresh pt_waits) 3825205376 3825207296 fresh_packet 755792 755712 0
  [Blk 3825205248 false 1000] kern_elem [Blk 3825205248 true 40; Blk 3825205300 false 948].
Proof.
  split; [|fresh_num 4%nat 3825205420 3825207296|exact (fresh_making pt_waits)|].
  - split; [reflexivity|]. by eexists.
  - split; [exact (vm_kern_mapped _ fresh_fits 3825207376 ltac:(lia))|exact (vm_kern_mapped _ fresh_fits 3825207296 ltac:(lia))].
Qed.

(** The receiver blocks, and its element is in the queue. *)
Lemma receive_waits_witness : exists v t,
  recv_body kern_syms 3825205376 (k_fresh pt_waits) = Ret tt (set_vm v (set_pt t (k_fresh pt_waits))) /\
  state_set 0 PROC_RECV_BLOCKED (sched_off pt_waits) t /\
  elem 1024 kern_elem v [0; 2; 3825207360; 3825207376; 6; 4; 0; 755792; 755712] /\
  queue_rep (P:=ram 1024 kern_range kern_to v) (R:=kern_range) msgs_field (mach v) kern_head [kern_elem].
Proof.
  destruct (receive_waits 1024 kern_range kern_to kern_syms (k_fresh pt_waits) 3825205376 3825207296 fresh_packet 755792 755712 0
    [Blk 3825205248 false 1000] kern_elem [Blk 3825205248 true 40; Blk 3825205300 false 948] kern_data fresh_waiting)
    as (v & t & Hr & Hs & He & Hq & _).
  exists v, t. split; [exact Hr|]. split; [exact Hs|]. split; [exact He|exact Hq].
Defined.

Lemma fresh_queueing : queueing 1024 kern_range kern_to kern_syms (k_fresh pt_queues) 3825205376 3825207296 fresh_packet 1 755776 755792
  1 0 PROC_READY [] [Blk 3825205248 false 1000] kern_elem [Blk 3825205248 true 40; Blk 3825205300 false 948].
Proof.
  split; [|fresh_num 4%nat 3825205420 3825207296|reflexivity| |exact (fresh_making pt_queues)|].
  - split; [reflexivity|]. eexists. split; [reflexivity|]. split; [reflexivity|lia].
  - eexists. split; [reflexivity|]. split; [reflexivity|discriminate].
  - split; [exact (vm_kern_mapped _ fresh_fits 3825207360 ltac:(lia))|exact (vm_kern_mapped _ fresh_fits 3825207376 ltac:(lia))].
Qed.

(** The sender blocks until the reply, and its message is in the queue. *)
Lemma send_queues_witness : exists v t,
  send_body kern_syms 3825205376 (k_fresh pt_queues) = Ret true (set_vm v (set_pt t (k_fresh pt_queues))) /\
  state_set 1 PROC_REPLY_BLOCKED (sched_off pt_queues) t /\
  elem 1024 kern_elem v [1; 2; 3825207360; 3825207376; 6; 4; 755776; 755792; 0] /\
  queue_rep (P:=ram 1024 kern_range kern_to v) (R:=kern_range) msgs_field (mach v) kern_head [kern_elem].
Proof.
  destruct (send_queues 1024 kern_range kern_to kern_syms (k_fresh pt_queues) 3825205376 3825207296 fresh_packet 1 755776 755792
    1 0 PROC_READY [] [Blk 3825205248 false 1000] kern_elem [Blk 3825205248 true 40; Blk 3825205300 false 948] kern_data fresh_queueing)
    as (v & t & Hr & Hs & He & Hq & _).
  exists v, t. split; [exact Hr|]. split; [exact Hs|]. split; [exact He|exact Hq].
Defined.
