(* ===== verification/Send.v ===== *)
(** * Send.v: a send to a receiver that waits (kernel/syscall.c:
      syscall_send_msg)

    The element that the receiver left in its queue is filled in, the bytes go
    to the receiver's buffer and the sender's pid to the receiver's packet,
    both through windows. *)

From S2P Require Import Prelude Memory Machine Pm Vm Heap Queue Desc Proc Load Window Syscall Ram Element.

(** The word stored at the physical address [x] *)
Lemma num_pload N s a x v : num_held N s 4 a v -> (forall i, 0 <= i < 4 -> translate (mach s) (u32 (a + i)) = Some (x + i)) ->
  0 <= a < 4294967296 -> pload32 (phys (mach s)) x = v.
Proof.
  intros [H _] Ht Ha. unfold loadn in H. cbn [rdn] in H.
  assert (Hr : forall i, 0 <= i < 4 -> rd8 (u32 (a + i)) (mach s) = Some (pbyte (phys (mach s)) (x + i))).
  { intros i Hi. cbn [rd8 machine_ops]. by rewrite Ht. }
  rewrite <- (u32_small a Ha) in H at 1. rewrite <- (Z.add_0_r a) in H at 1. repeat (rewrite u32_add_l in H || rewrite <- Z.add_assoc in H).
  rewrite !Hr in H by lia. cbn [mbind option_bind] in H.
  injection H as <-. unfold pload32. by rewrite Z.add_0_r.
Qed.

(** The mapping of the receiver's packet, whose first word is in one page *)
Record packet_window (N : Z) (s : vmst) (base pp : Z) : Prop := {
  pw_base : 0 <= base /\ base mod 4096 = 0 /\ base + 4096 <= 4290772992;
  pw_range : 0 <= pp < 4294967296 /\ PALIGNDOWN pp + 4096 <= 4294967296;
  pw_fits : pp mod 4096 + 4 <= 4096;
  pw_free : free_frames N 1 (pms s);
  pw_unmapped : unmapped s base 4096;
  pw_dest : forall i, 0 <= i < 4 -> plain N s (pp + i);
}.

Lemma packet_window_changes N f D s s' base pp : changes N f D s s' -> free_frames N 1 (pms s') ->
  packet_window N s base pp -> packet_window N s' base pp.
Proof.
  intros H Hf [H1 H2 H3 H4 H5 H6]. split; try done.
  - apply (changes_unmapped N f D s); [done|lia|lia|done].
  - intros i Hi. apply (ch_plain _ _ _ _ _ H). by apply H6.
Qed.

(** The sender's pid through that mapping *)
Lemma tell_sender_ok N k base pp v : vm_inv N (vm k) -> packet_window N (vm k) base pp -> 0 <= v < 4294967296 ->
  let mapped := base +w Z.land pp 4095 in
  exists v1 w s, on_vm (map_pages pp mapped 0 sizeof_msg_packet) k = Ret tt (set_vm v1 k) /\
    st (m_sender mapped) v (set_vm v1 k) = Ret tt (set_vm w k) /\
    on_vm (unmap_pages mapped sizeof_msg_packet) (set_vm w k) = Ret tt (set_vm s k) /\
    changes N 1 (within pp 4) (vm k) s /\ pload32 (phys (mach s)) pp = v.
Proof.
  intros Hinv [(Hb1 & Hb2 & Hb3) (Hp1 & Hp2) Hf Hfr Hun Hd] Hv. pose proof (Z.mod_pos_bound pp 4096 eq_refl) as Hm.
  pose proof (PALIGNDOWN_eq pp Hp1) as Hpp.
  set (a := base + pp mod 4096). assert (Ha : u32 (base + Z.land pp 4095) = a) by (rewrite land_fff; apply u32_small; lia).
  assert (Hpa : PALIGNDOWN a = base) by (unfold a; rewrite PALIGNDOWN_eq by lia; zdm).
  assert (Hal : 0 <= a < 4294967296) by (unfold a; lia).
  destruct (map_pages_ok N (vm k) pp a 0 sizeof_msg_packet) as (v1 & Hmap & Hr); try (change (npages sizeof_msg_packet) with 1);
    rewrite ?Hpa; try done; try lia.
  change (npages sizeof_msg_packet) with 1 in Hr. rewrite Hpa in Hr.
  assert (Hto : forall i, 0 <= i < 4 -> u32 (a + i) = a + i /\ pd_index (a + i) <> 1023 /\ translate (mach v1) (a + i) = Some (pp + i)).
  { intros i Hi. unfold a. split; [apply u32_small; lia|]. split; [apply window_bound; lia|].
    rewrite (mr_translate _ _ _ _ _ _ Hr) by (try apply window_bound; lia). rewrite decide_True by lia. f_equal. lia. }
  assert (Hwd : word_dest N v1 a (seqZ pp 4)).
  { split; [done|by rewrite length_seqZ| | |apply NoDup_seqZ].
    - intros i q [-> Hi]%lookup_seqZ. destruct (Hto (Z.of_nat i) ltac:(lia)) as (-> & _ & ->). split; [done|].
      apply (mr_plain _ _ _ _ _ _ Hr), Hd. lia.
    - intros i Hi. destruct (Hto i Hi) as (-> & Hw & _). done. }
  destruct (st_word N (set_vm v1 k) a (seqZ pp 4) v (mr_inv _ _ _ _ _ _ Hr) Hwd Hv) as (w & Hst & Hc & Hn).
  change (vm (set_vm v1 k)) with v1 in Hc.
  destruct (unmap_pages_ok N w base sizeof_msg_packet) as (v2 & Hu & Hum); try (change (npages sizeof_msg_packet) with 1); try done;
    [apply (ch_inv _ _ _ _ _ Hc)| |].
  { intros va Hva. rewrite (changes_translate _ _ _ _ _ _ Hc), (mr_translate _ _ _ _ _ _ Hr) by (try apply window_bound; lia).
    by rewrite decide_True by lia. }
  change (npages sizeof_msg_packet) with 1 in Hum. cbv zeta. rewrite Ha. exists v1, w, v2.
  split; [by apply on_vm_Ret|]. split; [exact Hst|]. split; [|split].
  - unfold a. rewrite unmap_pages_within by lia. by apply (on_vm_Ret _ (set_vm w k)).
  - apply (windowed N base (PALIGNDOWN pp) 1 _ (vm k) v1 w v2); try done. eapply changes_weaken; [exact Hc|].
    intros x Hx%elem_of_seqZ. exact Hx.
  - rewrite <- (num_pload N w a pp v Hn); [|intros i Hi|done].
    + unfold pload32. f_equal. pose proof (um_plain _ _ _ _ _ Hum) as Hpl.
      assert (He : forall i, 0 <= i < 4 -> pbyte (phys (mach v2)) (pp + i) = pbyte (phys (mach w)) (pp + i)).
      { intros i Hi. apply Hpl. apply (ch_plain _ _ _ _ _ Hc), (mr_plain _ _ _ _ _ _ Hr), Hd. done. }
      pose proof (He 0 ltac:(lia)) as H0. rewrite Z.add_0_r in H0. by rewrite H0, !He by lia.
    + destruct (Hto i Hi) as (-> & Hw & Ht). rewrite (changes_translate _ _ _ _ _ _ Hc); [done|lia|done].
Qed.

(** ** The send *)

(** Where a send to the waiting element [q] with the packet [e] writes *)
Definition writes_at (tau : Z -> Z) (q : Z) (e : msg_packet) (x : Z) : Prop :=
  (exists a, q <= a < q + 36 /\ tau a = x) \/ within (p_phys_recv_buf e) (p_recv_len e) x \/
  within (p_phys_msg_packet e) 4 x.

(** The element afterwards: what the reply will go by *)
Definition filled (e m : msg_packet) (spid ps pr : Z) : msg_packet :=
  MsgPacket spid (p_receiver e) (p_send_buf m) (p_recv_buf m) (p_send_len m) (p_recv_len m) ps pr (p_phys_msg_packet e).

(** The parts of send_deliver after the element is stamped *)
Definition deliver_closes (msg r q : Z) : M kst unit :=
  v ← ld (m_recv_buf msg); st (m_recv_buf q) v ≫= fun _ =>
  v ← ld (m_recv_len msg); st (m_recv_len q) v ≫= fun _ =>
  v ← ld (m_recv_buf msg); v ← on_vm (vm_get_phys_mapping v);
  st (m_phys_recv_buf q) v ≫= fun _ =>
  on_pt (update r (with_state PROC_READY)).
Definition deliver_rest (msg r q spid mapped : Z) : M kst unit :=
  copy_out 3735879680 mapped msg q ≫= fun _ =>
  pa ← ld (m_phys_msg_packet q);
  let mapped_msg_packet := 3133014016 +w Z.land pa 4095 in
  on_vm (map_pages pa mapped_msg_packet 0 sizeof_msg_packet) ≫= fun _ =>
  st (m_sender mapped_msg_packet) spid ≫= fun _ =>
  on_vm (unmap_pages mapped_msg_packet sizeof_msg_packet) ≫= fun _ => deliver_closes msg r q.

(** The element once it is stamped *)
Definition stamped (e m : msg_packet) (spid ps : Z) : msg_packet :=
  MsgPacket spid (p_receiver e) (p_send_buf m) (p_recv_buf e) (p_send_len m) (p_recv_len e) ps (p_phys_recv_buf e) (p_phys_msg_packet e).

Section Send.
Variables (N : Z) (R : Z -> Prop) (tau : Z -> Z) (sy : symbols).
Hypothesis Hdata : kernel_data R tau.
Notation kram := (ram N R tau).

(** The process of slot [c], of pid [spid], sends the packet [m] at [msg] to
    the process of slot [r], which waits: the element [q], with the packet
    [e], is first in its queue.  [bs] are the bytes that go over. *)
Record sending (k : kst) (regs msg : Z) (m e : msg_packet) (spid : Z) (bs : list byte) (ps pr c r q : Z) (l : list Z) : Prop := {
  sn_inv : vm_inv N (vm k);
  sn_current : current_proc (pt k) = Some c /\ exists cp, zlookup (procs (pt k)) c = Some cp /\ pid cp = spid /\ 0 <= spid < 4294967296;
  sn_regs : num_held N (vm k) 4 (intregs_eax regs) msg;
  sn_msg : packet_at N (vm k) msg m (writes_at tau q e);
  sn_receiver : find_pid (procs (pt k)) 0 (p_receiver m) = Some r;
  sn_waits : exists rp, zlookup (procs (pt k)) r = Some rp /\ state rp = PROC_RECV_BLOCKED;
  sn_ram : kram (vm k) (mach (vm k));
  sn_queue : queue_rep (P:=kram (vm k)) (R:=R) msgs_field (mach (vm k)) (queue_of sy r) (q :: l);
  sn_element : span R q 40 /\ elem N q (vm k) (packet_words e);
  sn_head : queue_of sy r + 8 <= q \/ q + 36 <= queue_of sy r;
  sn_links : forall x, x ∈ l -> x + msgs_field + 4 <= q \/ q + 36 <= x + msgs_field;
  sn_buf : p_recv_buf e mod 4096 = p_phys_recv_buf e mod 4096;
  sn_len : p_recv_len e = Z.of_nat (length bs);
  sn_maps : mapped_to (vm k) (p_send_buf m) ps /\ mapped_to (vm k) (p_recv_buf m) pr;
  sn_free : free_frames N (Z.to_nat (npages (p_recv_len e)) + 1) (pms (vm k));
  sn_window : window N (vm k) 3735879680 (p_phys_recv_buf e) (p_recv_len e);
  sn_fits : p_phys_recv_buf e mod 4096 + p_recv_len e <= 4096 * npages (p_recv_len e);
  sn_source : bytes_at N (vm k) (p_send_buf m) (writes_at tau q e) bs;
  sn_packet : packet_window N (vm k) 3133014016 (p_phys_msg_packet e);
  sn_apart : forall x, within (p_phys_recv_buf e) (p_recv_len e) x -> ~ within (p_phys_msg_packet e) 4 x;
  sn_away : forall a, R a -> ~ within (p_phys_recv_buf e) (p_recv_len e) (tau a) /\ ~ within (p_phys_msg_packet e) 4 (tau a);
}.

Lemma send_opens k regs msg m e spid bs ps pr c r q l : sending k regs msg m e spid bs ps pr c r q l ->
  send_body sy regs k = (send_deliver sy msg r ≫= fun _ => mret true) (set_pt (sched_off (pt k)) k).
Proof.
  intros H. destruct (sn_msg _ _ _ _ _ _ _ _ _ _ _ _ _ H 1%nat (p_receiver m) eq_refl) as [Hrp _].
  destruct (sn_waits _ _ _ _ _ _ _ _ _ _ _ _ _ H) as (rp & Hlk & Hst).
  unfold send_body. set (k1 := set_pt (sched_off (pt k)) k).
  rewrite (bind_Ret (on_pt proc_disable_scheduling) _ k tt k1 eq_refl).
  rewrite (bind_Ret _ _ _ _ _ (num_read N k1 _ _ _ (sn_regs _ _ _ _ _ _ _ _ _ _ _ _ _ H))).
  rewrite (bind_Ret (ld (m_receiver msg)) _ k1 (p_receiver m) k1) by (exact (num_read N k1 4 _ _ Hrp)).
  rewrite (bind_Ret (on_pt (proc_find_by_pid (p_receiver m))) _ k1 (Some r) k1).
  2:{ unfold on_pt, zoom, proc_find_by_pid. cbn [k1 set_pt pt sched_off set_sched procs].
      by rewrite (sn_receiver _ _ _ _ _ _ _ _ _ _ _ _ _ H). }
  assert (Hd : on_pt (deref (Some r)) k1 = Ret (r, rp) k1) by exact (on_pt_Ret _ _ _ _ (deref_Ret r (pt k1) rp Hlk)).
  rewrite (bind_Ret _ _ _ _ _ Hd). cbn [snd]. rewrite decide_True by done.
  rewrite (bind_Ret (mret tt) _ k1 tt k1 eq_refl), (bind_Ret _ _ _ _ _ Hd). cbn [snd]. by rewrite Hst.
Qed.

Section Sending.
Variables (k : kst) (regs msg : Z) (m e : msg_packet) (spid : Z) (bs : list byte) (ps pr c r q : Z) (l : list Z).
Hypothesis H : sending k regs msg m e spid bs ps pr c r q l.
Notation going := (along N (vm k) q (writes_at tau q e)).
Notation p := (p_phys_recv_buf e).
Notation pp := (p_phys_msg_packet e).
Let Hspan : span R q 40 := proj1 (sn_element _ _ _ _ _ _ _ _ _ _ _ _ _ H).
Let Hram : kram (vm k) (mach (vm k)) := sn_ram _ _ _ _ _ _ _ _ _ _ _ _ _ H.

Lemma writes_at_element a : q <= a < q + 36 -> writes_at tau q e (tau a).
Proof using. intros Ha. left. by exists a. Qed.

Lemma sending_start : going 0 (vm k) (packet_words e).
Proof using H.
  split; [apply changes_refl, (sn_inv _ _ _ _ _ _ _ _ _ _ _ _ _ H)|apply (sn_element _ _ _ _ _ _ _ _ _ _ _ _ _ H)|done].
Qed.

(** A word of the message *)
Lemma sending_msg f k' ws j w : going f (vm k') ws -> packet_words m !! j = Some w -> ld (msg +w (4 * Z.of_nat j)) k' = Ret w k'.
Proof using H.
  intros Ha Hj. destruct (sn_msg _ _ _ _ _ _ _ _ _ _ _ _ _ H j w Hj) as [Hn Ho].
  exact (along_msg N (vm k) q (writes_at tau q e) f k' ws _ w Ha Hn (u32_range _) Ho).
Qed.

Lemma sending_word j w : packet_words m !! j = Some w -> 0 <= w < 4294967296.
Proof using H. intros Hj. apply (num_range N (vm k) _ _ (proj1 (sn_msg _ _ _ _ _ _ _ _ _ _ _ _ _ H j w Hj))). Qed.

(** A store to the element *)
Lemma sending_st f k' ws j x off : going f (vm k') ws -> off = 4 * Z.of_nat j -> (j < 9)%nat -> 0 <= x < 4294967296 ->
  exists s, st (q +w off) x k' = Ret tt (set_vm s k') /\ going f s (<[j := x]> ws) /\
    changes N 0 (fun y => exists b, q <= b < q + 36 /\ tau b = y) (vm k') s.
Proof using H Hdata.
  intros Ha -> Hj Hx. apply (along_st N R tau (vm k) q (writes_at tau q e) Hdata Hram Hspan writes_at_element f k' ws j x); try done.
  apply (field_at R tau q Hdata Hspan). lia.
Qed.

Lemma sending_ld f k' ws j w off : going f (vm k') ws -> ws !! j = Some w -> off = 4 * Z.of_nat j ->
  ld (q +w off) k' = Ret w k'.
Proof using H Hdata.
  intros Ha Hj ->. apply (along_ld N (vm k) q (writes_at tau q e) f k' ws j w); try done. apply (field_at R tau q Hdata Hspan).
  apply lookup_lt_Some in Hj. rewrite (al_length _ _ _ _ _ _ _ Ha) in Hj. lia.
Qed.

(** The element is stamped, and [X] goes on from there. *)
Lemma deliver_stamps k' : vm k' = vm k ->
  exists v, going 0 v (packet_words (stamped e m spid ps)) /\
    forall X : M kst unit,
    (st (m_sender q) spid ≫= fun _ =>
     v ← ld (m_send_buf msg); st (m_send_buf q) v ≫= fun _ =>
     v ← ld (m_send_len msg); st (m_send_len q) v ≫= fun _ =>
     v ← ld (m_send_buf msg); v ← on_vm (vm_get_phys_mapping v);
     st (m_phys_send_buf q) v ≫= fun _ => X) k' = X (set_vm v k').
Proof using H Hdata.
  intros Hk. assert (A0 : going 0 (vm k') (packet_words e)) by (rewrite Hk; exact sending_start).
  assert (Hq : m_sender q = q +w 0) by (rewrite (field_at R tau q Hdata Hspan) by lia; symmetry; apply Z.add_0_r).
  destruct (sn_current _ _ _ _ _ _ _ _ _ _ _ _ _ H) as (_ & cp & _ & _ & Hspid). rewrite Hq.
  destruct (sending_st 0 k' _ 0%nat spid 0 A0 eq_refl ltac:(lia) Hspid) as (v1 & E1 & A1 & _).
  destruct (sending_st 0 (set_vm v1 k') _ 2%nat _ 8 A1 eq_refl ltac:(lia) (sending_word 2 _ eq_refl)) as (v2 & E2 & A2 & _).
  destruct (sending_st 0 (set_vm v2 k') _ 4%nat _ 16 A2 eq_refl ltac:(lia) (sending_word 4 _ eq_refl)) as (v3 & E3 & A3 & _).
  destruct (sending_st 0 (set_vm v3 k') _ 6%nat ps 24 A3 eq_refl ltac:(lia)
    (mapped_to_range _ _ _ (proj1 (sn_maps _ _ _ _ _ _ _ _ _ _ _ _ _ H)))) as (v4 & E4 & A4 & _).
  exists v4. split; [exact A4|intros X].
  rewrite (bind_Ret _ _ _ _ _ E1), (bind_Ret _ _ _ _ _ (sending_msg 0 (set_vm v1 k') _ 2 _ A1 eq_refl)).
  rewrite (bind_Ret _ _ _ _ _ E2), (bind_Ret _ _ _ _ _ (sending_msg 0 (set_vm v2 k') _ 4 _ A2 eq_refl)).
  rewrite (bind_Ret _ _ _ _ _ E3), (bind_Ret _ _ _ _ _ (sending_msg 0 (set_vm v3 k') _ 2 _ A3 eq_refl)).
  rewrite (bind_Ret _ _ _ _ _ (along_map N (vm k) q _ 0 (set_vm v3 k') _ _ _ A3 (proj1 (sn_maps _ _ _ _ _ _ _ _ _ _ _ _ _ H)))).
  exact (bind_Ret _ _ _ _ _ E4).
Qed.

Lemma deliver_opens : exists v t1, state_set c PROC_SEND_BLOCKED (sched_off (pt k)) t1 /\
  going 0 v (packet_words (stamped e m spid ps)) /\
  send_deliver sy msg r (set_pt (sched_off (pt k)) k) =
    deliver_rest msg r q spid (3735879680 + p mod 4096) (set_vm v (set_pt t1 k)).
Proof using H Hdata.
  destruct (sn_current _ _ _ _ _ _ _ _ _ _ _ _ _ H) as (Hc & cp & Hcp & Hpid & _).
  set (k1 := set_pt (sched_off (pt k)) k).
  set (t1 := set_procs (zupdate c (with_state PROC_SEND_BLOCKED cp) (procs (pt k))) (sched_off (pt k))).
  destruct (deliver_stamps (set_pt t1 k) eq_refl) as (v & Hv & E). exists v, t1. split; [by exists cp|]. split; [done|].
  pose proof (kernel_region N R tau Hdata (pms (vm k)) (mach (vm k)) : MemRegion (kram (vm k)) R) as MR.
  destruct (queue_first _ _ _ _ (sn_queue _ _ _ _ _ _ _ _ _ _ _ _ _ H)) as [Hqf _].
  unfold send_deliver. rewrite (bind_Ret _ _ _ _ _ (this_proc_Ret k1 c cp Hc Hcp)). cbn [fst snd]. rewrite Hpid.
  rewrite (bind_Ret (on_pt (update c (with_state PROC_SEND_BLOCKED))) _ k1 tt (set_pt t1 k)).
  2:{ exact (on_pt_Ret _ _ _ _ (update_Ret c (with_state PROC_SEND_BLOCKED) (sched_off (pt k)) cp Hcp)). }
  rewrite (bind_Ret _ _ _ _ _ (on_mem_read _ (set_pt t1 k) _ Hqf)). cbn [first_of]. cbv zeta.
  rewrite (bind_Ret (ld (m_recv_buf q)) _ (set_pt t1 k) (p_recv_buf e) (set_pt t1 k))
    by (exact (sending_ld 0 (set_pt t1 k) _ 3 _ 12 sending_start eq_refl eq_refl)).
  replace (u32 (3735879680 + Z.land (p_recv_buf e) 4095)) with (3735879680 + p mod 4096).
  2:{ rewrite land_fff, (sn_buf _ _ _ _ _ _ _ _ _ _ _ _ _ H). pose proof (Z.mod_pos_bound p 4096 eq_refl). symmetry. apply u32_small. lia. }
  exact (E (deliver_rest msg r q spid (3735879680 + p mod 4096))).
Qed.

Lemma sending_copy_ready k' : going 0 (vm k') (packet_words (stamped e m spid ps)) ->
  copy_ready N (vm k') msg q (p_send_buf m) p bs.
Proof using H Hdata.
  intros Ha. pose proof (al_changes _ _ _ _ _ _ _ Ha) as Hc. pose proof (al_elem _ _ _ _ _ _ _ Ha) as He.
  assert (Hf : forall j w off, packet_words (stamped e m spid ps) !! j = Some w -> off = 4 * Z.of_nat j -> 0 <= off < 40 ->
    num_held N (vm k') 4 (q +w off) w).
  { intros j w off Hj -> Ho. rewrite (field_at R tau q Hdata Hspan) by done. by apply He. }
  destruct (sn_msg _ _ _ _ _ _ _ _ _ _ _ _ _ H 2%nat _ eq_refl) as [Hm Hmo]. split.
  - apply (Hf 7%nat _ 28 eq_refl eq_refl). lia.
  - rewrite <- (sn_len _ _ _ _ _ _ _ _ _ _ _ _ _ H). apply (Hf 5%nat _ 20 eq_refl eq_refl). lia.
  - exact (changes_num _ _ _ _ _ _ _ _ Hc (u32_range _) Hmo Hm).
  - exact (sending_word 2 _ eq_refl).
  - assert (Hb : bytes_at N (vm k') (p_send_buf m) (writes_at tau q e) bs)
      by exact (bytes_at_changes _ _ _ _ _ _ _ _ Hc (fun _ Hx => Hx) (sn_source _ _ _ _ _ _ _ _ _ _ _ _ _ H)).
    intros i b Hi. destruct (Hb i b Hi) as (x & H1 & H2 & H3 & H4 & H5). exists x. repeat (split; [done|]).
    intros Hx. apply H5. right. left. by rewrite (sn_len _ _ _ _ _ _ _ _ _ _ _ _ _ H).
  - rewrite <- (sn_len _ _ _ _ _ _ _ _ _ _ _ _ _ H). unfold m_recv_len. rewrite (field_at R tau q Hdata Hspan) by lia.
    apply (kernel_outside N R tau Hdata); [exact (along_ram N R tau (vm k) q _ Hdata Hram _ _ _ Ha)|exact (word_span R q Hspan 5 ltac:(lia))|].
    intros b Hb. by apply (sn_away _ _ _ _ _ _ _ _ _ _ _ _ _ H).
Qed.

(** The bytes, and the sender's pid *)
Lemma deliver_copies k' : going 0 (vm k') (packet_words (stamped e m spid ps)) ->
  exists v, deliver_rest msg r q spid (3735879680 + p mod 4096) k' = deliver_closes msg r q (set_vm v k') /\
    going (Z.to_nat (npages (p_recv_len e)) + 1) v (packet_words (stamped e m spid ps)) /\
    (forall i b, bs !! i = Some b -> pbyte (phys (mach v)) (p + Z.of_nat i) = b) /\ pload32 (phys (mach v)) pp = spid.
Proof using H Hdata.
  intros Ha. pose proof (al_changes _ _ _ _ _ _ _ Ha) as Hc. pose proof (sn_len _ _ _ _ _ _ _ _ _ _ _ _ _ H) as Hlen.
  pose proof (ch_free _ _ _ _ _ Hc _ (sn_free _ _ _ _ _ _ _ _ _ _ _ _ _ H)) as Hfr.
  pose proof (sn_window _ _ _ _ _ _ _ _ _ _ _ _ _ H) as Hw. pose proof (sn_fits _ _ _ _ _ _ _ _ _ _ _ _ _ H) as Hfit.
  apply (window_changes _ _ _ _ _ _ _ _ Hc) in Hw; [|by eapply free_frames_le, Hfr; lia].
  destruct (copy_out_ok N 3735879680 msg q (p_send_buf m) p bs k') as (v1 & E1 & C1 & B1);
    [apply (ch_inv _ _ _ _ _ Hc)|by rewrite <- Hlen|by apply sending_copy_ready|by rewrite <- Hlen|].
  rewrite <- Hlen in C1. pose proof (sn_away _ _ _ _ _ _ _ _ _ _ _ _ _ H) as Haw.
  pose proof (along_changes N R tau (vm k) q _ Hdata Hram Hspan _ _ _ _ _ _ Ha C1
    (fun x Hx => or_intror (or_introl Hx)) (fun a Ha' => proj1 (Haw a Ha'))) as A1.
  destruct (sn_current _ _ _ _ _ _ _ _ _ _ _ _ _ H) as (_ & cp & _ & _ & Hspid).
  destruct (tell_sender_ok N (set_vm v1 k') 3133014016 pp spid) as (v2 & v3 & v4 & E2 & E3 & E4 & C4 & P4); try done.
  { apply (ch_inv _ _ _ _ _ C1). }
  { apply (packet_window_changes _ _ _ _ _ _ _ (al_changes _ _ _ _ _ _ _ A1)); [|apply (sn_packet _ _ _ _ _ _ _ _ _ _ _ _ _ H)].
    by apply (ch_free _ _ _ _ _ C1). }
  change (vm (set_vm v1 k')) with v1 in C4.
  pose proof (along_changes N R tau (vm k) q _ Hdata Hram Hspan _ _ _ _ _ _ A1 C4
    (fun x Hx => or_intror (or_intror Hx)) (fun a Ha' => proj2 (Haw a Ha'))) as A4.
  exists v4. split; [|split; [exact A4|split; [|exact P4]]].
  - unfold deliver_rest. rewrite (bind_Ret _ _ _ _ _ E1).
    rewrite (bind_Ret (ld (m_phys_msg_packet q)) _ (set_vm v1 k') pp (set_vm v1 k'))
      by (exact (sending_ld _ (set_vm v1 k') _ 8 _ 32 A1 eq_refl eq_refl)).
    cbv zeta. by rewrite (bind_Ret _ _ _ _ _ E2), (bind_Ret _ _ _ _ _ E3), (bind_Ret _ _ _ _ _ E4).
  - intros i b Hi. rewrite (ch_rest _ _ _ _ _ C4); [by apply B1| |].
    + apply (ch_plain _ _ _ _ _ C1), (wi_dest _ _ _ _ _ Hw). apply lookup_lt_Some in Hi. lia.
    + apply (sn_apart _ _ _ _ _ _ _ _ _ _ _ _ _ H). apply lookup_lt_Some in Hi. unfold within. lia.
Qed.

(** The rest of the element *)
Lemma deliver_closed f k' : going f (vm k') (packet_words (stamped e m spid ps)) ->
  exists v, deliver_closes msg r q k' = on_pt (update r (with_state PROC_READY)) (set_vm v k') /\
    going f v (packet_words (filled e m spid ps pr)) /\
    changes N 0 (fun y => exists b, q <= b < q + 36 /\ tau b = y) (vm k') v.
Proof using H Hdata.
  intros A0.
  destruct (sending_st f k' _ 3%nat _ 12 A0 eq_refl ltac:(lia) (sending_word 3 _ eq_refl)) as (v1 & E1 & A1 & C1).
  destruct (sending_st f (set_vm v1 k') _ 5%nat _ 20 A1 eq_refl ltac:(lia) (sending_word 5 _ eq_refl)) as (v2 & E2 & A2 & C2).
  destruct (sending_st f (set_vm v2 k') _ 7%nat pr 28 A2 eq_refl ltac:(lia)
    (mapped_to_range _ _ _ (proj2 (sn_maps _ _ _ _ _ _ _ _ _ _ _ _ _ H)))) as (v3 & E3 & A3 & C3).
  exists v3. split; [|split; [exact A3|exact (changes_trans _ 0 0 _ _ _ _ (changes_trans _ 0 0 _ _ _ _ C1 C2) C3)]].
  unfold deliver_closes. rewrite (bind_Ret _ _ _ _ _ (sending_msg f k' _ 3 _ A0 eq_refl)), (bind_Ret _ _ _ _ _ E1).
  rewrite (bind_Ret _ _ _ _ _ (sending_msg f (set_vm v1 k') _ 5 _ A1 eq_refl)), (bind_Ret _ _ _ _ _ E2).
  rewrite (bind_Ret _ _ _ _ _ (sending_msg f (set_vm v2 k') _ 3 _ A2 eq_refl)).
  rewrite (bind_Ret _ _ _ _ _ (along_map N (vm k) q _ f (set_vm v2 k') _ _ _ A2 (proj2 (sn_maps _ _ _ _ _ _ _ _ _ _ _ _ _ H)))).
  by rewrite (bind_Ret _ _ _ _ _ E3).
Qed.

Lemma send_runs : exists v t1 t f, send_body sy regs k = Ret true (set_vm v (set_pt t k)) /\
  state_set c PROC_SEND_BLOCKED (sched_off (pt k)) t1 /\ state_set r PROC_READY t1 t /\
  going f v (packet_words (filled e m spid ps pr)) /\
  (forall i b, bs !! i = Some b -> pbyte (phys (mach v)) (p + Z.of_nat i) = b) /\ pload32 (phys (mach v)) pp = spid.
Proof using H Hdata.
  destruct deliver_opens as (v1 & t1 & Hs & A1 & E1).
  destruct (deliver_copies (set_vm v1 (set_pt t1 k)) A1) as (v2 & E2 & A2 & B2 & P2).
  destruct (deliver_closed _ (set_vm v2 (set_pt t1 k)) A2) as (v3 & E3 & A3 & C3). change (vm (set_vm v2 (set_pt t1 k))) with v2 in C3.
  assert (Hr : exists rp, zlookup (procs t1) r = Some rp).
  { destruct (sn_waits _ _ _ _ _ _ _ _ _ _ _ _ _ H) as (rp & Hrp & _). destruct Hs as (cp & Hcp & ->).
    destruct (decide (c = r)) as [->|Hne]; [exists (with_state PROC_SEND_BLOCKED cp); by apply zlookup_zupdate_eq, (zlookup_Some_range _ _ cp)|].
    exists rp. cbn [procs set_procs]. by rewrite zlookup_zupdate_ne. }
  destruct Hr as [rp Hrp].
  assert (Hkeep : forall x, plain N (vm k) x -> within p (p_recv_len e) x \/ within pp 4 x ->
    pbyte (phys (mach v3)) x = pbyte (phys (mach v2)) x).
  { intros x Hx Hin. apply (ch_rest _ _ _ _ _ C3); [by apply (ch_plain _ _ _ _ _ (al_changes _ _ _ _ _ _ _ A2))|].
    intros (a & Ha & <-). destruct (sn_away _ _ _ _ _ _ _ _ _ _ _ _ _ H a) as [H1 H2]; [|by destruct Hin].
    replace a with (q + (a - q)) by lia. apply Hspan. lia. }
  eexists v3, t1, (set_procs (zupdate r (with_state PROC_READY rp) (procs t1)) t1), _.
  split; [|split; [done|split; [by exists rp|split; [exact A3|split]]]].
  - rewrite (send_opens _ _ _ _ _ _ _ _ _ _ _ _ _ H). refine (bind_Ret _ _ _ tt _ _).
    refine (eq_trans E1 (eq_trans E2 (eq_trans E3 _))). exact (on_pt_Ret _ _ _ _ (update_Ret r (with_state PROC_READY) t1 rp Hrp)).
  - pose proof (sn_len _ _ _ _ _ _ _ _ _ _ _ _ _ H) as Hlen. intros i b Hi. apply lookup_lt_Some in Hi as Hlt.
    rewrite Hkeep; [by apply B2|apply (wi_dest _ _ _ _ _ (sn_window _ _ _ _ _ _ _ _ _ _ _ _ _ H)); lia|].
    left. unfold within. lia.
  - rewrite <- P2. unfold pload32. pose proof (pw_dest _ _ _ _ (sn_packet _ _ _ _ _ _ _ _ _ _ _ _ _ H)) as Hd.
    pose proof (Hd 0 ltac:(lia)) as H0. rewrite Z.add_0_r in H0. by rewrite !Hkeep by (first [exact H0|apply Hd; lia|right; unfold within; lia]).
Qed.

(** What is beside the element, and the queue *)
Lemma sent_beside a : R a -> ~ (q <= a < q + 36) -> ~ writes_at tau q e (tau a).
Proof using H Hdata.
  intros Ha Hn. destruct (sn_away _ _ _ _ _ _ _ _ _ _ _ _ _ H a Ha) as [H1 H2]. intros [(x & Hx & E)|[?|?]]; [|done..].
  apply (kd_inj _ _ Hdata) in E as ->; [done| |done]. replace x with (q + (x - q)) by lia. apply Hspan. lia.
Qed.

Lemma sent_queue f v : changes N f (writes_at tau q e) (vm k) v ->
  queue_rep (P:=kram v) (R:=R) msgs_field (mach v) (queue_of sy r) (q :: l).
Proof using H Hdata.
  intros Hc. apply (queue_kept N R tau _ _ _ _ _ _ _ Hdata Hc Hram (sn_queue _ _ _ _ _ _ _ _ _ _ _ _ _ H)).
  intros a Ha Hw. apply sent_beside; [done|]. destruct Hw as [Hh|(x & [->|Hx]%elem_of_cons & Hl)].
  - pose proof (sn_head _ _ _ _ _ _ _ _ _ _ _ _ _ H). lia.
  - unfold msgs_field in Hl. lia.
  - pose proof (sn_links _ _ _ _ _ _ _ _ _ _ _ _ _ H x Hx). lia.
Qed.
End Sending.
End Send.

(** C10: A send to a process that waits in ipc_recv, when the kernel's queue,
    heap and tables are apart from the two processes' memory: the call gets to
    its yield; the receiver's buffer, in its own address space, holds exactly
    the bytes sent and its packet the sender's pid; the element stays in the
    queue and now describes the sender's buffers, which the reply goes by; the
    rest of the queue and the heap are as they were; the sender is blocked and
    the receiver ready; every address resolves as before and no memory but the
    element, the buffer and the packet's first word changed. *)
Theorem send_delivers N R tau sy k regs msg m e spid bs ps pr c r q l :
  kernel_data R tau -> sending N R tau sy k regs msg m e spid bs ps pr c r q l ->
  exists v t1 t, let P := ram N R tau v in
    send_body sy regs k = Ret true (set_vm v (set_pt t k)) /\
    state_set c PROC_SEND_BLOCKED (sched_off (pt k)) t1 /\ state_set r PROC_READY t1 t /\
    (forall i x, bs !! i = Some x -> pbyte (phys (mach v)) (p_phys_recv_buf e + Z.of_nat i) = x) /\
    pload32 (phys (mach v)) (p_phys_msg_packet e) = spid /\
    elem N q v (packet_words (filled e m spid ps pr)) /\
    queue_rep (P:=P) (R:=R) msgs_field (mach v) (queue_of sy r) (q :: l) /\
    (forall blocks, (forall b, b ∈ blocks -> b_addr b + 12 <= q \/ q + 36 <= b_addr b) ->
       heap_rep (P:=ram N R tau (vm k)) (R:=R) (mach (vm k)) blocks -> heap_rep (P:=P) (R:=R) (mach v) blocks) /\
    P (mach v) /\
    (forall va, 0 <= va < 4294967296 -> pd_index va <> 1023 -> translate (mach v) va = translate (mach (vm k)) va) /\
    (forall a, plain N (vm k) a -> ~ writes_at tau q e a -> pbyte (phys (mach v)) a = pbyte (phys (mach (vm k))) a).
Proof.
  intros Hd H. destruct (send_runs N R tau sy Hd k regs msg m e spid bs ps pr c r q l H)
    as (v & t1 & t & f & Hr & Hs1 & Hs2 & [Hc He _] & Hb & Hp).
  pose proof (sn_ram _ _ _ _ _ _ _ _ _ _ _ _ _ _ _ _ _ H) as Hram. pose proof (ram_kept N R tau Hd _ _ _ _ Hc Hram) as Hv.
  assert (Hsame : forall a, R a -> ~ (q <= a < q + 36) -> rd8 a (mach v) = rd8 a (mach (vm k))).
  { intros a Ha Hn. apply (ram_read N R tau Hd _ _ _ _ a Hc Hram Ha). by apply (sent_beside N R tau sy Hd _ _ _ _ _ _ _ _ _ _ _ _ _ H). }
  pose proof (kernel_region N R tau Hd (pms (vm k)) (mach (vm k)) : MemRegion (ram N R tau (vm k)) R) as MR.
  exists v, t1, t. cbv zeta. do 6 (split; [done|]). split; [|split; [|split; [done|split]]].
  - exact (sent_queue N R tau sy Hd _ _ _ _ _ _ _ _ _ _ _ _ _ H _ _ Hc).
  - intros blocks Hbl Hh. apply (heap_moved (P:=ram N R tau (vm k)) (mach (vm k)) (mach v) Hv _ Hh).
    intros b a Hin Ha Hl. apply Hsame; [done|]. specialize (Hbl b Hin). lia.
  - intros va. apply (changes_translate _ _ _ _ _ _ Hc).
  - apply (ch_rest _ _ _ _ _ Hc).
Qed.

(** *** A concrete send

    Process 2, in slot 1, waits for 6 bytes at 0x8064 with its packet at 0x9010;
    process 1 sends it the six at 0xe4000840 and wants up to 4 bytes at
    0xe4000850 in reply. *)
Definition waiting_packet : msg_packet := MsgPacket 0 0 0 20580 0 6 0 32868 36880.
Definition sent_packet : msg_packet := MsgPacket 0 2 3825207360 3825207376 6 4 0 0 0.
Definition snd_page : list byte :=
  kern_page (packet_words waiting_packet ++ [0]) 3825207296
    (words (packet_words sent_packet) ++ repeat Byte.x00 28 ++ hello ++ repeat Byte.x00 16).

Definition pt_snd : ptable :=
  PTable [Proc 2 PROC_RECV_BLOCKED [] false false 0 0 0 0 0 0 0; Proc 1 PROC_READY [] false false 0 0 0 0 0 0 0]
    3 None (Some 1) true 0.
Definition k_snd : kst := set_pt pt_snd (set_vm (vm_kern snd_page) k_heap).

Lemma snd_fits : Z.of_nat (length snd_page) <= 4096.
Proof. vm_compute. discriminate. Qed.
Lemma snd_shape : forallb (page_num snd_page) kern_shape = true.
Proof. vm_compute. reflexivity. Qed.
Ltac snd_num a v := read_page snd_page snd_fits a v.

Lemma snd_outside a : 3825207296 <= a -> a + 4 <= 3825207332 -> outside (writes_at kern_to kern_elem waiting_packet) (vm_kern snd_page) a 4.
Proof.
  intros H1 H2 i x Hi. rewrite u32_small, (vm_kern_translate _ snd_fits), decide_True by lia. unfold kern_to. intros [= <-].
  unfold writes_at, within, kern_elem, waiting_packet. cbn [p_phys_recv_buf p_recv_len p_phys_msg_packet].
  intros [(b & Hb & E)|[E|E]]; lia.
Qed.

Lemma snd_packet j w : packet_words sent_packet !! j = Some w ->
  num_held 1024 (vm_kern snd_page) 4 (3825207296 +w (4 * Z.of_nat j)) w /\
  outside (writes_at kern_to kern_elem waiting_packet) (vm_kern snd_page) (3825207296 +w (4 * Z.of_nat j)) 4.
Proof.
  intros Hj. assert (Hlt : (j < 9)%nat) by exact (lookup_lt_Some _ _ _ Hj). split; [|rewrite u32_small by lia; apply snd_outside; lia].
  do 9 (destruct j as [|j]; [injection Hj as <-; match goal with |- num_held _ _ _ ?a ?v => let x := eval vm_compute in a in snd_num x v end|]). lia.
Qed.

Lemma snd_elem : elem 1024 kern_elem (vm_kern snd_page) (packet_words waiting_packet).
Proof.
  intros j w Hj. do 9 (destruct j as [|j]; [injection Hj as <-; match goal with |- num_held _ _ _ ?a ?v => let x := eval vm_compute in a in snd_num x v end|]). done.
Qed.

Lemma snd_sending : sending 1024 kern_range kern_to kern_syms k_snd 3825205376 3825207296 sent_packet waiting_packet 1 hello
  755776 755792 1 0 kern_elem [].
Proof.
  change (vm k_snd) with (vm_kern snd_page).
  split; change (vm k_snd) with (vm_kern snd_page); change (queue_of kern_syms 0) with kern_head;
    cbn [waiting_packet sent_packet p_phys_recv_buf p_recv_len p_phys_msg_packet p_recv_buf p_send_buf p_receiver].
  - exact (vm_kern_inv _ snd_fits).
  - split; [reflexivity|]. eexists. split; [reflexivity|]. split; [reflexivity|lia].
  - snd_num 3825205420 3825207296.
  - exact snd_packet.
  - reflexivity.
  - eexists. split; reflexivity.
  - exact (kern_ram _ snd_fits).
  - exact (kern_queue _ snd_fits snd_shape).
  - split; [|exact snd_elem]. intros i Hi. unfold kern_elem, kern_range in *. lia.
  - unfold kern_head, kern_elem. lia.
  - intros x Hx. by apply not_elem_of_nil in Hx.
  - reflexivity.
  - reflexivity.
  - split; [exact (vm_kern_mapped _ snd_fits 3825207360 ltac:(lia))|exact (vm_kern_mapped _ snd_fits 3825207376 ltac:(lia))].
  - apply (vm_kern_free _ 2%nat). lia.
  - apply (kern_window _ snd_fits); lia || reflexivity.
  - vm_compute. discriminate.
  - intros i b Hi. pose proof (lookup_lt_Some _ _ _ Hi) as Hlt. cbn [hello length] in Hlt.
    rewrite u32_small by lia. exists (kern_to (3825207360 + Z.of_nat i)).
    split; [rewrite (vm_kern_translate _ snd_fits) by lia; by rewrite decide_True by lia|].
    split; [do 6 (destruct i as [|i]; [injection Hi as <-; vm_compute; reflexivity|]); lia|]. unfold kern_to.
    split; [apply (vm_kern_plain _ snd_fits); lia|]. split; [apply window_bound; lia|].
    unfold writes_at, within, kern_elem. cbn [waiting_packet p_phys_recv_buf p_recv_len p_phys_msg_packet].
    intros [(x & Hx & E)|[E|E]]; lia.
  - split; [split; [lia|split; [reflexivity|lia]]|split; [lia|vm_compute; discriminate]|vm_compute; discriminate|apply (vm_kern_free _ 1%nat); lia| |].
    + intros va Hva. rewrite (vm_kern_translate _ snd_fits) by lia. by rewrite decide_False by lia.
    + intros i Hi. apply (vm_kern_plain _ snd_fits). lia.
  - unfold within. lia.
  - intros a Ha. unfold kern_range, within, kern_to in *. lia.
Qed.

(** The bytes and the pid arrive, the sender blocks and the receiver is ready. *)
Lemma send_delivers_witness : exists v t1 t,
  send_body kern_syms 3825205376 k_snd = Ret true (set_vm v (set_pt t k_snd)) /\
  state_set 1 PROC_SEND_BLOCKED (sched_off pt_snd) t1 /\ state_set 0 PROC_READY t1 t /\
  pbyte (phys (mach v)) 32868 = Byte.x68 /\ pbyte (phys (mach v)) 32872 = Byte.x6f /\ pload32 (phys (mach v)) 36880 = 1 /\
  elem 1024 kern_elem v [1; 0; 3825207360; 3825207376; 6; 4; 755776; 755792; 36880].
Proof.
  destruct (send_delivers 1024 kern_range kern_to kern_syms k_snd 3825205376 3825207296 sent_packet waiting_packet 1 hello
    755776 755792 1 0 kern_elem [] kern_data snd_sending) as (v & t1 & t & Hr & Hs1 & Hs2 & Hb & Hp & He & _).
  exists v, t1, t. split; [exact Hr|]. split; [exact Hs1|]. split; [exact Hs2|].
  split; [exact (Hb 0%nat Byte.x68 eq_refl)|]. split; [exact (Hb 4%nat Byte.x6f eq_refl)|]. split; [exact Hp|exact He].
Defined.
