(* ===== verification/Mailbox.v ===== *)
(** * Mailbox.v: the message system calls as operations on a mailbox
      (kernel/syscall.c)

    To its clients the queue of a process is a mailbox: a list of packets.
    Here is what each branch of the three system calls does to that list and to
    the states of the two parties, and that the code does it, with the list as
    elements of the kernel's heap linked through memory. *)

From S2P Require Import Prelude Memory Machine Pm Vm Heap Queue Desc Proc Load Window Syscall Ram Element Reply Receive Enqueue Send.

(** ** The specification *)

(** Who calls, the other party where there is one, and what the call leaves in
    the mailbox: a receive that waits puts up its own packet, a send to it
    fills that packet in, a send to a process that does not wait posts one, a
    receive takes what the first says, a reply answers and removes it. *)
Inductive mail_op :=
| Wait (c : Z) (e : msg_packet)
| Fill (c r : Z) (e : msg_packet)
| Post (c r : Z) (blocks : bool) (e : msg_packet)
| Take (c : Z)
| Answer (c r : Z).

(** The process whose mailbox it is *)
Definition mail_of (op : mail_op) : Z :=
  match op with Wait c _ | Take c | Answer c _ => c | Fill _ r _ | Post _ r _ _ => r end.

Definition mail (op : mail_op) (es : list msg_packet) : list msg_packet :=
  match op, es with
  | Wait _ e, _ => [e]
  | Fill _ _ e, _ :: es' => e :: es'
  | Post _ _ _ e, _ => es ++ [e]
  | Answer _ _, _ :: es' => es'
  | _, _ => es
  end.

Definition moves (op : mail_op) (t t' : ptable) : Prop :=
  match op with
  | Wait c _ => state_set c PROC_RECV_BLOCKED t t'
  | Fill c r _ => exists t1, state_set c PROC_SEND_BLOCKED t t1 /\ state_set r PROC_READY t1 t'
  | Post c _ true _ => state_set c PROC_REPLY_BLOCKED t t'
  | Post _ _ false _ | Take _ => t' = t
  | Answer _ r => state_set r PROC_READY t t'
  end.

Section Mailbox.
Variables (N : Z) (R : Z -> Prop) (tau : Z -> Z) (sy : symbols).
Hypothesis Hdata : kernel_data R tau.
Notation kram := (ram N R tau).

(** ** The mailbox in memory *)

(** The queue at [head] links the elements [es], each with its packet. *)
Record mailbox (s : vmst) (head : Z) (es : list (Z * msg_packet)) : Prop := {
  mb_queue : queue_rep (P:=kram s) (R:=R) msgs_field (mach s) head (map fst es);
  mb_elems : forall q e, (q, e) ∈ es -> span R q 40 /\ elem N q s (packet_words e);
}.

(** The elements keep their packets when their words are not written. *)
Lemma elem_kept f D s s' q ws : changes N f D s s' -> kram s (mach s) -> span R q 40 -> (length ws <= 9)%nat ->
  (forall a, q <= a < q + 36 -> ~ D (tau a)) -> elem N q s ws -> elem N q s' ws.
Proof using Hdata.
  intros Hc Hr Hs Hl Hd He j w Hj. apply lookup_lt_Some in Hj as Hlt.
  assert (Hin : forall i, 0 <= i < 4 -> R (q + 4 * Z.of_nat j + i)) by (intros i Hi; rewrite <- Z.add_assoc; apply Hs; lia).
  apply (changes_num _ _ _ _ _ _ _ _ Hc); [|intros i x Hi|by apply He].
  - rewrite <- (Z.add_0_r (q + _)). apply (kd_range _ _ Hdata), Hin. lia.
  - destruct (kd_range _ _ Hdata _ (Hin i Hi)) as [Hra _]. rewrite u32_small, (kr_to _ _ _ _ _ _ Hr) by auto.
    intros [= <-]. apply Hd. lia.
Qed.

Lemma elems_kept f D s s' (es : list (Z * msg_packet)) : changes N f D s s' -> kram s (mach s) ->
  (forall q e, (q, e) ∈ es -> span R q 40 /\ elem N q s (packet_words e)) ->
  (forall q a, q ∈ map fst es -> q <= a < q + 36 -> ~ D (tau a)) ->
  forall q e, (q, e) ∈ es -> span R q 40 /\ elem N q s' (packet_words e).
Proof using Hdata.
  intros Hc Hr He Hd q e Hin. destruct (He q e Hin) as [Hs Hq]. split; [done|].
  apply (elem_kept _ _ _ _ _ _ Hc Hr Hs); [done| |done]. intros a. apply Hd. apply list_elem_of_fmap. by exists (q, e).
Qed.

(** Addresses of the kernel's data are not where only [X] of it is written. *)
Lemma kernel_not_in X q a : span R q 40 -> q <= a < q + 36 -> ~ X a -> ~ kernel_in R tau X (tau a).
Proof using Hdata.
  intros Hs Ha Hx (b & Hb & Hxb & E). assert (Hra : R a) by (replace a with (q + (a - q)) by lia; apply Hs; lia).
  apply (kd_inj _ _ Hdata) in E as ->; done.
Qed.

(** A call of the process [c], its branch with what that asks for; the words
    of the other elements are not where it writes. *)
Inductive mail_call (k : kst) (es : list (Z * msg_packet)) : mail_op -> M kst unit -> Prop :=
| call_wait regs msg m pr pm c blocks q blocks' :
    es = [] -> waiting N R tau sy k regs msg m pr pm c blocks q blocks' ->
    mail_call k es (Wait c (waits_with m pr pm)) (recv_body sy regs)
| call_fill regs msg m e spid bs ps pr c r q es' :
    es = (q, e) :: es' -> sending N R tau sy k regs msg m e spid bs ps pr c r q (map fst es') ->
    (forall q', q' ∈ map fst es' -> q' + 36 <= q \/ q + 36 <= q') ->
    mail_call k es (Fill c r (filled e m spid ps pr)) (send_body sy regs ≫= fun _ => mret tt)
| call_post regs msg m spid ps pr c r rst blocks q blocks' :
    queueing N R tau sy k regs msg m spid ps pr c r rst (map fst es) blocks q blocks' ->
    (forall q' a, q' ∈ map fst es -> q' <= a < q' + 36 -> ~ new_at (queue_of sy r) (map fst es) q blocks' a) ->
    mail_call k es (Post c r (bool_decide (rst = PROC_READY)) (queued m spid ps pr)) (send_body sy regs ≫= fun _ => mret tt)
| call_take regs msg spid p slen dst qs ws c q e es' :
    es = (q, e) :: es' -> receiving N R tau sy k regs msg spid p slen dst qs ws c q (map fst es') ->
    mail_call k es (Take c) (recv_body sy regs)
| call_answer regs msg src p bs c q e r es' b blocks :
    es = (q, e) :: es' -> replying N R tau sy k regs msg src p bs c q r (map fst es') b blocks ->
    (forall q' a, q' ∈ map fst es' -> q' <= a < q' + 36 -> ~ closed_at sy c b a) ->
    mail_call k es (Answer c r) (rply_body sy regs).

(** What a call is to do: the mailbox is as the operation says, the parties'
    states are set, and the kernel's data is where it was. *)
Definition does (k : kst) (es : list (Z * msg_packet)) (op : mail_op) (call : M kst unit) : Prop :=
  exists v t es', call k = Ret tt (set_vm v (set_pt t k)) /\ moves op (sched_off (pt k)) t /\
    mailbox v (queue_of sy (mail_of op)) es' /\ map snd es' = mail op (map snd es) /\ kram v (mach v).

Lemma send_unit regs k v t : send_body sy regs k = Ret true (set_vm v (set_pt t k)) ->
  (send_body sy regs ≫= fun _ => mret tt) k = Ret tt (set_vm v (set_pt t k)).
Proof using. intros E. exact (bind_Ret _ _ _ _ _ E). Qed.

Lemma wait_does k regs msg m pr pm c blocks q blocks' : waiting N R tau sy k regs msg m pr pm c blocks q blocks' ->
  does k [] (Wait c (waits_with m pr pm)) (recv_body sy regs).
Proof using Hdata.
  intros H. destruct (recv_waits_runs N R tau sy Hdata _ _ _ _ _ _ _ _ _ _ H) as (v & t & Hr & Hs & _ & Hv & He & Hq & _).
  exists v, t, [(q, waits_with m pr pm)]. split; [done|]. split; [done|]. split; [|done]. split; [done|].
  intros q' e' [= -> ->]%list_elem_of_singleton. split; [|done].
  apply (mk_span _ _ _ _ _ _ _ _ _ _ _ (wt_making _ _ _ _ _ _ _ _ _ _ _ _ _ _ H)).
Qed.

Lemma post_does k es regs msg m spid ps pr c r rst blocks q blocks' :
  mailbox (vm k) (queue_of sy r) es -> kram (vm k) (mach (vm k)) ->
  queueing N R tau sy k regs msg m spid ps pr c r rst (map fst es) blocks q blocks' ->
  (forall q' a, q' ∈ map fst es -> q' <= a < q' + 36 -> ~ new_at (queue_of sy r) (map fst es) q blocks' a) ->
  does k es (Post c r (bool_decide (rst = PROC_READY)) (queued m spid ps pr)) (send_body sy regs ≫= fun _ => mret tt).
Proof using Hdata.
  intros [_ He] Hram H Hn.
  destruct (send_queues_runs N R tau sy Hdata _ _ _ _ _ _ _ _ _ _ _ _ _ _ H) as (v & t & Hr & Hs & Hc & Hv & Hq & Hqr & _).
  exists v, t, (es ++ [(q, queued m spid ps pr)]). split; [exact (send_unit _ _ _ _ Hr)|].
  split; [destruct rst; exact Hs|]. split; [|split; [by rewrite map_app|done]]. split; [by rewrite map_app|].
  pose proof (mk_span _ _ _ _ _ _ _ _ _ _ _ (qg_making _ _ _ _ _ _ _ _ _ _ _ _ _ _ _ _ _ _ H)) as Hsp.
  intros q' e' [Hin|[= -> ->]%list_elem_of_singleton]%elem_of_app; [|done].
  apply (elems_kept _ _ _ _ es Hc Hram He); [|done]. intros x a Hx Ha.
  apply list_elem_of_fmap in Hx as Hx'. destruct Hx' as ([x' ex] & -> & Hx').
  apply (kernel_not_in _ x'); [by apply (He _ _ Hx')|done|by apply (Hn x')].
Qed.

Lemma fill_does k regs msg m e spid bs ps pr c r q es :
  mailbox (vm k) (queue_of sy r) ((q, e) :: es) -> sending N R tau sy k regs msg m e spid bs ps pr c r q (map fst es) ->
  (forall q', q' ∈ map fst es -> q' + 36 <= q \/ q + 36 <= q') ->
  does k ((q, e) :: es) (Fill c r (filled e m spid ps pr)) (send_body sy regs ≫= fun _ => mret tt).
Proof using Hdata.
  intros [_ He] H Hn.
  destruct (send_runs N R tau sy Hdata _ _ _ _ _ _ _ _ _ _ _ _ _ H) as (v & t1 & t & f & Hr & Hs1 & Hs2 & [Hc Hq _] & _).
  pose proof (sn_ram _ _ _ _ _ _ _ _ _ _ _ _ _ _ _ _ _ H) as Hram.
  exists v, t, ((q, filled e m spid ps pr) :: es). split; [exact (send_unit _ _ _ _ Hr)|]. split; [by exists t1|].
  split; [|split; [done|exact (ram_kept N R tau Hdata _ _ _ _ Hc Hram)]].
  split; [exact (sent_queue N R tau sy Hdata _ _ _ _ _ _ _ _ _ _ _ _ _ H _ _ Hc)|].
  intros q' e' [[= -> ->]|Hin]%elem_of_cons; [by split; [apply (He q e); left|]|].
  apply (elems_kept _ _ _ _ es Hc Hram (fun x y Hx => He x y (list_elem_of_further _ _ _ Hx))); [|done].
  intros x a Hx Ha. apply (sent_beside N R tau sy Hdata _ _ _ _ _ _ _ _ _ _ _ _ _ H).
  - apply list_elem_of_fmap in Hx as ([x' ex] & -> & Hx'). destruct (He x' ex (list_elem_of_further _ _ _ Hx')) as [Hs _].
    cbn [fst] in Ha. replace a with (x' + (a - x')) by lia. apply Hs. lia.
  - specialize (Hn x Hx). lia.
Qed.

Lemma take_does k regs msg spid p slen dst qs ws c q e es :
  mailbox (vm k) (queue_of sy c) ((q, e) :: es) -> receiving N R tau sy k regs msg spid p slen dst qs ws c q (map fst es) ->
  does k ((q, e) :: es) (Take c) (recv_body sy regs).
Proof using Hdata.
  intros [Hq He] H. destruct (recv_runs N R tau sy Hdata _ _ _ _ _ _ _ _ _ _ _ _ H) as (v & f & Hr & Hc & _).
  pose proof (rv_ram _ _ _ _ _ _ _ _ _ _ _ _ _ _ _ _ H) as Hram.
  assert (Hn : forall a, R a -> ~ (tau a ∈ qs \/ tau a ∈ ws)).
  { intros a Ha. destruct (rv_away _ _ _ _ _ _ _ _ _ _ _ _ _ _ _ _ H a Ha). tauto. }
  exists v, (sched_off (pt k)), ((q, e) :: es). split; [done|]. split; [done|]. split; [|split; [done|exact (ram_kept N R tau Hdata _ _ _ _ Hc Hram)]].
  split; [by apply (queue_kept N R tau _ _ _ _ _ _ _ Hdata Hc Hram Hq); auto|].
  apply (elems_kept _ _ _ _ _ Hc Hram He). intros x a Hx Ha. apply Hn.
  apply list_elem_of_fmap in Hx as ([x' ex] & -> & Hx'). destruct (He x' ex Hx') as [Hs _].
  cbn [fst] in Ha. replace a with (x' + (a - x')) by lia. apply Hs. lia.
Qed.

Lemma answer_does k regs msg src p bs c q e r es b blocks :
  mailbox (vm k) (queue_of sy c) ((q, e) :: es) -> replying N R tau sy k regs msg src p bs c q r (map fst es) b blocks ->
  (forall q' a, q' ∈ map fst es -> q' <= a < q' + 36 -> ~ closed_at sy c b a) ->
  does k ((q, e) :: es) (Answer c r) (rply_body sy regs).
Proof using Hdata.
  intros [_ He] H Hn. destruct (rply_runs N R tau sy Hdata _ _ _ _ _ _ _ _ _ _ _ _ H) as (v & t & f & Hr & Hs & Hc & Hq & _ & Hv & _).
  pose proof (rp_ram _ _ _ _ _ _ _ _ _ _ _ _ _ _ _ _ H) as Hram.
  exists v, t, es. split; [done|]. split; [done|]. split; [|done]. split; [done|].
  apply (elems_kept _ _ _ _ es Hc Hram (fun x y Hx => He x y (list_elem_of_further _ _ _ Hx))).
  intros x a Hx Ha. pose proof Hx as Hx0. apply list_elem_of_fmap in Hx as ([x' ex] & -> & Hx').
  destruct (He x' ex (list_elem_of_further _ _ _ Hx')) as [Hs' _]. cbn [fst] in *.
  assert (Hra : R a) by (replace a with (x' + (a - x')) by lia; apply Hs'; lia). intros [Hp|Hk].
  - by apply (rp_away _ _ _ _ _ _ _ _ _ _ _ _ _ _ _ _ H a Hra).
  - by apply (kernel_not_in _ x' a Hs' Ha (Hn x' a Hx0 Ha)).
Qed.
End Mailbox.

(** C9: The branches of the three system calls refine the operations on a
    mailbox: where the caller's queue, or the receiver's for a send, links
    elements in the kernel's data with the packets of the mailbox, the call
    returns, or for a send gets to its yield; the queue then links elements
    with the packets that the operation leaves; the states of the two parties
    are those of the operation and no other process's changed; the kernel's
    data is where it was. *)
Theorem calls_refine_mailbox N R tau sy k es op call : kernel_data R tau ->
  ram N R tau (vm k) (mach (vm k)) -> mailbox N R tau (vm k) (queue_of sy (mail_of op)) es ->
  mail_call N R tau sy k es op call -> does N R tau sy k es op call.
Proof.
  intros Hd Hr Hm Hc. destruct Hc; subst; cbn [mail_of] in Hm.
  - by eapply wait_does.
  - by eapply fill_does.
  - by eapply post_does.
  - by eapply take_does.
  - by eapply answer_does.
Qed.

(** *** A receive that waits, and a send that finds one waiting

    On the states of Enqueue.v and Send.v. *)
Lemma fresh_mailbox : mailbox 1024 kern_range kern_to (vm_kern fresh_page) kern_head [].
Proof. split; [exact fresh_queue|]. intros q e Hin. by apply not_elem_of_nil in Hin. Qed.

Lemma snd_mailbox : mailbox 1024 kern_range kern_to (vm_kern snd_page) kern_head [(kern_elem, waiting_packet)].
Proof.
  split; [exact (kern_queue _ snd_fits snd_shape)|]. intros q e [= -> ->]%list_elem_of_singleton.
  split; [|exact snd_elem]. intros i Hi. unfold kern_elem, kern_range in *. lia.
Qed.

Lemma calls_refine_mailbox_witness :
  (exists v t es', recv_body kern_syms 3825205376 (k_fresh pt_waits) = Ret tt (set_vm v (set_pt t (k_fresh pt_waits))) /\
     mailbox 1024 kern_range kern_to v kern_head es' /\ map snd es' = [MsgPacket 0 2 3825207360 3825207376 6 4 0 755792 755712]) /\
  (exists v t es', (send_body kern_syms 3825205376 ≫= fun _ => mret tt) k_snd = Ret tt (set_vm v (set_pt t k_snd)) /\
     mailbox 1024 kern_range kern_to v kern_head es' /\ map snd es' = [MsgPacket 1 0 3825207360 3825207376 6 4 755776 755792 36880]).
Proof.
  split.
  - destruct (calls_refine_mailbox 1024 kern_range kern_to kern_syms (k_fresh pt_waits) []
      (Wait 0 (waits_with fresh_packet 755792 755712)) _ kern_data (kern_ram _ fresh_fits) fresh_mailbox
      ltac:(by eapply call_wait; [|exact fresh_waiting])) as (v & t & es' & Hr & _ & Hm & E & _).
    exists v, t, es'. split; [exact Hr|]. split; [exact Hm|exact E].
  - assert (Hn : forall q', q' ∈ map fst ([] : list (Z * msg_packet)) -> q' + 36 <= kern_elem \/ kern_elem + 36 <= q')
      by (intros q' Hin; by apply not_elem_of_nil in Hin).
    destruct (calls_refine_mailbox 1024 kern_range kern_to kern_syms k_snd [(kern_elem, waiting_packet)]
      (Fill 1 0 (filled waiting_packet sent_packet 1 755776 755792)) _ kern_data (kern_ram _ snd_fits) snd_mailbox
      ltac:(eapply call_fill; [reflexivity|exact snd_sending|exact Hn])) as (v & t & es' & Hr & _ & Hm & E & _).
    exists v, t, es'. split; [exact Hr|]. split; [exact Hm|exact E].
Defined.
