(* ===== verification/System.v ===== *)
(** * System.v: the process table in every reachable state

    The kernel as a transition system: system calls, the scheduler's
    interrupt, the message dispatcher, the creation of processes, and the
    steps of the processes themselves, which may change memory and ports but
    run no kernel code.  The table is kept beside memory (Proc.v), while in the
    program it is memory like any other: a system call copies to the addresses
    its caller gives, unchecked and in ring 0, and the dispatcher maps any
    physical page into a process.  So a step counts only if it leaves the
    kernel's own memory, the table in it, as it was ([keeps_own]).  Then the
    invariant of the process table holds after proc_earlyinit and after every
    step. *)

From S2P Require Import Prelude Memory Machine Pm Vm Heap Queue Desc Proc Syscall.

(** ** The invariant *)

(** The pid of a slot that was never given to a process. *)
Definition NO_PID : Z := 4294967295.

Definition has_pid (p : proc) : Prop := pid p <> NO_PID.
#[export] Instance has_pid_dec p : Decision (has_pid p).
Proof. unfold has_pid. apply _. Defined.

Definition slot_ok (n : Z) (p : proc) : Prop :=
  (has_pid p -> 0 <= pid p < n) /\ (state p = PROC_UNUSED -> pid p = NO_PID).

Definition in_table (o : option Z) : Prop := forall i, o = Some i -> 0 <= i < NPROCS.

Record table_inv (t : ptable) : Prop := {
  ti_size : table_wf t;
  ti_rr : 0 <= rr t <= NPROCS;
  ti_current : in_table (current_proc t);
  ti_idle : in_table (idle t);
  ti_slots : Forall (slot_ok (next_pid t)) (procs t);
  ti_count : Z.of_nat (length (filter has_pid (procs t))) = next_pid t;
  ti_distinct : NoDup (pid <$> filter has_pid (procs t));
}.

(** What a process is given when it is created: who it is, what it may do, and
    the kernel stack and address space it runs with. *)
Definition identity (p : proc) : Z * list byte * bool * bool * (Z * Z * Z) :=
  (pid p, name p, privileged p, superuser p, (kstack p, pdir p, memsz p)).

(** A change to a slot that keeps all of it and does not free the slot *)
Definition harmless (f : proc -> proc) : Prop :=
  forall p, identity (f p) = identity p /\ (state (f p) = PROC_UNUSED -> state p = PROC_UNUSED).

Lemma identity_pid p q : identity p = identity q -> pid p = pid q.
Proof. unfold identity. congruence. Qed.

Lemma zupdate_split {A} (l : list A) i p x : zlookup l i = Some p ->
  exists l1 l2, l = l1 ++ p :: l2 /\ Z.of_nat (length l1) = i /\ zupdate i x l = l1 ++ x :: l2.
Proof.
  intros Hp. pose proof (zlookup_Some_range _ _ _ Hp) as Hi. unfold zlookup in Hp. unfold zupdate.
  destruct (Z.ltb_spec i 0); [lia|]. exists (take (Z.to_nat i) l), (drop (S (Z.to_nat i)) l).
  split; [symmetry; by apply take_drop_middle|]. split; [rewrite length_take; lia|].
  rewrite insert_take_drop by (by apply lookup_lt_Some in Hp). done.
Qed.

Lemma filter_one (p : proc) l1 l2 : filter has_pid (l1 ++ p :: l2) =
  filter has_pid l1 ++ (if decide (has_pid p) then [p] else []) ++ filter has_pid l2.
Proof. rewrite list.filter_app, list.filter_cons. by destruct (decide (has_pid p)). Qed.

Lemma table_inv_update t i p f : table_inv t -> zlookup (procs t) i = Some p -> harmless f ->
  table_inv (set_procs (zupdate i (f p) (procs t)) t).
Proof.
  intros [Hsz Hrr Hc Hid Hs Hn Hd] Hp Hf. destruct (Hf p) as [Hpid%identity_pid Hst].
  destruct (zupdate_split _ _ _ (f p) Hp) as (l1 & l2 & El & _ & Eu).
  assert (Hh : has_pid (f p) <-> has_pid p) by (unfold has_pid; by rewrite Hpid).
  split; cbn [set_procs procs rr current_proc idle next_pid]; try done.
  - unfold table_wf in *. cbn [set_procs procs]. by rewrite zupdate_length.
  - rewrite Eu. rewrite El in Hs. apply Forall_app in Hs as [H1 H2]. apply list.Forall_cons in H2 as [[Ha Hb] H2].
    apply Forall_app. split; [done|]. apply list.Forall_cons. split; [|done].
    split; [rewrite Hh, Hpid; exact Ha|]. intros E. rewrite Hpid. auto.
  - rewrite <- Hn, Eu, El, !filter_one, !length_app. do 3 f_equal.
    destruct (decide (has_pid (f p))), (decide (has_pid p)); tauto || done.
  - rewrite Eu. rewrite El, !filter_one in Hd. rewrite filter_one.
    destruct (decide (has_pid (f p))), (decide (has_pid p)); try tauto.
    rewrite !fmap_app in *. cbn [fmap list_fmap] in *. by rewrite Hpid.
Qed.

(** Giving a free slot the next pid. *)
Lemma table_inv_create t t' i priv : table_inv t -> 0 <= i < NPROCS -> created t t' i priv -> table_inv t'.
Proof.
  intros [Hsz Hrr Hc Hid Hs Hn Hd] Hi [(p & Hp & Hst & p' & Hpr & Hpid & Hst' & _) Hnp Hcur Hidl Hr _].
  destruct (zupdate_split _ _ _ p' Hp) as (l1 & l2 & El & _ & Eu). rewrite Eu in Hpr.
  rewrite El in Hs, Hn, Hd. apply Forall_app in Hs as [H1 H2]. apply list.Forall_cons in H2 as [[Ha Hb] H2].
  specialize (Hb Hst). rewrite filter_one, decide_False in Hn, Hd by (unfold has_pid; rewrite Hb; tauto).
  cbn [app] in Hn, Hd. rewrite length_app in Hn.
  assert (Hlen : Z.of_nat (length l1) + Z.of_nat (length l2) = 63).
  { unfold table_wf, NPROCS in Hsz. rewrite El, length_app in Hsz. cbn [length] in Hsz. lia. }
  pose proof (list.length_filter has_pid l1). pose proof (list.length_filter has_pid l2).
  assert (Hnx : next_pid t' = next_pid t + 1) by (rewrite Hnp, u32_small; lia).
  assert (Hhp : has_pid p') by (unfold has_pid, NO_PID; lia).
  assert (Hmono : forall q, slot_ok (next_pid t) q -> slot_ok (next_pid t') q).
  { intros q [Hq1 Hq2]. split; [|done]. intros Hq. specialize (Hq1 Hq). lia. }
  split.
  - unfold table_wf, NPROCS. rewrite Hpr, length_app. cbn [length]. lia.
  - rewrite Hr. unfold NPROCS in *. lia.
  - rewrite Hcur. by intros j [= <-].
  - by rewrite Hidl.
  - rewrite Hpr. apply Forall_app. split; [eapply list.Forall_impl; eauto|]. apply list.Forall_cons.
    split; [|eapply list.Forall_impl; eauto]. split; [intros _; lia|]. intros E. congruence.
  - rewrite Hpr, filter_one, decide_True by done. rewrite !length_app. cbn [length]. lia.
  - rewrite Hpr, filter_one, decide_True by done. rewrite fmap_app in Hd. rewrite fmap_app, fmap_app. cbn [fmap list_fmap app].
    apply list.NoDup_app in Hd as (Hd1 & Hd12 & Hd2).
    assert (Hfresh : forall l, Forall (slot_ok (next_pid t)) l -> pid p' ∉ pid <$> filter has_pid l).
    { intros l Hl (q & Hq & Hin)%list_elem_of_fmap. apply list_elem_of_filter in Hin as [Hh Hin].
      rewrite list.Forall_forall in Hl. destruct (Hl q Hin) as [Hq1 _]. specialize (Hq1 Hh). lia. }
    apply list.NoDup_app. split; [done|]. split.
    + intros x Hx [->|Hx2]%elem_of_cons; [by apply (Hfresh l1)|by apply (Hd12 x)].
    + apply list.NoDup_cons. split; [by apply Hfresh|done].
Qed.

(** ** Every operation keeps it

    [ensures I m Q]: a run of [m] that returns from a state with [I] ends in
    one with [Q].  The operations change the table by updates that keep the
    identity of processes, by creating processes, and in the fields beside the
    slots; what these three keep, every operation keeps ([J]). *)

Definition ensures {A} (I : ptable -> Prop) (m : M kst A) (Q : A -> ptable -> Prop) : Prop :=
  forall k a k', m k = Ret a k' -> I (pt k) -> Q a (pt k').

Class Stable (J : ptable -> Prop) : Prop := {
  st_update t i p f : J t -> zlookup (procs t) i = Some p -> harmless f ->
    J (set_procs (zupdate i (f p) (procs t)) t);
  st_fields t t' : procs t' = procs t -> next_pid t' = next_pid t -> J t -> J t';
  st_create t t' i priv : table_inv t -> J t -> 0 <= i < NPROCS -> created t t' i priv -> J t';
}.

Section Preserved.
Context (J : ptable -> Prop) `{HJ : !Stable J}.
Definition inv (t : ptable) : Prop := table_inv t /\ J t.
Notation pres m := (ensures inv m (fun _ => inv)).

Lemma inv_fields t t' : procs t' = procs t -> next_pid t' = next_pid t -> 0 <= rr t' <= NPROCS ->
  in_table (current_proc t') -> in_table (idle t') -> inv t -> inv t'.
Proof.
  intros Hp Hn Hr Hc Hi [[H1 _ _ _ H5 H6 H7] HJt]. split; [|by apply (st_fields t)].
  split; try done; unfold table_wf; by rewrite ?Hp, ?Hn.
Qed.

Lemma ensures_bind {A B} I (m : M kst A) Q (f : A -> M kst B) R :
  ensures I m Q -> (forall a, ensures (Q a) (f a) R) -> ensures I (m ≫= f) R.
Proof. intros Hm Hf k b k' H HI. step H a k1 H1. eapply Hf; [exact H|]. by eapply Hm. Qed.

Lemma pres_bind {A B} (m : M kst A) (f : A -> M kst B) : pres m -> (forall a, pres (f a)) -> pres (m ≫= f).
Proof. intros Hm Hf. by apply (ensures_bind _ _ (fun _ => inv)). Qed.

Create HintDb presdb.

Lemma pres_keeps {A} (m : M kst A) : keeps_pt m -> pres m.
Proof. intros Hk k a k' H HI. by rewrite (Hk _ _ _ H). Qed.

Lemma pres_on_pt {A} (m : M ptable A) :
  (forall t a t', m t = Ret a t' -> inv t -> inv t') -> pres (on_pt m).
Proof. intros Hm k a k' H%on_pt_inv HI. by apply (Hm _ _ _ H). Qed.

Lemma pres_ret {A} (a : A) : pres (mret a : M kst A).
Proof. apply pres_keeps, keeps_ret. Qed.
Lemma pres_on_vm {A} (m : M vmst A) : pres (on_vm m).
Proof. apply pres_keeps, keeps_on_vm. Qed.
Lemma pres_on_mem {A} (m : M machine A) : pres (on_mem m).
Proof. apply pres_on_vm. Qed.
Lemma pres_this_proc : pres this_proc.
Proof. apply pres_keeps, keeps_this_proc. Qed.
Lemma pres_get : pres (on_pt get).
Proof. apply pres_on_pt. by intros t a t' [_ <-]%ret_inj. Qed.
Lemma pres_kget : pres (get : M kst kst).
Proof. apply pres_keeps, keeps_get. Qed.
Lemma pres_deref o : pres (on_pt (deref o)).
Proof. apply pres_on_pt. intros t [i p] t' H. by apply deref_inv in H as (_ & _ & ->). Qed.
Lemma pres_update i f : harmless f -> pres (on_pt (update i f)).
Proof.
  intros Hf. apply pres_on_pt. intros t [] t' H [HI Ht]. apply update_inv in H as (p & Hp & ->).
  split; [by apply table_inv_update|by apply st_update].
Qed.
Lemma pres_sched b : pres (on_pt (modify (set_sched b))).
Proof. apply pres_on_pt. intros t a t' [_ <-]%ret_inj HI. by apply (inv_fields t); try apply HI. Qed.
Lemma pres_find_pid p : pres (on_pt (proc_find_by_pid p)).
Proof. apply pres_on_pt. by intros t a t' [_ <-]%ret_inj. Qed.
Lemma pres_kalloc n : pres (kernel_kalloc n).
Proof. apply pres_keeps, keeps_kalloc. Qed.
Lemma pres_kfree n : pres (kernel_kfree n).
Proof. apply pres_keeps, keeps_kfree. Qed.
Lemma pres_copy_out base mapped msg q : pres (copy_out base mapped msg q).
Proof. apply pres_keeps, keeps_copy_out. Qed.
Lemma pres_copy_in base mapped msg q : pres (copy_in base mapped msg q).
Proof. apply pres_keeps, keeps_copy_in. Qed.

Lemma harmless_state st : st <> PROC_UNUSED -> harmless (with_state st).
Proof. intros Hst p. by split. Qed.
Lemma harmless_trapframe tf : harmless (with_trapframe tf).
Proof. by intros p. Qed.
Lemma harmless_location a n : harmless (with_location a n).
Proof. by intros p. Qed.

Hint Resolve pres_ret pres_on_vm pres_on_mem pres_this_proc pres_get pres_kget pres_deref pres_update
  pres_sched pres_find_pid pres_copy_out pres_copy_in pres_kalloc pres_kfree harmless_trapframe harmless_location : presdb.
Hint Extern 1 (harmless (with_state _)) => apply harmless_state; discriminate : presdb.
Ltac preserve := repeat (apply pres_bind; [solve [auto with presdb]|intros ?]); auto with presdb.

Lemma pres_blocked p : pres (on_pt (proc_is_blocked p)).
Proof.
  apply pres_on_pt. intros t b t' H HI. unfold proc_is_blocked in H. apply bind_inv in H as (o & t1 & H1 & H).
  apply ret_inj in H1 as [<- <-]. apply bind_inv in H as ([j q] & t2 & H2 & H).
  apply deref_inv in H2 as (_ & _ & ->). by apply ret_inv in H as [_ <-].
Qed.
Hint Resolve pres_blocked : presdb.

(** The scheduler's search moves the index, and what it finds is a slot. *)
Lemma find_next_inv st t r t' : inv t -> find_next_proc st t = Ret r t' ->
  inv t' /\ in_table r /\ idle t' = idle t.
Proof.
  intros HI H. pose proof HI as [[Hsz Hrr Hc Hid Hs Hn Hd] _].
  destruct (find_next_cases st t Hsz) as [(j & Hj & _ & _ & E)|[_ E]]; rewrite E in H; apply ret_inj in H as [<- <-].
  - split; [|split; [by intros i [= <-]|done]]. apply (inv_fields t); try done. cbn [set_rr rr]. unfold NPROCS in *. lia.
  - split; [|split; [done|done]]. apply (inv_fields t); try done. cbn [set_rr rr].
    pose proof (Z.mod_pos_bound (rr t) NPROCS). unfold NPROCS in *. lia.
Qed.

Lemma pres_switch p : pres (switch_to p).
Proof. unfold switch_to. apply pres_bind; [|auto with presdb]. intros k a k' [_ <-]%ret_inj. done. Qed.

Lemma pres_set_current o : in_table o -> pres (on_pt (modify (set_current o))).
Proof. intros Ho. apply pres_on_pt. intros t a t' [_ <-]%ret_inj HI. by apply (inv_fields t); try apply HI. Qed.
Hint Resolve pres_switch pres_set_current : presdb.

Lemma ensures_find_next st : ensures inv (on_pt (find_next_proc st)) (fun r t => inv t /\ in_table r).
Proof. intros k r k' H%on_pt_inv HI. by destruct (find_next_inv _ _ _ _ HI H) as (H1 & H2 & _). Qed.

Lemma ensures_get : ensures inv (on_pt get) (fun t t' => inv t' /\ in_table (idle t)).
Proof. intros k t k' H%on_pt_inv HI. apply ret_inj in H as [<- <-]. split; [done|]. apply HI. Qed.

(** A pure fact learnt on the way *)
Lemma ensures_pure {A} (I : ptable -> Prop) (P : Prop) (m : M kst A) Q :
  (P -> ensures I m Q) -> ensures (fun t => I t /\ P) m Q.
Proof. intros Hm k a k' H [HI HP]. by eapply Hm. Qed.

Lemma pres_schedule cpu : pres (proc_schedule_after_irq cpu).
Proof.
  unfold proc_schedule_after_irq. eapply ensures_bind; [apply ensures_get|]. intros t. apply ensures_pure. intros Hid.
  destruct (negb (scheduling_enabled t)); [auto with presdb|].
  destruct (current_proc t) as [c|]; [|auto with presdb]. preserve.
  apply pres_bind; [destruct (negb _); auto with presdb|]. intros _.
  eapply ensures_bind; [apply ensures_find_next|]. intros found. apply ensures_pure. intros Hf.
  assert (Hn : in_table (match found with None => idle t | Some _ => found end)) by (by destruct found).
  destruct (decide _); [auto with presdb|]. preserve.
Qed.
Hint Resolve pres_schedule : presdb.

Section Calls.
Variable sy : symbols.

Lemma pres_enqueue msg r : pres (send_enqueue sy msg r).
Proof. apply pres_keeps, keeps_enqueue. Qed.
Hint Resolve pres_enqueue : presdb.

Lemma pres_deliver msg r : pres (send_deliver sy msg r).
Proof. unfold send_deliver, ld, st. preserve. Qed.
Hint Resolve pres_deliver : presdb.

Lemma pres_send_body regs : pres (send_body sy regs).
Proof.
  unfold send_body, ld, proc_disable_scheduling. preserve. destruct a2 as [r|]; [|auto with presdb]. preserve.
  apply pres_bind; [destruct (decide _); auto with presdb|]. intros _. preserve.
  apply pres_bind; [|auto with presdb]. destruct (state _); auto with presdb. preserve.
Qed.
Lemma pres_recv_body regs : pres (recv_body sy regs).
Proof. unfold recv_body, ld, st, proc_disable_scheduling. preserve. destruct a2; preserve. Qed.
Lemma pres_rply_body regs : pres (rply_body sy regs).
Proof. unfold rply_body, ld, st, proc_disable_scheduling. preserve. destruct (negb a2); preserve. Qed.

Lemma pres_send yield regs : pres (syscall_send_msg sy yield regs).
Proof.
  unfold syscall_send_msg. apply pres_bind; [apply pres_send_body|].
  intros [|]; [|auto with presdb]. unfold proc_schedule_without_irq, proc_enable_scheduling. preserve.
Qed.
Lemma pres_recv yield regs : pres (syscall_recv_msg sy yield regs).
Proof.
  unfold syscall_recv_msg, proc_schedule_without_irq, proc_enable_scheduling. apply pres_bind; [apply pres_recv_body|intros _; preserve].
Qed.
Lemma pres_rply yield regs : pres (syscall_rply_msg sy yield regs).
Proof.
  unfold syscall_rply_msg, proc_schedule_without_irq, proc_enable_scheduling. apply pres_bind; [apply pres_rply_body|intros _; preserve].
Qed.

Lemma pres_install_irq which h pd : pres (install_irq which h pd).
Proof. intros k a k' H HI. unfold install_irq in H. destruct (irq_install_handler _ _ _ _); [|done]. by apply ret_inj in H as [_ <-]. Qed.
Hint Resolve pres_install_irq : presdb.

Lemma strcmp_state {S} fuel rd1 rd2 : forall a b (s : S) r s', strcmp fuel rd1 rd2 a b s = Ret r s' -> s' = s.
Proof.
  induction fuel as [|fuel IH]; intros a b s r s' H; [done|]. cbn [strcmp] in H.
  destruct (rd1 a) as [c1|]; [|done]. destruct (rd2 b) as [c2|]; [|done].
  destruct (_ =? _); [|by apply ret_inv in H as [_ <-]]. destruct (_ =? _); [by apply ret_inv in H as [_ <-]|eauto].
Qed.
Lemma streq_state {S} fuel rd1 rd2 a b (s : S) r s' : streq fuel rd1 rd2 a b s = Ret r s' -> s' = s.
Proof. unfold streq. intros (x & s1 & H1 & H)%bind_inv. apply strcmp_state in H1 as ->. by apply ret_inv in H as [_ <-]. Qed.

Lemma find_name_state l rd nm t a t' : find_name l rd nm t = Ret a t' -> t' = t.
Proof.
  revert t. induction l as [|p l IH]; intros t H; cbn [find_name] in H; [by apply ret_inv in H as [_ <-]|].
  apply bind_inv in H as (b & t1 & H1 & H). apply streq_state in H1 as ->. destruct b; [by apply ret_inv in H as [_ <-]|].
  by apply IH.
Qed.
Lemma pres_find_name rd nm : pres (on_pt (proc_find_by_name rd nm)).
Proof. apply pres_on_pt. intros t a t' H. unfold proc_find_by_name in H. by apply find_name_state in H as ->. Qed.
Hint Resolve pres_find_name : presdb.

Lemma pres_forward msg sender : pres (forward_interrupt msg sender).
Proof. unfold forward_interrupt, ld, proc_disable_scheduling, proc_enable_scheduling. preserve. Qed.
Hint Resolve pres_forward : presdb.

Lemma pres_dispatch inb msg spid : pres (msg_dispatch inb msg spid).
Proof.
  unfold msg_dispatch, ld, proc_disable_scheduling, proc_enable_scheduling. preserve. apply pres_bind; [|intros ?; preserve].
  repeat (match goal with |- context [if ?b then _ else _] => destruct b end); preserve.
Qed.

Lemma pres_create nm priv super addr size : pres (proc_new_from_memory sy nm priv super addr size).
Proof.
  unfold proc_new_from_memory. apply pres_bind; [|intros slot; preserve].
  intros k r k' H [HI Ht]. destruct (proc_new_created _ _ _ _ _ _ _ (ti_size _ HI) H) as (i & -> & Hi & _ & Hcr).
  split; [by apply (table_inv_create _ _ _ _ HI Hi Hcr)|by apply (st_create _ _ _ _ HI Ht Hi Hcr)].
Qed.
Lemma ensures_create nm priv super addr size :
  ensures inv (proc_new_from_memory sy nm priv super addr size) (fun r t => inv t /\ in_table r).
Proof.
  unfold proc_new_from_memory. apply (ensures_bind _ _ (fun slot t => inv t /\ in_table slot)).
  - intros k r k' H [HI Ht]. destruct (proc_new_created _ _ _ _ _ _ _ (ti_size _ HI) H) as (i & -> & Hi & _ & Hcr).
    split; [split; [by apply (table_inv_create _ _ _ _ HI Hi Hcr)|by apply (st_create _ _ _ _ HI Ht Hi Hcr)]|]. by intros j [= <-].
  - intros slot. apply ensures_pure. intros Hs. eapply ensures_bind; [apply pres_deref|]. intros ip.
    eapply ensures_bind; [apply pres_update, harmless_location|]. intros u k r k' [<- <-]%ret_inv HI. done.
Qed.

End Calls.
End Preserved.

(** ** Reachable states *)

(** The steps, whatever they write: on its own this relation lets a process, or
    a call with an address of the kernel's, write over procs[] without effect,
    because the table is beside memory.  Theorems take [safe_step] below. *)
Inductive kstep (sy : symbols) (k k' : kst) : Prop :=
| k_switch cpu r : proc_schedule_after_irq cpu k = Ret r k' -> kstep sy k k'
| k_send yield regs r : syscall_send_msg sy yield regs k = Ret r k' -> kstep sy k k'
| k_recv yield regs r : syscall_recv_msg sy yield regs k = Ret r k' -> kstep sy k k'
| k_reply yield regs r : syscall_rply_msg sy yield regs k = Ret r k' -> kstep sy k k'
| k_dispatch inb msg spid r : msg_dispatch inb msg spid k = Ret r k' -> kstep sy k k'
| k_create nm priv super addr size r :
    proc_new_from_memory sy nm priv super addr size k = Ret r k' -> kstep sy k k'
| k_run v : k' = set_vm v k -> kstep sy k k'. (* a process runs *)

(** The addresses of procs[] but for the heads of the queues, which are in the
    memory of the model too *)
Definition in_procs (sy : symbols) (a : Z) : Prop :=
  exists i, 0 <= i < NPROCS /\ sym_procs sy + sizeof_proc * i <= a < sym_procs sy + sizeof_proc * i + recv_queue_off.

(** Memory that stands for what the model keeps beside it is left alone: the
    table, and at [own] the kernel's code, its stacks and its other variables.
    The kernel reads the same bytes there before and after, in the address
    space it is in. *)
Definition keeps_own (sy : symbols) (own : Z -> Prop) (k k' : kst) : Prop :=
  forall a, in_procs sy a \/ own a -> exists b, rd8 a (mach (vm k)) = Some b /\ rd8 a (mach (vm k')) = Some b.

(** A step that does so *)
Definition safe_step (sy : symbols) (own : Z -> Prop) (k k' : kst) : Prop := kstep sy k k' /\ keeps_own sy own k k'.

(** From the static table of 64 slots, through proc_earlyinit. *)
Inductive reachable (sy : symbols) (own : Z -> Prop) : kst -> Prop :=
| r_start k0 k : Z.of_nat (length (procs (pt k0))) = NPROCS -> next_pid (pt k0) = 0 ->
    current_proc (pt k0) = None -> idle (pt k0) = None -> rr (pt k0) = 0 ->
    proc_earlyinit sy k0 = Ret tt k -> keeps_own sy own k0 k -> reachable sy own k
| r_step k k' : reachable sy own k -> safe_step sy own k k' -> reachable sy own k'.

Lemma kstep_inv J `{HJ : !Stable J} sy k k' : kstep sy k k' -> inv J (pt k) -> inv J (pt k').
Proof.
  intros [cpu r H|y regs r H|y regs r H|y regs r H|inb msg spid r H|nm pv su ad sz r H|v ->] HI.
  - exact (pres_schedule J _ _ _ _ H HI).
  - exact (pres_send J _ _ _ _ _ _ H HI).
  - exact (pres_recv J _ _ _ _ _ _ H HI).
  - exact (pres_rply J _ _ _ _ _ _ H HI).
  - exact (pres_dispatch J _ _ _ _ _ _ H HI).
  - exact (pres_create J _ _ _ _ _ _ _ _ _ H HI).
  - done.
Qed.

(** The table proc_earlyinit starts from: all slots free. *)
Lemma table_inv_empty t l : Z.of_nat (length l) = NPROCS -> next_pid t = 0 -> current_proc t = None ->
  idle t = None -> rr t = 0 -> Forall (fun p => pid p = NO_PID) l -> table_inv (set_procs l t).
Proof.
  intros Hl Hn Hc Hi Hr Hf.
  assert (Hnil : filter has_pid l = []).
  { clear Hl. induction Hf as [|p l Hp _ IH]; [done|]. rewrite list.filter_cons, decide_False; [done|].
    intros Hh. by apply Hh. }
  split; cbn [set_procs procs rr current_proc idle next_pid]; rewrite ?Hnil; cbn [fmap list_fmap length].
  - done.
  - rewrite Hr. unfold NPROCS. lia.
  - by rewrite Hc.
  - by rewrite Hi.
  - eapply list.Forall_impl; [exact Hf|]. intros p Hp. split; [intros Hh; by destruct Hh|done].
  - lia.
  - constructor.
Qed.

#[export] Instance stable_true : Stable (fun _ => True).
Proof. by split. Qed.

Lemma earlyinit_inv sy k0 k : Z.of_nat (length (procs (pt k0))) = NPROCS -> next_pid (pt k0) = 0 ->
  current_proc (pt k0) = None -> idle (pt k0) = None -> rr (pt k0) = 0 ->
  proc_earlyinit sy k0 = Ret tt k -> table_inv (pt k).
Proof.
  intros Hl Hn Hc Hi Hr H. unfold proc_earlyinit in H. step H u1 k1 H1.
  assert (HI : inv (fun _ => True) (pt k1)).
  { split; [|done]. apply on_pt_inv, ret_inj in H1 as [_ <-]. apply table_inv_empty; try done; [by rewrite length_map|].
    apply list.Forall_forall. intros q (p & -> & _)%list_elem_of_fmap. done. }
  clear -H HI. step H u2 k2 H2. apply ret_inj in H2 as [_ <-]. step H k3 k4 H3. apply ret_inj in H3 as [<- <-].
  destruct (int_install_handler _ _ _); [|done]. step H u4 k5 H5. apply ret_inj in H5 as [_ <-].
  step H c1 k6 H6. destruct (ensures_create _ _ _ _ _ _ _ _ _ _ H6 HI) as [HI1 Hc1]. step H u7 k7 H7.
  apply (fun H => pres_set_current (fun _ => True) _ Hc1 _ _ _ H HI1) in H7. clear HI1. rename H7 into HI1. step H c2 k8 H8. destruct (ensures_create _ _ _ _ _ _ _ _ _ _ H8 HI1) as [HI2 Hc2].
  apply on_pt_inv, ret_inj in H as [_ <-]. destruct HI2 as [[A1 A2 A3 A4 A5 A6 A7] _]. by split.
Qed.

(** In a table with the invariant a process is found by its pid. *)
Lemma find_pid_holder l i p n : NoDup (pid <$> filter has_pid l) -> zlookup l i = Some p -> has_pid p ->
  u32 (pid p) = pid p -> find_pid l n (pid p) = Some (n + i).
Proof.
  revert i n. induction l as [|q l IH]; intros i n Hd Hp Hh Hu; [by apply zlookup_Some_range in Hp; cbn in Hp; lia|].
  rewrite list.filter_cons in Hd. cbn [find_pid]. rewrite Hu. pose proof (zlookup_Some_range _ _ _ Hp) as Hi.
  destruct (decide (i = 0)) as [->|Hne].
  - injection Hp as ->. rewrite Z.eqb_refl. f_equal. lia.
  - assert (Hp' : zlookup l (i - 1) = Some p).
    { unfold zlookup in *. destruct (Z.ltb_spec i 0); [lia|]. destruct (Z.ltb_spec (i - 1) 0); [lia|].
      by replace (Z.to_nat i) with (S (Z.to_nat (i - 1))) in Hp by lia. }
    destruct (Z.eqb_spec (pid q) (pid p)) as [E|_].
    + exfalso. rewrite decide_True in Hd by (unfold has_pid in *; congruence). cbn [fmap list_fmap] in Hd.
      apply list.NoDup_cons in Hd as [Hd _]. apply Hd. rewrite E. apply list_elem_of_fmap. exists p. split; [done|].
      apply list_elem_of_filter. split; [done|]. unfold zlookup in Hp'. destruct (i - 1 <? 0); [done|].
      by apply list_elem_of_lookup_2 in Hp'.
    + rewrite (IH (i - 1) (n + 1)); [f_equal; lia| |done..].
      destruct (decide (has_pid q)); [|done]. by apply list.NoDup_cons in Hd as [_ Hd].
Qed.

Lemma reachable_inv sy own k : reachable sy own k -> table_inv (pt k).
Proof.
  induction 1 as [k0 k Hl Hn Hc Hi Hrr H _|k k' Hr IH [Hs _]]; [by apply (earlyinit_inv sy k0)|].
  by apply (kstep_inv (fun _ => True) sy k).
Qed.

Lemma slot_ok_at t i p : table_inv t -> zlookup (procs t) i = Some p -> slot_ok (next_pid t) p.
Proof.
  intros HI Hp. pose proof (ti_slots _ HI) as Hs. rewrite list.Forall_forall in Hs. apply Hs.
  unfold zlookup in Hp. destruct (i <? 0); [done|]. by apply list_elem_of_lookup_2 in Hp.
Qed.

(** C5: In every reachable state of the kernel, whatever system calls,
    interrupts, requests, process creations and process steps led to it, as
    long as none of them wrote to the kernel's own memory, the table has its
    64 slots, the current process, idle and the search index lie in it, the
    pids given out are exactly those below next_pid, which never exceeds 64, no
    two slots share one, a slot that is free has none, and looking a pid up
    gives the slot that holds it. *)
Theorem reachable_table sy own k : reachable sy own k ->
  table_wf (pt k) /\ 0 <= rr (pt k) <= NPROCS /\
  in_table (current_proc (pt k)) /\ in_table (idle (pt k)) /\ 0 <= next_pid (pt k) <= NPROCS /\
  Z.of_nat (length (filter has_pid (procs (pt k)))) = next_pid (pt k) /\
  forall i p, zlookup (procs (pt k)) i = Some p ->
    (state p = PROC_UNUSED -> pid p = NO_PID) /\
    (pid p <> NO_PID -> 0 <= pid p < next_pid (pt k) /\ find_pid (procs (pt k)) 0 (pid p) = Some i).
Proof.
  intros Hr. pose proof (reachable_inv sy own k Hr) as HI. pose proof HI as [Hsz Hrr Hc Hid Hs Hn Hd]. split; [done|]. split; [done|]. split; [done|]. split; [done|].
  split; [pose proof (list.length_filter has_pid (procs (pt k))); unfold table_wf in Hsz; lia|]. split; [done|].
  intros i p Hp. destruct (slot_ok_at _ _ _ HI Hp) as [H1 H2]. split; [done|]. intros Hh. split; [by apply H1|]. specialize (H1 Hh).
  apply (find_pid_holder _ i p 0); [done..|]. apply u32_small.
  pose proof (list.length_filter has_pid (procs (pt k))). unfold table_wf, NPROCS in Hsz. lia.
Qed.

(** *** The state after proc_earlyinit

    procs[] is in 0x10000 to 0x11600, the kernel's other variables behind it. *)
Definition k_own (a : Z) : Prop := 71168 <= a < 73728.

Definition same_byte (k k' : kst) (a : Z) : bool :=
  match rd8 a (mach (vm k)), rd8 a (mach (vm k')) with Some b, Some b' => byte.unsigned b =? byte.unsigned b' | _, _ => false end.

Lemma same_byte_spec k k' a : same_byte k k' a = true ->
  exists b, rd8 a (mach (vm k)) = Some b /\ rd8 a (mach (vm k')) = Some b.
Proof.
  unfold same_byte. destruct (rd8 a (mach (vm k))) as [b|]; [|done]. destruct (rd8 a (mach (vm k'))) as [b'|]; [|done].
  intros H%Z.eqb_eq. apply byte.unsigned_inj in H as ->. eauto.
Qed.

Definition head_of_queue (a : Z) : bool := (a <? 71168) && (80 <=? (a - 65536) mod 88).

Lemma early_bytes : forallb (fun a => head_of_queue a || same_byte k_boot k_early a) (seqZ 65536 8192) = true.
Proof. vm_compute. reflexivity. Qed.

Lemma k_own_range a : in_procs k_syms a \/ k_own a -> 65536 <= a < 73728 /\ head_of_queue a = false.
Proof.
  unfold k_own, in_procs, NPROCS, head_of_queue. change (sym_procs k_syms) with 65536.
  unfold sizeof_proc, recv_queue_off. intros [(i & Hi & Ha)|Ha].
  - split; [lia|]. apply andb_false_iff. right. apply Z.leb_gt.
    replace (a - 65536) with ((a - 65536 - 88 * i) + i * 88) by lia. rewrite Z.mod_add, Z.mod_small by lia. lia.
  - split; [lia|]. apply andb_false_iff. left. apply Z.ltb_ge. lia.
Qed.

Lemma early_keeps : keeps_own k_syms k_own k_boot k_early.
Proof.
  intros a [Ha Hn]%k_own_range. apply same_byte_spec. pose proof early_bytes as H. rewrite forallb_forall in H.
  assert (Hin : In a (seqZ 65536 8192)) by (apply list_elem_of_In, elem_of_seqZ; lia).
  apply H in Hin. by rewrite Hn, orb_false_l in Hin.
Qed.

Lemma early_reachable : reachable k_syms k_own k_early.
Proof. apply (r_start k_syms k_own k_boot); [reflexivity..|exact early_runs|exact early_keeps]. Qed.

Lemma reachable_table_witness : table_wf (pt k_early) /\ 0 <= next_pid (pt k_early) <= NPROCS.
Proof.
  destruct (reachable_table k_syms k_own k_early early_reachable) as (H1 & _ & _ & _ & H2 & _). split; [exact H1|exact H2].
Defined.

(** ** Processes last

    [from t0]: every process of [t0] is still in its slot, the same process. *)
Definition from (t0 t : ptable) : Prop :=
  forall i p, zlookup (procs t0) i = Some p -> has_pid p ->
    exists p', zlookup (procs t) i = Some p' /\ identity p' = identity p /\ state p' <> PROC_UNUSED.

#[export] Instance stable_from t0 : Stable (from t0).
Proof.
  split.
  - intros t i q f Hfrom Hq Hf j p Hp Hh. destruct (Hfrom j p Hp Hh) as (p' & Hp' & Hid & Hst).
    cbn [set_procs procs]. destruct (decide (i = j)) as [<-|Hne].
    + rewrite Hq in Hp'. injection Hp' as <-. destruct (Hf q) as [Hfi Hfs]. exists (f q).
      split; [apply zlookup_zupdate_eq; by apply zlookup_Some_range in Hq|]. split; [congruence|]. intros E. by apply Hst, Hfs.
    + exists p'. by rewrite zlookup_zupdate_ne.
  - intros t t' Hp _ Hfrom j p. rewrite Hp. apply Hfrom.
  - intros t t' i priv HI Hfrom Hi [(q & Hq & Hqs & q' & Hpr & _) _ _ _ _ _] j p Hp Hh.
    destruct (Hfrom j p Hp Hh) as (p' & Hp' & Hid & Hst). exists p'. split; [|done].
    rewrite Hpr, zlookup_zupdate_ne; [done|]. intros <-. congruence.
Qed.

(** C8: Processes last: whatever happens after a reachable state, as long as
    it leaves the kernel's own memory alone, each process in its table stays in
    its slot with its pid, name, privilege, kernel stack and address space, and
    its slot never becomes free. *)
Theorem processes_last sy own k k' i p : reachable sy own k -> rtc (safe_step sy own) k k' ->
  zlookup (procs (pt k)) i = Some p -> pid p <> NO_PID ->
  exists p', zlookup (procs (pt k')) i = Some p' /\ identity p' = identity p /\ state p' <> PROC_UNUSED.
Proof.
  intros Hr Hrun Hp Hh. pose proof (reachable_inv sy own k Hr) as HI.
  assert (Hinv : inv (from (pt k)) (pt k)).
  { split; [done|]. intros j q Hq Hqh. exists q. split; [done|]. split; [done|]. intros Hs.
    apply Hqh. by apply (slot_ok_at _ _ _ HI Hq). }
  assert (Hend : inv (from (pt k)) (pt k')).
  { clear -Hrun Hinv. revert Hinv. generalize (from (pt k)) (stable_from (pt k)). intros J HJ Hinv.
    induction Hrun as [|k1 k2 k3 [Hs _] _ IH]; [done|]. apply IH. by apply (kstep_inv J sy k1). }
  by apply Hend.
Qed.

(** idle, after it wrote a byte of its own *)
Definition v_wrote : vmst := set_mach (set_phys (<[262144 := Byte.x2a]> (phys (mach (vm k_early)))) (mach (vm k_early))) (vm k_early).

Lemma wrote_bytes : forallb (same_byte k_early (set_vm v_wrote k_early)) (seqZ 65536 8192) = true.
Proof. vm_compute. reflexivity. Qed.

Lemma wrote_keeps : keeps_own k_syms k_own k_early (set_vm v_wrote k_early).
Proof.
  intros a [Ha _]%k_own_range. apply same_byte_spec. pose proof wrote_bytes as H. rewrite forallb_forall in H.
  assert (Hin : In a (seqZ 65536 8192)) by (apply list_elem_of_In, elem_of_seqZ; lia). exact (H a Hin).
Qed.

Lemma processes_last_witness : exists p',
  zlookup (procs (pt (set_vm v_wrote k_early))) 1 = Some p' /\
  identity p' = identity (default proc0 (zlookup (procs pt_early) 1)) /\ state p' <> PROC_UNUSED.
Proof.
  apply (processes_last k_syms k_own k_early (set_vm v_wrote k_early) 1 (default proc0 (zlookup (procs pt_early) 1))).
  - exact early_reachable.
  - apply rtc_once. split; [|exact wrote_keeps]. exact (k_run k_syms k_early (set_vm v_wrote k_early) v_wrote eq_refl).
  - rewrite (proj2 early_evaluates). vm_compute. reflexivity.
  - vm_compute. discriminate.
Defined.
