(* ===== verification/Sar.v ===== *)
(** * Sar.v: the Simple ARchive format (tools/sar.c, kernel/sar.c,
      include/kernel/sar.h)

    [create] builds the archive as the bytes of the output file, write by
    write; [list_archive] and [extract] are the readers of the host tool,
    [sar_lookup] and [sar_get_contents] those of the kernel.  All readers go
    through a function from addresses to bytes, so that the same proofs serve
    a buffer on the host and the archive in the kernel's memory.  The tool's
    command line and its messages are in SarTool.v. *)

From S2P Require Import Prelude Memory.

Definition SAR_MAGIC : Z := 1380012807. (* 0x52415307 *)
Definition sizeof_sar_header : Z := 4.
Definition sizeof_sar_file : Z := 12.

(** [((uint32_t)addr + 4096 - 1) & ~(4096 - 1)] *)
Definition PALIGN (addr : Z) : Z := Z.land (u32 (u32 addr + 4096 - 1)) 4294963200.

(** ** Writing *)

(** pwrite: overwrite or extend at [off], filling a gap with zeroes; writing
    nothing changes nothing. *)
Definition put_at (off : Z) (bs data : list byte) : list byte :=
  match bs with
  | [] => data
  | _ =>
      take (Z.to_nat off) (data ++ repeat Byte.x00 (Z.to_nat off - length data)) ++ bs ++
      drop (Z.to_nat off + length bs) data
  end.

(** struct sar_file: size, offset, namelen *)
Definition fhdr_bytes (size offset namelen : Z) : list byte :=
  le_split 4 size ++ le_split 4 offset ++ le_split 4 namelen.

(** A file named on the command line: its basename, and its contents unless
    it cannot be opened. *)
Record input := Input { i_name : list byte; i_data : option (list byte) }.

Definition namelen (nm : list byte) : Z := u32 (Z.of_nat (length nm) + 1).

(** The loop that adds up the size of the headers. *)
Definition hdr_size (fs : list input) : Z :=
  foldl (fun total f => u32 (u32 (total + sizeof_sar_file) + (Z.of_nat (length (i_name f)) + 1))) 0 fs.

Record wstate := W {
  w_data : list byte;         (* the archive so far *)
  w_pos : Z;                  (* where write() goes *)
  w_last_file_offset : Z;
  w_last_fhdr_addr : Z;
}.

(** One round of the loop that writes the headers and the contents. *)
Definition add_file (w : wstate) (f : input) : wstate :=
  match i_data f with
  | None => w
  | Some content =>
      let size := u32 (Z.of_nat (length content)) in
      let nl := namelen (i_name f) in
      let buf := content ++ repeat Byte.x00 (Z.to_nat (PALIGN size - size)) in
      let d1 := put_at (w_pos w) (fhdr_bytes size (w_last_file_offset w) nl) (w_data w) in
      let d2 := put_at (w_pos w + sizeof_sar_file) (i_name f ++ [Byte.x00]) d1 in
      let d3 := put_at (w_last_file_offset w) buf d2 in
      W d3 (w_pos w + sizeof_sar_file + nl) (u32 (w_last_file_offset w + PALIGN size))
        (u32 (w_last_fhdr_addr w + (sizeof_sar_file + nl)))
  end.

Definition create (fs : list input) : list byte :=
  let total_hdr_size :=
    PALIGN (u32 (u32 (hdr_size fs + sizeof_sar_header) + sizeof_sar_file)) in
  let w0 := W (put_at 0 (le_split 4 SAR_MAGIC) []) 4 total_hdr_size sizeof_sar_header in
  let w := foldl add_file w0 fs in
  put_at (w_last_fhdr_addr w) (fhdr_bytes 0 0 0) (w_data w).

(** ** Reading *)

Section Read.
Context {S : Type}.
Variable rd : Z -> option byte.

Fixpoint rd_bytes (n : nat) (a : Z) : M S (list byte) :=
  match n with
  | O => mret []
  | Datatypes.S n' =>
      match rd a with
      | None => fun _ => Faulted a
      | Some b => bs ← rd_bytes n' (a +w 1); mret (b :: bs)
      end
  end.
Definition rd32 (a : Z) : M S Z := bs ← rd_bytes 4 a; mret (le_combine bs).

(** A NUL-terminated string, as printf and open read it. *)
Fixpoint rd_string (fuel : nat) (a : Z) : M S (list byte) :=
  match fuel with
  | O => nofuel
  | Datatypes.S fuel' =>
      match rd a with
      | None => fun _ => Faulted a
      | Some b => if byte.unsigned b =? 0 then mret []
                  else bs ← rd_string fuel' (a +w 1); mret (b :: bs)
      end
  end.

Definition FHDR_FNAME (fhdr : Z) : Z := fhdr +w sizeof_sar_file.
Definition next_fhdr (fhdr namelen : Z) : Z := fhdr +w sizeof_sar_file +w namelen.

(** kernel/sar.c: NULL is 0; [rdn] reads the string looked for. *)
Fixpoint lookup_loop (fuel : nat) (rdn : Z -> option byte) (fhdr fname : Z) : M S Z :=
  match fuel with
  | O => nofuel
  | Datatypes.S fuel' =>
      size ← rd32 fhdr; offset ← rd32 (fhdr +w 4); nl ← rd32 (fhdr +w 8);
      if Z.lor (Z.lor size offset) nl =? 0 then mret 0
      else
        c ← strcmp (Datatypes.S fuel') rd rdn (FHDR_FNAME fhdr) fname;
        if c =? 0 then mret fhdr else lookup_loop fuel' rdn (next_fhdr fhdr nl) fname
  end.
Definition sar_lookup (fuel : nat) (rdn : Z -> option byte) (file fname : Z) : M S Z :=
  lookup_loop fuel rdn (file +w sizeof_sar_header) fname.

Definition sar_get_contents (fuel : nat) (rdn : Z -> option byte) (file fname : Z) : M S Z :=
  fhdr ← sar_lookup fuel rdn file fname;
  if fhdr =? 0 then mret 0
  else offset ← rd32 (fhdr +w 4); mret (file +w offset).

(** tools/sar.c, list: the (name, size, offset) triples printed. *)
Fixpoint list_loop (fuel : nat) (fhdr : Z) : M S (list (list byte * Z * Z)) :=
  match fuel with
  | O => nofuel
  | Datatypes.S fuel' =>
      size ← rd32 fhdr; offset ← rd32 (fhdr +w 4); nl ← rd32 (fhdr +w 8);
      if Z.lor (Z.lor size offset) nl =? 0 then mret []
      else
        nm ← rd_string (Datatypes.S fuel') (FHDR_FNAME fhdr);
        rest ← list_loop fuel' (next_fhdr fhdr nl);
        mret ((nm, size, offset) :: rest)
  end.

(** tools/sar.c, extract: the files written, and the one that could not be
    opened, if any. *)
Fixpoint extract_loop (fuel : nat) (can_open : list byte -> bool) (buf fhdr : Z)
    : M S (list (list byte * list byte) * option (list byte)) :=
  match fuel with
  | O => nofuel
  | Datatypes.S fuel' =>
      size ← rd32 fhdr; offset ← rd32 (fhdr +w 4); nl ← rd32 (fhdr +w 8);
      if Z.lor (Z.lor size offset) nl =? 0 then mret ([], None)
      else
        nm ← rd_string (Datatypes.S fuel') (FHDR_FNAME fhdr);
        if negb (can_open nm) then mret ([], Some nm)
        else
          content ← rd_bytes (Z.to_nat size) (buf +w offset);
          rest ← extract_loop fuel' can_open buf (next_fhdr fhdr nl);
          mret ((nm, content) :: fst rest, snd rest)
  end.
End Read.

Definition list_archive {S} (fuel : nat) (data : list byte) : M S (list (list byte * Z * Z)) :=
  list_loop (zlookup data) fuel sizeof_sar_header.
Definition extract {S} (fuel : nat) (can_open : list byte -> bool) (data : list byte)
    : M S (list (list byte * list byte) * option (list byte)) :=
  extract_loop (zlookup data) fuel can_open 0 sizeof_sar_header.

(** tools/sar.c, cmd_lookup *)
Inductive command := Create | Extract | List_.
Definition cmd_lookup (ch : Z) : option command :=
  if ch =? 99 then Some Create else if ch =? 101 then Some Extract
  else if ch =? 108 then Some List_ else None.

(** ** Bytes at an offset *)

(** [data] holds [bs] from offset [o] on. *)
Definition bytes_at (data : list byte) (o : Z) (bs : list byte) : Prop :=
  0 <= o /\ forall i b, bs !! i = Some b -> data !! (Z.to_nat o + i)%nat = Some b.

Lemma bytes_at_lookup data o bs i b : bytes_at data o bs -> bs !! i = Some b ->
  zlookup data (o + Z.of_nat i) = Some b.
Proof.
  intros [Ho Ht] Hi. unfold zlookup. destruct (Z.ltb_spec (o + Z.of_nat i) 0); [lia|].
  rewrite <- (Ht i b Hi). f_equal. lia.
Qed.

Lemma bytes_at_length data o bs : bytes_at data o bs -> bs <> [] ->
  o + Z.of_nat (length bs) <= Z.of_nat (length data).
Proof.
  intros [Ho Ht] Hne. destruct (lookup_lt_is_Some_2 bs (length bs - 1)) as [b Hb].
  { destruct bs; [done|simpl; lia]. }
  apply Ht, lookup_lt_Some in Hb. destruct bs; [done|]. simpl in *. lia.
Qed.

Lemma bytes_at_app data o bs1 bs2 : bytes_at data o (bs1 ++ bs2) ->
  bytes_at data o bs1 /\ bytes_at data (o + Z.of_nat (length bs1)) bs2.
Proof.
  intros [Ho Ht]. split; (split; [lia|]); intros i b Hi.
  - apply Ht. by apply lookup_app_l_Some.
  - replace (Z.to_nat (o + Z.of_nat (length bs1)) + i)%nat with (Z.to_nat o + (length bs1 + i))%nat by lia.
    apply Ht. rewrite lookup_app_r by lia. rewrite <- Hi. f_equal. lia.
Qed.

Lemma put_at_base o (data : list byte) :
  length (take (Z.to_nat o) (data ++ repeat Byte.x00 (Z.to_nat o - length data))) = Z.to_nat o.
Proof. rewrite length_take, length_app, repeat_length. lia. Qed.

Lemma put_at_same o bs data : 0 <= o -> bytes_at (put_at o bs data) o bs.
Proof.
  intros Ho. split; [done|]. intros i b Hi. unfold put_at. destruct bs as [|c bs]; [done|].
  rewrite lookup_app_r by (rewrite put_at_base; lia). rewrite put_at_base, lookup_app_l.
  - rewrite <- Hi. f_equal. lia.
  - apply lookup_lt_Some in Hi. lia.
Qed.

Lemma put_at_other o bs data o' bs' : 0 <= o -> bytes_at data o' bs' ->
  o' + Z.of_nat (length bs') <= o \/ o + Z.of_nat (length bs) <= o' ->
  bytes_at (put_at o bs data) o' bs'.
Proof.
  intros Ho [Ho' Ht] Hd. split; [done|]. intros i b Hi. pose proof (lookup_lt_Some _ _ _ Hi) as Hlt.
  specialize (Ht i b Hi). pose proof (lookup_lt_Some _ _ _ Ht) as Hlt'.
  unfold put_at. destruct bs as [|c bs]; [done|]. set (l := c :: bs) in *. destruct Hd as [Hd|Hd].
  - rewrite lookup_app_l by (rewrite put_at_base; lia).
    rewrite lookup_take, decide_True by lia. by rewrite lookup_app_l by lia.
  - rewrite lookup_app_r by (rewrite put_at_base; lia). rewrite put_at_base.
    rewrite lookup_app_r by lia. rewrite lookup_drop, <- Ht. f_equal. lia.
Qed.

(** ** What create writes *)

(** The files that could be opened. *)
Fixpoint kept (fs : list input) : list (list byte * list byte) :=
  match fs with
  | [] => []
  | f :: fs' => match i_data f with Some c => (i_name f, c) :: kept fs' | None => kept fs' end
  end.

Definition len {A} (l : list A) : Z := Z.of_nat (length l).

(** The number of bytes of the headers of [l], and of its padded contents. *)
Fixpoint hsz (l : list (list byte * list byte)) : Z :=
  match l with [] => 0 | (nm, _) :: l' => 12 + (len nm + 1) + hsz l' end.
Fixpoint csz (l : list (list byte * list byte)) : Z :=
  match l with [] => 0 | (_, c) :: l' => PALIGN (len c) + csz l' end.

(** [data] holds the headers of [l] from [h] on and their contents from [off] on. *)
Fixpoint archived (data : list byte) (h off : Z) (l : list (list byte * list byte)) : Prop :=
  match l with
  | [] => True
  | (nm, c) :: l' =>
      bytes_at data h (fhdr_bytes (len c) off (len nm + 1)) /\ bytes_at data (h + 12) (nm ++ [Byte.x00]) /\
      bytes_at data off c /\ archived data (h + 12 + (len nm + 1)) (off + PALIGN (len c)) l'
  end.

Lemma PALIGN_bounds z : 0 <= z < 4294963200 -> z <= PALIGN z < z + 4096 /\ PALIGN z mod 4096 = 0.
Proof.
  intros Hz. unfold PALIGN. rewrite (u32_small z) by lia. rewrite u32_small by lia.
  rewrite land_page by lia. zdm.
Qed.

Lemma hsz_pos l : 0 <= hsz l.
Proof. induction l as [|[nm c] l IH]; simpl; unfold len; lia. Qed.

Lemma csz_pos l : Forall (fun x => len (snd x) < 4294963200) l -> 0 <= csz l.
Proof.
  induction 1 as [|[nm c] l Hx _ IH]; simpl in *; [lia|].
  pose proof (PALIGN_bounds (len c)). unfold len in *. lia.
Qed.

Lemma fhdr_bytes_length a b c : length (fhdr_bytes a b c) = 12%nat.
Proof. unfold fhdr_bytes. by rewrite !length_app, !length_le_split. Qed.

(** The loop of create: [H] bounds the headers from above and the contents
    from below. *)
Lemma add_files_spec fs w h off H :
  w_pos w = h -> w_last_fhdr_addr w = h -> w_last_file_offset w = off -> 0 <= h ->
  h + hsz (kept fs) <= H <= off -> off + csz (kept fs) < 4294967296 ->
  Forall (fun x => len (snd x) < 4294963200) (kept fs) ->
  let w' := foldl add_file w fs in
  archived (w_data w') h off (kept fs) /\ w_last_fhdr_addr w' = h + hsz (kept fs) /\
  forall o bs, bytes_at (w_data w) o bs ->
    (o + len bs <= h \/ (H <= o /\ o + len bs <= off)) -> bytes_at (w_data w') o bs.
Proof.
  revert w h off. induction fs as [|f fs IH]; intros w h off Hp Hf Ho Hh HH Hc Hsz; cbn [foldl].
  { split; [done|]. split; [simpl; lia|]. done. }
  destruct f as [nm [c|]]; [|by apply IH].
  cbn [kept i_data i_name hsz csz] in HH, Hc, Hsz |- *. inversion Hsz as [|? ? Hsc Hsz']; subst. simpl in Hsc.
  pose proof (hsz_pos (kept fs)) as Hhp. pose proof (csz_pos _ Hsz') as Hcp.
  destruct (PALIGN_bounds (len c)) as [Hpa Hpm]; [unfold len in *; lia|].
  assert (Hsize : u32 (len c) = len c) by (apply u32_small; unfold len in *; lia).
  assert (Hnl : namelen nm = len nm + 1) by (unfold namelen, len in *; apply u32_small; lia).
  set (h := w_pos w) in *. set (off := w_last_file_offset w) in *.
  set (buf := c ++ repeat Byte.x00 (Z.to_nat (PALIGN (len c) - len c))).
  assert (Hbuf : len buf = PALIGN (len c)).
  { unfold buf, len in *. rewrite length_app, repeat_length. lia. }
  set (d1 := put_at h (fhdr_bytes (len c) off (len nm + 1)) (w_data w)).
  set (d2 := put_at (h + 12) (nm ++ [Byte.x00]) d1). set (d3 := put_at off buf d2).
  assert (Hadd : add_file w (Input nm (Some c)) = W d3 (h + 12 + (len nm + 1)) (off + PALIGN (len c)) (h + 12 + (len nm + 1))).
  { unfold add_file. cbn [i_data i_name]. fold (len c). rewrite Hsize, Hnl, Hf. unfold sizeof_sar_file.
    fold h off. rewrite (u32_small (off + _)), (u32_small (h + _)) by (unfold len in *; lia).
    fold buf d1 d2 d3. f_equal. lia. }
  assert (Hlen1 : Z.of_nat (length (nm ++ [Byte.x00])) = len nm + 1) by (unfold len; rewrite length_app; simpl; lia).
  assert (Hl12 : Z.of_nat (length (fhdr_bytes (len c) off (len nm + 1))) = 12) by (by rewrite fhdr_bytes_length).
  assert (B1 : bytes_at d3 h (fhdr_bytes (len c) off (len nm + 1))).
  { apply put_at_other; [lia| |unfold len in *; lia]. apply put_at_other; [lia| |unfold len in *; lia].
    by apply put_at_same. }
  assert (B2 : bytes_at d3 (h + 12) (nm ++ [Byte.x00])).
  { apply put_at_other; [lia| |unfold len in *; lia]. apply put_at_same. lia. }
  assert (B3 : bytes_at d3 off c).
  { apply (bytes_at_app _ _ c (repeat Byte.x00 (Z.to_nat (PALIGN (len c) - len c)))). apply put_at_same. lia. }
  rewrite Hadd. destruct (IH (W d3 (h + 12 + (len nm + 1)) (off + PALIGN (len c)) (h + 12 + (len nm + 1)))
    (h + 12 + (len nm + 1)) (off + PALIGN (len c))) as (IA & IF & IK); try done; try (unfold len in *; lia).
  cbn [w_data] in IK. split; [|split].
  - cbn [archived]. split; [apply IK; [done|unfold len in *; lia]|].
    split; [apply IK; [done|unfold len in *; lia]|]. split; [|done].
    apply IK; [done|]. unfold len in *. lia.
  - rewrite IF. lia.
  - intros o bs Hb Hr. apply IK; [|unfold len in *; lia]. unfold len in *.
    apply put_at_other; [lia| |lia]. apply put_at_other; [lia| |lia]. apply put_at_other; [lia|done|lia].
Qed.

Fixpoint asz (fs : list input) : Z :=
  match fs with [] => 0 | f :: fs' => 12 + (len (i_name f) + 1) + asz fs' end.

Lemma asz_pos fs : 0 <= asz fs.
Proof. induction fs; simpl; unfold len in *; lia. Qed.

Lemma hsz_asz fs : hsz (kept fs) <= asz fs.
Proof. induction fs as [|[nm [c|]] fs IH]; simpl in *; unfold len in *; lia. Qed.

Lemma hdr_size_eq fs : asz fs < 4294967296 -> hdr_size fs = asz fs.
Proof.
  unfold hdr_size. intros Hb.
  assert (Hg : forall t, 0 <= t -> t + asz fs < 4294967296 ->
    foldl (fun total f => u32 (u32 (total + sizeof_sar_file) + (Z.of_nat (length (i_name f)) + 1))) t fs = t + asz fs).
  { clear Hb. induction fs as [|f fs IH]; intros t Ht Hb; cbn [foldl asz] in *; [lia|].
    pose proof (asz_pos fs). unfold sizeof_sar_file, len in *.
    rewrite (u32_small (t + 12)), u32_small by lia. rewrite IH; lia. }
  rewrite Hg; lia.
Qed.

(** The archive fits in 32-bit offsets. *)
Definition fits (fs : list input) : Prop :=
  asz fs + 16 + 4096 + csz (kept fs) < 4294967296 /\
  Forall (fun x => len (snd x) < 4294963200) (kept fs).

Definition contents_start (fs : list input) : Z := PALIGN (asz fs + 16).

Lemma archived_keep data data' h off l H : archived data h off l -> h + hsz l <= H -> H + 12 <= off ->
  Forall (fun x => len (snd x) < 4294963200) l ->
  (forall o bs, bytes_at data o bs -> o + len bs <= H \/ H + 12 <= o -> bytes_at data' o bs) ->
  archived data' h off l.
Proof.
  revert h off. induction l as [|[nm c] l IH]; intros h off Ha Hh Ho Hsz Hk; [done|].
  destruct Ha as (A1 & A2 & A3 & A4). cbn [hsz] in Hh. pose proof (hsz_pos l).
  inversion Hsz as [|? ? Hsc Hsz']; subst. simpl in Hsc.
  destruct (PALIGN_bounds (len c)) as [Hpa _]; [unfold len in *; lia|].
  cbn [archived]. split; [apply Hk; [done|unfold len in *; rewrite fhdr_bytes_length; lia]|].
  split; [apply Hk; [done|unfold len in *; rewrite length_app; simpl; lia]|].
  split; [apply Hk; [done|lia]|]. apply IH; try done; unfold len in *; lia.
Qed.

Lemma create_spec fs : fits fs ->
  archived (create fs) 4 (contents_start fs) (kept fs) /\
  bytes_at (create fs) (4 + hsz (kept fs)) (fhdr_bytes 0 0 0) /\
  bytes_at (create fs) 0 (le_split 4 SAR_MAGIC).
Proof.
  intros [Hb Hsz]. pose proof (asz_pos fs). pose proof (hsz_asz fs). pose proof (hsz_pos (kept fs)).
  pose proof (csz_pos _ Hsz). unfold create, sizeof_sar_header, sizeof_sar_file.
  rewrite hdr_size_eq by lia. rewrite (u32_small (asz fs + 4)), (u32_small (asz fs + 4 + 12)) by lia.
  replace (asz fs + 4 + 12) with (asz fs + 16) by lia. fold (contents_start fs).
  destruct (PALIGN_bounds (asz fs + 16)) as [Hpa _]; [lia|]. fold (contents_start fs) in Hpa.
  set (w0 := W (put_at 0 (le_split 4 SAR_MAGIC) []) 4 (contents_start fs) 4).
  destruct (add_files_spec fs w0 4 (contents_start fs) (contents_start fs)) as (HA & HF & HK);
    try done; try lia.
  rewrite HF. split; [|split].
  - apply (archived_keep (w_data (foldl add_file w0 fs)) _ _ _ _ (4 + hsz (kept fs))); try done; try lia.
    intros o bs Hbs Hr. unfold len in *. apply put_at_other; [lia|done|]. rewrite fhdr_bytes_length. lia.
  - apply put_at_same. lia.
  - apply put_at_other; [lia| |rewrite length_le_split; lia]. apply HK; [by apply put_at_same|].
    left. unfold len. rewrite length_le_split. lia.
Qed.

(** ** Reading it back *)

Section ReadBack.
Context {S : Type} (rd : Z -> option byte) (file : Z) (data : list byte).
(** The archive is in memory at [file]. *)
Hypothesis Hfile : 0 <= file.
Hypothesis Hsize : file + len data <= 4294967296.
Hypothesis Hrd : forall i b, zlookup data i = Some b -> rd (file + i) = Some b.

Lemma rd_at o bs i b : bytes_at data o bs -> bs !! i = Some b -> rd (file + o + Z.of_nat i) = Some b.
Proof using Hrd. intros Hb Hi. rewrite <- Z.add_assoc. apply Hrd. by eapply bytes_at_lookup. Qed.

Lemma bytes_at_cons o b bs : bytes_at data o (b :: bs) ->
  rd (file + o) = Some b /\ bytes_at data (o + 1) bs /\ 0 <= o < 4294967296 - file.
Proof using Hsize Hrd Hfile.
  intros Hb. pose proof (bytes_at_length _ _ _ Hb ltac:(done)) as Hl. simpl in Hl.
  destruct (bytes_at_app data o [b] bs Hb) as [_ Hb2]. split; [|split; [done|]].
  - rewrite <- (Z.add_0_r (file + o)). by apply (rd_at o (b :: bs) 0%nat).
  - destruct Hb. unfold len in *. lia.
Qed.

Lemma rd_bytes_at o bs (s : S) : bytes_at data o bs ->
  rd_bytes rd (length bs) (u32 (file + o)) s = Ret bs s.
Proof using Hsize Hrd Hfile.
  revert o. induction bs as [|b bs IH]; intros o Hb; [done|].
  destruct (bytes_at_cons _ _ _ Hb) as (Hr & Hb2 & Ho). cbn [length rd_bytes].
  rewrite (u32_small (file + o)) by lia. rewrite Hr.
  replace (file + o + 1) with (file + (o + 1)) by lia.
  erewrite bind_Ret by (by apply IH). done.
Qed.

Lemma rd32_at o v (s : S) : 0 <= v < 4294967296 -> bytes_at data o (le_split 4 v) ->
  rd32 rd (u32 (file + o)) s = Ret v s.
Proof using Hsize Hrd Hfile.
  intros Hv Hb. unfold rd32. pose proof (rd_bytes_at o _ s Hb) as Hr. rewrite length_le_split in Hr.
  rewrite (bind_Ret _ _ _ _ _ Hr), le_combine_split. unfold mret, M_ret. f_equal. by apply Z.mod_small.
Qed.

(** The three words of a file header. *)
Lemma rd_fhdr_at h a b c (s : S) : bytes_at data h (fhdr_bytes a b c) ->
  0 <= a < 4294967296 -> 0 <= b < 4294967296 -> 0 <= c < 4294967296 ->
  rd32 rd (u32 (file + h)) s = Ret a s /\ rd32 rd (u32 (file + h) +w 4) s = Ret b s /\
  rd32 rd (u32 (file + h) +w 8) s = Ret c s.
Proof using Hsize Hrd Hfile.
  intros Hb Ha Hbb Hc. unfold fhdr_bytes in Hb.
  apply bytes_at_app in Hb as [B1 Hb]. apply bytes_at_app in Hb as [B2 B3].
  rewrite !length_le_split in *. rewrite !u32_add_l, <- !Z.add_assoc. split; [by apply rd32_at|].
  split; apply rd32_at; try done. by rewrite <- Z.add_assoc in B3.
Qed.

Lemma name_cstring o nm : bytes_at data o (nm ++ [Byte.x00]) -> Forall (fun b => byte.unsigned b <> 0) nm ->
  cstring rd (u32 (file + o)) nm.
Proof using Hsize Hrd Hfile.
  revert o. induction nm as [|b nm IH]; intros o Hb Hn; cbn [app] in Hb;
    destruct (bytes_at_cons _ _ _ Hb) as (Hr & Hb2 & Ho); rewrite u32_small by lia; simpl.
  - by exists Byte.x00.
  - inversion Hn; subst. split; [done|]. split; [done|].
    replace (file + o + 1) with (file + (o + 1)) by lia. by apply IH.
Qed.
End ReadBack.

Lemma rd_string_spec {S} rd nm fuel a (s : S) : cstring rd a nm -> (length nm < fuel)%nat ->
  rd_string rd fuel a s = Ret nm s.
Proof.
  revert fuel a. induction nm as [|b nm IH]; intros fuel a Hc Hf;
    (destruct fuel as [|fuel]; [simpl in Hf; lia|]); simpl in *.
  - by destruct Hc as (z & -> & ->).
  - destruct Hc as (-> & Hnz & Hc). destruct (Z.eqb_spec (byte.unsigned b) 0); [done|].
    erewrite bind_Ret by (apply IH; [done|lia]). done.
Qed.

Lemma put_at_length o bs data : 0 <= o -> len (put_at o bs data) <= Z.max (len data) (o + len bs).
Proof.
  intros Ho. unfold put_at, len. destruct bs as [|b bs]; [lia|].
  rewrite !length_app, put_at_base, length_drop. simpl. lia.
Qed.

Lemma create_length fs : fits fs -> len (create fs) <= 4294967296.
Proof.
  intros [Hb Hsz]. pose proof (asz_pos fs). pose proof (hsz_asz fs). pose proof (hsz_pos (kept fs)).
  pose proof (csz_pos _ Hsz). unfold create, sizeof_sar_header, sizeof_sar_file.
  rewrite hdr_size_eq by lia. rewrite (u32_small (asz fs + 4)), (u32_small (asz fs + 4 + 12)) by lia.
  replace (asz fs + 4 + 12) with (asz fs + 16) by lia. fold (contents_start fs).
  destruct (PALIGN_bounds (asz fs + 16)) as [Hpa _]; [lia|]. fold (contents_start fs) in Hpa.
  set (w0 := W (put_at 0 (le_split 4 SAR_MAGIC) []) 4 (contents_start fs) 4).
  assert (Hg : forall fs w, 0 <= w_pos w -> 0 <= w_last_fhdr_addr w < 4294967296 -> 0 <= w_last_file_offset w ->
    w_pos w + hsz (kept fs) < 4294967296 -> w_last_file_offset w + csz (kept fs) < 4294967296 ->
    Forall (fun x => len (snd x) < 4294963200) (kept fs) -> len (w_data w) <= 4294967296 ->
    let w' := foldl add_file w fs in len (w_data w') <= 4294967296).
  { clear. induction fs as [|[nm [c|]] fs IH]; intros w Hp Hl Ho Hh Hc Hsz Hd; cbn [foldl]; [done| |by apply IH].
    cbn [kept i_data i_name hsz csz] in *. inversion Hsz as [|? ? Hsc Hsz']; subst. simpl in Hsc.
    pose proof (csz_pos _ Hsz'). pose proof (hsz_pos (kept fs)).
    destruct (PALIGN_bounds (len c)) as [Hpa _]; [unfold len in *; lia|].
    assert (E1 : u32 (len c) = len c) by (apply u32_small; unfold len in *; lia).
    assert (E2 : namelen nm = len nm + 1) by (apply u32_small; unfold len in *; lia).
    unfold add_file. cbn [i_data i_name]. fold (len c). rewrite E1, E2. unfold sizeof_sar_file.
    rewrite (u32_small (w_last_file_offset w + _)) by (unfold len in *; lia).
    apply IH; cbn [w_pos w_last_fhdr_addr w_last_file_offset w_data]; try done;
      [unfold len in *; lia|apply u32_range|unfold len in *; lia..|].
    etransitivity; [apply put_at_length; lia|]. apply Z.max_lub.
    - etransitivity; [apply put_at_length; lia|]. apply Z.max_lub.
      + etransitivity; [apply put_at_length; lia|]. unfold len in *. rewrite fhdr_bytes_length. lia.
      + unfold len in *. rewrite length_app. simpl. lia.
    - unfold len in *. rewrite length_app, repeat_length. lia. }
  destruct (add_files_spec fs w0 4 (contents_start fs) (contents_start fs)) as (_ & HF & _); try done; try lia.
  rewrite HF. etransitivity; [apply put_at_length; lia|]. apply Z.max_lub.
  - apply Hg; simpl; try done; lia.
  - unfold len. rewrite fhdr_bytes_length. lia.
Qed.

(** The names are strings. *)
Definition proper_names (l : list (list byte * list byte)) : Prop :=
  Forall (fun x => Forall (fun b => byte.unsigned b <> 0) (fst x)) l.

(** Enough fuel for a walk over [l] that reads its names. *)
Definition enough (fuel : nat) (l : list (list byte * list byte)) : Prop :=
  Forall (fun x => length (fst x) + length l < fuel)%nat l /\ (length l < fuel)%nat.

Lemma enough_tail fuel x l : enough (S fuel) (x :: l) -> enough fuel l /\ (length (fst x) < S fuel)%nat.
Proof.
  intros [Hf Hl]. simpl in *. inversion Hf as [|? ? H1 H2]; subst. simpl in *.
  split; [split|]; [|lia..]. eapply list.Forall_impl; [exact H2|]. simpl. lia.
Qed.

Section Walk.
Context {S : Type} (rd : Z -> option byte) (file : Z) (data : list byte).
Hypothesis Hfile : 0 <= file.
Hypothesis Hsize : file + len data <= 4294967296.
Hypothesis Hrd : forall i b, zlookup data i = Some b -> rd (file + i) = Some b.

(** What a walk reads at the header of the first file of an archived list. *)
Lemma at_file h off nm c l (s : S) : archived data h off ((nm, c) :: l) ->
  0 <= off -> off + len c < 4294967296 -> Forall (fun b => byte.unsigned b <> 0) nm ->
  rd32 rd (u32 (file + h)) s = Ret (len c) s /\ rd32 rd (u32 (file + h) +w 4) s = Ret off s /\
  rd32 rd (u32 (file + h) +w 8) s = Ret (len nm + 1) s /\
  (Z.lor (Z.lor (len c) off) (len nm + 1) =? 0) = false /\
  cstring rd (FHDR_FNAME (u32 (file + h))) nm /\
  rd_bytes rd (Z.to_nat (len c)) (u32 (file + off)) s = Ret c s /\
  next_fhdr (u32 (file + h)) (len nm + 1) = u32 (file + (h + 12 + (len nm + 1))).
Proof using Hfile Hsize Hrd.
  intros (A1 & A2 & A3 & _) Ho Hc Hn.
  pose proof (bytes_at_length _ _ _ A2 ltac:(by destruct nm)) as Hl. rewrite length_app in Hl. simpl in Hl.
  destruct A1 as [Hh A1']. assert (A1 : bytes_at data h (fhdr_bytes (len c) off (len nm + 1))) by done.
  destruct (rd_fhdr_at rd file data Hfile Hsize Hrd h (len c) off (len nm + 1) s A1) as (R1 & R2 & R3);
    try (unfold len in *; lia).
  split; [done|]. split; [done|]. split; [done|]. split.
  { apply Z.eqb_neq. rewrite !Z.lor_eq_0_iff. unfold len. lia. }
  split.
  { unfold FHDR_FNAME, sizeof_sar_file. rewrite u32_add_l, <- Z.add_assoc.
    by apply (name_cstring rd file data Hfile Hsize Hrd). }
  split.
  { unfold len. rewrite Nat2Z.id. by apply (rd_bytes_at rd file data Hfile Hsize Hrd). }
  unfold next_fhdr, sizeof_sar_file. rewrite (u32_add_l (file + h) 12), u32_add_l. apply (f_equal u32). lia.
Qed.

Lemma at_end h (s : S) : bytes_at data h (fhdr_bytes 0 0 0) ->
  rd32 rd (u32 (file + h)) s = Ret 0 s /\ rd32 rd (u32 (file + h) +w 4) s = Ret 0 s /\
  rd32 rd (u32 (file + h) +w 8) s = Ret 0 s.
Proof using Hfile Hsize Hrd. intros Hb. apply (rd_fhdr_at rd file data Hfile Hsize Hrd); done || lia. Qed.

(** The files of [l] before the first that cannot be created, and that one *)
Fixpoint until_refused (can_open : list byte -> bool) (l : list (list byte * list byte))
    : list (list byte * list byte) * option (list byte) :=
  match l with
  | [] => ([], None)
  | (nm, c) :: l' =>
      if can_open nm then ((nm, c) :: fst (until_refused can_open l'), snd (until_refused can_open l'))
      else ([], Some nm)
  end.

Lemma extract_loop_ok l fuel h off (s : S) can_open : archived data h off l ->
  bytes_at data (h + hsz l) (fhdr_bytes 0 0 0) -> 0 <= off -> off + csz l < 4294967296 ->
  Forall (fun x => len (snd x) < 4294963200) l -> proper_names l -> enough fuel l ->
  extract_loop rd fuel can_open file (u32 (file + h)) s = Ret (until_refused can_open l) s.
Proof using Hfile Hsize Hrd.
  revert fuel h off. induction l as [|[nm c] l IH]; intros fuel h off Ha He Ho Hc Hsz Hn Hf;
    (destruct fuel as [|fuel]; [destruct Hf as [_ Hf]; simpl in Hf; lia|]); cbn [extract_loop].
  - cbn [hsz] in He. rewrite Z.add_0_r in He. destruct (at_end h s He) as (R1 & R2 & R3).
    by rewrite (bind_Ret _ _ _ _ _ R1), (bind_Ret _ _ _ _ _ R2), (bind_Ret _ _ _ _ _ R3).
  - apply enough_tail in Hf as [Hf Hfn]. inversion Hsz as [|? ? Hsc Hsz']; subst. inversion Hn as [|? ? Hn1 Hn2]; subst.
    simpl in Hsc, Hn1, Hfn. cbn [csz hsz] in *. pose proof (csz_pos _ Hsz').
    destruct (PALIGN_bounds (len c)) as [Hpa _]; [unfold len in *; lia|].
    destruct (at_file h off nm c l s Ha) as (R1 & R2 & R3 & Hz & Hcs & Hct & Hnx); try done; try lia.
    rewrite (bind_Ret _ _ _ _ _ R1), (bind_Ret _ _ _ _ _ R2), (bind_Ret _ _ _ _ _ R3), Hz.
    rewrite (bind_Ret _ _ _ _ _ (rd_string_spec _ _ _ _ s Hcs Hfn)). cbn [until_refused].
    destruct (can_open nm); [|reflexivity]. cbn [negb].
    rewrite (bind_Ret _ _ _ _ _ Hct), Hnx.
    rewrite (bind_Ret _ _ _ (until_refused can_open l) s); [reflexivity|]. apply (IH fuel _ (off + PALIGN (len c))); try done; try lia.
    + apply Ha.
    + replace (h + 12 + (len nm + 1) + hsz l) with (h + (12 + (len nm + 1) + hsz l)) by lia. exact He.
    + unfold len in *. lia.
Qed.

(** The first file of [l] called [nm], with the offset of its contents. *)
Fixpoint find_file (nm : list byte) (h off : Z) (l : list (list byte * list byte)) : option (Z * Z * list byte) :=
  match l with
  | [] => None
  | (n, c) :: l' =>
      if decide (n = nm) then Some (h, off, c)
      else find_file nm (h + 12 + (len n + 1)) (off + PALIGN (len c)) l'
  end.

Lemma lookup_loop_ok l fuel h off (s : S) rdn fname nm : archived data h off l ->
  bytes_at data (h + hsz l) (fhdr_bytes 0 0 0) -> 0 <= off -> off + csz l < 4294967296 ->
  Forall (fun x => len (snd x) < 4294963200) l -> proper_names l -> enough fuel l ->
  cstring rdn fname nm ->
  lookup_loop rd fuel rdn (u32 (file + h)) fname s =
    Ret (match find_file nm h off l with Some (h', _, _) => u32 (file + h') | None => 0 end) s.
Proof using Hfile Hsize Hrd.
  revert fuel h off. induction l as [|[n c] l IH]; intros fuel h off Ha He Ho Hc Hsz Hn Hf Hcs;
    (destruct fuel as [|fuel]; [destruct Hf as [_ Hf]; simpl in Hf; lia|]); cbn [lookup_loop].
  - cbn [hsz] in He. rewrite Z.add_0_r in He. destruct (at_end h s He) as (R1 & R2 & R3).
    by rewrite (bind_Ret _ _ _ _ _ R1), (bind_Ret _ _ _ _ _ R2), (bind_Ret _ _ _ _ _ R3).
  - apply enough_tail in Hf as [Hf Hfn]. inversion Hsz as [|? ? Hsc Hsz']; subst. inversion Hn as [|? ? Hn1 Hn2]; subst.
    simpl in Hsc, Hn1, Hfn. cbn [csz hsz] in *. pose proof (csz_pos _ Hsz').
    destruct (PALIGN_bounds (len c)) as [Hpa _]; [unfold len in *; lia|].
    destruct (at_file h off n c l s Ha) as (R1 & R2 & R3 & Hz & Hcn & _ & Hnx); try done; try lia.
    rewrite (bind_Ret _ _ _ _ _ R1), (bind_Ret _ _ _ _ _ R2), (bind_Ret _ _ _ _ _ R3), Hz.
    destruct (strcmp_spec rd rdn n nm (Datatypes.S fuel) _ _ s Hcn Hcs Hfn) as (r & Hr & Hiff).
    rewrite (bind_Ret _ _ _ _ _ Hr). cbn [find_file]. case_decide as Hd.
    + apply Hiff in Hd as ->. done.
    + destruct (Z.eqb_spec r 0) as [E|_]; [by apply Hiff in E|]. rewrite Hnx.
      apply (IH fuel _ (off + PALIGN (len c))); try done; try lia.
      * apply Ha.
      * replace (h + 12 + (len n + 1) + hsz l) with (h + (12 + (len n + 1) + hsz l)) by lia. exact He.
      * unfold len in *. lia.
Qed.
End Walk.

(** A file found in an archived list: where its contents are. *)
Lemma find_file_contents data nm h off l : archived data h off l ->
  0 <= off -> off mod 4096 = 0 -> off + csz l < 4294967296 ->
  Forall (fun x => len (snd x) < 4294963200) l ->
  match filter (fun x => fst x = nm) l with
  | [] => find_file nm h off l = None
  | x :: _ => exists h' off', find_file nm h off l = Some (h', off', snd x) /\
      (exists nl, bytes_at data h' (fhdr_bytes (len (snd x)) off' nl)) /\ bytes_at data off' (snd x) /\
      0 <= off' < 4294967296 /\ off' mod 4096 = 0
  end.
Proof.
  revert h off. induction l as [|[n c] l IH]; intros h off Ha Ho Hm Hc Hsz; [done|].
  inversion Hsz as [|? ? Hsc Hsz']; subst. simpl in Hsc. cbn [csz find_file] in *.
  pose proof (csz_pos _ Hsz'). destruct (PALIGN_bounds (len c)) as [Hpa Hpm]; [unfold len in *; lia|].
  destruct Ha as (A1 & A2 & A3 & A4). destruct (decide (n = nm)) as [He|Hne].
  - rewrite filter_cons_True by done. exists h, off. split; [done|]. split; [eauto|].
    split; [done|]. unfold len in *. lia.
  - rewrite filter_cons_False by done.
    apply (IH (h + 12 + (len n + 1)) (off + PALIGN (len c))); try done; try (unfold len in *; lia). zdm.
Qed.

Lemma extract_create {S} (s : S) fs fuel can_open :
  fits fs -> proper_names (kept fs) -> enough fuel (kept fs) ->
  extract fuel can_open (create fs) s = Ret (until_refused can_open (kept fs)) s.
Proof.
  intros Hfit Hn Hf. destruct (create_spec fs Hfit) as (HA & HE & _).
  pose proof (create_length fs Hfit) as Hl. pose proof Hfit as [Hb Hsz]. pose proof (asz_pos fs).
  pose proof (csz_pos _ Hsz). destruct (PALIGN_bounds (asz fs + 16)) as [Hpa _]; [lia|].
  fold (contents_start fs) in Hpa. unfold extract.
  change sizeof_sar_header with (u32 (0 + 4)).
  apply (extract_loop_ok (zlookup (create fs)) 0 (create fs)) with (off := contents_start fs); done || lia.
Qed.

(** ** Properties *)

(** Extracting what create wrote gives back the files that could be read, in
    order, with their names and contents, up to the first one that cannot be
    created. *)
Theorem sar_create_extract {S} (s : S) fs fuel can_open :
  fits fs -> proper_names (kept fs) -> enough fuel (kept fs) ->
  extract fuel can_open (create fs) s = Ret (until_refused can_open (kept fs)) s.
Proof. apply extract_create. Qed.

(** C27: The kernel finds in an archive the contents of the first file with the
    name it asks for: the address it gets is page aligned relative to the
    archive and holds the file's bytes; a name that is not there gives NULL. *)
Theorem sar_get_contents_finds {S} (s : S) fs rd file rdn fname nm fuel :
  fits fs -> proper_names (kept fs) -> enough fuel (kept fs) ->
  0 < file -> file + len (create fs) <= 4294967296 ->
  (forall i b, zlookup (create fs) i = Some b -> rd (file + i) = Some b) ->
  cstring rdn fname nm ->
  exists a, sar_get_contents rd fuel rdn file fname s = Ret a s /\
    match filter (fun x => fst x = nm) (kept fs) with
    | [] => a = 0
    | x :: _ => (a - file) mod 4096 = 0 /\ forall i b, snd x !! i = Some b -> rd (a + Z.of_nat i) = Some b
    end.
Proof.
  intros Hfit Hn Hf Hfile Hsize Hrd Hcs. destruct (create_spec fs Hfit) as (HA & HE & _).
  pose proof Hfit as [Hb Hsz]. pose proof (asz_pos fs). pose proof (csz_pos _ Hsz).
  destruct (PALIGN_bounds (asz fs + 16)) as [Hpa Hpm]; [lia|]. fold (contents_start fs) in Hpa, Hpm.
  pose proof (lookup_loop_ok (S:=S) rd file (create fs) ltac:(lia) Hsize Hrd (kept fs) fuel 4 (contents_start fs)
    s rdn fname nm HA HE ltac:(lia) ltac:(lia) Hsz Hn Hf Hcs) as Hl.
  pose proof (find_file_contents (create fs) nm 4 (contents_start fs) (kept fs) HA ltac:(lia) Hpm ltac:(lia) Hsz) as Hc.
  unfold sar_get_contents, sar_lookup, sizeof_sar_header. rewrite (bind_Ret _ _ _ _ _ Hl).
  destruct (filter (fun x => fst x = nm) (kept fs)) as [|x xs].
  - rewrite Hc. by exists 0.
  - destruct Hc as (h' & off' & -> & (nl & Hh) & Hct & Ho & Hm). 
    pose proof (bytes_at_length _ _ _ Hh ltac:(done)) as Hl12. rewrite fhdr_bytes_length in Hl12.
    pose proof Hh as [Hh0 _]. unfold len in Hsize. rewrite (u32_small (file + h')) by lia.
    destruct (Z.eqb_spec (file + h') 0); [lia|].
    unfold fhdr_bytes in Hh. apply bytes_at_app in Hh as [_ Hh]. apply bytes_at_app in Hh as [Hh _].
    rewrite length_le_split in Hh.
    erewrite bind_Ret.
    2:{ rewrite <- Z.add_assoc. apply (rd32_at rd file (create fs)); try done; lia. }
    eexists. split; [reflexivity|].
    destruct (decide (snd x = [])) as [E|Hne].
    + rewrite E. split; [unfold u32; zdm|]. intros i b Hi. by rewrite lookup_nil in Hi.
    + pose proof (bytes_at_length _ _ _ Hct Hne) as Hlc. destruct (snd x) as [|c0 cs]; [done|]. simpl in Hlc.
      rewrite u32_small by lia. split; [zdm|]. intros i b Hi. by apply (rd_at rd file (create fs) Hrd _ (c0 :: cs)).
Qed.

Definition sar_example : list input :=
  [Input [Byte.x61; Byte.x62] (Some [Byte.x01; Byte.x02; Byte.x03]); Input [Byte.x63] None;
   Input [Byte.x64] (Some []); Input [Byte.x65] (Some [Byte.x07])].

Lemma sar_example_ok : fits sar_example /\ proper_names (kept sar_example) /\ enough 10 (kept sar_example).
Proof.
  split; [|split].
  - split; [vm_compute; done|]. repeat (constructor; [vm_compute; done|]). constructor.
  - repeat (constructor; [repeat (constructor; [done|]); constructor|]). constructor.
  - split; [|simpl; lia]. repeat (constructor; [simpl; lia|]). constructor.
Qed.

Lemma sar_create_extract_witness :
  extract 10 (fun _ => true) (create sar_example) tt = Ret (kept sar_example, None) tt.
Proof.
  apply (sar_create_extract tt sar_example 10 (fun _ => true)); apply sar_example_ok.
Defined.

Lemma sar_get_contents_finds_witness :
  exists a, sar_get_contents (fun i => zlookup (create sar_example) (i - 65536)) 10 (zlookup [Byte.x65; Byte.x00])
              65536 0 tt = Ret a tt /\
    (a - 65536) mod 4096 = 0 /\
    forall i b, [Byte.x07] !! i = Some b -> zlookup (create sar_example) (a + Z.of_nat i - 65536) = Some b.
Proof.
  apply (sar_get_contents_finds tt sar_example (fun i => zlookup (create sar_example) (i - 65536)) 65536
           (zlookup [Byte.x65; Byte.x00]) 0 [Byte.x65] 10); [apply sar_example_ok..|lia| | |].
  - vm_compute. done.
  - intros i b Hi. rewrite <- Hi. f_equal. lia.
  - vm_compute. split; [done|]. split; [done|]. by eexists.
Defined.
