(* ===== verification/SarTool.v ===== *)
(** * SarTool.v: the archive tool as a program (tools/sar.c: main, create,
      list, extract)

    Sar.v has the archive format on bytes.  Here is the command line around
    it, over a host with files: which command runs, what it opens, what it
    complains about and what it answers.  Who may read or create a path is a
    parameter, and so is libgen's basename, which answers the name and may
    change the string it is given; memory never runs out, reads of an open
    file do not fail, and a path names one file. *)

From S2P Require Import Prelude Memory Sar.

#[export] Program Instance byte_countable : Countable byte := inj_countable Byte.to_N Byte.of_N _.
Next Obligation. apply Byte.of_to_N. Qed.

Definition path := list byte.

(** What is written to stderr *)
Inductive complaint :=
| BasicUsage
| UnknownCommand (ch : Z)
| Usage (c : command)
| Perror (p : path).

Record host := Host {
  files : gmap path (list byte);
  printed : list (path * Z * Z);  (* list's lines: name, size, offset *)
  complaints : list complaint;
}.

Definition set_files (f : gmap path (list byte)) (h : host) : host := Host f (printed h) (complaints h).
Definition print_entries (l : list (path * Z * Z)) (h : host) : host := Host (files h) (printed h ++ l) (complaints h).
Definition complain (c : complaint) (h : host) : host := Host (files h) (printed h) (complaints h ++ [c]).

Section Tool.
Variables readable creatable : path -> bool.
Variable basename : path -> path * path. (* the name, and what is left in argv[i] *)
Variable fuel : nat. (* for the walks over an archive *)

(** open(p, O_RDONLY), stat and read *)
Definition contents (p : path) (f : gmap path (list byte)) : option (list byte) :=
  if readable p then f !! p else None.

(** The input file [p], an argument as the sizing of the header left it, when
    its turn comes: the archive itself may be named, and is read as far as it
    was written.  basename is called twice more, on the same string, for the
    length of the name and for the name. *)
Definition input_at (archive : path) (h : host) (w : wstate) (p : path) : input :=
  Input (fst (basename p)) (if creatable archive && bool_decide (p = archive) && readable p then Some (w_data w)
                      else contents p (files h)).

Definition missing (f : input) : bool := match i_data f with None => true | Some _ => false end.

Fixpoint add_files (archive : path) (names : list path) (w : wstate) (h : host) : wstate * host :=
  match names with
  | [] => (w, h)
  | p :: names' =>
      let f := input_at archive h w p in
      add_files archive names' (add_file w f) (if missing f then complain (Perror p) h else h)
  end.

(** create; an archive that cannot be opened is written to descriptor -1, in
    vain.  The loop that sizes the header calls basename on every argument;
    the second loop opens, and complains about, what that has left. *)
Definition create_cmd (args : list path) : M host Z := fun h =>
  match args with
  | archive :: ((_ :: _) as names) =>
      let total_hdr_size :=
        PALIGN (u32 (u32 (hdr_size (map (fun p => Input (fst (basename p)) None) names) + sizeof_sar_header) + sizeof_sar_file)) in
      let w0 := W (put_at 0 (le_split 4 SAR_MAGIC) []) 4 total_hdr_size sizeof_sar_header in
      let '(w, h') := add_files archive (map (fun p => snd (basename p)) names) w0 h in
      let data := put_at (w_last_fhdr_addr w) (fhdr_bytes 0 0 0) (w_data w) in
      Ret 0 (if creatable archive then set_files (<[archive := data]> (files h')) h' else h')
  | _ => Ret 1 (complain (Usage Create) h)
  end.

(** list *)
Fixpoint list_cmd (args : list path) : M host Z :=
  match args with
  | [] => mret 0
  | p :: args' =>
      h ← get;
      match contents p (files h) with
      | None => modify (complain (Perror p))
      | Some buf => l ← list_archive fuel buf; modify (print_entries l)
      end ≫= fun _ => list_cmd args'
  end.

(** extract: the files written before one that cannot be created stay; that
    one is complained about and ends the command. *)
Definition write_files (l : list (path * list byte)) (f : gmap path (list byte)) : gmap path (list byte) :=
  foldl (fun f x => <[fst x := snd x]> f) f l.

Fixpoint extract_cmd (args : list path) : M host Z :=
  match args with
  | [] => mret 0
  | p :: args' =>
      h ← get;
      match contents p (files h) with
      | None => modify (complain (Perror p)) ≫= fun _ => extract_cmd args'
      | Some buf =>
          r ← extract fuel creatable buf;
          modify (fun h => set_files (write_files (fst r) (files h)) h) ≫= fun _ =>
          match snd r with
          | None => extract_cmd args'
          | Some nm => modify (complain (Perror nm)) ≫= fun _ => mret 1
          end
      end
  end.

(** struct cmd's func *)
Definition run_command (c : command) : list path -> M host Z :=
  match c with Create => create_cmd | Extract => extract_cmd | List_ => list_cmd end.

(** argv[1][0] *)
Definition first_char (s : list byte) : Z := match s with [] => 0 | b :: _ => byte.unsigned b end.

Definition main (argv : list (list byte)) : M host Z := fun h =>
  match argv with
  | _ :: cmd :: args =>
      match cmd_lookup (first_char cmd) with
      | None => Ret 1 (complain (UnknownCommand (first_char cmd)) h)
      | Some c =>
          match args with
          | [] => Ret 1 (complain (Usage c) h)
          | _ => run_command c args h
          end
      end
  | _ => Ret 1 (complain BasicUsage h)
  end.
End Tool.

(** ** Walking an archive for list *)

(** The lines for [l], its contents starting at [off] *)
Fixpoint entries (off : Z) (l : list (path * list byte)) : list (path * Z * Z) :=
  match l with [] => [] | (nm, c) :: l' => (nm, len c, off) :: entries (off + PALIGN (len c)) l' end.

Lemma list_loop_ok {S} (data : list byte) l fuel h off (s : S) : len data <= 4294967296 -> archived data h off l ->
  bytes_at data (h + hsz l) (fhdr_bytes 0 0 0) -> 0 <= off -> off + csz l < 4294967296 ->
  Forall (fun x => len (snd x) < 4294963200) l -> proper_names l -> enough fuel l ->
  list_loop (zlookup data) fuel (u32 h) s = Ret (entries off l) s.
Proof.
  intros Hl. change (u32 h) with (u32 (0 + h)). revert fuel h off.
  induction l as [|[nm c] l IH]; intros fuel h off Ha He Ho Hc Hsz Hn Hf;
    (destruct fuel as [|fuel]; [destruct Hf as [_ Hf]; simpl in Hf; lia|]); cbn [list_loop].
  - cbn [hsz] in He. rewrite Z.add_0_r in He.
    destruct (at_end (zlookup data) 0 data ltac:(lia) ltac:(lia) ltac:(done) h s He) as (R1 & R2 & R3).
    by rewrite (bind_Ret _ _ _ _ _ R1), (bind_Ret _ _ _ _ _ R2), (bind_Ret _ _ _ _ _ R3).
  - apply enough_tail in Hf as [Hf Hfn]. inversion Hsz as [|? ? Hsc Hsz']; subst. inversion Hn as [|? ? Hn1 Hn2]; subst.
    simpl in Hsc, Hn1, Hfn. cbn [csz hsz entries] in *. pose proof (csz_pos _ Hsz').
    destruct (PALIGN_bounds (len c)) as [Hpa _]; [unfold len in *; lia|].
    destruct (at_file (zlookup data) 0 data ltac:(lia) ltac:(lia) ltac:(done) h off nm c l s Ha)
      as (R1 & R2 & R3 & Hz & Hcs & _ & Hnx); try done; try lia.
    rewrite (bind_Ret _ _ _ _ _ R1), (bind_Ret _ _ _ _ _ R2), (bind_Ret _ _ _ _ _ R3), Hz.
    rewrite (bind_Ret _ _ _ _ _ (rd_string_spec _ _ _ _ s Hcs Hfn)), Hnx.
    rewrite (bind_Ret _ _ _ (entries (off + PALIGN (len c)) l) s); [reflexivity|].
    apply (IH fuel _ (off + PALIGN (len c))); try done; try lia.
    + apply Ha.
    + replace (h + 12 + (len nm + 1) + hsz l) with (h + (12 + (len nm + 1) + hsz l)) by lia. exact He.
    + unfold len in *. lia.
Qed.

Lemma list_archive_create {S} (s : S) fs fuel : fits fs -> proper_names (kept fs) -> enough fuel (kept fs) ->
  list_archive fuel (create fs) s = Ret (entries (contents_start fs) (kept fs)) s.
Proof.
  intros Hfit Hn Hf. destruct (create_spec fs Hfit) as (HA & HE & _). pose proof (create_length fs Hfit) as Hl.
  pose proof Hfit as [Hb Hsz]. pose proof (asz_pos fs). pose proof (csz_pos _ Hsz).
  destruct (PALIGN_bounds (asz fs + 16)) as [Hpa _]; [lia|]. fold (contents_start fs) in Hpa.
  unfold list_archive. change sizeof_sar_header with (u32 4).
  apply (list_loop_ok (create fs)) with (off := contents_start fs); done || lia.
Qed.

(** ** The commands *)

Section Commands.
Variables readable creatable : path -> bool.
Variable basename : path -> path * path.

(** basename called again on the string it has left answers the same and
    leaves the same. *)
Definition basename_again : Prop := forall p, basename (snd (basename p)) = basename p.

(** What basename leaves of the arguments *)
Definition left_of (names : list path) : list path := map (fun p => snd (basename p)) names.

(** The input files as create sees them, when the archive is not among them *)
Definition input_of (h : host) (p : path) : input := Input (fst (basename p)) (contents readable p (files h)).

(** What create complains about *)
Definition perrors (h : host) (names : list path) : list complaint :=
  map Perror (filter (fun p => contents readable p (files h) = None) names).

Lemma add_files_eq archive names : forall w h, archive ∉ names ->
  add_files readable creatable basename archive names w h =
    (foldl add_file w (map (input_of h) names), Host (files h) (printed h) (complaints h ++ perrors h names)).
Proof.
  induction names as [|p names IH]; intros w h Hn; cbn [add_files].
  { unfold perrors. cbn. rewrite app_nil_r. by destruct h. }
  apply not_elem_of_cons in Hn as [Hp Hn]. unfold input_at. rewrite bool_decide_eq_false_2 by congruence.
  rewrite andb_false_r. cbn [andb]. fold (input_of h p). rewrite IH by done. unfold perrors, missing, input_of. cbn [i_data].
  rewrite list.filter_cons. destruct (contents readable p (files h)) as [c|] eqn:Hc.
  - rewrite decide_False by done. cbn [foldl map]. by rewrite Hc.
  - rewrite decide_True by done. cbn [foldl map complain files printed complaints]. rewrite Hc, <- app_assoc. done.
Qed.

Lemma hdr_size_names fs fs' : map i_name fs = map i_name fs' -> hdr_size fs = hdr_size fs'.
Proof.
  unfold hdr_size. generalize 0. revert fs'. induction fs as [|f fs IH]; intros [|f' fs'] z H; try done.
  cbn [map foldl] in *. injection H as Hn H. rewrite Hn. by apply IH.
Qed.

Lemma create_cmd_eq archive names h : basename_again -> creatable archive = true -> archive ∉ left_of names -> names <> [] ->
  create_cmd readable creatable basename (archive :: names) h =
    Ret 0 (Host (<[archive := create (map (input_of h) (left_of names))]> (files h)) (printed h)
             (complaints h ++ perrors h (left_of names))).
Proof.
  intros Hb Hc Hn Hne. destruct names as [|p names]; [done|]. unfold create_cmd. fold (left_of (p :: names)).
  rewrite (add_files_eq archive (left_of (p :: names)) _ h Hn), Hc.
  rewrite (hdr_size_names _ (map (input_of h) (left_of (p :: names)))).
  2:{ unfold left_of. rewrite !map_map. cbn [map input_of i_name]. rewrite Hb. f_equal. apply map_ext. intros q. by rewrite Hb. }
  reflexivity.
Qed.

(** How the extraction of [l] ends: every file is created, or those before
    the first that cannot be are, and that one is complained about. *)
Definition extracted (l : list (path * list byte)) (h : host) : outcome host Z :=
  let h' := set_files (write_files (fst (until_refused creatable l)) (files h)) h in
  match snd (until_refused creatable l) with
  | None => Ret 0 h'
  | Some nm => Ret 1 (complain (Perror nm) h')
  end.

Lemma extracted_all l h : (forall p, creatable p = true) -> extracted l h = Ret 0 (set_files (write_files l (files h)) h).
Proof.
  intros Hc. assert (E : until_refused creatable l = (l, None)).
  { induction l as [|[nm c] l IH]; [done|]. cbn [until_refused]. by rewrite Hc, IH. }
  unfold extracted. by rewrite E.
Qed.

Lemma extract_cmd_one fuel archive h fs : contents readable archive (files h) = Some (create fs) ->
  fits fs -> proper_names (kept fs) -> enough fuel (kept fs) ->
  extract_cmd readable creatable fuel [archive] h = extracted (kept fs) h.
Proof.
  intros Ha Hfit Hn Hf. cbn [extract_cmd]. unfold mbind, M_bind, get, mret, M_ret. rewrite Ha.
  rewrite (extract_create h fs fuel creatable Hfit Hn Hf). unfold extracted, modify.
  destruct (until_refused creatable (kept fs)) as [l [nm|]]; reflexivity.
Qed.

Lemma list_cmd_one fuel archive h fs : contents readable archive (files h) = Some (create fs) ->
  fits fs -> proper_names (kept fs) -> enough fuel (kept fs) ->
  list_cmd readable fuel [archive] h = Ret 0 (print_entries (entries (contents_start fs) (kept fs)) h).
Proof.
  intros Ha Hfit Hn Hf. cbn [list_cmd]. unfold mbind, M_bind, get, mret, M_ret. rewrite Ha.
  by rewrite (list_archive_create h fs fuel Hfit Hn Hf).
Qed.
End Commands.

(** ** Properties *)

Definition cmd_c : list byte := [Byte.x63].
Definition cmd_l : list byte := [Byte.x6c].
Definition cmd_e : list byte := [Byte.x65].

(** C28: The tool end to end.  [sar c archive files] answers 0, writes the
    archive and nothing else, and complains about exactly the files it could
    not read, by the paths basename has left; wherever the archive is taken,
    [sar l] then prints name, size and place of each file that was read, in
    order, and [sar e] creates these files with their contents and changes no
    other, unless one cannot be created: then it stops there, complains about
    that one and answers 1. *)
Theorem sar_tool_roundtrip readable creatable basename fuel prog archive names h :
  let paths := left_of basename names in
  let fs := map (input_of readable basename h) paths in
  basename_again basename -> readable archive = true -> creatable archive = true -> archive ∉ paths -> names <> [] ->
  fits fs -> proper_names (kept fs) -> enough fuel (kept fs) ->
  exists h1, main readable creatable basename fuel (prog :: cmd_c :: archive :: names) h = Ret 0 h1 /\
    (forall p, p <> archive -> files h1 !! p = files h !! p) /\
    complaints h1 = complaints h ++ perrors readable h paths /\
    forall h2, files h2 !! archive = files h1 !! archive ->
      main readable creatable basename fuel [prog; cmd_l; archive] h2 =
        Ret 0 (print_entries (entries (contents_start fs) (kept fs)) h2) /\
      main readable creatable basename fuel [prog; cmd_e; archive] h2 = extracted creatable (kept fs) h2 /\
      ((forall p, creatable p = true) ->
       main readable creatable basename fuel [prog; cmd_e; archive] h2 =
         Ret 0 (set_files (write_files (kept fs) (files h2)) h2)).
Proof.
  intros paths fs Hb Hr Hc Hn Hne Hfit Hp Hf. destruct names as [|n0 names]; [done|].
  eexists. split; [exact (create_cmd_eq readable creatable basename archive (n0 :: names) h Hb Hc Hn Hne)|].
  cbn [files complaints]. split; [intros p Hpa; by apply lookup_insert_ne|]. split; [done|].
  intros h2 Ha. rewrite lookup_insert_eq in Ha. fold paths fs in Ha.
  assert (Hct : contents readable archive (files h2) = Some (create fs)) by (unfold contents; by rewrite Hr).
  assert (He : main readable creatable basename fuel [prog; cmd_e; archive] h2 = extracted creatable (kept fs) h2)
    by (by apply extract_cmd_one).
  split; [by apply list_cmd_one|]. split; [exact He|]. intros Hall. rewrite He. by apply extracted_all.
Qed.

(** A basename that takes trailing slashes off its argument, for paths in a
    directory with a name of one letter *)
Fixpoint strip (p : path) : path :=
  match p with
  | [] => []
  | b :: p' => match strip p' with [] => if decide (b = Byte.x2f) then [] else [b] | q => b :: q end
  end.
Definition base (p : path) : path * path := (drop 2 (strip p), strip p).

Lemma strip_again p : strip (strip p) = strip p.
Proof.
  induction p as [|b p IH]; [done|]. cbn [strip]. destruct (strip p) as [|c q] eqn:E.
  - case_decide; [done|]. cbn [strip]. by rewrite decide_False.
  - cbn [strip]. cbn [strip] in IH. by rewrite IH.
Qed.
Lemma base_again : basename_again base.
Proof. intros p. unfold base. cbn [snd]. by rewrite strip_again. Qed.

(** Two files, one of them given with a slash after it, and one that is
    missing; the archive is extracted on an empty host, and on one where b
    cannot be created. *)
Definition in_d (b : byte) : path := [Byte.x64; Byte.x2f; b].
Definition host0 : host :=
  Host (<[in_d Byte.x61 := [Byte.x01; Byte.x02]]> (<[in_d Byte.x62 := []]> ∅)) [] [].
Definition ar : path := [Byte.x61; Byte.x72].
Definition not_b (p : path) : bool := negb (bool_decide (p = [Byte.x62])).

Lemma sar_tool_roundtrip_witness : exists h1,
  main (fun _ => true) not_b base 10 [[]; cmd_c; ar; in_d Byte.x61 ++ [Byte.x2f]; in_d Byte.x63; in_d Byte.x62] host0 = Ret 0 h1 /\
  complaints h1 = [Perror (in_d Byte.x63)] /\
  forall d, files h1 !! ar = Some d ->
    main (fun _ => true) not_b base 10 [[]; cmd_e; ar] (Host {[ar := d]} [] []) =
      Ret 1 (Host (<[[Byte.x61] := [Byte.x01; Byte.x02]]> {[ar := d]}) [] [Perror [Byte.x62]]).
Proof.
  destruct (sar_tool_roundtrip (fun _ => true) not_b base 10 [] ar [in_d Byte.x61 ++ [Byte.x2f]; in_d Byte.x63; in_d Byte.x62] host0)
    as (h1 & Hm & _ & Hcp & Hr).
  - exact base_again.
  - reflexivity.
  - reflexivity.
  - intros H. repeat (apply elem_of_cons in H as [H|H]; [discriminate H|]). by apply elem_of_nil in H.
  - discriminate.
  - split; [vm_compute; reflexivity|]. repeat (constructor; [vm_compute; reflexivity|]). constructor.
  - repeat (constructor; [repeat (constructor; [discriminate|]); constructor|]). constructor.
  - split; [repeat (constructor; [vm_compute; lia|]); constructor|vm_compute; lia].
  - exists h1. split; [exact Hm|]. split; [exact Hcp|]. intros d Hd.
    destruct (Hr (Host {[ar := d]} [] [])) as (_ & He & _); [cbn [files]; rewrite lookup_singleton_eq; by rewrite Hd|]. exact He.
Defined.
