(* ===== verification/Text.v ===== *)
(** * Text.v: an 80 by 25 text screen

    What kernel/vga.c and drivers/screen.c have in common: video memory as
    2000 cells of 16 bits, a cursor, scrolling by one line, and the control
    flow of printing one character.  The two consoles instantiate it with
    their own integer type for the cursor ([wrap]), their own blank cell and
    their own encoding of a character.  An access outside video memory is
    [Undef]. *)

From S2P Require Import Prelude.

Definition WIDTH : Z := 80.
Definition HEIGHT : Z := 25.

(** Video memory and the cursor. *)
Record text := Text { cells : list Z; col : Z; row : Z }.

Definition set_cells (l : list Z) (t : text) : text := Text l (col t) (row t).
Definition on_cells {A} : M (list Z) A -> M text A := zoom cells set_cells.

(** Reading and writing the half word number [idx] of video memory. *)
Definition get_cell (idx : Z) : M (list Z) Z := fun l =>
  match zlookup l idx with Some c => Ret c l | None => Undef end.
Definition set_cell (idx c : Z) : M (list Z) unit := fun l =>
  match zlookup l idx with Some _ => Ret tt (zupdate idx c l) | None => Undef end.

(** Copying each line over the one above and blanking the last one. *)
Definition scroll_cell (y x : Z) : M (list Z) unit :=
  c ← get_cell (y * WIDTH + x); set_cell ((y - 1) * WIDTH + x) c.
Definition scroll (blank : Z) : M (list Z) unit :=
  for_up (Z.to_nat (HEIGHT - 1)) 1 (fun y =>
    for_up (Z.to_nat WIDTH) 0 (fun x => scroll_cell y x)) ≫= fun _ =>
  for_up (Z.to_nat WIDTH) 0 (fun x => set_cell ((HEIGHT - 1) * WIDTH + x) blank).

(** Printing [ch]: [putat x y] writes the character's cell. *)
Definition put_with (wrap : Z -> Z) (scrollup : M text unit) (putat : Z -> Z -> M text unit) (ch : Z)
    : M text unit :=
  t ← get;
  (if (WIDTH <=? col t) || (ch =? 10) then put (Text (cells t) 0 (wrap (row t + 1))) else mret tt) ≫= fun _ =>
  t ← get;
  (if HEIGHT <=? row t then
     scrollup ≫= fun _ => modify (fun t => Text (cells t) (col t) (wrap (row t - 1)))
   else mret tt) ≫= fun _ =>
  if ch =? 10 then mret tt
  else
    t ← get;
    putat (col t) (row t) ≫= fun _ =>
    modify (fun t => Text (cells t) (wrap (col t + 1)) (row t)).

(** ** The screen as a whole *)

Definition wf (t : text) : Prop := length (cells t) = 2000%nat /\ 0 <= col t <= 80 /\ 0 <= row t < 25.

(** The screen after its top line scrolled off. *)
Definition scrolled (blank : Z) (l : list Z) : list Z := drop 80 l ++ repeat blank 80.

(** The screen after a character whose cell is [cell] was printed. *)
Definition typed (blank cell ch : Z) (t : text) : text :=
  let newline := (80 <=? col t) || (ch =? 10) in
  let c := if newline then 0 else col t in
  let r := if newline then row t + 1 else row t in
  let l := if r =? 25 then scrolled blank (cells t) else cells t in
  let r := if r =? 25 then 24 else r in
  if ch =? 10 then Text l c r else Text (zupdate (r * 80 + c) cell l) (c + 1) r.

Lemma set_cell_Ret idx c l : 0 <= idx < Z.of_nat (length l) -> set_cell idx c l = Ret tt (zupdate idx c l).
Proof. intros H. unfold set_cell. by destruct (zlookup_in_range l idx H) as [? ->]. Qed.

Lemma get_cell_Ret idx l c : zlookup l idx = Some c -> get_cell idx l = Ret c l.
Proof. intros H. unfold get_cell. by rewrite H. Qed.

Lemma on_cells_Ret {A} (m : M (list Z) A) t a l : m (cells t) = Ret a l -> on_cells m t = Ret a (set_cells l t).
Proof. intros H. unfold on_cells, zoom. by rewrite H. Qed.

Lemma zlookup_repeat_in {A} (c : A) n i : 0 <= i < Z.of_nat n -> zlookup (repeat c n) i = Some c.
Proof.
  intros Hi. unfold zlookup. destruct (Z.ltb_spec i 0); [lia|].
  destruct (lookup_lt_is_Some_2 (repeat c n) (Z.to_nat i)) as [c' Hc]; [rewrite repeat_length; lia|].
  rewrite Hc. f_equal. by apply list_elem_of_lookup_2, list_elem_of_In, repeat_spec in Hc.
Qed.

Lemma zlookup_ext {A} (l l' : list A) : length l = length l' ->
  (forall i, 0 <= i < Z.of_nat (length l) -> zlookup l i = zlookup l' i) -> l = l'.
Proof.
  intros Hl H. apply list_eq_same_length with (length l); [done|lia|].
  intros i x y Hi Hx Hy. specialize (H (Z.of_nat i) ltac:(lia)). rewrite !zlookup_nat in H. congruence.
Qed.

Lemma scrolled_length b l : length l = 2000%nat -> length (scrolled b l) = 2000%nat.
Proof. intros Hl. unfold scrolled. rewrite length_app, length_drop, repeat_length. lia. Qed.

Lemma scrolled_lookup b l i : length l = 2000%nat -> 0 <= i < 2000 ->
  zlookup (scrolled b l) i = if i <? 1920 then zlookup l (i + 80) else Some b.
Proof.
  intros Hl Hi. rewrite <- (zlookup_repeat_in b 80 (Z.max 0 (i - 1920))) by lia.
  unfold scrolled, zlookup. destruct (Z.ltb_spec i 0); [lia|].
  destruct (Z.ltb_spec (i + 80) 0); [lia|]. destruct (Z.ltb_spec (Z.max 0 (i - 1920)) 0); [lia|].
  destruct (Z.ltb_spec i 1920).
  - rewrite lookup_app_l by (rewrite length_drop; lia). rewrite lookup_drop. f_equal. lia.
  - rewrite lookup_app_r by (rewrite length_drop; lia). rewrite length_drop, Hl. f_equal. lia.
Qed.

(** A loop over all the cells of [n] lines, in memory order. *)
Lemma rows_inv {S} (I : Z -> S -> Prop) n y0 (body : Z -> Z -> M S unit) s :
  I (y0 * 80) s ->
  (forall y x t, y0 <= y < y0 + Z.of_nat n -> 0 <= x < 80 -> I (y * 80 + x) t ->
     exists t', body y x t = Ret tt t' /\ I (y * 80 + x + 1) t') ->
  exists s', for_up n y0 (fun y => for_up (Z.to_nat WIDTH) 0 (body y)) s = Ret tt s' /\
    I ((y0 + Z.of_nat n) * 80) s'.
Proof.
  intros H0 Hb. apply (for_up_inv (fun y t => I (y * 80) t)); [done|]. intros y t Hy Ht.
  destruct (for_up_inv (fun x u => I (y * 80 + x) u) (Z.to_nat WIDTH) 0 (body y) t) as (t' & Hr & Hi).
  - by rewrite Z.add_0_r.
  - intros x u Hx Hu. change (Z.of_nat (Z.to_nat WIDTH)) with 80 in Hx.
    destruct (Hb y x u) as (u' & Hru & Hiu); [lia..|done|]. exists u'. by rewrite Z.add_assoc.
  - exists t'. split; [done|]. change (Z.of_nat (Z.to_nat WIDTH)) with 80 in Hi.
    by replace ((y + 1) * 80) with (y * 80 + (0 + 80)) by lia.
Qed.

(** While scrolling, the cells below [q - 80] already hold the line below. *)
Definition shifted (l0 : list Z) (q : Z) (l : list Z) : Prop :=
  length l = 2000%nat /\
  forall i, 0 <= i < 2000 -> zlookup l i = zlookup l0 (if i <? q - 80 then i + 80 else i).

Lemma scroll_cell_step l0 l y x : shifted l0 (y * 80 + x) l -> 1 <= y < 25 -> 0 <= x < 80 ->
  exists l', scroll_cell y x l = Ret tt l' /\ shifted l0 (y * 80 + x + 1) l'.
Proof.
  intros (Hl & Hi) Hy Hx. destruct (zlookup_in_range l (y * 80 + x)) as [c Hcell]; [lia|].
  unfold scroll_cell, WIDTH. rewrite (bind_Ret _ _ _ _ _ (get_cell_Ret _ _ _ Hcell)).
  rewrite set_cell_Ret by lia. eexists. split; [done|]. split; [by rewrite zupdate_length|].
  intros i Hir. destruct (decide (i = (y - 1) * 80 + x)) as [->|Hne].
  - rewrite zlookup_zupdate_eq by lia. rewrite <- Hcell, Hi by lia.
    destruct (Z.ltb_spec (y * 80 + x) (y * 80 + x - 80)); [lia|].
    destruct (Z.ltb_spec ((y - 1) * 80 + x) (y * 80 + x + 1 - 80)); [f_equal; lia|lia].
  - rewrite zlookup_zupdate_ne by lia. rewrite Hi by lia.
    destruct (Z.ltb_spec i (y * 80 + x - 80)), (Z.ltb_spec i (y * 80 + x + 1 - 80)); try lia; done.
Qed.

(** The cells from [a] up to [q] hold [c], the others are those of [l0]. *)
Definition filled (c a : Z) (l0 : list Z) (q : Z) (l : list Z) : Prop :=
  length l = 2000%nat /\
  forall i, 0 <= i < 2000 -> zlookup l i = if (a <=? i) && (i <? q) then Some c else zlookup l0 i.

Lemma filled_start c a l0 : length l0 = 2000%nat -> filled c a l0 a l0.
Proof. intros Hl. split; [done|]. intros i Hi. destruct (Z.leb_spec a i), (Z.ltb_spec i a); try lia; done. Qed.

Lemma filled_step c a l0 q l : filled c a l0 q l -> a <= q -> 0 <= q < 2000 ->
  exists l', set_cell q c l = Ret tt l' /\ filled c a l0 (q + 1) l'.
Proof.
  intros (Hl & Hi) Ha Hq. rewrite set_cell_Ret by lia. eexists. split; [done|].
  split; [by rewrite zupdate_length|]. intros i Hir. destruct (decide (i = q)) as [->|Hne].
  - rewrite zlookup_zupdate_eq by lia. destruct (Z.leb_spec a q), (Z.ltb_spec q (q + 1)); lia || done.
  - rewrite zlookup_zupdate_ne by lia. rewrite Hi by lia.
    destruct (Z.leb_spec a i), (Z.ltb_spec i q), (Z.ltb_spec i (q + 1)); try lia; done.
Qed.

Lemma scroll_ok b l : length l = 2000%nat -> scroll b l = Ret tt (scrolled b l).
Proof.
  intros Hl. unfold scroll.
  destruct (rows_inv (shifted l) (Z.to_nat (HEIGHT - 1)) 1 scroll_cell l) as (l1 & H1 & Hl1 & Hi1).
  { split; [done|]. intros i Hi. destruct (Z.ltb_spec i (1 * 80 - 80)); [lia|done]. }
  { intros y x t Hy Hx Ht. apply scroll_cell_step; [done| |lia].
    change (Z.of_nat (Z.to_nat (HEIGHT - 1))) with 24 in Hy. lia. }
  rewrite (bind_Ret _ _ _ _ _ H1). change ((1 + Z.of_nat (Z.to_nat (HEIGHT - 1))) * 80) with 2000 in Hi1.
  destruct (for_up_inv (fun x u => filled b 1920 l1 (1920 + x) u) (Z.to_nat WIDTH) 0
    (fun x => set_cell ((HEIGHT - 1) * WIDTH + x) b) l1) as (l2 & -> & Hl2 & Hi2).
  { by apply filled_start. }
  { intros x u Hx Hu. change (Z.of_nat (Z.to_nat WIDTH)) with 80 in Hx.
    rewrite Z.add_assoc. apply filled_step; [done|lia..]. }
  f_equal. change (1920 + (0 + Z.of_nat (Z.to_nat WIDTH))) with 2000 in Hi2.
  apply zlookup_ext; [by rewrite scrolled_length|].
  intros i Hi. rewrite Hl2 in Hi. rewrite Hi2, scrolled_lookup by lia.
  destruct (Z.leb_spec 1920 i), (Z.ltb_spec i 2000), (Z.ltb_spec i 1920); try lia; [done|].
  cbn [andb]. rewrite Hi1 by lia. destruct (Z.ltb_spec i (2000 - 80)); [done|lia].
Qed.

(** Writing the same cell all over the screen. *)
Lemma fill_ok c l : length l = 2000%nat ->
  for_up (Z.to_nat HEIGHT) 0 (fun y => for_up (Z.to_nat WIDTH) 0 (fun x => set_cell (y * 80 + x) c)) l =
    Ret tt (repeat c 2000).
Proof.
  intros Hl. destruct (rows_inv (filled c 0 l) (Z.to_nat HEIGHT) 0 (fun y x => set_cell (y * 80 + x) c) l)
    as (l1 & -> & Hl1 & Hi1).
  { by apply filled_start. }
  { intros y x t Hy Hx Ht. change (Z.of_nat (Z.to_nat HEIGHT)) with 25 in Hy. apply filled_step; [done|lia..]. }
  f_equal. apply zlookup_ext; [by rewrite repeat_length|]. intros i Hi. rewrite Hl1 in Hi.
  rewrite Hi1, zlookup_repeat_in by lia. change ((0 + Z.of_nat (Z.to_nat HEIGHT)) * 80) with 2000.
  destruct (Z.leb_spec 0 i), (Z.ltb_spec i 2000); lia || done.
Qed.

Lemma typed_wf b cell ch t : wf t -> wf (typed b cell ch t).
Proof.
  intros (Hl & Hc & Hr). unfold typed, wf. destruct ((80 <=? col t) || (ch =? 10)) eqn:Hn.
  - destruct (Z.eqb_spec (row t + 1) 25), (ch =? 10); cbn [cells col row];
      rewrite ?zupdate_length; (split; [try by apply scrolled_length|lia]); done.
  - apply orb_false_iff in Hn as [Hn ->%Z.eqb_neq%Z.eqb_neq]. cbn [cells col row]. apply Z.leb_gt in Hn.
    destruct (Z.eqb_spec (row t) 25); [lia|]. rewrite zupdate_length. split; [done|lia].
Qed.

(** Printing keeps the cursor on the screen and never leaves video memory. *)
Lemma put_with_ok wrap b scrollup putat cell ch t : wf t ->
  (forall z, 0 <= z < 100 -> wrap z = z) ->
  (forall t, length (cells t) = 2000%nat -> scrollup t = Ret tt (set_cells (scrolled b (cells t)) t)) ->
  (forall x y t, 0 <= x < 80 -> 0 <= y < 25 -> length (cells t) = 2000%nat ->
     putat x y t = Ret tt (set_cells (zupdate (y * 80 + x) cell (cells t)) t)) ->
  put_with wrap scrollup putat ch t = Ret tt (typed b cell ch t).
Proof.
  intros (Hl & Hc & Hr) Hw Hs Hp. unfold put_with, typed. erewrite (bind_Ret get) by done.
  unfold WIDTH, HEIGHT. set (nl := (80 <=? col t) || (ch =? 10)).
  set (c := if nl then 0 else col t). set (r := if nl then row t + 1 else row t).
  assert (Hcc : ch <> 10 -> 0 <= c < 80)
    by (unfold c, nl; destruct (Z.leb_spec 80 (col t)), (Z.eqb_spec ch 10); cbn [orb]; lia).
  assert (Hrr : 0 <= r <= 25) by (unfold r; destruct nl; lia).
  rewrite (bind_Ret _ _ t tt (Text (cells t) c r)).
  2:{ unfold c, r. destruct nl; [|by destruct t]. unfold put. rewrite Hw by lia. done. }
  erewrite (bind_Ret get) by done. cbn [row].
  set (l := if r =? 25 then scrolled b (cells t) else cells t). set (r' := if r =? 25 then 24 else r).
  assert (Hll : length l = 2000%nat) by (unfold l; destruct (r =? 25); [by apply scrolled_length|done]).
  rewrite (bind_Ret _ _ _ tt (Text l c r')).
  2:{ unfold l, r'. destruct (Z.leb_spec 25 r), (Z.eqb_spec r 25); try lia; [|done].
      rewrite (bind_Ret _ _ _ _ _ (Hs (Text (cells t) c r) Hl)). unfold modify, set_cells. cbn [cells col row].
      rewrite Hw by lia. do 2 f_equal. lia. }
  destruct (Z.eqb_spec ch 10) as [He|Hne]; [done|]. erewrite (bind_Ret get) by done. cbn [col row].
  assert (Hr' : 0 <= r' < 25) by (unfold r'; destruct (Z.eqb_spec r 25); lia).
  specialize (Hcc Hne). rewrite (bind_Ret _ _ _ _ _ (Hp c r' (Text l c r') Hcc Hr' Hll)).
  unfold modify, set_cells. cbn [cells col row]. rewrite Hw by lia. done.
Qed.
