(* ===== verification/Console.v ===== *)
(** * Console.v: formatted printing and the text screen (kernel/print.c,
      kernel/vga.c, kernel/com.c)

    [Print] produces the bytes the formatting functions append to their
    buffer and puts them there, [Vga] is the text console: an array of 2000
    cells, a cursor and a colour.  A write outside the array is [Undef].  The
    print lock is left out (one processor runs the kernel). *)

From S2P Require Import Prelude Memory Machine Text.

Module Print.

(** print.h *)
Definition KERNEL_MAX_PRINT_SIZE : Z := 256.

Definition digits : list byte :=
  [Byte.x30; Byte.x31; Byte.x32; Byte.x33; Byte.x34; Byte.x35; Byte.x36; Byte.x37;
   Byte.x38; Byte.x39; Byte.x61; Byte.x62; Byte.x63; Byte.x64; Byte.x65; Byte.x66].

(** The byte put_digit appends; its argument is never negative. *)
Definition put_digit (ch : Z) : byte := nth (Z.to_nat (ch mod 16)) digits Byte.x00.

(** [for (; v > 0; v /= 10) out[i++] = v % 10] with [out] latest first; the
    array has ten elements. *)
Fixpoint putd_loop (fuel : nat) (v : Z) (out : list Z) : option (list Z) :=
  match fuel with
  | O => None
  | S fuel' =>
      if 0 <? v then
        if Nat.ltb (length out) 10 then putd_loop fuel' (v / 10) (v mod 10 :: out) else None
      else Some out
  end.

(** [v = -v] wraps for the smallest int. *)
Definition putd (v : Z) : option (list byte) :=
  if v =? 0 then Some [Byte.x30]
  else
    let sign := if v <? 0 then [Byte.x2d] else [] in
    let v := if v <? 0 then s32 (- v) else v in
    match putd_loop 11 v [] with
    | Some out => Some (sign ++ map put_digit out)
    | None => None
    end.

(** One digit per nibble, from the mask of the highest one down. *)
Fixpoint puth_loop (i : nat) (mask v : Z) : list byte :=
  match i with
  | O => []
  | S i' =>
      put_digit (Z.shiftr (Z.land mask v) (Z.of_nat i * 4 - 4)) :: puth_loop i' (Z.shiftr mask 4) v
  end.
Definition puthd (v : Z) : list byte := puth_loop 8 4026531840 v.
Definition puthw (v : Z) : list byte := puth_loop 4 61440 v.
Definition puthb (v : Z) : list byte := puth_loop 2 240 v.

(** What a va_list holds. *)
Inductive arg := Int (v : Z) | Str (s : list byte).

Inductive result :=
| Done (out : list byte)     (* the bytes before the final NUL *)
| Overrun                    (* reading past the end of the format *)
| Bad_arg.                   (* va_arg of the wrong kind, or too many digits *)

Definition emit (o : list byte) (r : result) : result :=
  match r with Done out => Done (o ++ out) | _ => r end.

(** kvformat: [fmt] are the bytes before the NUL.  After a '%' the next byte
    is consumed whatever it is; when that is the NUL, the loop steps over it. *)
Fixpoint kvformat (fmt : list byte) (vl : list arg) : result :=
  match fmt with
  | [] => Done []
  | c :: fmt' =>
      if byte.unsigned c =? 37 then
        match fmt' with
        | [] => Overrun
        | d :: fmt'' =>
            let d := byte.unsigned d in
            if d =? 37 then emit [Byte.x25] (kvformat fmt'' vl)
            else if d =? 99 then
              match vl with
              | Int v :: vl' => emit [byte.of_Z v] (kvformat fmt'' vl')
              | _ => Bad_arg
              end
            else if d =? 100 then
              match vl with
              | Int v :: vl' =>
                  match putd (s32 v) with
                  | Some o => emit o (kvformat fmt'' vl')
                  | None => Bad_arg
                  end
              | _ => Bad_arg
              end
            else if d =? 120 then
              match vl with
              | Int v :: vl' => emit (puthd (u32 v)) (kvformat fmt'' vl')
              | _ => Bad_arg
              end
            else if d =? 115 then
              match vl with
              | Str s :: vl' => emit s (kvformat fmt'' vl')
              | _ => Bad_arg
              end
            else kvformat fmt'' vl
        end
      else emit [c] (kvformat fmt' vl)
  end.

(** ** Reading numbers back *)

Definition digit_val (b : byte) : Z :=
  let c := byte.unsigned b in
  if (48 <=? c) && (c <=? 57) then c - 48 else if (97 <=? c) && (c <=? 102) then c - 87 else -1.

Definition num_val (base : Z) (l : list byte) : Z := foldl (fun acc b => base * acc + digit_val b) 0 l.

Definition int_val (l : list byte) : Z :=
  match l with
  | b :: l' => if byte.unsigned b =? 45 then - num_val 10 l' else num_val 10 l
  | [] => 0
  end.

Lemma put_digit_val d : 0 <= d < 16 -> digit_val (put_digit d) = d.
Proof.
  intros Hd. assert (Hc : d = 0 \/ d = 1 \/ d = 2 \/ d = 3 \/ d = 4 \/ d = 5 \/ d = 6 \/ d = 7 \/ d = 8 \/
    d = 9 \/ d = 10 \/ d = 11 \/ d = 12 \/ d = 13 \/ d = 14 \/ d = 15) by lia.
  repeat (destruct Hc as [-> | Hc]; [reflexivity|]). subst. reflexivity.
Qed.

Lemma put_digit_not_minus d : byte.unsigned (put_digit d) =? 45 = false.
Proof.
  unfold put_digit. assert (Hd : (Z.to_nat (d mod 16) < 16)%nat) by (pose proof (Z.mod_pos_bound d 16); lia).
  revert Hd. generalize (Z.to_nat (d mod 16)). intros n Hn.
  do 16 (destruct n as [|n]; [reflexivity|]). lia.
Qed.

Definition digit16 (d : Z) : Prop := 0 <= d < 16.

Lemma num_val_digits base l : Forall digit16 l ->
  num_val base (map put_digit l) = foldl (fun acc d => base * acc + d) 0 l.
Proof.
  unfold num_val. generalize 0 as a. intros a Hl. revert a.
  induction Hl as [|d l Hd _ IH]; intros a; simpl; [done|]. by rewrite put_digit_val.
Qed.

Lemma putd_loop_ok k v fuel out : 0 <= v < 10 ^ Z.of_nat k -> (k + length out <= 10)%nat -> (k < fuel)%nat ->
  exists ds, putd_loop fuel v out = Some (ds ++ out) /\ Forall digit16 ds /\
    (forall a, foldl (fun acc d => 10 * acc + d) a ds = a * 10 ^ Z.of_nat (length ds) + v) /\
    (0 < v -> ds <> []).
Proof.
  revert v fuel out. induction k as [|k IH]; intros v fuel out Hv Hk Hf; (destruct fuel as [|fuel]; [lia|]);
    cbn [putd_loop]; destruct (Z.ltb_spec 0 v) as [Hp|Hn].
  - simpl in Hv. lia.
  - exists []. split; [done|]. split; [done|]. split; [|lia]. intros a. simpl. lia.
  - destruct (Nat.ltb_spec (length out) 10); [|lia].
    assert (Hpow : 10 ^ Z.of_nat (S k) = 10 * 10 ^ Z.of_nat k) by (rewrite Nat2Z.inj_succ, Z.pow_succ_r; lia).
    destruct (IH (v / 10) fuel (v mod 10 :: out)) as (ds & Hr & Hd & Hval & _);
      [split; [zdm|apply Z.div_lt_upper_bound; lia]|simpl; lia|lia|].
    exists (ds ++ [v mod 10]). split; [by rewrite <- app_assoc|]. split.
    { apply Forall_app. split; [done|]. constructor; [|constructor]. unfold digit16. zdm. }
    split; [|by destruct ds]. intros a. rewrite foldl_app, Hval. cbn [foldl]. rewrite length_app. simpl length.
    rewrite Nat2Z.inj_add, Z.pow_add_r by lia. change (10 ^ Z.of_nat 1) with 10.
    pose proof (Z.div_mod v 10). nia.
  - exists []. split; [done|]. split; [done|]. split; [|lia]. intros a. simpl. lia.
Qed.

(** The nibbles of a number, from the highest of [n] down. *)
Fixpoint nibbles (n : nat) (v : Z) : list Z :=
  match n with O => [] | S n' => (v / 16 ^ Z.of_nat n') mod 16 :: nibbles n' v end.

Lemma puth_loop_nibbles n v : puth_loop n (15 * 16 ^ (Z.of_nat n - 1)) v = map put_digit (nibbles n v).
Proof.
  induction n as [|n IH]; [done|]. cbn [puth_loop nibbles map].
  replace (Z.of_nat (S n) * 4 - 4) with (4 * Z.of_nat n) by lia.
  replace (Z.of_nat (S n) - 1) with (Z.of_nat n) by lia.
  assert (H16 : forall m, 0 <= m -> 16 ^ m = 2 ^ (4 * m)) by (intros m Hm; rewrite Z.pow_mul_r by lia; done).
  f_equal.
  - f_equal. rewrite Z.shiftr_land, H16, !Z.shiftr_div_pow2 by lia.
    rewrite Z.div_mul by (apply Z.pow_nonzero; lia). change 15 with (Z.ones 4).
    rewrite Z.land_comm, Z.land_ones by lia. done.
  - rewrite <- IH. destruct n as [|n]; [done|]. f_equal.
    rewrite Z.shiftr_div_pow2 by lia. change (2 ^ 4) with 16.
    replace (Z.of_nat (S n)) with (Z.succ (Z.of_nat (S n) - 1)) at 1 by lia.
    rewrite Z.pow_succ_r by lia. rewrite Z.mul_assoc, (Z.mul_comm 15), <- Z.mul_assoc, Z.mul_comm.
    by rewrite Z.div_mul by lia.
Qed.

Lemma nibbles_val n v a : 0 <= v ->
  foldl (fun acc d => 16 * acc + d) a (nibbles n v) = a * 16 ^ Z.of_nat n + v mod 16 ^ Z.of_nat n.
Proof.
  intros Hv. revert a. induction n as [|n IH]; intros a; cbn [nibbles foldl].
  - simpl. rewrite Z.mod_1_r. lia.
  - rewrite IH. rewrite Nat2Z.inj_succ, Z.pow_succ_r by lia.
    rewrite (Z.mul_comm 16 (16 ^ Z.of_nat n)), Z.rem_mul_r by (try apply Z.pow_nonzero; lia).
    assert (0 < 16 ^ Z.of_nat n) by (apply Z.pow_pos_nonneg; lia). nia.
Qed.

Lemma nibbles_digits n v : Forall digit16 (nibbles n v).
Proof. induction n; simpl; constructor; [|done]. unfold digit16. zdm. Qed.

Lemma puthd_val v : 0 <= v < 4294967296 -> num_val 16 (puthd v) = v /\ length (puthd v) = 8%nat.
Proof.
  intros Hv. unfold puthd. change 4026531840 with (15 * 16 ^ (Z.of_nat 8 - 1)).
  rewrite puth_loop_nibbles, num_val_digits by apply nibbles_digits. rewrite nibbles_val by lia.
  split; [|done]. change (16 ^ Z.of_nat 8) with 4294967296. rewrite Z.mod_small; lia.
Qed.

(** C37: What %d and %x print reads back as the number: every int but the
    smallest comes out in decimal with its sign, never overrunning the array
    of ten digits, and every 32-bit word in eight hexadecimal digits.  The
    smallest int comes out as a lone minus sign. *)
Theorem printed_numbers_read_back v :
  (-2147483648 < v < 2147483648 -> exists o, putd v = Some o /\ int_val o = v) /\
  (0 <= v < 4294967296 -> num_val 16 (puthd v) = v /\ length (puthd v) = 8%nat) /\
  putd (-2147483648) = Some [Byte.x2d].
Proof.
  split; [|split; [apply puthd_val|reflexivity]]. intros Hv. unfold putd.
  destruct (Z.eqb_spec v 0) as [->|Hz]; [by eexists|].
  assert (Hneg : s32 (- v) = - v) by (unfold s32; zdm). rewrite Hneg.
  set (w := if v <? 0 then - v else v). assert (Hw : 0 < w < 2147483648 /\ (if v <? 0 then - w else w) = v).
  { unfold w. destruct (Z.ltb_spec v 0); lia. }
  destruct (putd_loop_ok 10 w 11 []) as (ds & -> & Hd & Hval & Hne); [simpl; lia..|].
  rewrite app_nil_r. eexists. split; [done|].
  assert (Hnum : num_val 10 (map put_digit ds) = w) by (rewrite num_val_digits, Hval by done; lia).
  destruct (v <? 0); cbn [app].
  - cbn [int_val]. change (byte.unsigned Byte.x2d =? 45) with true. cbv iota. lia.
  - destruct ds as [|d ds]; [by destruct Hne; [lia|]|]. cbn [map int_val] in *. rewrite put_digit_not_minus. lia.
Qed.

Lemma printed_numbers_read_back_witness : exists o, putd (-1907) = Some o /\ int_val o = -1907.
Proof. apply (proj1 (printed_numbers_read_back (-1907))). lia. Defined.

(** *** Into a buffer

    kvformat moves [buf] on with every character and ends with a NUL; the
    strings among the arguments lie outside the buffer. *)
Section Buffer.
Context {S : Type} `{MO : MemOps S}.

Definition putch (buf ch : Z) : M S Z := store8 buf ch ≫= fun _ => mret (buf +w 1).
Fixpoint put_string (buf : Z) (s : list byte) : M S Z :=
  match s with [] => mret buf | c :: s' => b ← putch buf (byte.unsigned c); put_string b s' end.
Definition kformat (buf : Z) (fmt : list byte) (vl : list arg) : M S unit :=
  match kvformat fmt vl with
  | Done out => e ← put_string buf out; store8 e 0
  | _ => undef
  end.

Context {P : S -> Prop} {R : Z -> Prop} `{MR : !MemRegion P R}.

Lemma put_string_ok out tl : forall s buf, P s -> span R buf (length (out ++ [tl])) ->
  exists s', (e ← put_string buf out; store8 e (byte.unsigned tl)) s = Ret tt s' /\ wrote P R buf (out ++ [tl]) s s'.
Proof using MR.
  induction out as [|c out IH]; intros s buf HP HR; cbn [put_string app] in *.
  - destruct (wr8_ok s buf tl HP (span_head _ _ HR)) as (s1 & Hw & HP1 & Hr1 & Hf1). exists s1. split.
    + unfold mret, M_ret, mbind, M_bind. by rewrite store8_eq, byte.of_Z_unsigned, Hw.
    + eapply wrote_cons; done || by apply wrote_nil.
  - destruct (wr8_ok s buf c HP (span_head _ _ HR)) as (s1 & Hw & HP1 & Hr1 & Hf1).
    destruct (IH s1 (buf +w 1) HP1 (span_tail _ _ HR)) as (s2 & Hm & Hwr). exists s2. split.
    + rewrite <- Hm. unfold putch, mbind, M_bind. by rewrite store8_eq, byte.of_Z_unsigned, Hw.
    + eapply wrote_cons; try done.
Qed.

(** The text and its NUL, and nothing else of the region *)
Lemma kformat_writes s buf fmt vl out : P s -> kvformat fmt vl = Done out ->
  span R buf (length out + 1) ->
  exists s', kformat buf fmt vl s = Ret tt s' /\ wrote P R buf (out ++ [Byte.x00]) s s'.
Proof using MR.
  intros HP Hk HR. unfold kformat. rewrite Hk. apply (put_string_ok out Byte.x00 s buf HP). by rewrite length_app.
Qed.
End Buffer.

End Print.

Module Vga.

(** The video memory at 0xb8000 with vga_col and vga_row, and vga_color. *)
Record vga := Vga { screen : text; vga_color : Z }.

Definition on_text {A} : M text A -> M vga A := zoom screen (fun t v => Vga t (vga_color v)).

Definition vga_scrollup : M text unit := on_cells (scroll 32).

Definition vga_make_color (fg bg : Z) : Z := u8 (Z.lor fg (Z.shiftl bg 4)).
(** [ch] is a signed char; it goes through a uint8_t. *)
Definition vga_make_char (ch color : Z) : Z := u16 (Z.lor (u8 ch) (Z.shiftl (u8 color) 8)).

Definition vga_putchat (ch color x y : Z) : M text unit :=
  on_cells (set_cell (u32 (u32 (y * WIDTH) + x)) (vga_make_char ch color)).

(** The cursor is a pair of size_t. *)
Definition vga_putch (ch : Z) : M vga unit := fun v =>
  on_text (put_with u32 vga_scrollup (vga_putchat ch (vga_color v)) ch) v.

Definition COLOR_BLACK : Z := 0.
Definition COLOR_WHITE : Z := 15.

Definition vga_init : M vga unit :=
  modify (fun v => Vga (Text (cells (screen v)) 0 0) (vga_make_color COLOR_WHITE COLOR_BLACK)) ≫= fun _ =>
  v ← get;
  on_text (for_up (Z.to_nat HEIGHT) 0 (fun y =>
    for_up (Z.to_nat WIDTH) 0 (fun x => vga_putchat 32 (vga_color v) x y))).

Fixpoint vga_puts (s : list Z) : M vga unit :=
  match s with
  | [] => mret tt
  | c :: s' => vga_putch c ≫= fun _ => vga_puts s'
  end.

(** ** What is on the screen *)

Definition vga_wf (v : vga) : Prop := wf (screen v).

(** The console after a character, and after a string. *)
Definition shows (v : vga) (ch : Z) : vga :=
  Vga (typed 32 (vga_make_char ch (vga_color v)) ch (screen v)) (vga_color v).

Lemma vga_putchat_ok ch color x y t : 0 <= x < 80 -> 0 <= y < 25 -> length (cells t) = 2000%nat ->
  vga_putchat ch color x y t = Ret tt (set_cells (zupdate (y * 80 + x) (vga_make_char ch color) (cells t)) t).
Proof.
  intros Hx Hy Hl. unfold vga_putchat, WIDTH. rewrite (u32_small (y * 80)), u32_small by lia.
  apply on_cells_Ret, set_cell_Ret. lia.
Qed.

Lemma vga_putch_ok v ch : vga_wf v -> vga_putch ch v = Ret tt (shows v ch) /\ vga_wf (shows v ch).
Proof.
  intros Hwf. split; [|by apply typed_wf]. unfold vga_putch, on_text, zoom.
  rewrite (put_with_ok u32 32 vga_scrollup _ (vga_make_char ch (vga_color v))); [done|done| | |].
  - intros z Hz. apply u32_small. lia.
  - intros t Ht. by apply on_cells_Ret, scroll_ok.
  - intros x y t. apply vga_putchat_ok.
Qed.

Lemma vga_puts_ok s v : vga_wf v -> vga_puts s v = Ret tt (foldl shows v s) /\ vga_wf (foldl shows v s).
Proof.
  revert v. induction s as [|c s IH]; intros v Hwf; cbn [vga_puts foldl]; [done|].
  destruct (vga_putch_ok v c Hwf) as [Hp Hwf']. rewrite (bind_Ret _ _ _ _ _ Hp). by apply IH.
Qed.

(** The screen vga_init leaves: blank, white on black, the cursor at home. *)
Definition home : vga := Vga (Text (repeat (vga_make_char 32 15) 2000) 0 0) 15.

Lemma vga_init_ok v : length (cells (screen v)) = 2000%nat -> vga_init v = Ret tt home.
Proof.
  intros Hl. unfold vga_init. erewrite (bind_Ret (modify _)) by done. erewrite (bind_Ret get) by done.
  unfold on_text, zoom. cbn [screen vga_color].
  rewrite (for_up_ext _ _ _ (fun y => on_cells (for_up (Z.to_nat WIDTH) 0
    (fun x => set_cell (y * 80 + x) (vga_make_char 32 15))))).
  2:{ intros y t Hy. change (Z.of_nat (Z.to_nat HEIGHT)) with 25 in Hy.
      rewrite (for_up_ext _ _ _ (fun x => on_cells (set_cell (y * 80 + x) (vga_make_char 32 15)))).
      - by apply (for_up_zoom cells set_cells); [intros []| |].
      - intros x u Hx. change (Z.of_nat (Z.to_nat WIDTH)) with 80 in Hx.
        unfold vga_putchat, WIDTH. by rewrite (u32_small (y * 80)), u32_small by lia. }
  unfold on_cells. rewrite (for_up_zoom cells set_cells); [|by intros []|done|done].
  unfold zoom. cbn [cells]. by rewrite fill_ok.
Qed.

(** C38: Printing a character keeps the cursor on the screen and never writes
    outside video memory: a newline, or a full line, moves to the start of the
    next line; past the last line the screen scrolls up by one, its lowest line
    blank; any other character goes to the cursor's cell with the current
    colour. *)
Theorem vga_putch_spec v ch : vga_wf v ->
  let t := screen v in
  let newline := (80 <=? col t) || (ch =? 10) in
  let c := if newline then 0 else col t in
  let r := if newline then row t + 1 else row t in
  let l := if r =? 25 then drop 80 (cells t) ++ repeat 32 80 else cells t in
  let r := if r =? 25 then 24 else r in
  let t' := if ch =? 10 then Text l c r
            else Text (zupdate (r * 80 + c) (vga_make_char ch (vga_color v)) l) (c + 1) r in
  vga_putch ch v = Ret tt (Vga t' (vga_color v)) /\ wf t'.
Proof. intros Hwf. exact (vga_putch_ok v ch Hwf). Qed.

(** A full screen with the cursor after its last cell. *)
Definition vga_full : vga := Vga (Text (repeat 65 2000) 80 24) 15.

Lemma vga_putch_spec_witness :
  vga_putch 66 vga_full =
    Ret tt (Vga (Text (zupdate 1920 (vga_make_char 66 15) (drop 80 (repeat 65 2000) ++ repeat 32 80)) 1 24) 15).
Proof.
  apply (vga_putch_spec vga_full 66). split; [apply repeat_length|]. cbn [vga_full screen col row]. lia.
Defined.

End Vga.

Module Com.
Import Print Vga.

Definition PORT : Z := 1016. (* 0x3f8, COM1 *)
Definition BAUDRATE : Z := 115200.

(** What printing works on: the ports, how often the line status was read,
    and the text screen. *)
Record console := Console { cpu : machine; reads : nat; display : vga }.

Definition on_cpu {A} : M machine A -> M console A := zoom cpu (fun m c => Console m (reads c) (display c)).
Definition on_vga {A} : M vga A -> M console A := zoom display (fun v c => Console (cpu c) (reads c) v).

Definition com_init : M machine unit :=
  outb (PORT + 1) 0 ≫= fun _ => outb (PORT + 3) 128 ≫= fun _ =>
  outb (PORT + 0) (115200 / BAUDRATE) ≫= fun _ => outb (PORT + 1) 0 ≫= fun _ =>
  outb (PORT + 3) 3 ≫= fun _ => outb (PORT + 2) 199 ≫= fun _ => outb (PORT + 4) 11.

Section Uart.
(** What the [n]-th read of the line status port answers. *)
Variable lsr : nat -> Z.

(** [while ((inb(PORT + 5) & 0x20) == 0);] for at most [fuel] reads *)
Fixpoint com_wait (fuel : nat) : M console unit := fun c =>
  match fuel with
  | O => NoFuel
  | S fuel' =>
      let c' := Console (cpu c) (S (reads c)) (display c) in
      if Z.land (u8 (lsr (reads c))) 32 =? 0 then com_wait fuel' c' else Ret tt c'
  end.

Definition com_putc (fuel : nat) (ch : Z) : M console unit :=
  com_wait fuel ≫= fun _ => on_cpu (outb PORT (u8 ch)).

(** [s]: the chars before the NUL *)
Fixpoint com_puts (fuel : nat) (s : list Z) : M console unit :=
  match s with
  | [] => mret tt
  | c :: s' => com_putc fuel c ≫= fun _ => com_puts fuel s'
  end.

(** A byte of a buffer as the (signed) char it is read as, and the chars a
    string function sees in one. *)
Definition schar (b : byte) : Z := let u := byte.unsigned b in if u <? 128 then u else u - 256.
Fixpoint before_nul (l : list byte) : list Z :=
  match l with
  | [] => []
  | b :: l' => if byte.unsigned b =? 0 then [] else schar b :: before_nul l'
  end.

(** kprintf: [buf] has room for 256 bytes with the final NUL; kvformat does
    not check.  The whole buffer is zeroed before. *)
Definition kprintf (fuel : nat) (fmt : list byte) (vl : list arg) : M console unit := fun c =>
  match kvformat fmt vl with
  | Done out =>
      if Z.of_nat (length out) <? KERNEL_MAX_PRINT_SIZE then
        (com_puts fuel (before_nul out) ≫= fun _ => on_vga (vga_puts (before_nul out))) c
      else Undef
  | _ => Undef
  end.

(** kernel/vga.c: vga_printf and vga_vprintf, which differ only in how they
    get at the arguments; the buffer is not cleared, but the text ends in NUL. *)
Definition vga_vprintf (fmt : list byte) (vl : list arg) : M vga unit := fun v =>
  match kvformat fmt vl with
  | Done out =>
      if Z.of_nat (length out) <? KERNEL_MAX_PRINT_SIZE then vga_puts (before_nul out) v else Undef
  | _ => Undef
  end.
Definition vga_printf : list byte -> list arg -> M vga unit := vga_vprintf.

Definition print_init : M console unit := on_cpu com_init ≫= fun _ => on_vga vga_init.

(** ** What a print does *)

(** The transmitter is found ready within [fuel] reads, from any time on. *)
Definition ready (fuel : nat) : Prop :=
  forall t, exists n, (n < fuel)%nat /\ has (u8 (lsr (t + n))) 32 = true.

(** [c'] is [c] with more status reads, and the bytes [bs] sent. *)
Definition sent (c : console) (bs : list Z) (c' : console) : Prop :=
  ports (cpu c') = rev (map (fun b => (PORT, u8 b)) bs) ++ ports (cpu c) /\
  phys (cpu c') = phys (cpu c) /\ cr3 (cpu c') = cr3 (cpu c) /\ display c' = display c.

Lemma com_wait_ok n : forall fuel c, (n < fuel)%nat -> has (u8 (lsr (reads c + n))) 32 = true ->
  exists c', com_wait fuel c = Ret tt c' /\ cpu c' = cpu c /\ display c' = display c.
Proof.
  induction n as [|n IH]; intros [|fuel] c Hf Hr; try lia; cbn [com_wait].
  - rewrite Nat.add_0_r in Hr. unfold has in Hr. destruct (Z.land _ 32 =? 0); [done|]. eauto.
  - destruct (Z.land (u8 (lsr (reads c))) 32 =? 0); [|eauto].
    destruct (IH fuel (Console (cpu c) (S (reads c)) (display c))) as (c' & -> & H1 & H2); [lia| |eauto].
    cbn [reads]. by rewrite Nat.add_succ_comm.
Qed.

Lemma com_puts_ok fuel s c : ready fuel -> exists c', com_puts fuel s c = Ret tt c' /\ sent c s c'.
Proof.
  intros Hrdy. revert c. induction s as [|b s IH]; intros c; cbn [com_puts].
  - exists c. split; [done|]. unfold sent. done.
  - destruct (Hrdy (reads c)) as (n & Hn & Hb). destruct (com_wait_ok n fuel c Hn Hb) as (c1 & H1 & Hc1 & Hd1).
    destruct (IH (Console (Machine (phys (cpu c1)) (cr3 (cpu c1)) ((PORT, u8 b) :: ports (cpu c1))) (reads c1) (display c1)))
      as (c2 & H2 & Hp & Hph & Hcr & Hdi). cbn [cpu display phys cr3 ports] in *.
    exists c2. split.
    + unfold com_putc. unfold mbind at 1, M_bind at 1. rewrite (bind_Ret _ _ _ _ _ H1). rewrite <- H2.
      unfold on_cpu, zoom, outb, modify. by rewrite u8_idem.
    + unfold sent. rewrite Hp, Hph, Hcr, Hdi, Hc1, Hd1. cbn [map rev]. by rewrite <- app_assoc.
Qed.

End Uart.

(** [text] was printed: sent to the port and shown on the screen. *)
Record printed (c : console) (text : list Z) (c' : console) : Prop := {
  pr_ports : ports (cpu c') = rev (map (fun ch => (PORT, u8 ch)) text) ++ ports (cpu c);
  pr_display : display c' = foldl shows (display c) text;
  pr_wf : vga_wf (display c');
  pr_phys : phys (cpu c') = phys (cpu c);
  pr_cr3 : cr3 (cpu c') = cr3 (cpu c);
}.

Lemma printed_nil c : vga_wf (display c) -> printed c [] c.
Proof. by split. Qed.

Lemma printed_app c1 t1 c2 t2 c3 : printed c1 t1 c2 -> printed c2 t2 c3 -> printed c1 (t1 ++ t2) c3.
Proof.
  intros [A1 A2 A3 A4 A5] [B1 B2 B3 B4 B5]. split; try congruence; [|by rewrite B2, A2, foldl_app].
  by rewrite B1, A1, map_app, rev_app_distr, app_assoc.
Qed.

Lemma kprintf_ok lsr fuel fmt vl out c : ready lsr fuel -> vga_wf (display c) ->
  kvformat fmt vl = Done out -> Z.of_nat (length out) < KERNEL_MAX_PRINT_SIZE ->
  exists c', kprintf lsr fuel fmt vl c = Ret tt c' /\ printed c (before_nul out) c'.
Proof.
  intros Hr Hwf Hk Hlen. unfold kprintf. rewrite Hk. destruct (Z.ltb_spec (Z.of_nat (length out)) KERNEL_MAX_PRINT_SIZE); [|lia].
  destruct (com_puts_ok lsr fuel (before_nul out) c Hr) as (c1 & H1 & Hp & Hph & Hcr & Hd).
  rewrite (bind_Ret _ _ _ _ _ H1).
  destruct (vga_puts_ok (before_nul out) (display c1)) as [Hv Hwf']; [by rewrite Hd|].
  exists (Console (cpu c1) (reads c1) (foldl shows (display c1) (before_nul out))). split.
  - unfold on_vga, zoom. by rewrite Hv.
  - cbn [cpu display]. split; cbn [cpu display]; try done. by rewrite Hd.
Qed.

(** On the screen alone, vga_printf shows what kprintf does. *)
Lemma vga_printf_shows fmt vl out v : vga_wf v ->
  kvformat fmt vl = Done out -> Z.of_nat (length out) < KERNEL_MAX_PRINT_SIZE ->
  vga_printf fmt vl v = Ret tt (foldl shows v (before_nul out)) /\ vga_wf (foldl shows v (before_nul out)).
Proof.
  intros Hwf Hk Hl. unfold vga_printf, vga_vprintf. rewrite Hk.
  destruct (Z.ltb_spec (Z.of_nat (length out)) KERNEL_MAX_PRINT_SIZE); [|lia]. by apply vga_puts_ok.
Qed.

(** A cleared screen, and a port that is ready at every third read *)
Definition c_home : console := Console (Machine ∅ 0 []) 0 home.
Definition third (n : nat) : Z := if Nat.eqb (n mod 3) 2 then 96 else 0.

Lemma third_ready : ready third 3.
Proof.
  intros t. unfold third. assert (Hm : (t mod 3 = 0 \/ t mod 3 = 1 \/ t mod 3 = 2)%nat).
  { pose proof (Nat.mod_upper_bound t 3). lia. }
  exists (2 - t mod 3)%nat. split; [lia|].
  replace ((t + (2 - t mod 3)) mod 3)%nat with 2%nat; [done|].
  pose proof (Nat.div_mod_eq t 3). apply (Nat.mod_unique _ _ (t / 3)); lia.
Qed.

End Com.
