(* ===== verification/Lock.v ===== *)
(** * Lock.v: the print lock (include/kernel/smp.h, kernel/print.c)

    kprintf holds a spin lock while it formats, sends and shows its text.  A
    print is cut here into the steps that others can come between: the tries
    to take the lock, the polls and writes of the serial port, the characters
    on the screen, the release.  Any number of contexts (processors, or
    processes that interrupts switch between) take these steps in any order.
    First module: prints never mix, and can always be finished.  Second: with
    the scheduler of Proc.v, a print of idle's that is interrupted makes every
    other print wait for ever. *)

From S2P Require Import Prelude Memory Machine Pm Vm Heap Queue Desc Proc Syscall System Text Console.
Import Vga Com.

Module PrintLock.

(** One use of kprintf *)
Record call := Call { c_fmt : list byte; c_vl : list Print.arg }.

(** What all contexts share: print_lockLocked and the devices.  DECLARE_LOCK
    leaves the variable in the zeroed data. *)
Record shared := Shared { print_lockLocked : Z; con : console }.
Definition on_con {A} : M console A -> M shared A := zoom con (fun c s => Shared (print_lockLocked s) c).

Definition sync_bool_compare_and_swap (old new : Z) : M shared bool := fun s =>
  if print_lockLocked s =? old then Ret true (Shared new (con s)) else Ret false s.

(** One turn of LOCK's loop, and UNLOCK *)
Definition LOCK_try : M shared bool := sync_bool_compare_and_swap 0 1.
Definition UNLOCK : M shared unit := modify (fun s => Shared 0 (con s)).

(** Where in kprintf a context is: in LOCK; before the formatting; in com_puts
    with [s] to be sent, at the poll or at the write of a character; in
    vga_puts with [s] to be shown; at UNLOCK.  [text] is what is in [buf]. *)
Inductive stage :=
| Locking (c : call)
| Formatting (c : call)
| Polling (s text : list Z)
| Writing (ch : Z) (s text : list Z)
| Showing (s : list Z)
| Unlocking.

Section Uart.
Variable lsr : nat -> Z.

(** One turn of com_putc's wait: whether it is over *)
Definition com_poll : M console bool := fun c =>
  Ret (negb (Z.land (u8 (lsr (reads c))) 32 =? 0)) (Console (cpu c) (S (reads c)) (display c)).

(** One step of kprintf; None: it returned. *)
Definition next (g : stage) : M shared (option stage) :=
  match g with
  | Locking c => b ← LOCK_try; mret (Some (if b : bool then Formatting c else Locking c))
  | Formatting c =>
      match Print.kvformat (c_fmt c) (c_vl c) with
      | Print.Done out =>
          if Z.of_nat (length out) <? Print.KERNEL_MAX_PRINT_SIZE
          then mret (Some (Polling (before_nul out) (before_nul out))) else undef
      | _ => undef
      end
  | Polling [] text => mret (Some (Showing text))
  | Polling (ch :: s) text =>
      b ← on_con com_poll; mret (Some (if b : bool then Writing ch s text else Polling (ch :: s) text))
  | Writing ch s text => on_con (on_cpu (outb PORT (u8 ch))) ≫= fun _ => mret (Some (Polling s text))
  | Showing [] => mret (Some Unlocking)
  | Showing (ch :: s) => on_con (on_vga (vga_putch ch)) ≫= fun _ => mret (Some (Showing s))
  | Unlocking => UNLOCK ≫= fun _ => mret None
  end.

(** ** Contexts, and schedules *)

(** The print a context is in, and those it will still make *)
Record ctx := Ctx { at_stage : option stage; todo : list call }.
Record world := World { sh : shared; ctxs : list ctx }.

(** A context whose step takes the lock is noted in the log of the prints. *)
Definition takes (i : nat) (g : stage) (g' : option stage) : list (nat * call) :=
  match g, g' with Locking c, Some (Formatting _) => [(i, c)] | _, _ => [] end.

Definition step_at (i : nat) (w : world) : option (list (nat * call) * world) :=
  match ctxs w !! i with
  | Some (Ctx (Some g) cs) =>
      match next g (sh w) with
      | Ret g' s' => Some (takes i g g', World s' (<[i := Ctx g' cs]> (ctxs w)))
      | _ => None
      end
  | Some (Ctx None (c :: cs)) => Some ([], World (sh w) (<[i := Ctx (Some (Locking c)) cs]> (ctxs w)))
  | _ => Some ([], w)
  end.

(** A schedule says whose turn it is, step by step. *)
Fixpoint run (sched : list nat) (w : world) : option (list (nat * call) * world) :=
  match sched with
  | [] => Some ([], w)
  | i :: sched' =>
      '(e, w1) ← step_at i w; '(log, w2) ← run sched' w1; Some (e ++ log, w2)
  end.

Lemma run_app s1 s2 w : run (s1 ++ s2) w = ('(l1, w1) ← run s1 w; '(l2, w2) ← run s2 w1; Some (l1 ++ l2, w2)).
Proof.
  revert w. induction s1 as [|i s1 IH]; intros w; cbn [app run].
  - cbn. by destruct (run s2 w) as [[l2 w2]|].
  - destruct (step_at i w) as [[e w1]|]; [|done]. cbn. rewrite IH.
    destruct (run s1 w1) as [[l1 w2]|]; [|done]. cbn. destruct (run s2 w2) as [[l2 w3]|]; [|done]. cbn. by rewrite app_assoc.
Qed.

(** ** The stages are kprintf *)

(** Running alone *)
Definition alone (x y : option stage * shared) : Prop :=
  exists g, x.1 = Some g /\ next g x.2 = Ret y.1 y.2.

Lemma alone_wait fuel ch s text : forall c c', com_wait lsr fuel c = Ret tt c' ->
  rtc alone (Some (Polling (ch :: s) text), Shared 1 c) (Some (Writing ch s text), Shared 1 c').
Proof.
  induction fuel as [|fuel IH]; intros c c' H; [done|]. cbn [com_wait] in H.
  destruct (Z.land (u8 (lsr (reads c))) 32 =? 0) eqn:E.
  - eapply rtc_l; [|exact (IH _ _ H)]. eexists. split; [reflexivity|]. cbn.
    unfold on_con, zoom, com_poll, mbind, M_bind. cbn. by rewrite E.
  - apply ret_inj in H as [_ <-]. apply rtc_once. eexists. split; [reflexivity|]. cbn.
    unfold on_con, zoom, com_poll, mbind, M_bind. cbn. by rewrite E.
Qed.

Lemma alone_send fuel s text : forall c c', com_puts lsr fuel s c = Ret tt c' ->
  rtc alone (Some (Polling s text), Shared 1 c) (Some (Showing text), Shared 1 c').
Proof.
  induction s as [|ch s IH]; intros c c' H; cbn [com_puts] in H.
  - apply ret_inv in H as [_ ->]. apply rtc_once. by eexists.
  - apply bind_inv in H as ([] & c2 & H1 & H). unfold com_putc in H1. apply bind_inv in H1 as ([] & c1 & H0 & H1).
    etrans; [by apply (alone_wait fuel)|]. eapply rtc_l; [|by apply (IH c2)].
    eexists. split; [reflexivity|]. cbn [next]. unfold on_con. erewrite (bind_Ret (zoom _ _ _)); [reflexivity|].
    unfold zoom at 1. cbn [con snd]. by rewrite H1.
Qed.

Lemma alone_show s : forall c v, vga_puts s (display c) = Ret tt v ->
  rtc alone (Some (Showing s), Shared 1 c) (None, Shared 0 (Console (cpu c) (reads c) v)).
Proof.
  induction s as [|ch s IH]; intros c v H; cbn [vga_puts] in H.
  - apply ret_inv in H as [_ <-]. apply (rtc_l _ _ (Some Unlocking, Shared 1 c)); [by exists (Showing [])|]. apply rtc_once. exists Unlocking.
    split; [reflexivity|]. cbn. by destruct c.
  - apply bind_inv in H as ([] & v1 & H1 & H). eapply rtc_l; [|by apply (IH (Console (cpu c) (reads c) v1))].
    eexists. split; [reflexivity|]. cbn [next]. erewrite (bind_Ret (on_con _)); [reflexivity|].
    unfold on_con, on_vga, zoom. cbn [con snd]. by rewrite H1.
Qed.

(** Undisturbed, the steps from LOCK to UNLOCK are kprintf. *)
Lemma alone_kprintf fuel k c c' : kprintf lsr fuel (c_fmt k) (c_vl k) c = Ret tt c' ->
  rtc alone (Some (Locking k), Shared 0 c) (None, Shared 0 c').
Proof.
  unfold kprintf. intros H. destruct (Print.kvformat _ _) as [out| |] eqn:Ek; [|done..].
  destruct (Z.of_nat (length out) <? Print.KERNEL_MAX_PRINT_SIZE) eqn:El; [|done].
  apply bind_inv in H as ([] & c1 & H1 & H).
  apply (rtc_l _ _ (Some (Formatting k), Shared 1 c)); [by exists (Locking k)|]. apply (rtc_l _ _ (Some (Polling (before_nul out) (before_nul out)), Shared 1 c)).
  { exists (Formatting k). split; [reflexivity|]. cbn [next]. rewrite Ek, El. reflexivity. }
  etrans; [by apply (alone_send fuel)|].
  unfold on_vga, zoom in H. destruct (vga_puts _ (display c1)) as [[] v| | | |] eqn:Ev; try done.
  apply ret_inj in H as [_ <-]. by apply alone_show.
Qed.

End Uart.

(** ** What a schedule leaves *)

Definition text_of (k : call) : list Z :=
  match Print.kvformat (c_fmt k) (c_vl k) with Print.Done out => before_nul out | _ => [] end.
Definition fits (k : call) : Prop :=
  exists out, Print.kvformat (c_fmt k) (c_vl k) = Print.Done out /\
    (Z.of_nat (length out) <? Print.KERNEL_MAX_PRINT_SIZE) = true.

(** [s] was sent and [t] was shown. *)
Record partial (c0 : console) (s t : list Z) (c : console) : Prop := {
  pa_ports : ports (cpu c) = rev (map (fun ch => (PORT, u8 ch)) s) ++ ports (cpu c0);
  pa_display : display c = foldl shows (display c0) t;
  pa_wf : vga_wf (display c);
  pa_phys : phys (cpu c) = phys (cpu c0);
  pa_cr3 : cr3 (cpu c) = cr3 (cpu c0);
}.

Lemma partial_printed c0 t c : partial c0 t t c <-> printed c0 t c.
Proof. split; intros []; by split. Qed.

(** What the print [k], begun on [c0], has done when it is at a stage *)
Definition stage_inv (k : call) (c0 : console) (g : stage) (c : console) : Prop :=
  match g with
  | Locking _ => False
  | Formatting k' => k' = k /\ partial c0 [] [] c
  | Polling s text => text = text_of k /\ exists pre, text = pre ++ s /\ partial c0 pre [] c
  | Writing ch s text => text = text_of k /\ exists pre, text = pre ++ ch :: s /\ partial c0 pre [] c
  | Showing s => exists pre, text_of k = pre ++ s /\ partial c0 (text_of k) pre c
  | Unlocking => partial c0 (text_of k) (text_of k) c
  end.

Lemma stage_step lsr k c0 g c : fits k -> stage_inv k c0 g c ->
  exists g' s', next lsr g (Shared 1 c) = Ret g' s' /\
    match g' with
    | Some g1 => print_lockLocked s' = 1 /\ stage_inv k c0 g1 (con s')
    | None => print_lockLocked s' = 0 /\ printed c0 (text_of k) (con s')
    end.
Proof.
  intros (out & Ek & El) Hg. assert (Et : text_of k = before_nul out) by (unfold text_of; by rewrite Ek).
  destruct g as [k'|k'|[|ch s] text|ch s text|[|ch s]|]; cbn [stage_inv] in Hg; cbn [next].
  - done.
  - destruct Hg as [-> Hp]. rewrite Ek, El. eexists _, _. split; [reflexivity|]. split; [done|].
    cbn [stage_inv]. split; [done|]. by exists [].
  - destruct Hg as (-> & pre & Epre & Hp). rewrite app_nil_r in Epre. eexists _, _. split; [reflexivity|]. split; [done|].
    exists []. by rewrite Epre.
  - destruct Hg as (-> & pre & Epre & []). eexists _, _. split; [reflexivity|]. split; [done|].
    cbn [con]. destruct (negb _); (split; [done|]; exists pre; split; [done|]; by split).
  - destruct Hg as (-> & pre & Epre & [Hpo Hdi Hwf Hph Hcr]). eexists _, _. split; [reflexivity|]. split; [done|].
    split; [done|]. exists (pre ++ [ch]). split; [by rewrite <- app_assoc|]. split; [|done..].
    cbn. by rewrite map_app, rev_app_distr, u8_idem, Hpo.
  - destruct Hg as (pre & Epre & Hp). rewrite app_nil_r in Epre. rewrite <- Epre in Hp. by eexists _, _.
  - destruct Hg as (pre & Epre & [Hpo Hdi Hwf Hph Hcr]). destruct (vga_putch_ok _ ch Hwf) as [Hv Hwf'].
    exists (Some (Showing s)), (Shared 1 (Console (cpu c) (reads c) (shows (display c) ch))). split.
    { erewrite (bind_Ret (on_con _)); [reflexivity|]. unfold on_con, on_vga, zoom. cbn [con]. by rewrite Hv. }
    split; [done|]. exists (pre ++ [ch]). split; [by rewrite <- app_assoc|]. split; [done| |done..].
    cbn [con display]. by rewrite foldl_app, Hdi.
  - eexists _, _. split; [reflexivity|]. split; [done|]. by apply partial_printed.
Qed.

Definition inside (x : ctx) : bool :=
  match at_stage x with None | Some (Locking _) => false | _ => true end.
(** The prints of a context that have not got the lock yet *)
Definition pending (x : ctx) : list call :=
  match at_stage x with Some (Locking k) => [k] | _ => [] end ++ todo x.
Definition by_ctx (i : nat) (log : list (nat * call)) : list call := map snd (filter (fun e => e.1 = i) log).
Definition texts (log : list (nat * call)) : list Z := concat (map (fun e => text_of e.2) log).

Lemma by_ctx_app i l1 l2 : by_ctx i (l1 ++ l2) = by_ctx i l1 ++ by_ctx i l2.
Proof. unfold by_ctx. by rewrite list.filter_app, map_app. Qed.
Lemma texts_app l1 l2 : texts (l1 ++ l2) = texts l1 ++ texts l2.
Proof. unfold texts. by rewrite map_app, concat_app. Qed.

(** Each context's prints are those logged and those to come, in order. *)
Definition in_order (w0 : world) (log : list (nat * call)) (l : list ctx) : Prop :=
  forall i x, l !! i = Some x -> exists x0, ctxs w0 !! i = Some x0 /\ todo x0 = by_ctx i log ++ pending x.

Lemma in_order_step w0 log l i x x' e : in_order w0 log l -> l !! i = Some x ->
  pending x = by_ctx i e ++ pending x' -> (forall j, j <> i -> by_ctx j e = []) ->
  in_order w0 (log ++ e) (<[i := x']> l).
Proof.
  intros Ho Hx Hp He j y Hy. destruct (decide (i = j)) as [<-|Hne].
  - rewrite list_lookup_insert_eq in Hy by (by apply lookup_lt_Some in Hx). injection Hy as <-.
    destruct (Ho i x Hx) as (x0 & H0 & Ht). exists x0. by rewrite by_ctx_app, <- app_assoc, <- Hp.
  - rewrite list_lookup_insert_ne in Hy by done. destruct (Ho j y Hy) as (x0 & H0 & Ht). exists x0.
    by rewrite by_ctx_app, He, app_nil_r by done.
Qed.

(** All contexts but [h] are outside. *)
Definition only (h : option nat) (l : list ctx) : Prop :=
  forall i x, l !! i = Some x -> inside x = true -> h = Some i.

Lemma only_step h h' l i x' : only h l -> (forall j, j <> i -> h = Some j -> h' = Some j) ->
  (inside x' = true -> h' = Some i) -> only h' (<[i := x']> l).
Proof.
  intros Ho Hh Hx j y Hy Hin. destruct (decide (i = j)) as [<-|Hne].
  - destruct (decide (i < length l)%nat); [|rewrite list_insert_ge in Hy by lia; apply lookup_lt_Some in Hy; lia].
    rewrite list_lookup_insert_eq in Hy by done. injection Hy as <-. auto.
  - rewrite list_lookup_insert_ne in Hy by done. eauto.
Qed.

(** The lock is free and the logged prints are done, or the last of the log
    is under way in the one context inside. *)
Inductive winv (w0 : world) (log : list (nat * call)) (w : world) : Prop :=
| wi_free : in_order w0 log (ctxs w) -> only None (ctxs w) -> print_lockLocked (sh w) = 0 ->
    printed (con (sh w0)) (texts log) (con (sh w)) -> winv w0 log w
| wi_held h g cs k c1 pre : in_order w0 log (ctxs w) -> only (Some h) (ctxs w) -> print_lockLocked (sh w) = 1 ->
    ctxs w !! h = Some (Ctx (Some g) cs) -> log = pre ++ [(h, k)] -> fits k ->
    printed (con (sh w0)) (texts pre) c1 -> stage_inv k c1 g (con (sh w)) -> winv w0 log w.

Lemma winv_order w0 log w : winv w0 log w -> in_order w0 log (ctxs w).
Proof. by intros []. Qed.

(** A step of a context that is outside: it starts a print, or is in LOCK. *)
Lemma winv_start w0 log w i k cs : winv w0 log w -> ctxs w !! i = Some (Ctx None (k :: cs)) ->
  winv w0 log (World (sh w) (<[i := Ctx (Some (Locking k)) cs]> (ctxs w))).
Proof.
  intros Hw Hx. pose proof (winv_order _ _ _ Hw) as Ho.
  assert (Ho' : in_order w0 log (<[i := Ctx (Some (Locking k)) cs]> (ctxs w))).
  { rewrite <- (app_nil_r log). by apply (in_order_step _ _ _ _ _ _ _ Ho Hx). }
  destruct Hw as [_ Hon Hl Hp|h g cs' k' c1 pre _ Hon Hl Hh El Hf Hp Hg].
  - apply wi_free; try done. by apply (only_step None).
  - assert (h <> i) by (intros ->; congruence).
    apply (wi_held _ _ _ h g cs' k' c1 pre); try done; [by apply (only_step (Some h))|].
    cbn [ctxs]. by rewrite list_lookup_insert_ne.
Qed.

Lemma winv_try lsr w0 log w i k cs : winv w0 log w -> fits k -> ctxs w !! i = Some (Ctx (Some (Locking k)) cs) ->
  exists g' s', next lsr (Locking k) (sh w) = Ret g' s' /\
    winv w0 (log ++ takes i (Locking k) g') (World s' (<[i := Ctx g' cs]> (ctxs w))).
Proof.
  intros Hw Hfit Hx. cbn [next]. unfold LOCK_try, sync_bool_compare_and_swap, mbind, M_bind.
  destruct Hw as [Ho Hon Hl Hp|h g cs' k' c1 pre Ho Hon Hl Hh El Hf Hp Hg]; rewrite Hl.
  - eexists _, _. split; [reflexivity|]. cbn [takes].
    apply (wi_held _ _ _ i (Formatting k) cs k (con (sh w)) log); try done; cbn [ctxs sh con].
    + apply (in_order_step _ _ _ _ _ _ _ Ho Hx).
      * unfold by_ctx. rewrite list.filter_cons, decide_True by done. done.
      * intros j Hj. unfold by_ctx. by rewrite list.filter_cons, decide_False by (cbn; congruence).
    + by apply (only_step None).
    + by rewrite list_lookup_insert_eq by (by apply lookup_lt_Some in Hx).
    + cbn [stage_inv]. split; [done|]. by split; try apply (pr_wf _ _ _ Hp).
  - eexists _, _. split; [reflexivity|]. cbn [takes]. rewrite app_nil_r.
    assert (Hsame : <[i := Ctx (Some (Locking k)) cs]> (ctxs w) = ctxs w) by (by apply list_insert_id).
    rewrite Hsame. by apply (wi_held _ _ _ h g cs' k' c1 pre).
Qed.

Lemma winv_inside lsr w0 log w i g cs : winv w0 log w -> inside (Ctx (Some g) cs) = true ->
  ctxs w !! i = Some (Ctx (Some g) cs) ->
  exists g' s', next lsr g (sh w) = Ret g' s' /\ takes i g g' = [] /\
    winv w0 log (World s' (<[i := Ctx g' cs]> (ctxs w))).
Proof.
  intros Hw Hin Hx. destruct Hw as [Ho Hon Hl Hp|h g0 cs0 k c1 pre Ho Hon Hl Hh El Hf Hp Hg].
  { by specialize (Hon i _ Hx Hin). }
  specialize (Hon i _ Hx Hin) as Hi. injection Hi as ->. rewrite Hx in Hh. injection Hh as <- <-.
  destruct (stage_step lsr k c1 g (con (sh w)) Hf Hg) as (g' & s' & Hn & Hg').
  exists g', s'. assert (Hsh : sh w = Shared 1 (con (sh w))) by (destruct (sh w); by cbn in Hl; subst).
  rewrite Hsh. split; [done|]. split; [by destruct g|].
  assert (Ho' : in_order w0 log (<[i := Ctx g' cs]> (ctxs w))).
  { rewrite <- (app_nil_r log). apply (in_order_step _ _ _ _ _ _ _ Ho Hx); [|done].
    destruct g; try done; destruct g' as [[]|]; try done; by destruct Hg' as [_ []]. }
  destruct g' as [g1|]; destruct Hg' as [Hl' Hg'].
  - apply (wi_held _ _ _ i g1 cs k c1 pre); try done; [by apply (only_step (Some i))|].
    cbn [ctxs]. by rewrite list_lookup_insert_eq by (by apply lookup_lt_Some in Hx).
  - apply wi_free; try done; [apply (only_step (Some i)); [done| |done]; intros j Hj [= ->]; done|].
    cbn [sh]. rewrite El, texts_app. cbn [texts map concat]. rewrite app_nil_r.
    by apply (printed_app _ _ _ _ _ Hp).
Qed.

(** Every print of a schedule's contexts fits the buffer. *)
Definition all_fit (w0 : world) : Prop := Forall (fun x => Forall fits (todo x)) (ctxs w0).

Lemma pending_fits w0 log w i k cs : all_fit w0 -> winv w0 log w ->
  ctxs w !! i = Some (Ctx (Some (Locking k)) cs) -> fits k.
Proof.
  intros Hall Hw%winv_order Hx. destruct (Hw i _ Hx) as (x0 & H0 & Ht). apply (Forall_lookup_1 _ _ _ _ Hall) in H0.
  rewrite Ht in H0. apply Forall_app in H0 as [_ H0]. by apply list.Forall_cons in H0 as [H0 _].
Qed.

Lemma winv_step lsr w0 log w i : all_fit w0 -> winv w0 log w ->
  exists e w', step_at lsr i w = Some (e, w') /\ winv w0 (log ++ e) w'.
Proof.
  intros Hall Hw. unfold step_at. destruct (ctxs w !! i) as [[[g|] cs]|] eqn:Hx.
  - destruct (inside (Ctx (Some g) cs)) eqn:Hin.
    + destruct (winv_inside lsr _ _ _ _ _ _ Hw Hin Hx) as (g' & s' & -> & He & Hw'). rewrite He.
      eexists _, _. split; [done|]. by rewrite app_nil_r.
    + destruct g; try done. pose proof (pending_fits _ _ _ _ _ _ Hall Hw Hx) as Hf.
      destruct (winv_try lsr _ _ _ _ _ _ Hw Hf Hx) as (g' & s' & -> & Hw'). by eexists _, _.
  - destruct cs as [|k cs].
    + exists [], w. by rewrite app_nil_r.
    + eexists _, _. split; [done|]. rewrite app_nil_r. by apply winv_start.
  - exists [], w. by rewrite app_nil_r.
Qed.

Lemma winv_run lsr w0 sched : all_fit w0 -> forall log w, winv w0 log w ->
  exists e w', run lsr sched w = Some (e, w') /\ winv w0 (log ++ e) w'.
Proof.
  intros Hall. induction sched as [|i sched IH]; intros log w Hw; cbn [run].
  - exists [], w. by rewrite app_nil_r.
  - destruct (winv_step lsr w0 log w i Hall Hw) as (e & w1 & -> & H1). cbn.
    destruct (IH _ _ H1) as (e' & w' & -> & H2). cbn. exists (e ++ e'), w'. by rewrite app_assoc.
Qed.

(** A start: the lock free, no print begun, and all to come fit the buffer. *)
Record fresh_world (w0 : world) : Prop := {
  fw_free : print_lockLocked (sh w0) = 0;
  fw_quiet : Forall (fun x => at_stage x = None) (ctxs w0);
  fw_fit : all_fit w0;
  fw_wf : vga_wf (display (con (sh w0)));
}.

Lemma winv_fresh w0 : fresh_world w0 -> winv w0 [] w0.
Proof.
  intros [Hl Hq Ha Hwf]. apply wi_free; [| |done|by apply printed_nil].
  - intros i x Hx. exists x. split; [done|]. unfold pending. by rewrite (Forall_lookup_1 _ _ _ _ Hq Hx).
  - intros i x Hx Hin. unfold inside in Hin. by rewrite (Forall_lookup_1 _ _ _ _ Hq Hx) in Hin.
Qed.

(** ** Prints can be finished *)

(** What is left of a print from a stage on runs to its end. *)
Lemma alone_end lsr fuel k c0 g c : ready lsr fuel -> fits k -> stage_inv k c0 g c ->
  exists s', rtc (alone lsr) (Some g, Shared 1 c) (None, s').
Proof.
  intros Hr Hf Hg.
  assert (Hshow : forall s c, vga_wf (display c) -> exists s', rtc (alone lsr) (Some (Showing s), Shared 1 c) (None, s')).
  { intros s v Hwf. eexists. apply alone_show. by apply vga_puts_ok. }
  assert (Hpoll : forall s t c, vga_wf (display c) -> exists s', rtc (alone lsr) (Some (Polling s t), Shared 1 c) (None, s')).
  { intros s t c1 Hwf. destruct (com_puts_ok lsr fuel s c1 Hr) as (c2 & H2 & _ & _ & _ & Hd).
    destruct (Hshow t c2) as [s' Hs]; [by rewrite Hd|]. exists s'. etrans; [by apply (alone_send lsr fuel)|done]. }
  destruct g as [k'|k'|s t|ch s t|s|]; cbn [stage_inv] in Hg.
  - done.
  - destruct Hg as [-> Hp]. destruct Hf as (out & Ek & El).
    destruct (Hpoll (before_nul out) (before_nul out) c (pa_wf _ _ _ _ Hp)) as [s' Hs]. exists s'.
    eapply rtc_l; [|exact Hs]. eexists. split; [reflexivity|]. cbn [next]. by rewrite Ek, El.
  - destruct Hg as (_ & pre & _ & Hp). apply Hpoll, (pa_wf _ _ _ _ Hp).
  - destruct Hg as (_ & pre & _ & Hp).
    destruct (Hpoll s t (Console (Machine (phys (cpu c)) (cr3 (cpu c)) ((PORT, u8 (u8 ch)) :: ports (cpu c))) (reads c) (display c))
                (pa_wf _ _ _ _ Hp)) as [s' Hs].
    exists s'. eapply rtc_l; [|exact Hs]. by eexists.
  - destruct Hg as (pre & _ & Hp). apply Hshow, (pa_wf _ _ _ _ Hp).
  - exists (Shared 0 c). apply rtc_once. by eexists.
Qed.

Lemma alone_run lsr x y i cs w : rtc (alone lsr) x y -> ctxs w !! i = Some (Ctx x.1 cs) -> sh w = x.2 ->
  exists sched log, run lsr sched w = Some (log, World y.2 (<[i := Ctx y.1 cs]> (ctxs w))).
Proof.
  intros Hrun. revert w. induction Hrun as [x|x z y (g & Hg & Hn) _ IH]; intros w Hx Hs.
  - exists [], []. cbn [run]. rewrite list_insert_id by done. rewrite <- Hs. by destruct w.
  - set (w1 := World z.2 (<[i := Ctx z.1 cs]> (ctxs w))).
    assert (Hstep : step_at lsr i w = Some (takes i g z.1, w1)).
    { unfold step_at. rewrite Hx, Hg, Hs, Hn. done. }
    destruct (IH w1) as (sched & log & Hr).
    + cbn [w1 ctxs]. by rewrite list_lookup_insert_eq by (by apply lookup_lt_Some in Hx).
    + done.
    + exists (i :: sched), (takes i g z.1 ++ log). cbn [run]. rewrite Hstep. cbn. rewrite Hr. cbn.
      by rewrite list_insert_insert_eq.
Qed.

(** A print returns with the lock free. *)
Lemma next_None lsr g s s' : next lsr g s = Ret None s' -> print_lockLocked s' = 0.
Proof.
  destruct g as [k|k|[|ch t] text|ch t text|[|ch t]|]; cbn [next]; try done.
  all: try (intros H; apply bind_inv in H as (b & s1 & _ & H); by apply ret_inv in H as [H _]).
  - destruct (Print.kvformat _ _); try done. by destruct (_ <? _).
  - intros H. apply bind_inv in H as ([] & s1 & H1 & H). apply ret_inj in H1 as [_ <-]. by apply ret_inv in H as [_ <-].
Qed.

Definition total (l : list ctx) : nat := sum_list_with (fun x => length (pending x)) l.
Lemma total_insert l : forall i x x', l !! i = Some x ->
  (total (<[i := x']> l) + length (pending x) = total l + length (pending x'))%nat.
Proof.
  unfold total. induction l as [|y l IH]; intros [|i] x x' Hx; try done.
  - injection Hx as ->. cbn [insert list_insert sum_list_with]. lia.
  - specialize (IH i x x' Hx). change (<[S i:=x']> (y :: l)) with (y :: <[i:=x']> l). cbn [sum_list_with]. lia.
Qed.

Definition finished (x : ctx) : Prop := at_stage x = None /\ todo x = [].

(** With the lock free, either all is done or one more print can be. *)
Lemma one_more lsr fuel w0 log w : ready lsr fuel -> all_fit w0 -> winv w0 log w -> print_lockLocked (sh w) = 0 ->
  Forall finished (ctxs w) \/
  exists sched e s' i x cs, run lsr sched w = Some (e, World s' (<[i := Ctx None cs]> (ctxs w))) /\
    print_lockLocked s' = 0 /\ ctxs w !! i = Some x /\ length (pending x) = S (length cs).
Proof.
  intros Hr Hall Hw Hl. destruct (decide (Forall (fun x => pending x = []) (ctxs w))) as [Hd|Hd].
  { left. destruct Hw as [_ Hon _ _|]; [|congruence]. apply Forall_lookup. intros i x Hx.
    pose proof (Forall_lookup_1 _ _ _ _ Hd Hx) as Hp. destruct (inside x) eqn:Hin; [by specialize (Hon i x Hx Hin)|].
    unfold pending, inside in *. destruct x as [[[]|] cs]; try done. }
  right. apply not_Forall_Exists in Hd; [|intros x; apply _]. apply Exists_exists in Hd as (x & Hin & Hp).
  apply list_elem_of_In, list_elem_of_lookup in Hin as [i Hx].
  assert (Hprint : forall k cs log1 w1, winv w0 log1 w1 -> print_lockLocked (sh w1) = 0 -> fits k ->
    ctxs w1 !! i = Some (Ctx (Some (Locking k)) cs) ->
    exists sched e s', run lsr sched w1 = Some (e, World s' (<[i := Ctx None cs]> (ctxs w1))) /\ print_lockLocked s' = 0).
  { intros k cs log1 w1 Hw1 Hl1 (out & Ek & El) Hk. destruct Hw1 as [_ _ _ Hpr|]; [|congruence].
    apply Z.ltb_lt in El.
    destruct (kprintf_ok lsr fuel (c_fmt k) (c_vl k) out (con (sh w1)) Hr (pr_wf _ _ _ Hpr) Ek El) as (c' & Hk' & _).
    apply alone_kprintf in Hk'. destruct (alone_run lsr _ _ i cs w1 Hk' Hk) as (sched & e & Hrun).
    - cbn. destruct (sh w1). by cbn in Hl1; subst.
    - by exists sched, e, (Shared 0 c'). }
  destruct x as [[g|] cs].
  - destruct (inside (Ctx (Some g) cs)) eqn:Hi; [by destruct Hw as [_ Hon _ _|]; [specialize (Hon _ _ Hx Hi)|congruence]|].
    destruct g as [k| | | | |]; try done.
    destruct (Hprint k cs log w Hw Hl (pending_fits _ _ _ _ _ _ Hall Hw Hx) Hx) as (sched & e & s' & Hrun & Hl').
    by exists sched, e, s', i, (Ctx (Some (Locking k)) cs), cs.
  - destruct cs as [|k cs]; [by exfalso; apply Hp|]. pose proof (winv_start _ _ _ _ _ _ Hw Hx) as Hw1.
    set (w1 := World _ _) in Hw1.
    assert (Hx1 : ctxs w1 !! i = Some (Ctx (Some (Locking k)) cs)).
    { cbn [w1 ctxs]. by rewrite list_lookup_insert_eq by (by apply lookup_lt_Some in Hx). }
    destruct (Hprint k cs log w1 Hw1 Hl (pending_fits _ _ _ _ _ _ Hall Hw1 Hx1) Hx1) as (sched & e & s' & Hrun & Hl').
    exists (i :: sched), e, s', i, (Ctx None (k :: cs)), cs. split; [|done]. cbn [run]. unfold step_at. rewrite Hx. cbn.
    fold w1. rewrite Hrun. cbn. by rewrite list_insert_insert_eq.
Qed.

Lemma all_end_free lsr fuel w0 n : ready lsr fuel -> all_fit w0 ->
  forall log w, winv w0 log w -> print_lockLocked (sh w) = 0 -> total (ctxs w) = n ->
  exists sched e w', run lsr sched w = Some (e, w') /\ Forall finished (ctxs w').
Proof.
  intros Hr Hall. induction n as [n IH] using lt_wf_ind. intros log w Hw Hl Hn.
  destruct (one_more lsr fuel w0 log w Hr Hall Hw Hl) as [Hd|(s1 & e1 & s' & i & x & cs & Hrun & Hl' & Hx & Hlen)].
  { by exists [], [], w. }
  set (w1 := World s' (<[i := Ctx None cs]> (ctxs w))) in Hrun.
  destruct (winv_run lsr w0 s1 Hall log w Hw) as (e1' & w1' & Hrun' & Hw1). rewrite Hrun in Hrun'. injection Hrun' as <- <-.
  pose proof (total_insert (ctxs w) i x (Ctx None cs) Hx) as Ht. cbn [pending at_stage todo app] in Ht.
  destruct (IH (total (ctxs w1)) ltac:(cbn [w1 ctxs]; lia) _ w1 Hw1 Hl' eq_refl) as (s2 & e2 & w2 & H2 & Hd).
  exists (s1 ++ s2), (e1 ++ e2), w2. split; [|done]. rewrite run_app, Hrun. cbn. by rewrite H2.
Qed.

Lemma all_end lsr fuel w0 log w : ready lsr fuel -> all_fit w0 -> winv w0 log w ->
  exists sched e w', run lsr sched w = Some (e, w') /\ Forall finished (ctxs w').
Proof.
  intros Hr Hall Hw. pose proof Hw as [? ? Hl|h g cs k c1 pre _ _ Hl Hh _ Hf _ Hg]; [by apply (all_end_free lsr fuel w0 (total (ctxs w)) Hr Hall log w)|].
  destruct (alone_end lsr fuel k c1 g (con (sh w)) Hr Hf Hg) as [s' Ha].
  destruct (alone_run lsr _ _ h cs w Ha Hh) as (s1 & e1 & Hrun); [destruct (sh w); by cbn in Hl; subst|].
  destruct (winv_run lsr w0 s1 Hall log w Hw) as (e1' & w1 & Hrun' & Hw1). rewrite Hrun in Hrun'. injection Hrun' as <- <-.
  cbn [fst snd] in *.
  assert (Hl1 : print_lockLocked s' = 0).
  { apply rtc_inv_r in Ha as [[=]|(z & _ & g' & _ & Hn)]. by apply next_None in Hn. }
  destruct (all_end_free lsr fuel w0 _ Hr Hall _ _ Hw1 Hl1 eq_refl) as (s2 & e2 & w2 & H2 & Hd).
  exists (s1 ++ s2), (e1 ++ e2), w2. split; [|done]. rewrite run_app, Hrun. cbn. by rewrite H2.
Qed.

(** What the serial port got so far: the texts of prints that are done, and a
    part of the one under way. *)
Lemma winv_serial w0 log w : winv w0 log w -> exists whole cur sent,
  log = whole ++ cur /\ (length cur <= 1)%nat /\ sent `prefix_of` texts cur /\
  ports (cpu (con (sh w))) =
    rev (map (fun ch => (PORT, u8 ch)) (texts whole ++ sent)) ++ ports (cpu (con (sh w0))).
Proof.
  intros [_ _ _ Hp|h g cs k c1 pre _ _ _ _ El _ Hp Hg].
  { exists log, [], []. rewrite !app_nil_r. split; [done|]. split; [cbn; lia|]. split; [done|]. apply Hp. }
  assert (Hsent : exists sent t, sent `prefix_of` text_of k /\ partial c1 sent t (con (sh w))).
  { destruct g as [k'|k'|s t|ch s t|s|]; cbn [stage_inv] in Hg.
    - done.
    - destruct Hg as [_ Hg]. exists [], []. split; [apply prefix_nil|done].
    - destruct Hg as (-> & q & -> & Hg). exists q, []. split; [by apply prefix_app_r|done].
    - destruct Hg as (-> & q & -> & Hg). exists q, []. split; [by apply prefix_app_r|done].
    - destruct Hg as (q & _ & Hg). by exists (text_of k), q.
    - by exists (text_of k), (text_of k). }
  destruct Hsent as (sent & t & Hpre & [Hpo _ _ _ _]). exists pre, [(h, k)], sent.
  split; [done|]. split; [cbn; lia|]. split; [unfold texts; cbn; by rewrite app_nil_r|].
  by rewrite Hpo, (pr_ports _ _ _ Hp), map_app, rev_app_distr, app_assoc.
Qed.

(** C17: Whatever the order in which contexts take their steps, prints are
    whole: at most one context is between LOCK and UNLOCK, the serial port got
    the texts of the prints one after another, in the order in which they took
    the lock, at most the last one not yet complete, and each context's prints
    in its own order; when the lock is free the port and the screen are as
    after these prints alone.  No schedule gets stuck: all prints can still be
    made. *)
Theorem prints_are_whole lsr fuel w0 sched : ready lsr fuel -> fresh_world w0 ->
  exists log w, run lsr sched w0 = Some (log, w) /\
    (forall i j x y, ctxs w !! i = Some x -> ctxs w !! j = Some y -> inside x = true -> inside y = true -> i = j) /\
    (forall i x, ctxs w !! i = Some x -> exists x0, ctxs w0 !! i = Some x0 /\ todo x0 = by_ctx i log ++ pending x) /\
    (exists whole cur sent, log = whole ++ cur /\ (length cur <= 1)%nat /\ sent `prefix_of` texts cur /\
       ports (cpu (con (sh w))) =
         rev (map (fun ch => (PORT, u8 ch)) (texts whole ++ sent)) ++ ports (cpu (con (sh w0)))) /\
    (print_lockLocked (sh w) = 0 -> printed (con (sh w0)) (texts log) (con (sh w))) /\
    (exists sched' log' w', run lsr (sched ++ sched') w0 = Some (log', w') /\ Forall finished (ctxs w')).
Proof.
  intros Hr Hw0. pose proof (fw_fit _ Hw0) as Hall.
  destruct (winv_run lsr w0 sched Hall [] w0 (winv_fresh _ Hw0)) as (log & w & Hrun & Hw).
  exists log, w. split; [done|]. split; [|split; [by apply winv_order|split; [by apply winv_serial|split]]].
  - intros i j x y Hx Hy Hix Hiy. assert (Ho : exists h, only h (ctxs w)) by (destruct Hw; eauto).
    destruct Ho as [h Ho]. pose proof (Ho _ _ Hx Hix). pose proof (Ho _ _ Hy Hiy). congruence.
  - intros Hl. destruct Hw as [_ _ _ Hp|]; [done|congruence].
  - destruct (all_end lsr fuel w0 log w Hr Hall Hw) as (s' & e & w' & H' & Hd).
    exists s', (log ++ e), w'. split; [|done]. rewrite run_app, Hrun. cbn. by rewrite H'.
Qed.

(** Two contexts, one printing 1 and 2, the other 3, take turns. *)
Definition print_of (n : Z) : call := Call [Byte.x25; Byte.x64] [Print.Int n].
Definition w_two : world :=
  World (Shared 0 c_home) [Ctx None [print_of 1; print_of 2]; Ctx None [print_of 3]].
Definition turns_two : list nat := flat_map (fun _ => [0; 1]%nat) (seq 0 30).

Lemma print_of_fits n : match Print.kvformat (c_fmt (print_of n)) (c_vl (print_of n)) with
  Print.Done out => Z.of_nat (length out) <? Print.KERNEL_MAX_PRINT_SIZE | _ => false end = true -> fits (print_of n).
Proof. unfold fits. destruct (Print.kvformat _ _) as [out| |]; [|done..]. by exists out. Qed.

Lemma prints_are_whole_witness : exists log w,
  run third turns_two w_two = Some (log, w) /\ log = [(0, print_of 1); (1, print_of 3); (0, print_of 2)]%nat /\
  ports (cpu (con (sh w))) = [(1016, 50); (1016, 51); (1016, 49)] /\ printed c_home [49; 51; 50] (con (sh w)).
Proof.
  destruct (prints_are_whole third 3 w_two turns_two third_ready) as (log & w & Hr & _ & _ & _ & Hp & _).
  - split; [reflexivity|repeat constructor| |].
    + repeat constructor; apply print_of_fits; vm_compute; reflexivity.
    + split; [apply repeat_length|]. cbn [w_two sh con c_home display home screen col row]. lia.
  - exists log, w. split; [exact Hr|].
    assert (Hl : option_map (fun r => (fst r, ports (cpu (con (sh (snd r)))), print_lockLocked (sh (snd r)))) (run third turns_two w_two)
                 = Some ([(0, print_of 1); (1, print_of 3); (0, print_of 2)]%nat, [(1016, 50); (1016, 51); (1016, 49)], 0)).
    { vm_compute. reflexivity. }
    rewrite Hr in Hl. cbn [option_map fst snd] in Hl. injection Hl as Hlog Hports Hlock.
    split; [exact Hlog|]. split; [exact Hports|]. specialize (Hp Hlock). rewrite Hlog in Hp. exact Hp.
Defined.

End PrintLock.

(** ** Prints and the scheduler

    Idle prints in kernel mode with interrupts on, and the scheduler turns to
    it only when no other process is ready. *)

Module IdlePrint.
Import PrintLock.

(** The kernel, the lock with the devices, and where in kprintf the process
    of each slot is *)
Record mworld := MWorld { krn : kst; dev : shared; prints : gmap Z stage }.

(** What the kernel does for the process that runs, up to its yield: one of the
    three system calls, which turn scheduling off and on again (a send to an
    unknown pid leaves it off), or a turn of the message dispatcher. *)
Inductive kcall (sy : symbols) (k k' : kst) : Prop :=
| c_send regs k1 : send_body sy regs k = Ret true k1 -> on_pt proc_enable_scheduling k1 = Ret tt k' -> kcall sy k k'
| c_nobody regs : send_body sy regs k = Ret false k' -> kcall sy k k'
| c_recv regs k1 : recv_body sy regs k = Ret tt k1 -> on_pt proc_enable_scheduling k1 = Ret tt k' -> kcall sy k k'
| c_reply regs k1 : rply_body sy regs k = Ret tt k1 -> on_pt proc_enable_scheduling k1 = Ret tt k' -> kcall sy k k'
| c_dispatch inb msg spid r : msg_dispatch inb msg spid k = Ret r k' -> kcall sy k k'.

(** The current process prints, makes a system call or serves a request, the
    kernel's own memory not being written, or an interrupt comes and the
    scheduler runs. *)
Inductive mstep (sy : symbols) (own : Z -> Prop) (lsr : nat -> Z) : mworld -> mworld -> Prop :=
| m_begin k s st i c : current_proc (pt k) = Some i -> st !! i = None ->
    mstep sy own lsr (MWorld k s st) (MWorld k s (<[i := Locking c]> st))
| m_print k s st i g g' s' : current_proc (pt k) = Some i -> st !! i = Some g -> next lsr g s = Ret g' s' ->
    mstep sy own lsr (MWorld k s st) (MWorld k s' (match g' with Some g1 => <[i := g1]> st | None => delete i st end))
| m_switch k s st cpu r k' : proc_schedule_after_irq cpu k = Ret r k' -> mstep sy own lsr (MWorld k s st) (MWorld k' s st)
| m_call k s st i k' : current_proc (pt k) = Some i -> st !! i = None -> kcall sy k k' -> keeps_own sy own k k' ->
    mstep sy own lsr (MWorld k s st) (MWorld k' s st).

(** *** What a call does to the table

    The process that runs stays the same, and no other one that was ready is
    stopped. *)
Record called (t t' : ptable) : Prop := {
  ca_idle : idle t' = idle t;
  ca_current : current_proc t' = current_proc t;
  ca_ready : forall i p, current_proc t <> Some i -> zlookup (procs t) i = Some p -> has_pid p -> state p = PROC_READY ->
    exists p', zlookup (procs t') i = Some p' /\ has_pid p' /\ state p' = PROC_READY;
}.

Lemma called_refl t : called t t.
Proof. split; eauto. Qed.

Lemma called_trans t1 t2 t3 : called t1 t2 -> called t2 t3 -> called t1 t3.
Proof.
  intros [A1 A2 A3] [B1 B2 B3]. split; [congruence|congruence|]. intros i p Hi Hp Hh Hs.
  destruct (A3 i p Hi Hp Hh Hs) as (p' & Hp' & Hh' & Hs'). apply (B3 i p'); congruence.
Qed.

Lemma called_sched b t : called t (set_sched b t).
Proof. split; eauto. Qed.

(** Setting the state of the current process, or making any process ready *)
Lemma called_set i st t t' : state_set i st t t' -> current_proc t = Some i \/ st = PROC_READY -> called t t'.
Proof.
  intros (q & Hq & ->) Hor. split; [done|done|]. intros j p Hj Hp Hh Hs. cbn [procs set_procs].
  destruct (decide (i = j)) as [<-|Hne]; [|exists p; by rewrite zlookup_zupdate_ne].
  destruct Hor as [Hc| ->]; [done|]. exists (with_state PROC_READY q). rewrite Hp in Hq. injection Hq as <-.
  split; [by apply zlookup_zupdate_eq, (zlookup_Some_range _ _ _ Hp)|by split].
Qed.

(** *** The dispatcher's turn only turns scheduling off and on. *)
Definition calls {A} (m : M kst A) : Prop := pt_rel called m.

Lemma calls_bind {A B} (m : M kst A) (f : A -> M kst B) : calls m -> (forall a, calls (f a)) -> calls (m ≫= f).
Proof. intros Hm Hf k b k' H. step H a k1 H1. exact (called_trans _ _ _ (Hm _ _ _ H1) (Hf _ _ _ _ H)). Qed.
Lemma calls_keeps {A} (m : M kst A) : keeps_pt m -> calls m.
Proof. intros Hm k a k' H. rewrite (Hm _ _ _ H). apply called_refl. Qed.
Lemma calls_read {A} (m : M ptable A) : (forall t a t', m t = Ret a t' -> t' = t) -> calls (on_pt m).
Proof. intros Hm k a k' H%on_pt_inv. rewrite (Hm _ _ _ H). apply called_refl. Qed.

Lemma calls_deref o : calls (on_pt (deref o)).
Proof. apply calls_read. by intros t [i p] t' (_ & _ & ->)%deref_inv. Qed.
Lemma calls_find p : calls (on_pt (proc_find_by_pid p)).
Proof. apply calls_read. by intros t a t' [_ <-]%ret_inj. Qed.
Lemma calls_find_name rd nm : calls (on_pt (proc_find_by_name rd nm)).
Proof. apply calls_read. intros t a t' H. unfold proc_find_by_name in H. by apply find_name_state in H. Qed.
Lemma calls_sched b : calls (on_pt (modify (set_sched b))).
Proof. intros k a k' H. apply on_pt_inv, ret_inj in H as [_ <-]. apply called_sched. Qed.
Lemma calls_install which h pd : calls (install_irq which h pd).
Proof.
  intros k a k' H. unfold install_irq in H. destruct (irq_install_handler _ _ _ _); [|done].
  apply ret_inj in H as [_ <-]. apply called_refl.
Qed.

Create HintDb callsdb.
Hint Resolve calls_deref calls_find calls_find_name calls_sched calls_install : callsdb.
Hint Extern 2 (calls _) => apply calls_keeps; solve [auto with ptdb] : callsdb.
Ltac call_all := repeat (apply calls_bind; [solve [auto with callsdb]|intros ?]); auto with callsdb.

Lemma dispatch_called inb msg spid : calls (msg_dispatch inb msg spid).
Proof.
  unfold msg_dispatch, forward_interrupt, ld, proc_disable_scheduling, proc_enable_scheduling. call_all.
  apply calls_bind; [|intros ?; call_all].
  repeat (match goal with |- context [if ?b then _ else _] => destruct b end); call_all.
Qed.

(** *** The system calls, by what their bodies do to the states *)
Lemma send_called sy regs b k k' : send_body sy regs k = Ret b k' -> called (pt k) (pt k').
Proof.
  intros H. destruct b.
  - apply send_body_states in H as (msg & rpid & r & rp & _ & _ & _ & _ & H).
    apply (called_trans _ (sched_off (pt k))); [apply called_sched|].
    destruct (state rp); try (rewrite H; apply called_refl).
    + destruct H as (c & Hc & H). apply (called_set _ _ _ _ H). by left.
    + destruct H as (c & t1 & Hc & H1 & H2).
      apply (called_trans _ t1); [apply (called_set _ _ _ _ H1); by left|apply (called_set _ _ _ _ H2); by right].
  - unfold send_body in H. step H u k1 H1. apply ret_inj in H1 as [_ <-]. step H msg k2 H2. apply ld_inv in H2 as [_ ->].
    step H rpid k3 H3. apply ld_inv in H3 as [_ ->]. step H rcv k4 H4. apply find_by_pid_inv in H4 as [_ ->].
    destruct rcv as [r|]; [|apply ret_inv in H as [_ <-]; apply called_sched].
    exfalso. step H a k5 H5. step H a1 k6 H6. step H a2 k7 H7. step H a3 k8 H8. by apply ret_inv in H as [? _].
Qed.

Lemma recv_called sy regs k k' : recv_body sy regs k = Ret tt k' -> called (pt k) (pt k').
Proof.
  intros (c & first & Hc & _ & H)%recv_body_states. apply (called_trans _ (sched_off (pt k))); [apply called_sched|].
  destruct (first =? 0); [apply (called_set _ _ _ _ H); by left|rewrite H; apply called_refl].
Qed.

Lemma rply_called sy regs k k' : rply_body sy regs k = Ret tt k' -> called (pt k) (pt k').
Proof.
  intros (c & first & Hc & _ & H)%rply_body_states. apply (called_trans _ (sched_off (pt k))); [apply called_sched|].
  destruct (first =? 0); [rewrite H; apply called_refl|]. destruct H as (spid & r & _ & _ & H).
  apply (called_set _ _ _ _ H). by right.
Qed.

Lemma kcall_called sy k k' : kcall sy k k' -> called (pt k) (pt k').
Proof.
  intros [regs k1 H He|regs H|regs k1 H He|regs k1 H He|inb msg spid r H].
  - exact (called_trans _ _ _ (send_called _ _ _ _ _ H) (calls_sched true _ _ _ He)).
  - exact (send_called _ _ _ _ _ H).
  - exact (called_trans _ _ _ (recv_called _ _ _ _ H) (calls_sched true _ _ _ He)).
  - exact (called_trans _ _ _ (rply_called _ _ _ _ H) (calls_sched true _ _ _ He)).
  - exact (dispatch_called _ _ _ _ _ _ H).
Qed.

(** They keep the invariant of the table. *)
Lemma kcall_inv sy k k' : kcall sy k k' -> table_inv (pt k) -> table_inv (pt k').
Proof.
  assert (Hen : forall k1 u k2, on_pt proc_enable_scheduling k1 = Ret u k2 -> table_inv (pt k1) -> table_inv (pt k2)).
  { intros k1 u k2 H HI. by apply (pres_sched (fun _ => True) true _ _ _ H (conj HI I)). }
  intros [regs k1 H He|regs H|regs k1 H He|regs k1 H He|inb msg spid r H] HI.
  - apply (Hen _ _ _ He). by apply (pres_send_body (fun _ => True) sy regs _ _ _ H (conj HI I)).
  - by apply (pres_send_body (fun _ => True) sy regs _ _ _ H (conj HI I)).
  - apply (Hen _ _ _ He). by apply (pres_recv_body (fun _ => True) sy regs _ _ _ H (conj HI I)).
  - apply (Hen _ _ _ He). by apply (pres_rply_body (fun _ => True) sy regs _ _ _ H (conj HI I)).
  - by apply (pres_dispatch (fun _ => True) inb msg spid _ _ _ H (conj HI I)).
Qed.

(** Slot [c] holds a process that can run. *)
Definition live (c : Z) (t : ptable) : Prop :=
  exists p, zlookup (procs t) c = Some p /\ has_pid p /\
    (state p = PROC_READY \/ state p = PROC_RUNNING /\ current_proc t = Some c).

Lemma live_unblocked c t q cpu : table_inv t -> live c t -> zlookup (procs t) c = Some q ->
  proc_is_blocked (pid q) (set_procs (zupdate c (with_trapframe cpu q) (procs t)) t) =
    Ret false (set_procs (zupdate c (with_trapframe cpu q) (procs t)) t).
Proof.
  intros HI (p & Hp & Hh & Hs) Hq. rewrite Hp in Hq. injection Hq as <-.
  pose proof (zlookup_Some_range _ _ _ Hp) as Hc. set (t1 := set_procs _ t).
  assert (Hp1 : zlookup (procs t1) c = Some (with_trapframe cpu p)) by (by apply zlookup_zupdate_eq).
  assert (Hf : find_pid (procs t1) 0 (pid p) = Some c).
  { rewrite (find_pid_ext _ (procs t)) by (by apply (map_zupdate_same pid _ _ p)).
    rewrite (find_pid_holder (procs t) c p 0); [done|apply HI|done..|].
    destruct (slot_ok_at _ _ _ HI Hp) as [H1 _]. specialize (H1 Hh). apply u32_small.
    pose proof (list.length_filter has_pid (procs t)). pose proof (ti_count _ HI). pose proof (ti_size _ HI) as Hsz.
    unfold table_wf, NPROCS in Hsz. lia. }
  change (pid p) with (pid (with_trapframe cpu p)) in Hf |- *. rewrite (proc_is_blocked_Ret t1 c _ Hf Hp1).
  f_equal. cbn [with_trapframe state]. by destruct Hs as [->|[-> _]].
Qed.

(** What the scheduler makes of the process that was running *)
Lemma schedule_marks k c m q cpu k2 k4 k5 b u : table_inv (pt k) -> live c (pt k) -> zlookup (procs (pt k)) m = Some q ->
  pt k2 = set_procs (zupdate m (with_trapframe cpu q) (procs (pt k))) (pt k) ->
  proc_is_blocked (pid (with_trapframe cpu q)) (pt k2) = Ret b (pt k4) ->
  (if negb b then on_pt (update m (with_state PROC_READY)) else mret tt) k4 = Ret u k5 ->
  exists st, pt k5 = set_procs (zupdate m (with_state st (with_trapframe cpu q)) (procs (pt k))) (pt k) /\
    (m = c -> st = PROC_READY).
Proof.
  intros HI Hlive Hq Hpt2 H4 H5.
  assert (Hpt4 : pt k4 = pt k2).
  { clear -H4. unfold proc_is_blocked in H4. apply bind_inv in H4 as (o & t1 & H1 & H). apply ret_inj in H1 as [<- <-].
    apply bind_inv in H as ([j p] & t2 & H2 & H). apply deref_inv in H2 as (_ & _ & ->). by apply ret_inv in H as [_ <-]. }
  destruct b; cbn [negb] in H5.
  - apply ret_inv in H5 as [_ <-]. exists (state q). split; [by rewrite Hpt4, Hpt2; destruct q|]. intros ->.
    rewrite Hpt2 in H4. change (pid (with_trapframe cpu q)) with (pid q) in H4. by rewrite (live_unblocked c) in H4.
  - destruct u. apply on_pt_inv in H5. rewrite Hpt4, Hpt2 in H5. apply update_inv in H5 as (p & Hp & ->).
    cbn [procs set_procs] in Hp |- *. rewrite zlookup_zupdate_eq in Hp by (by apply zlookup_Some_range in Hq).
    injection Hp as <-. exists PROC_READY. split; [|done]. unfold set_procs. cbn [procs]. by rewrite zupdate_zupdate.
Qed.

(** As long as another process can run, the scheduler leaves it so and does not
    turn to idle. *)
Lemma schedule_skips_idle cpu k r k' c d : table_inv (pt k) -> idle (pt k) = Some d -> c <> d -> live c (pt k) ->
  current_proc (pt k) <> Some d -> proc_schedule_after_irq cpu k = Ret r k' ->
  idle (pt k') = Some d /\ live c (pt k') /\ current_proc (pt k') <> Some d.
Proof.
  intros HI Hid Hcd Hlive Hcur H. unfold proc_schedule_after_irq in H. step H t k1 H1.
  apply on_pt_inv, ret_inj in H1 as [<- Hpt1]. destruct (negb (scheduling_enabled (pt k))).
  { apply ret_inv in H as [_ <-]. by rewrite <- Hpt1. }
  destruct (current_proc (pt k)) as [m|] eqn:Hm; [|apply ret_inv in H as [_ <-]; by rewrite <- Hpt1, Hm].
  step H u2 k2 H2. destruct u2. apply on_pt_inv in H2. rewrite <- Hpt1 in H2. apply update_inv in H2 as (q & Hq & Hpt2).
  step H ip k3 H3. destruct ip as [m' q']. apply on_pt_inv, deref_inv in H3 as ([= <-] & Hq' & Hpt3).
  step H b k4 H4. apply on_pt_inv in H4. step H u5 k5 H5. step H found k6 H6. apply on_pt_inv in H6.
  assert (Hqq : q' = with_trapframe cpu q).
  { rewrite Hpt2 in Hq'. cbn [procs set_procs] in Hq'. rewrite zlookup_zupdate_eq in Hq' by (by apply zlookup_Some_range in Hq). congruence. }
  subst q'. cbn [snd] in *.
  assert (Hk5 : exists st, pt k5 = set_procs (zupdate m (with_state st (with_trapframe cpu q)) (procs (pt k))) (pt k) /\
    (m = c -> st = PROC_READY)).
  { rewrite Hpt3 in H4. exact (schedule_marks _ _ _ _ _ _ _ _ _ _ HI Hlive Hq Hpt2 H4 H5). }
  destruct Hk5 as (st & Hpt5 & Hst). clear H4 H5.
  assert (Hwf : table_wf (pt k5)) by (rewrite Hpt5; unfold table_wf; cbn [procs set_procs]; rewrite zupdate_length; apply HI).
  assert (Hready : exists p, zlookup (procs (pt k5)) c = Some p /\ has_pid p /\ state p = PROC_READY).
  { rewrite Hpt5. cbn [procs set_procs]. destruct Hlive as (p & Hp & Hh & Hs). destruct (decide (m = c)) as [<-|Hne].
    - rewrite Hst by done. eexists. split; [apply zlookup_zupdate_eq; by apply zlookup_Some_range in Hq|].
      split; [|done]. rewrite Hq in Hp. injection Hp as <-. exact Hh.
    - exists p. rewrite zlookup_zupdate_ne by done. split; [done|]. split; [done|]. destruct Hs as [|[_ Hs]]; [done|]. congruence. }
  destruct (find_next_cases PROC_READY (pt k5) Hwf) as [(j & Hj & [Hjd _] & _ & E)|[Hno _]].
  2:{ destruct Hready as (p & Hp & _ & Hs). destruct (Hno c); [pose proof (zlookup_Some_range _ _ _ Hp); unfold table_wf in Hwf; lia|].
      split; [|by exists p]. rewrite Hpt5. cbn [idle set_procs]. congruence. }
  rewrite E in H6. apply ret_inj in H6 as [<- Hpt6].
  assert (Hfin : forall cur, live c (set_current cur (pt k6))).
  { intros cur. rewrite <- Hpt6. destruct Hready as (p & Hp & Hh & Hs). exists p. split; [done|]. split; [done|]. by left. }
  assert (Hid6 : idle (pt k6) = Some d) by (rewrite <- Hpt6, Hpt5; done).
  rewrite Hpt5 in Hjd. cbn [idle set_procs] in Hjd.
  destruct (decide (Some j = Some m)) as [[= ->]|Hne].
  - apply ret_inv in H as [_ <-]. split; [done|]. assert (Hc6 : current_proc (pt k6) = Some m) by (rewrite <- Hpt6, Hpt5; done).
    split; [|congruence]. specialize (Hfin (Some m)). destruct (pt k6); cbn in *; by subst.
  - step H u7 k7 H7. apply on_pt_inv, ret_inj in H7 as [_ Hpt7]. step H nx k8 H8. destruct nx as [j' p'].
    apply on_pt_inv, deref_inv in H8 as (_ & _ & Hpt8). step H u9 k9 H9. apply ret_inv in H as [_ <-].
    assert (Hpt9 : pt k9 = pt k8).
    { unfold switch_to in H9. step H9 v k10 H10. apply ret_inj in H10 as [_ <-]. by apply on_mem_pt in H9. }
    rewrite Hpt9, Hpt8, <- Hpt7. split; [done|]. split; [apply Hfin|]. cbn [current_proc set_current]. congruence.
Qed.
(** Idle is caught in a print, and [c] waits for the lock. *)
Record caught (c d : Z) (k : call) (w : mworld) : Prop := {
  ch_inv : table_inv (pt (krn w));
  ch_idle : idle (pt (krn w)) = Some d;
  ch_other : c <> d;
  ch_live : live c (pt (krn w));
  ch_current : current_proc (pt (krn w)) <> Some d;
  ch_locked : print_lockLocked (dev w) = 1;
  ch_waits : prints w !! c = Some (Locking k);
  ch_rest : forall i g, prints w !! i = Some g -> i <> d -> exists k', g = Locking k';
}.

Lemma try_fails lsr k s g' s' : print_lockLocked s = 1 -> next lsr (Locking k) s = Ret g' s' ->
  g' = Some (Locking k) /\ s' = s.
Proof.
  intros Hl H. cbn [next] in H. apply bind_inv in H as (b & s1 & H1 & H). apply ret_inv in H as [<- <-].
  unfold LOCK_try, sync_bool_compare_and_swap in H1. rewrite Hl in H1. by apply ret_inj in H1 as [<- <-].
Qed.

(** Nothing gets printed, and no wait ends. *)
Definition halted_since (d : Z) (w w' : mworld) : Prop :=
  dev w' = dev w /\ prints w' !! d = prints w !! d /\
  forall i k, i <> d -> prints w !! i = Some (Locking k) -> prints w' !! i = Some (Locking k).

Lemma caught_step sy own lsr c d k w w' : caught c d k w -> mstep sy own lsr w w' -> caught c d k w' /\ halted_since d w w'.
Proof.
  intros [H1 H2 H3 H4 H5 H6 H7 H8] Hs.
  destruct Hs as [kr s st i q Hi Hn|kr s st i g g' s' Hi Hg Hn|kr s st cpu r k' Hk|kr s st i k' Hi Hn Hk _];
    cbn [krn dev prints] in *.
  - split.
    + split; cbn [krn dev prints]; try done; [by rewrite lookup_insert_ne by congruence|].
      intros j g Hj Hjd. destruct (decide (i = j)) as [->|]; [rewrite lookup_insert_eq in Hj; injection Hj as <-; eauto|].
      rewrite lookup_insert_ne in Hj by done. eauto.
    + split; [done|]. cbn [prints]. split; [by rewrite lookup_insert_ne by congruence|].
      intros j k0 _ Hj. by rewrite lookup_insert_ne by congruence.
  - assert (Hid : i <> d) by congruence. destruct (H8 i g Hg Hid) as [k' ->].
    destruct (try_fails lsr k' s g' s' H6 Hn) as [-> ->]. rewrite insert_id by done. split; by split.
  - destruct (schedule_skips_idle cpu kr r k' c d H1 H2 H3 H4 H5 Hk) as (K1 & K2 & K3). split; [|done].
    split; cbn [krn dev prints]; try done. by apply (pres_schedule (fun _ => True) _ _ _ _ Hk).
  - pose proof (kcall_inv sy kr k' Hk H1) as HI'. destruct (kcall_called sy kr k' Hk) as [C1 C2 C3].
    split; [|done]. split; cbn [krn dev prints]; try done; try congruence.
    assert (Hic : current_proc (pt kr) <> Some c) by congruence.
    destruct H4 as (p & Hp & Hh & [Hs|[_ Hs]]); [|done]. destruct (C3 c p Hic Hp Hh Hs) as (p' & ? & ? & ?).
    exists p'. split; [done|]. split; [done|]. by left.
Qed.

(** C18: When an interrupt catches idle in a print and another process then
    wants to print, printing is over: that process spins, so it is always
    ready, so the scheduler never turns to idle, which alone could give the
    lock back.  Whatever interrupts, system calls, requests and prints follow
    that leave the kernel's own memory alone, no port and no screen cell is written by a print again, and no print that waits
    for the lock gets it. *)
Theorem idle_print_hangs sy own lsr c d k w w' : caught c d k w -> rtc (mstep sy own lsr) w w' ->
  halted_since d w w' /\ current_proc (pt (krn w')) <> Some d /\ print_lockLocked (dev w') = 1.
Proof.
  intros Hc Hrun. cut (caught c d k w' /\ halted_since d w w').
  { intros [[] Hh]. done. }
  induction Hrun as [w|w w1 w2 Hs _ IH]; [done|].
  destruct (caught_step sy own lsr c d k w w1 Hc Hs) as [H1 (A1 & A2 & A3)].
  destruct (IH H1) as [H2 (B1 & B2 & B3)]. split; [done|]. split; [congruence|]. split; [congruence|]. auto.
Qed.

(** kernel/proc.c: what proc_idle prints, again and again *)
Definition proc_idle_print : call := Call [Byte.x69] [].

(** The kernel process waits for the lock that idle holds, and spins once. *)
Definition t_caught : ptable := set_current (Some 0) (set_sched true pt_early).
Definition k_caught : kst := set_pt t_caught k_early.
Definition w_caught : mworld :=
  MWorld k_caught (Shared 1 c_home) {[ 1 := Polling (text_of proc_idle_print) (text_of proc_idle_print); 0 := Locking (print_of 7) ]}.

Lemma idle_print_hangs_witness : caught 0 1 (print_of 7) w_caught /\ halted_since 1 w_caught w_caught.
Proof.
  assert (Hc : caught 0 1 (print_of 7) w_caught).
  { assert (HI : table_inv pt_early).
    { rewrite <- (proj2 early_evaluates). exact (reachable_inv k_syms k_own _ early_reachable). }
    split; cbn [w_caught krn dev prints].
    - change (pt k_caught) with t_caught. destruct HI as [? ? ? ? ? ? ?]. split; try assumption.
      intros i [= <-]. unfold NPROCS. lia.
    - reflexivity.
    - discriminate.
    - exists (default proc0 (zlookup (procs pt_early) 0)). split; [vm_compute; reflexivity|].
      split; [vm_compute; discriminate|]. left. vm_compute. reflexivity.
    - discriminate.
    - reflexivity.
    - reflexivity.
    - intros i g Hg Hi. rewrite lookup_insert_ne in Hg by congruence. apply lookup_singleton_Some in Hg as [_ <-]. eauto. }
  split; [exact Hc|].
  destruct (idle_print_hangs k_syms k_own third 0 1 (print_of 7) w_caught w_caught Hc) as (Hh & _).
  - apply rtc_once.
    pose proof (m_print k_syms k_own third k_caught (Shared 1 c_home) (prints w_caught) 0 (Locking (print_of 7))
                  (Some (Locking (print_of 7))) (Shared 1 c_home) eq_refl eq_refl eq_refl) as Hs.
    cbv iota in Hs. rewrite insert_id in Hs by reflexivity. exact Hs.
  - exact Hh.
Defined.

End IdlePrint.
