(* ===== verification/Panic.v ===== *)
(** * Panic.v: the handler of unexpected exceptions (kernel/idt.c,
      screen_of_death)

    It paints the screen, prints a banner, the registers saved in the
    interrupt frame and the name of the running process, explains a page
    fault, and hangs. *)

From stdpp Require Import strings.
From S2P Require Import Prelude Memory Machine Text Console Proc.
Import Print Vga Com.

Definition COLOR_RED : Z := 4.

Definition banner : list (list byte) := map (map byte.of_Z) [
  [32; 32; 32; 32; 32; 220; 223; 223; 220; 32; 219; 32; 32; 220; 223; 223; 219; 220; 220; 220; 220; 32; 32;
   220; 223; 223; 220; 223; 223; 223; 220; 32; 32; 220; 223; 223; 220; 32; 223; 220; 32; 32; 220; 223; 223;
   219; 220; 220; 220; 220; 32; 32; 220; 223; 223; 223; 223; 220; 32; 32; 32; 32; 32; 10];
  [32; 32; 32; 32; 219; 32; 32; 219; 32; 220; 223; 32; 222; 32; 32; 220; 223; 32; 32; 32; 222; 32; 219; 32;
   32; 32; 219; 32; 32; 32; 219; 32; 219; 32; 32; 219; 32; 219; 32; 219; 32; 222; 32; 32; 220; 223; 32; 32;
   32; 222; 32; 219; 32; 32; 32; 32; 219; 32; 32; 32; 32; 32; 32; 10];
  [32; 32; 32; 32; 222; 32; 32; 219; 223; 220; 32; 32; 32; 32; 219; 220; 220; 220; 220; 220; 32; 32; 222;
   32; 32; 219; 223; 223; 219; 223; 32; 32; 222; 32; 32; 219; 32; 32; 223; 219; 32; 32; 32; 219; 220; 220;
   220; 220; 220; 32; 32; 222; 32; 32; 32; 32; 219; 32; 32; 32; 32; 32; 32; 10];
  [32; 32; 32; 32; 32; 32; 219; 32; 32; 32; 219; 32; 32; 32; 219; 32; 32; 32; 32; 221; 32; 32; 32; 220;
   223; 32; 32; 32; 32; 219; 32; 32; 32; 32; 219; 32; 32; 32; 219; 32; 32; 32; 32; 219; 32; 32; 32; 32;
   221; 32; 32; 32; 32; 32; 32; 219; 32; 32; 32; 32; 32; 32; 32; 10];
  [32; 32; 32; 32; 220; 223; 32; 32; 32; 219; 32; 32; 32; 220; 223; 220; 220; 220; 220; 32; 32; 32; 219;
   32; 32; 32; 32; 32; 219; 32; 32; 32; 220; 223; 32; 32; 32; 219; 32; 32; 32; 32; 220; 223; 220; 220; 220;
   220; 32; 32; 32; 32; 32; 220; 223; 220; 220; 220; 220; 220; 220; 223; 32; 10];
  [32; 32; 32; 32; 219; 32; 32; 32; 32; 222; 32; 32; 32; 219; 32; 32; 32; 32; 222; 32; 32; 32; 222; 32; 32;
   32; 32; 32; 222; 32; 32; 32; 219; 32; 32; 32; 32; 222; 32; 32; 32; 32; 219; 32; 32; 32; 32; 222; 32; 32;
   32; 32; 32; 219; 32; 32; 32; 32; 32; 32; 32; 32; 32; 10];
  [32; 32; 32; 32; 222; 32; 32; 32; 32; 220; 223; 223; 220; 223; 223; 223; 220; 32; 32; 220; 223; 223; 219;
   220; 32; 32; 32; 220; 223; 223; 220; 32; 223; 220; 32; 32; 220; 223; 223; 219; 223; 220; 222; 32; 32;
   32; 220; 223; 220; 220; 220; 220; 32; 222; 32; 32; 32; 32; 32; 32; 32; 32; 32; 10];
  [32; 32; 32; 32; 32; 32; 32; 32; 219; 32; 32; 32; 219; 32; 32; 32; 219; 32; 222; 32; 220; 223; 32; 223;
   220; 32; 219; 32; 32; 219; 32; 219; 32; 219; 32; 219; 32; 32; 32; 219; 32; 32; 219; 32; 32; 219; 32;
   219; 32; 32; 32; 32; 221; 32; 32; 32; 32; 32; 32; 32; 32; 32; 32; 10];
  [32; 32; 32; 32; 32; 32; 32; 32; 222; 32; 32; 219; 223; 223; 223; 223; 32; 32; 32; 32; 219; 220; 220;
   220; 219; 32; 222; 32; 32; 219; 32; 32; 223; 219; 32; 222; 32; 32; 32; 219; 32; 32; 222; 32; 32; 222;
   32; 219; 32; 32; 32; 32; 32; 32; 32; 32; 32; 32; 32; 32; 32; 32; 32; 10];
  [32; 32; 32; 32; 32; 32; 32; 32; 32; 32; 32; 219; 32; 32; 32; 32; 32; 32; 32; 220; 223; 32; 32; 32; 219;
   32; 32; 32; 219; 32; 32; 32; 219; 32; 32; 32; 32; 32; 32; 219; 32; 32; 32; 32; 32; 32; 32; 219; 32; 32;
   32; 32; 32; 32; 32; 32; 32; 32; 32; 32; 32; 32; 32; 10];
  [32; 32; 32; 32; 32; 32; 32; 32; 32; 220; 223; 32; 32; 32; 32; 32; 32; 32; 219; 32; 32; 32; 220; 223; 32;
   32; 220; 223; 32; 32; 32; 219; 32; 32; 32; 32; 220; 223; 223; 223; 223; 223; 220; 32; 32; 32; 220; 223;
   220; 220; 220; 220; 223; 32; 32; 32; 32; 32; 32; 32; 32; 32; 32; 10];
  [32; 32; 32; 32; 32; 32; 32; 32; 219; 32; 32; 32; 32; 32; 32; 32; 32; 32; 222; 32; 32; 32; 222; 32; 32;
   32; 219; 32; 32; 32; 32; 222; 32; 32; 32; 219; 32; 32; 32; 32; 32; 32; 32; 219; 32; 219; 32; 32; 32; 32;
   32; 222; 32; 32; 32; 32; 32; 32; 32; 32; 32; 32; 32; 10];
  [32; 32; 32; 32; 32; 32; 32; 32; 222; 32; 32; 32; 32; 32; 32; 32; 32; 32; 32; 32; 32; 32; 32; 32; 32; 32;
   222; 32; 32; 32; 32; 32; 32; 32; 32; 222; 32; 32; 32; 32; 32; 32; 32; 222; 32; 222; 32; 32; 32; 32; 32;
   32; 32; 32; 32; 32; 32; 32; 32; 32; 32; 32; 32; 10]].

Definition isr_names : list string :=
  ["Division by Zero"; "Debug exception"; "Non maskable interrupt";
   "Breakpoint exception"; "Into detected overflow"; "Out of bounds";
   "Invalid opcode"; "No coprocessor"; "Double fault";
   "Coprocessor segment overrun"; "Bad TSS"; "Segment not present";
   "Stack fault"; "General protection fault"; "Page fault";
   "Unknown interrupt"; "Coprocessor fault"; "Alignment check exception";
   "Machine check exception"; "Reserved"; "Reserved"; "Reserved"; "Reserved"; "Reserved";
   "Reserved"; "Reserved"; "Reserved"; "Reserved"; "Reserved"; "Reserved";
   "Reserved"; "Reserved"; "Reserved"; "Reserved"; "Reserved"; "Reserved";
   "Reserved"; "Reserved"; "Reserved"; "Reserved"; "Reserved"]%string.

Definition newline : list byte := [Byte.x0a].

(** The bytes of a C string literal that ends in a newline *)
Definition line (s : string) : list byte := String.list_byte_of_string s ++ newline.

(** ** Painting *)

(** Every cell is written by printing a space, from wherever the cursor is. *)
Definition paint_red : M vga unit :=
  modify (fun v => Vga (screen v) (vga_make_color COLOR_WHITE COLOR_RED)) ≫= fun _ =>
  for_up (Z.to_nat HEIGHT) 0 (fun _ => for_up (Z.to_nat WIDTH) 0 (fun _ => vga_putch 32)) ≫= fun _ =>
  modify (fun v => Vga (Text (cells (screen v)) 1 1) (vga_color v)).

(** What a page fault's error code stands for; the last line is never
    reached. *)
Definition fault_line (err : Z) : list byte :=
  if err =? 0 then line "  supervisory process tried to read a non-present page entry"%string
  else if err =? 1 then line "  supervisory process tried to read a page and caused a protection fault"%string
  else if err =? 2 then line "  supervisory process tried to write to a non-present page entry"%string
  else if err =? 3 then line "  supervisory process tried to write to a page and caused a protection fault"%string
  else if err =? 4 then line "  user process tried to read a non-present page entry"%string
  else if err =? 5 then line "  user process tried to read a page and caused a protection fault"%string
  else if err =? 6 then line "  user process tried to write to a non-present page entry"%string
  else if err =? 7 then line "  user process tried to write to a page and caused a protection fault"%string
  else line "  unknown.."%string.

Section Death.
Variable lsr : nat -> Z.
Variable fuel : nat.

Fixpoint print_lines (l : list (list byte)) : M console unit :=
  match l with [] => mret tt | s :: l' => kprintf lsr fuel s [] ≫= fun _ => print_lines l' end.

(** struct intregs of include/kernel/common.h: a word of the frame at [regs] *)
Definition reg (regs i : Z) : M console Z := on_cpu (load32 (regs +w (4 * i))).
Definition gs : Z := 0.
Definition fs : Z := 1.
Definition es : Z := 2.
Definition ds : Z := 3.
Definition edi : Z := 4.
Definition esi : Z := 5.
Definition ebp : Z := 6.
Definition esp : Z := 7.
Definition ebx : Z := 8.
Definition edx : Z := 9.
Definition ecx : Z := 10.
Definition eax : Z := 11.
Definition num : Z := 12.
Definition err : Z := 13.
Definition eip : Z := 14.
Definition cs : Z := 15.
Definition ss : Z := 18.

(** [current]: the name of the current process, if there is one *)
Definition print_death (regs cr2 : Z) (current : option (list byte)) : M console unit :=
  on_vga paint_red ≫= fun _ =>
  print_lines banner ≫= fun _ =>
  kprintf lsr fuel (newline ++ newline) [] ≫= fun _ =>
  i ← reg regs eip; e ← reg regs err; n ← reg regs num;
  match isr_names !! Z.to_nat n with
  | None => undef
  | Some nm =>
      kprintf lsr fuel (line "  eip:%x err:%x num:%x %s"%string) [Int i; Int e; Int n; Str (String.list_byte_of_string nm)] ≫= fun _ =>
      a ← reg regs eax; b ← reg regs ebx; c ← reg regs ecx; d ← reg regs edx; f ← reg regs err;
      kprintf lsr fuel (line "  eax:%x ebx:%x ecx:%x edx:%x flg:%x"%string) [Int a; Int b; Int c; Int d; Int f] ≫= fun _ =>
      sp ← reg regs esp; bp ← reg regs ebp; si ← reg regs esi; di ← reg regs edi; c ← reg regs cs;
      kprintf lsr fuel (line "  esp:%x ebp:%x esi:%x edi:%x  cs:%x"%string) [Int sp; Int bp; Int si; Int di; Int c] ≫= fun _ =>
      d ← reg regs ds; e ← reg regs es; f ← reg regs fs; g ← reg regs gs; s ← reg regs ss;
      kprintf lsr fuel (line "   ds:%x  es:%x  fs:%x  gs:%x  ss:%x"%string) [Int d; Int e; Int f; Int g; Int s] ≫= fun _ =>
      kprintf lsr fuel newline [] ≫= fun _ =>
      match current with
      | None => undef
      | Some nm =>
          kprintf lsr fuel (line "  Process which was running: %s"%string) [Str nm] ≫= fun _ =>
          n ← reg regs num;
          if n =? 14 then
            e ← reg regs err;
            kprintf lsr fuel (fault_line (u8 (Z.land e 7))) [] ≫= fun _ =>
            kprintf lsr fuel (line "  memory address where fault occured: 0x%x"%string) [Int cr2]
          else mret tt
      end
  end.

(** [for (;;);] at the end: the machine stops here. *)
Definition screen_of_death (regs cr2 : Z) (current : option (list byte)) : M console unit :=
  print_death regs cr2 current ≫= fun _ => halt.
End Death.

(** ** What the painting leaves *)

Definition red_cell : Z := vga_make_char 32 79.

(** After [n] spaces from the console [t0] the screen scrolled [s] times: the
    cells that were written since are red, the lines that scrolled in are
    blank from there on. *)
Record painted (t0 : text) (n s : Z) (t : text) : Prop := {
  pa_wf : wf t;
  pa_pos : 80 * row t + col t + 80 * s = 80 * row t0 + col t0 + n;
  pa_scrolled : 0 <= s /\ (0 < s -> row t = 24);
  pa_col : 0 < n -> 0 < col t;
  pa_cells : forall i, 0 <= i < 2000 ->
    zlookup (cells t) i =
      if (80 * row t0 + col t0 <=? i + 80 * s) && (i + 80 * s <? 80 * row t0 + col t0 + n) then Some red_cell
      else if 2000 <=? i + 80 * s then Some 32 else zlookup (cells t0) (i + 80 * s);
}.

Lemma painted_start t : wf t -> painted t 0 0 t.
Proof.
  intros Hwf. split; try done; try lia. intros i Hi. rewrite Z.mul_0_r, Z.add_0_r.
  destruct (Z.leb_spec (80 * row t + col t) i), (Z.ltb_spec i (80 * row t + col t + 0)),
    (Z.leb_spec 2000 i); try lia; done.
Qed.

Lemma painted_step t0 n s t : wf t0 -> 0 <= n -> painted t0 n s t ->
  exists s', painted t0 (n + 1) s' (typed 32 red_cell 32 t).
Proof.
  intros (_ & Hc0 & Hr0) Hn [Hwf Hpos [Hs Hrow] _ Hcells]. pose proof (typed_wf 32 red_cell 32 t Hwf) as Hwf'.
  destruct Hwf as (Hl & Hc & Hr). revert Hwf'. unfold typed. change (32 =? 10) with false. rewrite orb_false_r. cbv iota.
  destruct (Z.leb_spec 80 (col t)) as [H80|H80]; [destruct (Z.eqb_spec (row t + 1) 25) as [H25|H25]
    |destruct (Z.eqb_spec (row t) 25); [lia|]]; intros Hwf'; [exists (s + 1)|exists s|exists s].
  all: split; cbn [row col cells]; [done|lia|split; [lia|intros; lia]|lia|]; intros i Hi.
  - destruct (decide (i = 1920)) as [->|Hne].
    { rewrite zlookup_zupdate_eq by (rewrite scrolled_length; lia).
      rewrite (proj2 (Z.leb_le _ _)), (proj2 (Z.ltb_lt _ _)) by lia. done. }
    rewrite zlookup_zupdate_ne by lia. rewrite scrolled_lookup by done. destruct (Z.ltb_spec i 1920).
    + rewrite Hcells by lia. replace (i + 80 + 80 * s) with (i + 80 * (s + 1)) by lia.
      destruct (Z.leb_spec (80 * row t0 + col t0) (i + 80 * (s + 1))), (Z.ltb_spec (i + 80 * (s + 1)) (80 * row t0 + col t0 + n)),
        (Z.ltb_spec (i + 80 * (s + 1)) (80 * row t0 + col t0 + (n + 1))); cbn [andb]; try done; lia.
    + destruct (Z.ltb_spec (i + 80 * (s + 1)) (80 * row t0 + col t0 + (n + 1))); [lia|]. rewrite andb_false_r.
      destruct (Z.leb_spec 2000 (i + 80 * (s + 1))); [done|lia].
  - destruct (decide (i = (row t + 1) * 80)) as [->|Hne].
    { rewrite Z.add_0_r, zlookup_zupdate_eq by lia. rewrite (proj2 (Z.leb_le _ _)), (proj2 (Z.ltb_lt _ _)) by lia. done. }
    rewrite zlookup_zupdate_ne by lia. rewrite Hcells by lia.
    destruct (Z.leb_spec (80 * row t0 + col t0) (i + 80 * s)), (Z.ltb_spec (i + 80 * s) (80 * row t0 + col t0 + n)),
      (Z.ltb_spec (i + 80 * s) (80 * row t0 + col t0 + (n + 1))); cbn [andb]; try done; lia.
  - destruct (decide (i = row t * 80 + col t)) as [->|Hne].
    { rewrite zlookup_zupdate_eq by lia. rewrite (proj2 (Z.leb_le _ _)), (proj2 (Z.ltb_lt _ _)) by lia. done. }
    rewrite zlookup_zupdate_ne by lia. rewrite Hcells by lia.
    destruct (Z.leb_spec (80 * row t0 + col t0) (i + 80 * s)), (Z.ltb_spec (i + 80 * s) (80 * row t0 + col t0 + n)),
      (Z.ltb_spec (i + 80 * s) (80 * row t0 + col t0 + (n + 1))); cbn [andb]; try done; lia.
Qed.

(** Painting the screen for screen_of_death colours every line but the
    last one whole.  The last line is coloured up to the column the cursor
    was in before, and stays black after it: the spaces are printed from the
    cursor on, and scrolling fills in black cells. *)
Theorem paint_red_leaves v : vga_wf v ->
  let c := if col (screen v) =? 0 then 80 else col (screen v) in
  exists l, paint_red v = Ret tt (Vga (Text l 1 1) 79) /\ length l = 2000%nat /\
    forall i, 0 <= i < 2000 -> zlookup l i = Some (if i <? 1920 + c then red_cell else 32).
Proof.
  intros Hwf c. set (t0 := screen v).
  set (I := fun q (u : vga) => vga_color u = 79 /\ exists s, painted t0 q s (screen u)).
  destruct (rows_inv I (Z.to_nat HEIGHT) 0 (fun _ _ => vga_putch 32) (Vga t0 79)) as (u & Hr & Hcol & s & Hp).
  { split; [done|]. exists 0. by apply painted_start. }
  { intros y x u Hy Hx [Hu (s & Hp)]. destruct (vga_putch_ok u 32 (pa_wf _ _ _ _ Hp)) as [He _].
    exists (shows u 32). split; [done|]. split; [done|]. unfold shows. rewrite Hu. cbn [screen].
    apply (painted_step t0 (y * 80 + x) s); [done|lia|done]. }
  change ((0 + Z.of_nat (Z.to_nat HEIGHT)) * 80) with 2000 in Hp.
  exists (cells (screen u)). split.
  { unfold paint_red. rewrite (bind_Ret (modify _) _ v tt (Vga t0 79)) by done.
    rewrite (bind_Ret _ _ _ _ _ Hr). unfold modify. by rewrite Hcol. }
  destruct Hp as [(Hl & Hc & Hrw) Hpos [Hs Hrow] Hcp Hcells]. split; [done|]. intros i Hi. rewrite Hcells by done.
  destruct Hwf as (_ & Hc0 & Hr0). fold t0 in Hc0, Hr0.
  assert (Hfin : col (screen u) = c /\ 80 * row t0 + col t0 <= 80 * s /\ row (screen u) = 24).
  { unfold c. fold t0. destruct (Z.eqb_spec (col t0) 0), (decide (s = 0)); lia. }
  destruct Hfin as (Hcc & Hqs & Hr24).
  destruct (Z.leb_spec (80 * row t0 + col t0) (i + 80 * s)); [|lia]. cbn [andb].
  destruct (Z.ltb_spec (i + 80 * s) (80 * row t0 + col t0 + 2000)), (Z.ltb_spec i (1920 + c)); try lia; try done.
  destruct (Z.leb_spec 2000 (i + 80 * s)); [done|lia].
Qed.

(** Halfway down a screen, in the middle of a line *)
Definition v_mid : vga := Vga (Text (repeat 1857 2000) 30 12) 7.

Lemma paint_red_leaves_witness : exists l, paint_red v_mid = Ret tt (Vga (Text l 1 1) 79) /\
  zlookup l 1949 = Some red_cell /\ zlookup l 1950 = Some 32.
Proof.
  destruct (paint_red_leaves v_mid) as (l & H & _ & Hl).
  - split; [apply repeat_length|]. cbn [v_mid screen col row]. lia.
  - exists l. split; [exact H|]. split; [exact (Hl 1949 ltac:(lia))|exact (Hl 1950 ltac:(lia))].
Defined.

(** ** A page fault

    The frame of registers is at 0x28000, the i-th word holds 0x1000 + i; the
    handler is called for vector 14 with error code 6, a write by a user
    process. *)

Definition fault_frame : list byte :=
  concat (map (fun i => le_split 4 (if i =? num then 14 else if i =? err then 6 else 4096 + i)) (seqZ 0 19)).
Definition c_fault : console :=
  Console (Machine (pwrite 163840 fault_frame k_phys) 1048576 []) 0 home.
Definition always (_ : nat) : Z := 32.

(** What went out of the serial port after the banner *)
Definition report (c : console) : list byte :=
  drop (length (concat banner)) (map (fun w => byte.of_Z w.2) (rev (ports (cpu c)))).

Definition kernel_name : list byte := String.list_byte_of_string "kernel"%string.

Lemma page_fault_report : exists u c, print_death always 1 163840 3735928559 (Some kernel_name) c_fault = Ret u c /\
  report c = newline ++ newline ++
    line "  eip:0000100e err:00000006 num:0000000e Page fault"%string ++
    line "  eax:0000100b ebx:00001008 ecx:0000100a edx:00001009 flg:00000006"%string ++
    line "  esp:00001007 ebp:00001006 esi:00001005 edi:00001004  cs:0000100f"%string ++
    line "   ds:00001003  es:00001002  fs:00001001  gs:00001000  ss:00001012"%string ++ newline ++
    line "  Process which was running: kernel"%string ++
    line "  user process tried to write to a non-present page entry"%string ++
    line "  memory address where fault occured: 0xdeadbeef"%string.
Proof. apply (run_result (fun _ c => report c)). vm_compute. reflexivity. Qed.

(** Before there is a current process, the handler itself goes wrong. *)
Lemma early_fault_undefined : screen_of_death always 1 163840 0 None c_fault = Undef.
Proof. vm_compute. reflexivity. Qed.
