(* ===== verification/User.v ===== *)
(** * User.v: the screen driver and the input and output calls of the C
      library (drivers/screen.c, lib/libc/puts.c, putc.c, getc.c, msg/io.h)

    The driver owns the video memory the kernel mapped for it and serves one
    message at a time; the library builds those messages in a struct on its
    stack, which it does not clear first. *)

From S2P Require Import Prelude Memory Machine Text Console.
Import Com.

Definition MSG_IO_BUFSIZE : Z := 64.
Definition MSG_GETC : Z := 0.
Definition MSG_PUTS : Z := 1.
Definition MSG_PUTC : Z := 2.

(** struct msg_io; [chars] has 64 bytes *)
Record msg_io := MsgIo { io_type : Z; one_char : byte; chars : list byte }.

Module Libc.

(** [for (int i = 0; *s && i < MSG_IO_BUFSIZE; s++) msg.chars[i++] = *s] *)
Fixpoint fill_chars (i : Z) (s buf : list byte) : list byte :=
  match s with
  | [] => buf
  | c :: s' => if i <? MSG_IO_BUFSIZE then fill_chars (i + 1) s' (zupdate i c buf) else buf
  end.

(** The message of puts; [stack] is what the struct held before. *)
Definition puts_msg (stack : msg_io) (s : list byte) : msg_io :=
  MsgIo MSG_PUTS (one_char stack) (fill_chars 0 s (chars stack)).
Definition putc_msg (stack : msg_io) (c : byte) : msg_io := MsgIo MSG_PUTC c (chars stack).
Definition getc_msg (stack : msg_io) : msg_io := MsgIo MSG_GETC (one_char stack) (chars stack).

End Libc.

Module Screen.

(** video_memory with column and row, and the colours *)
Record scr := Scr { stext : text; fg_color : Z; bg_color : Z }.

Definition on_stext {A} : M text A -> M scr A := zoom stext (fun t s => Scr t (fg_color s) (bg_color s)).

Definition scrollup : M text unit := on_cells (scroll 0).

(** [ch] is a signed char: it is widened to an int before the or. *)
Definition cell_of (ch : Z) (s : scr) : Z :=
  u16 (Z.lor (Z.shiftl (Z.lor (Z.shiftl (bg_color s) 4) (fg_color s)) 8) ch).

Definition put_char_at (ch x y : Z) (s : scr) : M text unit :=
  on_cells (set_cell (u32 (y * WIDTH + x)) (cell_of ch s)).

(** The cursor is a pair of ints. *)
Definition put_char (ch : Z) : M scr unit := fun s =>
  on_stext (put_with s32 scrollup (fun x y => put_char_at ch x y s) ch) s.

Definition clear : M scr unit := fun s =>
  on_stext (for_up (Z.to_nat HEIGHT) 0 (fun y => for_up (Z.to_nat WIDTH) 0 (fun x => put_char_at 0 x y s))) s.

(** The start of main, once video memory is mapped. *)
Definition screen_init : M scr unit :=
  modify (fun s => Scr (Text (cells (stext s)) 0 0) 11 0) ≫= fun _ => clear.

(** The loop of MSG_PUTS, over the bytes of [msg.chars]; after the last one
    it stops whatever the byte behind the buffer is. *)
Fixpoint print_chars (l : list byte) : M scr unit :=
  match l with
  | [] => mret tt
  | b :: l' => if byte.unsigned b =? 0 then mret tt else put_char (schar b) ≫= fun _ => print_chars l'
  end.

(** One turn of main's loop: the reply.  MSG_PUTS has no break. *)
Definition serve (m : msg_io) : M scr Z :=
  (if io_type m =? MSG_PUTS then
     print_chars (chars m) ≫= fun _ => put_char (schar (one_char m))
   else if io_type m =? MSG_PUTC then put_char (schar (one_char m))
   else mret tt) ≫= fun _ =>
  mret 297451025. (* 0x11babe11 *)

(** ** What is on the screen *)

Definition scr_wf (s : scr) : Prop := wf (stext s).
Definition shows (s : scr) (ch : Z) : scr :=
  Scr (typed 0 (cell_of ch s) ch (stext s)) (fg_color s) (bg_color s).

Lemma put_char_at_ok ch s x y t : 0 <= x < 80 -> 0 <= y < 25 -> length (cells t) = 2000%nat ->
  put_char_at ch x y s t = Ret tt (set_cells (zupdate (y * 80 + x) (cell_of ch s) (cells t)) t).
Proof.
  intros Hx Hy Hl. unfold put_char_at, WIDTH. rewrite u32_small by lia. apply on_cells_Ret, set_cell_Ret. lia.
Qed.

Lemma put_char_ok s ch : scr_wf s -> put_char ch s = Ret tt (shows s ch) /\ scr_wf (shows s ch).
Proof.
  intros Hwf. split; [|by apply typed_wf]. unfold put_char, on_stext, zoom.
  rewrite (put_with_ok s32 0 scrollup _ (cell_of ch s)); [done|done| | |].
  - intros z Hz. unfold s32. rewrite Z.mod_small by lia. lia.
  - intros t Ht. by apply on_cells_Ret, scroll_ok.
  - intros x y t. apply put_char_at_ok.
Qed.

Lemma print_chars_ok l s : scr_wf s ->
  print_chars l s = Ret tt (foldl shows s (before_nul l)) /\ scr_wf (foldl shows s (before_nul l)).
Proof.
  revert s. induction l as [|b l IH]; intros s Hwf; cbn [print_chars before_nul]; [done|].
  destruct (byte.unsigned b =? 0); [done|]. cbn [foldl].
  destruct (put_char_ok s (schar b) Hwf) as [Hp Hwf']. rewrite (bind_Ret _ _ _ _ _ Hp). by apply IH.
Qed.

(** The characters a message puts on the screen. *)
Definition shown (m : msg_io) : list Z :=
  if io_type m =? MSG_PUTS then before_nul (chars m) ++ [schar (one_char m)]
  else if io_type m =? MSG_PUTC then [schar (one_char m)] else [].

Lemma serve_ok m s : scr_wf s ->
  serve m s = Ret 297451025 (foldl shows s (shown m)) /\ scr_wf (foldl shows s (shown m)).
Proof.
  intros Hwf. unfold serve, shown. destruct (io_type m =? MSG_PUTS).
  - destruct (print_chars_ok (chars m) s Hwf) as [Hp Hwf1].
    destruct (put_char_ok _ (schar (one_char m)) Hwf1) as [Hc Hwf2]. rewrite foldl_app. cbn [foldl].
    split; [|done]. unfold mbind at 1, M_bind at 1. rewrite (bind_Ret _ _ _ _ _ Hp), Hc. done.
  - destruct (io_type m =? MSG_PUTC); [|done]. destruct (put_char_ok s (schar (one_char m)) Hwf) as [Hc Hwf2].
    cbn [foldl]. split; [|done]. by rewrite (bind_Ret _ _ _ _ _ Hc).
Qed.

Lemma fill_chars_eq s : forall i buf, 0 <= i -> i + Z.of_nat (length s) <= 64 -> Z.of_nat (length buf) = 64 ->
  Libc.fill_chars i s buf = take (Z.to_nat i) buf ++ s ++ drop (Z.to_nat i + length s) buf.
Proof.
  induction s as [|c s IH]; intros i buf Hi Hs Hb; cbn [Libc.fill_chars length].
  - cbn [app]. by rewrite Nat.add_0_r, take_drop.
  - cbn [length] in Hs. unfold MSG_IO_BUFSIZE. destruct (Z.ltb_spec i 64); [|lia].
    rewrite IH by (rewrite ?zupdate_length; lia).
    unfold zupdate. destruct (Z.ltb_spec i 0); [lia|]. rewrite Z2Nat.inj_add by lia. change (Z.to_nat 1) with 1%nat.
    rewrite Nat.add_1_r. rewrite (take_S_r _ _ c) by (apply list_lookup_insert_eq; lia).
    rewrite take_insert_ge by lia. rewrite drop_insert_lt by lia. rewrite <- !app_assoc. cbn [app].
    do 4 f_equal. lia.
Qed.

Lemma before_nul_app a b : Forall (fun x => byte.unsigned x <> 0) a -> before_nul (a ++ b) = map schar a ++ before_nul b.
Proof.
  induction 1 as [|x a Hx _ IH]; cbn [app before_nul map]; [done|].
  destruct (Z.eqb_spec (byte.unsigned x) 0); [done|]. by rewrite IH.
Qed.

Lemma shown_puts stack s : Z.of_nat (length (chars stack)) = 64 ->
  Forall (fun b => byte.unsigned b <> 0) s -> Z.of_nat (length s) <= 64 ->
  shown (Libc.puts_msg stack s) =
    map schar s ++ before_nul (drop (length s) (chars stack)) ++ [schar (one_char stack)].
Proof.
  intros Hbuf Hs Hlen. unfold shown, Libc.puts_msg. cbn [io_type chars one_char].
  rewrite fill_chars_eq by lia. change (Z.to_nat 0) with 0%nat. rewrite take_0. cbn [app Nat.add].
  change (MSG_PUTS =? MSG_PUTS) with true. cbv iota. by rewrite before_nul_app, <- app_assoc.
Qed.

(** A blank screen *)
Definition scr0 : scr := Scr (Text (repeat 0 2000) 0 0) 11 0.

(** A character from 128 up loses the colours: the cell's attribute byte is
    0xff whatever they are. *)
Lemma high_char_attribute ch s : -128 <= ch < 0 -> Z.shiftr (cell_of ch s) 8 = 255.
Proof.
  intros Hch. unfold cell_of, u16. apply Z.bits_inj'. intros n Hn.
  rewrite Z.shiftr_spec by done. change 65536 with (2 ^ 16).
  destruct (Z.ltb_spec n 8) as [Hl|Hl].
  - rewrite Z.mod_pow2_bits_low by lia. rewrite Z.lor_spec.
    rewrite (Z.bits_above_log2_neg ch) by (pose proof (Z.log2_le_mono (Z.pred (- ch)) 127); change (Z.log2 127) with 6 in *; lia).
    rewrite orb_true_r. change 255 with (Z.ones 8). rewrite Z.ones_spec_low by lia. done.
  - rewrite Z.mod_pow2_bits_high by lia. change 255 with (Z.ones 8). by rewrite Z.ones_spec_high by lia.
Qed.

End Screen.
