(* ===== verification/Devices.v ===== *)
(** * Devices.v: timer, keyboard and PCI (kernel/timer.c, kernel/kbd.c,
      servers/kbd.c, kernel/pci.c)

    What the devices answer is a parameter: the reads of the keyboard's ports
    by their number, the PCI configuration space as a function of the address
    written to the command port. *)

From S2P Require Import Prelude Memory Machine Pm Vm Heap Queue Desc Proc.

(** include/kernel/x86.h: outl *)
Definition outl (port data : Z) : M machine unit :=
  modify (fun m => Machine (phys m) (cr3 m) ((u16 port, u32 data) :: ports m)).

Module Timer.

(** The kernel with timer_ticks. *)
Record tst := Tst { kern : kst; timer_ticks : Z }.
Definition on_kern {A} : M kst A -> M tst A := zoom kern (fun k t => Tst k (timer_ticks t)).

Definition timer_handler (regs : Z) : M tst Z :=
  modify (fun t => Tst (kern t) (s32 (timer_ticks t + 1))) ≫= fun _ =>
  on_kern (proc_schedule_after_irq regs).

(** Dividing by zero is undefined; C's division truncates. *)
Definition timer_set_phase (hz : Z) : M machine unit :=
  if hz =? 0 then undef
  else
    let divisor := Z.quot 1193180 hz in
    outb 67 54 ≫= fun _ => outb 64 (Z.land divisor 255) ≫= fun _ => outb 64 (Z.shiftr divisor 8).

Section Wait.
(** What happens between the sti and the cli: an interrupt, and whatever the
    kernel does until it comes back here. *)
Variable wake : M tst unit.

(** [while (timer_ticks < eticks)]; the comparison is of unsigned numbers. *)
Fixpoint wait_until (fuel : nat) (eticks : Z) : M tst unit :=
  match fuel with
  | O => nofuel
  | S fuel' =>
      t ← get;
      if u32 (timer_ticks t) <? eticks then wake ≫= fun _ => wait_until fuel' eticks else mret tt
  end.
(** The sum of two ints overflows: undefined. *)
Definition timer_wait (fuel : nat) (ticks : Z) : M tst unit :=
  t ← get;
  let e := timer_ticks t + ticks in
  if (-2147483648 <=? e) && (e <=? 2147483647) then wait_until fuel (u32 e) else undef.

(** When every interrupt is one tick, timer_wait ends after that many. *)
Lemma timer_wait_ends fuel ticks t :
  (forall t, exists t', wake t = Ret tt t' /\ timer_ticks t' = s32 (timer_ticks t + 1)) ->
  0 <= timer_ticks t -> 0 <= ticks < Z.of_nat fuel -> timer_ticks t + ticks < 2147483648 ->
  exists t', timer_wait fuel ticks t = Ret tt t' /\ timer_ticks t' = timer_ticks t + ticks.
Proof.
  intros Hw Ht Hk Hs. unfold timer_wait. rewrite (bind_Ret get _ t t t) by done.
  destruct (Z.leb_spec (-2147483648) (timer_ticks t + ticks)); [|lia].
  destruct (Z.leb_spec (timer_ticks t + ticks) 2147483647); [|lia]. cbn [andb].
  remember (timer_ticks t + ticks) as e eqn:He. assert (Hr : e - timer_ticks t < Z.of_nat fuel) by lia.
  assert (Hle : 0 <= timer_ticks t <= e) by lia. rewrite (u32_small e) by lia.
  clear ticks Hk He Ht. revert t Hle Hr.
  induction fuel as [|fuel IH]; intros t Hle Hr; [lia|]. cbn [wait_until]. rewrite (bind_Ret get _ t t t) by done.
  rewrite u32_small by lia. destruct (Z.ltb_spec (timer_ticks t) e).
  - destruct (Hw t) as (t1 & Hwk & Ht1). rewrite (bind_Ret _ _ _ _ _ Hwk).
    assert (Hs1 : timer_ticks t1 = timer_ticks t + 1) by (rewrite Ht1; unfold s32; rewrite Z.mod_small; lia).
    destruct (IH t1) as (t' & -> & Ht'); [lia|lia|]. eauto.
  - exists t. split; [done|lia].
Qed.
End Wait.

(** [h] is the address of timer_handler. *)
Definition timer_install (h : Z) (irqs : list irq_handler_entry) : M machine (option (list irq_handler_entry)) :=
  timer_set_phase 1000 ≫= fun _ => mret (irq_install_handler 0 h 0 irqs).
Definition timer_uninstall (irqs : list irq_handler_entry) : option (list irq_handler_entry) :=
  irq_uninstall_handler 0 irqs.

(** The two bytes sent are the divisor, from 19 Hz up (below it does not fit
    16 bits). *)
Lemma timer_divisor hz m : 19 <= hz <= 1193180 -> exists lo hi m',
  timer_set_phase hz m = Ret tt m' /\ ports m' = (64, hi) :: (64, lo) :: (67, 54) :: ports m /\
  lo + 256 * hi = 1193180 / hz.
Proof.
  intros Hz. unfold timer_set_phase. destruct (Z.eqb_spec hz 0); [lia|].
  rewrite Z.quot_div_nonneg by lia. set (d := 1193180 / hz).
  assert (Hd : 0 <= d < 65536).
  { unfold d. split; [apply Z.div_pos; lia|]. apply Z.div_lt_upper_bound; lia. }
  exists (d mod 256), (d / 256), (Machine (phys m) (cr3 m) ((64, d / 256) :: (64, d mod 256) :: (67, 54) :: ports m)).
  split; [|split; [done|]].
  - unfold outb, modify, mbind, M_bind. cbn [phys cr3 ports]. change 255 with (Z.ones 8).
    rewrite Z.land_ones, Z.shiftr_div_pow2 by lia. change (2 ^ 8) with 256. unfold u8.
    rewrite Zmod_mod, (Z.mod_small (d / 256)); [done|].
    split; [apply Z.div_pos; lia|apply Z.div_lt_upper_bound; lia].
  - pose proof (Z.div_mod d 256). lia.
Qed.

End Timer.

Module Pci.

Definition PCI_COMMAND_PORT : Z := 3320. (* 0xcf8 *)
Definition PCI_REG_VENDOR_ID : Z := 0.
Definition PCI_REG_DEVICE_ID : Z := 2.

Section Config.
(** The double word of configuration space behind an address. *)
Variable cfg : Z -> Z.

Definition config_id (bus dev fun_ reg : Z) : Z :=
  u32 (Z.lor (Z.lor (Z.lor (Z.lor (Z.shiftl 1 31) (Z.shiftl bus 16)) (Z.shiftl dev 11)) (Z.shiftl fun_ 8))
    (Z.land reg 252)).

(** [result] is a uint16_t: what inl returns is cut before it is shifted. *)
Definition pci_read_config (bus dev fun_ reg : Z) : M machine Z :=
  let id := config_id (u8 bus) (u8 dev) (u8 fun_) (u8 reg) in
  outl PCI_COMMAND_PORT id ≫= fun _ =>
  let result := u16 (cfg id) in
  let result := u16 (Z.shiftr result (Z.land (u8 reg) 2 * 8)) in
  mret (Z.land result 65535).

(** What is printed about one function, if anything. *)
Definition pci_function (bus device function : Z) : M machine (list (Z * Z * Z * Z * Z)) :=
  vendor_id ← pci_read_config bus device function PCI_REG_VENDOR_ID;
  device_id ← pci_read_config bus device function PCI_REG_DEVICE_ID;
  if (vendor_id =? 0) || (vendor_id =? 65535) then mret []
  else mret [(bus, device, function, vendor_id, device_id)].

(** [for (x = i; x < n; x++)], collecting what is printed *)
Fixpoint collect {A} (n : nat) (i : Z) (body : Z -> M machine (list A)) : M machine (list A) :=
  match n with
  | O => mret []
  | S n' => l ← body i; l' ← collect n' (i + 1) body; mret (l ++ l')
  end.

Definition pci_init : M machine (list (Z * Z * Z * Z * Z)) :=
  collect 8 0 (fun bus => collect 32 0 (fun device => collect 8 0 (fun function =>
    pci_function bus device function))).

(** The device id that is read is 0 whatever the device. *)
Lemma pci_device_id_zero bus dev fun_ m : exists m',
  pci_read_config bus dev fun_ PCI_REG_DEVICE_ID m = Ret 0 m'.
Proof.
  unfold pci_read_config. eexists. unfold outl, modify, mbind, M_bind, mret, M_ret.
  change (Z.land (u8 PCI_REG_DEVICE_ID) 2 * 8) with 16. f_equal.
  rewrite Z.shiftr_div_pow2 by lia. rewrite Z.div_small; [done|]. apply Z.mod_pos_bound. lia.
Qed.

Lemma collect_In {A} n i (body : Z -> M machine (list A)) m l m' x :
  collect n i body m = Ret l m' -> x ∈ l ->
  exists j m1 l1 m2, i <= j < i + Z.of_nat n /\ body j m1 = Ret l1 m2 /\ x ∈ l1.
Proof.
  revert i m l m'. induction n as [|n IH]; intros i m l m' H Hx; cbn [collect] in H.
  - apply ret_inv in H as [<- _]. by apply elem_of_nil in Hx.
  - apply bind_inv in H as (l1 & m1 & H1 & H). apply bind_inv in H as (l2 & m2 & H2 & H).
    apply ret_inv in H as [<- _]. apply elem_of_app in Hx as [Hx|Hx].
    + exists i, m, l1, m1. split; [lia|done].
    + destruct (IH _ _ _ _ H2 Hx) as (j & ma & la & mb & Hj & Hb & Hin). exists j, ma, la, mb. split; [lia|done].
Qed.

(** Everything listed is a function whose vendor id reads as a real one, with
    device id 0. *)
Lemma pci_init_lists m l m' bus dev fn v d : pci_init m = Ret l m' -> (bus, dev, fn, v, d) ∈ l ->
  0 <= bus < 8 /\ 0 <= dev < 32 /\ 0 <= fn < 8 /\ d = 0 /\ v <> 0 /\ v <> 65535 /\
  v = u16 (cfg (config_id bus dev fn 0)).
Proof.
  intros H Hx. apply (collect_In _ _ _ _ _ _ _ H) in Hx as (b & m1 & l1 & m2 & Hb & H1 & Hx).
  apply (collect_In _ _ _ _ _ _ _ H1) in Hx as (dv & m3 & l2 & m4 & Hd & H2 & Hx).
  apply (collect_In _ _ _ _ _ _ _ H2) in Hx as (f & m5 & l3 & m6 & Hf & H3 & Hx).
  unfold pci_function in H3. apply bind_inv in H3 as (vid & m7 & Hv & H3). apply bind_inv in H3 as (did & m8 & Hdid & H3).
  destruct (pci_device_id_zero b dv f m7) as (m9 & Hz). rewrite Hz in Hdid. apply ret_inj in Hdid as [<- _].
  destruct ((vid =? 0) || (vid =? 65535)) eqn:Hvd; apply ret_inv in H3 as [<- _]; [by apply elem_of_nil in Hx|].
  apply list_elem_of_singleton in Hx. injection Hx as -> -> -> -> ->.
  apply orb_false_iff in Hvd as [H0%Z.eqb_neq Hff%Z.eqb_neq].
  do 6 (split; [lia|]). unfold pci_read_config in Hv. apply bind_inv in Hv as (u & m10 & _ & Hv).
  apply ret_inv in Hv as [<- _]. change (Z.land (u8 PCI_REG_VENDOR_ID) 2 * 8) with 0.
  rewrite Z.shiftr_0_r. change 65535 with (Z.ones 16). rewrite Z.land_ones by lia. change (2 ^ 16) with 65536.
  unfold u16. rewrite !Zmod_mod. unfold u8. by rewrite !(Z.mod_small _ 256) by lia.
Qed.

End Config.
End Pci.

Module Kbd.

Definition KEY_LSHIFT : Z := 42.
Definition KEY_RSHIFT : Z := 54.
Definition RELEASED (key : Z) : Z := Z.lor key 128.

(** The Dvorak layout: 60 keys, plain and with Shift. *)
Definition layout : list (Z * Z) :=
  [(0, 0); (27, 27); (49, 33); (50, 64); (51, 35); (52, 36); (53, 37); (54, 94); (55, 38); (56, 42);
   (57, 40); (48, 41); (91, 123); (93, 125); (8, 8); (9, 9); (39, 34); (44, 60); (46, 62); (112, 80);
   (121, 89); (102, 70); (103, 71); (99, 67); (114, 82); (108, 76); (47, 63); (61, 43); (10, 10); (0, 0);
   (97, 65); (111, 79); (101, 69); (117, 85); (105, 73); (100, 68); (104, 72); (116, 84); (110, 78); (115, 83);
   (45, 95); (96, 126); (0, 0); (92, 124); (59, 58); (113, 81); (106, 74); (107, 75); (120, 88); (98, 66);
   (109, 77); (119, 87); (118, 86); (122, 90); (0, 0); (0, 0); (0, 0); (32, 32); (0, 0); (0, 0)].

(** [layout[scancode][mask]], outside the table undefined *)
Definition key_of {S} (scancode : Z) (shifted : bool) : M S Z := fun s =>
  match zlookup layout scancode with
  | Some (plain, shift) => Ret (if shifted then shift else plain) s
  | None => Undef
  end.

(** What becomes of is_pressed[MASK_SHIFT] *)
Definition track_shift (scancode pressed : Z) : Z :=
  let pressed := if (scancode =? KEY_LSHIFT) || (scancode =? KEY_RSHIFT) then 1 else pressed in
  if (scancode =? RELEASED KEY_LSHIFT) || (scancode =? RELEASED KEY_RSHIFT) then 0 else pressed.

(** [!(scancode & 0x80)] *)
Definition make_code (scancode : Z) : bool := negb (has scancode 128).

(** The state of kernel/kbd.c and the number of status reads so far. *)
Record kbd := Kbd { key_buffer : Z; is_pressed : Z; status_reads : nat }.

Section Ports.
(** What the reads of port 0x64 answer, and the scan code behind one. *)
Variable status data : nat -> Z.

Fixpoint kbd_get_scancode (fuel : nat) : M kbd Z := fun s =>
  match fuel with
  | O => NoFuel
  | S fuel' =>
      let s' := Kbd (key_buffer s) (is_pressed s) (S (status_reads s)) in
      if Z.land (u8 (status (status_reads s))) 1 =? 0 then kbd_get_scancode fuel' s'
      else Ret (u8 (data (status_reads s))) s'
  end.

(** What is done with a scan code; printing the process list on a p changes
    nothing. *)
Definition kbd_key (scancode : Z) : M kbd unit :=
  modify (fun s => Kbd (key_buffer s) (track_shift scancode (is_pressed s)) (status_reads s)) ≫= fun _ =>
  s ← get;
  if make_code scancode then
    c ← key_of scancode (negb (is_pressed s =? 0));
    modify (fun s => Kbd c (is_pressed s) (status_reads s))
  else mret tt.

Definition kbd_handler (fuel : nat) (regs : Z) : M kbd Z :=
  scancode ← kbd_get_scancode fuel; kbd_key scancode ≫= fun _ => mret regs.
End Ports.

Definition kbd_install (h : Z) (irqs : list irq_handler_entry) : option (list irq_handler_entry) :=
  irq_install_handler 1 h 0 irqs.
Definition kbd_uninstall (irqs : list irq_handler_entry) : option (list irq_handler_entry) :=
  irq_uninstall_handler 1 irqs.

(** A key that the table has not is read outside it: the make codes from 60
    to 127 (the function keys are among them). *)
Lemma kbd_key_bounds sc s : 0 <= sc < 256 ->
  kbd_key sc s = Undef <-> 60 <= sc < 128.
Proof.
  intros Hsc. unfold kbd_key. erewrite (bind_Ret (modify _)) by done. erewrite (bind_Ret get) by done.
  assert (Hm : make_code sc = (sc <? 128)).
  { unfold make_code, has. change 128 with (2 ^ 7) at 1. rewrite Z.land_comm, <- (Z.shiftl_1_l 7), Z.land_comm.
    destruct (Z.ltb_spec sc 128) as [Hl|Hl].
    - replace (Z.land sc (Z.shiftl 1 7)) with 0; [done|]. symmetry. apply Z.bits_inj'. intros n Hn.
      rewrite Z.land_spec, Z.bits_0, Z.shiftl_1_l, Z.pow2_bits_eqb by lia. destruct (Z.eqb_spec 7 n) as [<-|]; [|apply andb_false_r].
      rewrite andb_true_r. apply Z.testbit_false; [lia|]. rewrite Z.div_small by (change (2 ^ 7) with 128; lia). done.
    - assert (Ht : Z.testbit (Z.land sc (Z.shiftl 1 7)) 7 = true).
      { rewrite Z.land_spec, Z.shiftl_1_l, Z.pow2_bits_true, andb_true_r by lia. apply Z.testbit_true; [lia|].
        change (2 ^ 7) with 128. replace (sc / 128) with 1; [done|]. apply (Z.div_unique _ _ _ (sc - 128)); lia. }
      destruct (Z.eqb_spec (Z.land sc (Z.shiftl 1 7)) 0) as [E|]; [rewrite E in Ht; done|done]. }
  rewrite Hm. unfold key_of, mbind, M_bind. destruct (Z.ltb_spec sc 128); [|split; [done|lia]].
  destruct (zlookup layout sc) as [[a b]|] eqn:E.
  - apply zlookup_Some_range in E. change (Z.of_nat (length layout)) with 60 in E. split; [done|lia].
  - split; [|done]. intros _. destruct (decide (sc < 60)); [|lia].
    destruct (zlookup_in_range layout sc) as [x Hx]; [change (Z.of_nat (length layout)) with 60; lia|congruence].
Qed.

(** servers/kbd.c: the driver process *)
Record srv := Srv { last_scancode : Z; key_pressed : bool; srv_shift : Z }.

Definition kbd_irq (scancode : Z) (s : srv) : srv :=
  let shift := track_shift scancode (srv_shift s) in
  if make_code scancode then Srv scancode true shift else Srv (last_scancode s) (key_pressed s) shift.

(** The interrupts that bring the scan codes [l] *)
Definition irqs (l : list Z) (s : srv) : srv := foldl (fun s sc => kbd_irq sc s) s l.

(** MSG_GETC once a key was pressed; the loop before only waits.  The key is
    read and then the flag is cleared, with interrupts on. *)
Definition read_key : M srv Z := s ← get; key_of (last_scancode s) false.
Definition clear_key : M srv unit := modify (fun s => Srv (last_scancode s) false (srv_shift s)).
Definition serve_getc (late : list Z) : M srv Z :=
  reply ← read_key; modify (irqs late) ≫= fun _ => clear_key ≫= fun _ => mret reply.

(** Interrupts and served requests, in the order they happen; [late] came
    while the request was served. *)
Inductive event := Key (scancode : Z) | Getc (reply : Z) (late : list Z).
Inductive srv_step : srv -> event -> srv -> Prop :=
| step_key s sc : srv_step s (Key sc) (kbd_irq sc s)
| step_getc s r late s' : key_pressed s = true -> serve_getc late s = Ret r s' -> srv_step s (Getc r late) s'.
Inductive srv_run : srv -> list event -> srv -> Prop :=
| run_nil s : srv_run s [] s
| run_snoc s es s1 e s2 : srv_run s es s1 -> srv_step s1 e s2 -> srv_run s (es ++ [e]) s2.

(** The make codes of a list of scan codes *)
Definition makes (l : list Z) : list Z := filter (fun sc => make_code sc = true) l.

Lemma irqs_spec l s : last_scancode (irqs l s) = default (last_scancode s) (list.last (makes l)) /\
  key_pressed (irqs l s) = key_pressed s || bool_decide (makes l <> []).
Proof.
  induction l as [|sc l IH] using rev_ind; [split; [done|by rewrite orb_false_r]|]. unfold irqs in *. rewrite foldl_snoc.
  unfold makes in *. rewrite list.filter_app. unfold kbd_irq. cbn [filter list_filter]. case_decide as Hm.
  - rewrite Hm. cbn [last_scancode key_pressed]. rewrite list.last_snoc. split; [done|].
    rewrite bool_decide_eq_true_2; [by rewrite orb_true_r|]. by destruct (filter _ l).
  - destruct (make_code sc); [done|]. rewrite app_nil_r. exact IH.
Qed.

Lemma serve_getc_Ret late s r s' : serve_getc late s = Ret r s' ->
  read_key s = Ret r s /\ s' = Srv (last_scancode (irqs late s)) false (srv_shift (irqs late s)).
Proof.
  intros H. unfold serve_getc in H. apply bind_inv in H as (r' & s1 & H1 & H). apply bind_inv in H as (u & s2 & H2 & H).
  apply bind_inv in H as (u' & s3 & H3 & H). apply ret_inv in H as [<- <-]. apply ret_inj in H3 as [_ <-]. apply ret_inj in H2 as [_ <-].
  assert (s1 = s) as ->; [|done]. unfold read_key in H1. erewrite (bind_Ret get) in H1 by done. unfold key_of in H1.
  destruct (zlookup layout (last_scancode s)) as [[a b]|]; [by apply ret_inj in H1 as [_ <-]|done].
Qed.

(** The last make code, and whether one came after the last request. *)
Fixpoint pending (p : option Z * bool) (es : list event) : option Z * bool :=
  match es with
  | [] => p
  | Key sc :: es => pending (if make_code sc then (Some sc, true) else p) es
  | Getc _ late :: es => pending (match list.last (makes late) with Some sc => Some sc | None => fst p end, false) es
  end.

Lemma pending_snoc es p e : pending p (es ++ [e]) = pending (pending p es) [e].
Proof. revert p. induction es as [|[sc|r late] es IH]; intros p; cbn [app]; [done| |]; apply IH. Qed.

Lemma srv_run_inv s es s' : srv_run s es s' -> key_pressed s = false ->
  key_pressed s' = snd (pending (None, false) es) /\
  forall sc, fst (pending (None, false) es) = Some sc -> last_scancode s' = sc.
Proof.
  induction 1 as [|s es s1 e s2 Hr IH Hs]; intros Hk; [done|]. specialize (IH Hk) as [IHk IHl].
  rewrite pending_snoc. inversion Hs as [s0 sc|s0 r late s0' Hp Hg]; subst; cbn [pending].
  - unfold kbd_irq. destruct (make_code sc); cbn [fst snd key_pressed last_scancode]; [|done].
    split; [done|]. intros sc' [=]. done.
  - apply serve_getc_Ret in Hg as [_ ->]. cbn [fst snd key_pressed last_scancode]. split; [done|].
    intros sc Hsc. rewrite (proj1 (irqs_spec late s1)). destruct (list.last (makes late)); [by injection Hsc|by apply IHl].
Qed.

(** A request is answered with the last key pressed before it was read, if one
    was pressed since the request before, as it is without Shift; the keys
    pressed before that one are lost. *)
Lemma getc_answers s es s1 r late s2 : key_pressed s = false -> srv_run s es s1 -> srv_step s1 (Getc r late) s2 ->
  exists sc b, pending (None, false) es = (Some sc, true) /\ zlookup layout sc = Some (r, b).
Proof.
  intros Hk Hr Hs. destruct (srv_run_inv s es s1 Hr Hk) as [Hp Hl].
  inversion Hs as [|s0 r0 l0 s0' Hpr Hg]; subst. rewrite Hpr in Hp.
  assert (Hsome : forall es p, snd p = false \/ is_Some (fst p) -> snd (pending p es) = true -> is_Some (fst (pending p es))).
  { clear. induction es as [|[sc|r l] es IH]; intros p H0 H; cbn [pending] in *.
    - destruct H0; [congruence|done].
    - apply IH; [|done]. destruct (make_code sc); [right; eauto|done].
    - apply IH; [by left|done]. }
  destruct (Hsome es (None, false)) as [sc Hsc]; [by left|done|]. exists sc.
  apply serve_getc_Ret in Hg as [H1 _]. unfold read_key, key_of in H1. erewrite (bind_Ret get) in H1 by done.
  rewrite (Hl sc Hsc) in H1. destruct (zlookup layout sc) as [[a b]|] eqn:E; [|done].
  apply ret_inj in H1 as [<- _]. exists b. split; [|done].
  destruct (pending (None, false) es) as [x y]. cbn [fst snd] in *. by subst.
Qed.

End Kbd.
