(* ===== verification/Programs.v ===== *)
(** * Programs.v: the shell over the servers (exec/shell.c, lib/libc/puts.c,
      putc.c, getc.c, lib/libipc/ipc.c, servers/kbd.c, drivers/screen.c)

    User programs see the rest of the system as answers to messages.  [Ipc]
    is that interface: send bytes to a pid, get an int back (what ipc_send,
    ipc_recv and ipc_reply do is in Syscall.v).  [Services] is what the kernel,
    the screen driver and the keyboard server promise to the library; the shell
    is proved against it, and the servers of User.v and Devices.v discharge
    it. *)

From S2P Require Import Prelude Memory Machine Pm Vm Heap Queue Desc Proc Syscall Text Console User Devices.
Import Com.

(** ** The C library's memory and string routines

    lib/libc/memset.c, memcpy.c and strlen.c.  The loops are those of the
    kernel's routines; strlen does not look at the string. *)

Section Libc.
Context {S : Type} `{MemOps S}.

Fixpoint libc_memset_loop (len : nat) (str ch : Z) : M S Z :=
  match len with
  | O => mret str
  | Datatypes.S len' => store8 str ch ≫= fun _ => libc_memset_loop len' (str +w 1) ch
  end.
Definition libc_memset (str ch len : Z) : M S Z := libc_memset_loop (Z.to_nat len) str ch.

Fixpoint libc_memcpy_loop (len : nat) (dst src : Z) : M S unit :=
  match len with
  | O => mret tt
  | Datatypes.S len' =>
      v ← load8 src; store8 dst v ≫= fun _ => libc_memcpy_loop len' (dst +w 1) (src +w 1)
  end.
Definition libc_memcpy (dst src len : Z) : M S Z :=
  let ret := dst in libc_memcpy_loop (Z.to_nat len) dst src ≫= fun _ => mret ret.

Definition libc_strlen (s : Z) : M S Z := mret 4.

(** The two copies of each routine do the same. *)
Lemma libc_kernel_routines a b len : libc_memcpy a b len = memcpy a b len /\ libc_memset a b len = memset a b len.
Proof. split; reflexivity. Qed.
End Libc.

(** ** Messages as bytes *)

(** struct msg_io: the enum, the character, the buffer and three bytes of
    padding *)
Definition msg_io_bytes (m : msg_io) : list byte :=
  le_split 4 (io_type m) ++ [one_char m] ++ chars m ++ repeat Byte.x00 3.

Definition msg_io_of (l : list byte) : msg_io :=
  MsgIo (le_combine (take 4 l)) (default Byte.x00 (l !! 4%nat)) (take 64 (drop 5 l)).

Lemma msg_io_of_bytes m : 0 <= io_type m < 4294967296 -> length (chars m) = 64%nat -> msg_io_of (msg_io_bytes m) = m.
Proof.
  intros Ht Hc. unfold msg_io_of, msg_io_bytes. destruct m as [t c l]; cbn [io_type one_char chars] in *.
  pose proof (length_le_split 4 t) as Hl. f_equal.
  - rewrite take_app_length' by done. rewrite le_combine_split. by apply Z.mod_small.
  - rewrite drop_app_ge by lia. rewrite Hl. change (drop (5 - 4) ([c] ++ l ++ repeat Byte.x00 3)) with (l ++ repeat Byte.x00 3).
    by rewrite take_app_length'.
Qed.

(** struct msg_kernel with find_proc_by_name: the type and 32 characters *)
Definition find_msg (nm : list byte) : list byte := le_split 4 MSG_FIND_PROC_BY_NAME ++ nm.

(** ** The library, over any answering system *)

Class Ipc (W : Type) := ipc_ask : Z -> list byte -> M W Z.

Section Client.
Context {W : Type} `{Ipc W}.

(** lib/libipc/ipc.c: find_by_name takes 32 characters from [name] on,
    whatever is behind the string; [mem] is that memory. *)
Definition find_by_name (mem : list byte) : M W Z :=
  if (length mem <? Z.to_nat MAX_PROC_NAME_LEN)%nat then undef
  else ipc_ask 0 (find_msg (take (Z.to_nat MAX_PROC_NAME_LEN) mem)).

(** The memory from the literals "screen" and "kbd" on, in the program *)
Variables screen_lit kbd_lit : list byte.

Definition puts (stack : msg_io) (s : list byte) : M W Z :=
  screen ← find_by_name screen_lit; ipc_ask screen (msg_io_bytes (Libc.puts_msg stack s)).
Definition putc (stack : msg_io) (c : byte) : M W Z :=
  screen ← find_by_name screen_lit; ipc_ask screen (msg_io_bytes (Libc.putc_msg stack c)).
Definition getc (stack : msg_io) : M W Z :=
  kbd ← find_by_name kbd_lit; ipc_ask kbd (msg_io_bytes (Libc.getc_msg stack)).

(** exec/shell.c: main, with [n] turns of its endless loop; [stack i] is what
    the structs of turn [i] held before, getc's and putc's. *)
Variable stack : nat -> msg_io * msg_io.
Definition type_prompt : list byte := [Byte.x74; Byte.x79; Byte.x70; Byte.x65; Byte.x21; Byte.x20].

Fixpoint shell_loop (n i : nat) : M W unit :=
  match n with
  | O => mret tt
  | Datatypes.S n' =>
      ch ← getc (fst (stack i));
      putc (snd (stack i)) (byte.of_Z ch) ≫= fun _ => shell_loop n' (Datatypes.S i)
  end.
Definition shell (stack0 : msg_io) (n : nat) : M W unit :=
  puts stack0 type_prompt ≫= fun _ => shell_loop n 0.
End Client.

(** ** What the library relies on *)

(** Where the two servers are, the text a message makes the screen show, and
    the characters that are still to be read, as a system that keeps [sv_ok]
    promises them: [print] and [consume] are what serving a message does. *)
Class Services (W : Type) `{Ipc W} (screen_lit kbd_lit : list byte) := {
  sv_ok : W -> Prop;
  sv_answers : W -> list Z;
  sv_print : list Z -> W -> W;
  sv_consume : W -> W;
  sv_pids : W -> Z * Z;
  sv_find_screen w : sv_ok w -> find_by_name screen_lit w = Ret (fst (sv_pids w)) w;
  sv_find_kbd w : sv_ok w -> find_by_name kbd_lit w = Ret (snd (sv_pids w)) w;
  sv_screen w m : sv_ok w -> 0 <= io_type m < 4294967296 -> length (chars m) = 64%nat ->
    exists r, ipc_ask (fst (sv_pids w)) (msg_io_bytes m) w = Ret r (sv_print (Screen.shown m) w);
  sv_getc w m c cs : sv_ok w -> sv_answers w = c :: cs -> io_type m = MSG_GETC -> length (chars m) = 64%nat ->
    ipc_ask (snd (sv_pids w)) (msg_io_bytes m) w = Ret c (sv_consume w);
  sv_print_ok l w : sv_ok w -> sv_ok (sv_print l w) /\ sv_answers (sv_print l w) = sv_answers w;
  sv_consume_ok c cs w : sv_ok w -> sv_answers w = c :: cs -> sv_ok (sv_consume w) /\ sv_answers (sv_consume w) = cs;
  sv_print_app l l' w : sv_print l' (sv_print l w) = sv_print (l ++ l') w;
  sv_print_consume l w : sv_consume (sv_print l w) = sv_print l (sv_consume w);
  sv_print_nil w : sv_print [] w = w;
}.

(** The shell's half of the character: an int is cut to a char. *)
Definition echo_of (c : Z) : Z := schar (byte.of_Z c).

Section Shell.
Context {W : Type} `{Ipc W} (screen_lit kbd_lit : list byte) `{!Services W screen_lit kbd_lit}.
Variable stack : nat -> msg_io * msg_io.
Hypothesis Hstack : forall i, length (chars (fst (stack i))) = 64%nat /\ length (chars (snd (stack i))) = 64%nat.

Lemma iter_consume_print n l w :
  Nat.iter n sv_consume (sv_print l w) = sv_print l (Nat.iter n sv_consume w).
Proof. induction n as [|n IH]; [done|]. rewrite !Nat.iter_succ, IH. apply sv_print_consume. Qed.

Lemma putc_prints st c w : sv_ok w -> length (chars st) = 64%nat ->
  exists r, putc screen_lit st c w = Ret r (sv_print [schar c] w).
Proof.
  intros Hok Hl. unfold putc. rewrite (bind_Ret _ _ _ _ _ (sv_find_screen w Hok)).
  destruct (sv_screen w (Libc.putc_msg st c) Hok) as [r Hr]; [done|done|]. by exists r.
Qed.

Lemma getc_reads st c cs w : sv_ok w -> length (chars st) = 64%nat -> sv_answers w = c :: cs ->
  getc kbd_lit st w = Ret c (sv_consume w).
Proof.
  intros Hok Hl Ht. unfold getc. rewrite (bind_Ret _ _ _ _ _ (sv_find_kbd w Hok)).
  by apply (sv_getc w (Libc.getc_msg st) c cs).
Qed.

Lemma shell_loop_echoes n : forall i w, sv_ok w -> (n <= length (sv_answers w))%nat ->
  shell_loop screen_lit kbd_lit stack n i w =
    Ret tt (sv_print (map echo_of (take n (sv_answers w))) (Nat.iter n sv_consume w)).
Proof.
  induction n as [|n IH]; intros i w Hok Hn; cbn [shell_loop].
  { cbn [take map Nat.iter]. by rewrite sv_print_nil. }
  destruct (sv_answers w) as [|c cs] eqn:Ht; [cbn in Hn; lia|]. destruct (Hstack i) as [Hg Hp].
  rewrite (bind_Ret _ _ _ _ _ (getc_reads _ c cs w Hok Hg Ht)).
  destruct (sv_consume_ok c cs w Hok Ht) as [Hok1 Ht1].
  destruct (putc_prints (snd (stack i)) (byte.of_Z c) _ Hok1 Hp) as [r Hr].
  rewrite (bind_Ret _ _ _ _ _ Hr). destruct (sv_print_ok [schar (byte.of_Z c)] _ Hok1) as [Hok2 Ht2].
  rewrite IH; [|done|rewrite Ht2, Ht1; cbn in Hn; lia].
  rewrite Ht2, Ht1. cbn [firstn map]. f_equal.
  rewrite iter_consume_print, sv_print_app. f_equal. rewrite <- Nat.iter_succ_r. done.
Qed.

(** The prompt, what puts leaves of the stack behind it, and then every
    character typed, for as many turns as there are. *)
Lemma shell_echoes_services stack0 n w : sv_ok w -> length (chars stack0) = 64%nat ->
  (n <= length (sv_answers w))%nat ->
  shell screen_lit kbd_lit stack stack0 n w =
    Ret tt (sv_print (Screen.shown (Libc.puts_msg stack0 type_prompt) ++ map echo_of (take n (sv_answers w)))
              (Nat.iter n sv_consume w)).
Proof.
  intros Hok Hl Hn. unfold shell, puts. set (m := Libc.puts_msg stack0 type_prompt).
  assert (Hm : length (chars m) = 64%nat).
  { unfold m, Libc.puts_msg. cbn [chars]. rewrite Screen.fill_chars_eq by (cbn; lia).
    rewrite !length_app, length_take, length_drop. cbn. lia. }
  destruct (sv_screen w m Hok) as [r Hr]; [done|done|].
  assert (Hputs : (screen ← find_by_name screen_lit; ipc_ask screen (msg_io_bytes m)) w = Ret r (sv_print (Screen.shown m) w)).
  { by rewrite (bind_Ret _ _ _ _ _ (sv_find_screen w Hok)). }
  rewrite (bind_Ret _ _ _ _ _ Hputs). destruct (sv_print_ok (Screen.shown m) w Hok) as [Hok1 Ht1].
  rewrite shell_loop_echoes; [|done|by rewrite Ht1]. rewrite Ht1. f_equal.
  by rewrite iter_consume_print, sv_print_app.
Qed.
End Shell.

(** ** The servers *)

Module KbdServer.
Import Kbd.

(** servers/kbd.c: main's variable [reply] with the handler's, and the
    interrupts to come.  They come at any time; for each request, [fst] has the
    scan codes they bring after the flag was cleared for the request before and
    up to the reading of the key, while other processes run, while the server
    waits, or when it has stopped waiting; [snd] those between the reading and
    the clearing. *)
Record kserver := KServer { ksrv : srv; kreply : Z; turns : list (list Z * list Z) }.

(** One turn of main's loop: what is replied; to any other message the last
    reply again.  [while (!_key_pressed);] does not end unless a key was
    pressed. *)
Definition kbd_serve (m : msg_io) : M kserver Z :=
  (if io_type m =? MSG_GETC then
     s ← get;
     match turns s with
     | [] => nofuel
     | (before, late) :: ts =>
         let v := irqs before (ksrv s) in
         if key_pressed v then
           put (KServer v (kreply s) ts) ≫= fun _ =>
           r ← zoom ksrv (fun v s => KServer v (kreply s) (turns s)) (serve_getc late);
           modify (fun s => KServer (ksrv s) r (turns s))
         else nofuel
     end
   else mret tt) ≫= fun _ => s ← get; mret (kreply s).

(** The character of a key that the table has *)
Definition plain (sc : Z) : Z := match zlookup layout sc with Some (c, _) => c | None => 0 end.

(** The key a request is answered with: the last one pressed before it is read,
    one that the table has *)
Definition answer (t : list Z * list Z) : Z := match list.last (makes (fst t)) with Some sc => plain sc | None => 0 end.
Definition answered (t : list Z * list Z) : Prop := exists sc, list.last (makes (fst t)) = Some sc /\ 0 <= sc < 60.

Lemma key_of_plain sc (s : srv) : 0 <= sc < 60 -> key_of sc false s = Ret (plain sc) s.
Proof.
  intros Hsc. unfold key_of, plain. destruct (zlookup_in_range layout sc) as [[a b] ->]; [|done].
  change (Z.of_nat (length layout)) with 60. lia.
Qed.

Lemma kbd_serve_getc m s b l ts : io_type m = MSG_GETC -> turns s = (b, l) :: ts -> answered (b, l) ->
  kbd_serve m s = Ret (answer (b, l))
    (KServer (Srv (last_scancode (irqs l (irqs b (ksrv s)))) false (srv_shift (irqs l (irqs b (ksrv s))))) (answer (b, l)) ts).
Proof.
  intros Hm Ht (sc & Hl & Hsc). cbn [fst] in Hl. destruct (irqs_spec b (ksrv s)) as [E1 E2]. rewrite Hl in E1. cbn [default] in E1.
  rewrite bool_decide_eq_true_2, orb_true_r in E2 by (intros E; by rewrite E in Hl).
  unfold kbd_serve. rewrite Hm. change (MSG_GETC =? MSG_GETC) with true. cbv iota.
  unfold mbind, M_bind, get. rewrite Ht. cbv zeta. rewrite E2. unfold put, zoom, serve_getc, read_key, clear_key, modify, mbind, M_bind, get.
  cbn [ksrv]. rewrite E1, key_of_plain by done. unfold answer. cbn [fst]. by rewrite Hl.
Qed.

(** Where every request finds one key, nothing is lost: the answers are all
    keys pressed, in order. *)
Lemma answers_all l : Forall (fun t : list Z * list Z => length (makes (fst t)) = 1%nat /\ makes (snd t) = []) l ->
  map answer l = map plain (concat (map (fun t => makes (fst t ++ snd t)) l)).
Proof.
  induction 1 as [|[b t] l [H1 H2] _ IH]; [done|]. cbn [map concat fst snd] in *. rewrite map_app, <- IH.
  unfold makes in *. rewrite list.filter_app, H2, app_nil_r. unfold answer, makes. cbn [fst].
  by destruct (filter _ b) as [|x [|]].
Qed.
End KbdServer.

(** ** The whole system: the kernel's table, the screen and the keyboard *)

Record world := World {
  w_table : ptable; w_screen : Screen.scr; w_kbd : KbdServer.kserver;
  screen_pid : Z; kbd_pid : Z; (* the processes that run the two programs *)
}.
Definition with_screen (v : Screen.scr) (w : world) : world := World (w_table w) v (w_kbd w) (screen_pid w) (kbd_pid w).
Definition with_kbd (k : KbdServer.kserver) (w : world) : world :=
  World (w_table w) (w_screen w) k (screen_pid w) (kbd_pid w).

(** kernel/msg_dispatcher.c: MSG_FIND_PROC_BY_NAME; the other requests are in
    Syscall.v, none is made here. *)
Definition kernel_find (l : list byte) : M ptable Z :=
  if le_combine (take 4 l) =? MSG_FIND_PROC_BY_NAME then proc_find_by_name (zlookup (drop 4 l)) 0 else nofuel.

(** A request is taken to its server and answered. *)
#[export] Instance world_ipc : Ipc world := fun receiver msg =>
  fun w =>
    if receiver =? 0 then zoom w_table (fun t w => World t (w_screen w) (w_kbd w) (screen_pid w) (kbd_pid w)) (kernel_find msg) w
    else if receiver =? screen_pid w then zoom w_screen with_screen (Screen.serve (msg_io_of msg)) w
    else if receiver =? kbd_pid w then zoom w_kbd with_kbd (KbdServer.kbd_serve (msg_io_of msg)) w
    else NoFuel.

(** The memory behind a literal: the string ends among the 32 characters. *)
Definition literal (mem : list byte) : Prop :=
  (32 <= length mem)%nat /\ Exists (fun b => byte.unsigned b = 0) (take 32 mem).
Definition runs (t : ptable) (mem : list byte) (p : Z) : Prop :=
  exists q l, filter (fun q => cname (name q) = cname (take 32 mem)) (procs t) = q :: l /\ pid q = p.

Section World.
Variables screen_lit kbd_lit : list byte.
Hypothesis Hscreen : literal screen_lit.
Hypothesis Hkbd : literal kbd_lit.

Record world_ok (w : world) : Prop := {
  wo_named : Forall named (procs (w_table w));
  wo_screen : runs (w_table w) screen_lit (screen_pid w);
  wo_kbd : runs (w_table w) kbd_lit (kbd_pid w);
  wo_pids : screen_pid w <> 0 /\ kbd_pid w <> 0 /\ screen_pid w <> kbd_pid w;
  wo_scr : Screen.scr_wf (w_screen w);
  wo_keys : Forall KbdServer.answered (KbdServer.turns (w_kbd w));
}.

Definition world_answers (w : world) : list Z := map KbdServer.answer (KbdServer.turns (w_kbd w)).
Definition world_print (l : list Z) (w : world) : world := with_screen (foldl Screen.shows (w_screen w) l) w.
Definition world_consume (w : world) : world :=
  match KbdServer.turns (w_kbd w) with
  | (b, l) :: ts =>
      let v := Kbd.irqs l (Kbd.irqs b (KbdServer.ksrv (w_kbd w))) in
      with_kbd (KbdServer.KServer (Kbd.Srv (Kbd.last_scancode v) false (Kbd.srv_shift v)) (KbdServer.answer (b, l)) ts) w
  | [] => w
  end.

Lemma world_find mem p w : Forall named (procs (w_table w)) -> literal mem -> runs (w_table w) mem p ->
  find_by_name mem w = Ret p w.
Proof.
  intros Hn [Hl Hz] (q & l & Hf & Hp). unfold find_by_name. change (Z.to_nat MAX_PROC_NAME_LEN) with 32%nat.
  destruct (Nat.ltb_spec (length mem) 32); [lia|]. unfold ipc_ask, world_ipc. change (0 =? 0) with true. cbv iota.
  unfold zoom, kernel_find, find_msg. rewrite take_app_length' by done.
  change (le_combine (le_split 4 MSG_FIND_PROC_BY_NAME) =? MSG_FIND_PROC_BY_NAME) with true. cbv iota.
  rewrite drop_app_length' by done.
  pose proof (cname_cstring [] (take 32 mem) Hz) as Hc. cbn [app length] in Hc. change (Z.of_nat 0) with 0 in Hc.
  rewrite (proc_find_by_name_first (w_table w) (zlookup (take 32 mem)) 0 (cname (take 32 mem))).
  - rewrite Hf, Hp. by destruct w.
  - done.
  - apply Hc. rewrite length_take. lia.
Qed.

Lemma world_reads w c cs : world_ok w -> world_answers w = c :: cs ->
  world_ok (world_consume w) /\ world_answers (world_consume w) = cs /\
  forall m, io_type m = MSG_GETC -> KbdServer.kbd_serve m (w_kbd w) = Ret c (w_kbd (world_consume w)).
Proof.
  clear Hscreen Hkbd. intros [H1 H2 H3 H4 H5 H6] Ht. unfold world_answers, world_consume in *.
  destruct (KbdServer.turns (w_kbd w)) as [|[b l] ts] eqn:Hts; [done|]. cbn [map] in Ht. injection Ht as <- <-.
  apply list.Forall_cons in H6 as [Ha H6]. split; [by split|]. split; [done|].
  intros m Hm. by apply KbdServer.kbd_serve_getc.
Qed.

#[export] Instance world_services : Services world screen_lit kbd_lit.
Proof.
  refine {| sv_ok := world_ok; sv_answers := world_answers; sv_print := world_print; sv_consume := world_consume;
            sv_pids := fun w => (screen_pid w, kbd_pid w) |}.
  - intros w Hw. apply world_find; [apply Hw|done|apply Hw].
  - intros w Hw. apply world_find; [apply Hw|done|apply Hw].
  - intros w m Hw Ht Hl. exists 297451025. destruct (wo_pids w Hw) as (Hs & _). unfold ipc_ask, world_ipc. cbn [fst].
    destruct (Z.eqb_spec (screen_pid w) 0); [done|]. rewrite Z.eqb_refl, msg_io_of_bytes by done. unfold zoom.
    by rewrite (proj1 (Screen.serve_ok m (w_screen w) (wo_scr w Hw))).
  - intros w m c cs Hw Ht Hm Hl. destruct (wo_pids w Hw) as (_ & Hk & Hne). unfold ipc_ask, world_ipc. cbn [snd].
    destruct (Z.eqb_spec (kbd_pid w) 0); [done|]. destruct (Z.eqb_spec (kbd_pid w) (screen_pid w)); [congruence|].
    rewrite Z.eqb_refl, msg_io_of_bytes by (by rewrite ?Hm). unfold zoom.
    destruct (world_reads w c cs Hw Ht) as (_ & _ & Hr). rewrite (Hr m Hm). f_equal.
    unfold world_consume. destruct (KbdServer.turns _) as [|[b l] ts]; by destruct w.
  - intros l w [H1 H2 H3 H4 H5 H6]. split; [|done]. split; try done. cbn [world_print with_screen w_screen].
    clear -H5. revert H5. generalize (w_screen w). induction l as [|c l IH]; intros v Hv; [done|].
    cbn [foldl]. apply IH. by apply Screen.put_char_ok.
  - intros c cs w Hw Ht. destruct (world_reads w c cs Hw Ht) as (Ha & Hb & _). by split.
  - intros l l' w. unfold world_print. cbn [with_screen w_screen]. by rewrite foldl_app.
  - intros l w. unfold world_consume, world_print. cbn [with_screen w_kbd]. by destruct (KbdServer.turns _) as [|[b l'] ts].
  - intros w. unfold world_print. by destruct w.
Defined.
End World.

Lemma echo_plain sc : 0 <= sc < 60 -> echo_of (KbdServer.plain sc) = KbdServer.plain sc.
Proof.
  intros Hsc. assert (Hall : forallb (fun sc => echo_of (KbdServer.plain sc) =? KbdServer.plain sc) (seqZ 0 60) = true) by (vm_compute; done).
  rewrite forallb_forall in Hall. apply Z.eqb_eq, Hall. apply list_elem_of_In, elem_of_seqZ. lia.
Qed.

Lemma echo_answers screen_lit kbd_lit w n : world_ok screen_lit kbd_lit w ->
  map echo_of (take n (world_answers w)) = take n (world_answers w).
Proof.
  intros Hok. rewrite <- (map_id (take n (world_answers w))) at 2. apply map_ext_in. intros c Hc%list_elem_of_In.
  apply elem_of_take in Hc as (i & Hc & _). apply list_elem_of_lookup_2 in Hc.
  apply list_elem_of_fmap in Hc as (t & -> & Ht). pose proof (wo_keys _ _ _ Hok) as Hk. rewrite list.Forall_forall in Hk.
  destruct (Hk t Ht) as (sc & Hsc & Hr). unfold KbdServer.answer. rewrite Hsc. by apply echo_plain.
Qed.

(** C7: The system end to end: with the screen driver and the keyboard server
    running under their names, the shell finds them by name, prints its prompt
    (and what puts sends along behind it) and then shows one key for each turn
    of its loop, in order and as the layout has it without Shift: the key
    pressed last before the server read it, provided that one was pressed since
    the read before.  Interrupts come at any time, so keys pressed before that
    one in the same turn are lost, and so are those pressed between the read
    and the clearing of the flag.  The servers are ready for the next request
    and nothing else of the system changed. *)
Theorem shell_echoes screen_lit kbd_lit stack stack0 n w :
  literal screen_lit -> literal kbd_lit -> world_ok screen_lit kbd_lit w -> length (chars stack0) = 64%nat ->
  (forall i, length (chars (fst (stack i))) = 64%nat /\ length (chars (snd (stack i))) = 64%nat) ->
  (n <= length (world_answers w))%nat ->
  exists w', shell screen_lit kbd_lit stack stack0 n w = Ret tt w' /\ world_ok screen_lit kbd_lit w' /\
    w_table w' = w_table w /\ world_answers w' = drop n (world_answers w) /\
    w_screen w' = foldl Screen.shows (w_screen w)
      (map schar type_prompt ++ (before_nul (drop 6 (chars stack0)) ++ [schar (one_char stack0)]) ++
       take n (world_answers w)).
Proof.
  intros Hsl Hkl Hok Hl Hst Hn. pose (S := world_services screen_lit kbd_lit Hsl Hkl).
  assert (Hiter : world_ok screen_lit kbd_lit (Nat.iter n world_consume w) /\ w_table (Nat.iter n world_consume w) = w_table w /\
    w_screen (Nat.iter n world_consume w) = w_screen w /\ world_answers (Nat.iter n world_consume w) = drop n (world_answers w)).
  { clear -Hok Hn. induction n as [|n IH]; [done|]. destruct IH as (H1 & H2 & H3 & H4); [lia|].
    rewrite Nat.iter_succ. set (v := Nat.iter n world_consume w) in *.
    destruct (world_answers v) as [|c cs] eqn:Ht.
    { apply (f_equal length) in H4. rewrite length_drop in H4. cbn in H4. lia. }
    destruct (world_reads screen_lit kbd_lit v c cs H1 Ht) as (K1 & K2 & _). split; [done|].
    assert (Hk : w_table (world_consume v) = w_table v /\ w_screen (world_consume v) = w_screen v)
      by (unfold world_consume; by destruct (KbdServer.turns _) as [|[? ?] ?]).
    destruct Hk as [-> ->]. split; [done|]. split; [done|]. rewrite K2.
    replace (S n) with (n + 1)%nat by lia. rewrite <- drop_drop, <- H4. done. }
  destruct Hiter as (H1 & H2 & H3 & H4).
  eexists. split; [by apply (shell_echoes_services screen_lit kbd_lit stack Hst stack0 n w)|].
  destruct (sv_print_ok (Services := S) (Screen.shown (Libc.puts_msg stack0 type_prompt) ++ map echo_of (take n (world_answers w)))
              (Nat.iter n world_consume w) H1) as [K1 K2].
  split; [exact K1|]. split; [exact H2|]. split; [by rewrite <- H4|].
  cbn [sv_print sv_answers sv_consume S world_services world_print with_screen w_screen].
  rewrite H3. f_equal.
  rewrite (echo_answers screen_lit kbd_lit) by done.
  rewrite Screen.shown_puts; [|lia|by repeat constructor|cbn; lia]. by rewrite <- !app_assoc.
Qed.

(** A table with the kernel process, idle, the screen driver and the keyboard
    server *)
Definition name_of (l : list byte) : list byte := l ++ repeat Byte.x00 (33 - length l).
Definition screen_name : list byte := [Byte.x73; Byte.x63; Byte.x72; Byte.x65; Byte.x65; Byte.x6e].
Definition kbd_name : list byte := [Byte.x6b; Byte.x62; Byte.x64].
Definition proc_of (p : Z) (l : list byte) : proc := Proc p PROC_READY (name_of l) false false 0 0 0 0 0 0 0.
Definition table0 : ptable :=
  PTable [proc_of 0 [Byte.x6b]; proc_of 1 [Byte.x69]; proc_of 2 screen_name; proc_of 3 kbd_name] 4 None None true 0.

(** a pressed and released; then j and b, the j being lost; then n just after
    the b was read, lost too, and m *)
Definition world0 : world :=
  World table0 Screen.scr0 (KbdServer.KServer (Kbd.Srv 0 false 0) 0
    [([30; 158], []); ([46; 174; 49; 177], [38]); ([50], [])]) 2 3.
Definition lit_of (l : list byte) : list byte := l ++ [Byte.x00] ++ repeat Byte.x41 32.
Definition stack1 : msg_io := MsgIo 0 Byte.x00 (repeat Byte.x00 64).

Lemma name_of_named p l : (length l <? 33)%nat = true -> named (proc_of p l).
Proof.
  intros Hl%Nat.ltb_lt. unfold named, proc_of, name_of. cbn [name].
  split; [rewrite length_app, repeat_length; lia|]. apply Exists_app. right.
  destruct (33 - length l)%nat eqn:E; [lia|]. by left.
Qed.

Lemma world0_ok : world_ok (lit_of screen_name) (lit_of kbd_name) world0.
Proof.
  split.
  - repeat (constructor; [by apply name_of_named|]). constructor.
  - exists (proc_of 2 screen_name), []. split; vm_compute; reflexivity.
  - exists (proc_of 3 kbd_name), []. split; vm_compute; reflexivity.
  - vm_compute. repeat split; discriminate.
  - split; [apply repeat_length|]. cbn. lia.
  - cbn [w_kbd world0 KbdServer.turns].
    repeat apply list.Forall_cons_2; try apply list.Forall_nil_2; (eexists; split; [reflexivity|lia]).
Qed.

Lemma shell_echoes_witness : exists w',
  shell (lit_of screen_name) (lit_of kbd_name) (fun _ => (stack1, stack1)) stack1 2 world0 = Ret tt w' /\
  w_screen w' = foldl Screen.shows Screen.scr0 [116; 121; 112; 101; 33; 32; 0; 97; 98].
Proof.
  destruct (shell_echoes (lit_of screen_name) (lit_of kbd_name) (fun _ => (stack1, stack1)) stack1 2 world0)
    as (w' & Hr & _ & _ & _ & Hs).
  - split; [vm_compute; lia|]. apply Exists_exists. exists Byte.x00. split; [vm_compute; tauto|reflexivity].
  - split; [vm_compute; lia|]. apply Exists_exists. exists Byte.x00. split; [vm_compute; tauto|reflexivity].
  - exact world0_ok.
  - reflexivity.
  - split; reflexivity.
  - vm_compute. lia.
  - exists w'. split; [exact Hr|]. rewrite Hs. reflexivity.
Defined.
