(* ===== verification/Smp.v ===== *)
(** * Smp.v: finding and waking the other processors (kernel/smp.c, mmio.c)

    The boot processor looks for the firmware's multiprocessor tables, maps
    the local APIC, lays the start-up code out at 0x8000 and sends every other
    processor of the table an INIT and a STARTUP.  What lies outside the code
    is a [platform]: which physical addresses are the local APIC's, what its
    registers answer and how often the other processors have run atomic_inc
    on the counter by then.  Both answers may depend on everything written to
    the APIC so far and on time, counted in accesses to the two. *)

From S2P Require Import Prelude Memory Machine Pm Vm Desc Proc.

(** ** Constants and tables of include/kernel/smp.h *)

Definition KERNEL_TRAMPOLINE_LOAD_ADDR : Z := 32768.
Definition KERNEL_TRAMPOLINE_MAX_SIZE : Z := 4096.
Definition KERNEL_TRAMPOLINE_VARS_OFFSET : Z := 16.
Definition KERNEL_TRAMPOLINE_VARS_ADDR : Z := KERNEL_TRAMPOLINE_LOAD_ADDR + KERNEL_TRAMPOLINE_VARS_OFFSET.

(** struct mp_float_table, by the addresses of its fields *)
Definition ft_phys_addr (p : Z) : Z := p +w 4.
Definition ft_length (p : Z) : Z := p +w 8.
Definition ft_spec_rev (p : Z) : Z := p +w 9.

(** struct mp_conf_table, likewise *)
Definition ct_entry_count (p : Z) : Z := p +w 34.
Definition ct_local_apic_addr (p : Z) : Z := p +w 36.
Definition ct_entries (p : Z) : Z := p +w 44.

Record mp_conf_table_cpu_entry := CpuEntry {
  local_apic_id : Z; local_apic_ver : Z; cpu_flags : Z; cpu_signature : Z; feature_flags : Z;
}.
Record mp_conf_table_bus_entry := BusEntry { bus_id : Z; type_string : list byte }.
Record mp_conf_table_io_apic_entry := IoApicEntry { apic_id : Z; apic_ver : Z; apic_flags : Z; apic_addr : Z }.
(** The assignments of interrupts, to I/O and to local APICs *)
Record mp_conf_table_int_assign_entry := IntAssignEntry {
  int_type : Z; int_flag : Z; source_bus_id : Z; source_bus_irq : Z; dest_apic_id : Z; dest_apic_intin : Z;
}.

Inductive mp_entry :=
| Cpu (e : mp_conf_table_cpu_entry)
| Bus (e : mp_conf_table_bus_entry)
| Io_apic (e : mp_conf_table_io_apic_entry)
| Int_assign (e : mp_conf_table_int_assign_entry)
| Local_int_assign (e : mp_conf_table_int_assign_entry).

Definition sizeof_cpu_entry : Z := 20.
Definition sizeof_bus_entry : Z := 8.
Definition sizeof_io_apic_entry : Z := 8.
Definition sizeof_int_assign_entry : Z := 8.
Definition sizeof_local_int_assign_entry : Z := 8.

Definition int_bytes (e : mp_conf_table_int_assign_entry) : list byte :=
  byte.of_Z (int_type e) :: le_split 2 (int_flag e) ++
  map byte.of_Z [source_bus_id e; source_bus_irq e; dest_apic_id e; dest_apic_intin e].

(** The bytes of an entry, as the packed structs lay them out *)
Definition entry_bytes (x : mp_entry) : list byte :=
  match x with
  | Cpu e => map byte.of_Z [0; local_apic_id e; local_apic_ver e; cpu_flags e] ++
             le_split 4 (cpu_signature e) ++ le_split 4 (feature_flags e) ++ repeat Byte.x00 8
  | Bus e => byte.of_Z 1 :: byte.of_Z (bus_id e) :: take 6 (type_string e ++ repeat Byte.x00 6)
  | Io_apic e => map byte.of_Z [2; apic_id e; apic_ver e; apic_flags e] ++ le_split 4 (apic_addr e)
  | Int_assign e => byte.of_Z 3 :: int_bytes e
  | Local_int_assign e => byte.of_Z 4 :: int_bytes e
  end.

(** ** The platform and the state *)

Record platform := Platform {
  is_apic : Z -> bool;                            (* physical addresses of the local APIC *)
  apic_reg : list (Z * Z) -> nat -> Z -> Z;       (* what a register reads as *)
  incs : list (Z * Z) -> nat -> Z;                (* atomic_incs of the other processors so far *)
}.

(** What smp.c prints, a constructor per message *)
Inductive smp_msg :=
| Searching
| Found_at (p : Z)
| Not_found
| Not_smp_compliant
| Conf_table_not_found
| Table_info (length spec_rev phys_addr : Z)
| Detecting
| Unknown_entry_type (t : Z)
| Woke_up (n : Z)
| Trampoline_too_big
| Init_ipi_failed (core_id : Z)
| Startup_ipi_failed (core_id : Z)
| More_woke_up.

Record smpst := Smpst {
  svm : vmst;
  mp_float_table : Z;
  mp_conf_table : Z;
  icr : list (Z * Z);      (* writes to the APIC, (physical address, value), latest first *)
  ticks : nat;             (* accesses to the APIC and the counter so far *)
  said : list smp_msg;     (* latest first *)
}.

Definition set_svm (v : vmst) (s : smpst) : smpst :=
  Smpst v (mp_float_table s) (mp_conf_table s) (icr s) (ticks s) (said s).
Definition on_svm {A} : M vmst A -> M smpst A := zoom svm set_svm.
Definition on_smem {A} (m : M machine A) : M smpst A := on_svm (on_mach m).
Definition set_float (p : Z) (s : smpst) : smpst :=
  Smpst (svm s) p (mp_conf_table s) (icr s) (ticks s) (said s).
Definition set_conf (p : Z) (s : smpst) : smpst :=
  Smpst (svm s) (mp_float_table s) p (icr s) (ticks s) (said s).
Definition tick (s : smpst) : smpst :=
  Smpst (svm s) (mp_float_table s) (mp_conf_table s) (icr s) (S (ticks s)) (said s).
Definition sent (p v : Z) (s : smpst) : smpst :=
  Smpst (svm s) (mp_float_table s) (mp_conf_table s) ((p, v) :: icr s) (S (ticks s)) (said s).
Definition say (x : smp_msg) : M smpst unit :=
  modify (fun s => Smpst (svm s) (mp_float_table s) (mp_conf_table s) (icr s) (ticks s) (x :: said s)).

Definition smach (s : smpst) : machine := mach (svm s).

Section Smp.
Variable pf : platform.
(** The linker's symbols of the start-up code, and the address of
    kmain_secondary_cores *)
Variables trampoline_bin_start trampoline_bin_size secondary_entry : Z.

(** kernel/mmio.c: an access to an address that resolves to the APIC is the
    device's, any other is an access to memory. *)
Definition mmio_read32 (addr : Z) : M smpst Z := fun s =>
  match translate (smach s) addr with
  | None => Faulted addr
  | Some p => if is_apic pf p then Ret (apic_reg pf (icr s) (ticks s) p) (tick s) else on_smem (load32 addr) s
  end.
Definition mmio_write32 (addr value : Z) : M smpst unit := fun s =>
  match translate (smach s) addr with
  | None => Faulted addr
  | Some p => if is_apic pf p then Ret tt (sent p value s) else on_smem (store32 addr value) s
  end.

(** A read of the volatile counter, which starts at one *)
Definition smp_initialized_cores_num : M smpst Z := fun s =>
  Ret (u32 (1 + incs pf (icr s) (ticks s))) (tick s).

(** ** Looking for the table *)

Definition is_magic (p : Z) : M smpst bool :=
  c ← on_smem (load8 p);
  if negb (c =? 95) then mret false
  else
    c1 ← on_smem (load8 (p +w 1));
    if negb (c1 =? 77) then mret false
    else
      c2 ← on_smem (load8 (p +w 2));
      if negb (c2 =? 80) then mret false
      else c3 ← on_smem (load8 (p +w 3)); mret (c3 =? 95).

Fixpoint search_loop (n : nat) (p : Z) : M smpst Z :=
  match n with
  | O => mret 0
  | S n' =>
      b ← is_magic p;
      if (b : bool) then modify (set_float p) ≫= fun _ => mret 1 else search_loop n' (p +w 1)
  end.
Definition search_for_mp_table (addr len : Z) : M smpst Z := search_loop (Z.to_nat len) addr.

(** ** Waking one processor *)

(** [while (mmio_read32(apic + 0x30) & BIT(12));] *)
Fixpoint wait_pending (fuel : nat) (apic : Z) : M smpst unit :=
  match fuel with
  | O => nofuel
  | S fuel' => v ← mmio_read32 (apic +w 48); if has v 4096 then wait_pending fuel' apic else mret tt
  end.

Definition smp_send_init_ipi (fuel : nat) (core_id : Z) : M smpst Z :=
  s ← get;
  apic ← on_smem (load32 (ct_local_apic_addr (mp_conf_table s)));
  wait_pending fuel apic ≫= fun _ =>
  mmio_write32 (apic +w 784) (u32 (Z.shiftl core_id 24)) ≫= fun _ =>
  mmio_write32 (apic +w 768) 17664 ≫= fun _ => mret 0.

Definition smp_send_startup_ipi (fuel : nat) (core_id code_page : Z) : M smpst Z :=
  s ← get;
  apic ← on_smem (load32 (ct_local_apic_addr (mp_conf_table s)));
  wait_pending fuel apic ≫= fun _ =>
  mmio_write32 (apic +w 784) (u32 (Z.shiftl core_id 24)) ≫= fun _ =>
  mmio_write32 (apic +w 768) (Z.lor 17920 code_page) ≫= fun _ => mret 0.

(** The do-while loop at the end of smp_init_core *)
Fixpoint await_core (fuel : nat) (saved tries : Z) : M smpst Z :=
  match fuel with
  | O => nofuel
  | S fuel' =>
      current ← smp_initialized_cores_num;
      if saved +w 1 <? current then say More_woke_up ≫= fun _ => mret 1
      else if current =? saved +w 1 then mret 0
      else if tries <? 10000000 then await_core fuel' saved (tries +w 1) else mret 0
  end.

(** The counted delay between the two interrupts has no effect here. *)
Definition smp_init_core (fuel : nat) (core_id : Z) : M smpst Z :=
  saved ← smp_initialized_cores_num;
  if KERNEL_TRAMPOLINE_MAX_SIZE <? trampoline_bin_size then say Trampoline_too_big ≫= fun _ => mret 1
  else
    r ← smp_send_init_ipi fuel core_id;
    if negb (r =? 0) then say (Init_ipi_failed core_id) ≫= fun _ => mret 1
    else
      r ← smp_send_startup_ipi fuel core_id (u8 (KERNEL_TRAMPOLINE_LOAD_ADDR / PAGE_SIZE));
      if negb (r =? 0) then say (Startup_ipi_failed core_id) ≫= fun _ => mret 1
      else await_core fuel saved 0.

(** ** The whole start-up *)

(** The loop over the entries; [false] when it meets a type it does not
    know.  [n] bounds the entries, of which there are at most 65535. *)
Fixpoint walk_entries (n : nat) (fuel : nat) (i entry : Z) : M smpst bool :=
  match n with
  | O => nofuel
  | S n' =>
      s ← get;
      count ← on_smem (load16 (ct_entry_count (mp_conf_table s)));
      if negb (i <? count) then mret true
      else
        entry_type ← on_smem (load8 entry);
        if entry_type =? 0 then
          id ← on_smem (load8 (entry +w 1));
          (if negb (id =? 0) then smp_init_core fuel id ≫= fun _ => mret tt else mret tt) ≫= fun _ =>
          walk_entries n' fuel (i + 1) (entry +w sizeof_cpu_entry)
        else if entry_type =? 1 then walk_entries n' fuel (i + 1) (entry +w sizeof_bus_entry)
        else if entry_type =? 2 then walk_entries n' fuel (i + 1) (entry +w sizeof_io_apic_entry)
        else if entry_type =? 3 then walk_entries n' fuel (i + 1) (entry +w sizeof_int_assign_entry)
        else if entry_type =? 4 then walk_entries n' fuel (i + 1) (entry +w sizeof_local_int_assign_entry)
        else say (Unknown_entry_type entry_type) ≫= fun _ => mret false
  end.

(** The configuration table is there: map the APIC, lay out the start-up code
    and its three variables, walk the table. *)
Definition smp_boot_cores (fuel : nat) : M smpst unit :=
  s ← get;
  let conf := mp_conf_table s in
  lapic ← on_smem (load32 (ct_local_apic_addr conf));
  on_svm (map_pages lapic lapic (Z.lor PTE_C PTE_T) (MiB 1 - 1)) ≫= fun _ =>
  on_svm (vm_change_pages_attrs KERNEL_TRAMPOLINE_LOAD_ADDR
            (Z.lor (Z.lor (Z.lor PTE_P PTE_C) PTE_T) PTE_W) KERNEL_TRAMPOLINE_MAX_SIZE) ≫= fun _ =>
  on_smem (memcpy KERNEL_TRAMPOLINE_LOAD_ADDR trampoline_bin_start trampoline_bin_size) ≫= fun _ =>
  pdir ← on_smem get_cr3;
  mmio_write32 KERNEL_TRAMPOLINE_VARS_ADDR pdir ≫= fun _ =>
  mmio_write32 (KERNEL_TRAMPOLINE_VARS_ADDR +w 4) 0 ≫= fun _ =>
  mmio_write32 (KERNEL_TRAMPOLINE_VARS_ADDR +w 8) secondary_entry ≫= fun _ =>
  say Detecting ≫= fun _ =>
  all_known ← walk_entries 65536 fuel 0 (ct_entries conf);
  if (all_known : bool) then n ← smp_initialized_cores_num; say (Woke_up n) else mret tt.

Definition smp_init (fuel : nat) : M smpst unit :=
  say Searching ≫= fun _ =>
  found ← (found ← search_for_mp_table 654336 (KiB 1);
           if negb (found =? 0) then mret found else search_for_mp_table 917504 (KiB 128));
  if found =? 0 then say Not_found ≫= fun _ => say Not_smp_compliant
  else
    s ← get;
    let float := mp_float_table s in
    say (Found_at float) ≫= fun _ =>
    phys_addr ← on_smem (load32 (ft_phys_addr float));
    if phys_addr =? 0 then say Conf_table_not_found
    else
      modify (set_conf phys_addr) ≫= fun _ =>
      length ← on_smem (load8 (ft_length float));
      spec_rev ← on_smem (load8 (ft_spec_rev float));
      say (Table_info length spec_rev phys_addr) ≫= fun _ =>
      smp_boot_cores fuel.
End Smp.

(** ** The other processors (kernel/kernel.c: kmain_secondary_cores)

    Each loads the descriptor tables, counts itself in with one locked
    increment of the counter (include/kernel/atomic.h), and halts for good. *)

Record core := Core { gdtr : Z * Z; idtr : Z * Z; cores_num : Z }.

Definition atomic_inc : M core unit := modify (fun c => Core (gdtr c) (idtr c) (cores_num c +w 1)).

Definition kmain_secondary_cores (gdt idt : Z) : M core unit :=
  modify (fun c => Core (gdt_install gdt) (idtr c) (cores_num c)) ≫= fun _ =>
  modify (fun c => Core (gdtr c) (idt_install idt) (cores_num c)) ≫= fun _ =>
  atomic_inc.

(** ** Reading memory *)

Lemma on_smem_read {A} (f : M machine A) s a : f (smach s) = Ret a (smach s) -> on_smem f s = Ret a s.
Proof.
  intros H. unfold smach in H. unfold on_smem, on_svm, on_mach, zoom. rewrite H. by destruct s as [[m p] ? ? ? ? ?].
Qed.

Lemma load8_read s a b : rd8 a (smach s) = Some b -> on_smem (load8 a) s = Ret (byte.unsigned b) s.
Proof. intros H. apply on_smem_read. by rewrite load8_eq, H. Qed.

(** The bytes [bs] lie at [a]. *)
Definition bytes_at (m : machine) (a : Z) (bs : list byte) : Prop :=
  forall i b, bs !! i = Some b -> rd8 (a +w Z.of_nat i) m = Some b.
Definition readable (m : machine) (a n : Z) : Prop := forall i, 0 <= i < n -> is_Some (rd8 (a + i) m).

Lemma bytes_app_at m a l1 l2 : bytes_at m a (l1 ++ l2) ->
  bytes_at m a l1 /\ bytes_at m (a +w Z.of_nat (length l1)) l2.
Proof.
  intros H. split; intros i b Hi.
  - apply H. by apply lookup_app_l_Some.
  - rewrite u32_add_l. replace (a + Z.of_nat (length l1) + Z.of_nat i) with (a + Z.of_nat (length l1 + i)) by lia.
    apply H. rewrite lookup_app_r by lia. by replace (length l1 + i - length l1)%nat with i by lia.
Qed.

(** ** The search *)

Definition MP_MAGIC : list byte := map byte.of_Z [95; 77; 80; 95].
Definition magic_at (m : machine) (p : Z) : Prop := bytes_at m p MP_MAGIC.

Lemma unsigned_eq b v : 0 <= v < 256 -> (byte.unsigned b =? v) = true <-> b = byte.of_Z v.
Proof.
  intros Hv. rewrite Z.eqb_eq. split.
  - intros <-. by rewrite byte.of_Z_unsigned.
  - intros ->. rewrite byte.unsigned_of_Z. unfold byte.wrap. by rewrite Z.mod_small by lia.
Qed.

Lemma is_magic_ok s p : 0 <= p -> p + 4 <= 4294967296 -> readable (smach s) p 4 ->
  exists b : bool, is_magic p s = Ret b s /\ (b = true <-> magic_at (smach s) p).
Proof.
  intros Hp Hp4 Hr.
  assert (Hb : forall i, 0 <= i < 4 -> exists b, rd8 (p +w i) (smach s) = Some b).
  { intros i Hi. rewrite u32_small by lia. by apply Hr. }
  destruct (Hb 0 ltac:(lia)) as [b0 H0], (Hb 1 ltac:(lia)) as [b1 H1], (Hb 2 ltac:(lia)) as [b2 H2],
    (Hb 3 ltac:(lia)) as [b3 H3]. pose proof H0 as H0'. rewrite Z.add_0_r, u32_small in H0' by lia.
  exists ((byte.unsigned b0 =? 95) && ((byte.unsigned b1 =? 77) && ((byte.unsigned b2 =? 80) && (byte.unsigned b3 =? 95)))).
  split.
  - unfold is_magic. rewrite (bind_Ret _ _ _ _ _ (load8_read _ _ _ H0')). destruct (byte.unsigned b0 =? 95); [|done].
    cbn [negb]. rewrite (bind_Ret _ _ _ _ _ (load8_read _ _ _ H1)). destruct (byte.unsigned b1 =? 77); [|done].
    cbn [negb]. rewrite (bind_Ret _ _ _ _ _ (load8_read _ _ _ H2)). destruct (byte.unsigned b2 =? 80); [|done].
    cbn [negb]. by rewrite (bind_Ret _ _ _ _ _ (load8_read _ _ _ H3)).
  - rewrite !andb_true_iff, !unsigned_eq by lia. split.
    + intros (-> & -> & -> & ->) [|[|[|[|i]]]] b Hi; cbn in Hi; try discriminate; by injection Hi as <-.
    + intros H. pose proof (H 0%nat _ eq_refl) as E0. pose proof (H 1%nat _ eq_refl) as E1.
      pose proof (H 2%nat _ eq_refl) as E2. pose proof (H 3%nat _ eq_refl) as E3.
      change (Z.of_nat 0) with 0 in E0. change (Z.of_nat 1) with 1 in E1. change (Z.of_nat 2) with 2 in E2.
      change (Z.of_nat 3) with 3 in E3. split; [|split; [|split]]; congruence.
Qed.

Lemma search_loop_ok n : forall s p, 0 <= p -> p + Z.of_nat n + 3 <= 4294967296 ->
  readable (smach s) p (Z.of_nat n + 3) ->
  (exists q, p <= q < p + Z.of_nat n /\ magic_at (smach s) q /\
     (forall r, p <= r < q -> ~ magic_at (smach s) r) /\ search_loop n p s = Ret 1 (set_float q s)) \/
  ((forall r, p <= r < p + Z.of_nat n -> ~ magic_at (smach s) r) /\ search_loop n p s = Ret 0 s).
Proof.
  induction n as [|n IH]; intros s p Hp Hn Hr; cbn [search_loop].
  - right. split; [lia|done].
  - destruct (is_magic_ok s p) as (b & Hb & Hiff); [lia|lia|intros i Hi; apply Hr; lia|].
    rewrite (bind_Ret _ _ _ _ _ Hb). destruct b.
    + left. exists p. split; [lia|]. split; [by apply Hiff|]. split; [lia|]. done.
    + assert (Hno : ~ magic_at (smach s) p) by (intros H; by apply Hiff in H).
      rewrite u32_small by lia.
      destruct (IH s (p + 1)) as [(q & Hq & Hm & Hlt & Hs)|[Hall Hs]]; [lia|lia| | |].
      * intros i Hi. rewrite <- Z.add_assoc. apply Hr. lia.
      * left. exists q. split; [lia|]. split; [done|]. split; [|done]. intros r Hr'.
        destruct (decide (r = p)) as [->|]; [done|]. apply Hlt. lia.
      * right. split; [|done]. intros r Hr'. destruct (decide (r = p)) as [->|]; [done|]. apply Hall. lia.
Qed.

(** ** Interrupts to the other processors *)

Section Wake.
Variable pf : platform.
Variable lapic : Z.
Variable D : nat.

(** The APIC is mapped at its own address, and whatever was written to it and
    whenever it is asked, its register at 0x30 shows bit 12 clear after fewer
    than [D] more accesses. *)
Record apic_ready (m : machine) : Prop := {
  ar_mapped : forall off, off = 48 \/ off = 768 \/ off = 784 ->
    translate m (lapic +w off) = Some (lapic +w off) /\ is_apic pf (lapic +w off) = true;
  ar_answers : forall log t, exists n, (n < D)%nat /\ has (apic_reg pf log (t + n) (lapic +w 48)) 4096 = false;
}.

Definition word_at (m : machine) (a v : Z) : Prop := load32 a m = Ret v m.

(** Nothing but [l] was written to the APIC; memory is as it was. *)
Record advanced (l : list (Z * Z)) (s s' : smpst) : Prop := {
  ad_vm : svm s' = svm s;
  ad_float : mp_float_table s' = mp_float_table s;
  ad_conf : mp_conf_table s' = mp_conf_table s;
  ad_icr : icr s' = rev l ++ icr s;
}.

Lemma advanced_refl s : advanced [] s s.
Proof. by split. Qed.
Lemma advanced_trans l1 l2 s1 s2 s3 : advanced l1 s1 s2 -> advanced l2 s2 s3 -> advanced (l1 ++ l2) s1 s3.
Proof. intros [A1 A2 A3 A4] [B1 B2 B3 B4]. split; try congruence. by rewrite B4, A4, rev_app_distr, app_assoc. Qed.
Lemma advanced_tick s : advanced [] s (tick s).
Proof. by split. Qed.
Lemma advanced_mach l s s' : advanced l s s' -> smach s' = smach s.
Proof. intros [H _ _ _]. unfold smach. by rewrite H. Qed.

Lemma mmio_write32_apic a v s : translate (smach s) a = Some a -> is_apic pf a = true ->
  mmio_write32 pf a v s = Ret tt (sent a v s).
Proof. intros Ht Hi. unfold mmio_write32. by rewrite Ht, Hi. Qed.

Lemma wait_pending_ok n : forall fuel s, (n < fuel)%nat -> apic_ready (smach s) ->
  has (apic_reg pf (icr s) (ticks s + n) (lapic +w 48)) 4096 = false ->
  exists s', wait_pending pf fuel lapic s = Ret tt s' /\ advanced [] s s'.
Proof.
  induction n as [|n IH]; intros fuel s Hf Hr Hh; (destruct fuel as [|fuel]; [lia|]); cbn [wait_pending].
  all: destruct (ar_mapped _ Hr 48) as [Ht Hi]; [by left|].
  all: rewrite (bind_Ret _ _ s (apic_reg pf (icr s) (ticks s) (lapic +w 48)) (tick s)) by (unfold mmio_read32; by rewrite Ht, Hi).
  - rewrite Nat.add_0_r in Hh. rewrite Hh. exists (tick s). split; [done|apply advanced_tick].
  - destruct (has (apic_reg pf (icr s) (ticks s) (lapic +w 48)) 4096); [|exists (tick s); split; [done|apply advanced_tick]].
    destruct (IH fuel (tick s)) as (s' & Hs & Ha); [lia|done| |].
    + cbn [tick icr ticks]. by replace (S (ticks s) + n)%nat with (ticks s + S n)%nat by lia.
    + exists s'. split; [done|]. apply (advanced_trans [] [] _ _ _ (advanced_tick s) Ha).
Qed.

(** Both routines, which differ in the command *)
Definition ipi (id command : Z) : list (Z * Z) := [(lapic +w 784, u32 (Z.shiftl id 24)); (lapic +w 768, command)].

Lemma send_ipi_ok fuel id command s : (D <= fuel)%nat -> apic_ready (smach s) ->
  exists s', (wait_pending pf fuel lapic ≫= fun _ =>
    mmio_write32 pf (lapic +w 784) (u32 (Z.shiftl id 24)) ≫= fun _ =>
    mmio_write32 pf (lapic +w 768) command ≫= fun _ => mret 0) s = Ret 0 s' /\ advanced (ipi id command) s s'.
Proof.
  intros Hf Hr. destruct (ar_answers _ Hr (icr s) (ticks s)) as (n & Hn & Hc).
  destruct (wait_pending_ok n fuel s) as (s1 & H1 & A1); [lia|done|done|].
  rewrite (bind_Ret _ _ _ _ _ H1). pose proof (advanced_mach _ _ _ A1) as Hm.
  destruct (ar_mapped _ Hr 784) as [Ht1 Hi1]; [tauto|]. destruct (ar_mapped _ Hr 768) as [Ht2 Hi2]; [tauto|].
  rewrite <- Hm in Ht1, Ht2. rewrite (bind_Ret _ _ _ _ _ (mmio_write32_apic _ _ s1 Ht1 Hi1)).
  rewrite (bind_Ret _ _ _ _ _ (mmio_write32_apic _ _ (sent _ _ s1) Ht2 Hi2)).
  eexists. split; [done|]. destruct A1 as [B1 B2 B3 B4]. split; cbn; try done. by rewrite B4.
Qed.

Lemma smp_send_init_ipi_ok fuel id s : (D <= fuel)%nat -> apic_ready (smach s) ->
  word_at (smach s) (ct_local_apic_addr (mp_conf_table s)) lapic ->
  exists s', smp_send_init_ipi pf fuel id s = Ret 0 s' /\ advanced (ipi id 17664) s s'.
Proof.
  intros Hf Hr Hw. unfold smp_send_init_ipi. rewrite (bind_Ret _ _ s s s) by done.
  rewrite (bind_Ret _ _ _ _ _ (on_smem_read _ _ _ Hw)). by apply send_ipi_ok.
Qed.

Lemma smp_send_startup_ipi_ok fuel id page s : (D <= fuel)%nat -> apic_ready (smach s) ->
  word_at (smach s) (ct_local_apic_addr (mp_conf_table s)) lapic ->
  exists s', smp_send_startup_ipi pf fuel id page s = Ret 0 s' /\ advanced (ipi id (Z.lor 17920 page)) s s'.
Proof.
  intros Hf Hr Hw. unfold smp_send_startup_ipi. rewrite (bind_Ret _ _ s s s) by done.
  rewrite (bind_Ret _ _ _ _ _ (on_smem_read _ _ _ Hw)). by apply send_ipi_ok.
Qed.

(** *** Waiting for the counter *)

(** The counter, [k] accesses from [s] on, when nothing is sent *)
Definition counter (s : smpst) (k : nat) : Z := u32 (1 + incs pf (icr s) (ticks s + k)).

(** The result of the wait: the first value above [saved] within 10000001
    looks decides. *)
Definition awaited (s : smpst) (saved tries r : Z) : Prop :=
  (exists k, tries + Z.of_nat k <= 10000000 /\ saved +w 1 <= counter s k /\
     (forall j, (j < k)%nat -> counter s j < saved +w 1) /\
     r = if saved +w 1 <? counter s k then 1 else 0) \/
  ((forall j, tries + Z.of_nat j <= 10000000 -> counter s j < saved +w 1) /\ r = 0).

Lemma counter_tick s k : counter (tick s) k = counter s (S k).
Proof. unfold counter. cbn [tick icr ticks]. do 3 f_equal. lia. Qed.

Lemma await_core_ok fuel : forall s saved tries, 0 <= tries <= 10000000 -> 10000000 - tries < Z.of_nat fuel ->
  exists r s', await_core pf fuel saved tries s = Ret r s' /\ advanced [] s s' /\ awaited s saved tries r.
Proof.
  induction fuel as [|fuel IH]; intros s saved tries Ht Hf; [lia|]. cbn [await_core].
  rewrite (bind_Ret _ _ s (counter s 0) (tick s)) by (unfold smp_initialized_cores_num, counter; by rewrite Nat.add_0_r).
  destruct (Z.ltb_spec (saved +w 1) (counter s 0)) as [Hlt|Hge].
  { eexists 1, _. split; [done|]. split; [by split|]. left. exists 0%nat.
    split; [lia|]. split; [lia|]. split; [lia|]. by apply Z.ltb_lt in Hlt as ->. }
  destruct (Z.eqb_spec (counter s 0) (saved +w 1)) as [He|Hne].
  { eexists 0, _. split; [done|]. split; [by split|]. left. exists 0%nat.
    split; [lia|]. split; [lia|]. split; [lia|]. by rewrite He, Z.ltb_irrefl. }
  destruct (Z.ltb_spec tries 10000000) as [Hl|Hl].
  - rewrite u32_small by lia.
    destruct (IH (tick s) saved (tries + 1)) as (r & s' & Hs & Ha & Hw); [lia|lia|].
    exists r, s'. split; [done|]. split; [apply (advanced_trans [] [] _ _ _ (advanced_tick s) Ha)|].
    assert (H0 : counter s 0 < saved +w 1) by lia. destruct Hw as [(k & Hk & Hc & Hb & Hr)|[Hall Hr]].
    + left. exists (S k). rewrite counter_tick in Hc, Hr. split; [lia|]. split; [done|]. split; [|done].
      intros [|j] Hj; [done|]. rewrite <- counter_tick. apply Hb. lia.
    + right. split; [|done]. intros [|j] Hj; [done|]. rewrite <- counter_tick. apply Hall. lia.
  - eexists 0, _. split; [done|]. split; [by split|]. right. split; [|done]. intros [|j] Hj; lia.
Qed.

Variable trampoline_bin_size : Z.

Definition core_ipis (id : Z) : list (Z * Z) := ipi id 17664 ++ ipi id (Z.lor 17920 8).

Lemma smp_init_core_ok fuel id s : (D <= fuel)%nat -> 10000000 < Z.of_nat fuel -> apic_ready (smach s) ->
  trampoline_bin_size <= KERNEL_TRAMPOLINE_MAX_SIZE ->
  word_at (smach s) (ct_local_apic_addr (mp_conf_table s)) lapic ->
  exists r s1 s2, smp_init_core pf trampoline_bin_size fuel id s = Ret r s2 /\
    advanced (core_ipis id) s s1 /\ advanced [] s1 s2 /\ awaited s1 (counter s 0) 0 r.
Proof.
  intros HD Hf Hr Hsz Hw. unfold smp_init_core.
  rewrite (bind_Ret _ _ s (counter s 0) (tick s)) by (unfold smp_initialized_cores_num, counter; by rewrite Nat.add_0_r).
  destruct (Z.ltb_spec KERNEL_TRAMPOLINE_MAX_SIZE trampoline_bin_size); [lia|].
  destruct (smp_send_init_ipi_ok fuel id (tick s)) as (s1 & H1 & A1); [done..|].
  rewrite (bind_Ret _ _ _ _ _ H1). cbn [negb Z.eqb].
  assert (Hm : smach s1 = smach s) by apply (advanced_mach _ _ _ A1).
  assert (Hc : mp_conf_table s1 = mp_conf_table s) by apply (ad_conf _ _ _ A1).
  destruct (smp_send_startup_ipi_ok fuel id (u8 (KERNEL_TRAMPOLINE_LOAD_ADDR / PAGE_SIZE)) s1) as (s2 & H2 & A2);
    [done|by rewrite Hm|by rewrite Hm, Hc|].
  rewrite (bind_Ret _ _ _ _ _ H2). cbn [negb Z.eqb].
  destruct (await_core_ok fuel s2 (counter s 0) 0) as (r & s3 & H3 & A3 & Haw); [lia|lia|].
  exists r, s2, s3. split; [done|]. split; [|done].
  change (core_ipis id) with ([] ++ ipi id 17664 ++ ipi id (Z.lor 17920 (u8 (KERNEL_TRAMPOLINE_LOAD_ADDR / PAGE_SIZE)))).
  eapply advanced_trans; [apply advanced_tick|]. by eapply advanced_trans.
Qed.

(** *** The walk over the table *)

Definition entry_type (x : mp_entry) : Z :=
  match x with Cpu _ => 0 | Bus _ => 1 | Io_apic _ => 2 | Int_assign _ => 3 | Local_int_assign _ => 4 end.
Definition entry_size (x : mp_entry) : Z := if entry_type x =? 0 then 20 else 8.

(** What is sent for an entry: an INIT and a STARTUP at page 8 to a processor
    other than number 0, nothing for any other entry. *)
Definition entry_ipis (x : mp_entry) : list (Z * Z) :=
  match x with
  | Cpu e => if u8 (local_apic_id e) =? 0 then [] else core_ipis (u8 (local_apic_id e))
  | _ => []
  end.

Lemma entry_length x : Z.of_nat (length (entry_bytes x)) = entry_size x.
Proof.
  destruct x as [e|e|e|e|e]; try done. cbn [entry_bytes length]. rewrite length_take, length_app, repeat_length. unfold entry_size. cbn [entry_type Z.eqb]. lia.
Qed.

Lemma entry_first x : entry_bytes x !! 0%nat = Some (byte.of_Z (entry_type x)).
Proof. by destruct x. Qed.

Lemma bytes_read s a l i b : bytes_at (smach s) a l -> l !! i = Some b ->
  on_smem (load8 (a +w Z.of_nat i)) s = Ret (byte.unsigned b) s.
Proof. intros H Hi. apply load8_read. by apply H. Qed.

Lemma walk_entries_ok es : forall n fuel i entry s,
  (length es < n)%nat -> (D <= fuel)%nat -> 10000000 < Z.of_nat fuel -> 0 <= entry < 4294967296 ->
  trampoline_bin_size <= KERNEL_TRAMPOLINE_MAX_SIZE -> apic_ready (smach s) ->
  word_at (smach s) (ct_local_apic_addr (mp_conf_table s)) lapic ->
  load16 (ct_entry_count (mp_conf_table s)) (smach s) = Ret (i + Z.of_nat (length es)) (smach s) ->
  bytes_at (smach s) entry (concat (map entry_bytes es)) ->
  exists s', walk_entries pf trampoline_bin_size n fuel i entry s = Ret true s' /\
    advanced (concat (map entry_ipis es)) s s'.
Proof.
  induction es as [|x es IH]; intros n fuel i entry s Hn HD Hf He Hsz Hr Hw Hc Hb;
    (destruct n as [|n]; [cbn in Hn; lia|]); cbn [walk_entries].
  all: rewrite (bind_Ret _ _ s s s) by done; rewrite (bind_Ret _ _ _ _ _ (on_smem_read _ _ _ Hc)).
  { cbn [length]. rewrite Z.add_0_r, Z.ltb_irrefl. exists s. split; [done|apply advanced_refl]. }
  cbn [length] in *. destruct (Z.ltb_spec i (i + Z.of_nat (S (length es)))); [|lia]. cbn [negb].
  cbn [map concat] in Hb. destruct (bytes_app_at _ _ _ _ Hb) as [Hx Hrest]. rewrite entry_length in Hrest.
  pose proof (bytes_read _ _ _ _ _ Hx (entry_first x)) as Ht. rewrite Z.add_0_r, u32_small in Ht by lia.
  rewrite (bind_Ret _ _ _ _ _ Ht).
  assert (Hnext : forall s1, advanced (entry_ipis x) s s1 ->
    exists s', walk_entries pf trampoline_bin_size n fuel (i + 1) (entry +w entry_size x) s1 = Ret true s' /\
      advanced (concat (map entry_ipis (x :: es))) s s').
  { intros s1 A1. pose proof (advanced_mach _ _ _ A1) as Hm. pose proof (ad_conf _ _ _ A1) as Hcf.
    destruct (IH n fuel (i + 1) (entry +w entry_size x) s1) as (s' & Hs & A2);
      rewrite ?Hm, ?Hcf; try done; [lia|apply u32_range|rewrite Hc; f_equal; lia|].
    exists s'. split; [done|]. by eapply advanced_trans. }
  destruct x as [e|e|e|e|e]; [|apply Hnext, advanced_refl..].
  change (byte.unsigned (byte.of_Z (entry_type (Cpu e)))) with 0. cbn [Z.eqb].
  pose proof (bytes_read _ _ _ 1 _ Hx eq_refl) as Hid. rewrite byte.unsigned_of_Z in Hid.
  rewrite (bind_Ret _ _ _ _ _ Hid). change (byte.wrap (local_apic_id e)) with (u8 (local_apic_id e)).
  cbn [entry_ipis] in Hnext. destruct (u8 (local_apic_id e) =? 0); cbn [negb].
  - rewrite (bind_Ret _ _ s tt s) by done. apply Hnext, advanced_refl.
  - destruct (smp_init_core_ok fuel (u8 (local_apic_id e)) s) as (r & s1 & s2 & H2 & A1 & A2 & _); [done..|].
    rewrite (bind_Ret _ _ s tt s2) by (by rewrite (bind_Ret _ _ _ _ _ H2)).
    apply Hnext. rewrite <- (app_nil_r (core_ipis _)). by eapply advanced_trans.
Qed.
End Wake.

(** ** Properties *)

(** The search for the multiprocessor table finds the lowest address of
    its range where the four bytes _MP_ stand, and stores it; when they stand
    nowhere it answers 0 and changes nothing. *)
Theorem search_for_mp_table_first s addr len :
  0 <= len -> 0 <= addr -> addr + len + 3 <= 4294967296 -> readable (smach s) addr (len + 3) ->
  (exists q, addr <= q < addr + len /\ magic_at (smach s) q /\
     (forall r, addr <= r < q -> ~ magic_at (smach s) r) /\
     search_for_mp_table addr len s = Ret 1 (set_float q s)) \/
  ((forall r, addr <= r < addr + len -> ~ magic_at (smach s) r) /\ search_for_mp_table addr len s = Ret 0 s).
Proof.
  intros Hl Ha He Hr. unfold search_for_mp_table.
  pose proof (search_loop_ok (Z.to_nat len) s addr) as H. rewrite Z2Nat.id in H by lia. by apply H.
Qed.

(** C29: The walk over a configuration table ends after its last entry and
    sends an INIT and a STARTUP to page 8 to exactly the processors of the
    table whose APIC id is not 0, in the order of the table and whatever
    flags their entries have; memory stays as it was.  This holds however the
    other processors count themselves in or fail to, with ten million and one
    rounds of waiting for each at the most. *)
Theorem walk_entries_wakes pf lapic D size es n fuel s :
  (length es < n)%nat -> (D <= fuel)%nat -> 10000000 < Z.of_nat fuel ->
  size <= KERNEL_TRAMPOLINE_MAX_SIZE -> apic_ready pf lapic D (smach s) ->
  word_at (smach s) (ct_local_apic_addr (mp_conf_table s)) lapic ->
  load16 (ct_entry_count (mp_conf_table s)) (smach s) = Ret (Z.of_nat (length es)) (smach s) ->
  bytes_at (smach s) (ct_entries (mp_conf_table s)) (concat (map entry_bytes es)) ->
  exists s', walk_entries pf size n fuel 0 (ct_entries (mp_conf_table s)) s = Ret true s' /\
    svm s' = svm s /\ icr s' = rev (concat (map (entry_ipis lapic) es)) ++ icr s.
Proof.
  intros Hn HD Hf Hsz Hr Hw Hc Hb.
  destruct (walk_entries_ok pf lapic D size es n fuel 0 (ct_entries (mp_conf_table s)) s) as (s' & Hs & A);
    [done..|apply u32_range|done|done|done|done|done|].
  exists s'. split; [done|]. split; [apply A|]. apply (ad_icr _ _ _ A).
Qed.

(** What smp_init_core answers: 1 when the first value above the old one
    it sees on the counter within 10000001 looks is too big, and else 0, also
    when the processor never counted itself in. *)
Theorem smp_init_core_answer pf lapic D size fuel id s :
  (D <= fuel)%nat -> 10000000 < Z.of_nat fuel -> size <= KERNEL_TRAMPOLINE_MAX_SIZE ->
  apic_ready pf lapic D (smach s) -> word_at (smach s) (ct_local_apic_addr (mp_conf_table s)) lapic ->
  exists r s1 s2, smp_init_core pf size fuel id s = Ret r s2 /\
    icr s2 = rev (core_ipis lapic id) ++ icr s /\ icr s1 = icr s2 /\
    awaited pf s1 (counter pf s 0) 0 r.
Proof.
  intros HD Hf Hsz Hr Hw.
  destruct (smp_init_core_ok pf lapic D size fuel id s) as (r & s1 & s2 & H & A1 & A2 & Haw); [done..|].
  exists r, s1, s2. split; [done|]. pose proof (ad_icr _ _ _ A1) as E1. pose proof (ad_icr _ _ _ A2) as E2.
  cbn in E2. split; [congruence|]. split; [congruence|done].
Qed.

(** ** A machine with three processors

    The low 4 MiB are mapped to themselves; the floating pointer is at
    0x9fc10, the table at 0x9f000, the start-up code at 0x30000.  Every
    processor counts itself in as soon as it is sent a STARTUP. *)

Definition ex_entries : list mp_entry :=
  [Cpu (CpuEntry 0 20 3 0 0); Cpu (CpuEntry 1 20 1 0 0); Bus (BusEntry 0 (map byte.of_Z [73; 83; 65]));
   Cpu (CpuEntry 2 20 1 0 0); Io_apic (IoApicEntry 3 17 1 4273995776);
   Int_assign (IntAssignEntry 0 0 0 1 3 1); Local_int_assign (IntAssignEntry 3 0 0 0 255 0)].

Definition ex_phys : gmap Z byte :=
  pwrite 654352 (MP_MAGIC ++ le_split 4 651264 ++ map byte.of_Z [1; 4])
    (pwrite (651264 + 34) (le_split 2 7 ++ le_split 4 4276092928)
       (pwrite (651264 + 44) (concat (map entry_bytes ex_entries))
          (pwrite 196608 (map byte.of_Z [235; 14; 144; 144]) k_phys))).

Definition ex_smp : smpst := Smpst (Vmst (Machine ex_phys 1048576 []) pm_boot) 0 0 [] 0 [].

Definition started_by (log : list (Z * Z)) : nat := length (filter (fun w : Z * Z => w.2 = 17928) log).
Definition ex_platform : platform := {|
  is_apic p := (4276092928 <=? p) && (p <? 4276097024);
  apic_reg _ _ _ := 0;
  incs log _ := Z.of_nat (started_by log);
|}.

Definition ex_run : outcome smpst unit := smp_init ex_platform 196608 4 2097152 5 ex_smp.

(** What is left behind: the interrupts, the messages, the first bytes of
    the start-up code and its variables. *)
Definition ex_result (s : smpst) : list (Z * Z) * list smp_msg * list Z * list Z :=
  (rev (icr s), rev (said s), map byte.unsigned (map (pbyte (phys (smach s))) [32768; 32769; 32770; 32771]),
   map (pload32 (phys (smach s))) [32784; 32788; 32792]).

(** The processors 1 and 2 are sent for, in this order, and count
    themselves in; the start-up code and its variables are in place. *)
Lemma smp_init_runs : exists u s', ex_run = Ret u s' /\ ex_result s' =
  ([(4276093712, 16777216); (4276093696, 17664); (4276093712, 16777216); (4276093696, 17928);
    (4276093712, 33554432); (4276093696, 17664); (4276093712, 33554432); (4276093696, 17928)],
   [Searching; Found_at 654352; Table_info 1 4 651264; Detecting; Woke_up 3],
   [235; 14; 144; 144], [1048576; 0; 2097152]).
Proof. apply (run_result (fun _ s => ex_result s)). vm_compute. reflexivity. Qed.

(** *** Witnesses *)

Lemma bytes_at_rdn m l : forall a, rdn (length l) a m = Some l -> 0 <= a < 4294967296 -> bytes_at m a l.
Proof.
  induction l as [|b l IH]; intros a H Ha i c Hi; [done|]. cbn [length rdn] in H.
  destruct (rd8 a m) as [b'|] eqn:E; [|done]. cbn in H. destruct (rdn (length l) (a +w 1) m) as [l'|] eqn:El; [|done].
  cbn in H. injection H as -> ->. destruct i as [|i]; cbn in Hi.
  - injection Hi as <-. by rewrite Z.add_0_r, u32_small.
  - replace (a +w Z.of_nat (S i)) with (a +w 1 +w Z.of_nat i) by (rewrite u32_add_l; f_equal; lia).
    apply (IH (a +w 1) El (u32_range _) i c Hi).
Qed.

Lemma loadn_rdn n a m bs v : rdn n a m = Some bs -> le_combine bs = v -> loadn n a m = Ret v m.
Proof. intros H <-. unfold loadn. by rewrite H. Qed.

Lemma readable_check m a n : forallb (fun i => match rd8 (a + i) m with Some _ => true | None => false end) (seqZ 0 n) = true ->
  readable m a n.
Proof.
  rewrite forallb_forall. intros H i Hi. specialize (H i).
  destruct (rd8 (a + i) m); [eauto|]. exfalso. cut (false = true); [done|]. apply H.
  apply list_elem_of_In, elem_of_seqZ. lia.
Qed.

Lemma search_for_mp_table_first_witness :
  exists q, 654336 <= q < 654336 + 64 /\ search_for_mp_table 654336 64 ex_smp = Ret 1 (set_float q ex_smp).
Proof.
  destruct (search_for_mp_table_first ex_smp 654336 64) as [(q & Hq & _ & _ & Hs)|[Hno _]];
    [lia|lia|lia|apply readable_check; vm_compute; reflexivity| |].
  - exists q. split; [exact Hq|exact Hs].
  - destruct (Hno 654352); [lia|]. apply bytes_at_rdn; [vm_compute; reflexivity|lia].
Defined.

(** The APIC is mapped and the table known. *)
Definition ex_mapped : smpst :=
  set_conf 651264 (set_svm (match map_pages 4276092928 4276092928 24 4096 (svm ex_smp) with Ret _ v => v | _ => svm ex_smp end) ex_smp).

Lemma ex_apic_ready : apic_ready ex_platform 4276092928 1 (smach ex_mapped).
Proof.
  split.
  - intros off [->|[->| ->]]; (split; [vm_compute; reflexivity|vm_compute; reflexivity]).
  - intros log t. exists 0%nat. split; [lia|reflexivity].
Qed.

Lemma ex_apic_addr : word_at (smach ex_mapped) (ct_local_apic_addr (mp_conf_table ex_mapped)) 4276092928.
Proof. apply (loadn_rdn _ _ _ (le_split 4 4276092928)); [vm_compute; reflexivity|reflexivity]. Qed.

Definition many : nat := Z.to_nat 10000001.

Lemma walk_entries_wakes_witness : exists s',
  walk_entries ex_platform 4 8 many 0 651308 ex_mapped = Ret true s' /\ svm s' = svm ex_mapped /\
  icr s' = rev [(4276093712, 16777216); (4276093696, 17664); (4276093712, 16777216); (4276093696, 17928);
                (4276093712, 33554432); (4276093696, 17664); (4276093712, 33554432); (4276093696, 17928)].
Proof.
  destruct (walk_entries_wakes ex_platform 4276092928 1 4 ex_entries 8 many ex_mapped) as (s' & Hs & Hv & Hi);
    [cbn; lia|unfold many; lia|unfold many; lia|unfold KERNEL_TRAMPOLINE_MAX_SIZE; lia|apply ex_apic_ready|apply ex_apic_addr| | |].
  - apply (loadn_rdn _ _ _ (le_split 2 7)); [vm_compute; reflexivity|reflexivity].
  - apply bytes_at_rdn; [vm_compute; reflexivity|apply u32_range].
  - exists s'. split; [exact Hs|]. split; [exact Hv|exact Hi].
Defined.

Lemma smp_init_core_answer_witness : exists r s2, smp_init_core ex_platform 4 many 1 ex_mapped = Ret r s2 /\
  icr s2 = rev (core_ipis 4276092928 1).
Proof.
  destruct (smp_init_core_answer ex_platform 4276092928 1 4 many 1 ex_mapped) as (r & s1 & s2 & H & Hi & _);
    [unfold many; lia|unfold many; lia|unfold KERNEL_TRAMPOLINE_MAX_SIZE; lia|apply ex_apic_ready|apply ex_apic_addr|].
  exists r, s2. split; [exact H|exact Hi].
Defined.
