(* ===== verification/Kernel.v ===== *)
(** * Kernel.v: the memory map (kernel/kernel.c: adjust_the_memory_map)

    [adjust_the_memory_map] works on the entries behind bootinfo as a list
    whose length is how many entries there really are; an access beyond it is
    [Undef].  Addresses in the entries are of type uint32_t pointer, so their
    differences count words and sums with them are scaled by four. *)

From S2P Require Import Prelude Memory Machine Pm Vm Heap Queue Desc Proc Sar.

Module MemoryMap.

Notation mmap := (list memory_map_entry).

(** [a - b] and [p + n] on uint32_t pointers *)
Definition ptr_diff (a b : Z) : Z := Z.shiftr (s32 (a - b)) 2.
Definition ptr_add (p n : Z) : Z := u32 (p + 4 * n).

Lemma ptr_diff_exact a b : -2147483648 <= a - b < 2147483648 -> ptr_diff a b = (a - b) / 4.
Proof.
  intros H. unfold ptr_diff, s32. rewrite Z.mod_small by lia. rewrite Z.shiftr_div_pow2 by lia.
  change (2 ^ 2) with 4. f_equal. lia.
Qed.

Definition get_entry (i : Z) : M mmap memory_map_entry := fun mm =>
  match zlookup mm i with Some e => Ret e mm | None => Undef end.
Definition set_entry (i : Z) (e : memory_map_entry) : M mmap unit := fun mm =>
  match zlookup mm i with Some _ => Ret tt (zupdate i e mm) | None => Undef end.

(** [for (k = 62; k > i; k--) memory_map[k + 1] = memory_map[k]]: [n] is
    62 - i, and k ends as i *)
Fixpoint shift_up (n : nat) (k : Z) : M mmap unit :=
  match n with
  | O => mret tt
  | S n' => e ← get_entry k; set_entry (k + 1) e ≫= fun _ => shift_up n' (k - 1)
  end.

Section Kern.
(** The linker's symbols *)
Variables kernel_phys kernel_size : Z.

Definition kernentry : memory_map_entry :=
  {| base_low := kernel_phys; base_high := 0; len_low := u32 (kernel_size + KiB 4 + MiB 4);
     len_high := 0; mtype := 2; acpi_ext := 0 |}.

Definition pre_entry (e : memory_map_entry) : memory_map_entry :=
  {| base_low := base_low e; base_high := base_high e;
     len_low := u32 (ptr_diff (base_low kernentry) (base_low e)); len_high := 0;
     mtype := mtype e; acpi_ext := acpi_ext e |}.
Definition pre_align_entry (e : memory_map_entry) : memory_map_entry :=
  {| base_low := ptr_add (base_low e) (len_low (pre_entry e)); base_high := 0;
     len_low := len_low e -w len_low (pre_entry e); len_high := 0;
     mtype := mtype e; acpi_ext := acpi_ext e |}.
Definition post_entry (e : memory_map_entry) : memory_map_entry :=
  {| base_low := ptr_add (base_low kernentry) (len_low kernentry); base_high := 0;
     len_low := u32 (ptr_diff (ptr_add (base_low e) (len_low e)) (ptr_add (base_low kernentry) (len_low kernentry)));
     len_high := 0; mtype := 1; acpi_ext := 0 |}.

(** The body of the first loop; the result is i at its end. *)
Definition adjust_step (i : Z) : M mmap Z :=
  e ← get_entry i;
  let d := ptr_diff (base_low kernentry) (base_low e) in
  if negb (mtype e =? 1) then mret i
  else if base_low kernentry <? base_low e then mret i
  else if len_low e <? u32 (len_low kernentry + d) then mret i
  else
    i ← (if 0 <? d then
           shift_up (Z.to_nat (62 - i)) 62 ≫= fun _ =>
           set_entry i (pre_entry e) ≫= fun _ =>
           set_entry (i + 1) (pre_align_entry e) ≫= fun _ => mret (i + 1)
         else mret i);
    set_entry i kernentry ≫= fun _ =>
    if negb (u32 (len_low e - len_low kernentry - d) =? 0) then
      shift_up (Z.to_nat (62 - i)) 62 ≫= fun _ =>
      set_entry (i + 1) (post_entry e) ≫= fun _ => mret i
    else mret i.

(** [for (int i = 0; i < 61; i++)]; every turn moves i on, so 61 turns do *)
Fixpoint adjust_insert (fuel : nat) (i : Z) : M mmap unit :=
  match fuel with
  | O => nofuel
  | S fuel' => if i <? 61 then i' ← adjust_step i; adjust_insert fuel' (i' + 1) else mret tt
  end.

(** [while ((e + j)->type == e->type) { e->len_low += (e + j)->len_low; j++; }] *)
Fixpoint merge_run (fuel : nat) (i j : Z) : M mmap Z :=
  match fuel with
  | O => nofuel
  | S fuel' =>
      e ← get_entry i; f ← get_entry (i + j);
      if mtype f =? mtype e then
        set_entry i {| base_low := base_low e; base_high := base_high e; len_low := len_low e +w len_low f;
                       len_high := len_high e; mtype := mtype e; acpi_ext := acpi_ext e |} ≫= fun _ =>
        merge_run fuel' i (j + 1)
      else mret j
  end.

(** One turn of the merging loop; [fuel] bounds the run of equal types. *)
Definition merge_step (fuel : nat) (i : Z) : M mmap unit :=
  e ← get_entry i;
  if Z.lor (len_low e) (len_high e) =? 0 then mret tt
  else
    f ← get_entry (i + 1);
    if mtype f =? mtype e then
      j ← merge_run fuel i 1;
      let j := j - 1 in
      for_up (Z.to_nat (64 - i - 1 - (i + 1))) (i + 1) (fun k => g ← get_entry (k + j); set_entry k g)
    else mret tt.

Record bootinfo := Bootinfo { memory_map : mmap; mem_avail : Z }.
Definition on_map {A} : M mmap A -> M bootinfo A := zoom memory_map (fun mm b => Bootinfo mm (mem_avail b)).

Definition add_avail (i : Z) : M bootinfo unit :=
  e ← on_map (get_entry i);
  if (mtype e =? 1) || (mtype e =? 3) then
    modify (fun b => Bootinfo (memory_map b) (mem_avail b +w len_low e))
  else mret tt.

Definition adjust_the_memory_map (fuel : nat) : M bootinfo unit :=
  on_map (adjust_insert 62 0) ≫= fun _ =>
  on_map (for_up 64 0 (merge_step fuel)) ≫= fun _ =>
  for_up 64 0 add_avail.

(** ** Bounds *)

Lemma get_entry_out i mm : Z.of_nat (length mm) <= i -> get_entry i mm = Undef.
Proof.
  intros Hi. unfold get_entry. destruct (zlookup mm i) eqn:E; [|done].
  apply zlookup_Some_range in E. lia.
Qed.

Lemma shift_up_out n mm : (0 < n)%nat -> Z.of_nat (length mm) <= 62 -> shift_up n 62 mm = Undef.
Proof.
  intros Hn Hl. destruct n; [lia|]. cbn [shift_up]. unfold mbind, M_bind. by rewrite get_entry_out.
Qed.

(** A step on a map that has no entry 62 either leaves it in place or goes
    out of bounds. *)
Lemma adjust_step_short i mm : 0 <= i < Z.of_nat (length mm) -> Z.of_nat (length mm) <= 60 ->
  adjust_step i mm = Undef \/ exists mm', adjust_step i mm = Ret i mm' /\ length mm' = length mm.
Proof.
  intros Hi Hl. unfold adjust_step. destruct (zlookup_in_range mm i) as [e He]; [lia|].
  rewrite (bind_Ret (get_entry i) _ mm e mm) by (unfold get_entry; by rewrite He).
  destruct (negb (mtype e =? 1)); [eauto|]. destruct (base_low kernentry <? base_low e); [eauto|].
  destruct (len_low e <? _); [eauto|]. destruct (0 <? ptr_diff _ _).
  { left. apply bind_Undef, bind_Undef, shift_up_out; lia. }
  erewrite bind_Ret by done. rewrite (bind_Ret (set_entry i _) _ mm tt (zupdate i kernentry mm)) by (unfold set_entry; by rewrite He).
  destruct (negb _).
  - left. apply bind_Undef, shift_up_out; [lia|]. rewrite zupdate_length. lia.
  - right. eexists. split; [done|]. apply zupdate_length.
Qed.

Lemma adjust_insert_short n : forall i mm, Z.of_nat (length mm) <= 60 -> 0 <= i <= Z.of_nat (length mm) ->
  Z.of_nat (length mm) - i < Z.of_nat n -> adjust_insert n i mm = Undef.
Proof.
  induction n as [|n IH]; intros i mm Hl Hi Hn; [lia|]. cbn [adjust_insert].
  destruct (Z.ltb_spec i 61); [|lia]. destruct (decide (i = Z.of_nat (length mm))) as [Heq|Hne].
  - apply bind_Undef, bind_Undef, get_entry_out. lia.
  - destruct (adjust_step_short i mm) as [Hs|(mm' & Hs & Hlen)]; [lia|lia| |].
    + by apply bind_Undef.
    + rewrite (bind_Ret _ _ _ _ _ Hs). apply IH; lia.
Qed.

(** ** Splitting *)

Lemma get_entry_Ret i mm e : zlookup mm i = Some e -> get_entry i mm = Ret e mm.
Proof. intros H. unfold get_entry. by rewrite H. Qed.

Lemma set_entry_Ret i e mm : 0 <= i < Z.of_nat (length mm) -> set_entry i e mm = Ret tt (zupdate i e mm).
Proof. intros H. unfold set_entry. by destruct (zlookup_in_range mm i H) as [? ->]. Qed.

Lemma zlookup_zupdate {A} i j (x : A) l : 0 <= i < Z.of_nat (length l) ->
  zlookup (zupdate i x l) j = if j =? i then Some x else zlookup l j.
Proof.
  intros Hi. destruct (Z.eqb_spec j i) as [->|Hne]; [by apply zlookup_zupdate_eq|].
  by rewrite zlookup_zupdate_ne.
Qed.

(** The entries after [k - n] move up by one place, the last one gets lost. *)
Lemma shift_up_ok n : forall k mm, 0 <= k - Z.of_nat n -> k + 1 < Z.of_nat (length mm) ->
  exists mm', shift_up n k mm = Ret tt mm' /\ length mm' = length mm /\
    forall j, zlookup mm' j = zlookup mm (if (k - Z.of_nat n + 2 <=? j) && (j <=? k + 1) then j - 1 else j).
Proof.
  induction n as [|n IH]; intros k mm Hk Hl; cbn [shift_up].
  - exists mm. split; [done|]. split; [done|]. intros j.
    destruct (Z.leb_spec (k - Z.of_nat 0 + 2) j), (Z.leb_spec j (k + 1)); done || lia.
  - destruct (zlookup_in_range mm k) as [e He]; [lia|]. rewrite (bind_Ret _ _ _ _ _ (get_entry_Ret _ _ _ He)).
    rewrite (bind_Ret _ _ _ _ _ (set_entry_Ret (k + 1) e mm ltac:(lia))).
    destruct (IH (k - 1) (zupdate (k + 1) e mm)) as (mm' & -> & Hlen & Hj); [lia|rewrite zupdate_length; lia|].
    exists mm'. split; [done|]. rewrite zupdate_length in Hlen. split; [done|]. intros j. rewrite Hj.
    rewrite zlookup_zupdate by lia.
    destruct (Z.leb_spec (k - Z.of_nat (S n) + 2) j), (Z.leb_spec j (k + 1)),
      (Z.leb_spec (k - 1 - Z.of_nat n + 2) j), (Z.leb_spec j (k - 1 + 1)); cbn [andb]; try lia.
    all: destruct (Z.eqb_spec (j - 1) (k + 1)), (Z.eqb_spec j (k + 1)); try lia; try done.
    rewrite <- He. f_equal. lia.
Qed.

(** Opening a place after entry [i] of a map of 64 and filling it. *)
Lemma insert_after_ok {A} i x mm (f : M mmap A) : 0 <= i <= 62 -> length mm = 64%nat ->
  exists mm', (shift_up (Z.to_nat (62 - i)) 62 ≫= fun _ => set_entry (i + 1) x ≫= fun _ => f) mm = f mm' /\
    length mm' = 64%nat /\
    forall j, 0 <= j < 64 ->
      zlookup mm' j = if j =? i + 1 then Some x else zlookup mm (if j <=? i then j else j - 1).
Proof.
  intros Hi Hl. destruct (shift_up_ok (Z.to_nat (62 - i)) 62 mm) as (m1 & H1 & Hl1 & Hj); [lia..|].
  exists (zupdate (i + 1) x m1). rewrite (bind_Ret _ _ _ _ _ H1).
  rewrite (bind_Ret _ _ _ _ _ (set_entry_Ret (i + 1) x m1 ltac:(lia))). split; [done|].
  split; [by rewrite zupdate_length, Hl1|]. intros j Hjr. rewrite zlookup_zupdate by lia.
  destruct (Z.eqb_spec j (i + 1)); [done|]. rewrite Hj. f_equal.
  destruct (Z.leb_spec (62 - Z.of_nat (Z.to_nat (62 - i)) + 2) j), (Z.leb_spec j (62 + 1)), (Z.leb_spec j i); cbn [andb]; lia.
Qed.

Lemma pre_part e i mm : 0 <= i < 61 -> length mm = 64%nat ->
  exists mm', (shift_up (Z.to_nat (62 - i)) 62 ≫= fun _ => set_entry i (pre_entry e) ≫= fun _ =>
      set_entry (i + 1) (pre_align_entry e) ≫= fun _ => mret (i + 1)) mm = Ret (i + 1) mm' /\
    length mm' = 64%nat /\
    forall j, 0 <= j < 64 -> j <> i + 1 ->
      zlookup mm' j = if j =? i then Some (pre_entry e) else zlookup mm (if j <=? i then j else j - 1).
Proof.
  intros Hi Hl. destruct (shift_up_ok (Z.to_nat (62 - i)) 62 mm) as (m1 & H1 & Hl1 & Hj); [lia..|].
  rewrite (bind_Ret _ _ _ _ _ H1).
  rewrite (bind_Ret _ _ _ _ _ (set_entry_Ret i (pre_entry e) m1 ltac:(lia))).
  rewrite (bind_Ret _ _ _ _ _ (set_entry_Ret (i + 1) (pre_align_entry e) (zupdate i (pre_entry e) m1)
    ltac:(rewrite zupdate_length; lia))).
  eexists. split; [done|]. split; [by rewrite !zupdate_length, Hl1|]. intros j Hjr Hne.
  rewrite !zlookup_zupdate by (rewrite ?zupdate_length; lia).
  destruct (Z.eqb_spec j (i + 1)); [done|]. destruct (Z.eqb_spec j i); [done|]. rewrite Hj. f_equal.
  destruct (Z.leb_spec (62 - Z.of_nat (Z.to_nat (62 - i)) + 2) j), (Z.leb_spec j (62 + 1)), (Z.leb_spec j i); cbn [andb]; lia.
Qed.

Lemma kern_part e (rest : bool) i mm : 0 <= i < 62 -> length mm = 64%nat ->
  exists mm', (set_entry i kernentry ≫= fun _ =>
      if rest then shift_up (Z.to_nat (62 - i)) 62 ≫= fun _ => set_entry (i + 1) (post_entry e) ≫= fun _ => mret i
      else mret i) mm = Ret i mm' /\
    length mm' = 64%nat /\
    forall j, 0 <= j < 64 ->
      zlookup mm' j = if j =? i then Some kernentry
        else if rest && (j =? i + 1) then Some (post_entry e)
        else zlookup mm (if rest && (i <? j) then j - 1 else j).
Proof.
  intros Hi Hl. rewrite (bind_Ret _ _ _ _ _ (set_entry_Ret i kernentry mm ltac:(lia))). destruct rest; cbn [andb].
  - destruct (insert_after_ok i (post_entry e) (zupdate i kernentry mm) (mret i)) as (mm' & -> & Hl' & Hj);
      [lia|by rewrite zupdate_length|].
    exists mm'. split; [done|]. split; [done|]. intros j Hjr. rewrite Hj by done.
    rewrite zlookup_zupdate by lia.
    destruct (Z.eqb_spec j i), (Z.eqb_spec j (i + 1)), (Z.leb_spec j i), (Z.ltb_spec i j); try lia; try done.
    all: destruct (Z.eqb_spec j i), (Z.eqb_spec (j - 1) i); try lia; done.
  - eexists. split; [done|]. split; [by rewrite zupdate_length|]. intros j Hjr. by rewrite zlookup_zupdate by lia.
Qed.

(** What an entry is split into. *)
Definition pieces (e : memory_map_entry) : list memory_map_entry :=
  let d := ptr_diff (base_low kernentry) (base_low e) in
  (if 0 <? d then [pre_entry e] else []) ++ [kernentry] ++
  (if negb (u32 (len_low e - len_low kernentry - d) =? 0) then [post_entry e] else []).

(** Entry [i] of a map of 64 was replaced by [ps], the ones after it moved up. *)
Definition replaced (i : Z) (ps mm mm' : mmap) : Prop :=
  length mm' = 64%nat /\
  forall j, 0 <= j < 64 ->
    zlookup mm' j = if j <? i then zlookup mm j
                    else if j <? i + Z.of_nat (length ps) then zlookup ps (j - i)
                    else zlookup mm (j - Z.of_nat (length ps) + 1).

Lemma zlookup_cons {A} (x : A) l n : 0 <= n -> zlookup (x :: l) n = if n =? 0 then Some x else zlookup l (n - 1).
Proof.
  intros Hn. unfold zlookup. destruct (Z.ltb_spec n 0); [lia|]. destruct (Z.eqb_spec n 0) as [->|]; [done|].
  destruct (Z.ltb_spec (n - 1) 0); [lia|]. replace (Z.to_nat n) with (S (Z.to_nat (n - 1))) by lia. done.
Qed.

Ltac map_cases :=
  repeat match goal with |- context [?a =? ?b] => destruct (Z.eqb_spec a b) end;
  repeat match goal with |- context [?a <? ?b] => destruct (Z.ltb_spec a b) end;
  repeat match goal with |- context [?a <=? ?b] => destruct (Z.leb_spec a b) end;
  try lia.

(** Lookups in a map with [ps] at [i], place by place. *)
Ltac lookups i j H :=
  destruct (Z.ltb_spec j i); [|rewrite !zlookup_cons by lia];
  map_cases; try rewrite H by lia; map_cases; try reflexivity; try (f_equal; lia);
  repeat (rewrite zlookup_cons by lia; map_cases; try reflexivity).

Lemma adjust_step_split i e mm : 0 <= i < 61 -> length mm = 64%nat -> zlookup mm i = Some e -> mtype e = 1 ->
  base_low e <= base_low kernentry ->
  u32 (len_low kernentry + ptr_diff (base_low kernentry) (base_low e)) <= len_low e ->
  exists i' mm', adjust_step i mm = Ret i' mm' /\ i <= i' <= i + 1 /\ replaced i (pieces e) mm mm'.
Proof.
  intros Hi Hl He Ht Hb Hfit. unfold adjust_step. rewrite (bind_Ret _ _ _ _ _ (get_entry_Ret _ _ _ He)).
  rewrite Ht. change (negb (1 =? 1)) with false. cbv iota.
  destruct (Z.ltb_spec (base_low kernentry) (base_low e)); [lia|].
  destruct (Z.ltb_spec (len_low e) (u32 (len_low kernentry + ptr_diff (base_low kernentry) (base_low e)))); [lia|].
  unfold pieces. set (d := ptr_diff _ _). set (rest := negb _). destruct (0 <? d).
  - destruct (pre_part e i mm Hi Hl) as (m1 & H1 & Hl1 & Hj1). rewrite (bind_Ret _ _ _ _ _ H1).
    destruct (kern_part e rest (i + 1) m1) as (m2 & -> & Hl2 & Hj2); [lia|done|].
    exists (i + 1), m2. split; [done|]. split; [lia|]. split; [done|]. intros j Hj. rewrite Hj2 by done.
    destruct rest; cbn [andb app length]; lookups i j Hj1.
  - erewrite bind_Ret by done. destruct (kern_part e rest i mm) as (m2 & -> & Hl2 & Hj2); [lia|done|].
    exists i, m2. split; [done|]. split; [lia|]. split; [done|]. intros j Hj. rewrite Hj2 by done.
    destruct rest; cbn [andb app length]; lookups i j Hj2.
Qed.

End Kern.

(** C39: How the area that holds the kernel is split in a map of 64 entries:
    into the area before the kernel, the kernel's and the area after it, the
    following entries moving up.  Because the addresses are word pointers, the
    area before is listed with a quarter of its length, and the area after
    starts four kernel lengths on and ends that much past the area's end:
    three kernel lengths and three quarters of the offset. *)
Theorem adjust_step_splits kp ks i e mm :
  let kern := kernentry kp ks in let klen := len_low kern in let off := kp - base_low e in
  0 <= i < 61 -> length mm = 64%nat -> zlookup mm i = Some e -> mtype e = 1 ->
  0 <= base_low e <= kp -> off mod 4 = 0 -> kp + 4 * klen < 2 ^ 31 ->
  0 <= len_low e -> base_low e + 4 * len_low e < 2 ^ 31 -> klen + off / 4 <= len_low e ->
  exists i' mm', adjust_step kp ks i mm = Ret i' mm' /\
    replaced i ((if base_low e <? kp then [pre_entry kp ks e] else []) ++ [kern] ++
                (if klen + off / 4 <? len_low e then [post_entry kp ks e] else [])) mm mm' /\
    len_low (pre_entry kp ks e) = off / 4 /\
    base_low (post_entry kp ks e) = kp + 4 * klen /\
    base_low (post_entry kp ks e) + len_low (post_entry kp ks e) =
      base_low e + len_low e + 3 * klen + 3 * (off / 4).
Proof.
  intros kern klen off Hi Hl He Ht Hb Hoff Hk Hle Hend Hfit.
  assert (Hklen : 0 <= klen) by (apply u32_range).
  assert (Hd : ptr_diff (base_low kern) (base_low e) = off / 4).
  { change (base_low kern) with kp. unfold off. apply ptr_diff_exact. lia. }
  assert (Hoe : off = kp - base_low e) by done. clearbody off.
  assert (Hq : off = 4 * (off / 4)) by (by apply Z.div_exact). change (2 ^ 31) with 2147483648 in *.
  destruct (adjust_step_split kp ks i e mm) as (i' & mm' & Hs & _ & Hr); [done..| | |].
  { cbn [kernentry base_low]. lia. }
  { fold kern klen. rewrite Hd, u32_small by lia. lia. }
  exists i', mm'. split; [done|]. split.
  { unfold pieces in Hr. fold kern klen in Hr. rewrite Hd in Hr.
    rewrite u32_small in Hr by lia.
    replace (0 <? off / 4) with (base_low e <? kp) in Hr by (destruct (Z.ltb_spec (base_low e) kp), (Z.ltb_spec 0 (off / 4)); lia).
    replace (negb (len_low e - klen - off / 4 =? 0)) with (klen + off / 4 <? len_low e) in Hr
      by (destruct (Z.ltb_spec (klen + off / 4) (len_low e)), (Z.eqb_spec (len_low e - klen - off / 4) 0); cbn; lia).
    exact Hr. }
  unfold pre_entry, post_entry. fold kern klen. rewrite Hd. cbn [len_low base_low].
  split; [apply u32_small; lia|]. unfold ptr_add. change (base_low kern) with kp.
  rewrite (u32_small (kp + 4 * klen)), (u32_small (base_low e + 4 * len_low e)) by lia.
  split; [done|]. rewrite ptr_diff_exact by lia.
  replace (base_low e + 4 * len_low e - (kp + 4 * klen)) with ((len_low e - klen - off / 4) * 4) by lia.
  rewrite Z.div_mul by done. rewrite u32_small by lia. lia.
Qed.

(** C40: The map in struct kern_bootinfo has 16 entries, but the loops run to
    61 and 64: whatever the map is, unless more than 60 entries lie behind it,
    adjust_the_memory_map accesses memory outside the array. *)
Theorem adjust_out_of_bounds kp ks fuel b : (length (memory_map b) <= 60)%nat ->
  adjust_the_memory_map kp ks fuel b = Undef.
Proof.
  intros Hl. unfold adjust_the_memory_map, mbind at 1, M_bind at 1, on_map, zoom.
  by rewrite adjust_insert_short by lia.
Qed.

Lemma adjust_out_of_bounds_witness :
  adjust_the_memory_map 1048576 65536 64 (Bootinfo mm_boot 0) = Undef.
Proof. apply (adjust_out_of_bounds 1048576 65536 64 (Bootinfo mm_boot 0)). cbn. lia. Defined.

(** The usual 127 MiB behind the first one, with the kernel 1 MiB into it. *)
Definition pc_area : memory_map_entry := Build_memory_map_entry 1048576 0 133169152 0 1 1.
Lemma adjust_step_splits_witness : exists i' mm',
  adjust_step 2097152 65536 0 (repeat pc_area 64) = Ret i' mm' /\
  len_low (pre_entry 2097152 65536 pc_area) = 262144 /\
  base_low (post_entry 2097152 65536 pc_area) + len_low (post_entry 2097152 65536 pc_area) =
    1048576 + 133169152 + 3 * 4263936 + 3 * 262144.
Proof.
  destruct (adjust_step_splits 2097152 65536 0 pc_area (repeat pc_area 64)) as (i' & mm' & H & _ & Hp & _ & He);
    [lia|reflexivity|reflexivity|reflexivity|cbn; lia|reflexivity|vm_compute; reflexivity|cbn; lia|vm_compute; reflexivity|vm_compute; discriminate|].
  exists i', mm'. split; [exact H|]. split; [exact Hp|exact He].
Defined.

End MemoryMap.
