(* ===== verification/Kmain.v ===== *)
(** * Kmain.v: the start of the system (kernel/kernel.c: kmain)

    kmain runs the initialisations of all parts in order, loads the essential
    processes from the archive and enters the first one.  The state is the
    kernel's of Proc.v with what the other parts keep: the boot information,
    the segment table and the table registers, the console, the other
    processors.  Each part runs on its own share through [zoom].  Diagnostics
    are left out, as in the parts. *)

From S2P Require Import Prelude Memory Machine Pm Vm Heap Queue Desc Proc Syscall System Sar Text Console Devices Smp Kernel.
Import MemoryMap.

Module Boot.

Section Load.
Variable sy : symbols.

(** One turn of the loop over the essential processes: whether the file was
    found in the archive.  [fuel] bounds the walk over the archive. *)
Definition load_process (fuel : nat) (initrd nm : Z) : M kst bool :=
  k ← get;
  let rd := fun a : Z => rd8 a (mach (vm k)) in
  fhdr ← sar_lookup (S:=kst) rd fuel rd initrd nm;
  if fhdr =? 0 then mret false
  else
    offset ← on_mem (load32 (fhdr +w 4));
    size ← on_mem (load32 fhdr);
    proc_new_from_memory sy nm false true (initrd +w offset) size ≫= fun _ => mret true.

(** [names]: the strings of essential_initrd_processes *)
Fixpoint load_processes (fuel : nat) (initrd : Z) (names : list Z) (all_processes_loaded : bool) : M kst bool :=
  match names with
  | [] => mret all_processes_loaded
  | nm :: names' =>
      found ← load_process fuel initrd nm;
      load_processes fuel initrd names' (all_processes_loaded && found)
  end.

Definition start_processes (fuel : nat) (initrd : Z) (names : list Z) : M kst iret_frame :=
  load_processes fuel initrd names true ≫= fun all_processes_loaded : bool =>
  if all_processes_loaded then proc_kickoff_first_process else halt.
End Load.

(** ** The whole state *)

Record sys := Sys {
  kern : kst;
  boot : bootinfo;
  gdt : list gdt_entry;
  gdtr : Z * Z; idtr : Z * Z;          (* what lgdt and lidt loaded *)
  uart_reads : nat; display : Vga.vga; (* the console beside the machine *)
  smp : smpst;                         (* its memory is the kernel's *)
}.

Definition set_kern (k : kst) (s : sys) : sys := Sys k (boot s) (gdt s) (gdtr s) (idtr s) (uart_reads s) (display s) (smp s).
Definition set_boot (b : bootinfo) (s : sys) : sys := Sys (kern s) b (gdt s) (gdtr s) (idtr s) (uart_reads s) (display s) (smp s).
Definition set_gdt (g : list gdt_entry) (r : Z * Z) (s : sys) : sys :=
  Sys (kern s) (boot s) g r (idtr s) (uart_reads s) (display s) (smp s).
Definition set_idtr (r : Z * Z) (s : sys) : sys := Sys (kern s) (boot s) (gdt s) (gdtr s) r (uart_reads s) (display s) (smp s).

Definition on_kern {A} : M kst A -> M sys A := zoom kern set_kern.
Definition on_boot {A} : M bootinfo A -> M sys A := zoom boot set_boot.
Definition on_console {A} : M Com.console A -> M sys A :=
  zoom (fun s => Com.Console (mach (vm (kern s))) (uart_reads s) (display s))
       (fun c s => Sys (set_vm (set_mach (Com.cpu c) (vm (kern s))) (kern s)) (boot s) (gdt s) (gdtr s) (idtr s)
                       (Com.reads c) (Com.display c) (smp s)).
Definition on_smp {A} : M smpst A -> M sys A :=
  zoom (fun s => set_svm (vm (kern s)) (smp s))
       (fun c s => Sys (set_vm (svm c) (kern s)) (boot s) (gdt s) (gdtr s) (idtr s) (uart_reads s) (display s) c).

(** What the linker fixes: addresses of data, handlers and assembly stubs *)
Record image := Image {
  im_sy : symbols;
  kernel_phys : Z; kernel_size : Z; kernel_stack_top : Z;
  tss_addr : Z; gdt_addr : Z; idt_addr : Z;
  isr : Z -> Z; irq : Z -> Z;
  int222 : Z; int186 : Z; int190 : Z;
  im_screen_of_death : Z; im_timer_handler : Z; im_kbd_handler : Z;
  rply_msg : Z; send_msg : Z; recv_msg : Z;
  trampoline_start : Z; trampoline_size : Z; secondary_entry : Z;
  essential_initrd_processes : list Z;
}.

Section Kmain.
Variable im : image.
Variable pf : platform.        (* the other processors *)
Variable cfg : Z -> Z.         (* the PCI configuration space *)
Variable initrd_addr : Z.      (* bootinfo's field *)
Variable fuel : nat.           (* for the waits and the walks *)

Definition gdt_start : M sys unit := fun s =>
  match gdt_init (tss_addr im) (kernel_stack_top im) (gdt s) with
  | Some (g, t) => Ret tt (set_kern (set_tss t (kern s)) (set_gdt g (gdt_install (gdt_addr im)) s))
  | None => Undef
  end.

Definition modify_idt (f : list idt_entry -> list idt_entry) : M sys unit :=
  on_kern (modify (fun k => set_idt (f (Proc.idt k)) k)).
Definition modify_tabs (f : int_tables -> option int_tables) : M sys unit := on_kern (fun k =>
  match f (tabs k) with Some t => Ret tt (set_tabs t k) | None => Undef end).
Definition modify_irqs (f : list irq_handler_entry -> option (list irq_handler_entry)) : M sys unit :=
  modify_tabs (fun t => q ← f (irq_handlers t); Some (IntTables (isr_handlers t) q (int_handlers t))).

Definition idt_init : M sys unit :=
  modify_idt (fun t => set_gates 32 0 (isr im) 0 (repeat (IdtEntry 0 0 0 0 0) (length t))) ≫= fun _ =>
  on_kern (on_mem irq_remap) ≫= fun _ =>
  modify_idt (set_gates 16 32 (irq im) 0) ≫= fun _ =>
  modify (set_idtr (idt_install (idt_addr im))) ≫= fun _ =>
  modify_tabs (fun t => Some (IntTables (idt_init_isrs (im_screen_of_death im) (isr_handlers t)) (irq_handlers t) (int_handlers t))).

Definition timer_start : M sys unit :=
  s ← get;
  q ← on_kern (on_mem (Timer.timer_install (im_timer_handler im) (irq_handlers (tabs (kern s)))));
  modify_irqs (fun _ => q).

Definition heap_start : M sys unit := on_kern (fun k =>
  match on_vm heap_init k with
  | Ret b k' => Ret tt (Kst (vm k') b (tss k') (Proc.idt k') (tabs k') (pt k'))
  | Halted => Halted | Faulted a => Faulted a | Undef => Undef | NoFuel => NoFuel
  end).

Definition kmain : M sys iret_frame :=
  on_boot (adjust_the_memory_map (kernel_phys im) (kernel_size im) fuel) ≫= fun _ =>
  on_console Com.print_init ≫= fun _ =>
  gdt_start ≫= fun _ =>
  idt_init ≫= fun _ =>
  b ← on_boot get;
  on_kern (on_vm (on_pm (pm_init (memory_map b)))) ≫= fun _ =>
  on_kern (on_vm vm_init) ≫= fun _ =>
  modify_irqs (Kbd.kbd_install (im_kbd_handler im)) ≫= fun _ =>
  timer_start ≫= fun _ =>
  heap_start ≫= fun _ =>
  on_kern (syscall_install (int222 im) (int186 im) (int190 im) (rply_msg im) (send_msg im) (recv_msg im)) ≫= fun _ =>
  on_kern (proc_earlyinit (im_sy im)) ≫= fun _ =>
  on_kern (on_mem (Pci.pci_init cfg)) ≫= fun _ =>
  on_smp (smp_init pf (trampoline_start im) (trampoline_size im) (secondary_entry im) fuel) ≫= fun _ =>
  on_kern (start_processes (im_sy im) fuel initrd_addr (essential_initrd_processes im)).
End Kmain.

(** ** What the later initialisations leave alone

    Interrupt table, handlers and the heap's flag are set up early; creating
    and entering processes keeps them. *)

Definition wires (k : kst) : list idt_entry * int_tables * bool := (Proc.idt k, tabs k, heap_initialized k).
Definition keeps_wires {A} (m : M kst A) : Prop := forall k a k', m k = Ret a k' -> wires k' = wires k.

Create HintDb wiredb.

Lemma wires_bind {A B} (m : M kst A) (f : A -> M kst B) :
  keeps_wires m -> (forall a, keeps_wires (f a)) -> keeps_wires (m ≫= f).
Proof. intros Hm Hf k b k' H. step H a k1 H1. rewrite (Hf _ _ _ _ H). by apply (Hm _ a). Qed.
Lemma wires_ret {A} (a : A) : keeps_wires (mret a : M kst A).
Proof. by intros k b k' [_ <-]%ret_inv. Qed.
Lemma wires_on_vm {A} (m : M vmst A) : keeps_wires (on_vm m).
Proof. intros k a k' H. unfold on_vm, zoom in H. destruct (m (vm k)); try done. by apply ret_inj in H as [_ <-]. Qed.
Lemma wires_on_mem {A} (m : M machine A) : keeps_wires (on_mem m).
Proof. apply wires_on_vm. Qed.
Lemma wires_on_pt {A} (m : M ptable A) : keeps_wires (on_pt m).
Proof. intros k a k' H. unfold on_pt, zoom in H. destruct (m (pt k)); try done. by apply ret_inj in H as [_ <-]. Qed.
Lemma wires_set_tss f : keeps_wires (modify (fun k => set_tss (f k) k)).
Proof. by intros k a k' [_ <-]%ret_inj. Qed.
Hint Resolve wires_ret wires_on_vm wires_on_mem wires_on_pt wires_set_tss : wiredb.
Ltac wired := repeat (apply wires_bind; [solve [auto with wiredb]|intros ?]); auto with wiredb.

Lemma wires_push_all vs : forall stack, keeps_wires (push_all stack vs).
Proof. induction vs as [|v vs IH]; intros stack; cbn [push_all]; wired. Qed.
Hint Resolve wires_push_all : wiredb.

Lemma wires_proc_new sy nm priv super addr size : keeps_wires (proc_new_from_memory sy nm priv super addr size).
Proof. unfold proc_new_from_memory. apply wires_bind; [|intros ?; wired]. unfold proc_new. wired. Qed.

(** Entering a program changes memory alone: anything else of the state is
    kept. *)
Definition beside_vm {X} (F : kst -> X) : Prop := forall v k, F (set_vm v k) = F k.
Definition keeps {X} (F : kst -> X) {A} (m : M kst A) : Prop := forall k a k', m k = Ret a k' -> F k' = F k.

Section BesideVm.
Context {X : Type} (F : kst -> X) (HF : beside_vm F).

Lemma keep_bind {A B} (m : M kst A) (f : A -> M kst B) : keeps F m -> (forall a, keeps F (f a)) -> keeps F (m ≫= f).
Proof using. intros Hm Hf k b k' H. step H a k1 H1. rewrite (Hf _ _ _ _ H). by apply (Hm _ a). Qed.
Lemma keep_ret {A} (a : A) : keeps F (mret a : M kst A).
Proof using. by intros k b k' [_ <-]%ret_inv. Qed.
Lemma keep_vm {A} (m : M vmst A) : keeps F (on_vm m).
Proof. intros k a k' H. unfold on_vm, zoom in H. destruct (m (vm k)); try done. by apply ret_inj in H as [_ <-]. Qed.
Lemma keep_mem {A} (m : M machine A) : keeps F (on_mem m).
Proof. apply keep_vm. Qed.
Lemma keep_read {A} (m : M ptable A) : (forall t a t', m t = Ret a t' -> t' = t) -> keeps F (on_pt m).
Proof using.
  intros Hm k a k' H. unfold on_pt, zoom in H. destruct (m (pt k)) eqn:E; try done. apply Hm in E as ->.
  apply ret_inj in H as [_ <-]. by rewrite set_pt_id.
Qed.
Lemma keep_get : keeps F (on_pt get).
Proof using. apply keep_read. by intros t a t' [_ <-]%ret_inj. Qed.
Lemma keep_deref o : keeps F (on_pt (deref o)).
Proof using. apply keep_read. by intros t [i p] t' (_ & _ & ->)%deref_inv. Qed.
Hint Resolve keep_ret keep_vm keep_mem keep_get keep_deref : wiredb.
Ltac kept_all := repeat (apply keep_bind; [solve [auto with wiredb]|intros ?]); auto with wiredb.

Lemma keep_elf_segments file n : forall phdr i, keeps F (elf_segments n file phdr i).
Proof.
  induction n as [|n IH]; intros phdr i; [done|]. cbn [elf_segments]. kept_all. destruct (i <? _); kept_all.
  apply keep_bind; [|intros ?; apply IH]. unfold elf_segment. kept_all. destruct (_ =? _); kept_all.
Qed.

Lemma keep_proc_load : keeps F proc_load.
Proof.
  unfold proc_load. kept_all. apply keep_bind; [|intros ?; kept_all]. destruct (_ =? _); [|kept_all].
  unfold elf_load. kept_all. apply keep_bind; [apply keep_elf_segments|intros ?; kept_all].
Qed.
End BesideVm.

Lemma wires_kickoff : keeps_wires proc_kickoff_first_process.
Proof.
  unfold proc_kickoff_first_process. do 3 (apply wires_bind; [auto with wiredb|intros ?]).
  apply wires_bind; [unfold switch_to; wired|intros ?].
  apply wires_bind; [auto with wiredb|intros ?]. by apply (keep_proc_load wires).
Qed.

(** A walk over the archive changes nothing. *)
Lemma rd_bytes_state {S} rd n : forall a (s : S) r s', rd_bytes rd n a s = Ret r s' -> s' = s.
Proof.
  induction n as [|n IH]; intros a s r s' H; cbn [rd_bytes] in H; [by apply ret_inv in H as [_ <-]|].
  destruct (rd a); [|done]. step H bs s1 H1. apply IH in H1 as ->. by apply ret_inv in H as [_ <-].
Qed.
Lemma rd32_state {S} rd a (s : S) r s' : rd32 rd a s = Ret r s' -> s' = s.
Proof. intros H. unfold rd32 in H. step H bs s1 H1. apply rd_bytes_state in H1 as ->. by apply ret_inv in H as [_ <-]. Qed.
Lemma sar_lookup_state {S} rd rdn n file fname (s : S) r s' : sar_lookup rd n rdn file fname s = Ret r s' -> s' = s.
Proof.
  unfold sar_lookup. generalize (file +w sizeof_sar_header). induction n as [|n IH]; intros h H; [done|].
  cbn [lookup_loop] in H. step H sz s1 H1. step H off s2 H2. step H nl s3 H3.
  apply rd32_state in H1 as ->. apply rd32_state in H2 as ->. apply rd32_state in H3 as ->.
  destruct (_ =? _); [by apply ret_inv in H as [_ <-]|]. step H c s4 H4. apply strcmp_state in H4 as ->.
  destruct (_ =? _); [by apply ret_inv in H as [_ <-]|by apply IH in H].
Qed.

(** ** The processes of the start *)

Lemma next_pid_range t : table_inv t -> 0 <= next_pid t <= NPROCS.
Proof.
  intros HI. pose proof (ti_count t HI) as Hn. pose proof (ti_size t HI) as Hs. unfold table_wf in Hs.
  pose proof (list.length_filter has_pid (procs t)). lia.
Qed.

(** proc_new up to the copy of the name *)
Definition proc_new_before_name (sy : symbols) : M kst unit :=
  slot ← on_pt (find_next_proc PROC_UNUSED);
  stack ← on_vm (on_pm pm_alloc);
  on_vm (map_page stack stack PTE_W) ≫= fun _ =>
  t ← on_pt get;
  ip ← on_pt (deref slot);
  on_pt (update (fst ip) (fun p => Proc (next_pid t) PROC_READY (name p) (privileged p) (superuser p)
                                 (trapframe p) (kstack p) (ustack p) (pdir p) (memsz p)
                                 (loc_address p) (loc_size p))) ≫= fun _ =>
  on_pt (modify (set_next_pid (next_pid t +w 1))) ≫= fun _ =>
  on_vm vm_copy_kernel_pdir ≫= fun _ => on_mem (STAILQ_INIT (recv_queue_at sy (fst ip))).

(** The bytes at [nm] as memory stands when proc_new copies them *)
Definition name_read (sy : symbols) (nm : Z) (k : kst) : option (list byte) :=
  match proc_new_before_name sy k with
  | Ret _ k' => rdn (Z.to_nat MAX_PROC_NAME_LEN) nm (mach (vm k'))
  | _ => None
  end.

Lemma read_bytes_inv nm k bs k' : on_mem (fun m => match rdn (Z.to_nat MAX_PROC_NAME_LEN) nm m with
    Some bs => Ret bs m | None => Faulted nm end) k = Ret bs k' ->
  rdn (Z.to_nat MAX_PROC_NAME_LEN) nm (mach (vm k)) = Some bs.
Proof.
  intros H. unfold on_mem, on_vm, on_mach, zoom in H. destruct (rdn _ _ _) as [l|]; [|done].
  by apply ret_inj in H as [<- _].
Qed.

(** The name a new process gets *)
Lemma proc_new_name sy nm priv super k r k' : proc_new sy nm priv super k = Ret r k' ->
  exists i p, current_proc (pt k') = Some i /\ zlookup (procs (pt k')) i = Some p /\
    name_read sy nm k = Some (take 32 (name p)).
Proof.
  intros H. unfold proc_new in H.
  step H slot k1 H1. step H stack k2 H2. step H u1 k3 H3. step H t k4 H4. step H ip k5 H5.
  step H u2 k6 H6. step H u3 k7 H7. step H npd k8 H8. step H u4 k9 H9. step H nmb k10 H10.
  step H frm k11 H11. step H u5 k12 H12. step H u6 k13 H13. apply ret_inv in H as [_ <-].
  assert (Hpre : proc_new_before_name sy k = Ret u4 k9).
  { unfold proc_new_before_name.
    rewrite (bind_Ret _ _ _ _ _ H1), (bind_Ret _ _ _ _ _ H2), (bind_Ret _ _ _ _ _ H3), (bind_Ret _ _ _ _ _ H4),
      (bind_Ret _ _ _ _ _ H5), (bind_Ret _ _ _ _ _ H6), (bind_Ret _ _ _ _ _ H7), (bind_Ret _ _ _ _ _ H8). exact H9. }
  apply read_bytes_inv in H10. unfold name_read. rewrite Hpre, H10.
  apply on_pt_inv in H5, H12, H13. destruct ip as [i p], u5. apply deref_inv in H5 as (-> & _ & _). cbn [fst] in *.
  apply update_inv in H12 as (q & Hq & H12). apply ret_inj in H13 as [_ H13]. rewrite <- H13, H12.
  exists i. eexists. split; [done|]. cbn [set_current set_procs procs].
  split; [apply zlookup_zupdate_eq; by apply zlookup_Some_range in Hq|].
  cbn [name]. by rewrite take_app_length' by (by apply rdn_length in H10).
Qed.

(** Who a process is and what it runs *)
Record runs (p : proc) (n : Z) (priv : bool) (addr size : Z) : Prop := {
  ru_pid : pid p = n;
  ru_priv : privileged p = priv;
  ru_address : loc_address p = addr;
  ru_size : loc_size p = size;
}.

(** A new process in an unused slot, with the next pid, ready and current; the
    other slots and idle stay. *)
Record spawned (sy : symbols) (nm : Z) (priv : bool) (addr size : Z) (k k' : kst) : Prop := {
  sp_inv : table_inv (pt k');
  sp_next : next_pid (pt k') = next_pid (pt k) + 1;
  sp_idle : idle (pt k') = idle (pt k);
  sp_new : exists i old p, current_proc (pt k') = Some i /\
    zlookup (procs (pt k)) i = Some old /\ state old = PROC_UNUSED /\
    procs (pt k') = zupdate i p (procs (pt k)) /\
    runs p (next_pid (pt k)) priv addr size /\ state p = PROC_READY /\ name_read sy nm k = Some (take 32 (name p));
}.

(** proc_new_from_memory written out, as a function of the state *)
Lemma proc_new_from_memory_eq sy nm priv super addr size : proc_new_from_memory sy nm priv super addr size =
  (slot ← proc_new sy nm priv super; ip ← on_pt (deref slot);
   on_pt (update (fst ip) (with_location addr size)) ≫= fun _ => mret slot).
Proof. reflexivity. Qed.

Lemma create_spawned sy nm priv super addr size k r k' : table_inv (pt k) ->
  proc_new_from_memory sy nm priv super addr size k = Ret r k' ->
  spawned sy nm priv addr size k k' /\ wires k' = wires k /\ r = current_proc (pt k').
Proof.
  intros HI H. pose proof (wires_proc_new _ _ _ _ _ _ _ _ _ H) as Hw.
  pose proof (ensures_create (fun _ => True) sy nm priv super addr size _ _ _ H (conj HI I)) as [[HI' _] _].
  pose proof (next_pid_range _ HI) as Hn. pose proof (next_pid_range _ HI') as Hn'. unfold NPROCS in Hn.
  rewrite proc_new_from_memory_eq in H. step H slot k1 H1. pose proof (proc_new_name _ _ _ _ _ _ _ H1) as (i0 & p0 & Hc0 & Hp0 & Hnm).
  destruct (proc_new_created _ _ _ _ _ _ _ (ti_size _ HI) H1) as (i & -> & Hi & _ & [Hwas Hnx Hcur Hid _ _]). clear H1.
  destruct Hwas as (p & Hp & Hun & p' & Hpr & Hpid & Hst & Hpv & _). pose proof (zlookup_Some_range _ _ _ Hp) as Hr.
  step H ip k2 H2. apply on_pt_inv in H2. destruct ip as [j q]. apply deref_inv in H2 as ([= <-] & Hq & E2).
  step H u k3 H3. apply ret_inv in H as [<- <-]. apply on_pt_inv in H3. destruct u. apply update_inv in H3 as (q' & Hq' & E3).
  cbn [fst] in *. rewrite E2 in Hq', E3. assert (q' = q) as -> by congruence.
  assert (i0 = i) as -> by congruence. assert (p0 = q) as -> by congruence. clear Hc0 Hp0.
  rewrite Hpr, zlookup_zupdate_eq in Hq by done. injection Hq as <-.
  split; [|split; [done|by rewrite E3]]. split; [done|rewrite E3; cbn [set_procs next_pid]; rewrite Hnx; apply u32_small; lia|by rewrite E3|].
  exists i, p, (with_location addr size p'). rewrite E3. cbn [set_procs current_proc procs].
  split; [done|]. split; [done|]. split; [done|]. split; [by rewrite Hpr, zupdate_zupdate|]. by split.
Qed.

(** Processes stay where they are while others are created. *)
Definition stays (t t' : ptable) : Prop := idle t' = idle t /\
  forall i p, zlookup (procs t) i = Some p -> state p <> PROC_UNUSED -> zlookup (procs t') i = Some p.

Lemma stays_refl t : stays t t.
Proof. done. Qed.
Lemma stays_trans t1 t2 t3 : stays t1 t2 -> stays t2 t3 -> stays t1 t3.
Proof. intros [I1 H1] [I2 H2]. split; [congruence|]. intros i p Hp Hs. by apply H2; [apply H1|]. Qed.

Lemma spawned_stays sy nm priv addr size k k' : spawned sy nm priv addr size k k' -> stays (pt k) (pt k').
Proof.
  intros [_ _ Hid (i & old & p & _ & Hold & Hun & Hpr & _)]. split; [done|]. intros j q Hq Hs. rewrite Hpr.
  destruct (decide (j = i)) as [->|Hne]; [congruence|]. by rewrite zlookup_zupdate_ne.
Qed.

(** The process that was created *)
Lemma spawned_new sy nm priv addr size k k' : spawned sy nm priv addr size k k' ->
  exists i p, current_proc (pt k') = Some i /\ zlookup (procs (pt k')) i = Some p /\ runs p (next_pid (pt k)) priv addr size /\
    state p = PROC_READY /\ name_read sy nm k = Some (take 32 (name p)).
Proof.
  intros [_ _ _ (i & old & p & Hc & Hold & _ & Hpr & H)]. exists i, p. split; [done|]. split; [|done].
  rewrite Hpr. apply zlookup_zupdate_eq. by apply zlookup_Some_range in Hold.
Qed.

(** What the archive holds under a name, as memory stands in [k]: where the
    image is, by the entry's offset, and its size. *)
Definition in_archive (fuel : nat) (initrd nm : Z) (k : kst) (addr size : Z) : Prop :=
  exists fhdr offset, let rd := fun a : Z => rd8 a (mach (vm k)) in
    sar_lookup (S:=kst) rd fuel rd initrd nm k = Ret fhdr k /\ fhdr <> 0 /\
    load32 (fhdr +w 4) (mach (vm k)) = Ret offset (mach (vm k)) /\
    load32 fhdr (mach (vm k)) = Ret size (mach (vm k)) /\ addr = initrd +w offset.

Lemma load_process_eq sy fuel initrd nm : load_process sy fuel initrd nm =
  (k ← get;
   fhdr ← sar_lookup (S:=kst) (fun a => rd8 a (mach (vm k))) fuel (fun a => rd8 a (mach (vm k))) initrd nm;
   if fhdr =? 0 then mret false
   else offset ← on_mem (load32 (fhdr +w 4)); size ← on_mem (load32 fhdr);
        proc_new_from_memory sy nm false true (initrd +w offset) size ≫= fun _ => mret true).
Proof. reflexivity. Qed.

Lemma on_mem_load k a r k' : on_mem (load32 a) k = Ret r k' ->
  k' = k /\ load32 a (mach (vm k)) = Ret r (mach (vm k)).
Proof.
  intros H. unfold on_mem, on_vm, on_mach, zoom, load32, loadn in *. destruct (rdn 4 a (mach (vm k))) as [bs|]; [|done].
  apply ret_inj in H as [<- <-]. split; [|done]. by destruct k as [[? ?] ? ? ? ? ?].
Qed.

Lemma load_process_spawned sy fuel initrd nm k b k' : table_inv (pt k) -> load_process sy fuel initrd nm k = Ret b k' ->
  if b then wires k' = wires k /\ exists addr size, in_archive fuel initrd nm k addr size /\ spawned sy nm false addr size k k'
  else k' = k.
Proof.
  intros HI H. rewrite load_process_eq in H. step H k0 k1 H1. apply ret_inj in H1 as [<- <-].
  step H fhdr k2 H2. pose proof H2 as Hl. apply sar_lookup_state in H2 as ->.
  destruct (Z.eqb_spec fhdr 0) as [->|Hnz]; [by apply ret_inv in H as [<- <-]|].
  step H off k3 H3. apply on_mem_load in H3 as [-> H3]. step H sz k4 H4. apply on_mem_load in H4 as [-> H4].
  step H r k5 H5. apply ret_inv in H as [<- <-]. apply create_spawned in H5 as (Hs & Hw & _); [|done].
  split; [done|]. exists (initrd +w off), sz. split; [|done]. by exists fhdr, off.
Qed.

(** The loading of [names] when every one was found: each program is loaded in
    the state its predecessors left, and the processes stay. *)
Lemma load_processes_spawned sy fuel initrd names : forall acc k k', table_inv (pt k) ->
  load_processes sy fuel initrd names acc k = Ret true k' ->
  acc = true /\ wires k' = wires k /\ table_inv (pt k') /\ stays (pt k) (pt k') /\
  next_pid (pt k') = next_pid (pt k) + Z.of_nat (length names) /\
  forall j nm, names !! j = Some nm -> exists kj k1 addr size,
    load_processes sy fuel initrd (take j names) true k = Ret true kj /\
    next_pid (pt kj) = next_pid (pt k) + Z.of_nat j /\
    in_archive fuel initrd nm kj addr size /\ spawned sy nm false addr size kj k1 /\ stays (pt k1) (pt k') /\
    (S j = length names -> k' = k1).
Proof.
  induction names as [|nm names IH]; intros acc k k' HI H; cbn [load_processes] in H.
  { apply ret_inv in H as [-> ->]. cbn [length]. split_and!; [done..|lia|done]. }
  step H b k1 H1. pose proof (load_process_spawned _ _ _ _ _ _ _ HI H1) as Hb.
  destruct b; [|subst k1; apply IH in H as [Ha _]; [by rewrite andb_false_r in Ha|done]].
  destruct Hb as [Hw1 (addr & size & Har & Hsp)].
  destruct (IH _ _ _ (sp_inv _ _ _ _ _ _ _ Hsp) H) as (Ha & Hw & HI' & Hst & Hn & Hj).
  rewrite andb_true_r in Ha. split; [done|]. split; [by rewrite Hw|]. split; [done|].
  split; [by apply (stays_trans _ (pt k1)); [apply (spawned_stays _ _ _ _ _ _ _ Hsp)|]|].
  pose proof (sp_next _ _ _ _ _ _ _ Hsp) as Hn1. cbn [length]. split; [lia|].
  intros [|j] nm' Hnm.
  - injection Hnm as <-. exists k, k1, addr, size. cbn [take load_processes]. split_and!; [done|lia|done..|].
    intros Hl. destruct names; [|done]. cbn [load_processes] in H. by apply ret_inv in H as [_ <-].
  - destruct (Hj j nm' Hnm) as (kj & k2 & ad & sz & Hrun & Hnj & Har' & Hsp' & Hst' & Hlast).
    exists kj, k2, ad, sz. change (take (S j) (nm :: names)) with (nm :: take j names). cbn [load_processes].
    split; [by rewrite (bind_Ret _ _ _ _ _ H1)|]. split_and!; [lia|done..|]. intros Hl. apply Hlast. lia.
Qed.

(** proc_earlyinit makes the kernel process and idle. *)
Lemma earlyinit_eq sy : proc_earlyinit sy =
  (on_pt (modify (fun t => set_procs (map (fun p => Proc 4294967295 PROC_UNUSED (name p) (privileged p)
           (superuser p) (trapframe p) (kstack p) (ustack p) (pdir p) (memsz p) (loc_address p)
           (loc_size p)) (procs t)) t)) ≫= fun _ =>
   modify (fun k => set_idt (idt_set_gate 127 (sym_int127 sy) 8 238 (Proc.idt k)) k) ≫= fun _ =>
   k ← get;
   match int_install_handler 127 (sym_proc_schedule_after_irq sy) (int_handlers (tabs k)) with
   | None => undef
   | Some h =>
       put (set_tabs (IntTables (isr_handlers (tabs k)) (irq_handlers (tabs k)) h) k) ≫= fun _ =>
       c ← proc_new_from_memory sy (str_kernel sy) true true (sym_msg_dispatcher sy) 0;
       on_pt (modify (set_current c)) ≫= fun _ =>
       c ← proc_new_from_memory sy (str_idle sy) true true (sym_proc_idle sy) 0;
       on_pt (modify (fun t => set_current c (set_idle c t)))
   end).
Proof. reflexivity. Qed.

(** A table before the first process *)
Record fresh (t : ptable) : Prop := {
  fr_size : Z.of_nat (length (procs t)) = NPROCS;
  fr_next : next_pid t = 0;
  fr_current : current_proc t = None;
  fr_idle : idle t = None;
  fr_rr : rr t = 0;
}.

(** The kernel process and idle *)
Definition kernel_and_idle (sy : symbols) (t : ptable) : Prop :=
  exists c d p q, zlookup (procs t) c = Some p /\ runs p 0 true (sym_msg_dispatcher sy) 0 /\ state p = PROC_READY /\
    idle t = Some d /\ zlookup (procs t) d = Some q /\ runs q 1 true (sym_proc_idle sy) 0 /\ state q = PROC_READY.

Lemma earlyinit_spawned sy k k' : fresh (pt k) -> proc_earlyinit sy k = Ret tt k' ->
  table_inv (pt k') /\ next_pid (pt k') = 2 /\ kernel_and_idle sy (pt k') /\
  exists h, int_install_handler 127 (sym_proc_schedule_after_irq sy) (int_handlers (tabs k)) = Some h /\
    wires k' = (idt_set_gate 127 (sym_int127 sy) 8 238 (Proc.idt k),
                IntTables (isr_handlers (tabs k)) (irq_handlers (tabs k)) h, heap_initialized k).
Proof.
  intros [Hl Hn Hc Hi Hr] H. split; [by apply (earlyinit_inv sy k)|]. rewrite earlyinit_eq in H. step H u1 k1 H1.
  assert (HI : table_inv (pt k1) /\ next_pid (pt k1) = 0 /\ wires k1 = wires k).
  { pose proof (wires_on_pt _ _ _ _ H1) as Hw. apply on_pt_inv, ret_inj in H1 as [_ H1]. rewrite <- H1. split; [|by split].
    apply table_inv_empty; try done; [by rewrite length_map|].
    apply list.Forall_forall. intros q (p & -> & _)%list_elem_of_fmap. done. }
  clear H1. destruct HI as (HI & Hn1 & Hw1). injection Hw1 as Hi1 Ht1 Hh1.
  step H u2 k2 H2. apply ret_inj in H2 as [_ <-]. step H k3 k4 H3. apply ret_inj in H3 as [<- <-]. cbn [tabs set_idt] in H.
  rewrite Ht1 in H. destruct (int_install_handler _ _ _) as [h|]; [|done]. step H u4 k5 H5. apply ret_inj in H5 as [_ <-].
  step H c1 k6 H6. apply create_spawned in H6 as (Hb1 & Hw6 & Hc1); [|done]. step H u7 k7 H7.
  pose proof (wires_on_pt _ _ _ _ H7) as Hw7. apply on_pt_inv, ret_inj in H7 as [_ H7].
  assert (E7 : pt k7 = pt k6) by (rewrite <- H7, Hc1; by destruct (pt k6)). clear H7.
  step H c2 k8 H8. apply create_spawned in H8 as (Hb2 & Hw8 & Hc2); [|rewrite E7; apply (sp_inv _ _ _ _ _ _ _ Hb1)].
  pose proof (wires_on_pt _ _ _ _ H) as Hw9. apply on_pt_inv, ret_inj in H as [_ H].
  pose proof (sp_next _ _ _ _ _ _ _ Hb1) as N1. cbn [set_tabs set_idt pt] in N1.
  pose proof (sp_next _ _ _ _ _ _ _ Hb2) as N2. pose proof (spawned_stays _ _ _ _ _ _ _ Hb2) as [_ Hst].
  apply spawned_new in Hb1 as (c & p & _ & Hp & Hrp & Hsp & _). apply spawned_new in Hb2 as (d & q & Hd & Hq & Hrq & Hsq & _).
  rewrite E7 in N2, Hst, Hrq. rewrite N1, Hn1 in Hrq. cbn [set_tabs set_idt pt] in Hrp. rewrite Hn1 in Hrp.
  rewrite <- H. cbn [set_current set_idle next_pid]. split; [lia|]. split.
  - exists c, d, p, q. cbn [set_current set_idle procs idle]. rewrite Hc2. split; [apply Hst; [done|by rewrite Hsp]|]. done.
  - exists h. split; [done|]. rewrite Hw9, Hw8, Hw7, Hw6. unfold wires. cbn [set_tabs set_idt Proc.idt tabs heap_initialized].
    by rewrite Hi1, Hh1.
Qed.

Lemma kernel_and_idle_stay sy t t' : stays t t' -> kernel_and_idle sy t -> kernel_and_idle sy t'.
Proof.
  intros [Hid Hst] (c & d & p & q & Hp & Hrp & Hsp & Hi & Hq & Hrq & Hsq). exists c, d, p, q. rewrite Hid.
  split_and!; try done; apply Hst; try done; congruence.
Qed.

Lemma start_eq sy fuel initrd names : start_processes sy fuel initrd names =
  (load_processes sy fuel initrd names true ≫= fun all : bool =>
   if all then proc_kickoff_first_process else halt).
Proof. reflexivity. Qed.

(** Entering the first process *)
Lemma kickoff_eq : proc_kickoff_first_process =
  (t ← on_pt get; cur ← on_pt (deref (current_proc t));
   on_pt (update (fst cur) (with_state PROC_RUNNING)) ≫= fun _ =>
   switch_to (snd cur) ≫= fun _ => on_pt proc_enable_scheduling ≫= fun _ => proc_load).
Proof. reflexivity. Qed.

(** The frame [proc_load] hands to iret for the current process [p]: the entry
    is the ELF file's or the start of the image, the selectors go by the
    privilege. *)
Definition enters (p : proc) (k : kst) (fr : iret_frame) : Prop :=
  let code := if privileged p then SEG_KCODE else SEG_UCODE in
  let data := if privileged p then SEG_KDATA else SEG_UDATA in
  exists magic entry k', load32 (loc_address p) (mach (vm k)) = Ret magic (mach (vm k)) /\
    (if magic =? 1179403647 then elf_load (loc_address p) else mret (loc_address p)) k = Ret entry k' /\
    fr = IretFrame entry code 512 VM_USER_STACK_ADDR data data.

Lemma proc_load_enters_by k fr k' i p : current_proc (pt k) = Some i -> zlookup (procs (pt k)) i = Some p ->
  proc_load k = Ret fr k' -> enters p k fr.
Proof.
  intros Hc Hp H. unfold proc_load in H. step H t k1 H1.
  pose proof H1 as E. apply on_pt_inv, ret_inj in E as [<- _]. unfold on_pt, zoom, get in H1. apply ret_inj in H1 as [_ H1].
  rewrite set_pt_id in H1. rewrite <- H1 in H. clear H1 k1.
  step H cur k2 H2. rewrite Hc in H2. rewrite (on_pt_Ret _ _ _ _ (deref_Ret _ _ _ Hp)), set_pt_id in H2. apply ret_inj in H2 as [<- <-].
  cbn [snd] in H. step H mg k3 H3. apply on_mem_load in H3 as [-> H3]. step H eip k4 H4. step H u k5 H5.
  apply ret_inv in H as [<- <-]. by exists mg, eip, k4.
Qed.

Lemma on_pt_vm {A} (m : M ptable A) k a k' : on_pt m k = Ret a k' -> vm k' = vm k.
Proof. intros H. unfold on_pt, zoom in H. destruct (m (pt k)); try done. by apply ret_inj in H as [_ <-]. Qed.

Lemma switch_to_inv p k u k' : switch_to p k = Ret u k' ->
  pt k' = pt k /\ set_cr3 (pdir p) (mach (vm k)) = Ret tt (mach (vm k')) /\
  esp0 (tss k') = kstack p /\ ss0 (tss k') = SEG_KDATA.
Proof.
  intros H. unfold switch_to in H. step H u5 k5 H5. apply ret_inj in H5 as [_ <-].
  unfold on_mem, on_vm, on_mach, zoom, set_cr3 in H. cbn in H. by apply ret_inj in H as [_ <-].
Qed.

(** Kernel stack and address space are those of the process entered. *)
Lemma kickoff_runs k fr k' : proc_kickoff_first_process k = Ret fr k' ->
  exists i p k1, current_proc (pt k) = Some i /\ zlookup (procs (pt k)) i = Some p /\
    pt k' = set_sched true (set_procs (zupdate i (with_state PROC_RUNNING p) (procs (pt k))) (pt k)) /\
    set_cr3 (pdir p) (mach (vm k)) = Ret tt (mach (vm k1)) /\
    esp0 (tss k') = kstack p /\ ss0 (tss k') = SEG_KDATA /\ enters (with_state PROC_RUNNING p) k1 fr.
Proof.
  intros H. rewrite kickoff_eq in H. step H t k1 H1. pose proof (on_pt_vm _ _ _ _ H1) as V1. apply on_pt_inv, ret_inj in H1 as [<- E1].
  step H cur k2 H2. pose proof (on_pt_vm _ _ _ _ H2) as V2. apply on_pt_inv in H2. destruct cur as [i p]. apply deref_inv in H2 as (Hc & Hp & E2).
  step H u k3 H3. pose proof (on_pt_vm _ _ _ _ H3) as V3. apply on_pt_inv in H3. destruct u. apply update_inv in H3 as (p' & Hp' & E3).
  step H u4 k4 H4. apply switch_to_inv in H4 as (E4 & Hcr & Hes & Hss).
  step H u6 k6 H6. unfold on_pt, zoom, proc_enable_scheduling, modify in H6. apply ret_inj in H6 as [_ H6].
  cbn [fst snd] in *. rewrite <- E1 in Hp, E2. rewrite E2 in Hp', E3. assert (p' = p) as -> by congruence.
  assert (E6 : pt k6 = set_sched true (set_procs (zupdate i (with_state PROC_RUNNING p) (procs (pt k))) (pt k))).
  { rewrite <- H6. cbn [set_pt pt]. rewrite E4, E3. congruence. }
  exists i, p, k6. split; [done|]. split; [done|].
  rewrite (keep_proc_load pt ltac:(done) _ _ _ H), (keep_proc_load tss ltac:(done) _ _ _ H), E6.
  split; [done|]. rewrite V3, V2, V1 in Hcr. split; [by rewrite <- H6|]. split; [by rewrite <- H6|]. split; [by rewrite <- H6|].
  eapply (proc_load_enters_by _ _ _ i) in H; [exact H|by rewrite E6|].
  rewrite E6. cbn [set_sched set_procs procs]. apply zlookup_zupdate_eq. by apply zlookup_Some_range in Hp.
Qed.

(** A process of the table after the first one was entered *)
Lemma kicked_lookup t i p j q : zlookup (procs t) i = Some p -> zlookup (procs t) j = Some q ->
  zlookup (zupdate i (with_state PROC_RUNNING p) (procs t)) j =
    Some (if decide (j = i) then with_state PROC_RUNNING q else q).
Proof.
  intros Hp Hq. case_decide as Hd; [|by rewrite zlookup_zupdate_ne].
  subst j. rewrite zlookup_zupdate_eq by (by apply zlookup_Some_range in Hp). congruence.
Qed.

(** Two slots with different pids are different. *)
Lemma pid_slot t i j p q : zlookup (procs t) i = Some p -> zlookup (procs t) j = Some q -> pid p <> pid q -> j <> i.
Proof. intros Hp Hq Hne ->. congruence. Qed.

Lemma same_pid_slot t i j p q : table_inv t -> zlookup (procs t) i = Some p -> zlookup (procs t) j = Some q ->
  pid p = pid q -> 0 <= pid p < next_pid t -> i = j.
Proof.
  intros HI Hp Hq He Hr. pose proof (next_pid_range _ HI) as Hn. unfold NPROCS in Hn.
  assert (Hu : u32 (pid p) = pid p) by (apply u32_small; lia).
  assert (Hh : has_pid p) by (unfold has_pid, NO_PID; lia).
  pose proof (find_pid_holder _ i p 0 (ti_distinct _ HI) Hp Hh Hu) as Fi.
  unfold has_pid in Hh. rewrite He in Fi, Hu, Hh.
  pose proof (find_pid_holder _ j q 0 (ti_distinct _ HI) Hq Hh Hu) as Fj. assert (0 + i = 0 + j) by congruence. lia.
Qed.

Lemma start_runs sy fuel initrd names k0 fr k : table_inv (pt k0) -> kernel_and_idle sy (pt k0) -> next_pid (pt k0) = 2 ->
  names <> [] -> start_processes sy fuel initrd names k0 = Ret fr k ->
  wires k = wires k0 /\ table_inv (pt k) /\ next_pid (pt k) = 2 + Z.of_nat (length names) /\
  scheduling_enabled (pt k) = true /\ kernel_and_idle sy (pt k) /\
  (forall j nm, names !! j = Some nm -> exists kj addr size i p,
     load_processes sy fuel initrd (take j names) true k0 = Ret true kj /\ in_archive fuel initrd nm kj addr size /\
     zlookup (procs (pt k)) i = Some p /\ runs p (2 + Z.of_nat j) false addr size /\
     name_read sy nm kj = Some (take 32 (name p)) /\
     state p = if decide (S j = length names) then PROC_RUNNING else PROC_READY) /\
  exists kl k1 i p, load_processes sy fuel initrd names true k0 = Ret true kl /\
    current_proc (pt k) = Some i /\ zlookup (procs (pt k)) i = Some p /\
    pid p = 1 + Z.of_nat (length names) /\ state p = PROC_RUNNING /\ privileged p = false /\
    set_cr3 (pdir p) (mach (vm kl)) = Ret tt (mach (vm k1)) /\
    esp0 (tss k) = kstack p /\ ss0 (tss k) = SEG_KDATA /\ enters p k1 fr /\ ir_cs fr = SEG_UCODE /\ ir_ss fr = SEG_UDATA.
Proof.
  intros HI Hki Hn2 Hne H. rewrite start_eq in H. step H bb kl Hl. destruct bb; [|done].
  destruct (load_processes_spawned _ _ _ _ _ _ _ HI Hl) as (_ & Hwl & HIl & Hstl & Hnl & Hj). rewrite Hn2 in Hnl, Hj.
  pose proof (wires_kickoff _ _ _ H) as Hwk.
  destruct (kickoff_runs _ _ _ H) as (i & p & k1 & Hc & Hp & Hpt & Hcr & Hes & Hss & Hen).
  (* the last program is the one that runs *)
  destruct names as [|nm0 names0]; [done|]. set (names := nm0 :: names0) in *.
  destruct (lookup_lt_is_Some_2 names (length names0)) as [nml Hnml]; [cbn; lia|].
  assert (Hlast : pid p = 1 + Z.of_nat (length names) /\ privileged p = false).
  { destruct (Hj _ _ Hnml) as (kj & k2 & ad & sz & _ & Hnj & _ & Hsp & _ & Hlast).
    rewrite (Hlast eq_refl) in *. apply spawned_new in Hsp as (i' & p' & Hc' & Hp' & [Rp Rv _ _] & _).
    assert (i' = i) as -> by congruence. assert (p' = p) as -> by congruence. rewrite Hnj in Rp.
    split; [cbn [length names]; lia|done]. }
  destruct Hlast as [Hpid Hpriv]. rewrite Hpt. cbn [set_sched set_procs next_pid scheduling_enabled procs current_proc].
  split; [by rewrite Hwk|]. split.
  { destruct (table_inv_update (pt kl) i p (with_state PROC_RUNNING) HIl Hp (harmless_state PROC_RUNNING ltac:(discriminate)))
      as [A1 A2 A3 A4 A5 A6 A7]. by split. }
  split; [done|]. split; [done|]. split; [|split].
  - apply (kernel_and_idle_stay _ _ _ Hstl) in Hki as (c & d & a & b & Ha & Ra & Sa & Hd & Hb & Rb & Sb).
    exists c, d, a, b. cbn [set_sched set_procs idle procs].
    rewrite (kicked_lookup _ _ _ _ _ Hp Ha), (kicked_lookup _ _ _ _ _ Hp Hb).
    rewrite !decide_False; [done|apply (pid_slot (pt kl) _ _ p b)|apply (pid_slot (pt kl) _ _ p a)]; try done;
      rewrite ?(ru_pid _ _ _ _ _ Ra), ?(ru_pid _ _ _ _ _ Rb), Hpid; cbn [length names]; lia.
  - intros j nm Hnm. destruct (Hj j nm Hnm) as (kj & k2 & ad & sz & Hrun & Hnj & Har & Hsp & Hst & _).
    apply spawned_new in Hsp as (i2 & p2 & _ & Hp2 & [R1 R2 R3 R4] & S2 & Nm). rewrite Hnj in R1.
    apply (proj2 Hst) in Hp2; [|by rewrite S2]. pose proof (lookup_lt_Some _ _ _ Hnm) as Hlt.
    exists kj, ad, sz, i2, (if decide (i2 = i) then with_state PROC_RUNNING p2 else p2).
    rewrite (kicked_lookup _ _ _ _ _ Hp Hp2). split; [done|]. split; [done|]. split; [done|].
    split; [by case_decide; split|]. split; [by case_decide|].
    destruct (decide (S j = length names)) as [El|Nl].
    + destruct (decide (i2 = i)) as [|Hd]; [done|]. exfalso. apply Hd. apply (same_pid_slot _ _ _ _ _ HIl Hp2 Hp); lia.
    + rewrite decide_False; [done|]. apply (pid_slot (pt kl) _ _ p p2); try done. lia.
  - exists kl, k1, i, (with_state PROC_RUNNING p). rewrite (kicked_lookup _ _ _ _ _ Hp Hp), decide_True by done.
    cbn [with_state pid state privileged pdir kstack]. split_and!; try done;
      destruct Hen as (mg & e & kk & _ & _ & ->); cbn; by rewrite Hpriv.
Qed.

(** ** Steps of kmain *)

(** Only memory of the kernel's state changed. *)
Definition vm_only (k k' : kst) : Prop := wires k' = wires k /\ pt k' = pt k.

Lemma on_kern_inv {A} (m : M kst A) s a s' : on_kern m s = Ret a s' ->
  m (kern s) = Ret a (kern s') /\ (gdt s', gdtr s', idtr s') = (gdt s, gdtr s, idtr s).
Proof. intros H. unfold on_kern, zoom in H. destruct (m (kern s)); try done. by apply ret_inj in H as [<- <-]. Qed.

Lemma on_kern_vm {A} (m : M vmst A) s a s' : on_kern (on_vm m) s = Ret a s' ->
  vm_only (kern s) (kern s') /\ (gdt s', gdtr s', idtr s') = (gdt s, gdtr s, idtr s).
Proof.
  intros H. apply on_kern_inv in H as [H Hg]. split; [|done]. split; [by apply (wires_on_vm _ _ _ _ H)|by apply (on_vm_pt _ _ _ _ H)].
Qed.

(** What the devices' parts leave alone *)
Ltac beside m H := unfold zoom in H; destruct m; try discriminate H; apply ret_inj in H as [_ <-]; done.

Lemma on_boot_beside {A} (m : M bootinfo A) s a s' : on_boot m s = Ret a s' ->
  vm_only (kern s) (kern s') /\ (gdt s', gdtr s', idtr s') = (gdt s, gdtr s, idtr s).
Proof. intros H. unfold on_boot in H. beside (m (boot s)) H. Qed.
Lemma on_console_beside {A} (m : M Com.console A) s a s' : on_console m s = Ret a s' ->
  vm_only (kern s) (kern s') /\ (gdt s', gdtr s', idtr s') = (gdt s, gdtr s, idtr s).
Proof. intros H. unfold on_console in H. beside (m (Com.Console (mach (vm (kern s))) (uart_reads s) (display s))) H. Qed.
Lemma on_smp_beside {A} (m : M smpst A) s a s' : on_smp m s = Ret a s' ->
  vm_only (kern s) (kern s') /\ (gdt s', gdtr s', idtr s') = (gdt s, gdtr s, idtr s).
Proof. intros H. unfold on_smp in H. beside (m (set_svm (vm (kern s)) (smp s))) H. Qed.

Lemma modify_idt_inv f s a s' : modify_idt f s = Ret a s' ->
  wires (kern s') = (f (Proc.idt (kern s)), tabs (kern s), heap_initialized (kern s)) /\ pt (kern s') = pt (kern s) /\
  (gdt s', gdtr s', idtr s') = (gdt s, gdtr s, idtr s).
Proof. intros H. apply on_kern_inv in H as [H Hg]. apply ret_inj in H as [_ <-]. done. Qed.

Lemma modify_tabs_inv f s a s' : modify_tabs f s = Ret a s' -> exists t, f (tabs (kern s)) = Some t /\
  wires (kern s') = (Proc.idt (kern s), t, heap_initialized (kern s)) /\ pt (kern s') = pt (kern s) /\
  (gdt s', gdtr s', idtr s') = (gdt s, gdtr s, idtr s).
Proof.
  intros H. unfold modify_tabs in H. apply on_kern_inv in H as [H Hg]. destruct (f (tabs (kern s))) as [t|]; [|done].
  exists t. by apply ret_inj in H as [_ <-].
Qed.

(** The tables kmain has set up when it gets to the processes: gates for the
    exceptions and the interrupts, then for the system calls; the handlers of
    the keyboard and the timer. *)
Section Tables.
Variable im : image.

Definition syscall_gates (t : list idt_entry) : list idt_entry :=
  idt_set_gate SYSCALL_RECV_MSG_VECTOR (int190 im) 8 238
    (idt_set_gate SYSCALL_SEND_MSG_VECTOR (int186 im) 8 238
       (idt_set_gate SYSCALL_RPLY_MSG_VECTOR (int222 im) 8 238 t)).

Definition ints_of (t : list Z) : option (list Z) :=
  h ← int_install_handler SYSCALL_RPLY_MSG_VECTOR (rply_msg im) t;
  h ← int_install_handler SYSCALL_SEND_MSG_VECTOR (send_msg im) h;
  h ← int_install_handler SYSCALL_RECV_MSG_VECTOR (recv_msg im) h;
  int_install_handler 127 (sym_proc_schedule_after_irq (im_sy im)) h.

Definition irqs_of (t : list irq_handler_entry) : option (list irq_handler_entry) :=
  q ← irq_install_handler 1 (im_kbd_handler im) 0 t; irq_install_handler 0 (im_timer_handler im) 0 q.

(** What the processor and the kernel do with the vectors in the end *)
Definition final_idt (t : list idt_entry) : list idt_entry :=
  idt_set_gate 127 (sym_int127 (im_sy im)) 8 238 (syscall_gates (idt_init_gates (isr im) (irq im) t)).

Lemma idt_init_eq : idt_init im =
  (modify_idt (fun t => set_gates 32 0 (isr im) 0 (repeat (IdtEntry 0 0 0 0 0) (length t))) ≫= fun _ =>
   on_kern (on_mem irq_remap) ≫= fun _ =>
   modify_idt (set_gates 16 32 (irq im) 0) ≫= fun _ =>
   modify (set_idtr (idt_install (idt_addr im))) ≫= fun _ =>
   modify_tabs (fun t => Some (IntTables (idt_init_isrs (im_screen_of_death im) (isr_handlers t)) (irq_handlers t) (int_handlers t)))).
Proof. reflexivity. Qed.

Lemma idt_init_inv s s' : idt_init im s = Ret tt s' ->
  wires (kern s') = (idt_init_gates (isr im) (irq im) (Proc.idt (kern s)),
    IntTables (idt_init_isrs (im_screen_of_death im) (isr_handlers (tabs (kern s)))) (irq_handlers (tabs (kern s)))
      (int_handlers (tabs (kern s))), heap_initialized (kern s)) /\
  pt (kern s') = pt (kern s) /\ (gdt s', gdtr s') = (gdt s, gdtr s) /\ idtr s' = idt_install (idt_addr im).
Proof.
  intros H. rewrite idt_init_eq in H. step H u1 s1 H1. apply modify_idt_inv in H1 as (Hw1 & Hp1 & Hg1).
  step H u2 s2 H2. apply on_kern_vm in H2 as [[Hw2 Hp2] Hg2].
  step H u3 s3 H3. apply modify_idt_inv in H3 as (Hw3 & Hp3 & Hg3).
  step H u4 s4 H4. apply ret_inj in H4 as [_ <-].
  apply modify_tabs_inv in H as (t & [= <-] & Hw & Hp & Hg). cbn [set_idtr kern gdt gdtr idtr] in *.
  unfold wires in *. rewrite Hw1 in Hw2. injection Hw2 as Ei2 Et2 Eh2. rewrite Ei2, Et2, Eh2 in Hw3.
  injection Hw3 as Ei3 Et3 Eh3. rewrite Ei3, Et3, Eh3 in Hw. split; [exact Hw|]. split; [congruence|].
  split; congruence.
Qed.

Lemma timer_start_inv s s' : timer_start im s = Ret tt s' ->
  exists q, irq_install_handler 0 (im_timer_handler im) 0 (irq_handlers (tabs (kern s))) = Some q /\
    wires (kern s') = (Proc.idt (kern s), IntTables (isr_handlers (tabs (kern s))) q (int_handlers (tabs (kern s))),
                       heap_initialized (kern s)) /\
    pt (kern s') = pt (kern s) /\ (gdt s', gdtr s', idtr s') = (gdt s, gdtr s, idtr s).
Proof.
  intros H. unfold timer_start in H. step H s0 s1 H1. apply ret_inj in H1 as [<- <-].
  step H q s2 H2. pose proof H2 as H2'. apply on_kern_inv in H2' as [H2' _].
  assert (Hq : q = irq_install_handler 0 (im_timer_handler im) 0 (irq_handlers (tabs (kern s)))).
  { clear -H2'. unfold on_mem, on_vm, on_mach, zoom in H2'.
    destruct (Timer.timer_install _ _ _) as [q' m'| | | |] eqn:E; try discriminate H2'. apply ret_inj in H2' as [<- _].
    unfold Timer.timer_install in E. apply bind_inv in E as (u & m1 & _ & E). by apply ret_inv in E as [<- _]. }
  apply on_kern_vm in H2 as [[Hw2 Hp2] Hg2]. unfold modify_irqs in H. apply modify_tabs_inv in H as (t & Ht & Hw & Hp & Hg).
  rewrite Hq in Ht. destruct (irq_install_handler _ _ _ _) as [q'|]; [|done]. exists q'. split; [done|].
  cbn in Ht. injection Ht as <-. unfold wires in *. injection Hw2 as Ei Et Eh. rewrite Ei, Et, Eh in Hw. split; [exact Hw|].
  split; [congruence|congruence].
Qed.

Lemma heap_start_inv s s' : heap_start s = Ret tt s' ->
  wires (kern s') = (Proc.idt (kern s), tabs (kern s), true) /\ pt (kern s') = pt (kern s) /\
  (gdt s', gdtr s', idtr s') = (gdt s, gdtr s, idtr s).
Proof.
  intros H. unfold heap_start in H. apply on_kern_inv in H as [H Hg]. destruct (on_vm heap_init (kern s)) as [b k| | | |] eqn:E; try discriminate H.
  pose proof (wires_on_vm _ _ _ _ E) as Hw. pose proof (on_vm_pt _ _ _ _ E) as Hp. injection Hw as Hi Ht _.
  apply ret_inj in H as [_ H]. rewrite <- H. unfold wires. cbn [Proc.idt tabs heap_initialized pt].
  rewrite Hi, Ht. split; [|done]. f_equal. clear -E. unfold on_vm, zoom in E. destruct (heap_init (vm (kern s))) as [b' v| | | |] eqn:Eh; try discriminate E.
  apply ret_inj in E as [<- _]. unfold heap_init in Eh. step Eh a v1 H1. destruct (a =? 0); [done|].
  step Eh u v2 H2. step Eh u' v3 H3. by apply ret_inv in Eh as [<- _].
Qed.

Lemma syscall_install_inv s s' :
  on_kern (syscall_install (int222 im) (int186 im) (int190 im) (rply_msg im) (send_msg im) (recv_msg im)) s = Ret tt s' ->
  exists h, (h ← int_install_handler SYSCALL_RPLY_MSG_VECTOR (rply_msg im) (int_handlers (tabs (kern s)));
             h ← int_install_handler SYSCALL_SEND_MSG_VECTOR (send_msg im) h;
             int_install_handler SYSCALL_RECV_MSG_VECTOR (recv_msg im) h) = Some h /\
    wires (kern s') = (syscall_gates (Proc.idt (kern s)),
                       IntTables (isr_handlers (tabs (kern s))) (irq_handlers (tabs (kern s))) h, heap_initialized (kern s)) /\
    pt (kern s') = pt (kern s) /\ (gdt s', gdtr s', idtr s') = (gdt s, gdtr s, idtr s).
Proof.
  intros H. apply on_kern_inv in H as [H Hg]. unfold syscall_install in H. destruct (_ ≫= _) as [h|]; [|done].
  exists h. split; [done|]. by apply ret_inj in H as [_ <-].
Qed.

(** kmain up to the loading of the programs *)
Definition kmain_before_programs (pf : platform) (cfg : Z -> Z) (fuel : nat) : M sys unit :=
  on_boot (adjust_the_memory_map (kernel_phys im) (kernel_size im) fuel) ≫= fun _ =>
  on_console Com.print_init ≫= fun _ =>
  gdt_start im ≫= fun _ =>
  idt_init im ≫= fun _ =>
  b ← on_boot get;
  on_kern (on_vm (on_pm (pm_init (memory_map b)))) ≫= fun _ =>
  on_kern (on_vm vm_init) ≫= fun _ =>
  modify_irqs (Kbd.kbd_install (im_kbd_handler im)) ≫= fun _ =>
  timer_start im ≫= fun _ =>
  heap_start ≫= fun _ =>
  on_kern (syscall_install (int222 im) (int186 im) (int190 im) (rply_msg im) (send_msg im) (recv_msg im)) ≫= fun _ =>
  on_kern (proc_earlyinit (im_sy im)) ≫= fun _ =>
  on_kern (on_mem (Pci.pci_init cfg)) ≫= fun _ =>
  on_smp (smp_init pf (trampoline_start im) (trampoline_size im) (secondary_entry im) fuel).

Lemma kmain_split pf cfg initrd fuel s fr s' : kmain im pf cfg initrd fuel s = Ret fr s' ->
  exists s0, kmain_before_programs pf cfg fuel s = Ret tt s0 /\
    on_kern (start_processes (im_sy im) fuel initrd (essential_initrd_processes im)) s0 = Ret fr s'.
Proof.
  intros H. unfold kmain in H. step H x1 s1 H1. step H x2 s2 H2. step H x3 s3 H3. step H x4 s4 H4. step H b s5 H5.
  step H x6 s6 H6. step H x7 s7 H7. step H x8 s8 H8. step H x9 s9 H9. step H x10 s10 H10. step H x11 s11 H11.
  step H x12 s12 H12. step H x13 s13 H13. step H x14 s14 H14. destruct x14. exists s14. split; [|exact H]. clear H.
  unfold kmain_before_programs.
  rewrite (bind_Ret _ _ _ _ _ H1), (bind_Ret _ _ _ _ _ H2), (bind_Ret _ _ _ _ _ H3), (bind_Ret _ _ _ _ _ H4),
    (bind_Ret _ _ _ _ _ H5), (bind_Ret _ _ _ _ _ H6), (bind_Ret _ _ _ _ _ H7), (bind_Ret _ _ _ _ _ H8),
    (bind_Ret _ _ _ _ _ H9), (bind_Ret _ _ _ _ _ H10), (bind_Ret _ _ _ _ _ H11), (bind_Ret _ _ _ _ _ H12),
    (bind_Ret _ _ _ _ _ H13). exact H14.
Qed.

(** How the initialisations leave the tables, the registers and the
    processes. *)
Lemma before_programs_state pf cfg fuel s s' : fresh (pt (kern s)) ->
  kmain_before_programs pf cfg fuel s = Ret tt s' ->
  (exists q h, irqs_of (irq_handlers (tabs (kern s))) = Some q /\ ints_of (int_handlers (tabs (kern s))) = Some h /\
     wires (kern s') = (final_idt (Proc.idt (kern s)),
       IntTables (idt_init_isrs (im_screen_of_death im) (isr_handlers (tabs (kern s)))) q h, true)) /\
  (exists t, gdt_init (tss_addr im) (kernel_stack_top im) (gdt s) = Some (gdt s', t)) /\
  gdtr s' = gdt_install (gdt_addr im) /\ idtr s' = idt_install (idt_addr im) /\
  table_inv (pt (kern s')) /\ next_pid (pt (kern s')) = 2 /\ kernel_and_idle (im_sy im) (pt (kern s')).
Proof.
  intros Hf H. unfold kmain_before_programs in H.
  step H x1 s1 H1. apply on_boot_beside in H1 as [[Hw1 Hp1] Hg1].
  step H x2 s2 H2. apply on_console_beside in H2 as [[Hw2 Hp2] Hg2].
  step H x3 s3 H3. unfold gdt_start in H3. destruct (gdt_init _ _ _) as [[g t]|] eqn:Eg; [|discriminate H3].
  apply ret_inj in H3 as [_ E3]. rewrite <- E3 in *. clear E3 s3.
  step H x4 s4 H4. destruct x4. apply idt_init_inv in H4 as (Hw4 & Hp4 & Hg4 & Hi4). cbn [set_kern set_gdt set_tss kern gdt gdtr idtr Proc.idt tabs heap_initialized pt] in *.
  step H b s5 H5. apply on_boot_beside in H5 as [[Hw5 Hp5] Hg5].
  step H x6 s6 H6. apply on_kern_vm in H6 as [[Hw6 Hp6] Hg6].
  step H x7 s7 H7. apply on_kern_vm in H7 as [[Hw7 Hp7] Hg7].
  step H x8 s8 H8. unfold modify_irqs in H8. apply modify_tabs_inv in H8 as (t8 & Ht8 & Hw8 & Hp8 & Hg8).
  step H x9 s9 H9. destruct x9. apply timer_start_inv in H9 as (q & Hq & Hw9 & Hp9 & Hg9).
  step H x10 s10 H10. destruct x10. apply heap_start_inv in H10 as (Hw10 & Hp10 & Hg10).
  step H x11 s11 H11. destruct x11. apply syscall_install_inv in H11 as (h & Hh & Hw11 & Hp11 & Hg11).
  step H x12 s12 H12. destruct x12. apply on_kern_inv in H12 as [H12 Hg12].
  step H x13 s13 H13. apply on_kern_vm in H13 as [[Hw13 Hp13] Hg13].
  rename s' into s14. apply on_smp_beside in H as [[Hw14 Hp14] Hg14].
  assert (Hp : pt (kern s11) = pt (kern s)) by congruence.
  rewrite <- Hp in Hf. destruct (earlyinit_spawned _ _ _ Hf H12) as (HI12 & Hn12 & Hki & h' & Hh' & Hw12). clear H12.
  assert (Hi2 : Proc.idt (kern s2) = Proc.idt (kern s) /\ tabs (kern s2) = tabs (kern s)).
  { unfold wires in Hw2, Hw1. split; congruence. }
  destruct Hi2 as [Ei2 Et2]. rewrite Ei2, Et2 in Hw4.
  assert (Hw7' : wires (kern s7) = wires (kern s4)) by congruence. rewrite Hw4 in Hw7'. clear Hw4 Hw5 Hw6 Hw7 Hw1 Hw2.
  unfold wires in Hw7'. injection Hw7' as Ei7 Et7 _. rewrite Ei7 in Hw8. rewrite Et7 in Ht8.
  cbn [irq_handlers isr_handlers int_handlers] in Ht8. destruct (Kbd.kbd_install _ _) as [q8|] eqn:Eq8; [|done].
  injection Ht8 as <-. unfold wires in Hw8. injection Hw8 as Ei8 Et8 _. rewrite Et8 in Hq. rewrite Ei8, Et8 in Hw9.
  cbn [irq_handlers isr_handlers int_handlers] in Hq, Hw9. unfold wires in Hw9. injection Hw9 as Ei9 Et9 _.
  rewrite Ei9, Et9 in Hw10. unfold wires in Hw10. injection Hw10 as Ei10 Et10 Eh10. rewrite Et10 in Hh, Hw11. rewrite Ei10, Eh10 in Hw11.
  cbn [irq_handlers isr_handlers int_handlers] in Hh, Hw11. unfold wires in Hw11. injection Hw11 as Ei11 Et11 Eh11.
  rewrite Et11 in Hh', Hw12. rewrite Ei11, Eh11 in Hw12. cbn [irq_handlers isr_handlers int_handlers] in Hh', Hw12.
  split.
  { exists q, h'. unfold irqs_of, ints_of. unfold Kbd.kbd_install in Eq8. rewrite Eq8. split; [exact Hq|]. split.
    - apply bind_Some in Hh as (h1 & E1 & Hh). apply bind_Some in Hh as (h2 & E2 & Hh).
      apply bind_Some. exists h1. split; [exact E1|]. apply bind_Some. exists h2. split; [exact E2|].
      apply bind_Some. exists h. split; [exact Hh|exact Hh'].
    - rewrite Hw14, Hw13, Hw12. reflexivity. }
  assert (Hgd : (gdt s14, gdtr s14, idtr s14) = (gdt s4, gdtr s4, idtr s4))
    by (rewrite Hg14, Hg13, Hg12, Hg11, Hg10, Hg9, Hg8, Hg7, Hg6; exact Hg5).
  injection Hgd as G1 G2 G3. injection Hg4 as G4 G5.
  injection Hg1 as G6 _ _. injection Hg2 as G7 _ _.
  split; [exists t; by rewrite G1, G4, <- G6, <- G7|].
  split; [by rewrite G2|]. split; [by rewrite G3|].
  by rewrite Hp14, Hp13.
Qed.

Definition stub_ok (a : Z) : Prop := 0 <= a < 4294967296.

(** Where the processor enters for each vector in the end; 0 is no gate. *)
Definition entry_of (num : Z) : Z :=
  if num =? 127 then sym_int127 (im_sy im)
  else if num =? SYSCALL_RECV_MSG_VECTOR then int190 im
  else if num =? SYSCALL_SEND_MSG_VECTOR then int186 im
  else if num =? SYSCALL_RPLY_MSG_VECTOR then int222 im
  else if num <? 32 then isr im num else if num <? 48 then irq im (num - 32) else 0.

Record stubs_ok : Prop := {
  so_isr : forall j, stub_ok (isr im j);
  so_irq : forall j, stub_ok (irq im j);
  so_ints : Forall stub_ok [sym_int127 (im_sy im); int190 im; int186 im; int222 im];
}.

Lemma final_idt_gate t num : stubs_ok -> length t = 256%nat -> 0 <= num < 256 ->
  idt_get_gate num (final_idt t) = Some (entry_of num).
Proof.
  intros [Hi Hq Hs] Hl Hn. unfold final_idt, syscall_gates. change SYSCALL_RECV_MSG_VECTOR with 190.
  change SYSCALL_SEND_MSG_VECTOR with 186. change SYSCALL_RPLY_MSG_VECTOR with 222.
  assert (Hl0 : length (idt_init_gates (isr im) (irq im) t) = 256%nat)
    by (unfold idt_init_gates; by rewrite !set_gates_length, repeat_length).
  inversion Hs as [|? ? S1 Hs1]; subst. inversion Hs1 as [|? ? S2 Hs2]; subst. inversion Hs2 as [|? ? S3 Hs3]; subst.
  inversion Hs3 as [|? ? S4 _]; subst. unfold stub_ok in *.
  rewrite !set_gate_get by (unfold idt_set_gate; rewrite ?zupdate_length; done || lia).
  rewrite idt_init_gates_lead by done. unfold entry_of. change SYSCALL_RECV_MSG_VECTOR with 190.
  change SYSCALL_SEND_MSG_VECTOR with 186. change SYSCALL_RPLY_MSG_VECTOR with 222.
  repeat case_decide; subst; try reflexivity.
  destruct (Z.eqb_spec num 127); [done|]. destruct (Z.eqb_spec num 190); [done|].
  destruct (Z.eqb_spec num 186); [done|]. by destruct (Z.eqb_spec num 222).
Qed.

(** The handlers of the vectors from 48 on *)
Lemma int_install_get num num' v t t' : 48 <= num < 256 -> 48 <= num' < 256 -> length t = 208%nat ->
  int_install_handler num v t = Some t' ->
  length t' = 208%nat /\ zlookup t' (num' - 48) = if decide (num' = num) then Some v else zlookup t (num' - 48).
Proof.
  intros Hn Hn' Hl H. unfold int_install_handler in H. destruct (Z.leb_spec 48 num); [|lia].
  destruct (zlookup t (num - 48)); [|done]. injection H as <-. rewrite zupdate_length. split; [done|].
  case_decide as Hd; [subst; by apply zlookup_zupdate_eq; lia|by apply zlookup_zupdate_ne; lia].
Qed.

Lemma ints_of_get t h : length t = 208%nat -> ints_of t = Some h ->
  zlookup h (127 - 48) = Some (sym_proc_schedule_after_irq (im_sy im)) /\
  zlookup h (SYSCALL_SEND_MSG_VECTOR - 48) = Some (send_msg im) /\
  zlookup h (SYSCALL_RECV_MSG_VECTOR - 48) = Some (recv_msg im) /\
  zlookup h (SYSCALL_RPLY_MSG_VECTOR - 48) = Some (rply_msg im).
Proof.
  intros Hl H. unfold ints_of in H. apply bind_Some in H as (h1 & H1 & H). apply bind_Some in H as (h2 & H2 & H).
  apply bind_Some in H as (h3 & H3 & H).
  assert (Hget : forall num', 48 <= num' < 256 -> zlookup h (num' - 48) =
    if decide (num' = 127) then Some (sym_proc_schedule_after_irq (im_sy im))
    else if decide (num' = SYSCALL_RECV_MSG_VECTOR) then Some (recv_msg im)
    else if decide (num' = SYSCALL_SEND_MSG_VECTOR) then Some (send_msg im)
    else if decide (num' = SYSCALL_RPLY_MSG_VECTOR) then Some (rply_msg im) else zlookup t (num' - 48)).
  { intros num' Hn.
    destruct (int_install_get SYSCALL_RPLY_MSG_VECTOR num' _ _ _ ltac:(done) Hn Hl H1) as [L1 E1].
    destruct (int_install_get SYSCALL_SEND_MSG_VECTOR num' _ _ _ ltac:(done) Hn L1 H2) as [L2 E2].
    destruct (int_install_get SYSCALL_RECV_MSG_VECTOR num' _ _ _ ltac:(done) Hn L2 H3) as [L3 E3].
    destruct (int_install_get 127 num' _ _ _ ltac:(done) Hn L3 H) as [_ E4]. by rewrite E4, E3, E2, E1. }
  by rewrite !Hget by done.
Qed.

Lemma irqs_of_get t q : length t = 16%nat -> irqs_of t = Some q ->
  zlookup q 0 = Some (IrqEntry (im_timer_handler im) 0) /\ zlookup q 1 = Some (IrqEntry (im_kbd_handler im) 0).
Proof.
  intros Hl H. do 16 (destruct t as [|? t]; [done|]). destruct t; [|done]. by injection H as <-.
Qed.
End Tables.

(** ** A start with the four essential processes

    Their archive is at 0x40000, their names from 0x9000 on; the firmware has
    no configuration table. *)

Definition chars (l : list Z) : list byte := map byte.of_Z l.
Definition screen_nm : list byte := chars [115; 99; 114; 101; 101; 110].
Definition kbd_nm : list byte := chars [107; 98; 100].
Definition shell_nm : list byte := chars [115; 104; 101; 108; 108].
Definition angle_nm : list byte := chars [97; 110; 103; 108; 101].

Definition initrd_image : list byte :=
  create (map (fun nm => Input nm (Some (chars [1; 2; 3; 4]))) [screen_nm; kbd_nm; shell_nm; angle_nm]).

Definition boot_phys : gmap Z byte :=
  pwrite 262144 initrd_image (pwrite 36864 (screen_nm ++ [Byte.x00])
    (pwrite 36880 (kbd_nm ++ [Byte.x00]) (pwrite 36896 (shell_nm ++ [Byte.x00])
       (pwrite 36912 (angle_nm ++ [Byte.x00]) (pwrite 654336 MP_MAGIC k_phys))))).

Definition area (base len type : Z) : memory_map_entry := Build_memory_map_entry base 0 len 0 type 1.
Definition s_boot : sys :=
  Sys (Kst (Vmst (Machine boot_phys 1048576 []) (Pm [] 0)) false (Tss 0 0 0 0 0 0 0 0)
         (repeat (IdtEntry 0 0 0 0 0) 256) (IntTables (repeat 0 32) (repeat (IrqEntry 0 0) 16) (repeat 0 208))
         (PTable (repeat proc0 64) 0 None None false 0))
      (Bootinfo (area 4194304 67108864 1 :: repeat (area 0 0 2) 63) 0)
      (repeat (GdtEntry 0 0 0 0 0 0 0) 6) (0, 0) (0, 0) 0 (Vga.Vga (Text (repeat 0 2000) 0 0) 0)
      (Smpst (Vmst (Machine ∅ 0 []) (Pm [] 0)) 0 0 [] 0 []).

Definition im0 : image :=
  Image k_syms 1048576 65536 2088960 65536 66560 67584 (fun i => 1048576 + i mod 32 * 16) (fun i => 1049088 + i mod 16 * 16)
    1050000 1050016 1050032 1051000 1051200 1051400 1052000 1052200 1052400 1053000 64 1054000
    [36864; 36880; 36896; 36912].
Definition no_smp : platform := Platform (fun _ => false) (fun _ _ _ => 0) (fun _ _ => 0).

(** The processes of a table: pid, name, privilege, where the image is and its
    size *)
Definition summary (t : ptable) : list (Z * list byte * bool * Z * Z) :=
  map (fun p => (pid p, cname (name p), privileged p, loc_address p, loc_size p))
      (filter (fun p => state p <> PROC_UNUSED) (procs t)).

Definition started : list (Z * list byte * bool * Z * Z) :=
  [(0, chars [107; 101; 114; 110; 101; 108], true, 131328, 0); (1, chars [105; 100; 108; 101], true, 131584, 0);
   (2, screen_nm, false, 266240, 4); (3, kbd_nm, false, 270336, 4);
   (4, shell_nm, false, 274432, 4); (5, angle_nm, false, 278528, 4)].

Lemma outcome_Ret {S A} (o : outcome S A) (P : A -> S -> Prop) :
  match o with Ret a s => P a s | _ => False end -> exists a s, o = Ret a s /\ P a s.
Proof. destruct o; try done. eauto. Qed.

Definition start_result (fr : iret_frame) (s : sys) : Prop :=
  summary (pt (kern s)) = started /\ fr = IretFrame 278528 SEG_UCODE 512 VM_USER_STACK_ADDR SEG_UDATA SEG_UDATA.

Lemma start_evaluates :
  match kmain im0 no_smp (fun _ => 0) 262144 200 s_boot with Ret fr s => start_result fr s | _ => False end.
Proof. vm_compute. split; reflexivity. Qed.

(** The static tables have the sizes of their declarations. *)
Record tables_sized (k : kst) : Prop := {
  sz_idt : length (Proc.idt k) = 256%nat;
  sz_irqs : length (irq_handlers (tabs k)) = 16%nat;
  sz_ints : length (int_handlers (tabs k)) = 208%nat;
}.

(** C6: What a start that gets to the first process leaves, whatever memory
    map, archive and devices it found: every vector of the processor leads to
    the stub meant for it and no other gate is open, the timer, the keyboard,
    the scheduler and the three message calls have their handlers, and the
    exceptions lead to screen_of_death; the descriptor tables are set up and
    loaded, the heap serves.  The process table has its invariant and holds
    2 + n processes: the kernel process, which starts at msg_dispatcher; the
    one of idle's slot, which starts at proc_idle; and for each essential
    program, in the order of the list, one unprivileged process whose image
    is where the archive's entry of that name says and whose name is a copy
    of the program's, both as memory stands once the programs before it are
    loaded.  The last one runs and the others are ready; the processor
    enters it in ring 3, in its own address space and with its own kernel
    stack, at the entry point of its image, with the user stack and interrupts
    on; scheduling is on. *)
Theorem kmain_starts im pf cfg initrd fuel s fr s' :
  stubs_ok im -> tables_sized (kern s) -> fresh (pt (kern s)) -> essential_initrd_processes im <> [] ->
  kmain im pf cfg initrd fuel s = Ret fr s' ->
  let k := kern s' in let names := essential_initrd_processes im in let n := Z.of_nat (length names) in
  (forall num, 0 <= num < 256 -> idt_get_gate num (Proc.idt k) = Some (entry_of im num)) /\
  (zlookup (irq_handlers (tabs k)) 0 = Some (IrqEntry (im_timer_handler im) 0) /\
   zlookup (irq_handlers (tabs k)) 1 = Some (IrqEntry (im_kbd_handler im) 0)) /\
  (zlookup (int_handlers (tabs k)) (127 - 48) = Some (sym_proc_schedule_after_irq (im_sy im)) /\
   zlookup (int_handlers (tabs k)) (SYSCALL_SEND_MSG_VECTOR - 48) = Some (send_msg im) /\
   zlookup (int_handlers (tabs k)) (SYSCALL_RECV_MSG_VECTOR - 48) = Some (recv_msg im) /\
   zlookup (int_handlers (tabs k)) (SYSCALL_RPLY_MSG_VECTOR - 48) = Some (rply_msg im)) /\
  isr_handlers (tabs k) = idt_init_isrs (im_screen_of_death im) (isr_handlers (tabs (kern s))) /\
  (exists t, gdt_init (tss_addr im) (kernel_stack_top im) (gdt s) = Some (gdt s', t)) /\
  gdtr s' = gdt_install (gdt_addr im) /\ idtr s' = idt_install (idt_addr im) /\ heap_initialized k = true /\
  table_inv (pt k) /\ next_pid (pt k) = 2 + n /\ scheduling_enabled (pt k) = true /\
  kernel_and_idle (im_sy im) (pt k) /\
  exists s0, kmain_before_programs im pf cfg fuel s = Ret tt s0 /\
    (forall j nm, names !! j = Some nm -> exists kj addr size i p,
       load_processes (im_sy im) fuel initrd (take j names) true (kern s0) = Ret true kj /\
       in_archive fuel initrd nm kj addr size /\
       zlookup (procs (pt k)) i = Some p /\ runs p (2 + Z.of_nat j) false addr size /\
       name_read (im_sy im) nm kj = Some (take 32 (name p)) /\
       state p = if decide (S j = length names) then PROC_RUNNING else PROC_READY) /\
    exists kl k1 i p, load_processes (im_sy im) fuel initrd names true (kern s0) = Ret true kl /\
      current_proc (pt k) = Some i /\ zlookup (procs (pt k)) i = Some p /\
      pid p = 1 + n /\ state p = PROC_RUNNING /\ privileged p = false /\
      set_cr3 (pdir p) (mach (vm kl)) = Ret tt (mach (vm k1)) /\
      esp0 (tss k) = kstack p /\ ss0 (tss k) = SEG_KDATA /\
      enters p k1 fr /\ ir_cs fr = SEG_UCODE /\ ir_ss fr = SEG_UDATA.
Proof.
  intros Hs [Z1 Z2 Z3] Hf Hne H k names n. apply kmain_split in H as (s0 & Hb & H).
  destruct (before_programs_state im pf cfg fuel s s0 Hf Hb)
    as ((q & h & Hq & Hh & Hw) & Hg & Hgr & Hir & HI & Hn2 & Hki).
  apply on_kern_inv in H as [H [= G1 G2 G3]]. fold k in H. rewrite G1, G2, G3.
  destruct (start_runs _ _ _ _ _ _ _ HI Hki Hn2 Hne H) as (Hwk & A1 & A2 & A3 & A4 & A5 & A6).
  rewrite Hw in Hwk. unfold wires in Hwk. injection Hwk as Ei Et Eh. rewrite Ei, Et, Eh.
  cbn [isr_handlers irq_handlers int_handlers].
  split; [intros num Hnum; by apply final_idt_gate|]. split; [by apply (irqs_of_get im _ _ Z2)|].
  split; [by apply (ints_of_get im _ _ Z3)|]. split_and!; try done. by exists s0.
Qed.

(** The start above gets there, with the six processes one expects. *)
Lemma kmain_starts_witness : exists fr s', kmain im0 no_smp (fun _ => 0) 262144 200 s_boot = Ret fr s' /\
  idt_get_gate 33 (Proc.idt (kern s')) = Some 1049104 /\ next_pid (pt (kern s')) = 6 /\
  summary (pt (kern s')) = started /\ ir_eip fr = 278528 /\
  exists i p addr size, zlookup (procs (pt (kern s'))) i = Some p /\ runs p 4 false addr size /\ state p = PROC_READY.
Proof.
  assert (A1 : stubs_ok im0).
  { split; [intros j; unfold stub_ok; cbn [isr im0]; zdm|intros j; unfold stub_ok; cbn [irq im0]; zdm|].
    repeat (constructor; [split; [discriminate|reflexivity]|]). constructor. }
  assert (A2 : tables_sized (kern s_boot)) by (split; reflexivity).
  assert (A3 : fresh (pt (kern s_boot))) by (split; reflexivity).
  assert (A4 : essential_initrd_processes im0 <> []) by discriminate.
  destruct (outcome_Ret (kmain im0 no_smp (fun _ => 0) 262144 200 s_boot) start_result start_evaluates) as (fr & s' & H & Es & Ef). exists fr, s'. split; [exact H|].
  pose proof (kmain_starts im0 no_smp (fun _ => 0) 262144 200 s_boot fr s' A1 A2 A3 A4 H) as K.
  cbv zeta in K. destruct K as (Hg & _ & _ & _ & _ & _ & _ & _ & _ & Hn & _ & _ & s0 & _ & Hj & _).
  specialize (Hg 33 ltac:(lia)). change (entry_of im0 33) with 1049104 in Hg.
  split; [exact Hg|]. split; [rewrite Hn; reflexivity|]. split; [exact Es|]. split; [by rewrite Ef|].
  destruct (Hj 2%nat 36896 eq_refl) as (kj & addr & size & i & p & _ & _ & Hp & Hr & _ & Hst).
  exists i, p, addr, size. split; [exact Hp|]. split; [exact Hr|exact Hst].
Defined.
End Boot.
